(* ===== verification/_CoqProject ===== *)
-Q . S2P
Prelude.v
CString.v
Printf.v
Ulib.v
State.v
Spinlock.v
Proc.v
Sched.v
Kalloc.v
Vm.v
PageTable.v
UserCopy.v
Ring.v
Pipe.v
Console.v
Sleeplock.v
Bytes.v
Virtio.v
Bio.v
BufCache.v
Log.v
Recovery.v
CrashSafety.v
Fs.v
FileData.v
Itable.v
Alloc.v
Inodes.v
FileWrite.v
Paths.v
Mkfs.v
File.v
ProcLife.v
Exec.v
ExecStack.v
SysArg.v
SysFile.v
FileRefs.v
Syscall.v
Tracing.v
Trap.v
Main.v
Asm.v
Umalloc.v
Regexp.v
UserText.v
Shell.v
UserProg.v
ShellRun.v
