(* ===== verification/Prelude.v ===== *)
(** * A verification development for this version of xv6

    The repository is the xv6 teaching kernel for RISC-V with four scheduling
    policies, system-call tracing and [waitx] added. This library translates the C
    code into executable definitions and proves what makes the parts correct.

    ** The program

    Processes ([kernel/proc.c]) run on harts under one of the policies RR, FCFS, PBS
    and MLFQ (with the last two the kernel does not compile as the source stands, see
    [Sched]); they enter the kernel through traps ([kernel/trap.c]), which dispatch
    system calls ([kernel/syscall.c], [sysproc.c], [sysfile.c]). The kernel keeps its
    pages in a free list ([kalloc.c]) and maps them in page tables ([vm.c]). Files
    are inodes ([fs.c]) in blocks that a cache of buffers ([bio.c]) holds; a
    log ([log.c]) makes the writes of an operation atomic; the disk is reached
    through a virtio queue ([virtio_disk.c]). Pipes, the console and the UART have
    ring buffers. Spin locks and sleep locks protect all of it. [mkfs] builds the
    first disk image on the host. A hart starts in machine mode ([start.c]); a little
    assembly enters and leaves the kernel and switches threads. The user programs are
    the shell, [init], [malloc] and some utilities.

    ** How code becomes definitions

    The kernel's global variables are one record, [kst] of [State], with a record for
    each struct. A C function that returns [A] is of type [M kst A]: from a state to
    an [outcome], which is a result, a panic, a thread that cannot go on, undefined
    behaviour, or a loop of the model out of fuel. [let!] and [;;;] are sequencing.
    Integers are [Z] with the wrap-around of their width written out ([u8] to [u64],
    [i16], [i32]). Four [int]s that count what exists at one time are left unbounded: the
    depth of [push_off], the operations in the log, the references to an inode and to an
    open file; none gets near 2^31 with the tables and stacks of this kernel. Pointers into an array are indices, an access outside is
    undefined. Physical memory is a map from addresses to bytes; page tables, the
    free list and user data live in it.

    A thread that calls [sched] gives the machine to others: the class [Env] is a
    function from the state left to the state found, and [EnvOk] what the others
    keep. What is not code of the repository is a class with laws, each with an
    instance in the file that uses it: the virtio device ([BlockDev], [BlockDevOk]),
    the UART ([UartDev]), the layout of the kernel image ([Layout], [LayoutOk]),
    uninitialised memory ([Indet]), [read] and [write] as programs see them ([Sys],
    [SysOk], [Files]), the host's files for [mkfs] ([Host]), the memory that [sbrk]
    grants ([UHeap]).

    The code outside the kernel has states of its own for the same monad: the image
    that [mkfs] writes, the heap of [malloc], the input and output of a utility. A
    program that does little but call the kernel is a tree of system calls
    ([UserProg]); a semantics for descriptors and processes ([ShellRun]) runs it.
    Assembly is a list of instructions over the registers and the memory of a
    hart ([Asm]).

    ** The files

    - [Prelude]: this file. [CString], [Printf], [Ulib]: [kernel/string.c], both
      [printf.c], [user/ulib.c]: the routines are correct for all overlaps and
      lengths, and printing and reading numbers are inverse.
    - [State]: the structs and the global state. [Spinlock]: [spinlock.c], once as
      operations on [kst] and once, in the Module [Fine], as a step relation that
      interleaves the instructions of several harts, where mutual exclusion is an
      invariant of every reachable state.
    - [Proc], [Sched], [ProcLife]: [proc.c]. [sleep] and [wakeup]; a turn of the
      schedulers: round robin dispatches every runnable process once, provided that
      each gives the hart back ([RunOk]), the PBS and MLFQ
      choices are best under their orders, and FCFS and PBS leave the process table
      (a bug); creation and end of processes.
    - [Kalloc]: no page is lost or handed out twice. [Vm], [PageTable], [UserCopy]:
      [mappages] refines an update of a map from virtual pages to entries; [copyin]
      and [copyout] move exactly the bytes a user program sees.
    - [Ring], [Pipe], [Console]: the ring buffers refine queues and a line editor,
      across wrap-around of their counters.
    - [Sleeplock], [Virtio], [Bio], [BufCache]: a disk request is served completely;
      the cache is a coherent view of the disk.
    - [Log], [Recovery], [CrashSafety]: [commit] is atomic: after any prefix of its
      disk writes the next boot finds all or none of a transaction; [log_write] and
      [end_op]; more is admitted than a log can hold (a bug).
    - [Bytes], [Fs]: [fs.c]. [FileData]: [readi]. [Itable]: [iget] and [dirlookup].
      [Alloc]: [balloc] and [bfree], with the rules for the cache inside a
      transaction. [Inodes]: [iupdate] and [ilock] are inverse, and what [ilock] reads is
      what the bytes mean as a [struct dinode]. [FileWrite]: [writei] over existing data changes
      exactly the bytes of its range, inside the transaction. [Paths]: [skipelem].
    - [Mkfs]: [mkfs.c]; on the image it builds the kernel's definitions find the super
      block, the bitmap, the inodes and the files as it meant them (but for a root
      directory of certain sizes, a bug).
    - [File], [Exec], [ExecStack]: the file table and [exec.c]; the arguments of a new
      program stay on its stack and arrive complete.
    - [SysArg], [SysFile], [Syscall], [Tracing], [Trap], [Main]: system calls, traps and
      booting; what is traced (more than was asked for, a bug). [FileRefs]: reference
      counts of open files are the numbers of descriptors on them, through [dup],
      [close] and [fork].
    - [Asm]: the assembly, [start.c] and [plic.c]. A trap from user space and back, a
      trap in the kernel, a timer interrupt and a switch of threads each restore the
      registers they must; [start] sets the hart up for them.
    - [Umalloc]: [malloc] and [free] keep the heap in order and hand out disjoint blocks,
      for requests that make the heap grow by less than 2^31 bytes (larger ones overflow,
      a bug).
    - [Regexp], [UserText], [Shell]: grep's matcher against the language of its
      patterns, grep (on lines that fit its buffer), wc, cat and echo however [read] cuts
      their input, and the shell's parser with a printer it inverts.
    - [UserProg], [ShellRun]: the rest of the shell, [init], [ls] and the small
      utilities as trees of system calls; the shell connects the commands of any line
      as the line says, and nobody else holds the ends of a pipe.

    ** Fuel

    A loop that is not structural takes a number of turns. It is computed from the
    data where the code's own bound gives it, and the theorems show it to be enough:
    the pages of a range ([mappages_loop]), [NUM + 1] for a chain of descriptors, the
    length of a path, of the input of a program, or of a line ([4 n + 4] calls for
    the shell's parser), the blocks of a write or of an appended file, the free
    blocks of a heap. The main loops of the shell, of [init] and of [ls] take the
    number of lines, of restarts and of entries; more turns than bytes of input are
    enough for the shell. Loops that end when other threads act ([sleep] in a loop)
    take the fuel of the class [Fuel]; the theorems about them need one turn, in
    states where the thread is not made to wait again.

    ** What the theorems assume

    The theorems on the file system are about one operation at a time: the process
    that runs holds no spin lock, and while it waits for the disk only the device
    acts. [readi] and [writei] are for a file without holes and for kernel addresses; the
    user side of a copy is [UserCopy]. Interleavings of several harts are covered for spin
    locks only. The
    semantics of descriptors in [ShellRun] is a specification of the system calls it
    names; [FileRefs] proves of the kernel that a new descriptor is the lowest one
    that is free and that [fork] copies descriptors.

    ** Not modelled

    - [initcode.S], which is in the kernel as bytes, and the stubs that [usys.pl]
      generates. [consoleinit], [trapinit] and the other functions that only name a
      lock or connect a device. That some control registers are views of others.
    - The loops of the MLFQ scheduler that move processes between queues: they do
      not parse, an [else] there has no [if].
    - [ramdisk.c], which is not linked, and the test programs.
    - [File] and [SysFile] but for references, [ProcLife], [Exec] but for its
      arguments, [SysArg], [Syscall] but for tracing, [Trap], [Main] and the programs
      of [UserProg] but for the shell and [init] are definitions of the whole code
      without theorems of their own. *)

From stdpp Require Export base tactics list list_numbers gmap strings numbers option sets.
From Stdlib Require Export ZArith Lia.

(** ** This file

    The result type and the state monad, its notation and its weakest
    preconditions; C integers at their widths; bytes and little-endian words;
    generic lemmas on lists and numbers; tactics and hint databases. *)

#[global] Open Scope Z_scope.

(** ** Results of a piece of kernel code

    [Done a s]: the code returned [a] in state [s].
    [Panic msg s]: it called [panic(msg)].
    [Blocked s]: it went to sleep (or spins) and cannot go on from [s] before
    another thread acts.
    [Undef]: undefined behaviour of C (an access outside an object).
    [NoFuel]: a bounded loop of the model ran out of iterations; the theorems
    show where it does not happen. *)
Inductive outcome (St A : Type) : Type :=
| Done (a : A) (s : St)
| Panic (msg : string) (s : St)
| Blocked (s : St)
| Undef
| NoFuel.
Arguments Done {St A} a s.
Arguments Panic {St A} msg s.
Arguments Blocked {St A} s.
Arguments Undef {St A}.
Arguments NoFuel {St A}.

Definition M (St A : Type) : Type := St -> outcome St A.

Definition ret {St A} (a : A) : M St A := fun s => Done a s.

Definition bind {St A B} (m : M St A) (k : A -> M St B) : M St B := fun s =>
  match m s with
  | Done a s' => k a s'
  | Panic msg s' => Panic msg s'
  | Blocked s' => Blocked s'
  | Undef => Undef
  | NoFuel => NoFuel
  end.

Definition get {St} : M St St := fun s => Done s s.
Definition gets {St A} (f : St -> A) : M St A := fun s => Done (f s) s.
Definition modify {St} (f : St -> St) : M St unit := fun s => Done tt (f s).
Definition panic {St A} (msg : string) : M St A := fun s => Panic msg s.
Definition block {St A} : M St A := fun s => Blocked s.
Definition undef {St A} : M St A := fun _ => Undef.
Definition nofuel {St A} : M St A := fun _ => NoFuel.

Declare Scope xv6_scope.
Delimit Scope xv6_scope with xv6.
Notation "'let!' x := m 'in' k" := (bind m (fun x => k))
  (at level 10, x pattern, m at level 100, k at level 200) : xv6_scope.
Notation "m ';;;' k" := (bind m (fun _ => k))
  (at level 199, right associativity) : xv6_scope.
#[global] Open Scope xv6_scope.

(** [if(c) m;] *)
Definition when {St} (c : bool) (m : M St unit) : M St unit :=
  if c then m else ret tt.

(** A value the code must have, for instance an element of an array. *)
Definition must {St A} (o : option A) : M St A :=
  match o with Some a => ret a | None => undef end.

(** [for(x in l) body(x);] *)
Fixpoint for_each {St X} (l : list X) (body : X -> M St unit) : M St unit :=
  match l with
  | [] => ret tt
  | x :: l' => body x ;;; for_each l' body
  end.

(** A loop over [l] whose body may leave it ([Some r]: break or return). *)
Fixpoint for_find {St X R} (l : list X) (body : X -> M St (option R)) : M St (option R) :=
  match l with
  | [] => ret None
  | x :: l' =>
      let! r := body x in
      match r with Some v => ret (Some v) | None => for_find l' body end
  end.

(** A general loop: the body returns the next loop state or leaves. *)
Fixpoint loop {St X R} (fuel : nat) (body : X -> M St (X + R)) (x : X) : M St R :=
  match fuel with
  | O => nofuel
  | S fuel' =>
      let! r := body x in
      match r with inl x' => loop fuel' body x' | inr v => ret v end
  end.

(** A bound on the turns of the loops that wait for another thread. Nothing in the
    program bounds them; the theorems about such a loop say how many turns it makes. *)
Class Fuel : Type := fuel : nat.

(** Running a component's code inside a larger state. *)
Definition zoom {St T A} (getp : St -> T) (setp : T -> St -> St) (m : M T A) : M St A := fun s =>
  match m (getp s) with
  | Done a t => Done a (setp t s)
  | Panic msg t => Panic msg (setp t s)
  | Blocked t => Blocked (setp t s)
  | Undef => Undef
  | NoFuel => NoFuel
  end.

(** ** Weakest preconditions

    [wp m Q s]: run from [s], [m] returns (no panic, no blocking, no undefined
    behaviour, no lack of fuel) in a state and with a value that satisfy [Q]. *)
Definition wp {St A} (m : M St A) (Q : A -> St -> Prop) (s : St) : Prop :=
  match m s with Done a s' => Q a s' | _ => False end.

Section wp.
Context {St : Type}.

Lemma wp_ret {A} (a : A) Q (s : St) : Q a s -> wp (ret a) Q s.
Proof. done. Qed.

Lemma wp_bind {A B} (m : M St A) (k : A -> M St B) Q s :
  wp m (fun a s' => wp (k a) Q s') s -> wp (bind m k) Q s.
Proof. unfold wp, bind. destruct (m s); done. Qed.
Lemma wp_seq3 {A B C R} (m1 : M St A) (m2 : M St B) (m3 : M St C) (k : M St R) Q s :
  wp (m1 ;;; m2 ;;; m3) (fun _ s' => wp k Q s') s -> wp (m1 ;;; m2 ;;; m3 ;;; k) Q s.
Proof. unfold wp, bind. destruct (m1 s) as [? s1| | | |]; try done. destruct (m2 s1) as [? s2| | | |]; try done. destruct (m3 s2); done. Qed.

Lemma wp_gets {A} (f : St -> A) Q s : Q (f s) s -> wp (gets f) Q s.
Proof. done. Qed.

Lemma wp_modify f Q (s : St) : Q tt (f s) -> wp (modify f) Q s.
Proof. done. Qed.

Lemma wp_mono {A} (m : M St A) (P Q : A -> St -> Prop) s :
  wp m P s -> (forall a s', P a s' -> Q a s') -> wp m Q s.
Proof. unfold wp. destruct (m s); naive_solver. Qed.

Lemma wp_done {A} (m : M St A) Q s :
  wp m Q s <-> exists a s', m s = Done a s' /\ Q a s'.
Proof.
  unfold wp. destruct (m s); split; try done; try (by intros (? & ? & [=] & _)).
  - by eauto.
  - by intros (? & ? & [= -> ->] & ?).
Qed.

Lemma wp_when c (m : M St unit) Q s :
  (c = true -> wp m Q s) -> (c = false -> Q tt s) -> wp (when c m) Q s.
Proof. destruct c; naive_solver. Qed.

(** The invariant rule for [for_each]: [I done s] with [done] the part of the
    list already treated. *)
Lemma wp_for_each {X} (l : list X) body (I : list X -> St -> Prop) Q s :
  I [] s ->
  (forall pre x suf s', l = pre ++ x :: suf -> I pre s' ->
     wp (body x) (fun _ => I (pre ++ [x])) s') ->
  (forall s', I l s' -> Q tt s') ->
  wp (for_each l body) Q s.
Proof.
  intros H0 Hstep Hend.
  assert (forall suf pre s', l = pre ++ suf -> I pre s' -> wp (for_each suf body) Q s') as G.
  { induction suf as [|x suf IH]; intros pre s' -> HI; simpl.
    - apply wp_ret, Hend. by rewrite app_nil_r.
    - apply wp_bind. eapply wp_mono; [by eapply Hstep|]. simpl. intros _ s'' HI'.
      eapply IH; [|done]. by rewrite <- app_assoc. }
  by eapply (G l []).
Qed.
End wp.

(** A search whose body only looks. *)
Fixpoint find_some {X R} (f : X -> option R) (l : list X) : option R :=
  match l with
  | [] => None
  | x :: l' => match f x with Some r => Some r | None => find_some f l' end
  end.

Lemma for_find_pure {St X R} (body : X -> M St (option R)) f l s :
  (forall x, x ∈ l -> body x s = Done (f x) s) -> for_find l body s = Done (find_some f l) s.
Proof.
  induction l as [|x l IH]; intros Hb; simpl; [done|]. unfold bind.
  rewrite Hb by set_solver. destruct (f x); [done|]. apply IH. set_solver.
Qed.

Lemma find_some_spec {X R} (f : X -> option R) l :
  match find_some f l with
  | Some r => exists pre x suf, l = pre ++ x :: suf /\ f x = Some r /\ forall y, y ∈ pre -> f y = None
  | None => forall y, y ∈ l -> f y = None
  end.
Proof.
  induction l as [|x l IH]; simpl; [set_solver|]. destruct (f x) eqn:E.
  - exists [], x, l. set_solver.
  - destruct (find_some f l) as [r|]; [|set_solver].
    destruct IH as (pre & z & suf & -> & Hz & Hpre). exists (x :: pre), z, suf. set_solver.
Qed.

(** Updating the element at an index that exists. *)
Lemma alter_as_insert {X} (f : X -> X) i (l : list X) x : l !! i = Some x -> alter f i l = <[i := f x]> l.
Proof.
  intros Hi. pose proof (lookup_lt_Some _ _ _ Hi). apply list_eq. intros j. rewrite list_lookup_alter.
  case_decide as E; [subst j; by rewrite Hi, list_lookup_insert_eq|by rewrite list_lookup_insert_ne].
Qed.

Create HintDb xv6.
Create Rewrite HintDb xv6.
#[export] Hint Resolve wp_ret wp_gets wp_modify : xv6.

(** One step of symbolic execution. *)
Ltac wp_step :=
  lazymatch goal with
  | |- wp (bind _ _) _ _ => apply wp_bind
  | |- wp (ret _) _ _ => apply wp_ret
  | |- wp (gets _) _ _ => apply wp_gets
  | |- wp (modify _) _ _ => apply wp_modify
  end.
Ltac wp_steps := repeat (wp_step; cbn beta).

(** Unfolds the monad, so that the code becomes nested matches on results. *)
Ltac mrun := cbv beta iota delta [bind ret get gets modify when must panic undef block nofuel].

(** ** C integers *)

Definition u8 (z : Z) : Z := z mod 2^8.
Definition u16 (z : Z) : Z := z mod 2^16.
Definition u32 (z : Z) : Z := z mod 2^32.
Definition u64 (z : Z) : Z := z mod 2^64.
(** Conversion to a signed type keeps the value modulo its width. *)
Definition i16 (z : Z) : Z := (z + 2^15) mod 2^16 - 2^15.
Definition i32 (z : Z) : Z := (z + 2^31) mod 2^32 - 2^31.

(** Linear arithmetic with division and remainder by constants. *)
Ltac zlia := Z.div_mod_to_equations; lia.
Ltac word := unfold u8, u16, u32, u64, i16, i32 in *; zlia.

Lemma u32_small z : 0 <= z < 2^32 -> u32 z = z.
Proof. intros; unfold u32; apply Z.mod_small; lia. Qed.
Lemma u64_small z : 0 <= z < 2^64 -> u64 z = z.
Proof. intros; unfold u64; apply Z.mod_small; lia. Qed.
Lemma u8_small z : 0 <= z < 2^8 -> u8 z = z.
Proof. intros; unfold u8; apply Z.mod_small; lia. Qed.
Lemma i32_small z : -2^31 <= z < 2^31 -> i32 z = z.
Proof. intros; word. Qed.
Lemma u32_range z : 0 <= u32 z < 2^32.
Proof. unfold u32; apply Z.mod_pos_bound; lia. Qed.
Lemma u64_range z : 0 <= u64 z < 2^64.
Proof. unfold u64; apply Z.mod_pos_bound; lia. Qed.
Lemma i32_range z : -2^31 <= i32 z < 2^31.
Proof. word. Qed.
Lemma u8_range z : 0 <= u8 z < 2^8.
Proof. unfold u8; apply Z.mod_pos_bound; lia. Qed.
Lemma u32_add_l a b : u32 (u32 a + b) = u32 (a + b).
Proof. unfold u32. apply Zplus_mod_idemp_l. Qed.
Lemma u32_sub_l a b : u32 (u32 a - b) = u32 (a - b).
Proof. unfold u32. apply Zminus_mod_idemp_l. Qed.
Lemma u32_sub_r a b : u32 (a - u32 b) = u32 (a - b).
Proof. unfold u32. apply Zminus_mod_idemp_r. Qed.
(** A counter that wraps at [2^32] still indexes a ring whose size divides it. *)
Lemma u32_mod_ring a k : 0 <= k <= 32 -> u32 a mod 2^k = a mod 2^k.
Proof.
  intros Hk. unfold u32. apply Z.mod_mod_divide.
  exists (2^(32-k)). rewrite <- Z.pow_add_r by lia. f_equal. lia.
Qed.
Lemma u64_mod_ring a k : 0 <= k <= 64 -> u64 a mod 2^k = a mod 2^k.
Proof.
  intros Hk. unfold u64. apply Z.mod_mod_divide.
  exists (2^(64-k)). rewrite <- Z.pow_add_r by lia. f_equal. lia.
Qed.

#[export] Hint Rewrite u32_add_l u32_sub_l u32_sub_r : xv6.
#[export] Hint Resolve u32_range u64_range u8_range i32_range : xv6.

(** ** Bytes and strings *)

(** A C string literal, without its terminating NUL. *)
Definition chars (s : string) : list Z :=
  map (fun c => Z.of_N (Ascii.N_of_ascii c)) (String.list_ascii_of_string s).

(** Character constants. *)
Definition chr (a : Ascii.ascii) : Z := Z.of_N (Ascii.N_of_ascii a).

Definition is_byte (z : Z) : Prop := 0 <= z < 256.

(** Little-endian words. *)
Fixpoint le_bytes (n : nat) (z : Z) : list Z :=
  match n with O => [] | S n' => z mod 256 :: le_bytes n' (z / 256) end.
Fixpoint le_word (l : list Z) : Z :=
  match l with [] => 0 | b :: l' => b + 256 * le_word l' end.

Lemma le_bytes_length n z : length (le_bytes n z) = n.
Proof. revert z; induction n; intros; simpl; auto. Qed.

Lemma le_bytes_byte n z : Forall is_byte (le_bytes n z).
Proof.
  revert z; induction n; intros z; simpl; constructor; auto.
  unfold is_byte. apply Z.mod_pos_bound. lia.
Qed.

Lemma le_word_bytes n z : le_word (le_bytes n z) = z mod 256 ^ Z.of_nat n.
Proof.
  revert z; induction n as [|n IH]; intros z; simpl le_bytes; simpl le_word.
  - by rewrite Z.mod_1_r.
  - rewrite IH, Nat2Z.inj_succ, Z.pow_succ_r by lia.
    rewrite Z.rem_mul_r by lia. lia.
Qed.

Lemma le_word_range l : Forall is_byte l -> 0 <= le_word l < 256 ^ Z.of_nat (length l).
Proof.
  induction 1 as [|b l Hb _ IH]; simpl le_word; simpl length; [lia|].
  rewrite Nat2Z.inj_succ, Z.pow_succ_r by lia. unfold is_byte in Hb. lia.
Qed.

Lemma le_bytes_word l : Forall is_byte l -> le_bytes (length l) (le_word l) = l.
Proof.
  induction 1 as [|b l Hb Hl IH]; simpl; [done|]. unfold is_byte in Hb.
  rewrite (Z.mul_comm 256), Z.mod_add, Z.mod_small by lia.
  rewrite Z.div_add, Z.div_small by lia. by rewrite Z.add_0_l, IH.
Qed.

(** ** Lists *)

Section lists.
Context {A : Type}.
Implicit Types l : list A.

(** The list whose element [i] is [f i]. *)
Lemma list_eq_lookup_same l k :
  length l = length k -> (forall i x y, l !! i = Some x -> k !! i = Some y -> x = y) -> l = k.
Proof. intros. by apply (list_eq_same_length l k (length l)); eauto. Qed.

Lemma Forall_lookup_insert (P : A -> Prop) l i x : Forall P l -> P x -> Forall P (<[i:=x]> l).
Proof. intros. by apply Forall_insert. Qed.
End lists.

(** A list of consecutive integers, for the loops [for(i = a; i < b; i++)]. *)
Definition zrange (a b : Z) : list Z := seqZ a (b - a).

Lemma zrange_cons a b : a < b -> zrange a b = a :: zrange (a + 1) b.
Proof.
  intros. unfold zrange. rewrite seqZ_cons by lia.
  replace (Z.succ a) with (a + 1) by lia. f_equal. f_equal. lia.
Qed.
Lemma zrange_nil a b : b <= a -> zrange a b = [].
Proof. intros. unfold zrange. apply seqZ_nil. lia. Qed.
Lemma elem_of_zrange a b x : x ∈ zrange a b <-> a <= x < b.
Proof. unfold zrange. rewrite elem_of_seqZ. lia. Qed.

(** Simplifies the context and splits every decision in it. *)
Ltac crush :=
  repeat first
    [ progress simplify_eq/=
    | case_match; simplify_eq/=
    | progress destruct_and? ];
  try done; try lia.
