(* ===== verification/CString.v ===== *)
(** * Memory and the string routines of the kernel

    [mem] is byte-addressed memory; [kernel/string.c] is translated loop by
    loop: the forward and the backward copy of [memmove], the padding loop of
    [strncpy], the NUL that [safestrcpy] always writes. *)

From S2P Require Import Prelude.

(** Memory: the byte at every address, 0 where nothing was stored. *)
Abbreviation mem := (gmap Z Z).
Definition rd (m : mem) (a : Z) : Z := default 0 (m !! a).
Definition wr (m : mem) (a v : Z) : mem := <[a := v]> m.

Lemma rd_wr m a v b : rd (wr m a v) b = if decide (a = b) then v else rd m b.
Proof. unfold rd, wr. rewrite lookup_insert. by case_decide. Qed.
#[export] Hint Rewrite rd_wr : xv6.

(** The [n] bytes at [a]. *)
Fixpoint rd_bytes (m : mem) (a : Z) (n : nat) : list Z :=
  match n with O => [] | S n' => rd m a :: rd_bytes m (a + 1) n' end.
Fixpoint wr_bytes (m : mem) (a : Z) (l : list Z) : mem :=
  match l with [] => m | b :: l' => wr_bytes (wr m a b) (a + 1) l' end.

(** Little-endian words in memory. *)
Definition rd32 (m : mem) (a : Z) : Z := le_word (rd_bytes m a 4).
Definition rd64 (m : mem) (a : Z) : Z := le_word (rd_bytes m a 8).
Definition wr32 (m : mem) (a v : Z) : mem := wr_bytes m a (le_bytes 4 v).
Definition wr64 (m : mem) (a v : Z) : mem := wr_bytes m a (le_bytes 8 v).

(** ** kernel/string.c *)

(** [for(i = 0; i < n; i++) cdst[i] = c;] *)
Fixpoint memset_loop (m : mem) (dst c : Z) (n : nat) : mem :=
  match n with O => m | S n' => memset_loop (wr m dst (u8 c)) (dst + 1) c n' end.
Definition memset (m : mem) (dst c n : Z) : mem := memset_loop m dst c (Z.to_nat n).

(** [while(n-- > 0){ if( *s1 != *s2) return *s1 - *s2; s1++, s2++; } return 0;] *)
Fixpoint memcmp_loop (m : mem) (s1 s2 : Z) (n : nat) : Z :=
  match n with
  | O => 0
  | S n' =>
      if negb (rd m s1 =? rd m s2) then rd m s1 - rd m s2
      else memcmp_loop m (s1 + 1) (s2 + 1) n'
  end.
Definition memcmp (m : mem) (v1 v2 n : Z) : Z := memcmp_loop m v1 v2 (Z.to_nat n).

(** [while(n-- > 0) *d++ = *s++;] *)
Fixpoint copy_fwd (m : mem) (d s : Z) (n : nat) : mem :=
  match n with O => m | S n' => copy_fwd (wr m d (rd m s)) (d + 1) (s + 1) n' end.
(** [while(n-- > 0) *--d = *--s;] *)
Fixpoint copy_bwd (m : mem) (d s : Z) (n : nat) : mem :=
  match n with
  | O => m
  | S n' => copy_bwd (wr m (d - 1) (rd m (s - 1))) (d - 1) (s - 1) n'
  end.

Definition memmove (m : mem) (dst src n : Z) : mem :=
  if n =? 0 then m
  else if (src <? dst) && (src + n >? dst)
  then copy_bwd m (dst + n) (src + n) (Z.to_nat n)
  else copy_fwd m dst src (Z.to_nat n).

Definition memcpy (m : mem) (dst src n : Z) : mem := memmove m dst src n.

(** [while(n > 0 && *p && *p == *q) n--, p++, q++;] *)
Fixpoint strncmp_loop (m : mem) (p q : Z) (n : nat) : Z :=
  match n with
  | O => 0
  | S n' =>
      if negb (rd m p =? 0) && (rd m p =? rd m q)
      then strncmp_loop m (p + 1) (q + 1) n'
      else rd m p - rd m q
  end.
Definition strncmp (m : mem) (p q n : Z) : Z := strncmp_loop m p q (Z.to_nat n).

(** [while(n-- > 0) *s++ = 0;] *)
Fixpoint pad_loop (m : mem) (s : Z) (n : nat) : mem :=
  match n with O => m | S n' => pad_loop (wr m s 0) (s + 1) n' end.
(** [while(n-- > 0 && ( *s++ = *t++) != 0);] and the padding loop. *)
Fixpoint strncpy_loop (m : mem) (s t : Z) (n : nat) : mem :=
  match n with
  | O => m
  | S n' =>
      let c := rd m t in
      let m' := wr m s c in
      if negb (c =? 0) then strncpy_loop m' (s + 1) (t + 1) n'
      else pad_loop m' (s + 1) n'
  end.
Definition strncpy (m : mem) (s t n : Z) : mem := strncpy_loop m s t (Z.to_nat n).

(** [while(--n > 0 && ( *s++ = *t++) != 0); *s = 0;], [n] being the value after
    the first decrement. *)
Fixpoint safestrcpy_loop (m : mem) (s t : Z) (n : nat) : mem :=
  match n with
  | O => wr m s 0
  | S n' =>
      let c := rd m t in
      let m' := wr m s c in
      if negb (c =? 0) then safestrcpy_loop m' (s + 1) (t + 1) n'
      else wr m' (s + 1) 0
  end.
Definition safestrcpy (m : mem) (s t n : Z) : mem :=
  if n <=? 0 then m else safestrcpy_loop m s t (Z.to_nat (n - 1)).

(** [for(n = 0; s[n]; n++);] from [s+n] on. *)
Fixpoint strlen_loop (fuel : nat) (m : mem) (s n : Z) : option Z :=
  match fuel with
  | O => None
  | S f => if rd m (s + n) =? 0 then Some n else strlen_loop f m s (n + 1)
  end.
Definition strlen (fuel : nat) (m : mem) (s : Z) : option Z := strlen_loop fuel m s 0.

#[global] Arguments memset : simpl never.
#[global] Arguments memmove : simpl never.
#[global] Arguments rd64 : simpl never.
#[global] Arguments wr64 : simpl never.
#[global] Arguments rd32 : simpl never.
#[global] Arguments wr32 : simpl never.

(** ** What the loops do *)

(** [cstr m p l]: at [p] there is the C string with characters [l]. *)
Definition cstr (m : mem) (p : Z) (l : list Z) : Prop :=
  (forall i c, l !! i = Some c -> rd m (p + Z.of_nat i) = c /\ c <> 0) /\
  rd m (p + Z.of_nat (length l)) = 0.

(** The characters that [strncmp] and [strncpy] look at: those before the
    first NUL, [n] at most. *)
Fixpoint field (m : mem) (p : Z) (n : nat) : list Z :=
  match n with
  | O => []
  | S n' => if rd m p =? 0 then [] else rd m p :: field m (p + 1) n'
  end.

Ltac rdwr := repeat (rewrite !rd_wr; repeat case_decide; try lia; simplify_eq); try done.

Lemma memset_loop_rd n : forall m dst c a,
  rd (memset_loop m dst c n) a =
    if decide (dst <= a < dst + Z.of_nat n) then u8 c else rd m a.
Proof.
  induction n as [|n IH]; intros m dst c a; simpl.
  - case_decide; [lia|done].
  - rewrite IH, rd_wr. repeat case_decide; try lia; done.
Qed.

Lemma memset_rd m dst c n a :
  0 <= n -> rd (memset m dst c n) a = if decide (dst <= a < dst + n) then u8 c else rd m a.
Proof.
  intros. unfold memset. rewrite memset_loop_rd, Z2Nat.id by lia. done.
Qed.

Lemma copy_fwd_rd n : forall m d s a,
  d <= s \/ s + Z.of_nat n <= d ->
  rd (copy_fwd m d s n) a =
    if decide (d <= a < d + Z.of_nat n) then rd m (s + (a - d)) else rd m a.
Proof.
  induction n as [|n IH]; intros m d s a Hov; simpl.
  - case_decide; [lia|done].
  - rewrite IH by lia. rewrite !rd_wr.
    destruct (decide (a = d)) as [->|].
    + repeat case_decide; try lia. f_equal; lia.
    + repeat case_decide; try lia; f_equal; lia.
Qed.

Lemma copy_bwd_rd n : forall m d s a,
  s <= d ->
  rd (copy_bwd m d s n) a =
    if decide (d - Z.of_nat n <= a < d) then rd m (s + (a - d)) else rd m a.
Proof.
  induction n as [|n IH]; intros m d s a Hov; simpl.
  - case_decide; [lia|done].
  - rewrite IH by lia. rewrite !rd_wr.
    destruct (decide (a = d - 1)) as [->|].
    + repeat case_decide; try lia. f_equal; lia.
    + repeat case_decide; try lia; f_equal; lia.
Qed.

(** ** Bytes and words in memory *)

Lemma rd_wr_bytes l : forall m a x,
  rd (wr_bytes m a l) x =
    if decide (a <= x < a + Z.of_nat (length l)) then default 0 (l !! Z.to_nat (x - a)) else rd m x.
Proof.
  induction l as [|b l IH]; intros m a x; cbn [wr_bytes length].
  - by rewrite decide_False by lia.
  - rewrite IH, rd_wr. destruct (decide (x = a)) as [->|].
    + rewrite decide_False, !decide_True by lia. by replace (Z.to_nat (a - a)) with 0%nat by lia.
    + repeat case_decide; try lia; try done.
      by replace (Z.to_nat (x - a)) with (S (Z.to_nat (x - (a + 1)))) by lia.
Qed.

Lemma lookup_rd_bytes n : forall m a i, (i < n)%nat -> rd_bytes m a n !! i = Some (rd m (a + Z.of_nat i)).
Proof.
  induction n as [|n IH]; intros m a i Hi; [lia|]. cbn [rd_bytes]. destruct i as [|i].
  - by rewrite Z.add_0_r.
  - simpl. rewrite IH by lia. do 2 f_equal. lia.
Qed.
Lemma length_rd_bytes n : forall m a, length (rd_bytes m a n) = n.
Proof. induction n; intros; simpl; auto. Qed.

Lemma rd_bytes_ext m m' a n :
  (forall x, a <= x < a + Z.of_nat n -> rd m x = rd m' x) -> rd_bytes m a n = rd_bytes m' a n.
Proof.
  revert a. induction n as [|n IH]; intros a H; [done|]. cbn [rd_bytes].
  rewrite H by lia. f_equal. apply IH. intros x Hx. apply H. lia.
Qed.

Lemma rd_bytes_wr_bytes m a l : rd_bytes (wr_bytes m a l) a (length l) = l.
Proof.
  apply list_eq. intros i. destruct (decide (i < length l)%nat) as [Hi|Hi].
  - rewrite lookup_rd_bytes, rd_wr_bytes, decide_True by lia.
    replace (Z.to_nat (a + Z.of_nat i - a)) with i by lia.
    by apply lookup_lt_is_Some_2 in Hi as [x ->].
  - rewrite !lookup_ge_None_2; [done|lia|rewrite length_rd_bytes; lia].
Qed.

Lemma rd64_ext m m' a : (forall x, a <= x < a + 8 -> rd m x = rd m' x) -> rd64 m a = rd64 m' a.
Proof. intros H. unfold rd64. f_equal. by apply rd_bytes_ext. Qed.
Lemma rd_wr64_ne m a v x : x < a \/ a + 8 <= x -> rd (wr64 m a v) x = rd m x.
Proof. intros. unfold wr64. rewrite rd_wr_bytes, le_bytes_length, decide_False by lia. done. Qed.
Lemma rd64_wr64 m a v : rd64 (wr64 m a v) a = u64 v.
Proof.
  unfold rd64, wr64. pose proof (rd_bytes_wr_bytes m a (le_bytes 8 v)) as H.
  rewrite le_bytes_length in H. by rewrite H, le_word_bytes.
Qed.
Lemma rd64_wr64_ne m a b v : b + 8 <= a \/ a + 8 <= b -> rd64 (wr64 m a v) b = rd64 m b.
Proof. intros. apply rd64_ext. intros x Hx. apply rd_wr64_ne. lia. Qed.
Lemma rd64_memset_ne m d c n a : 0 <= n -> a + 8 <= d \/ d + n <= a -> rd64 (memset m d c n) a = rd64 m a.
Proof. intros. apply rd64_ext. intros x Hx. rewrite memset_rd, decide_False by lia. done. Qed.

(** [memmove] copies as if through a temporary: whatever the overlap of the
    two regions, byte [i] of the destination becomes the old byte [i] of the
    source, and nothing else changes. *)
Theorem memmove_spec m dst src n a :
  0 <= n ->
  rd (memmove m dst src n) a =
    if decide (dst <= a < dst + n) then rd m (src + (a - dst)) else rd m a.
Proof.
  intros Hn. unfold memmove. destruct (Z.eqb_spec n 0) as [->|].
  - case_decide; [lia|done].
  - destruct ((src <? dst) && (src + n >? dst)) eqn:E.
    + rewrite copy_bwd_rd by lia. rewrite Z2Nat.id by lia.
      repeat case_decide; try lia; f_equal; lia.
    + rewrite copy_fwd_rd by lia. rewrite Z2Nat.id by lia. done.
Qed.

Lemma memmove_spec_witness :
  let m := wr (wr (wr ∅ 10 7) 11 8) 12 9 in
  0 <= 3 /\ rd (memmove m 11 10 3) 12 = 8.
Proof. intros m. split; [lia|]. rewrite (memmove_spec m 11 10 3 12) by lia. reflexivity. Defined.

Lemma memcmp_loop_zero m n : forall s1 s2,
  memcmp_loop m s1 s2 n = 0 <-> rd_bytes m s1 n = rd_bytes m s2 n.
Proof.
  induction n as [|n IH]; intros s1 s2; simpl; [done|].
  destruct (Z.eqb_spec (rd m s1) (rd m s2)) as [E|E]; simpl.
  - rewrite IH, E. split; [by intros ->|by intros [= ->]].
  - split; [lia|by intros [= ? _]].
Qed.

Lemma pad_loop_rd n : forall m s a,
  rd (pad_loop m s n) a = if decide (s <= a < s + Z.of_nat n) then 0 else rd m a.
Proof.
  induction n as [|n IH]; intros m s a; simpl.
  - case_decide; [lia|done].
  - rewrite IH, rd_wr. repeat case_decide; try lia; done.
Qed.

Lemma field_length m n : forall p, (length (field m p n) <= n)%nat.
Proof.
  induction n as [|n IH]; intros p; simpl; [lia|].
  destruct (rd m p =? 0); simpl; [lia|]. specialize (IH (p + 1)). lia.
Qed.

Lemma field_nonzero m n : forall p, Forall (fun c => c <> 0) (field m p n).
Proof.
  induction n as [|n IH]; intros p; simpl; [constructor|].
  destruct (Z.eqb_spec (rd m p) 0); constructor; auto.
Qed.

Lemma field_ext m m' n : forall p,
  (forall a, p <= a < p + Z.of_nat n -> rd m a = rd m' a) -> field m p n = field m' p n.
Proof.
  induction n as [|n IH]; intros p H; simpl; [done|].
  rewrite (H p) by lia. destruct (rd m' p =? 0); [done|].
  f_equal. apply IH. intros a Ha. apply H. lia.
Qed.

Lemma strncmp_loop_zero m n : forall p q,
  strncmp_loop m p q n = 0 <-> field m p n = field m q n.
Proof.
  induction n as [|n IH]; intros p q; simpl; [done|].
  destruct (Z.eqb_spec (rd m p) 0) as [E|E]; simpl.
  - rewrite E. destruct (Z.eqb_spec (rd m q) 0) as [F|F]; split; try done; try lia.
  - destruct (Z.eqb_spec (rd m p) (rd m q)) as [F|F].
    + rewrite IH, <- F. destruct (Z.eqb_spec (rd m p) 0); [done|].
      split; [by intros ->|by intros [= ->]].
    + destruct (Z.eqb_spec (rd m q) 0); split; try done; try lia.
      by intros [= ? _].
Qed.

(** [strncmp] returns 0 exactly when the two fixed-width fields hold the same
    name: the same characters before the first NUL, at most [n] of them. *)
Theorem strncmp_eq_iff m p q n :
  strncmp m p q n = 0 <-> field m p (Z.to_nat n) = field m q (Z.to_nat n).
Proof. apply strncmp_loop_zero. Qed.

(** The copy loop of [strncpy]: the field is copied, the rest is NUL, and the
    memory outside the [n] destination bytes is unchanged. *)
Lemma strncpy_loop_spec n : forall m s t,
  s + Z.of_nat n <= t \/ t + Z.of_nat n <= s ->
  field (strncpy_loop m s t n) s n = field m t n /\
  (forall i, Z.of_nat (length (field m t n)) <= i < Z.of_nat n -> rd (strncpy_loop m s t n) (s + i) = 0) /\
  (forall a, ~ (s <= a < s + Z.of_nat n) -> rd (strncpy_loop m s t n) a = rd m a).
Proof.
  induction n as [|n IH]; intros m s t Hd; simpl; [split_and!; [done|simpl; lia|done]|].
  destruct (Z.eqb_spec (rd m t) 0) as [E|E]; simpl.
  - assert (rd (pad_loop (wr m s (rd m t)) (s + 1) n) s = 0) as H0
      by (rewrite pad_loop_rd; rdwr).
    rewrite H0. split_and!; [done| |].
    + intros i Hi. rewrite pad_loop_rd. case_decide; [done|]. rdwr.
    + intros a Ha. rewrite pad_loop_rd. case_decide; [lia|]. rdwr.
  - set (m1 := wr m s (rd m t)).
    destruct (IH m1 (s + 1) (t + 1) ltac:(lia)) as (IH1 & IH2 & IH3).
    assert (rd (strncpy_loop m1 (s + 1) (t + 1) n) s = rd m t) as Hs.
    { rewrite IH3 by lia. unfold m1. rdwr. }
    assert (field m1 (t + 1) n = field m (t + 1) n) as Hf.
    { apply field_ext. intros a Ha. unfold m1. rdwr. }
    rewrite Hs. destruct (Z.eqb_spec (rd m t) 0); [done|]. split_and!.
    + by rewrite IH1, Hf.
    + simpl. intros i Hi. replace (s + i) with (s + 1 + (i - 1)) by lia.
      apply IH2. rewrite Hf. lia.
    + intros a Ha. rewrite IH3 by lia. unfold m1. rdwr.
Qed.

(** A directory name stored with [strncpy] is found again by [strncmp]: after
    [strncpy(s, t, n)] on disjoint buffers the two fields compare equal, the
    bytes of [s] after the name are all NUL, and nothing outside the [n] bytes
    of [s] changes. *)
Theorem strncpy_strncmp m s t n :
  0 <= n -> s + n <= t \/ t + n <= s ->
  strncmp (strncpy m s t n) s t n = 0 /\
  (forall i, Z.of_nat (length (field m t (Z.to_nat n))) <= i < n ->
     rd (strncpy m s t n) (s + i) = 0) /\
  (forall a, ~ (s <= a < s + n) -> rd (strncpy m s t n) a = rd m a).
Proof.
  intros Hn Hd. unfold strncpy, strncmp.
  destruct (strncpy_loop_spec (Z.to_nat n) m s t ltac:(lia)) as (H1 & H2 & H3).
  rewrite Z2Nat.id in H2, H3 by lia.
  split_and!; [|done|done].
  rewrite strncmp_loop_zero, H1. apply field_ext. intros a Ha. symmetry. apply H3. lia.
Qed.

Lemma strncpy_strncmp_witness :
  let m := wr_bytes ∅ 100 (chars "README") in
  (0 <= 14 /\ (0 + 14 <= 100 \/ 100 + 14 <= 0)) /\
  strncmp (strncpy m 0 100 14) 0 100 14 = 0.
Proof.
  intros m. split; [lia|].
  apply (strncpy_strncmp m 0 100 14); lia.
Defined.

Lemma safestrcpy_loop_spec n : forall m s t,
  s + Z.of_nat n < t \/ t + Z.of_nat n <= s ->
  exists k, (k <= n)%nat /\ k = length (field m t n) /\
    (forall i, 0 <= i < Z.of_nat k -> rd (safestrcpy_loop m s t n) (s + i) = rd m (t + i)) /\
    rd (safestrcpy_loop m s t n) (s + Z.of_nat k) = 0 /\
    (forall a, ~ (s <= a <= s + Z.of_nat n) -> rd (safestrcpy_loop m s t n) a = rd m a).
Proof.
  induction n as [|n IH]; intros m s t Hd; simpl.
  - exists 0%nat. split_and!; try lia; try done; [rdwr|]. intros a Ha. rdwr.
  - destruct (Z.eqb_spec (rd m t) 0) as [E|E]; simpl.
    + exists 0%nat. split_and!; try lia; try done; [rdwr|]. intros a Ha. rdwr.
    + set (m1 := wr m s (rd m t)).
      destruct (IH m1 (s + 1) (t + 1) ltac:(lia)) as (k & Hk & Hkl & H1 & H2 & H3).
      assert (field m1 (t + 1) n = field m (t + 1) n) as Hf.
      { apply field_ext. intros a Ha. unfold m1. rdwr. }
      exists (S k). split_and!; [lia|by rewrite Hkl, Hf| | |].
      * intros i Hi. destruct (decide (i = 0)) as [->|].
        -- rewrite H3 by lia. unfold m1. rewrite !Z.add_0_r. rdwr.
        -- replace (s + i) with (s + 1 + (i - 1)) by lia. rewrite H1 by lia.
           unfold m1. rewrite rd_wr. case_decide; [lia|]. f_equal; lia.
      * replace (s + Z.of_nat (S k)) with (s + 1 + Z.of_nat k) by lia. done.
      * intros a Ha. rewrite H3 by lia. unfold m1. rdwr.
Qed.

(** [safestrcpy] never leaves an unterminated string: with [n > 0] and disjoint
    buffers, [s] holds the characters of [t] cut to [n-1], followed by a NUL,
    and no byte outside the [n] bytes of [s] is written. *)
Theorem safestrcpy_terminates m s t n :
  0 < n -> s + n <= t \/ t + n <= s ->
  let l := field m t (Z.to_nat (n - 1)) in
  let m' := safestrcpy m s t n in
  (forall i, 0 <= i < Z.of_nat (length l) -> rd m' (s + i) = rd m (t + i)) /\
  rd m' (s + Z.of_nat (length l)) = 0 /\ Z.of_nat (length l) < n /\
  (forall a, ~ (s <= a < s + n) -> rd m' a = rd m a).
Proof.
  intros Hn Hd l m'. unfold m', safestrcpy. destruct (Z.leb_spec n 0); [lia|].
  destruct (safestrcpy_loop_spec (Z.to_nat (n - 1)) m s t ltac:(lia))
    as (k & Hk & Hl & H1 & H2 & H3).
  fold l in Hl. subst k. split_and!; [done|done|lia|].
  intros a Ha. apply H3. lia.
Qed.

Lemma safestrcpy_terminates_witness :
  let m := wr_bytes ∅ 100 (chars "a-rather-long-process-name") in
  (0 < 16 /\ (0 + 16 <= 100 \/ 100 + 16 <= 0)) /\
  rd (safestrcpy m 0 100 16) 15 = 0.
Proof.
  intros m. split; [lia|].
  destruct (safestrcpy_terminates m 0 100 16 ltac:(lia) ltac:(lia)) as (_ & H & _).
  exact H.
Defined.

Lemma strlen_loop_spec m l s fuel : forall pre,
  cstr m s (pre ++ l) -> (length l < fuel)%nat ->
  strlen_loop fuel m s (Z.of_nat (length pre)) = Some (Z.of_nat (length (pre ++ l))).
Proof.
  revert fuel. induction l as [|c l IH]; intros fuel pre [Hc H0] Hf;
    (destruct fuel as [|fuel]; [simpl in Hf; lia|]); simpl.
  - rewrite app_nil_r in *. by rewrite H0.
  - destruct (Hc (length pre) c) as [-> Hne].
    { rewrite lookup_app_r by lia. by rewrite Nat.sub_diag. }
    destruct (Z.eqb_spec c 0); [done|].
    replace (Z.of_nat (length pre) + 1) with (Z.of_nat (length (pre ++ [c])))
      by (rewrite length_app; simpl; lia).
    replace (pre ++ c :: l) with ((pre ++ [c]) ++ l) in * by (by rewrite <- app_assoc).
    apply IH; [done|simpl in Hf; lia].
Qed.

(** [strlen] terminates on every NUL-terminated string and returns the number
    of characters before the NUL. *)
Theorem strlen_spec m s l fuel :
  cstr m s l -> (length l < fuel)%nat -> strlen fuel m s = Some (Z.of_nat (length l)).
Proof. intros. by apply (strlen_loop_spec m l s fuel []). Qed.

Lemma cstr_intro m p l :
  Forall (fun c => c <> 0) l -> rd_bytes m p (length l) = l ->
  rd m (p + Z.of_nat (length l)) = 0 -> cstr m p l.
Proof.
  revert p. induction l as [|c l IH]; intros p Hnz Hl H0; simpl in *.
  - split; [by intros i ? ?|done].
  - injection Hl as Hc Hl. inversion Hnz as [|? ? Hc0 Hnz']; subst.
    destruct (IH (p + 1) Hnz') as [IH1 IH2].
    { done. }
    { rewrite <- H0. f_equal. lia. }
    split; [|done]. intros [|i] c; simpl.
    + intros [= <-]. by rewrite Z.add_0_r.
    + intros Hi. destruct (IH1 i c Hi) as [<- ?]. split; [f_equal; lia|done].
Qed.

Lemma strlen_spec_witness :
  let m := wr_bytes ∅ 8 (chars "init") in
  (cstr m 8 (chars "init") /\ (length (chars "init") < 5)%nat) /\ strlen 5 m 8 = Some 4.
Proof.
  intros m.
  assert (cstr m 8 (chars "init")) as H.
  { apply cstr_intro; [repeat constructor; done|reflexivity|reflexivity]. }
  split; [split; [done|simpl; lia]|]. exact (strlen_spec m 8 (chars "init") 5 H ltac:(simpl; lia)).
Defined.
