(* ===== verification/Printf.v ===== *)
(** * Formatted output

    [printint], [printptr] and the format interpreters of [kernel/printf.c] and
    [user/printf.c]. The output is the list of characters handed to [consputc]
    or [putc], in order. A call with too few arguments, or an argument of the
    wrong kind, is undefined in C and has no result here. *)

From S2P Require Import Prelude.

Definition digit_lower (d : Z) : Z := if d <? 10 then 48 + d else 87 + d.
Definition digit_upper (d : Z) : Z := if d <? 10 then 48 + d else 55 + d.

(** [do { buf[i++] = digits[x % base]; } while((x /= base) != 0);], the buffer
    from its first byte on. An unsigned [int] has at most 32 digits. *)
Fixpoint digits_loop (fuel : nat) (digit : Z -> Z) (base x : Z) : list Z :=
  match fuel with
  | O => []
  | S f =>
      digit (x mod base) ::
      (if x / base =? 0 then [] else digits_loop f digit base (x / base))
  end.

(** kernel/printf.c: [xx] is an int; the digits are printed from the end of buf. *)
Definition printint (xx base : Z) (sign : bool) : list Z :=
  let neg := sign && (xx <? 0) in
  let x := if neg then u32 (- xx) else u32 xx in
  let buf := digits_loop 32 digit_lower base x in
  reverse (if neg then buf ++ [45] else buf).

(** user/printf.c: the same with upper-case digits. *)
Definition u_printint (xx base : Z) (sgn : bool) : list Z :=
  let neg := sgn && (xx <? 0) in
  let x := if neg then u32 (- xx) else u32 xx in
  let buf := digits_loop 32 digit_upper base x in
  reverse (if neg then buf ++ [45] else buf).

(** [for (i = 0; i < sizeof(uint64)*2; i++, x <<= 4) consputc(digits[x >> 60]);] *)
Fixpoint printptr_loop (n : nat) (digit : Z -> Z) (x : Z) : list Z :=
  match n with
  | O => []
  | S n' => digit (Z.shiftr x 60) :: printptr_loop n' digit (u64 (Z.shiftl x 4))
  end.
Definition printptr (x : Z) : list Z := 48 :: 120 :: printptr_loop 16 digit_lower x.
Definition u_printptr (x : Z) : list Z := 48 :: 120 :: printptr_loop 16 digit_upper x.

(** A variadic argument: an integer, or a string ([None] is a null pointer). *)
Inductive varg : Type := AInt (z : Z) | AStr (s : option (list Z)).

Definition cstr_arg (s : option (list Z)) : list Z := default (chars "(null)") s.

(** kernel/printf.c: printf *)
Fixpoint printf (fmt : list Z) (ap : list varg) : option (list Z) :=
  match fmt with
  | [] => Some []
  | c :: fmt1 =>
      if negb (c =? 37) then cons c <$> printf fmt1 ap
      else
        match fmt1 with
        | [] => Some []
        | d :: fmt2 =>
            if d =? 100 then
              match ap with AInt z :: ap' => app (printint (i32 z) 10 true) <$> printf fmt2 ap' | _ => None end
            else if d =? 120 then
              match ap with AInt z :: ap' => app (printint (i32 z) 16 true) <$> printf fmt2 ap' | _ => None end
            else if d =? 112 then
              match ap with AInt z :: ap' => app (printptr (u64 z)) <$> printf fmt2 ap' | _ => None end
            else if d =? 115 then
              match ap with AStr s :: ap' => app (cstr_arg s) <$> printf fmt2 ap' | _ => None end
            else if d =? 37 then cons 37 <$> printf fmt2 ap
            else (fun l => 37 :: d :: l) <$> printf fmt2 ap
        end
  end.

(** user/printf.c: vprintf, a state machine with [state] 0 or percent. *)
Fixpoint vprintf (state : bool) (fmt : list Z) (ap : list varg) : option (list Z) :=
  match fmt with
  | [] => Some []
  | c :: fmt' =>
      if negb state then
        if c =? 37 then vprintf true fmt' ap else cons c <$> vprintf false fmt' ap
      else if c =? 100 then
        match ap with AInt z :: ap' => app (u_printint (i32 z) 10 true) <$> vprintf false fmt' ap' | _ => None end
      else if c =? 108 then
        match ap with AInt z :: ap' => app (u_printint (i32 z) 10 false) <$> vprintf false fmt' ap' | _ => None end
      else if c =? 120 then
        match ap with AInt z :: ap' => app (u_printint (i32 z) 16 false) <$> vprintf false fmt' ap' | _ => None end
      else if c =? 112 then
        match ap with AInt z :: ap' => app (u_printptr (u64 z)) <$> vprintf false fmt' ap' | _ => None end
      else if c =? 115 then
        match ap with AStr s :: ap' => app (cstr_arg s) <$> vprintf false fmt' ap' | _ => None end
      else if c =? 99 then
        match ap with AInt z :: ap' => cons (u8 z) <$> vprintf false fmt' ap' | _ => None end
      else if c =? 37 then cons c <$> vprintf false fmt' ap
      else (fun l => 37 :: c :: l) <$> vprintf false fmt' ap
  end.

(** ** Numbers *)

(** The number that a list of digit characters denotes. *)
Definition dec_step (n c : Z) : Z := n * 10 + (c - 48).
Definition dec_value (l : list Z) : Z := foldl dec_step 0 l.
Definition is_digit (c : Z) : Prop := 48 <= c <= 57.

Lemma dec_value_snoc l c : dec_value (l ++ [c]) = dec_value l * 10 + (c - 48).
Proof. unfold dec_value. by rewrite foldl_snoc. Qed.

Lemma digits_loop_dec fuel : forall x,
  0 <= x < 10 ^ Z.of_nat fuel -> (0 < fuel)%nat ->
  let l := digits_loop fuel digit_lower 10 x in
  dec_value (reverse l) = x /\ Forall is_digit l /\ (length l <= fuel)%nat /\
  (forall c, last l = Some c -> c = 48 -> x = 0).
Proof.
  induction fuel as [|fuel IH]; intros x Hx Hf; [lia|].
  cbn [digits_loop]. assert (0 <= x mod 10 < 10) as Hm by (apply Z.mod_pos_bound; lia).
  assert (digit_lower (x mod 10) = 48 + x mod 10) as Hd.
  { unfold digit_lower. destruct (Z.ltb_spec (x mod 10) 10); lia. }
  rewrite Hd. rewrite Nat2Z.inj_succ, Z.pow_succ_r in Hx by lia.
  destruct (Z.eqb_spec (x / 10) 0) as [E|E].
  - simpl. unfold dec_value, dec_step; simpl. split_and!.
    + zlia.
    + repeat constructor; lia.
    + lia.
    + intros c [= <-] ?. zlia.
  - destruct fuel as [|fuel]; [simpl in Hx; zlia|].
    destruct (IH (x / 10)) as (IH1 & IH2 & IH3 & IH4); [zlia|lia|].
    assert (digits_loop (S fuel) digit_lower 10 (x / 10) <> []) as Hne by done.
    revert IH1 IH2 IH3 IH4 Hne.
    generalize (digits_loop (S fuel) digit_lower 10 (x / 10)). intros l IH1 IH2 IH3 IH4 Hne.
    split_and!.
    + rewrite reverse_cons, dec_value_snoc, IH1. zlia.
    + constructor; [unfold is_digit; lia|done].
    + simpl. lia.
    + intros c Hc ->. destruct E. apply (IH4 48); [|done]. by destruct l.
Qed.

Lemma digits_agree fuel : forall x, digits_loop fuel digit_upper 10 x = digits_loop fuel digit_lower 10 x.
Proof.
  induction fuel as [|fuel IH]; intros x; [done|]. cbn [digits_loop]. rewrite IH. f_equal.
  pose proof (Z.mod_pos_bound x 10 ltac:(lia)). unfold digit_lower, digit_upper.
  destruct (Z.ltb_spec (x mod 10) 10); [done|lia].
Qed.

Lemma digits_loop_10_u32 x :
  0 <= x < 2^32 ->
  digits_loop 32 digit_lower 10 x = digits_loop 10 digit_lower 10 x.
Proof.
  assert (forall k y n, 0 <= y < 10 ^ Z.of_nat n -> (0 < n)%nat -> (n <= k)%nat ->
    digits_loop k digit_lower 10 y = digits_loop n digit_lower 10 y) as G.
  { induction k as [|k IH]; intros y n Hy Hn Hk; [lia|]. destruct n as [|n]; [lia|].
    cbn [digits_loop]. f_equal. destruct (Z.eqb_spec (y / 10) 0) as [|E]; [done|].
    rewrite Nat2Z.inj_succ, Z.pow_succ_r in Hy by lia.
    destruct n as [|n]; [simpl in Hy; zlia|]. apply IH; [zlia|lia|lia]. }
  intros. apply G; lia.
Qed.

(** [printint] with base 10 prints every int in decimal: the printed digits denote
    its absolute value (also for the most negative int), there is no leading
    zero, a minus sign exactly for negative numbers, and the digits and the sign
    fit the 16-byte buffer. *)
Theorem printint_decimal xx :
  -2^31 <= xx < 2^31 ->
  exists ds, printint xx 10 true = (if xx <? 0 then 45 :: ds else ds) /\
    Forall is_digit ds /\ dec_value ds = Z.abs xx /\ ds <> [] /\
    (head ds = Some 48 -> xx = 0) /\ (length (printint xx 10 true) <= 11)%nat.
Proof.
  intros Hx. set (x := u32 (Z.abs xx)).
  assert (x = Z.abs xx) as Ex by (apply u32_small; lia).
  set (l := digits_loop 10 digit_lower 10 x).
  assert (digits_loop 32 digit_lower 10 x = l) as El by (apply digits_loop_10_u32; lia).
  destruct (digits_loop_dec 10 x) as (H1 & H2 & H3 & H4); [lia|lia|]. fold l in H1, H2, H3, H4.
  exists (reverse l). assert (printint xx 10 true = if xx <? 0 then 45 :: reverse l else reverse l) as Hp.
  { unfold printint. simpl andb. destruct (Z.ltb_spec xx 0).
    - replace (u32 (- xx)) with x by (unfold x; f_equal; lia). rewrite El.
      by rewrite reverse_app.
    - replace (u32 xx) with x by (unfold x; f_equal; lia). by rewrite El. }
  assert (l <> []) as Hne by done.
  split_and!.
  - done.
  - by apply Forall_reverse.
  - by rewrite H1.
  - intros E. apply (f_equal (@length Z)) in E. rewrite length_reverse in E. by destruct l.
  - intros Hh. assert (last l = Some 48) as Hl by (by rewrite <- head_reverse).
    rewrite (H4 48 Hl eq_refl) in Ex. lia.
  - rewrite Hp. destruct (xx <? 0); simpl length; rewrite length_reverse; lia.
Qed.

Lemma printint_decimal_witness :
  -2^31 <= -2147483648 < 2^31 /\
  (length (printint (-2147483648) 10 true) <= 11)%nat /\
  printint (-2147483648) 10 true = chars "-2147483648".
Proof.
  split; [lia|]. split; [|reflexivity].
  destruct (printint_decimal (-2147483648) ltac:(lia)) as (ds & _ & _ & _ & _ & _ & H). exact H.
Defined.

Lemma u_printint_decimal xx sgn : u_printint xx 10 sgn = printint xx 10 sgn.
Proof. unfold u_printint, printint. by rewrite !digits_agree. Qed.

(** The format uses no conversion on which the two libraries differ: hexadecimal
    and pointers (case of the digits, sign), [%l] and [%c] (kernel: unknown). *)
Fixpoint portable (fmt : list Z) : bool :=
  match fmt with
  | [] => true
  | c :: fmt1 =>
      if c =? 37 then
        match fmt1 with
        | [] => true
        | d :: fmt2 => negb (bool_decide (d ∈ [120; 112; 108; 99])) && portable fmt2
        end
      else portable fmt1
  end.

Lemma printf_vprintf_len n : forall fmt ap,
  (length fmt <= n)%nat -> portable fmt = true -> vprintf false fmt ap = printf fmt ap.
Proof.
  induction n as [|n IH]; intros [|c fmt] ap Hl Hp; try done; [simpl in Hl; lia|].
  cbn [vprintf printf negb]. cbn [portable] in Hp. destruct (Z.eqb_spec c 37) as [->|]; simpl.
  - destruct fmt as [|d fmt]; [done|]. apply andb_true_iff in Hp as [Hd Hp].
    apply negb_true_iff, bool_decide_eq_false in Hd.
    rewrite !not_elem_of_cons in Hd. destruct Hd as (H1 & H2 & H3 & H4 & _).
    assert (forall ap', vprintf false fmt ap' = printf fmt ap') as E
      by (intros; apply IH; [simpl in Hl; lia|done]).
    cbn [vprintf negb].
    destruct (Z.eqb_spec d 100).
    { destruct ap as [|[z|s] ap]; try done. by rewrite E, u_printint_decimal. }
    destruct (Z.eqb_spec d 108); [done|]. destruct (Z.eqb_spec d 120); [done|].
    destruct (Z.eqb_spec d 112); [done|].
    destruct (Z.eqb_spec d 115).
    { destruct ap as [|[z|s] ap]; try done. by rewrite E. }
    destruct (Z.eqb_spec d 99); [done|].
    destruct (Z.eqb_spec d 37) as [->|]; by rewrite E.
  - rewrite IH; [done|simpl in Hl; lia|done].
Qed.

(** The kernel's [printf] and the user library's [vprintf], written as different
    loops, print the same characters for every format without [%x], [%p], [%l]
    and [%c], and are undefined for the same calls. *)
Theorem printf_vprintf_agree fmt ap :
  portable fmt = true -> vprintf false fmt ap = printf fmt ap.
Proof. by apply (printf_vprintf_len (length fmt)). Qed.

Lemma printf_vprintf_agree_witness :
  portable (chars "%d %s: unknown sys call %d") = true /\
  vprintf false (chars "%d %s: unknown sys call %d") [AInt 3; AStr (Some (chars "sh")); AInt 99]
  = Some (chars "3 sh: unknown sys call 99").
Proof.
  split; [reflexivity|].
  rewrite (printf_vprintf_agree _ [AInt 3; AStr (Some (chars "sh")); AInt 99]) by reflexivity.
  reflexivity.
Defined.

(** The kernel prints [%x] as a signed number, the user library does not. *)
Example printf_hex_signed :
  printf (chars "%x") [AInt 0xffffffff] = Some (chars "-1") /\
  vprintf false (chars "%x") [AInt 0xffffffff] = Some (chars "FFFFFFFF").
Proof. split; reflexivity. Qed.
