(* ===== verification/Ulib.v ===== *)
(** * The C library of user programs

    The string and memory routines of [user/ulib.c]. Loops that run to the end
    of a string take fuel; the theorems give the fuel that is enough. *)

From S2P Require Import Prelude CString Printf.

(** [while(( *s++ = *t++) != 0);] *)
Fixpoint strcpy_loop (fuel : nat) (m : mem) (s t : Z) : option mem :=
  match fuel with
  | O => None
  | S f =>
      let c := rd m t in
      let m' := wr m s c in
      if negb (c =? 0) then strcpy_loop f m' (s + 1) (t + 1) else Some m'
  end.
Definition strcpy (fuel : nat) (m : mem) (s t : Z) : option mem := strcpy_loop fuel m s t.

(** [while( *p && *p == *q) p++, q++; return (uchar)*p - (uchar)*q;] *)
Fixpoint strcmp (fuel : nat) (m : mem) (p q : Z) : option Z :=
  match fuel with
  | O => None
  | S f =>
      if negb (rd m p =? 0) && (rd m p =? rd m q) then strcmp f m (p + 1) (q + 1)
      else Some (rd m p - rd m q)
  end.

(** The same loop as the kernel's [strlen]; the count is an [int], returned as
    [uint]. *)
Definition u_strlen (fuel : nat) (m : mem) (s : Z) : option Z := u32 <$> strlen_loop fuel m s 0.

Definition u_memset (m : mem) (dst c n : Z) : mem := memset_loop m dst c (Z.to_nat n).

(** [for(; *s; s++) if( *s == c) return s; return 0;] *)
Fixpoint strchr (fuel : nat) (m : mem) (s c : Z) : option Z :=
  match fuel with
  | O => None
  | S f =>
      if rd m s =? 0 then Some 0
      else if rd m s =? c then Some s
      else strchr f m (s + 1) c
  end.

(** [while('0' <= *s && *s <= '9') n = n*10 + *s++ - '0';] *)
Fixpoint atoi_loop (fuel : nat) (m : mem) (s n : Z) : option Z :=
  match fuel with
  | O => None
  | S f =>
      let c := rd m s in
      if (48 <=? c) && (c <=? 57) then atoi_loop f m (s + 1) (i32 (n * 10 + c - 48))
      else Some n
  end.
Definition atoi (fuel : nat) (m : mem) (s : Z) : option Z := atoi_loop fuel m s 0.

Definition u_memmove (m : mem) (vdst vsrc n : Z) : mem :=
  if vsrc >? vdst then copy_fwd m vdst vsrc (Z.to_nat n)
  else copy_bwd m (vdst + n) (vsrc + n) (Z.to_nat n).

Definition u_memcmp (m : mem) (s1 s2 n : Z) : Z := memcmp_loop m s1 s2 (Z.to_nat n).

Definition u_memcpy (m : mem) (dst src n : Z) : mem := u_memmove m dst src n.

(** ** Properties *)

(** The user library's [memmove] decides its direction differently from the
    kernel's, and still both are the same function on memory, for every overlap. *)
Theorem u_memmove_memmove m dst src n a :
  0 <= n -> rd (u_memmove m dst src n) a = rd (memmove m dst src n) a.
Proof.
  intros Hn. unfold memmove. destruct (Z.eqb_spec n 0) as [->|].
  { unfold u_memmove. by destruct (src >? dst). }
  unfold u_memmove. destruct (Z.gtb_spec src dst).
  - rewrite copy_fwd_rd by lia. destruct ((src <? dst) && (src + n >? dst)) eqn:E; [lia|].
    by rewrite copy_fwd_rd by lia.
  - rewrite copy_bwd_rd by lia. destruct ((src <? dst) && (src + n >? dst)) eqn:E.
    + by rewrite copy_bwd_rd by lia.
    + rewrite copy_fwd_rd by lia. rewrite Z2Nat.id by lia.
      repeat case_decide; try lia; f_equal; lia.
Qed.

Lemma u_memmove_memmove_witness :
  let m := wr (wr (wr ∅ 10 7) 11 8) 12 9 in
  0 <= 3 /\ rd (u_memmove m 11 10 3) 13 = rd (memmove m 11 10 3) 13.
Proof. intros m. split; [lia|]. by apply (u_memmove_memmove m 11 10 3 13). Defined.

Lemma cstr_tail m p c l : cstr m p (c :: l) -> rd m p = c /\ c <> 0 /\ cstr m (p + 1) l.
Proof.
  intros [H1 H2]. destruct (H1 0%nat c eq_refl) as [Hc Hne]. rewrite Z.add_0_r in Hc.
  split_and!; [done|done|]. split.
  - intros i d Hi. destruct (H1 (S i) d Hi) as [<- ?]. split; [f_equal; lia|done].
  - rewrite <- H2. simpl length. f_equal. lia.
Qed.
Lemma cstr_nil m p : cstr m p [] -> rd m p = 0.
Proof. intros [_ H]. simpl in H. by rewrite Z.add_0_r in H. Qed.

(** [strcmp] terminates on two C strings and returns 0 exactly when they are
    equal. *)
Theorem strcmp_spec m l : forall p q l' fuel,
  cstr m p l -> cstr m q l' -> (length l < fuel)%nat ->
  exists r, strcmp fuel m p q = Some r /\ (r = 0 <-> l = l').
Proof.
  induction l as [|c l IH]; intros p q l' fuel Hp Hq Hf;
    (destruct fuel as [|fuel]; [simpl in Hf; lia|]); simpl.
  - apply cstr_nil in Hp. rewrite Hp; simpl. exists (0 - rd m q). split; [done|].
    destruct l' as [|d l']; [apply cstr_nil in Hq; split; [done|lia]|].
    apply cstr_tail in Hq as (? & ? & _). split; [lia|done].
  - apply cstr_tail in Hp as (Hc & Hne & Hp). rewrite Hc.
    destruct (Z.eqb_spec c 0); [done|]; simpl.
    destruct l' as [|d l'].
    + apply cstr_nil in Hq. rewrite Hq. destruct (Z.eqb_spec c 0); [done|].
      exists (c - 0). split; [done|]. split; [lia|done].
    + apply cstr_tail in Hq as (Hd & ? & Hq). rewrite Hd. destruct (Z.eqb_spec c d) as [->|].
      * destruct (IH (p + 1) (q + 1) l' fuel Hp Hq) as (r & Hr & Hi); [simpl in Hf; lia|].
        exists r. split; [done|]. rewrite Hi. split; [by intros ->|by intros [= ->]].
      * exists (c - d). split; [done|]. split; [lia|by intros [= ? _]].
Qed.

Lemma strcmp_spec_witness :
  let m := wr_bytes (wr_bytes ∅ 0 (chars "sh")) 10 (chars "sh") in
  (cstr m 0 (chars "sh") /\ cstr m 10 (chars "sh") /\ (length (chars "sh") < 3)%nat) /\
  exists r, strcmp 3 m 0 10 = Some r /\ (r = 0 <-> chars "sh" = chars "sh").
Proof.
  intros m.
  assert (cstr m 0 (chars "sh")) as H1
    by (apply cstr_intro; [repeat constructor; done|reflexivity|reflexivity]).
  assert (cstr m 10 (chars "sh")) as H2
    by (apply cstr_intro; [repeat constructor; done|reflexivity|reflexivity]).
  split; [split_and!; [done|done|simpl; lia]|].
  exact (strcmp_spec m (chars "sh") 0 10 (chars "sh") 3 H1 H2 ltac:(simpl; lia)).
Defined.

Lemma dec_value_ge l n : Forall is_digit l -> 0 <= n -> n <= foldl dec_step n l.
Proof.
  intros Hl. revert n. induction Hl as [|c l Hc _ IH]; intros n Hn; simpl; [lia|].
  unfold is_digit in Hc. etransitivity; [|apply IH]; unfold dec_step; lia.
Qed.

Lemma atoi_loop_digits m l : forall p n fuel,
  Forall is_digit l -> cstr m p l -> 0 <= n -> foldl dec_step n l < 2^31 -> (length l < fuel)%nat ->
  atoi_loop fuel m p n = Some (foldl dec_step n l).
Proof.
  induction l as [|c l IH]; intros p n fuel Hd Hc Hn Hb Hf;
    (destruct fuel as [|fuel]; [simpl in Hf; lia|]); simpl.
  - by rewrite (cstr_nil _ _ Hc).
  - apply cstr_tail in Hc as (-> & _ & Hc). inversion Hd as [|? ? Hcd Hd']; subst.
    unfold is_digit in Hcd. simpl in Hb, Hf.
    assert (0 <= dec_step n c) by (unfold dec_step; lia).
    pose proof (dec_value_ge l (dec_step n c) Hd' ltac:(done)).
    destruct (Z.leb_spec 48 c); [|lia]. destruct (Z.leb_spec c 57); [|lia]. simpl.
    rewrite i32_small by (unfold dec_step in *; lia).
    replace (n * 10 + c - 48) with (dec_step n c) by (unfold dec_step; lia).
    apply IH; [done|done|done|done|lia].
Qed.

(** [atoi] reads back what [printint] prints: for every non-negative int, the
    decimal string printed by the kernel or the user library is converted to the
    same number. *)
Theorem atoi_printint m p n fuel :
  0 <= n < 2^31 -> cstr m p (printint n 10 true) -> (11 < fuel)%nat -> atoi fuel m p = Some n.
Proof.
  intros Hn Hc Hf. destruct (printint_decimal n ltac:(lia)) as (ds & Hp & Hd & Hv & _ & _ & Hlen).
  destruct (Z.ltb_spec n 0); [lia|]. rewrite Hp in Hc, Hlen.
  unfold atoi. rewrite (atoi_loop_digits m ds); try done.
  - fold (dec_value ds). rewrite Hv. f_equal. lia.
  - fold (dec_value ds). lia.
  - lia.
Qed.

Lemma atoi_printint_witness :
  let m := wr_bytes ∅ 0 (chars "1066") in
  (0 <= 1066 < 2^31 /\ cstr m 0 (printint 1066 10 true) /\ (11 < 12)%nat) /\ atoi 12 m 0 = Some 1066.
Proof.
  intros m. assert (cstr m 0 (printint 1066 10 true)) as H
    by (apply cstr_intro; [repeat constructor; done|reflexivity|reflexivity]).
  split; [split_and!; [lia|lia|done|lia]|].
  exact (atoi_printint m 0 1066 12 ltac:(lia) H ltac:(lia)).
Defined.

Lemma strchr_spec m l : forall p c fuel,
  cstr m p l -> (length l < fuel)%nat ->
  strchr fuel m p c =
    Some (match list_find (fun d => d = c) l with
          | Some (i, _) => p + Z.of_nat i | None => 0 end).
Proof.
  induction l as [|d l IH]; intros p c fuel Hp Hf;
    (destruct fuel as [|fuel]; [simpl in Hf; lia|]); simpl.
  - by rewrite (cstr_nil _ _ Hp).
  - apply cstr_tail in Hp as (-> & Hne & Hp). destruct (Z.eqb_spec d 0); [done|].
    destruct (Z.eqb_spec d c) as [->|].
    + rewrite decide_True by done. simpl. do 2 f_equal. lia.
    + rewrite decide_False by done. rewrite (IH (p + 1) c fuel Hp) by (simpl in Hf; lia).
      f_equal. destruct (list_find (fun d => d = c) l) as [[i ?]|]; simpl; [lia|done].
Qed.
