(* ===== verification/State.v ===== *)
(** * The kernel's data

    The structs of the kernel headers and of the kernel's C files as records,
    the kernel's global variables as one record [kst], and the functions that
    update one field ([up_x f r] applies [f] to field [x] of [r]).

    Pointers to the elements of a static array ([struct proc *], [struct file *],
    [struct inode *], [struct buf *]) are indices, a null pointer is [None];
    pages and user addresses are integers. The channels that threads sleep on
    are addresses of distinct objects in C, distinct constructors here. *)

From S2P Require Import Prelude CString.

(** ** kernel/param.h, kernel/memlayout.h and kernel/riscv.h *)

Definition NPROC : nat := 64.
Definition NOFILE : nat := 16.
Definition NFILE : nat := 100.
Definition NINODE : nat := 50.
Definition NDEV : Z := 10.
Definition ROOTDEV : Z := 1.
Definition MAXARG : nat := 32.
Definition MAXOPBLOCKS : Z := 10.
Definition LOGSIZE : Z := MAXOPBLOCKS * 3.
Definition NBUF : nat := 30.
Definition FSSIZE : Z := 2000.
Definition MAXPATH : Z := 128.

Definition PGSIZE : Z := 4096.
Definition KERNBASE : Z := 0x80000000.
Definition PHYSTOP : Z := KERNBASE + 128*1024*1024.
Definition MAXVA : Z := 2^38.
Definition TRAMPOLINE : Z := MAXVA - PGSIZE.
Definition TRAPFRAME : Z := TRAMPOLINE - PGSIZE.
Definition KSTACK (p : Z) : Z := TRAMPOLINE - (p + 1) * 2 * PGSIZE.

(** ** Locks and sleep channels *)

(** The spin locks of the kernel. *)
Inductive lockid : Type :=
| PidLock | WaitLock | ProcLock (i : nat) | TicksLock | KmemLock
| FtableLock | ItableLock | BcacheLock | LogLock | VdiskLock
| ConsLock | UartLock | PrLock | PipeLock (pi : Z)
| InodeSleepLk (i : nat) | BufSleepLk (i : nat).

(** The addresses passed to [sleep] and [wakeup]. *)
Inductive chan : Type :=
| ChanNull | ChanProc (i : nat) | ChanTicks | ChanLog
| ChanPipeR (pi : Z) | ChanPipeW (pi : Z) | ChanCons | ChanUart
| ChanDiskFree | ChanBuf (b : nat) | ChanInodeLk (i : nat) | ChanBufLk (b : nat).

#[global] Instance lockid_eq_dec : EqDecision lockid.
Proof. solve_decision. Defined.
#[global] Instance chan_eq_dec : EqDecision chan.
Proof. solve_decision. Defined.

(** The scheduler chosen by the Makefile's SCHEDULER flag. *)
Inductive policy : Type := RR | FCFS | PBS | MLFQ.
#[global] Instance policy_eq_dec : EqDecision policy.
Proof. solve_decision. Defined.

(** enum procstate *)
Inductive procstate : Type := UNUSED | USED | SLEEPING | RUNNABLE | RUNNING | ZOMBIE.
#[global] Instance procstate_eq_dec : EqDecision procstate.
Proof. solve_decision. Defined.

(** The type field of struct file. *)
Inductive ftype : Type := FD_NONE | FD_PIPE | FD_INODE | FD_DEVICE.
#[global] Instance ftype_eq_dec : EqDecision ftype.
Proof. solve_decision. Defined.

(** ** The structs *)

(** struct trapframe: the words that trampoline.S saves and restores. *)
Record trapframe : Type := mk_trapframe {
  tf_kernel_satp : Z;
  tf_kernel_sp : Z;
  tf_kernel_trap : Z;
  tf_epc : Z;
  tf_kernel_hartid : Z;
  tf_ra : Z;
  tf_sp : Z;
  tf_gp : Z;
  tf_tp : Z;
  tf_t0 : Z;
  tf_t1 : Z;
  tf_t2 : Z;
  tf_s0 : Z;
  tf_s1 : Z;
  tf_a0 : Z;
  tf_a1 : Z;
  tf_a2 : Z;
  tf_a3 : Z;
  tf_a4 : Z;
  tf_a5 : Z;
  tf_a6 : Z;
  tf_a7 : Z;
  tf_s2 : Z;
  tf_s3 : Z;
  tf_s4 : Z;
  tf_s5 : Z;
  tf_s6 : Z;
  tf_s7 : Z;
  tf_s8 : Z;
  tf_s9 : Z;
  tf_s10 : Z;
  tf_s11 : Z;
  tf_t3 : Z;
  tf_t4 : Z;
  tf_t5 : Z;
  tf_t6 : Z;
}.

Definition up_tf_kernel_satp (f : Z -> Z) (r : trapframe) : trapframe :=
  mk_trapframe (f (tf_kernel_satp r)) (tf_kernel_sp r) (tf_kernel_trap r) (tf_epc r) (tf_kernel_hartid r) (tf_ra r) (tf_sp r) (tf_gp r) (tf_tp r) (tf_t0 r) (tf_t1 r) (tf_t2 r) (tf_s0 r) (tf_s1 r) (tf_a0 r) (tf_a1 r) (tf_a2 r) (tf_a3 r) (tf_a4 r) (tf_a5 r) (tf_a6 r) (tf_a7 r) (tf_s2 r) (tf_s3 r) (tf_s4 r) (tf_s5 r) (tf_s6 r) (tf_s7 r) (tf_s8 r) (tf_s9 r) (tf_s10 r) (tf_s11 r) (tf_t3 r) (tf_t4 r) (tf_t5 r) (tf_t6 r).
Definition up_tf_kernel_sp (f : Z -> Z) (r : trapframe) : trapframe :=
  mk_trapframe (tf_kernel_satp r) (f (tf_kernel_sp r)) (tf_kernel_trap r) (tf_epc r) (tf_kernel_hartid r) (tf_ra r) (tf_sp r) (tf_gp r) (tf_tp r) (tf_t0 r) (tf_t1 r) (tf_t2 r) (tf_s0 r) (tf_s1 r) (tf_a0 r) (tf_a1 r) (tf_a2 r) (tf_a3 r) (tf_a4 r) (tf_a5 r) (tf_a6 r) (tf_a7 r) (tf_s2 r) (tf_s3 r) (tf_s4 r) (tf_s5 r) (tf_s6 r) (tf_s7 r) (tf_s8 r) (tf_s9 r) (tf_s10 r) (tf_s11 r) (tf_t3 r) (tf_t4 r) (tf_t5 r) (tf_t6 r).
Definition up_tf_kernel_trap (f : Z -> Z) (r : trapframe) : trapframe :=
  mk_trapframe (tf_kernel_satp r) (tf_kernel_sp r) (f (tf_kernel_trap r)) (tf_epc r) (tf_kernel_hartid r) (tf_ra r) (tf_sp r) (tf_gp r) (tf_tp r) (tf_t0 r) (tf_t1 r) (tf_t2 r) (tf_s0 r) (tf_s1 r) (tf_a0 r) (tf_a1 r) (tf_a2 r) (tf_a3 r) (tf_a4 r) (tf_a5 r) (tf_a6 r) (tf_a7 r) (tf_s2 r) (tf_s3 r) (tf_s4 r) (tf_s5 r) (tf_s6 r) (tf_s7 r) (tf_s8 r) (tf_s9 r) (tf_s10 r) (tf_s11 r) (tf_t3 r) (tf_t4 r) (tf_t5 r) (tf_t6 r).
Definition up_tf_epc (f : Z -> Z) (r : trapframe) : trapframe :=
  mk_trapframe (tf_kernel_satp r) (tf_kernel_sp r) (tf_kernel_trap r) (f (tf_epc r)) (tf_kernel_hartid r) (tf_ra r) (tf_sp r) (tf_gp r) (tf_tp r) (tf_t0 r) (tf_t1 r) (tf_t2 r) (tf_s0 r) (tf_s1 r) (tf_a0 r) (tf_a1 r) (tf_a2 r) (tf_a3 r) (tf_a4 r) (tf_a5 r) (tf_a6 r) (tf_a7 r) (tf_s2 r) (tf_s3 r) (tf_s4 r) (tf_s5 r) (tf_s6 r) (tf_s7 r) (tf_s8 r) (tf_s9 r) (tf_s10 r) (tf_s11 r) (tf_t3 r) (tf_t4 r) (tf_t5 r) (tf_t6 r).
Definition up_tf_kernel_hartid (f : Z -> Z) (r : trapframe) : trapframe :=
  mk_trapframe (tf_kernel_satp r) (tf_kernel_sp r) (tf_kernel_trap r) (tf_epc r) (f (tf_kernel_hartid r)) (tf_ra r) (tf_sp r) (tf_gp r) (tf_tp r) (tf_t0 r) (tf_t1 r) (tf_t2 r) (tf_s0 r) (tf_s1 r) (tf_a0 r) (tf_a1 r) (tf_a2 r) (tf_a3 r) (tf_a4 r) (tf_a5 r) (tf_a6 r) (tf_a7 r) (tf_s2 r) (tf_s3 r) (tf_s4 r) (tf_s5 r) (tf_s6 r) (tf_s7 r) (tf_s8 r) (tf_s9 r) (tf_s10 r) (tf_s11 r) (tf_t3 r) (tf_t4 r) (tf_t5 r) (tf_t6 r).
Definition up_tf_ra (f : Z -> Z) (r : trapframe) : trapframe :=
  mk_trapframe (tf_kernel_satp r) (tf_kernel_sp r) (tf_kernel_trap r) (tf_epc r) (tf_kernel_hartid r) (f (tf_ra r)) (tf_sp r) (tf_gp r) (tf_tp r) (tf_t0 r) (tf_t1 r) (tf_t2 r) (tf_s0 r) (tf_s1 r) (tf_a0 r) (tf_a1 r) (tf_a2 r) (tf_a3 r) (tf_a4 r) (tf_a5 r) (tf_a6 r) (tf_a7 r) (tf_s2 r) (tf_s3 r) (tf_s4 r) (tf_s5 r) (tf_s6 r) (tf_s7 r) (tf_s8 r) (tf_s9 r) (tf_s10 r) (tf_s11 r) (tf_t3 r) (tf_t4 r) (tf_t5 r) (tf_t6 r).
Definition up_tf_sp (f : Z -> Z) (r : trapframe) : trapframe :=
  mk_trapframe (tf_kernel_satp r) (tf_kernel_sp r) (tf_kernel_trap r) (tf_epc r) (tf_kernel_hartid r) (tf_ra r) (f (tf_sp r)) (tf_gp r) (tf_tp r) (tf_t0 r) (tf_t1 r) (tf_t2 r) (tf_s0 r) (tf_s1 r) (tf_a0 r) (tf_a1 r) (tf_a2 r) (tf_a3 r) (tf_a4 r) (tf_a5 r) (tf_a6 r) (tf_a7 r) (tf_s2 r) (tf_s3 r) (tf_s4 r) (tf_s5 r) (tf_s6 r) (tf_s7 r) (tf_s8 r) (tf_s9 r) (tf_s10 r) (tf_s11 r) (tf_t3 r) (tf_t4 r) (tf_t5 r) (tf_t6 r).
Definition up_tf_gp (f : Z -> Z) (r : trapframe) : trapframe :=
  mk_trapframe (tf_kernel_satp r) (tf_kernel_sp r) (tf_kernel_trap r) (tf_epc r) (tf_kernel_hartid r) (tf_ra r) (tf_sp r) (f (tf_gp r)) (tf_tp r) (tf_t0 r) (tf_t1 r) (tf_t2 r) (tf_s0 r) (tf_s1 r) (tf_a0 r) (tf_a1 r) (tf_a2 r) (tf_a3 r) (tf_a4 r) (tf_a5 r) (tf_a6 r) (tf_a7 r) (tf_s2 r) (tf_s3 r) (tf_s4 r) (tf_s5 r) (tf_s6 r) (tf_s7 r) (tf_s8 r) (tf_s9 r) (tf_s10 r) (tf_s11 r) (tf_t3 r) (tf_t4 r) (tf_t5 r) (tf_t6 r).
Definition up_tf_tp (f : Z -> Z) (r : trapframe) : trapframe :=
  mk_trapframe (tf_kernel_satp r) (tf_kernel_sp r) (tf_kernel_trap r) (tf_epc r) (tf_kernel_hartid r) (tf_ra r) (tf_sp r) (tf_gp r) (f (tf_tp r)) (tf_t0 r) (tf_t1 r) (tf_t2 r) (tf_s0 r) (tf_s1 r) (tf_a0 r) (tf_a1 r) (tf_a2 r) (tf_a3 r) (tf_a4 r) (tf_a5 r) (tf_a6 r) (tf_a7 r) (tf_s2 r) (tf_s3 r) (tf_s4 r) (tf_s5 r) (tf_s6 r) (tf_s7 r) (tf_s8 r) (tf_s9 r) (tf_s10 r) (tf_s11 r) (tf_t3 r) (tf_t4 r) (tf_t5 r) (tf_t6 r).
Definition up_tf_t0 (f : Z -> Z) (r : trapframe) : trapframe :=
  mk_trapframe (tf_kernel_satp r) (tf_kernel_sp r) (tf_kernel_trap r) (tf_epc r) (tf_kernel_hartid r) (tf_ra r) (tf_sp r) (tf_gp r) (tf_tp r) (f (tf_t0 r)) (tf_t1 r) (tf_t2 r) (tf_s0 r) (tf_s1 r) (tf_a0 r) (tf_a1 r) (tf_a2 r) (tf_a3 r) (tf_a4 r) (tf_a5 r) (tf_a6 r) (tf_a7 r) (tf_s2 r) (tf_s3 r) (tf_s4 r) (tf_s5 r) (tf_s6 r) (tf_s7 r) (tf_s8 r) (tf_s9 r) (tf_s10 r) (tf_s11 r) (tf_t3 r) (tf_t4 r) (tf_t5 r) (tf_t6 r).
Definition up_tf_t1 (f : Z -> Z) (r : trapframe) : trapframe :=
  mk_trapframe (tf_kernel_satp r) (tf_kernel_sp r) (tf_kernel_trap r) (tf_epc r) (tf_kernel_hartid r) (tf_ra r) (tf_sp r) (tf_gp r) (tf_tp r) (tf_t0 r) (f (tf_t1 r)) (tf_t2 r) (tf_s0 r) (tf_s1 r) (tf_a0 r) (tf_a1 r) (tf_a2 r) (tf_a3 r) (tf_a4 r) (tf_a5 r) (tf_a6 r) (tf_a7 r) (tf_s2 r) (tf_s3 r) (tf_s4 r) (tf_s5 r) (tf_s6 r) (tf_s7 r) (tf_s8 r) (tf_s9 r) (tf_s10 r) (tf_s11 r) (tf_t3 r) (tf_t4 r) (tf_t5 r) (tf_t6 r).
Definition up_tf_t2 (f : Z -> Z) (r : trapframe) : trapframe :=
  mk_trapframe (tf_kernel_satp r) (tf_kernel_sp r) (tf_kernel_trap r) (tf_epc r) (tf_kernel_hartid r) (tf_ra r) (tf_sp r) (tf_gp r) (tf_tp r) (tf_t0 r) (tf_t1 r) (f (tf_t2 r)) (tf_s0 r) (tf_s1 r) (tf_a0 r) (tf_a1 r) (tf_a2 r) (tf_a3 r) (tf_a4 r) (tf_a5 r) (tf_a6 r) (tf_a7 r) (tf_s2 r) (tf_s3 r) (tf_s4 r) (tf_s5 r) (tf_s6 r) (tf_s7 r) (tf_s8 r) (tf_s9 r) (tf_s10 r) (tf_s11 r) (tf_t3 r) (tf_t4 r) (tf_t5 r) (tf_t6 r).
Definition up_tf_s0 (f : Z -> Z) (r : trapframe) : trapframe :=
  mk_trapframe (tf_kernel_satp r) (tf_kernel_sp r) (tf_kernel_trap r) (tf_epc r) (tf_kernel_hartid r) (tf_ra r) (tf_sp r) (tf_gp r) (tf_tp r) (tf_t0 r) (tf_t1 r) (tf_t2 r) (f (tf_s0 r)) (tf_s1 r) (tf_a0 r) (tf_a1 r) (tf_a2 r) (tf_a3 r) (tf_a4 r) (tf_a5 r) (tf_a6 r) (tf_a7 r) (tf_s2 r) (tf_s3 r) (tf_s4 r) (tf_s5 r) (tf_s6 r) (tf_s7 r) (tf_s8 r) (tf_s9 r) (tf_s10 r) (tf_s11 r) (tf_t3 r) (tf_t4 r) (tf_t5 r) (tf_t6 r).
Definition up_tf_s1 (f : Z -> Z) (r : trapframe) : trapframe :=
  mk_trapframe (tf_kernel_satp r) (tf_kernel_sp r) (tf_kernel_trap r) (tf_epc r) (tf_kernel_hartid r) (tf_ra r) (tf_sp r) (tf_gp r) (tf_tp r) (tf_t0 r) (tf_t1 r) (tf_t2 r) (tf_s0 r) (f (tf_s1 r)) (tf_a0 r) (tf_a1 r) (tf_a2 r) (tf_a3 r) (tf_a4 r) (tf_a5 r) (tf_a6 r) (tf_a7 r) (tf_s2 r) (tf_s3 r) (tf_s4 r) (tf_s5 r) (tf_s6 r) (tf_s7 r) (tf_s8 r) (tf_s9 r) (tf_s10 r) (tf_s11 r) (tf_t3 r) (tf_t4 r) (tf_t5 r) (tf_t6 r).
Definition up_tf_a0 (f : Z -> Z) (r : trapframe) : trapframe :=
  mk_trapframe (tf_kernel_satp r) (tf_kernel_sp r) (tf_kernel_trap r) (tf_epc r) (tf_kernel_hartid r) (tf_ra r) (tf_sp r) (tf_gp r) (tf_tp r) (tf_t0 r) (tf_t1 r) (tf_t2 r) (tf_s0 r) (tf_s1 r) (f (tf_a0 r)) (tf_a1 r) (tf_a2 r) (tf_a3 r) (tf_a4 r) (tf_a5 r) (tf_a6 r) (tf_a7 r) (tf_s2 r) (tf_s3 r) (tf_s4 r) (tf_s5 r) (tf_s6 r) (tf_s7 r) (tf_s8 r) (tf_s9 r) (tf_s10 r) (tf_s11 r) (tf_t3 r) (tf_t4 r) (tf_t5 r) (tf_t6 r).
Definition up_tf_a1 (f : Z -> Z) (r : trapframe) : trapframe :=
  mk_trapframe (tf_kernel_satp r) (tf_kernel_sp r) (tf_kernel_trap r) (tf_epc r) (tf_kernel_hartid r) (tf_ra r) (tf_sp r) (tf_gp r) (tf_tp r) (tf_t0 r) (tf_t1 r) (tf_t2 r) (tf_s0 r) (tf_s1 r) (tf_a0 r) (f (tf_a1 r)) (tf_a2 r) (tf_a3 r) (tf_a4 r) (tf_a5 r) (tf_a6 r) (tf_a7 r) (tf_s2 r) (tf_s3 r) (tf_s4 r) (tf_s5 r) (tf_s6 r) (tf_s7 r) (tf_s8 r) (tf_s9 r) (tf_s10 r) (tf_s11 r) (tf_t3 r) (tf_t4 r) (tf_t5 r) (tf_t6 r).
Definition up_tf_a2 (f : Z -> Z) (r : trapframe) : trapframe :=
  mk_trapframe (tf_kernel_satp r) (tf_kernel_sp r) (tf_kernel_trap r) (tf_epc r) (tf_kernel_hartid r) (tf_ra r) (tf_sp r) (tf_gp r) (tf_tp r) (tf_t0 r) (tf_t1 r) (tf_t2 r) (tf_s0 r) (tf_s1 r) (tf_a0 r) (tf_a1 r) (f (tf_a2 r)) (tf_a3 r) (tf_a4 r) (tf_a5 r) (tf_a6 r) (tf_a7 r) (tf_s2 r) (tf_s3 r) (tf_s4 r) (tf_s5 r) (tf_s6 r) (tf_s7 r) (tf_s8 r) (tf_s9 r) (tf_s10 r) (tf_s11 r) (tf_t3 r) (tf_t4 r) (tf_t5 r) (tf_t6 r).
Definition up_tf_a3 (f : Z -> Z) (r : trapframe) : trapframe :=
  mk_trapframe (tf_kernel_satp r) (tf_kernel_sp r) (tf_kernel_trap r) (tf_epc r) (tf_kernel_hartid r) (tf_ra r) (tf_sp r) (tf_gp r) (tf_tp r) (tf_t0 r) (tf_t1 r) (tf_t2 r) (tf_s0 r) (tf_s1 r) (tf_a0 r) (tf_a1 r) (tf_a2 r) (f (tf_a3 r)) (tf_a4 r) (tf_a5 r) (tf_a6 r) (tf_a7 r) (tf_s2 r) (tf_s3 r) (tf_s4 r) (tf_s5 r) (tf_s6 r) (tf_s7 r) (tf_s8 r) (tf_s9 r) (tf_s10 r) (tf_s11 r) (tf_t3 r) (tf_t4 r) (tf_t5 r) (tf_t6 r).
Definition up_tf_a4 (f : Z -> Z) (r : trapframe) : trapframe :=
  mk_trapframe (tf_kernel_satp r) (tf_kernel_sp r) (tf_kernel_trap r) (tf_epc r) (tf_kernel_hartid r) (tf_ra r) (tf_sp r) (tf_gp r) (tf_tp r) (tf_t0 r) (tf_t1 r) (tf_t2 r) (tf_s0 r) (tf_s1 r) (tf_a0 r) (tf_a1 r) (tf_a2 r) (tf_a3 r) (f (tf_a4 r)) (tf_a5 r) (tf_a6 r) (tf_a7 r) (tf_s2 r) (tf_s3 r) (tf_s4 r) (tf_s5 r) (tf_s6 r) (tf_s7 r) (tf_s8 r) (tf_s9 r) (tf_s10 r) (tf_s11 r) (tf_t3 r) (tf_t4 r) (tf_t5 r) (tf_t6 r).
Definition up_tf_a5 (f : Z -> Z) (r : trapframe) : trapframe :=
  mk_trapframe (tf_kernel_satp r) (tf_kernel_sp r) (tf_kernel_trap r) (tf_epc r) (tf_kernel_hartid r) (tf_ra r) (tf_sp r) (tf_gp r) (tf_tp r) (tf_t0 r) (tf_t1 r) (tf_t2 r) (tf_s0 r) (tf_s1 r) (tf_a0 r) (tf_a1 r) (tf_a2 r) (tf_a3 r) (tf_a4 r) (f (tf_a5 r)) (tf_a6 r) (tf_a7 r) (tf_s2 r) (tf_s3 r) (tf_s4 r) (tf_s5 r) (tf_s6 r) (tf_s7 r) (tf_s8 r) (tf_s9 r) (tf_s10 r) (tf_s11 r) (tf_t3 r) (tf_t4 r) (tf_t5 r) (tf_t6 r).
Definition up_tf_a6 (f : Z -> Z) (r : trapframe) : trapframe :=
  mk_trapframe (tf_kernel_satp r) (tf_kernel_sp r) (tf_kernel_trap r) (tf_epc r) (tf_kernel_hartid r) (tf_ra r) (tf_sp r) (tf_gp r) (tf_tp r) (tf_t0 r) (tf_t1 r) (tf_t2 r) (tf_s0 r) (tf_s1 r) (tf_a0 r) (tf_a1 r) (tf_a2 r) (tf_a3 r) (tf_a4 r) (tf_a5 r) (f (tf_a6 r)) (tf_a7 r) (tf_s2 r) (tf_s3 r) (tf_s4 r) (tf_s5 r) (tf_s6 r) (tf_s7 r) (tf_s8 r) (tf_s9 r) (tf_s10 r) (tf_s11 r) (tf_t3 r) (tf_t4 r) (tf_t5 r) (tf_t6 r).
Definition up_tf_a7 (f : Z -> Z) (r : trapframe) : trapframe :=
  mk_trapframe (tf_kernel_satp r) (tf_kernel_sp r) (tf_kernel_trap r) (tf_epc r) (tf_kernel_hartid r) (tf_ra r) (tf_sp r) (tf_gp r) (tf_tp r) (tf_t0 r) (tf_t1 r) (tf_t2 r) (tf_s0 r) (tf_s1 r) (tf_a0 r) (tf_a1 r) (tf_a2 r) (tf_a3 r) (tf_a4 r) (tf_a5 r) (tf_a6 r) (f (tf_a7 r)) (tf_s2 r) (tf_s3 r) (tf_s4 r) (tf_s5 r) (tf_s6 r) (tf_s7 r) (tf_s8 r) (tf_s9 r) (tf_s10 r) (tf_s11 r) (tf_t3 r) (tf_t4 r) (tf_t5 r) (tf_t6 r).
Definition up_tf_s2 (f : Z -> Z) (r : trapframe) : trapframe :=
  mk_trapframe (tf_kernel_satp r) (tf_kernel_sp r) (tf_kernel_trap r) (tf_epc r) (tf_kernel_hartid r) (tf_ra r) (tf_sp r) (tf_gp r) (tf_tp r) (tf_t0 r) (tf_t1 r) (tf_t2 r) (tf_s0 r) (tf_s1 r) (tf_a0 r) (tf_a1 r) (tf_a2 r) (tf_a3 r) (tf_a4 r) (tf_a5 r) (tf_a6 r) (tf_a7 r) (f (tf_s2 r)) (tf_s3 r) (tf_s4 r) (tf_s5 r) (tf_s6 r) (tf_s7 r) (tf_s8 r) (tf_s9 r) (tf_s10 r) (tf_s11 r) (tf_t3 r) (tf_t4 r) (tf_t5 r) (tf_t6 r).
Definition up_tf_s3 (f : Z -> Z) (r : trapframe) : trapframe :=
  mk_trapframe (tf_kernel_satp r) (tf_kernel_sp r) (tf_kernel_trap r) (tf_epc r) (tf_kernel_hartid r) (tf_ra r) (tf_sp r) (tf_gp r) (tf_tp r) (tf_t0 r) (tf_t1 r) (tf_t2 r) (tf_s0 r) (tf_s1 r) (tf_a0 r) (tf_a1 r) (tf_a2 r) (tf_a3 r) (tf_a4 r) (tf_a5 r) (tf_a6 r) (tf_a7 r) (tf_s2 r) (f (tf_s3 r)) (tf_s4 r) (tf_s5 r) (tf_s6 r) (tf_s7 r) (tf_s8 r) (tf_s9 r) (tf_s10 r) (tf_s11 r) (tf_t3 r) (tf_t4 r) (tf_t5 r) (tf_t6 r).
Definition up_tf_s4 (f : Z -> Z) (r : trapframe) : trapframe :=
  mk_trapframe (tf_kernel_satp r) (tf_kernel_sp r) (tf_kernel_trap r) (tf_epc r) (tf_kernel_hartid r) (tf_ra r) (tf_sp r) (tf_gp r) (tf_tp r) (tf_t0 r) (tf_t1 r) (tf_t2 r) (tf_s0 r) (tf_s1 r) (tf_a0 r) (tf_a1 r) (tf_a2 r) (tf_a3 r) (tf_a4 r) (tf_a5 r) (tf_a6 r) (tf_a7 r) (tf_s2 r) (tf_s3 r) (f (tf_s4 r)) (tf_s5 r) (tf_s6 r) (tf_s7 r) (tf_s8 r) (tf_s9 r) (tf_s10 r) (tf_s11 r) (tf_t3 r) (tf_t4 r) (tf_t5 r) (tf_t6 r).
Definition up_tf_s5 (f : Z -> Z) (r : trapframe) : trapframe :=
  mk_trapframe (tf_kernel_satp r) (tf_kernel_sp r) (tf_kernel_trap r) (tf_epc r) (tf_kernel_hartid r) (tf_ra r) (tf_sp r) (tf_gp r) (tf_tp r) (tf_t0 r) (tf_t1 r) (tf_t2 r) (tf_s0 r) (tf_s1 r) (tf_a0 r) (tf_a1 r) (tf_a2 r) (tf_a3 r) (tf_a4 r) (tf_a5 r) (tf_a6 r) (tf_a7 r) (tf_s2 r) (tf_s3 r) (tf_s4 r) (f (tf_s5 r)) (tf_s6 r) (tf_s7 r) (tf_s8 r) (tf_s9 r) (tf_s10 r) (tf_s11 r) (tf_t3 r) (tf_t4 r) (tf_t5 r) (tf_t6 r).
Definition up_tf_s6 (f : Z -> Z) (r : trapframe) : trapframe :=
  mk_trapframe (tf_kernel_satp r) (tf_kernel_sp r) (tf_kernel_trap r) (tf_epc r) (tf_kernel_hartid r) (tf_ra r) (tf_sp r) (tf_gp r) (tf_tp r) (tf_t0 r) (tf_t1 r) (tf_t2 r) (tf_s0 r) (tf_s1 r) (tf_a0 r) (tf_a1 r) (tf_a2 r) (tf_a3 r) (tf_a4 r) (tf_a5 r) (tf_a6 r) (tf_a7 r) (tf_s2 r) (tf_s3 r) (tf_s4 r) (tf_s5 r) (f (tf_s6 r)) (tf_s7 r) (tf_s8 r) (tf_s9 r) (tf_s10 r) (tf_s11 r) (tf_t3 r) (tf_t4 r) (tf_t5 r) (tf_t6 r).
Definition up_tf_s7 (f : Z -> Z) (r : trapframe) : trapframe :=
  mk_trapframe (tf_kernel_satp r) (tf_kernel_sp r) (tf_kernel_trap r) (tf_epc r) (tf_kernel_hartid r) (tf_ra r) (tf_sp r) (tf_gp r) (tf_tp r) (tf_t0 r) (tf_t1 r) (tf_t2 r) (tf_s0 r) (tf_s1 r) (tf_a0 r) (tf_a1 r) (tf_a2 r) (tf_a3 r) (tf_a4 r) (tf_a5 r) (tf_a6 r) (tf_a7 r) (tf_s2 r) (tf_s3 r) (tf_s4 r) (tf_s5 r) (tf_s6 r) (f (tf_s7 r)) (tf_s8 r) (tf_s9 r) (tf_s10 r) (tf_s11 r) (tf_t3 r) (tf_t4 r) (tf_t5 r) (tf_t6 r).
Definition up_tf_s8 (f : Z -> Z) (r : trapframe) : trapframe :=
  mk_trapframe (tf_kernel_satp r) (tf_kernel_sp r) (tf_kernel_trap r) (tf_epc r) (tf_kernel_hartid r) (tf_ra r) (tf_sp r) (tf_gp r) (tf_tp r) (tf_t0 r) (tf_t1 r) (tf_t2 r) (tf_s0 r) (tf_s1 r) (tf_a0 r) (tf_a1 r) (tf_a2 r) (tf_a3 r) (tf_a4 r) (tf_a5 r) (tf_a6 r) (tf_a7 r) (tf_s2 r) (tf_s3 r) (tf_s4 r) (tf_s5 r) (tf_s6 r) (tf_s7 r) (f (tf_s8 r)) (tf_s9 r) (tf_s10 r) (tf_s11 r) (tf_t3 r) (tf_t4 r) (tf_t5 r) (tf_t6 r).
Definition up_tf_s9 (f : Z -> Z) (r : trapframe) : trapframe :=
  mk_trapframe (tf_kernel_satp r) (tf_kernel_sp r) (tf_kernel_trap r) (tf_epc r) (tf_kernel_hartid r) (tf_ra r) (tf_sp r) (tf_gp r) (tf_tp r) (tf_t0 r) (tf_t1 r) (tf_t2 r) (tf_s0 r) (tf_s1 r) (tf_a0 r) (tf_a1 r) (tf_a2 r) (tf_a3 r) (tf_a4 r) (tf_a5 r) (tf_a6 r) (tf_a7 r) (tf_s2 r) (tf_s3 r) (tf_s4 r) (tf_s5 r) (tf_s6 r) (tf_s7 r) (tf_s8 r) (f (tf_s9 r)) (tf_s10 r) (tf_s11 r) (tf_t3 r) (tf_t4 r) (tf_t5 r) (tf_t6 r).
Definition up_tf_s10 (f : Z -> Z) (r : trapframe) : trapframe :=
  mk_trapframe (tf_kernel_satp r) (tf_kernel_sp r) (tf_kernel_trap r) (tf_epc r) (tf_kernel_hartid r) (tf_ra r) (tf_sp r) (tf_gp r) (tf_tp r) (tf_t0 r) (tf_t1 r) (tf_t2 r) (tf_s0 r) (tf_s1 r) (tf_a0 r) (tf_a1 r) (tf_a2 r) (tf_a3 r) (tf_a4 r) (tf_a5 r) (tf_a6 r) (tf_a7 r) (tf_s2 r) (tf_s3 r) (tf_s4 r) (tf_s5 r) (tf_s6 r) (tf_s7 r) (tf_s8 r) (tf_s9 r) (f (tf_s10 r)) (tf_s11 r) (tf_t3 r) (tf_t4 r) (tf_t5 r) (tf_t6 r).
Definition up_tf_s11 (f : Z -> Z) (r : trapframe) : trapframe :=
  mk_trapframe (tf_kernel_satp r) (tf_kernel_sp r) (tf_kernel_trap r) (tf_epc r) (tf_kernel_hartid r) (tf_ra r) (tf_sp r) (tf_gp r) (tf_tp r) (tf_t0 r) (tf_t1 r) (tf_t2 r) (tf_s0 r) (tf_s1 r) (tf_a0 r) (tf_a1 r) (tf_a2 r) (tf_a3 r) (tf_a4 r) (tf_a5 r) (tf_a6 r) (tf_a7 r) (tf_s2 r) (tf_s3 r) (tf_s4 r) (tf_s5 r) (tf_s6 r) (tf_s7 r) (tf_s8 r) (tf_s9 r) (tf_s10 r) (f (tf_s11 r)) (tf_t3 r) (tf_t4 r) (tf_t5 r) (tf_t6 r).
Definition up_tf_t3 (f : Z -> Z) (r : trapframe) : trapframe :=
  mk_trapframe (tf_kernel_satp r) (tf_kernel_sp r) (tf_kernel_trap r) (tf_epc r) (tf_kernel_hartid r) (tf_ra r) (tf_sp r) (tf_gp r) (tf_tp r) (tf_t0 r) (tf_t1 r) (tf_t2 r) (tf_s0 r) (tf_s1 r) (tf_a0 r) (tf_a1 r) (tf_a2 r) (tf_a3 r) (tf_a4 r) (tf_a5 r) (tf_a6 r) (tf_a7 r) (tf_s2 r) (tf_s3 r) (tf_s4 r) (tf_s5 r) (tf_s6 r) (tf_s7 r) (tf_s8 r) (tf_s9 r) (tf_s10 r) (tf_s11 r) (f (tf_t3 r)) (tf_t4 r) (tf_t5 r) (tf_t6 r).
Definition up_tf_t4 (f : Z -> Z) (r : trapframe) : trapframe :=
  mk_trapframe (tf_kernel_satp r) (tf_kernel_sp r) (tf_kernel_trap r) (tf_epc r) (tf_kernel_hartid r) (tf_ra r) (tf_sp r) (tf_gp r) (tf_tp r) (tf_t0 r) (tf_t1 r) (tf_t2 r) (tf_s0 r) (tf_s1 r) (tf_a0 r) (tf_a1 r) (tf_a2 r) (tf_a3 r) (tf_a4 r) (tf_a5 r) (tf_a6 r) (tf_a7 r) (tf_s2 r) (tf_s3 r) (tf_s4 r) (tf_s5 r) (tf_s6 r) (tf_s7 r) (tf_s8 r) (tf_s9 r) (tf_s10 r) (tf_s11 r) (tf_t3 r) (f (tf_t4 r)) (tf_t5 r) (tf_t6 r).
Definition up_tf_t5 (f : Z -> Z) (r : trapframe) : trapframe :=
  mk_trapframe (tf_kernel_satp r) (tf_kernel_sp r) (tf_kernel_trap r) (tf_epc r) (tf_kernel_hartid r) (tf_ra r) (tf_sp r) (tf_gp r) (tf_tp r) (tf_t0 r) (tf_t1 r) (tf_t2 r) (tf_s0 r) (tf_s1 r) (tf_a0 r) (tf_a1 r) (tf_a2 r) (tf_a3 r) (tf_a4 r) (tf_a5 r) (tf_a6 r) (tf_a7 r) (tf_s2 r) (tf_s3 r) (tf_s4 r) (tf_s5 r) (tf_s6 r) (tf_s7 r) (tf_s8 r) (tf_s9 r) (tf_s10 r) (tf_s11 r) (tf_t3 r) (tf_t4 r) (f (tf_t5 r)) (tf_t6 r).
Definition up_tf_t6 (f : Z -> Z) (r : trapframe) : trapframe :=
  mk_trapframe (tf_kernel_satp r) (tf_kernel_sp r) (tf_kernel_trap r) (tf_epc r) (tf_kernel_hartid r) (tf_ra r) (tf_sp r) (tf_gp r) (tf_tp r) (tf_t0 r) (tf_t1 r) (tf_t2 r) (tf_s0 r) (tf_s1 r) (tf_a0 r) (tf_a1 r) (tf_a2 r) (tf_a3 r) (tf_a4 r) (tf_a5 r) (tf_a6 r) (tf_a7 r) (tf_s2 r) (tf_s3 r) (tf_s4 r) (tf_s5 r) (tf_s6 r) (tf_s7 r) (tf_s8 r) (tf_s9 r) (tf_s10 r) (tf_s11 r) (tf_t3 r) (tf_t4 r) (tf_t5 r) (f (tf_t6 r)).

Definition trapframe0 : trapframe :=
  mk_trapframe 0 0 0 0 0 0 0 0 0 0 0 0 0 0 0 0 0 0 0 0 0 0 0 0 0 0 0 0 0 0 0 0 0 0 0 0.

(** struct proc; of the saved kernel context only [ra] and [sp] are set by C code. *)
Record proc : Type := mk_proc {
  p_state : procstate;
  p_chan : chan;  (* if non-zero, sleeping on chan *)
  p_killed : Z;
  p_xstate : Z;  (* exit status *)
  p_pid : Z;
  p_ctime : Z;  (* creation time *)
  p_etime : Z;  (* exit time *)
  p_wtime : Z;  (* PBS: waiting time *)
  p_rtime : Z;  (* running time *)
  p_nrun : Z;  (* PBS: number of runs *)
  p_spriority : Z;  (* PBS: static priority *)
  p_niceness : Z;
  p_parent : option nat;
  p_kstack : Z;
  p_sz : Z;  (* size of process memory *)
  p_pagetable : Z;  (* 0 if none *)
  p_trapframe : Z;  (* address of the page, 0 if none *)
  p_ctx_ra : Z;
  p_ctx_sp : Z;
  p_ofile : list (option nat);  (* open files *)
  p_cwd : option nat;
  p_name : list Z;
  p_trace_mask : Z;
  p_queue : Z;  (* MLFQ: current queue *)
  p_slice : Z;  (* MLFQ: ticks in the current time slice *)
  p_ticks : list Z;  (* MLFQ: ticks got at each queue *)
  p_last_exec : Z;
}.

Definition up_p_state (f : procstate -> procstate) (r : proc) : proc :=
  mk_proc (f (p_state r)) (p_chan r) (p_killed r) (p_xstate r) (p_pid r) (p_ctime r) (p_etime r) (p_wtime r) (p_rtime r) (p_nrun r) (p_spriority r) (p_niceness r) (p_parent r) (p_kstack r) (p_sz r) (p_pagetable r) (p_trapframe r) (p_ctx_ra r) (p_ctx_sp r) (p_ofile r) (p_cwd r) (p_name r) (p_trace_mask r) (p_queue r) (p_slice r) (p_ticks r) (p_last_exec r).
Definition up_p_chan (f : chan -> chan) (r : proc) : proc :=
  mk_proc (p_state r) (f (p_chan r)) (p_killed r) (p_xstate r) (p_pid r) (p_ctime r) (p_etime r) (p_wtime r) (p_rtime r) (p_nrun r) (p_spriority r) (p_niceness r) (p_parent r) (p_kstack r) (p_sz r) (p_pagetable r) (p_trapframe r) (p_ctx_ra r) (p_ctx_sp r) (p_ofile r) (p_cwd r) (p_name r) (p_trace_mask r) (p_queue r) (p_slice r) (p_ticks r) (p_last_exec r).
Definition up_p_killed (f : Z -> Z) (r : proc) : proc :=
  mk_proc (p_state r) (p_chan r) (f (p_killed r)) (p_xstate r) (p_pid r) (p_ctime r) (p_etime r) (p_wtime r) (p_rtime r) (p_nrun r) (p_spriority r) (p_niceness r) (p_parent r) (p_kstack r) (p_sz r) (p_pagetable r) (p_trapframe r) (p_ctx_ra r) (p_ctx_sp r) (p_ofile r) (p_cwd r) (p_name r) (p_trace_mask r) (p_queue r) (p_slice r) (p_ticks r) (p_last_exec r).
Definition up_p_xstate (f : Z -> Z) (r : proc) : proc :=
  mk_proc (p_state r) (p_chan r) (p_killed r) (f (p_xstate r)) (p_pid r) (p_ctime r) (p_etime r) (p_wtime r) (p_rtime r) (p_nrun r) (p_spriority r) (p_niceness r) (p_parent r) (p_kstack r) (p_sz r) (p_pagetable r) (p_trapframe r) (p_ctx_ra r) (p_ctx_sp r) (p_ofile r) (p_cwd r) (p_name r) (p_trace_mask r) (p_queue r) (p_slice r) (p_ticks r) (p_last_exec r).
Definition up_p_pid (f : Z -> Z) (r : proc) : proc :=
  mk_proc (p_state r) (p_chan r) (p_killed r) (p_xstate r) (f (p_pid r)) (p_ctime r) (p_etime r) (p_wtime r) (p_rtime r) (p_nrun r) (p_spriority r) (p_niceness r) (p_parent r) (p_kstack r) (p_sz r) (p_pagetable r) (p_trapframe r) (p_ctx_ra r) (p_ctx_sp r) (p_ofile r) (p_cwd r) (p_name r) (p_trace_mask r) (p_queue r) (p_slice r) (p_ticks r) (p_last_exec r).
Definition up_p_ctime (f : Z -> Z) (r : proc) : proc :=
  mk_proc (p_state r) (p_chan r) (p_killed r) (p_xstate r) (p_pid r) (f (p_ctime r)) (p_etime r) (p_wtime r) (p_rtime r) (p_nrun r) (p_spriority r) (p_niceness r) (p_parent r) (p_kstack r) (p_sz r) (p_pagetable r) (p_trapframe r) (p_ctx_ra r) (p_ctx_sp r) (p_ofile r) (p_cwd r) (p_name r) (p_trace_mask r) (p_queue r) (p_slice r) (p_ticks r) (p_last_exec r).
Definition up_p_etime (f : Z -> Z) (r : proc) : proc :=
  mk_proc (p_state r) (p_chan r) (p_killed r) (p_xstate r) (p_pid r) (p_ctime r) (f (p_etime r)) (p_wtime r) (p_rtime r) (p_nrun r) (p_spriority r) (p_niceness r) (p_parent r) (p_kstack r) (p_sz r) (p_pagetable r) (p_trapframe r) (p_ctx_ra r) (p_ctx_sp r) (p_ofile r) (p_cwd r) (p_name r) (p_trace_mask r) (p_queue r) (p_slice r) (p_ticks r) (p_last_exec r).
Definition up_p_wtime (f : Z -> Z) (r : proc) : proc :=
  mk_proc (p_state r) (p_chan r) (p_killed r) (p_xstate r) (p_pid r) (p_ctime r) (p_etime r) (f (p_wtime r)) (p_rtime r) (p_nrun r) (p_spriority r) (p_niceness r) (p_parent r) (p_kstack r) (p_sz r) (p_pagetable r) (p_trapframe r) (p_ctx_ra r) (p_ctx_sp r) (p_ofile r) (p_cwd r) (p_name r) (p_trace_mask r) (p_queue r) (p_slice r) (p_ticks r) (p_last_exec r).
Definition up_p_rtime (f : Z -> Z) (r : proc) : proc :=
  mk_proc (p_state r) (p_chan r) (p_killed r) (p_xstate r) (p_pid r) (p_ctime r) (p_etime r) (p_wtime r) (f (p_rtime r)) (p_nrun r) (p_spriority r) (p_niceness r) (p_parent r) (p_kstack r) (p_sz r) (p_pagetable r) (p_trapframe r) (p_ctx_ra r) (p_ctx_sp r) (p_ofile r) (p_cwd r) (p_name r) (p_trace_mask r) (p_queue r) (p_slice r) (p_ticks r) (p_last_exec r).
Definition up_p_nrun (f : Z -> Z) (r : proc) : proc :=
  mk_proc (p_state r) (p_chan r) (p_killed r) (p_xstate r) (p_pid r) (p_ctime r) (p_etime r) (p_wtime r) (p_rtime r) (f (p_nrun r)) (p_spriority r) (p_niceness r) (p_parent r) (p_kstack r) (p_sz r) (p_pagetable r) (p_trapframe r) (p_ctx_ra r) (p_ctx_sp r) (p_ofile r) (p_cwd r) (p_name r) (p_trace_mask r) (p_queue r) (p_slice r) (p_ticks r) (p_last_exec r).
Definition up_p_spriority (f : Z -> Z) (r : proc) : proc :=
  mk_proc (p_state r) (p_chan r) (p_killed r) (p_xstate r) (p_pid r) (p_ctime r) (p_etime r) (p_wtime r) (p_rtime r) (p_nrun r) (f (p_spriority r)) (p_niceness r) (p_parent r) (p_kstack r) (p_sz r) (p_pagetable r) (p_trapframe r) (p_ctx_ra r) (p_ctx_sp r) (p_ofile r) (p_cwd r) (p_name r) (p_trace_mask r) (p_queue r) (p_slice r) (p_ticks r) (p_last_exec r).
Definition up_p_niceness (f : Z -> Z) (r : proc) : proc :=
  mk_proc (p_state r) (p_chan r) (p_killed r) (p_xstate r) (p_pid r) (p_ctime r) (p_etime r) (p_wtime r) (p_rtime r) (p_nrun r) (p_spriority r) (f (p_niceness r)) (p_parent r) (p_kstack r) (p_sz r) (p_pagetable r) (p_trapframe r) (p_ctx_ra r) (p_ctx_sp r) (p_ofile r) (p_cwd r) (p_name r) (p_trace_mask r) (p_queue r) (p_slice r) (p_ticks r) (p_last_exec r).
Definition up_p_parent (f : (option nat) -> (option nat)) (r : proc) : proc :=
  mk_proc (p_state r) (p_chan r) (p_killed r) (p_xstate r) (p_pid r) (p_ctime r) (p_etime r) (p_wtime r) (p_rtime r) (p_nrun r) (p_spriority r) (p_niceness r) (f (p_parent r)) (p_kstack r) (p_sz r) (p_pagetable r) (p_trapframe r) (p_ctx_ra r) (p_ctx_sp r) (p_ofile r) (p_cwd r) (p_name r) (p_trace_mask r) (p_queue r) (p_slice r) (p_ticks r) (p_last_exec r).
Definition up_p_kstack (f : Z -> Z) (r : proc) : proc :=
  mk_proc (p_state r) (p_chan r) (p_killed r) (p_xstate r) (p_pid r) (p_ctime r) (p_etime r) (p_wtime r) (p_rtime r) (p_nrun r) (p_spriority r) (p_niceness r) (p_parent r) (f (p_kstack r)) (p_sz r) (p_pagetable r) (p_trapframe r) (p_ctx_ra r) (p_ctx_sp r) (p_ofile r) (p_cwd r) (p_name r) (p_trace_mask r) (p_queue r) (p_slice r) (p_ticks r) (p_last_exec r).
Definition up_p_sz (f : Z -> Z) (r : proc) : proc :=
  mk_proc (p_state r) (p_chan r) (p_killed r) (p_xstate r) (p_pid r) (p_ctime r) (p_etime r) (p_wtime r) (p_rtime r) (p_nrun r) (p_spriority r) (p_niceness r) (p_parent r) (p_kstack r) (f (p_sz r)) (p_pagetable r) (p_trapframe r) (p_ctx_ra r) (p_ctx_sp r) (p_ofile r) (p_cwd r) (p_name r) (p_trace_mask r) (p_queue r) (p_slice r) (p_ticks r) (p_last_exec r).
Definition up_p_pagetable (f : Z -> Z) (r : proc) : proc :=
  mk_proc (p_state r) (p_chan r) (p_killed r) (p_xstate r) (p_pid r) (p_ctime r) (p_etime r) (p_wtime r) (p_rtime r) (p_nrun r) (p_spriority r) (p_niceness r) (p_parent r) (p_kstack r) (p_sz r) (f (p_pagetable r)) (p_trapframe r) (p_ctx_ra r) (p_ctx_sp r) (p_ofile r) (p_cwd r) (p_name r) (p_trace_mask r) (p_queue r) (p_slice r) (p_ticks r) (p_last_exec r).
Definition up_p_trapframe (f : Z -> Z) (r : proc) : proc :=
  mk_proc (p_state r) (p_chan r) (p_killed r) (p_xstate r) (p_pid r) (p_ctime r) (p_etime r) (p_wtime r) (p_rtime r) (p_nrun r) (p_spriority r) (p_niceness r) (p_parent r) (p_kstack r) (p_sz r) (p_pagetable r) (f (p_trapframe r)) (p_ctx_ra r) (p_ctx_sp r) (p_ofile r) (p_cwd r) (p_name r) (p_trace_mask r) (p_queue r) (p_slice r) (p_ticks r) (p_last_exec r).
Definition up_p_ctx_ra (f : Z -> Z) (r : proc) : proc :=
  mk_proc (p_state r) (p_chan r) (p_killed r) (p_xstate r) (p_pid r) (p_ctime r) (p_etime r) (p_wtime r) (p_rtime r) (p_nrun r) (p_spriority r) (p_niceness r) (p_parent r) (p_kstack r) (p_sz r) (p_pagetable r) (p_trapframe r) (f (p_ctx_ra r)) (p_ctx_sp r) (p_ofile r) (p_cwd r) (p_name r) (p_trace_mask r) (p_queue r) (p_slice r) (p_ticks r) (p_last_exec r).
Definition up_p_ctx_sp (f : Z -> Z) (r : proc) : proc :=
  mk_proc (p_state r) (p_chan r) (p_killed r) (p_xstate r) (p_pid r) (p_ctime r) (p_etime r) (p_wtime r) (p_rtime r) (p_nrun r) (p_spriority r) (p_niceness r) (p_parent r) (p_kstack r) (p_sz r) (p_pagetable r) (p_trapframe r) (p_ctx_ra r) (f (p_ctx_sp r)) (p_ofile r) (p_cwd r) (p_name r) (p_trace_mask r) (p_queue r) (p_slice r) (p_ticks r) (p_last_exec r).
Definition up_p_ofile (f : (list (option nat)) -> (list (option nat))) (r : proc) : proc :=
  mk_proc (p_state r) (p_chan r) (p_killed r) (p_xstate r) (p_pid r) (p_ctime r) (p_etime r) (p_wtime r) (p_rtime r) (p_nrun r) (p_spriority r) (p_niceness r) (p_parent r) (p_kstack r) (p_sz r) (p_pagetable r) (p_trapframe r) (p_ctx_ra r) (p_ctx_sp r) (f (p_ofile r)) (p_cwd r) (p_name r) (p_trace_mask r) (p_queue r) (p_slice r) (p_ticks r) (p_last_exec r).
Definition up_p_cwd (f : (option nat) -> (option nat)) (r : proc) : proc :=
  mk_proc (p_state r) (p_chan r) (p_killed r) (p_xstate r) (p_pid r) (p_ctime r) (p_etime r) (p_wtime r) (p_rtime r) (p_nrun r) (p_spriority r) (p_niceness r) (p_parent r) (p_kstack r) (p_sz r) (p_pagetable r) (p_trapframe r) (p_ctx_ra r) (p_ctx_sp r) (p_ofile r) (f (p_cwd r)) (p_name r) (p_trace_mask r) (p_queue r) (p_slice r) (p_ticks r) (p_last_exec r).
Definition up_p_name (f : (list Z) -> (list Z)) (r : proc) : proc :=
  mk_proc (p_state r) (p_chan r) (p_killed r) (p_xstate r) (p_pid r) (p_ctime r) (p_etime r) (p_wtime r) (p_rtime r) (p_nrun r) (p_spriority r) (p_niceness r) (p_parent r) (p_kstack r) (p_sz r) (p_pagetable r) (p_trapframe r) (p_ctx_ra r) (p_ctx_sp r) (p_ofile r) (p_cwd r) (f (p_name r)) (p_trace_mask r) (p_queue r) (p_slice r) (p_ticks r) (p_last_exec r).
Definition up_p_trace_mask (f : Z -> Z) (r : proc) : proc :=
  mk_proc (p_state r) (p_chan r) (p_killed r) (p_xstate r) (p_pid r) (p_ctime r) (p_etime r) (p_wtime r) (p_rtime r) (p_nrun r) (p_spriority r) (p_niceness r) (p_parent r) (p_kstack r) (p_sz r) (p_pagetable r) (p_trapframe r) (p_ctx_ra r) (p_ctx_sp r) (p_ofile r) (p_cwd r) (p_name r) (f (p_trace_mask r)) (p_queue r) (p_slice r) (p_ticks r) (p_last_exec r).
Definition up_p_queue (f : Z -> Z) (r : proc) : proc :=
  mk_proc (p_state r) (p_chan r) (p_killed r) (p_xstate r) (p_pid r) (p_ctime r) (p_etime r) (p_wtime r) (p_rtime r) (p_nrun r) (p_spriority r) (p_niceness r) (p_parent r) (p_kstack r) (p_sz r) (p_pagetable r) (p_trapframe r) (p_ctx_ra r) (p_ctx_sp r) (p_ofile r) (p_cwd r) (p_name r) (p_trace_mask r) (f (p_queue r)) (p_slice r) (p_ticks r) (p_last_exec r).
Definition up_p_slice (f : Z -> Z) (r : proc) : proc :=
  mk_proc (p_state r) (p_chan r) (p_killed r) (p_xstate r) (p_pid r) (p_ctime r) (p_etime r) (p_wtime r) (p_rtime r) (p_nrun r) (p_spriority r) (p_niceness r) (p_parent r) (p_kstack r) (p_sz r) (p_pagetable r) (p_trapframe r) (p_ctx_ra r) (p_ctx_sp r) (p_ofile r) (p_cwd r) (p_name r) (p_trace_mask r) (p_queue r) (f (p_slice r)) (p_ticks r) (p_last_exec r).
Definition up_p_ticks (f : (list Z) -> (list Z)) (r : proc) : proc :=
  mk_proc (p_state r) (p_chan r) (p_killed r) (p_xstate r) (p_pid r) (p_ctime r) (p_etime r) (p_wtime r) (p_rtime r) (p_nrun r) (p_spriority r) (p_niceness r) (p_parent r) (p_kstack r) (p_sz r) (p_pagetable r) (p_trapframe r) (p_ctx_ra r) (p_ctx_sp r) (p_ofile r) (p_cwd r) (p_name r) (p_trace_mask r) (p_queue r) (p_slice r) (f (p_ticks r)) (p_last_exec r).
Definition up_p_last_exec (f : Z -> Z) (r : proc) : proc :=
  mk_proc (p_state r) (p_chan r) (p_killed r) (p_xstate r) (p_pid r) (p_ctime r) (p_etime r) (p_wtime r) (p_rtime r) (p_nrun r) (p_spriority r) (p_niceness r) (p_parent r) (p_kstack r) (p_sz r) (p_pagetable r) (p_trapframe r) (p_ctx_ra r) (p_ctx_sp r) (p_ofile r) (p_cwd r) (p_name r) (p_trace_mask r) (p_queue r) (p_slice r) (p_ticks r) (f (p_last_exec r)).

(** A zeroed element of the static array [proc]. *)
Definition proc0 : proc :=
  mk_proc UNUSED ChanNull 0 0 0 0 0 0 0 0 0 0 None 0 0 0 0 0 0
    (replicate NOFILE None) None [] 0 0 0 (replicate 5 0) 0.

(** struct sleeplock, without the spin lock that protects it and its name. *)
Record sleeplock : Type := mk_sleeplock {
  sl_locked : bool;
  sl_pid : Z;
}.

Definition up_sl_locked (f : bool -> bool) (r : sleeplock) : sleeplock :=
  mk_sleeplock (f (sl_locked r)) (sl_pid r).
Definition up_sl_pid (f : Z -> Z) (r : sleeplock) : sleeplock :=
  mk_sleeplock (sl_locked r) (f (sl_pid r)).

(** struct file *)
Record file : Type := mk_file {
  f_type : ftype;
  f_ref : Z;  (* reference count *)
  f_readable : bool;
  f_writable : bool;
  f_pipe : Z;  (* FD_PIPE *)
  f_ip : option nat;  (* FD_INODE and FD_DEVICE *)
  f_off : Z;  (* FD_INODE *)
  f_major : Z;  (* FD_DEVICE *)
}.

Definition up_f_type (f : ftype -> ftype) (r : file) : file :=
  mk_file (f (f_type r)) (f_ref r) (f_readable r) (f_writable r) (f_pipe r) (f_ip r) (f_off r) (f_major r).
Definition up_f_ref (f : Z -> Z) (r : file) : file :=
  mk_file (f_type r) (f (f_ref r)) (f_readable r) (f_writable r) (f_pipe r) (f_ip r) (f_off r) (f_major r).
Definition up_f_readable (f : bool -> bool) (r : file) : file :=
  mk_file (f_type r) (f_ref r) (f (f_readable r)) (f_writable r) (f_pipe r) (f_ip r) (f_off r) (f_major r).
Definition up_f_writable (f : bool -> bool) (r : file) : file :=
  mk_file (f_type r) (f_ref r) (f_readable r) (f (f_writable r)) (f_pipe r) (f_ip r) (f_off r) (f_major r).
Definition up_f_pipe (f : Z -> Z) (r : file) : file :=
  mk_file (f_type r) (f_ref r) (f_readable r) (f_writable r) (f (f_pipe r)) (f_ip r) (f_off r) (f_major r).
Definition up_f_ip (f : (option nat) -> (option nat)) (r : file) : file :=
  mk_file (f_type r) (f_ref r) (f_readable r) (f_writable r) (f_pipe r) (f (f_ip r)) (f_off r) (f_major r).
Definition up_f_off (f : Z -> Z) (r : file) : file :=
  mk_file (f_type r) (f_ref r) (f_readable r) (f_writable r) (f_pipe r) (f_ip r) (f (f_off r)) (f_major r).
Definition up_f_major (f : Z -> Z) (r : file) : file :=
  mk_file (f_type r) (f_ref r) (f_readable r) (f_writable r) (f_pipe r) (f_ip r) (f_off r) (f (f_major r)).

Definition file0 : file := mk_file FD_NONE 0 false false 0 None 0 0.

(** struct inode: in-memory copy of an inode. *)
Record inode : Type := mk_inode {
  i_dev : Z;
  i_inum : Z;
  i_ref : Z;  (* reference count *)
  i_lock : sleeplock;
  i_valid : bool;  (* read from disk? *)
  i_type : Z;  (* copy of disk inode *)
  i_major : Z;
  i_minor : Z;
  i_nlink : Z;
  i_size : Z;
  i_addrs : list Z;
}.

Definition up_i_dev (f : Z -> Z) (r : inode) : inode :=
  mk_inode (f (i_dev r)) (i_inum r) (i_ref r) (i_lock r) (i_valid r) (i_type r) (i_major r) (i_minor r) (i_nlink r) (i_size r) (i_addrs r).
Definition up_i_inum (f : Z -> Z) (r : inode) : inode :=
  mk_inode (i_dev r) (f (i_inum r)) (i_ref r) (i_lock r) (i_valid r) (i_type r) (i_major r) (i_minor r) (i_nlink r) (i_size r) (i_addrs r).
Definition up_i_ref (f : Z -> Z) (r : inode) : inode :=
  mk_inode (i_dev r) (i_inum r) (f (i_ref r)) (i_lock r) (i_valid r) (i_type r) (i_major r) (i_minor r) (i_nlink r) (i_size r) (i_addrs r).
Definition up_i_lock (f : sleeplock -> sleeplock) (r : inode) : inode :=
  mk_inode (i_dev r) (i_inum r) (i_ref r) (f (i_lock r)) (i_valid r) (i_type r) (i_major r) (i_minor r) (i_nlink r) (i_size r) (i_addrs r).
Definition up_i_valid (f : bool -> bool) (r : inode) : inode :=
  mk_inode (i_dev r) (i_inum r) (i_ref r) (i_lock r) (f (i_valid r)) (i_type r) (i_major r) (i_minor r) (i_nlink r) (i_size r) (i_addrs r).
Definition up_i_type (f : Z -> Z) (r : inode) : inode :=
  mk_inode (i_dev r) (i_inum r) (i_ref r) (i_lock r) (i_valid r) (f (i_type r)) (i_major r) (i_minor r) (i_nlink r) (i_size r) (i_addrs r).
Definition up_i_major (f : Z -> Z) (r : inode) : inode :=
  mk_inode (i_dev r) (i_inum r) (i_ref r) (i_lock r) (i_valid r) (i_type r) (f (i_major r)) (i_minor r) (i_nlink r) (i_size r) (i_addrs r).
Definition up_i_minor (f : Z -> Z) (r : inode) : inode :=
  mk_inode (i_dev r) (i_inum r) (i_ref r) (i_lock r) (i_valid r) (i_type r) (i_major r) (f (i_minor r)) (i_nlink r) (i_size r) (i_addrs r).
Definition up_i_nlink (f : Z -> Z) (r : inode) : inode :=
  mk_inode (i_dev r) (i_inum r) (i_ref r) (i_lock r) (i_valid r) (i_type r) (i_major r) (i_minor r) (f (i_nlink r)) (i_size r) (i_addrs r).
Definition up_i_size (f : Z -> Z) (r : inode) : inode :=
  mk_inode (i_dev r) (i_inum r) (i_ref r) (i_lock r) (i_valid r) (i_type r) (i_major r) (i_minor r) (i_nlink r) (f (i_size r)) (i_addrs r).
Definition up_i_addrs (f : (list Z) -> (list Z)) (r : inode) : inode :=
  mk_inode (i_dev r) (i_inum r) (i_ref r) (i_lock r) (i_valid r) (i_type r) (i_major r) (i_minor r) (i_nlink r) (i_size r) (f (i_addrs r)).

Definition inode0 : inode :=
  mk_inode 0 0 0 (mk_sleeplock false 0) false 0 0 0 0 0 (replicate 13 0).

(** struct buf; [b_prev] and [b_next] are the links of the LRU list, [NBUF] is the list head. *)
Record buf : Type := mk_buf {
  b_valid : bool;  (* has data been read from disk? *)
  b_disk : bool;  (* does disk own buf? *)
  b_dev : Z;
  b_blockno : Z;
  b_lock : sleeplock;
  b_refcnt : Z;
  b_prev : nat;
  b_next : nat;
  b_data : list Z;
}.

Definition up_b_valid (f : bool -> bool) (r : buf) : buf :=
  mk_buf (f (b_valid r)) (b_disk r) (b_dev r) (b_blockno r) (b_lock r) (b_refcnt r) (b_prev r) (b_next r) (b_data r).
Definition up_b_disk (f : bool -> bool) (r : buf) : buf :=
  mk_buf (b_valid r) (f (b_disk r)) (b_dev r) (b_blockno r) (b_lock r) (b_refcnt r) (b_prev r) (b_next r) (b_data r).
Definition up_b_dev (f : Z -> Z) (r : buf) : buf :=
  mk_buf (b_valid r) (b_disk r) (f (b_dev r)) (b_blockno r) (b_lock r) (b_refcnt r) (b_prev r) (b_next r) (b_data r).
Definition up_b_blockno (f : Z -> Z) (r : buf) : buf :=
  mk_buf (b_valid r) (b_disk r) (b_dev r) (f (b_blockno r)) (b_lock r) (b_refcnt r) (b_prev r) (b_next r) (b_data r).
Definition up_b_lock (f : sleeplock -> sleeplock) (r : buf) : buf :=
  mk_buf (b_valid r) (b_disk r) (b_dev r) (b_blockno r) (f (b_lock r)) (b_refcnt r) (b_prev r) (b_next r) (b_data r).
Definition up_b_refcnt (f : Z -> Z) (r : buf) : buf :=
  mk_buf (b_valid r) (b_disk r) (b_dev r) (b_blockno r) (b_lock r) (f (b_refcnt r)) (b_prev r) (b_next r) (b_data r).
Definition up_b_prev (f : nat -> nat) (r : buf) : buf :=
  mk_buf (b_valid r) (b_disk r) (b_dev r) (b_blockno r) (b_lock r) (b_refcnt r) (f (b_prev r)) (b_next r) (b_data r).
Definition up_b_next (f : nat -> nat) (r : buf) : buf :=
  mk_buf (b_valid r) (b_disk r) (b_dev r) (b_blockno r) (b_lock r) (b_refcnt r) (b_prev r) (f (b_next r)) (b_data r).
Definition up_b_data (f : (list Z) -> (list Z)) (r : buf) : buf :=
  mk_buf (b_valid r) (b_disk r) (b_dev r) (b_blockno r) (b_lock r) (b_refcnt r) (b_prev r) (b_next r) (f (b_data r)).

(** struct superblock *)
Record superblock : Type := mk_superblock {
  sb_magic : Z;
  sb_size : Z;
  sb_nblocks : Z;
  sb_ninodes : Z;
  sb_nlog : Z;
  sb_logstart : Z;
  sb_inodestart : Z;
  sb_bmapstart : Z;
}.

(** struct log, with the log header [lh]: [n] is the length of [lh_block]. *)
Record logst : Type := mk_logst {
  lg_start : Z;
  lg_size : Z;
  lg_outstanding : Z;  (* FS system calls executing *)
  lg_committing : bool;
  lg_dev : Z;
  lh_block : list Z;
}.

Definition up_lg_start (f : Z -> Z) (r : logst) : logst :=
  mk_logst (f (lg_start r)) (lg_size r) (lg_outstanding r) (lg_committing r) (lg_dev r) (lh_block r).
Definition up_lg_size (f : Z -> Z) (r : logst) : logst :=
  mk_logst (lg_start r) (f (lg_size r)) (lg_outstanding r) (lg_committing r) (lg_dev r) (lh_block r).
Definition up_lg_outstanding (f : Z -> Z) (r : logst) : logst :=
  mk_logst (lg_start r) (lg_size r) (f (lg_outstanding r)) (lg_committing r) (lg_dev r) (lh_block r).
Definition up_lg_committing (f : bool -> bool) (r : logst) : logst :=
  mk_logst (lg_start r) (lg_size r) (lg_outstanding r) (f (lg_committing r)) (lg_dev r) (lh_block r).
Definition up_lg_dev (f : Z -> Z) (r : logst) : logst :=
  mk_logst (lg_start r) (lg_size r) (lg_outstanding r) (lg_committing r) (f (lg_dev r)) (lh_block r).
Definition up_lh_block (f : (list Z) -> (list Z)) (r : logst) : logst :=
  mk_logst (lg_start r) (lg_size r) (lg_outstanding r) (lg_committing r) (lg_dev r) (f (lh_block r)).

(** struct pipe *)
Record pipe : Type := mk_pipe {
  pi_data : list Z;
  pi_nread : Z;  (* number of bytes read *)
  pi_nwrite : Z;  (* number of bytes written *)
  pi_readopen : bool;
  pi_writeopen : bool;
}.

Definition up_pi_data (f : (list Z) -> (list Z)) (r : pipe) : pipe :=
  mk_pipe (f (pi_data r)) (pi_nread r) (pi_nwrite r) (pi_readopen r) (pi_writeopen r).
Definition up_pi_nread (f : Z -> Z) (r : pipe) : pipe :=
  mk_pipe (pi_data r) (f (pi_nread r)) (pi_nwrite r) (pi_readopen r) (pi_writeopen r).
Definition up_pi_nwrite (f : Z -> Z) (r : pipe) : pipe :=
  mk_pipe (pi_data r) (pi_nread r) (f (pi_nwrite r)) (pi_readopen r) (pi_writeopen r).
Definition up_pi_readopen (f : bool -> bool) (r : pipe) : pipe :=
  mk_pipe (pi_data r) (pi_nread r) (pi_nwrite r) (f (pi_readopen r)) (pi_writeopen r).
Definition up_pi_writeopen (f : bool -> bool) (r : pipe) : pipe :=
  mk_pipe (pi_data r) (pi_nread r) (pi_nwrite r) (pi_readopen r) (f (pi_writeopen r)).

(** The console input buffer of console.c. *)
Record consst : Type := mk_consst {
  c_buf : list Z;
  c_r : Z;  (* read index *)
  c_w : Z;  (* write index *)
  c_e : Z;  (* edit index *)
}.

Definition up_c_buf (f : (list Z) -> (list Z)) (r : consst) : consst :=
  mk_consst (f (c_buf r)) (c_r r) (c_w r) (c_e r).
Definition up_c_r (f : Z -> Z) (r : consst) : consst :=
  mk_consst (c_buf r) (f (c_r r)) (c_w r) (c_e r).
Definition up_c_w (f : Z -> Z) (r : consst) : consst :=
  mk_consst (c_buf r) (c_r r) (f (c_w r)) (c_e r).
Definition up_c_e (f : Z -> Z) (r : consst) : consst :=
  mk_consst (c_buf r) (c_r r) (c_w r) (f (c_e r)).

(** The transmit buffer of uart.c. *)
Record uartst : Type := mk_uartst {
  ua_buf : list Z;
  ua_w : Z;
  ua_r : Z;
}.

Definition up_ua_buf (f : (list Z) -> (list Z)) (r : uartst) : uartst :=
  mk_uartst (f (ua_buf r)) (ua_w r) (ua_r r).
Definition up_ua_w (f : Z -> Z) (r : uartst) : uartst :=
  mk_uartst (ua_buf r) (f (ua_w r)) (ua_r r).
Definition up_ua_r (f : Z -> Z) (r : uartst) : uartst :=
  mk_uartst (ua_buf r) (ua_w r) (f (ua_r r)).

(** What a descriptor of the virtio queue points to: a command header [disk.ops[i]],
    the data of a buffer, or a status byte [disk.info[i].status]. *)
Inductive vptr : Type := VNull | VOp (i : nat) | VData (b : nat) | VStatus (i : nat).

(** struct virtq_desc *)
Record vdesc : Type := mk_vdesc {
  d_addr : vptr;
  d_len : Z;
  d_flags : Z;
  d_next : Z;
}.

Definition up_d_addr (f : vptr -> vptr) (r : vdesc) : vdesc :=
  mk_vdesc (f (d_addr r)) (d_len r) (d_flags r) (d_next r).
Definition up_d_len (f : Z -> Z) (r : vdesc) : vdesc :=
  mk_vdesc (d_addr r) (f (d_len r)) (d_flags r) (d_next r).
Definition up_d_flags (f : Z -> Z) (r : vdesc) : vdesc :=
  mk_vdesc (d_addr r) (d_len r) (f (d_flags r)) (d_next r).
Definition up_d_next (f : Z -> Z) (r : vdesc) : vdesc :=
  mk_vdesc (d_addr r) (d_len r) (d_flags r) (f (d_next r)).

(** struct virtio_blk_req *)
Record vreq : Type := mk_vreq {
  rq_type : Z;
  rq_reserved : Z;
  rq_sector : Z;
}.

(** disk.info *)
Record vinfo : Type := mk_vinfo {
  in_b : option nat;
  in_status : Z;
}.

Definition up_in_b (f : (option nat) -> (option nat)) (r : vinfo) : vinfo :=
  mk_vinfo (f (in_b r)) (in_status r).
Definition up_in_status (f : Z -> Z) (r : vinfo) : vinfo :=
  mk_vinfo (in_b r) (f (in_status r)).

(** struct disk of virtio_disk.c, with the queue memory it shares with the device, and
    how many of the available requests the device has taken. *)
Record vdiskst : Type := mk_vdiskst {
  vd_desc : list vdesc;
  vd_avail : list Z;  (* avail->ring *)
  vd_aidx : Z;  (* avail->idx *)
  vd_used : list Z;  (* used->ring[].id *)
  vd_uidx : Z;  (* used->idx *)
  vd_free : list bool;
  vd_used_idx : Z;
  vd_info : list vinfo;
  vd_ops : list vreq;
  vd_seen : Z;  (* the device's own index *)
  vd_regs : list (Z * Z);  (* the register writes, newest first *)
}.

Definition up_vd_desc (f : (list vdesc) -> (list vdesc)) (r : vdiskst) : vdiskst :=
  mk_vdiskst (f (vd_desc r)) (vd_avail r) (vd_aidx r) (vd_used r) (vd_uidx r) (vd_free r) (vd_used_idx r) (vd_info r) (vd_ops r) (vd_seen r) (vd_regs r).
Definition up_vd_avail (f : (list Z) -> (list Z)) (r : vdiskst) : vdiskst :=
  mk_vdiskst (vd_desc r) (f (vd_avail r)) (vd_aidx r) (vd_used r) (vd_uidx r) (vd_free r) (vd_used_idx r) (vd_info r) (vd_ops r) (vd_seen r) (vd_regs r).
Definition up_vd_aidx (f : Z -> Z) (r : vdiskst) : vdiskst :=
  mk_vdiskst (vd_desc r) (vd_avail r) (f (vd_aidx r)) (vd_used r) (vd_uidx r) (vd_free r) (vd_used_idx r) (vd_info r) (vd_ops r) (vd_seen r) (vd_regs r).
Definition up_vd_used (f : (list Z) -> (list Z)) (r : vdiskst) : vdiskst :=
  mk_vdiskst (vd_desc r) (vd_avail r) (vd_aidx r) (f (vd_used r)) (vd_uidx r) (vd_free r) (vd_used_idx r) (vd_info r) (vd_ops r) (vd_seen r) (vd_regs r).
Definition up_vd_uidx (f : Z -> Z) (r : vdiskst) : vdiskst :=
  mk_vdiskst (vd_desc r) (vd_avail r) (vd_aidx r) (vd_used r) (f (vd_uidx r)) (vd_free r) (vd_used_idx r) (vd_info r) (vd_ops r) (vd_seen r) (vd_regs r).
Definition up_vd_free (f : (list bool) -> (list bool)) (r : vdiskst) : vdiskst :=
  mk_vdiskst (vd_desc r) (vd_avail r) (vd_aidx r) (vd_used r) (vd_uidx r) (f (vd_free r)) (vd_used_idx r) (vd_info r) (vd_ops r) (vd_seen r) (vd_regs r).
Definition up_vd_used_idx (f : Z -> Z) (r : vdiskst) : vdiskst :=
  mk_vdiskst (vd_desc r) (vd_avail r) (vd_aidx r) (vd_used r) (vd_uidx r) (vd_free r) (f (vd_used_idx r)) (vd_info r) (vd_ops r) (vd_seen r) (vd_regs r).
Definition up_vd_info (f : (list vinfo) -> (list vinfo)) (r : vdiskst) : vdiskst :=
  mk_vdiskst (vd_desc r) (vd_avail r) (vd_aidx r) (vd_used r) (vd_uidx r) (vd_free r) (vd_used_idx r) (f (vd_info r)) (vd_ops r) (vd_seen r) (vd_regs r).
Definition up_vd_ops (f : (list vreq) -> (list vreq)) (r : vdiskst) : vdiskst :=
  mk_vdiskst (vd_desc r) (vd_avail r) (vd_aidx r) (vd_used r) (vd_uidx r) (vd_free r) (vd_used_idx r) (vd_info r) (f (vd_ops r)) (vd_seen r) (vd_regs r).
Definition up_vd_seen (f : Z -> Z) (r : vdiskst) : vdiskst :=
  mk_vdiskst (vd_desc r) (vd_avail r) (vd_aidx r) (vd_used r) (vd_uidx r) (vd_free r) (vd_used_idx r) (vd_info r) (vd_ops r) (f (vd_seen r)) (vd_regs r).
Definition up_vd_regs (f : (list (Z * Z)) -> (list (Z * Z))) (r : vdiskst) : vdiskst :=
  mk_vdiskst (vd_desc r) (vd_avail r) (vd_aidx r) (vd_used r) (vd_uidx r) (vd_free r) (vd_used_idx r) (vd_info r) (vd_ops r) (vd_seen r) (f (vd_regs r)).

(** [struct disk] before [virtio_disk_init]. *)
Definition vdisk0 : vdiskst :=
  mk_vdiskst (replicate 8 (mk_vdesc VNull 0 0 0)) (replicate 8 0) 0 (replicate 8 0) 0
    (replicate 8 false) 0 (replicate 8 (mk_vinfo None 0)) (replicate 8 (mk_vreq 0 0 0)) 0 [].

(** ** The whole kernel *)

(** The kernel's global variables, as seen by one hart: [held] are the spin locks
    it holds, [cur] the process it runs. *)
Record kst : Type := mk_kst {
  held : list lockid;
  cur : option nat;  (* mycpu()->proc *)
  procs : list proc;
  nextpid : Z;
  initproc : option nat;
  ticks : Z;
  queues0 : list (option nat);  (* MLFQ: queues[0] *)
  queue_it0 : Z;  (* MLFQ: queue_it[0] *)
  pmem : mem;  (* physical memory *)
  freelist : Z;  (* kmem.freelist *)
  tframes : gmap Z trapframe;  (* trapframe pages *)
  pipes : gmap Z pipe;  (* pipe pages *)
  ftable : list file;
  itable : list inode;
  bufs : list buf;  (* bcache.buf, then bcache.head *)
  klog : logst;
  sb : superblock;
  disk : gmap Z (list Z);  (* blocks on the disk *)
  dwrites : list (Z * list Z);  (* the disk writes so far, newest first *)
  vdisk : vdiskst;  (* the disk driver *)
  kcons : consst;
  kuart : uartst;
  kout : list Z;  (* bytes written to the UART, newest first *)
}.

Definition up_held (f : (list lockid) -> (list lockid)) (r : kst) : kst :=
  mk_kst (f (held r)) (cur r) (procs r) (nextpid r) (initproc r) (ticks r) (queues0 r) (queue_it0 r) (pmem r) (freelist r) (tframes r) (pipes r) (ftable r) (itable r) (bufs r) (klog r) (sb r) (disk r) (dwrites r) (vdisk r) (kcons r) (kuart r) (kout r).
Definition up_cur (f : (option nat) -> (option nat)) (r : kst) : kst :=
  mk_kst (held r) (f (cur r)) (procs r) (nextpid r) (initproc r) (ticks r) (queues0 r) (queue_it0 r) (pmem r) (freelist r) (tframes r) (pipes r) (ftable r) (itable r) (bufs r) (klog r) (sb r) (disk r) (dwrites r) (vdisk r) (kcons r) (kuart r) (kout r).
Definition up_procs (f : (list proc) -> (list proc)) (r : kst) : kst :=
  mk_kst (held r) (cur r) (f (procs r)) (nextpid r) (initproc r) (ticks r) (queues0 r) (queue_it0 r) (pmem r) (freelist r) (tframes r) (pipes r) (ftable r) (itable r) (bufs r) (klog r) (sb r) (disk r) (dwrites r) (vdisk r) (kcons r) (kuart r) (kout r).
Definition up_nextpid (f : Z -> Z) (r : kst) : kst :=
  mk_kst (held r) (cur r) (procs r) (f (nextpid r)) (initproc r) (ticks r) (queues0 r) (queue_it0 r) (pmem r) (freelist r) (tframes r) (pipes r) (ftable r) (itable r) (bufs r) (klog r) (sb r) (disk r) (dwrites r) (vdisk r) (kcons r) (kuart r) (kout r).
Definition up_initproc (f : (option nat) -> (option nat)) (r : kst) : kst :=
  mk_kst (held r) (cur r) (procs r) (nextpid r) (f (initproc r)) (ticks r) (queues0 r) (queue_it0 r) (pmem r) (freelist r) (tframes r) (pipes r) (ftable r) (itable r) (bufs r) (klog r) (sb r) (disk r) (dwrites r) (vdisk r) (kcons r) (kuart r) (kout r).
Definition up_ticks (f : Z -> Z) (r : kst) : kst :=
  mk_kst (held r) (cur r) (procs r) (nextpid r) (initproc r) (f (ticks r)) (queues0 r) (queue_it0 r) (pmem r) (freelist r) (tframes r) (pipes r) (ftable r) (itable r) (bufs r) (klog r) (sb r) (disk r) (dwrites r) (vdisk r) (kcons r) (kuart r) (kout r).
Definition up_queues0 (f : (list (option nat)) -> (list (option nat))) (r : kst) : kst :=
  mk_kst (held r) (cur r) (procs r) (nextpid r) (initproc r) (ticks r) (f (queues0 r)) (queue_it0 r) (pmem r) (freelist r) (tframes r) (pipes r) (ftable r) (itable r) (bufs r) (klog r) (sb r) (disk r) (dwrites r) (vdisk r) (kcons r) (kuart r) (kout r).
Definition up_queue_it0 (f : Z -> Z) (r : kst) : kst :=
  mk_kst (held r) (cur r) (procs r) (nextpid r) (initproc r) (ticks r) (queues0 r) (f (queue_it0 r)) (pmem r) (freelist r) (tframes r) (pipes r) (ftable r) (itable r) (bufs r) (klog r) (sb r) (disk r) (dwrites r) (vdisk r) (kcons r) (kuart r) (kout r).
Definition up_pmem (f : mem -> mem) (r : kst) : kst :=
  mk_kst (held r) (cur r) (procs r) (nextpid r) (initproc r) (ticks r) (queues0 r) (queue_it0 r) (f (pmem r)) (freelist r) (tframes r) (pipes r) (ftable r) (itable r) (bufs r) (klog r) (sb r) (disk r) (dwrites r) (vdisk r) (kcons r) (kuart r) (kout r).
Definition up_freelist (f : Z -> Z) (r : kst) : kst :=
  mk_kst (held r) (cur r) (procs r) (nextpid r) (initproc r) (ticks r) (queues0 r) (queue_it0 r) (pmem r) (f (freelist r)) (tframes r) (pipes r) (ftable r) (itable r) (bufs r) (klog r) (sb r) (disk r) (dwrites r) (vdisk r) (kcons r) (kuart r) (kout r).
Definition up_tframes (f : (gmap Z trapframe) -> (gmap Z trapframe)) (r : kst) : kst :=
  mk_kst (held r) (cur r) (procs r) (nextpid r) (initproc r) (ticks r) (queues0 r) (queue_it0 r) (pmem r) (freelist r) (f (tframes r)) (pipes r) (ftable r) (itable r) (bufs r) (klog r) (sb r) (disk r) (dwrites r) (vdisk r) (kcons r) (kuart r) (kout r).
Definition up_pipes (f : (gmap Z pipe) -> (gmap Z pipe)) (r : kst) : kst :=
  mk_kst (held r) (cur r) (procs r) (nextpid r) (initproc r) (ticks r) (queues0 r) (queue_it0 r) (pmem r) (freelist r) (tframes r) (f (pipes r)) (ftable r) (itable r) (bufs r) (klog r) (sb r) (disk r) (dwrites r) (vdisk r) (kcons r) (kuart r) (kout r).
Definition up_ftable (f : (list file) -> (list file)) (r : kst) : kst :=
  mk_kst (held r) (cur r) (procs r) (nextpid r) (initproc r) (ticks r) (queues0 r) (queue_it0 r) (pmem r) (freelist r) (tframes r) (pipes r) (f (ftable r)) (itable r) (bufs r) (klog r) (sb r) (disk r) (dwrites r) (vdisk r) (kcons r) (kuart r) (kout r).
Definition up_itable (f : (list inode) -> (list inode)) (r : kst) : kst :=
  mk_kst (held r) (cur r) (procs r) (nextpid r) (initproc r) (ticks r) (queues0 r) (queue_it0 r) (pmem r) (freelist r) (tframes r) (pipes r) (ftable r) (f (itable r)) (bufs r) (klog r) (sb r) (disk r) (dwrites r) (vdisk r) (kcons r) (kuart r) (kout r).
Definition up_bufs (f : (list buf) -> (list buf)) (r : kst) : kst :=
  mk_kst (held r) (cur r) (procs r) (nextpid r) (initproc r) (ticks r) (queues0 r) (queue_it0 r) (pmem r) (freelist r) (tframes r) (pipes r) (ftable r) (itable r) (f (bufs r)) (klog r) (sb r) (disk r) (dwrites r) (vdisk r) (kcons r) (kuart r) (kout r).
Definition up_klog (f : logst -> logst) (r : kst) : kst :=
  mk_kst (held r) (cur r) (procs r) (nextpid r) (initproc r) (ticks r) (queues0 r) (queue_it0 r) (pmem r) (freelist r) (tframes r) (pipes r) (ftable r) (itable r) (bufs r) (f (klog r)) (sb r) (disk r) (dwrites r) (vdisk r) (kcons r) (kuart r) (kout r).
Definition up_sb (f : superblock -> superblock) (r : kst) : kst :=
  mk_kst (held r) (cur r) (procs r) (nextpid r) (initproc r) (ticks r) (queues0 r) (queue_it0 r) (pmem r) (freelist r) (tframes r) (pipes r) (ftable r) (itable r) (bufs r) (klog r) (f (sb r)) (disk r) (dwrites r) (vdisk r) (kcons r) (kuart r) (kout r).
Definition up_disk (f : (gmap Z (list Z)) -> (gmap Z (list Z))) (r : kst) : kst :=
  mk_kst (held r) (cur r) (procs r) (nextpid r) (initproc r) (ticks r) (queues0 r) (queue_it0 r) (pmem r) (freelist r) (tframes r) (pipes r) (ftable r) (itable r) (bufs r) (klog r) (sb r) (f (disk r)) (dwrites r) (vdisk r) (kcons r) (kuart r) (kout r).
Definition up_dwrites (f : (list (Z * list Z)) -> (list (Z * list Z))) (r : kst) : kst :=
  mk_kst (held r) (cur r) (procs r) (nextpid r) (initproc r) (ticks r) (queues0 r) (queue_it0 r) (pmem r) (freelist r) (tframes r) (pipes r) (ftable r) (itable r) (bufs r) (klog r) (sb r) (disk r) (f (dwrites r)) (vdisk r) (kcons r) (kuart r) (kout r).
Definition up_vdisk (f : vdiskst -> vdiskst) (r : kst) : kst :=
  mk_kst (held r) (cur r) (procs r) (nextpid r) (initproc r) (ticks r) (queues0 r) (queue_it0 r) (pmem r) (freelist r) (tframes r) (pipes r) (ftable r) (itable r) (bufs r) (klog r) (sb r) (disk r) (dwrites r) (f (vdisk r)) (kcons r) (kuart r) (kout r).
Definition up_kcons (f : consst -> consst) (r : kst) : kst :=
  mk_kst (held r) (cur r) (procs r) (nextpid r) (initproc r) (ticks r) (queues0 r) (queue_it0 r) (pmem r) (freelist r) (tframes r) (pipes r) (ftable r) (itable r) (bufs r) (klog r) (sb r) (disk r) (dwrites r) (vdisk r) (f (kcons r)) (kuart r) (kout r).
Definition up_kuart (f : uartst -> uartst) (r : kst) : kst :=
  mk_kst (held r) (cur r) (procs r) (nextpid r) (initproc r) (ticks r) (queues0 r) (queue_it0 r) (pmem r) (freelist r) (tframes r) (pipes r) (ftable r) (itable r) (bufs r) (klog r) (sb r) (disk r) (dwrites r) (vdisk r) (kcons r) (f (kuart r)) (kout r).
Definition up_kout (f : (list Z) -> (list Z)) (r : kst) : kst :=
  mk_kst (held r) (cur r) (procs r) (nextpid r) (initproc r) (ticks r) (queues0 r) (queue_it0 r) (pmem r) (freelist r) (tframes r) (pipes r) (ftable r) (itable r) (bufs r) (klog r) (sb r) (disk r) (dwrites r) (vdisk r) (kcons r) (kuart r) (f (kout r)).

