(* ===== verification/Spinlock.v ===== *)
(** * Spin locks

    [kernel/spinlock.c] twice. First [Fine]: all harts at once, a step relation
    in which [acquire] and [release] are interleaved instruction by instruction
    (the atomic swap, the store to [lk->cpu], the atomic store of 0), for mutual
    exclusion and for the nesting of [push_off] and [pop_off]. Then the view the
    other files use, one hart and the set of locks it holds, where [acquire] and
    [release] are single operations; [Fine.reachable_ok] is what justifies it. *)

From stdpp Require Import functions.
From S2P Require Import Prelude CString State.

Module Fine.

(** The interrupt part of struct cpu, and the SIE bit of sstatus. [noff] is an [int] in the
    code; it counts the calls of [push_off] that a hart is in. *)
Record cpu : Type := mk_cpu { noff : Z; intena : bool; intr : bool }.

(** struct spinlock; [lcpu] is the hart of [lk->cpu]. *)
Record spinlock : Type := mk_spinlock { locked : Z; lcpu : option nat }.

Definition initlock : spinlock := mk_spinlock 0 None.

Definition push_off (c : cpu) : cpu :=
  let old := intr c in
  mk_cpu (noff c + 1) (if noff c =? 0 then old else intena c) false.

Definition pop_off : M cpu unit :=
  fun c =>
    if intr c then Panic "pop_off - interruptible" c
    else if noff c <? 1 then Panic "pop_off" c
    else
      let n := noff c - 1 in
      Done tt (mk_cpu n (intena c) (if (n =? 0) && intena c then true else intr c)).

Definition holding_by (lk : spinlock) (h : nat) : bool :=
  negb (locked lk =? 0) && bool_decide (lcpu lk = Some h).

(** Where a hart is inside [acquire] or [release]. *)
Inductive pc : Type :=
| Run
| Spin (l : nat)      (* in the test-and-set loop *)
| Got (l : nat)       (* swapped in 1, lk->cpu not yet stored *)
| Rel (l : nat)       (* lk->cpu cleared, lk->locked still 1 *)
| RelPop.             (* lk->locked cleared, pop_off still to do *)

(** A hart: its cpu, its position, the locks it has acquired and not begun to
    release, and the number of its push_off calls outside [acquire]. *)
Record hart : Type := mk_hart { hcpu : cpu; hpc : pc; owns : list nat; pushes : nat }.

Record machine : Type := mk_machine { harts : nat -> hart; locks : nat -> spinlock }.

Definition set_hart (m : machine) (h : nat) (x : hart) : machine :=
  mk_machine (<[h := x]> (harts m)) (locks m).
Definition set_lock (m : machine) (l : nat) (x : spinlock) : machine :=
  mk_machine (harts m) (<[l := x]> (locks m)).

(** The interleaved execution. An enabled [acquire] of a lock the hart already
    holds panics, which is no step. *)
Inductive step (m : machine) : machine -> Prop :=
| step_push h c o n : harts m h = mk_hart c Run o n ->
    step m (set_hart m h (mk_hart (push_off c) Run o (S n)))
| step_pop h c c' o n : harts m h = mk_hart c Run o (S n) -> pop_off c = Done tt c' ->
    step m (set_hart m h (mk_hart c' Run o n))
| step_intr h c o n b : harts m h = mk_hart c Run o n -> noff c = 0 ->
    step m (set_hart m h (mk_hart (mk_cpu (noff c) (intena c) b) Run o n))
| step_acquire h l c o n : harts m h = mk_hart c Run o n -> holding_by (locks m l) h = false ->
    step m (set_hart m h (mk_hart (push_off c) (Spin l) o n))
| step_swap h l c o n : harts m h = mk_hart c (Spin l) o n -> locked (locks m l) = 0 ->
    step m (set_lock (set_hart m h (mk_hart c (Got l) o n)) l
              (mk_spinlock 1 (lcpu (locks m l))))
| step_setcpu h l c o n : harts m h = mk_hart c (Got l) o n ->
    step m (set_lock (set_hart m h (mk_hart c Run (l :: o) n)) l
              (mk_spinlock (locked (locks m l)) (Some h)))
| step_release h l c o n : harts m h = mk_hart c Run o n -> holding_by (locks m l) h = true ->
    step m (set_lock (set_hart m h (mk_hart c (Rel l) (filter (.≠ l) o) n)) l
              (mk_spinlock (locked (locks m l)) None))
| step_unlock h l c o n : harts m h = mk_hart c (Rel l) o n ->
    step m (set_lock (set_hart m h (mk_hart c RelPop o n)) l
              (mk_spinlock 0 (lcpu (locks m l))))
| step_relpop h c c' o n : harts m h = mk_hart c RelPop o n -> pop_off c = Done tt c' ->
    step m (set_hart m h (mk_hart c' Run o n)).

(** All harts run, no lock is held, interrupts as they like. *)
Definition initial (m : machine) : Prop :=
  (forall h, exists i e, harts m h = mk_hart (mk_cpu 0 e i) Run [] 0) /\
  (forall l, locks m l = initlock).

Definition reachable (m : machine) : Prop := exists m0, initial m0 /\ rtc step m0 m.

(** A hart has the lock from the swap of [acquire] to the store of [release]. *)
Definition has (x : hart) (l : nat) : Prop := l ∈ owns x \/ hpc x = Got l \/ hpc x = Rel l.

(** The push_off of the acquire or release a hart is in. *)
Definition busy (p : pc) : Z := match p with Run => 0 | _ => 1 end.

Record ok (m : machine) : Prop := {
  ok_excl : forall h1 h2 l, has (harts m h1) l -> has (harts m h2) l -> h1 = h2;
  ok_locked : forall l, (locked (locks m l) = 1 /\ exists h, has (harts m h) l) \/
                        (locked (locks m l) = 0 /\ forall h, ~ has (harts m h) l);
  ok_lcpu : forall l h, lcpu (locks m l) = Some h <-> l ∈ owns (harts m h);
  ok_pc : forall h l, hpc (harts m h) = Got l \/ hpc (harts m h) = Rel l -> l ∉ owns (harts m h);
  ok_nodup : forall h, NoDup (owns (harts m h));
  ok_noff : forall h, noff (hcpu (harts m h)) =
    Z.of_nat (length (owns (harts m h))) + Z.of_nat (pushes (harts m h)) + busy (hpc (harts m h));
  ok_intr : forall h, 0 < noff (hcpu (harts m h)) -> intr (hcpu (harts m h)) = false }.

Lemma initial_ok m : initial m -> ok m.
Proof.
  intros [Hh Hl]. split.
  - intros h1 h2 l H1. destruct (Hh h1) as (i & e & E). rewrite E in H1.
    destruct H1 as [H1|[H1|H1]]; simpl in H1; [set_solver|done|done].
  - intros l. right. rewrite Hl. split; [done|]. intros h H1.
    destruct (Hh h) as (i & e & E). rewrite E in H1.
    destruct H1 as [H1|[H1|H1]]; simpl in H1; [set_solver|done|done].
  - intros l h. rewrite Hl. destruct (Hh h) as (i & e & ->). simpl. set_solver.
  - intros h l. destruct (Hh h) as (i & e & ->). simpl. set_solver.
  - intros h. destruct (Hh h) as (i & e & ->). constructor.
  - intros h. destruct (Hh h) as (i & e & ->). done.
  - intros h. destruct (Hh h) as (i & e & ->). simpl. lia.
Qed.

Lemma holding_owns m l h : ok m -> holding_by (locks m l) h = true <-> l ∈ owns (harts m h).
Proof.
  intros Hok. unfold holding_by. rewrite andb_true_iff, bool_decide_eq_true, negb_true_iff, Z.eqb_neq.
  rewrite (ok_lcpu m Hok). split; [by intros [_ ?]|]. intros Hin. split; [|done].
  destruct (ok_locked m Hok l) as [[-> _]|[_ Hno]]; [lia|]. destruct (Hno h). by left.
Qed.

Lemma harts_set m h x h' :
  harts (set_hart m h x) h' = if decide (h' = h) then x else harts m h'.
Proof.
  simpl. destruct (decide (h' = h)) as [->|]; [by rewrite fn_lookup_insert|].
  by rewrite fn_lookup_insert_ne.
Qed.
Lemma locks_set m l x l' :
  locks (set_lock m l x) l' = if decide (l' = l) then x else locks m l'.
Proof.
  simpl. destruct (decide (l' = l)) as [->|]; [by rewrite fn_lookup_insert|].
  by rewrite fn_lookup_insert_ne.
Qed.

(** A step that only moves one hart between positions in which it has the same
    locks keeps the invariant. *)
Lemma ok_set_hart m h x :
  ok m -> (forall l, has x l <-> has (harts m h) l) -> owns x = owns (harts m h) ->
  (forall l, hpc x = Got l \/ hpc x = Rel l -> l ∉ owns x) ->
  noff (hcpu x) = Z.of_nat (length (owns x)) + Z.of_nat (pushes x) + busy (hpc x) ->
  (0 < noff (hcpu x) -> intr (hcpu x) = false) ->
  ok (set_hart m h x).
Proof.
  intros Hok Hhas Hown Hpc Hnoff Hintr.
  assert (forall h' l, has (harts (set_hart m h x) h') l <-> has (harts m h') l) as Hh.
  { intros h' l. rewrite harts_set. case_decide; [by subst|done]. }
  split.
  - intros h1 h2 l. rewrite !Hh. apply (ok_excl m Hok).
  - intros l. destruct (ok_locked m Hok l) as [[? [h' ?]]|[? Hno]]; [left|right]; (split; [done|]).
    + exists h'. by apply Hh.
    + intros h'. by rewrite Hh.
  - intros l h'. change (locks (set_hart m h x)) with (locks m).
    rewrite harts_set, (ok_lcpu m Hok). case_decide; [subst; by rewrite Hown|done].
  - intros h' l. rewrite harts_set. case_decide; [apply Hpc|apply (ok_pc m Hok)].
  - intros h'. rewrite harts_set. case_decide; [rewrite Hown|]; apply (ok_nodup m Hok).
  - intros h'. rewrite harts_set. case_decide; [done|apply (ok_noff m Hok)].
  - intros h'. rewrite harts_set. case_decide; [done|apply (ok_intr m Hok)].
Qed.

Lemma pop_off_done c c' :
  pop_off c = Done tt c' ->
  noff c' = noff c - 1 /\ 1 <= noff c /\ (0 < noff c' -> intr c' = false).
Proof.
  unfold pop_off. destruct (intr c) eqn:Ei; [done|].
  destruct (Z.ltb_spec (noff c) 1); [done|]. intros [= <-]. simpl. split_and!; [lia|lia|].
  intros. destruct (Z.eqb_spec (noff c - 1) 0); [lia|]. done.
Qed.

Lemma has_run c o n l : has (mk_hart c Run o n) l <-> l ∈ o.
Proof. unfold has; simpl. naive_solver. Qed.
Lemma has_spin c k o n l : has (mk_hart c (Spin k) o n) l <-> l ∈ o.
Proof. unfold has; simpl. naive_solver. Qed.
Lemma has_relpop c o n l : has (mk_hart c RelPop o n) l <-> l ∈ o.
Proof. unfold has; simpl. naive_solver. Qed.
Lemma has_got c k o n l : has (mk_hart c (Got k) o n) l <-> l ∈ o \/ l = k.
Proof. unfold has; simpl. naive_solver. Qed.
Lemma has_rel c k o n l : has (mk_hart c (Rel k) o n) l <-> l ∈ o \/ l = k.
Proof. unfold has; simpl. naive_solver. Qed.
#[local] Hint Rewrite has_run has_spin has_relpop has_got has_rel : has.

(** The facts that the invariant gives about the hart that moves. *)
Lemma ok_hart m h c p o n :
  ok m -> harts m h = mk_hart c p o n ->
  NoDup o /\ noff c = Z.of_nat (length o) + Z.of_nat n + busy p /\ (0 < noff c -> intr c = false).
Proof.
  intros Hok E. pose proof (ok_nodup m Hok h). pose proof (ok_noff m Hok h).
  pose proof (ok_intr m Hok h). by rewrite E in *.
Qed.

(** The swap, the two stores of [release] and the store to [lk->cpu]: hart [h]
    goes to [x], lock [l] to [k]; every other lock keeps its owner. *)
Lemma ok_set_lock m h x l k :
  ok m -> (forall l', l' <> l -> has x l' <-> has (harts m h) l') ->
  (forall h', h' <> h -> ~ has (harts m h') l) ->
  (has x l /\ locked k = 1 \/ ~ has x l /\ locked k = 0) ->
  (forall l', l' <> l -> l' ∈ owns x <-> l' ∈ owns (harts m h)) ->
  lcpu k = (if decide (l ∈ owns x) then Some h else None) ->
  (forall l', hpc x = Got l' \/ hpc x = Rel l' -> l' ∉ owns x) ->
  NoDup (owns x) ->
  noff (hcpu x) = Z.of_nat (length (owns x)) + Z.of_nat (pushes x) + busy (hpc x) ->
  (0 < noff (hcpu x) -> intr (hcpu x) = false) ->
  ok (set_lock (set_hart m h x) l k).
Proof.
  intros Hok Hhas Hoth Hl Hown Hcpu Hpc Hnd Hnoff Hintr.
  assert (forall h' l', l' <> l -> has (harts (set_hart m h x) h') l' <-> has (harts m h') l') as Hh.
  { intros h' l' ?. rewrite harts_set. destruct (decide (h' = h)) as [->|]; [by apply Hhas|done]. }
  assert (forall h', has (harts (set_hart m h x) h') l -> h' = h) as Hhl.
  { intros h'. rewrite harts_set. destruct (decide (h' = h)) as [->|]; [done|]. intros. by destruct (Hoth h'). }
  change (harts (set_lock (set_hart m h x) l k)) with (harts (set_hart m h x)).
  split; change (harts (set_lock (set_hart m h x) l k)) with (harts (set_hart m h x)).
  - intros h1 h2 l' H1 H2. destruct (decide (l' = l)) as [->|].
    + by rewrite (Hhl h1 H1), (Hhl h2 H2).
    + rewrite Hh in H1, H2 by done. by eapply (ok_excl m Hok).
  - intros l'. rewrite locks_set. destruct (decide (l' = l)) as [->|].
    + destruct Hl as [[? ?]|[? ?]]; [left|right]; (split; [done|]).
      * exists h. rewrite harts_set. by rewrite decide_True.
      * intros h' Hh'. pose proof (Hhl h' Hh') as ->. rewrite harts_set in Hh'.
        by rewrite decide_True in Hh'.
    + destruct (ok_locked m Hok l') as [[? [h' ?]]|[? Hno]]; [left|right]; (split; [done|]).
      * exists h'. by apply Hh.
      * intros h'. rewrite Hh by done. apply Hno.
  - intros l' h'. rewrite locks_set. destruct (decide (l' = l)) as [->|].
    + rewrite Hcpu. rewrite harts_set. destruct (decide (h' = h)) as [->|].
      * case_decide; [done|]. done.
      * assert (l ∉ owns (harts m h')) by (intros ?; apply (Hoth h'); [done|by left]).
        case_decide; naive_solver.
    + rewrite (ok_lcpu m Hok l' h'), harts_set. destruct (decide (h' = h)) as [->|]; [by rewrite Hown|done].
  - intros h' l'. rewrite harts_set. destruct (decide (h' = h)) as [->|]; [apply Hpc|apply (ok_pc m Hok)].
  - intros h'. rewrite harts_set. destruct (decide (h' = h)) as [->|]; [done|apply (ok_nodup m Hok)].
  - intros h'. rewrite harts_set. destruct (decide (h' = h)) as [->|]; [done|apply (ok_noff m Hok)].
  - intros h'. rewrite harts_set. destruct (decide (h' = h)) as [->|]; [done|apply (ok_intr m Hok)].
Qed.

Lemma push_off_spec c :
  noff (push_off c) = noff c + 1 /\ intr (push_off c) = false.
Proof. done. Qed.

(** A position in which hart [h] has lock [l] excludes the others. *)
Lemma has_excl m h l : ok m -> has (harts m h) l -> forall h', h' <> h -> ~ has (harts m h') l.
Proof. intros Hok H1 h' Hne H2. apply Hne. by eapply (ok_excl m Hok). Qed.
Lemma unlocked_excl m l : ok m -> locked (locks m l) = 0 -> forall h, ~ has (harts m h) l.
Proof. intros Hok H0. destruct (ok_locked m Hok l) as [[? _]|[_ ?]]; [lia|done]. Qed.

Lemma length_filter_ne (l : nat) o :
  NoDup o -> l ∈ o -> length o = S (length (filter (.≠ l) o)).
Proof.
  induction 1 as [|x o Hx Hnd IH]; intros Hin; [set_solver|].
  rewrite filter_cons. destruct (decide (x ≠ l)) as [Hne|Heq].
  - simpl. rewrite IH by set_solver. done.
  - apply dec_stable in Heq. subst x. simpl. do 2 f_equal. clear Hin IH.
    induction o as [|y o IHo]; [done|]. apply not_elem_of_cons in Hx as [Hne Hx].
    apply NoDup_cons in Hnd as [_ Hnd]. rewrite filter_cons.
    rewrite decide_True by done. simpl. f_equal. auto.
Qed.

(** The steps that change no lock. *)
Ltac hart_moves E :=
  apply ok_set_hart; rewrite ?E; simpl;
  [done | intros l'; autorewrite with has; done | done | naive_solver | lia | try done; try lia].

Lemma step_ok m m' : ok m -> step m m' -> ok m'.
Proof.
  intros Hok Hst. destruct Hst as
    [h c o n E|h c c' o n E Hp|h c o n b E H0|h l c o n E Hh|h l c o n E H0|h l c o n E
    |h l c o n E Hh|h l c o n E|h c c' o n E Hp];
    destruct (ok_hart m h _ _ _ _ Hok E) as (Hnd & Hnoff & Hintr); simpl in Hnoff;
    try (apply pop_off_done in Hp as (Hn' & Hge & Hi'); simpl in *).
  - by hart_moves E.
  - by hart_moves E.
  - by hart_moves E.
  - by hart_moves E.
  - pose proof (unlocked_excl m l Hok H0) as Hno.
    assert (l ∉ o) as Hlo by (intros ?; apply (Hno h); rewrite E; by left).
    apply ok_set_lock; simpl; try done; try (rewrite E; simpl); try done; try lia.
    + intros; autorewrite with has. naive_solver.
    + left. autorewrite with has. naive_solver.
    + rewrite decide_False by done. destruct (lcpu (locks m l)) as [h'|] eqn:El; [|done].
      apply (ok_lcpu m Hok) in El. destruct (Hno h'). by left.
    + naive_solver.
  - assert (has (harts m h) l) as Hh by (rewrite E; autorewrite with has; by right).
    assert (l ∉ o) as Hlo.
    { pose proof (ok_pc m Hok h l) as Hp. rewrite E in Hp. apply Hp. by left. }
    pose proof (has_excl m h l Hok Hh) as Hex.
    apply ok_set_lock; simpl; try done; try (rewrite E; simpl); try done; try lia.
    + intros; autorewrite with has. set_solver.
    + left. autorewrite with has. split; [set_solver|].
      destruct (ok_locked m Hok l) as [[-> _]|[_ Hno]]; [done|by destruct (Hno h)].
    + set_solver.
    + rewrite decide_True by set_solver. done.
    + naive_solver.
    + by constructor.
  - apply (holding_owns m l h Hok) in Hh. pose proof Hh as Hlo. rewrite E in Hlo; simpl in Hlo.
    pose proof (has_excl m h l Hok (or_introl Hh)) as Hex.
    pose proof (length_filter_ne l o Hnd Hlo) as Hlen.
    apply ok_set_lock; simpl; try done; try (rewrite E; simpl); try done; try lia.
    + intros; autorewrite with has. rewrite list_elem_of_filter. naive_solver.
    + left. autorewrite with has. split; [by right|].
      destruct (ok_locked m Hok l) as [[-> _]|[_ Hno]]; [done|destruct (Hno h); by left].
    + intros l' ?. rewrite list_elem_of_filter. naive_solver.
    + rewrite decide_False; [done|]. rewrite list_elem_of_filter. naive_solver.
    + intros l' [?|[= <-]]; [done|]. rewrite list_elem_of_filter. naive_solver.
    + by apply NoDup_filter.
  - assert (has (harts m h) l) as Hh by (rewrite E; autorewrite with has; by right).
    assert (l ∉ o) as Hlo.
    { pose proof (ok_pc m Hok h l) as Hp. rewrite E in Hp. apply Hp. by right. }
    pose proof (has_excl m h l Hok Hh) as Hex.
    apply ok_set_lock; simpl; try done; try (rewrite E; simpl); try done; try lia.
    + intros; autorewrite with has. naive_solver.
    + right. autorewrite with has. done.
    + rewrite decide_False by done. destruct (lcpu (locks m l)) as [h'|] eqn:El; [|done].
      apply (ok_lcpu m Hok) in El. destruct (decide (h' = h)) as [->|].
      * by rewrite E in El.
      * destruct (Hex h'); [done|by left].
    + naive_solver.
  - by hart_moves E.
Qed.

Lemma reachable_ok m : reachable m -> ok m.
Proof.
  intros (m0 & H0 & Hs). apply initial_ok in H0. induction Hs; eauto using step_ok.
Qed.

(** C3. Mutual exclusion: in every interleaving of the harts' acquire and release
    code, at most one hart has a lock, from the test-and-set that took it to the store
    that gives it back. [holding_by] answers yes to exactly that hart, once it has stored
    [lk->cpu] and until it clears it. The hart has interrupts off and a [noff] that
    counts its locks and push_offs. *)
Theorem mutual_exclusion m h1 h2 l :
  reachable m -> has (harts m h1) l ->
  (has (harts m h2) l -> h1 = h2) /\
  (holding_by (locks m l) h2 = true <-> h2 = h1 /\ l ∈ owns (harts m h1)) /\
  intr (hcpu (harts m h1)) = false /\
  noff (hcpu (harts m h1)) =
    Z.of_nat (length (owns (harts m h1))) + Z.of_nat (pushes (harts m h1)) + busy (hpc (harts m h1)).
Proof.
  intros Hr H1. apply reachable_ok in Hr as Hok.
  assert (0 < noff (hcpu (harts m h1))) as Hpos.
  { rewrite (ok_noff m Hok). destruct H1 as [(a & b & ->)%list_elem_of_split|[->| ->]]; simpl; [|lia|lia].
    rewrite length_app; simpl. destruct (hpc (harts m h1)); simpl; lia. }
  split_and!.
  - intros H2. by apply (ok_excl m Hok _ _ l).
  - rewrite (holding_owns m l h2 Hok). split; [|by intros [-> ?]].
    intros H2. assert (h1 = h2) as <- by (apply (ok_excl m Hok _ _ l); [done|by left]). done.
  - by apply (ok_intr m Hok).
  - apply (ok_noff m Hok).
Qed.

(** One hart takes lock 0: the start of every acquire. *)
Definition demo0 : machine :=
  mk_machine (fun _ => mk_hart (mk_cpu 0 false true) Run [] 0) (fun _ => initlock).
Definition demo1 : machine :=
  set_hart demo0 0 (mk_hart (push_off (mk_cpu 0 false true)) (Spin 0) [] 0).
Definition demo2 : machine :=
  set_lock (set_hart demo1 0 (mk_hart (push_off (mk_cpu 0 false true)) (Got 0) [] 0)) 0
    (mk_spinlock 1 None).
Definition demo3 : machine :=
  set_lock (set_hart demo2 0 (mk_hart (push_off (mk_cpu 0 false true)) Run [0%nat] 0)) 0
    (mk_spinlock 1 (Some 0%nat)).

Lemma demo_reachable : reachable demo3.
Proof.
  exists demo0. split.
  { split; [intros h; by exists true, false|done]. }
  apply rtc_l with demo1; [by apply (step_acquire demo0 0 0)|].
  apply rtc_l with demo2; [by apply (step_swap demo1 0 0)|].
  apply rtc_l with demo3; [by apply (step_setcpu demo2 0 0)|]. apply rtc_refl.
Defined.

Lemma mutual_exclusion_witness :
  (reachable demo3 /\ 0%nat ∈ owns (harts demo3 0)) /\ intr (hcpu (harts demo3 0)) = false.
Proof.
  assert (0%nat ∈ owns (harts demo3 0)) as H by (simpl; set_solver).
  split; [split; [apply demo_reachable|done]|].
  apply (mutual_exclusion demo3 0 0 0 demo_reachable (or_introl H)).
Defined.

(** A sequence of push_off ([true]) and pop_off ([false]) calls. *)
Fixpoint run_pushpop (ops : list bool) : M cpu unit :=
  match ops with
  | [] => ret tt
  | true :: ops' => modify push_off ;;; run_pushpop ops'
  | false :: ops' => pop_off ;;; run_pushpop ops'
  end.

(** The nesting depth after [ops], or [None] if a pop_off has no push_off. *)
Fixpoint depth (ops : list bool) (d : nat) : option nat :=
  match ops with
  | [] => Some d
  | true :: ops' => depth ops' (S d)
  | false :: ops' => match d with O => None | S d' => depth ops' d' end
  end.

Lemma run_pushpop_depth (old : bool) ops : forall d d' c,
  depth ops d = Some d' -> noff c = Z.of_nat d ->
  (if decide (d = 0%nat) then intr c = old else intr c = false /\ intena c = old) ->
  wp (run_pushpop ops) (fun _ c' => noff c' = Z.of_nat d' /\
    if decide (d' = 0%nat) then intr c' = old else intr c' = false /\ intena c' = old) c.
Proof.
  induction ops as [|[] ops IH]; intros d d' c Hd Hn Hi; simpl in *.
  - injection Hd as <-. by apply wp_ret.
  - apply wp_bind, wp_modify. eapply (IH (S d)); [done|simpl; lia|]. simpl. split; [done|].
    rewrite Hn. destruct (decide (d = 0%nat)) as [->|]; [by rewrite Z.eqb_refl|].
    destruct (Z.eqb_spec (Z.of_nat d) 0); [lia|]. tauto.
  - destruct d as [|d]; [done|]. simpl in Hi. destruct Hi as [Hi Ha].
    apply wp_bind. unfold pop_off, wp. rewrite Hi, Hn.
    destruct (Z.ltb_spec (Z.of_nat (S d)) 1); [lia|].
    replace (Z.of_nat (S d) - 1) with (Z.of_nat d) by lia.
    eapply IH; [done|done|]. simpl. case_decide as Hd0.
    + subst d. simpl. by destruct (intena c).
    + destruct (Z.eqb_spec (Z.of_nat d) 0); [lia|]. done.
Qed.

(** push_off and pop_off are matched: from a hart at depth 0, any properly nested
    sequence of them runs without panic and leaves interrupts exactly as it
    found them, on or off, with [noff] back at 0. *)
Theorem push_pop_restore ops c :
  depth ops 0 = Some 0%nat -> noff c = 0 ->
  wp (run_pushpop ops) (fun _ c' => noff c' = 0 /\ intr c' = intr c) c.
Proof.
  intros Hd Hn. eapply wp_mono; [by apply (run_pushpop_depth (intr c) ops 0 0)|].
  simpl. tauto.
Qed.

Lemma push_pop_restore_witness :
  (depth [true; true; false; false] 0 = Some 0%nat /\ noff (mk_cpu 0 false true) = 0) /\
  wp (run_pushpop [true; true; false; false])
     (fun _ c' => noff c' = 0 /\ intr c' = true) (mk_cpu 0 false true).
Proof.
  split; [done|]. by apply (push_pop_restore [true; true; false; false] (mk_cpu 0 false true)).
Defined.

End Fine.

(** ** The locks of one hart

    [held] lists the spin locks this hart holds, so that [noff] is its length and
    interrupts are off exactly when it is not empty. *)

Definition holding (l : lockid) (s : kst) : bool := bool_decide (l ∈ held s).

Definition acquire (l : lockid) : M kst unit := fun s =>
  if holding l s then Panic "acquire" s else Done tt (up_held (cons l) s).

Definition remove_lock (l : lockid) (ls : list lockid) : list lockid := filter (.≠ l) ls.

Definition release (l : lockid) : M kst unit := fun s =>
  if holding l s then Done tt (up_held (remove_lock l) s) else Panic "release" s.

#[global] Arguments acquire : simpl never.
#[global] Arguments release : simpl never.

(** [mycpu()->noff] *)
Definition cpu_noff (s : kst) : Z := Z.of_nat (length (held s)).

Lemma acquire_done l s : l ∉ held s -> acquire l s = Done tt (up_held (cons l) s).
Proof. intros. unfold acquire, holding. by rewrite bool_decide_false. Qed.
Lemma release_done l s : l ∈ held s -> release l s = Done tt (up_held (remove_lock l) s).
Proof. intros. unfold release, holding. by rewrite bool_decide_true. Qed.

Lemma remove_lock_id l ls : l ∉ ls -> remove_lock l ls = ls.
Proof.
  induction ls as [|x ls IH]; intros Hn; [done|]. apply not_elem_of_cons in Hn as [? ?].
  unfold remove_lock in *. rewrite filter_cons, decide_True by done. by rewrite IH.
Qed.
Lemma remove_lock_cons l ls : l ∉ ls -> remove_lock l (l :: ls) = ls.
Proof.
  intros. unfold remove_lock. rewrite filter_cons, decide_False by naive_solver.
  by apply remove_lock_id.
Qed.

Lemma wp_acquire l Q s : l ∉ held s -> Q tt (up_held (cons l) s) -> wp (acquire l) Q s.
Proof. intros Hn HQ. unfold wp. by rewrite acquire_done. Qed.
Lemma wp_release l Q s : l ∈ held s -> Q tt (up_held (remove_lock l) s) -> wp (release l) Q s.
Proof. intros Hn HQ. unfold wp. by rewrite release_done. Qed.

(** A critical section that leaves the lock set alone. *)
Lemma crit_done {A} l (m : M kst A) s a s' :
  l ∉ held s -> m (up_held (cons l) s) = Done a s' -> held s' = l :: held s ->
  (acquire l ;;; let! r := m in release l ;;; ret r) s = Done a (up_held (fun _ => held s) s').
Proof.
  intros Hn Hm Hh. unfold bind. rewrite acquire_done by done. rewrite Hm.
  rewrite release_done by (rewrite Hh; set_solver).
  unfold ret, up_held. by rewrite Hh, remove_lock_cons.
Qed.
