(* ===== verification/Proc.v ===== *)
(** * The process table: sleeping, waking, killing

    The part of [kernel/proc.c] that works on the table alone: [allocpid],
    [sched], [yield], [sleep], [wakeup], [kill], [killed], [reparent],
    [time_updates], [set_priority], [dynamic_priority]. What other threads do
    while a thread is switched out is the class [Env]; what a thread may rely on
    when it is switched back in is [EnvOk]. *)

From S2P Require Import Prelude CString State Spinlock.

(** ** Access to the table *)

Definition proc_ids : list nat := seq 0 NPROC.

(** An access to [proc[i]]; outside the array it is undefined. *)
Definition getp (i : nat) : M kst proc := fun s =>
  match procs s !! i with Some p => Done p s | None => Undef end.
Definition modp (i : nat) (f : proc -> proc) : M kst unit := fun s =>
  match procs s !! i with Some _ => Done tt (up_procs (alter f i) s) | None => Undef end.

(** [acquire(&proc[i].lock)] and [release(&proc[i].lock)]. *)
Definition plock (i : nat) : M kst unit :=
  getp i ;;; acquire (ProcLock i).
Definition punlock (i : nat) : M kst unit :=
  getp i ;;; release (ProcLock i).

(** The process of this hart; its push_off and pop_off cancel out. *)
Definition myproc : M kst (option nat) := gets cur.
(** [myproc()] where the code dereferences it. *)
Definition curproc : M kst nat := let! c := myproc in must c.

Definition set_state (st : procstate) : proc -> proc := up_p_state (fun _ => st).
Definition set_chan (c : chan) : proc -> proc := up_p_chan (fun _ => c).
Definition is_state (st : procstate) (p : proc) : bool := bool_decide (p_state p = st).

(** ** Initialisation *)

Definition procinit : M kst unit :=
  for_each proc_ids (fun i =>
    modp i (fun p => up_p_kstack (fun _ => KSTACK (Z.of_nat i)) (set_state UNUSED p))).

Definition allocpid : M kst Z :=
  acquire PidLock ;;;
  let! pid := gets nextpid in
  modify (up_nextpid (fun n => i32 (n + 1))) ;;;
  release PidLock ;;;
  ret pid.

(** ** Switching *)

(** What the other threads do between this thread's [swtch] away and its return;
    [None] when it is never run again. *)
Class Env : Type := resched : kst -> option kst.

Definition swtch `{Env} : M kst unit := fun s =>
  match resched s with Some s' => Done tt s' | None => Blocked s end.

(** What [scheduler] promises to a thread that called [swtch]: it comes back on
    its own process, RUNNING, with the lock it left held. *)
Class EnvOk `{Env} : Prop := {
  resched_cur s s' : resched s = Some s' -> cur s' = cur s;
  resched_held s s' : resched s = Some s' -> held s' = held s;
  resched_run s s' i : resched s = Some s' -> cur s = Some i ->
    exists p, procs s' !! i = Some p /\ p_state p = RUNNING }.

(** Interrupts are off while a lock is held. *)
Definition intr_get (s : kst) : bool := bool_decide (held s = []).

Definition sched `{Env} : M kst unit :=
  let! i := curproc in
  let! p := getp i in
  let! s := get in
  if negb (holding (ProcLock i) s) then panic "sched p->lock"
  else if negb (cpu_noff s =? 1) then panic "sched locks"
  else if is_state RUNNING p then panic "sched running"
  else if intr_get s then panic "sched interruptible"
  else swtch.

Definition yield `{Env} : M kst unit :=
  let! i := curproc in
  plock i ;;;
  modp i (set_state RUNNABLE) ;;;
  sched ;;;
  punlock i.

(** [sleep(chan, lk)] *)
Definition sleep `{Env} (c : chan) (lk : lockid) : M kst unit :=
  let! i := curproc in
  plock i ;;;
  release lk ;;;
  modp i (set_chan c) ;;;
  modp i (set_state SLEEPING) ;;;
  sched ;;;
  modp i (set_chan ChanNull) ;;;
  punlock i ;;;
  acquire lk.

Definition wakeup (c : chan) : M kst unit :=
  for_each proc_ids (fun i =>
    let! me := myproc in
    when (bool_decide (me <> Some i)) (
      plock i ;;;
      let! p := getp i in
      when (is_state SLEEPING p && bool_decide (p_chan p = c)) (modp i (set_state RUNNABLE)) ;;;
      punlock i)).

(** ** Killing *)

Definition kill (pid : Z) : M kst Z :=
  let! r := for_find proc_ids (fun i =>
    plock i ;;;
    let! p := getp i in
    if p_pid p =? pid then
      modp i (up_p_killed (fun _ => 1)) ;;;
      when (is_state SLEEPING p) (modp i (set_state RUNNABLE)) ;;;
      punlock i ;;;
      ret (Some 0)
    else
      punlock i ;;;
      ret None) in
  ret (default (-1) r).

Definition setkilled (i : nat) : M kst unit :=
  plock i ;;; modp i (up_p_killed (fun _ => 1)) ;;; punlock i.

Definition killed (i : nat) : M kst Z :=
  plock i ;;;
  let! p := getp i in
  punlock i ;;;
  ret (p_killed p).

(** ** Parents *)

(** The caller holds [wait_lock]. *)
Definition reparent (p : nat) : M kst unit :=
  for_each proc_ids (fun i =>
    let! pp := getp i in
    when (bool_decide (p_parent pp = Some p)) (
      let! ini := gets initproc in
      modp i (up_p_parent (fun _ => ini)) ;;;
      let! k := must ini in
      wakeup (ChanProc k))).

(** ** Time and priorities *)

Definition time_updates : M kst unit :=
  for_each proc_ids (fun i =>
    plock i ;;;
    let! p := getp i in
    when (is_state RUNNING p) (modp i (up_p_rtime (fun t => u32 (t + 1)))) ;;;
    punlock i).

(** The assignments that [dynamic_priority] makes, and the priority it returns:
    [wtime] and [rtime] are unsigned, [denom] an int that is converted back to
    unsigned for the division. *)
Definition dynamic_niceness (p : proc) : Z :=
  let denom := i32 (p_wtime p + p_rtime p) in
  if denom =? 0 then 5 else i32 (u32 (p_wtime p / u32 denom * 10)).
Definition dynamic_update (p : proc) : proc :=
  up_p_niceness (fun _ => dynamic_niceness p) (up_p_spriority (fun _ => 60) p).
Definition dynamic_value (p : proc) : Z :=
  let temp := p_spriority p - p_niceness p + 5 in
  let temp := if temp >? 100 then 100 else temp in
  if temp <? 0 then 0 else temp.
Definition dynamic_priority (i : nat) : M kst Z :=
  modp i dynamic_update ;;;
  let! p := getp i in
  ret (dynamic_value p).

(** [pol] is the scheduler the kernel was compiled for. *)
Definition set_priority (pol : policy) (new_priority pid : Z) : M kst Z :=
  if bool_decide (pol = PBS) then
    let! r := for_find proc_ids (fun i =>
      let! p := getp i in
      if p_pid p =? pid then
        plock i ;;;
        let! p := getp i in
        modp i (up_p_spriority (fun _ => new_priority)) ;;;
        modp i (up_p_niceness (fun _ => 5)) ;;;
        punlock i ;;;
        ret (Some (p_spriority p))
      else ret None) in
    ret (default 0 r)
  else ret 0.

(** ** The loops over the table *)

Lemma up_procs_ext f g s : f (procs s) = g (procs s) -> up_procs f s = up_procs g s.
Proof. intros E. unfold up_procs. by rewrite E. Qed.

Lemma up_procs_comp f g s : up_procs f (up_procs g s) = up_procs (fun l => f (g l)) s.
Proof. done. Qed.

Lemma up_procs_id f s : f (procs s) = procs s -> up_procs f s = s.
Proof. intros E. unfold up_procs. rewrite E. by destruct s. Qed.

Lemma getp_done i s p : procs s !! i = Some p -> getp i s = Done p s.
Proof. intros E. unfold getp. by rewrite E. Qed.
Lemma modp_done i f s : (i < length (procs s))%nat -> modp i f s = Done tt (up_procs (alter f i) s).
Proof. intros H. apply lookup_lt_is_Some_2 in H as [p E]. unfold modp. by rewrite E. Qed.

Lemma plock_done i s :
  (i < length (procs s))%nat -> ProcLock i ∉ held s ->
  plock i s = Done tt (up_held (cons (ProcLock i)) s).
Proof.
  intros H Hn. apply lookup_lt_is_Some_2 in H as [p E].
  unfold plock, bind. rewrite (getp_done _ _ _ E). by apply acquire_done.
Qed.
Lemma punlock_done i s :
  (i < length (procs s))%nat -> ProcLock i ∈ held s ->
  punlock i s = Done tt (up_held (remove_lock (ProcLock i)) s).
Proof.
  intros H Hn. apply lookup_lt_is_Some_2 in H as [p E].
  unfold punlock, bind. rewrite (getp_done _ _ _ E). by apply release_done.
Qed.

(** The shape of every loop body: lock, test, update, unlock. *)
Lemma locked_update i (c : proc -> bool) f s :
  (i < length (procs s))%nat -> ProcLock i ∉ held s ->
  (plock i ;;; let! p := getp i in when (c p) (modp i f) ;;; punlock i) s =
  Done tt (up_procs (alter (fun p => if c p then f p else p) i) s).
Proof.
  intros Hi Hn. pose proof Hi as [p E]%lookup_lt_is_Some_2.
  unfold bind at 1. rewrite plock_done by done. unfold bind at 1.
  rewrite (getp_done _ _ p) by done. unfold bind.
  assert (forall s', procs s' = alter (fun p => if c p then f p else p) i (procs s) ->
    held s' = ProcLock i :: held s ->
    up_procs (fun _ => alter (fun p => if c p then f p else p) i (procs s)) (up_held (fun _ => held s) s') =
    up_procs (alter (fun p => if c p then f p else p) i) s ->
    punlock i s' = Done tt (up_procs (alter (fun p => if c p then f p else p) i) s)) as G.
  { intros s' Hp Hh <-. rewrite punlock_done; [|by rewrite Hp, length_alter|rewrite Hh; set_solver].
    f_equal. unfold up_held, up_procs; simpl. rewrite Hh, remove_lock_cons, Hp by done. done. }
  unfold when. destruct (c p) eqn:Ec.
  - rewrite modp_done by done. simpl. apply G; [|reflexivity|reflexivity]. simpl.
    apply list_eq. intros j. destruct (decide (j = i)) as [->|].
    + rewrite !list_lookup_alter_eq, E. simpl. by rewrite Ec.
    + by rewrite !list_lookup_alter_ne.
  - simpl. apply G; [|reflexivity|reflexivity]. simpl. apply list_eq. intros j.
    destruct (decide (j = i)) as [->|].
    + rewrite !list_lookup_alter_eq, E. simpl. by rewrite Ec.
    + by rewrite !list_lookup_alter_ne.
Qed.

Lemma for_each_procs (body : nat -> M kst unit) (g : nat -> proc -> proc) h c s :
  (forall i s, (i < NPROC)%nat -> held s = h -> cur s = c -> length (procs s) = NPROC ->
     body i s = Done tt (up_procs (alter (g i) i) s)) ->
  held s = h -> cur s = c -> length (procs s) = NPROC ->
  for_each proc_ids body s = Done tt (up_procs (imap g) s).
Proof.
  intros Hbody.
  assert (forall n k s, (k + n = NPROC)%nat -> held s = h -> cur s = c -> length (procs s) = NPROC ->
    for_each (seq k n) body s =
    Done tt (up_procs (imap (fun i => if decide (k <= i)%nat then g i else id)) s)) as G.
  { induction n as [|n IH]; intros k s' Hk Hh Hc Hl.
    - simpl. unfold ret. f_equal. symmetry. apply up_procs_id.
      apply list_eq. intros j. rewrite list_lookup_imap.
      destruct (procs s' !! j) as [p|] eqn:E; [|done]. simpl.
      apply lookup_lt_Some in E. rewrite decide_False by lia. done.
    - cbn [seq for_each]. unfold bind. rewrite Hbody by (done || lia).
      rewrite (IH (S k) (up_procs (alter (g k) k) s')); [|lia|exact Hh|exact Hc|by simpl; rewrite length_alter].
      f_equal. rewrite up_procs_comp. apply up_procs_ext. apply list_eq. intros j. rewrite !list_lookup_imap.
      destruct (decide (j = k)) as [->|].
      + rewrite list_lookup_alter_eq. rewrite decide_False, decide_True by lia.
        by destruct (procs s' !! k).
      + rewrite list_lookup_alter_ne by done.
        destruct (decide (S k <= j)%nat); [rewrite decide_True by lia|rewrite decide_False by lia]; done. }
  intros Hh Hc Hl. unfold proc_ids. by rewrite (G NPROC 0%nat).
Qed.

(** No lock of the table is held. *)
Definition no_plocks (s : kst) : Prop := forall i, ProcLock i ∉ held s.

(** What [wakeup(c)] does to process [i] when [me] calls it. *)
Definition wake (c : chan) (me : option nat) (i : nat) (p : proc) : proc :=
  if bool_decide (me <> Some i) && is_state SLEEPING p && bool_decide (p_chan p = c)
  then set_state RUNNABLE p else p.

Lemma wakeup_done c s :
  no_plocks s -> length (procs s) = NPROC ->
  wakeup c s = Done tt (up_procs (imap (wake c (cur s))) s).
Proof.
  intros Hn Hl. unfold wakeup. apply (for_each_procs _ _ (held s) (cur s)); try done.
  intros i s' Hi Hh Hc Hl'. unfold myproc, gets. unfold bind at 1. rewrite Hc.
  unfold wake. destruct (bool_decide (cur s <> Some i)) eqn:E; simpl.
  - rewrite locked_update; [|lia|rewrite Hh; apply Hn]. done.
  - unfold ret. f_equal. symmetry. apply up_procs_id. apply list_eq. intros j.
    destruct (decide (j = i)) as [->|].
    + rewrite list_lookup_alter_eq. by destruct (procs s' !! i).
    + by rewrite list_lookup_alter_ne.
Qed.

Lemma time_updates_done s :
  no_plocks s -> length (procs s) = NPROC ->
  time_updates s = Done tt (up_procs (imap (fun _ p =>
    if is_state RUNNING p then up_p_rtime (fun t => u32 (t + 1)) p else p)) s).
Proof.
  intros Hn Hl. unfold time_updates. apply (for_each_procs _ _ (held s) (cur s)); try done.
  intros i s' Hi Hh Hc Hl'. rewrite locked_update; [|lia|rewrite Hh; apply Hn]. done.
Qed.

(** ** Waking *)

(** [wakeup(c)] makes RUNNABLE exactly the processes that sleep on [c], the caller
    excepted, releases every lock it took, and changes nothing else. *)
Theorem wakeup_spec c s :
  no_plocks s -> length (procs s) = NPROC ->
  exists s', wakeup c s = Done tt s' /\ s' = up_procs (fun _ => procs s') s /\
    forall i p, procs s !! i = Some p ->
      procs s' !! i = Some (
        if decide (cur s <> Some i /\ p_state p = SLEEPING /\ p_chan p = c)
        then set_state RUNNABLE p else p).
Proof.
  intros Hn Hl. rewrite wakeup_done by done. eexists. split_and!; [done|done|].
  intros i p E. simpl. rewrite list_lookup_imap, E. simpl. f_equal. unfold wake, is_state.
  repeat case_bool_decide; case_decide; naive_solver.
Qed.

(** A kernel with two processes: 0 runs, 1 sleeps on ticks. *)
Definition demo_procs : list proc :=
  up_p_pid (fun _ => 1) (set_state RUNNING proc0) ::
  up_p_pid (fun _ => 2) (up_p_parent (fun _ => Some 0%nat) (set_chan ChanTicks (set_state SLEEPING proc0))) ::
  replicate 62 proc0.
Definition demo_kst : kst :=
  mk_kst [] (Some 0%nat) demo_procs 3 (Some 0%nat) 100 (replicate 64 None) 0
    ∅ 0 ∅ ∅ (replicate NFILE file0) (replicate NINODE inode0) []
    (mk_logst 0 0 0 false 0 []) (mk_superblock 0 0 0 0 0 0 0 0) ∅ []
    vdisk0
    (mk_consst (replicate 128 0) 0 0 0) (mk_uartst (replicate 32 0) 0 0) [].

Lemma wakeup_spec_witness :
  (no_plocks demo_kst /\ length (procs demo_kst) = NPROC) /\
  exists s', wakeup ChanTicks demo_kst = Done tt s' /\ s' = up_procs (fun _ => procs s') demo_kst.
Proof.
  assert (no_plocks demo_kst) as H by (intros i; simpl; set_solver).
  split; [done|]. destruct (wakeup_spec ChanTicks demo_kst H eq_refl) as (s' & E & F & _).
  by exists s'.
Defined.

(** ** Sleeping *)

Lemma sched_done `{Env} i p s :
  cur s = Some i -> procs s !! i = Some p -> held s = [ProcLock i] -> p_state p <> RUNNING ->
  sched s = swtch s.
Proof.
  intros Hc E Hh Hr. unfold sched, curproc, myproc, gets, must, bind. rewrite Hc. unfold ret.
  rewrite (getp_done _ _ _ E). unfold get, holding, cpu_noff, is_state, intr_get. rewrite Hh.
  rewrite bool_decide_true by set_solver. by rewrite bool_decide_false.
Qed.

(** [sleep] when the scheduler comes back to this thread with its lock held. *)
Lemma sleep_run `{Env} c lk i p s :
  cur s = Some i -> procs s !! i = Some p -> held s = [lk] -> lk <> ProcLock i ->
  let s1 := up_held (fun _ => [ProcLock i])
              (up_procs (alter (fun q => set_state SLEEPING (set_chan c q)) i) s) in
  (forall s2, resched s1 = Some s2 -> held s2 = [ProcLock i] /\ (i < length (procs s2))%nat) ->
  sleep c lk s =
    match resched s1 with
    | None => Blocked s1
    | Some s2 => Done tt (up_held (fun _ => [lk]) (up_procs (alter (set_chan ChanNull) i) s2))
    end.
Proof.
  intros Hc E Hh Hlk s1 Hret. pose proof (lookup_lt_Some _ _ _ E) as Hi.
  unfold sleep. unfold bind at 1, curproc, bind at 1, myproc, gets, must. rewrite Hc. unfold ret.
  unfold bind at 1. rewrite plock_done by (rewrite ?Hh; set_solver).
  unfold bind at 1. rewrite release_done by (simpl; rewrite Hh; set_solver).
  unfold bind at 1. rewrite modp_done by done. unfold bind at 1. rewrite modp_done
    by (simpl; by rewrite length_alter).
  match goal with |- bind sched _ ?x = _ => replace x with s1 end.
  2:{ unfold s1, up_held, up_procs; simpl. rewrite Hh. unfold remove_lock.
      rewrite !filter_cons, decide_True, decide_False by naive_solver.
      by rewrite list_alter_alter_eq. }
  unfold bind at 1. rewrite (sched_done i (set_state SLEEPING (set_chan c p))); try done.
  2:{ simpl. by rewrite list_lookup_alter_eq, E. }
  unfold swtch. destruct (resched s1) as [s2|] eqn:Er; [|done].
  destruct (Hret s2 eq_refl) as [Hh2 E2].
  unfold bind at 1. rewrite modp_done by done. unfold bind at 1.
  rewrite punlock_done by (simpl; rewrite ?length_alter, ?Hh2; set_solver).
  assert (remove_lock (ProcLock i) (held s2) = []) as Hr.
  { rewrite Hh2. unfold remove_lock. by rewrite filter_cons, decide_False by naive_solver. }
  rewrite acquire_done by (simpl; rewrite Hr; set_solver).
  unfold up_held; simpl. by rewrite Hr.
Qed.

(** [sleep(c, lk)], called with [lk] as the only lock, never panics: when the
    thread is switched out it is SLEEPING on [c] and holds its own lock only, so
    that no wakeup between the release of [lk] and the switch is missed; when it
    comes back, its channel is cleared and it holds [lk] again. *)
Theorem sleep_spec `{EnvOk} c lk i p s :
  cur s = Some i -> procs s !! i = Some p -> held s = [lk] -> lk <> ProcLock i ->
  let s1 := up_held (fun _ => [ProcLock i])
              (up_procs (alter (fun q => set_state SLEEPING (set_chan c q)) i) s) in
  sleep c lk s =
    match resched s1 with
    | None => Blocked s1
    | Some s2 => Done tt (up_held (fun _ => [lk]) (up_procs (alter (set_chan ChanNull) i) s2))
    end.
Proof.
  intros Hc E Hh Hlk s1. apply (sleep_run c lk i p s Hc E Hh Hlk). intros s2 Er.
  rewrite (resched_held _ _ Er). destruct (resched_run _ _ i Er Hc) as (p2 & E2 & _). by apply lookup_lt_Some in E2.
Qed.

(** A scheduler that runs the sleeper again at once. *)
Definition demo_env : Env := fun s =>
  match cur s with
  | Some i =>
      match procs s !! i with
      | Some _ => Some (up_procs (alter (set_state RUNNING) i) s)
      | None => None
      end
  | None => None
  end.
Lemma demo_env_ok : @EnvOk demo_env.
Proof.
  split; unfold resched, demo_env; intros s s'.
  - destruct (cur s) as [i|] eqn:E; [|done]. destruct (procs s !! i); [|done]. by intros [= <-].
  - destruct (cur s) as [i|] eqn:E; [|done]. destruct (procs s !! i); [|done]. by intros [= <-].
  - intros i Hs E. rewrite E in Hs. destruct (procs s !! i) as [p|] eqn:Ep; [|done].
    injection Hs as <-. exists (set_state RUNNING p). simpl. by rewrite list_lookup_alter_eq, Ep.
Qed.

Lemma sleep_spec_witness :
  let s := up_held (fun _ => [TicksLock]) demo_kst in
  (cur s = Some 0%nat /\ is_Some (procs s !! 0%nat) /\ held s = [TicksLock] /\ TicksLock <> ProcLock 0) /\
  exists s', @sleep demo_env ChanTicks TicksLock s = Done tt s' /\ held s' = [TicksLock].
Proof.
  intros s. split; [split_and!; [done|by eexists|done|done]|].
  eexists. split.
  - exact (@sleep_spec demo_env demo_env_ok ChanTicks TicksLock 0 _ s eq_refl eq_refl eq_refl
             ltac:(discriminate)).
  - reflexivity.
Defined.

(** ** Killing *)

(** What [kill] does to its victim. *)
Definition kill_victim (p : proc) : proc :=
  let p' := up_p_killed (fun _ => 1) p in
  if is_state SLEEPING p then set_state RUNNABLE p' else p'.

(** One round of the loop of [kill]. *)
Lemma kill_body pid i p s :
  procs s !! i = Some p -> ProcLock i ∉ held s ->
  (plock i ;;;
   let! p := getp i in
   if p_pid p =? pid then
     modp i (up_p_killed (fun _ => 1)) ;;;
     when (is_state SLEEPING p) (modp i (set_state RUNNABLE)) ;;;
     punlock i ;;; ret (Some 0)
   else punlock i ;;; ret None) s =
  if p_pid p =? pid then Done (Some 0) (up_procs (alter kill_victim i) s) else Done None s.
Proof.
  intros E Hn. pose proof (lookup_lt_Some _ _ _ E) as Hi.
  unfold bind at 1. rewrite plock_done by done.
  unfold bind at 1. rewrite (getp_done i _ p) by done.
  assert (forall s', procs s' = procs s -> held s' = ProcLock i :: held s ->
    up_held (fun _ => held s) s' = s -> punlock i s' = Done tt s) as G0.
  { intros s' Hp Hh Hs. rewrite punlock_done by (rewrite ?Hp, ?Hh; set_solver). f_equal.
    transitivity (up_held (fun _ => held s) s'); [|done].
    unfold up_held. by rewrite Hh, remove_lock_cons. }
  destruct (p_pid p =? pid).
  - unfold bind at 1. rewrite modp_done by done. unfold bind at 1, when, kill_victim.
    assert (is_state SLEEPING p = true -> alter (set_state RUNNABLE) i
      (alter (up_p_killed (fun _ => 1)) i (procs s)) = alter kill_victim i (procs s)) as H1.
    { intros Hs. rewrite list_alter_alter_eq. apply list_alter_ext; [|done].
      intros x Hx. rewrite E in Hx. injection Hx as <-. unfold kill_victim. by rewrite Hs. }
    assert (is_state SLEEPING p = false ->
      alter (up_p_killed (fun _ => 1)) i (procs s) = alter kill_victim i (procs s)) as H2.
    { intros Hs. apply list_alter_ext; [|done].
      intros x Hx. rewrite E in Hx. injection Hx as <-. unfold kill_victim. by rewrite Hs. }
    destruct (is_state SLEEPING p) eqn:Es.
    + rewrite modp_done by (simpl; by rewrite length_alter). unfold bind.
      rewrite punlock_done by (simpl; rewrite ?length_alter; set_solver).
      unfold ret. f_equal. unfold up_procs, up_held; simpl.
      rewrite remove_lock_cons, H1 by done. done.
    + unfold ret at 1. unfold bind.
      rewrite punlock_done by (simpl; rewrite ?length_alter; set_solver).
      unfold ret. f_equal. unfold up_procs, up_held; simpl.
      rewrite remove_lock_cons, H2 by done. done.
  - unfold bind. rewrite (G0 (up_held (cons (ProcLock i)) s)); try done. by destruct s.
Qed.

Lemma kill_loop pid s k n :
  (k + n = length (procs s))%nat -> no_plocks s ->
  for_find (seq k n) (fun i =>
    plock i ;;;
    let! p := getp i in
    if p_pid p =? pid then
      modp i (up_p_killed (fun _ => 1)) ;;;
      when (is_state SLEEPING p) (modp i (set_state RUNNABLE)) ;;;
      punlock i ;;; ret (Some 0)
    else punlock i ;;; ret None) s =
  match list_find (fun p => p_pid p = pid) (drop k (procs s)) with
  | Some (j, _) => Done (Some 0) (up_procs (alter kill_victim (k + j)%nat) s)
  | None => Done None s
  end.
Proof.
  intros Hk Hn. revert k Hk. induction n as [|n IH]; intros k Hk.
  - cbn [seq for_find]. by rewrite drop_ge by lia.
  - cbn [seq for_find]. destruct (lookup_lt_is_Some_2 (procs s) k) as [p E]; [lia|].
    unfold bind at 1. rewrite (kill_body pid k p s E (Hn k)).
    rewrite (drop_S _ p k E). cbn [list_find].
    destruct (Z.eqb_spec (p_pid p) pid) as [Ep|Ep].
    + rewrite decide_True by done. by rewrite Nat.add_0_r.
    + rewrite decide_False by done. rewrite IH by lia.
      destruct (list_find (fun p0 => p_pid p0 = pid) (drop (S k) (procs s))) as [[j q]|] eqn:El.
      * cbn [prod_map fst fmap option_fmap option_map]. simpl.
        replace (S (k + j)) with (k + S j)%nat by lia. done.
      * done.
Qed.

(** [kill(pid)] marks the first process with that pid, wakes it if it sleeps, and
    returns 0; if there is none it returns -1 and changes nothing. *)
Theorem kill_spec pid s :
  no_plocks s -> length (procs s) = NPROC ->
  kill pid s =
    match list_find (fun p => p_pid p = pid) (procs s) with
    | Some (i, _) => Done 0 (up_procs (alter kill_victim i) s)
    | None => Done (-1) s
    end.
Proof.
  intros Hn Hl. unfold kill, proc_ids. unfold bind at 1. rewrite (kill_loop pid s 0 NPROC) by done.
  rewrite drop_0. destruct (list_find _ (procs s)) as [[i q]|]; done.
Qed.

Lemma kill_spec_witness :
  (no_plocks demo_kst /\ length (procs demo_kst) = NPROC) /\
  kill 2 demo_kst = Done 0 (up_procs (alter kill_victim 1%nat) demo_kst).
Proof.
  assert (no_plocks demo_kst) as H by (intros i; simpl; set_solver).
  split; [done|]. rewrite (kill_spec 2 demo_kst H eq_refl). reflexivity.
Defined.

(** ** Parents *)

Lemma p_parent_wake c me i q : p_parent (wake c me i q) = p_parent q.
Proof. unfold wake. by destruct (_ && _). Qed.
Lemma wake_idem c me i q : wake c me i (wake c me i q) = wake c me i q.
Proof.
  unfold wake. destruct (bool_decide (me <> Some i)), (is_state SLEEPING q) eqn:E1, (bool_decide (p_chan q = c)) eqn:E2;
    simpl; rewrite ?E1, ?E2; done.
Qed.
Lemma wake_parent c me i f q : wake c me i (up_p_parent f q) = up_p_parent f (wake c me i q).
Proof. unfold wake, is_state. simpl. by destruct (_ && _). Qed.

(** The table when the loop of [reparent] has treated the first [k] entries;
    [b] tells whether one of them was a child. *)
Definition adopt (p ini : nat) (me : option nat) (b : bool) (k i : nat) (q : proc) : proc :=
  let q1 := if b then wake (ChanProc ini) me i q else q in
  if bool_decide ((i < k)%nat /\ p_parent q = Some p) then up_p_parent (fun _ => Some ini) q1 else q1.

Lemma reparent_loop p ini s0 n : forall k b s,
  no_plocks s0 -> length (procs s0) = NPROC -> initproc s0 = Some ini -> (k + n = NPROC)%nat ->
  s = up_procs (imap (adopt p ini (cur s0) b k)) s0 ->
  exists b', for_each (seq k n) (fun i =>
    let! pp := getp i in
    when (bool_decide (p_parent pp = Some p)) (
      let! ini := gets initproc in
      modp i (up_p_parent (fun _ => ini)) ;;;
      let! k := must ini in
      wakeup (ChanProc k))) s = Done tt (up_procs (imap (adopt p ini (cur s0) b' NPROC)) s0) /\
    (b' = true <-> b = true \/ exists i q, (k <= i)%nat /\ procs s0 !! i = Some q /\ p_parent q = Some p).
Proof.
  induction n as [|n IH]; intros k b s Hn Hl Hini Hk ->.
  - exists b. split; [replace k with NPROC by lia; done|]. split; [by left|].
    intros [?|(i & q & Hi & E & _)]; [done|]. apply lookup_lt_Some in E. lia.
  - cbn [seq for_each]. destruct (lookup_lt_is_Some_2 (procs s0) k) as [q E]; [lia|].
    set (s := up_procs (imap (adopt p ini (cur s0) b k)) s0).
    assert (procs s !! k = Some (if b then wake (ChanProc ini) (cur s0) k q else q)) as Ek.
    { simpl. rewrite list_lookup_imap, E. simpl. f_equal. unfold adopt.
      by rewrite bool_decide_false by lia. }
    unfold bind at 1. unfold bind at 1. rewrite (getp_done _ _ _ Ek).
    assert (p_parent (if b then wake (ChanProc ini) (cur s0) k q else q) = p_parent q) as Ep
      by (destruct b; [apply p_parent_wake|done]).
    rewrite Ep. unfold when. case_bool_decide as Hq.
    + unfold gets, must, bind. change (initproc s) with (initproc s0). rewrite Hini. unfold ret.
      rewrite modp_done by (simpl; rewrite length_imap; lia).
      rewrite wakeup_done; [|exact Hn|simpl; by rewrite length_alter, length_imap].
      unfold s. rewrite !up_procs_comp.
      destruct (IH (S k) true (up_procs (imap (adopt p ini (cur s0) true (S k))) s0)) as (b' & Hb' & Hiff);
        try done; [lia|].
      exists b'. split.
      * rewrite <- Hb'. f_equal. apply up_procs_ext. apply list_eq. intros j.
        rewrite !list_lookup_imap. simpl. destruct (decide (j = k)) as [->|].
        -- rewrite list_lookup_alter_eq, list_lookup_imap, E. simpl. f_equal.
           unfold adopt. rewrite bool_decide_false, bool_decide_true by lia || (split; [lia|done]).
           rewrite wake_parent. by destruct b; rewrite ?wake_idem.
        -- rewrite list_lookup_alter_ne, list_lookup_imap by done.
           destruct (procs s0 !! j) as [r|]; [|done]. simpl. f_equal. unfold adopt.
           replace (bool_decide ((j < S k)%nat /\ p_parent r = Some p))
             with (bool_decide ((j < k)%nat /\ p_parent r = Some p))
             by (apply bool_decide_ext; split; intros [? ?]; split; (done || lia)).
           destruct (bool_decide _); rewrite ?wake_parent; by destruct b; rewrite ?wake_idem.
      * rewrite Hiff. split; [|by left]. intros _. right. exists k, q. split_and!; [lia|done|done].
    + unfold ret. destruct (IH (S k) b (up_procs (imap (adopt p ini (cur s0) b (S k))) s0)) as (b' & Hb' & Hiff);
        try done; [lia|].
      exists b'. split.
      * rewrite <- Hb'. f_equal. unfold s. apply up_procs_ext. apply list_eq. intros j.
        rewrite !list_lookup_imap. destruct (procs s0 !! j) as [r|] eqn:Er; [|done]. simpl. f_equal.
        unfold adopt. destruct (decide (j = k)) as [->|].
        -- rewrite E in Er. injection Er as <-. by rewrite !bool_decide_false by (intros [? ?]; done || lia).
        -- replace (bool_decide ((j < S k)%nat /\ p_parent r = Some p))
             with (bool_decide ((j < k)%nat /\ p_parent r = Some p)); [done|].
           apply bool_decide_ext; split; intros [? ?]; split; (done || lia).
      * rewrite Hiff. split; (intros [?|(i & r & Hi & Er & Hr)]; [by left|right]).
        -- exists i, r. split_and!; [lia|done|done].
        -- exists i, r. split_and!; [|done|done]. destruct (decide (i = k)) as [->|]; [|lia].
           by rewrite E in Er; injection Er as <-.
Qed.

Lemma reparent_done p ini s :
  no_plocks s -> length (procs s) = NPROC -> initproc s = Some ini ->
  exists b, reparent p s = Done tt (up_procs (imap (adopt p ini (cur s) b NPROC)) s) /\
    (b = true <-> exists i q, procs s !! i = Some q /\ p_parent q = Some p).
Proof.
  intros Hn Hl Hini.
  destruct (reparent_loop p ini s NPROC 0 false s) as (b & Hb & Hiff); try done.
  { symmetry. apply up_procs_id. apply list_eq. intros j. rewrite list_lookup_imap.
    by destruct (procs s !! j). }
  exists b. split; [exact Hb|]. rewrite Hiff. split.
  - intros [?|(i & q & _ & ?)]; [done|eauto].
  - intros (i & q & ? & ?). right. exists i, q. split_and!; [lia|done|done].
Qed.

(** ** Priorities *)

Lemma dynamic_niceness_cases p :
  0 <= p_wtime p -> 0 <= p_rtime p -> p_wtime p + p_rtime p < 2^31 ->
  dynamic_niceness p = 5 \/ dynamic_niceness p = 0 \/ dynamic_niceness p = 10.
Proof.
  intros Hw Hr Hs. unfold dynamic_niceness. rewrite i32_small by lia.
  destruct (Z.eqb_spec (p_wtime p + p_rtime p) 0); [by left|right].
  rewrite (u32_small (p_wtime p + p_rtime p)) by lia.
  destruct (decide (p_rtime p = 0)) as [E|].
  - right. rewrite E, Z.add_0_r, Z.div_same by lia. done.
  - left. rewrite Z.div_small by lia. done.
Qed.

(** The static priority has no effect: [dynamic_priority] overwrites it with 60,
    and the integer division leaves only the niceness values 0, 5 and 10, so the
    priority used by the PBS scheduler is 55, 60 or 65 whatever [set_priority]
    stored, and is the same for every stored priority. *)
Theorem dynamic_priority_ignores_static p sp :
  0 <= p_wtime p -> 0 <= p_rtime p -> p_wtime p + p_rtime p < 2^31 ->
  dynamic_value (dynamic_update p) ∈ [55; 60; 65] /\
  dynamic_value (dynamic_update (up_p_spriority (fun _ => sp) p)) = dynamic_value (dynamic_update p).
Proof.
  intros Hw Hr Hs. split; [|done]. unfold dynamic_value; simpl.
  destruct (dynamic_niceness_cases p Hw Hr Hs) as [->|[->| ->]]; simpl; set_solver.
Qed.

Lemma dynamic_priority_ignores_static_witness :
  (0 <= p_wtime proc0 /\ 0 <= p_rtime proc0 /\ p_wtime proc0 + p_rtime proc0 < 2^31) /\
  dynamic_value (dynamic_update (up_p_spriority (fun _ => 1) proc0)) = dynamic_value (dynamic_update proc0).
Proof.
  split; [by split_and!|].
  exact (proj2 (dynamic_priority_ignores_static proc0 1 ltac:(done) ltac:(done) ltac:(done))).
Defined.
