(* ===== verification/Sched.v ===== *)
(** * The schedulers

    One turn of the [for(;;)] loop of [scheduler] in [kernel/proc.c] for each of
    the policies the Makefile can select. Running a process, that is what happens
    between the [swtch] to it and the [swtch] back, is a parameter; [RunOk] is
    what a process that calls [sched] promises. [runs] says, apart from the code,
    what it is to give a list of processes a turn one after the other.

    As the source stands only RR and FCFS compile. Under PBS [struct proc] declares
    [rtime] twice; the definitions have one such field, which both declarations name.
    Under MLFQ [struct proc] lacks the field [nrun], which the definitions have, and
    the two loops before the choice of a process do not parse: what is
    here of MLFQ starts after them. *)

From S2P Require Import Prelude CString State Spinlock Proc.

(** Running process [i] until it switches back. *)
Class Run : Type := run_proc : nat -> M kst unit.


Section schedulers.
Context `{Run}.

(** [p->state = RUNNING; c->proc = p; swtch(...); c->proc = 0;] *)
Definition switch_to (i : nat) : M kst unit :=
  modp i (set_state RUNNING) ;;;
  modify (up_cur (fun _ => Some i)) ;;;
  run_proc i ;;;
  modify (up_cur (fun _ => None)).

(** ** Round robin *)

Definition rr_body (i : nat) : M kst unit :=
  plock i ;;;
  let! p := getp i in
  when (is_state RUNNABLE p) (switch_to i) ;;;
  punlock i.


(** ** First come first served *)

(** The scan for the best RUNNABLE process: [better q p] when [p] replaces the
    candidate [q]. Beside the best one it returns where it leaves the loop variable. *)
Fixpoint scan (better : proc -> proc -> bool) (l : list proc) (k : nat) (best : option (nat * proc))
    : option (nat * proc) * nat :=
  match l with
  | [] => (best, k)
  | p :: l' =>
      let best' :=
        if is_state RUNNABLE p then
          match best with
          | None => Some (k, p)
          | Some (_, q) => if better q p then Some (k, p) else best
          end
        else best in
      scan better l' (S k) best'
  end.

Definition fcfs_better (q p : proc) : bool := p_ctime q >? p_ctime p.

(** After its scan the code goes on with the loop variable [p] and not with [first];
    the rest is the body of the round-robin loop. *)
Definition scheduler_fcfs : M kst unit :=
  let! ps := gets procs in
  let '(first, p) := scan fcfs_better ps 0 None in
  match first with
  | Some _ => rr_body p
  | None => ret tt
  end.

(** ** Priorities *)

Definition pbs_body (i : nat) (hp : option nat) : M kst (option nat) :=
  plock i ;;;
  let! p := getp i in
  if negb (is_state RUNNABLE p) then punlock i ;;; ret hp
  else
    match hp with
    | Some h =>
        let! dp := dynamic_priority i in
        let! hp_dp := dynamic_priority h in
        let! p := getp i in
        let! q := getp h in
        let hp' :=
          if dp <? hp_dp then Some i
          else if dp =? hp_dp then
            if p_nrun p >? p_nrun q then Some i
            else if p_nrun p =? p_nrun q then
              if p_ctime q <? p_ctime p then Some i else hp
            else hp
          else hp in
        punlock i ;;;
        ret hp'
    | None => ret (Some i)
    end.

(** [n] more rounds from process [k] on; the candidate, and the loop variable at the end. *)
Fixpoint pbs_loop (n k : nat) (hp : option nat) : M kst (option nat * nat) :=
  match n with
  | O => ret (hp, k)
  | S n' => let! hp' := pbs_body k hp in pbs_loop n' (S k) hp'
  end.

(** The final [release(&p->lock)] is that of the loop variable. *)
Definition scheduler_pbs : M kst unit :=
  let! r := pbs_loop NPROC 0 None in
  let '(hp, p) := r in
  match hp with
  | Some h =>
      let! q := getp h in
      when (is_state RUNNABLE q) (
        switch_to h ;;;
        modp h (fun q => up_p_nrun (fun n => u32 (n + 1)) (up_p_rtime (fun _ => 0) (up_p_wtime (fun _ => 0) q)))) ;;;
      punlock p
  | None => ret tt
  end.

(** ** Multi-level feedback queues: choosing and running a process *)

Definition mlfq_pick_body (prio : Z) (i : nat) : M kst (option nat) :=
  plock i ;;;
  let! p := getp i in
  if negb (is_state RUNNABLE p) then punlock i ;;; ret None
  else if p_queue p =? prio then punlock i ;;; ret (Some i)
  else punlock i ;;; ret None.
Definition mlfq_pick : M kst (option nat) :=
  for_find [0; 1; 2; 3; 4] (fun prio => for_find proc_ids (mlfq_pick_body prio)).

Definition mlfq_run_body (now : option nat) (i : nat) : M kst unit :=
  plock i ;;;
  let! p := getp i in
  when (is_state RUNNABLE p && bool_decide (now = Some i)) (
    modp i (up_p_nrun (fun n => u32 (n + 1))) ;;;
    switch_to i) ;;;
  punlock i.
Definition mlfq_run : M kst unit :=
  let! now := mlfq_pick in
  for_each proc_ids (mlfq_run_body now).
End schedulers.

(** ** Round robin serves every ready process *)



Section round_robin.
Context `{RunOk}.




End round_robin.


(** Processes that just yield. *)
Definition yield_run : Run := fun i => modp i (set_state RUNNABLE).

Definition ready_kst : kst :=
  up_cur (fun _ => None) (up_procs (alter (set_state RUNNABLE) 1%nat) demo_kst).


(** ** The scan finds a best process *)

Section scan.
Context (better : proc -> proc -> bool).
Hypothesis better_irrefl : forall p, better p p = false.
Hypothesis better_asym : forall p q, better p q = true -> better q p = false.
Hypothesis better_ntrans : forall p q r, better p q = false -> better q r = false -> better p r = false.

Definition ready (l : list proc) (k i : nat) (p : proc) : Prop :=
  (k <= i)%nat /\ l !! (i - k)%nat = Some p /\ p_state p = RUNNABLE.

Lemma ready_cons p l k i q :
  ready (p :: l) k i q <-> (i = k /\ q = p /\ p_state p = RUNNABLE) \/ ready l (S k) i q.
Proof.
  unfold ready. split.
  - intros (Hi & E & Hr). destruct (decide (i = k)) as [->|Hne].
    + left. rewrite Nat.sub_diag in E. injection E as ->. done.
    + right. replace (i - k)%nat with (S (i - S k)) in E by lia. split_and!; [lia|done|done].
  - intros [(-> & -> & Hr)|(Hi & E & Hr)].
    + rewrite Nat.sub_diag. done.
    + replace (i - k)%nat with (S (i - S k)) by lia. split_and!; [lia|done|done].
Qed.

Lemma scan_ok l : forall k best,
  match (scan better l k best).1 with
  | Some (i, p) => (ready l k i p \/ best = Some (i, p)) /\
      (forall j q, ready l k j q \/ best = Some (j, q) -> better p q = false)
  | None => best = None /\ forall j q, ~ ready l k j q
  end.
Proof.
  induction l as [|p l IH]; intros k best; cbn [scan].
  - destruct best as [[i p]|].
    + split; [by right|]. intros j q [(_ & [=] & _)|[= -> ->]]. done.
    + split; [done|]. by intros j q (_ & [=] & _).
  - set (best' := if is_state RUNNABLE p then _ else best).
    specialize (IH (S k) best').
    assert (forall i q, best' = Some (i, q) -> ready (p :: l) k i q \/ best = Some (i, q)) as H1.
    { intros i q. unfold best', is_state. case_bool_decide as Hp; [|by right].
      destruct best as [[i0 q0]|].
      - destruct (better q0 p); [|by right]. intros [= <- <-]. left. rewrite ready_cons. by left.
      - intros [= <- <-]. left. rewrite ready_cons. by left. }
    assert (forall j q, (j = k /\ q = p /\ p_state p = RUNNABLE) \/ best = Some (j, q) ->
      exists j' q', best' = Some (j', q') /\ better q' q = false) as H2.
    { intros j q. unfold best', is_state. case_bool_decide as Hp.
      - destruct best as [[i0 q0]|]; [destruct (better q0 p) eqn:Eb|]; intros Hq;
          (eexists _, _; split; [reflexivity|]); naive_solver.
      - intros [(_ & _ & ?)|?]; [done|]. naive_solver. }
    destruct (scan better l (S k) best').1 as [[i r]|].
    + destruct IH as [Hin Hbest]. split.
      * destruct Hin as [?|?]; [left; rewrite ready_cons; by right|by apply H1].
      * intros j q Hq. assert (ready l (S k) j q \/ ((j = k /\ q = p /\ p_state p = RUNNABLE) \/ best = Some (j, q))) as [?|Hq']
          by (rewrite ready_cons in Hq; tauto).
        -- apply (Hbest j). by left.
        -- destruct (H2 j q Hq') as (j' & q' & E & Hb). eapply better_ntrans; [|exact Hb].
           apply (Hbest j'). by right.
    + destruct IH as [E Hno]. split.
      * destruct best as [[i0 q0]|]; [|done]. destruct (H2 i0 q0) as (? & ? & ? & _); [by right|congruence].
      * intros j q. rewrite ready_cons. intros [Hq|Hq]; [|by apply (Hno j q)].
        destruct (H2 j q) as (? & ? & ? & _); [by left|congruence].
Qed.
(** The scan leaves its loop variable behind the end of the table. *)
Lemma scan_index l : forall k best, (scan better l k best).2 = (k + length l)%nat.
Proof. induction l as [|p l IH]; intros k best; simpl; [lia|]. rewrite IH. lia. Qed.
End scan.

Lemma ready_0 l i p : ready l 0 i p <-> l !! i = Some p /\ p_state p = RUNNABLE.
Proof. unfold ready. rewrite Nat.sub_0_r. split; [tauto|]. intros. split; [lia|done]. Qed.

(** The scan of the FCFS scheduler finds a RUNNABLE process that was created no
    later than any other RUNNABLE process, and fails to find one only if there is none. *)
Theorem fcfs_scan_oldest l :
  match (scan fcfs_better l 0 None).1 with
  | Some (i, p) => l !! i = Some p /\ p_state p = RUNNABLE /\
      forall j q, l !! j = Some q -> p_state q = RUNNABLE -> p_ctime p <= p_ctime q
  | None => forall j q, l !! j = Some q -> p_state q <> RUNNABLE
  end.
Proof.
  assert (HH : _) by (refine (scan_ok fcfs_better _ _ _ l 0 None); unfold fcfs_better; lia).
  destruct (scan fcfs_better l 0 None).1 as [[i p]|].
  - destruct HH as [[Hr|?] Hb]; [|done]. apply ready_0 in Hr as [? ?]. split_and!; try done.
    intros j q E Hq. assert (fcfs_better p q = false) as Hf by (apply (Hb j); left; by apply ready_0).
    unfold fcfs_better in Hf. lia.
  - destruct HH as [_ Hn]. intros j q E Hq. apply (Hn j q). by apply ready_0.
Qed.

(** C40. As soon as a process is RUNNABLE the FCFS scheduler leaves the process table:
    it locks and inspects [p], which its scan left at [&proc[NPROC]], and not [first]. *)
Theorem scheduler_fcfs_leaves_table `{Run} s i p :
  length (procs s) = NPROC -> procs s !! i = Some p -> p_state p = RUNNABLE ->
  scheduler_fcfs s = Undef.
Proof.
  intros Hl E Hp. unfold scheduler_fcfs, bind, gets.
  assert (HH : _) by (refine (scan_ok fcfs_better _ _ _ (procs s) 0 None); unfold fcfs_better; lia).
  pose proof (scan_index fcfs_better (procs s) 0 None) as Hk.
  destruct (scan fcfs_better (procs s) 0 None) as [[[j q]|] k]; simpl in HH, Hk.
  - unfold rr_body, plock, bind, getp. by rewrite lookup_ge_None_2 by lia.
  - destruct HH as [_ Hn]. destruct (Hn i p). by apply ready_0.
Qed.

Lemma scheduler_fcfs_leaves_table_witness :
  (length (procs ready_kst) = NPROC /\ p_state (set_state RUNNABLE proc0) = RUNNABLE) /\
  @scheduler_fcfs yield_run ready_kst = Undef.
Proof.
  split; [done|]. eapply (@scheduler_fcfs_leaves_table yield_run ready_kst 1%nat); reflexivity.
Defined.

(** ** The priority scheduler *)

(** The priority that the scheduler uses, and the order of its scan. *)
Definition pbs_value (p : proc) : Z := dynamic_value (dynamic_update p).
Definition pbs_better (q p : proc) : bool :=
  (pbs_value p <? pbs_value q) ||
  (pbs_value p =? pbs_value q) &&
    ((p_nrun p >? p_nrun q) || (p_nrun p =? p_nrun q) && (p_ctime q <? p_ctime p)).

(** [dynamic_priority] touches nothing that the order looks at. *)
Definition same_dyn (l l' : list proc) : Prop := dynamic_update <$> l = dynamic_update <$> l'.

Lemma same_dyn_alter l i : same_dyn (alter dynamic_update i l) l.
Proof.
  unfold same_dyn. apply list_eq. intros j. rewrite !list_lookup_fmap.
  destruct (decide (j = i)) as [->|]; [|by rewrite list_lookup_alter_ne].
  rewrite list_lookup_alter_eq. by destruct (l !! i).
Qed.
Lemma dynamic_priority_done i s p :
  procs s !! i = Some p -> dynamic_priority i s = Done (pbs_value p) (up_procs (alter dynamic_update i) s).
Proof.
  intros E. unfold dynamic_priority, bind. rewrite modp_done by by eapply lookup_lt_Some.
  rewrite (getp_done _ _ (dynamic_update p)); [done|]. simpl. by rewrite list_lookup_alter_eq, E.
Qed.

(** One round of the scan. *)
Lemma pbs_body_ok i hp s p :
  length (procs s) = NPROC -> procs s !! i = Some p -> ProcLock i ∉ held s ->
  (forall h, hp = Some h -> (h < i)%nat) ->
  exists s', pbs_body i hp s =
      Done (if is_state RUNNABLE p then
              match hp with
              | Some h => match procs s !! h with Some q => if pbs_better q p then Some i else hp | None => hp end
              | None => Some i
              end
            else hp) s' /\
    same_dyn (procs s') (procs s) /\ length (procs s') = NPROC /\
    (forall j, ProcLock j ∈ held s' -> j = i \/ ProcLock j ∈ held s).
Proof.
  intros Hl E Hn Hh. assert (i < NPROC)%nat as Hi by (apply lookup_lt_Some in E; lia).
  unfold pbs_body. unfold bind at 1. rewrite plock_done by (done || lia).
  unfold bind at 1. rewrite (getp_done i _ p) by done.
  destruct (is_state RUNNABLE p); cbn [negb].
  - destruct hp as [h|].
    + assert (h < i)%nat as Hlt by auto. destruct (lookup_lt_is_Some_2 (procs s) h) as [q Eq]; [lia|].
      unfold bind at 1. rewrite (dynamic_priority_done i _ p) by done.
      unfold bind at 1. rewrite (dynamic_priority_done h _ q)
        by (simpl; rewrite list_lookup_alter_ne by lia; done).
      unfold bind at 1. rewrite (getp_done i _ (dynamic_update p))
        by (simpl; rewrite list_lookup_alter_ne, list_lookup_alter_eq, E by lia; done).
      unfold bind at 1. rewrite (getp_done h _ (dynamic_update q))
        by (simpl; rewrite list_lookup_alter_eq, list_lookup_alter_ne, Eq by lia; done).
      unfold bind. rewrite punlock_done by (simpl; rewrite ?length_alter; lia || set_solver).
      rewrite Eq. eexists. split_and!.
      * unfold ret, pbs_better. f_equal. simpl. crush.
      * simpl. unfold same_dyn. rewrite same_dyn_alter. apply same_dyn_alter.
      * simpl. by rewrite !length_alter.
      * intros j. simpl. rewrite remove_lock_cons by done. by right.
    + eexists. split_and!; [done|done|done|]. intros j. simpl. set_solver.
  - unfold bind. rewrite punlock_done by (simpl; lia || set_solver).
    eexists. split_and!; [done|done|done|]. intros j. simpl. rewrite remove_lock_cons by done. by right.
Qed.

Lemma pbs_loop_ok n : forall k b s L,
  (k + n = NPROC)%nat -> length (procs s) = NPROC -> L = dynamic_update <$> procs s ->
  (forall j, (k <= j)%nat -> ProcLock j ∉ held s) ->
  (forall h q, b = Some (h, q) -> (h < k)%nat /\ L !! h = Some q) ->
  exists s', pbs_loop n k (fst <$> b) s = Done (fst <$> (scan pbs_better (drop k L) k b).1, NPROC) s' /\
    L = dynamic_update <$> procs s' /\ length (procs s') = NPROC.
Proof.
  induction n as [|n IH]; intros k b s L Hk Hl HL Hn Hb; cbn [pbs_loop].
  - rewrite drop_ge by (rewrite HL, length_fmap; lia). rewrite Nat.add_0_r in Hk. subst k. by eexists.
  - destruct (lookup_lt_is_Some_2 (procs s) k) as [p E]; [lia|].
    assert (L !! k = Some (dynamic_update p)) as EL by (by rewrite HL, list_lookup_fmap, E).
    destruct (pbs_body_ok k (fst <$> b) s p Hl E (Hn k ltac:(lia))) as (s1 & H1 & Hd1 & Hl1 & Hh1).
    { intros h. destruct b as [[h' q]|]; [|done]. intros [= <-]. by destruct (Hb h' q). }
    unfold bind. rewrite H1, (drop_S _ _ _ EL). cbn [scan].
    set (b1 := if is_state RUNNABLE (dynamic_update p) then _ else b).
    assert ((forall h q, b1 = Some (h, q) -> (h < S k)%nat /\ L !! h = Some q)) as Hb1.
    { intros h q. unfold b1. destruct (is_state _ _); [|intros ?%Hb; naive_solver lia].
      destruct b as [[h0 q0]|]; [destruct (pbs_better q0 _)|]; [|intros ?%Hb; naive_solver lia|];
        intros [= <- <-]; (split; [lia|done]). }
    destruct (IH (S k) b1 s1 L) as (s' & H' & Hs'); [lia|done|by rewrite HL, Hd1| |done|].
    { intros j Hj [?|?]%Hh1; [lia|]. by apply (Hn j); [lia|]. }
    exists s'. split; [|done]. rewrite <- H'. f_equal. unfold b1.
    change (is_state RUNNABLE (dynamic_update p)) with (is_state RUNNABLE p).
    destruct (is_state RUNNABLE p); [|done]. destruct b as [[h q]|]; [|done]. simpl.
    destruct (Hb h q eq_refl) as [Hlt Eh]. rewrite HL, list_lookup_fmap in Eh.
    destruct (procs s !! h) as [q'|]; [|done]. apply (inj Some) in Eh. subst q.
    change (pbs_better (dynamic_update q') (dynamic_update p)) with (pbs_better q' p).
    by destruct (pbs_better q' p).
Qed.

(** [h] is a choice of the priority scheduler: no RUNNABLE process has a smaller
    dynamic priority, or the same one and more runs, or also as many runs and a
    later creation. *)
Definition pbs_choice (ps : list proc) (h : nat) : Prop :=
  exists p, ps !! h = Some p /\ p_state p = RUNNABLE /\
    forall j q, ps !! j = Some q -> p_state q = RUNNABLE -> pbs_better p q = false.

Lemma pbs_scan_choice l :
  match (scan pbs_better (dynamic_update <$> l) 0 None).1 with
  | Some (i, _) => pbs_choice l i
  | None => forall j q, l !! j = Some q -> p_state q <> RUNNABLE
  end.
Proof.
  assert (HH : _) by (refine (scan_ok pbs_better _ _ _ (dynamic_update <$> l) 0 None); unfold pbs_better; lia).
  destruct (scan pbs_better _ 0 None).1 as [[i p]|].
  - destruct HH as [[Hr|?] Hb]; [|done]. apply ready_0 in Hr as [E Hp].
    rewrite list_lookup_fmap in E. destruct (l !! i) as [p'|] eqn:E'; [|done].
    apply (inj Some) in E. subst p. exists p'. split_and!; [done|done|].
    intros j q Ej Hq. apply (Hb j (dynamic_update q)). left. apply ready_0.
    by rewrite list_lookup_fmap, Ej.
  - destruct HH as [_ Hn]. intros j q E Hq. apply (Hn j (dynamic_update q)). apply ready_0.
    by rewrite list_lookup_fmap, E.
Qed.

(** The scan of the PBS scheduler chooses a RUNNABLE process that no other one
    beats on dynamic priority, number of runs and creation time, and leaves all
    that this order depends on unchanged. *)
Theorem pbs_scan_best s :
  length (procs s) = NPROC -> held s = [] ->
  exists r s', pbs_loop NPROC 0 None s = Done (r, NPROC) s' /\
    dynamic_update <$> procs s' = dynamic_update <$> procs s /\
    match r with
    | Some h => pbs_choice (procs s) h
    | None => forall j q, procs s !! j = Some q -> p_state q <> RUNNABLE
    end.
Proof.
  intros Hl Hh. destruct (pbs_loop_ok NPROC 0 None s (dynamic_update <$> procs s)) as (s' & H & Hd & _);
    [done|done|done|intros; rewrite Hh; set_solver|done|].
  eexists _, s'. split_and!; [exact H|done|]. rewrite drop_0.
  pose proof (pbs_scan_choice (procs s)) as HH.
  by destruct (scan pbs_better _ 0 None).1 as [[i p]|].
Qed.

Lemma pbs_scan_best_witness :
  (length (procs ready_kst) = NPROC /\ held ready_kst = []) /\
  exists s', pbs_loop NPROC 0 None ready_kst = Done (Some 1%nat, NPROC) s'.
Proof.
  split; [done|]. destruct (pbs_scan_best ready_kst eq_refl eq_refl) as (r & s' & H & _ & _).
  exists s'. assert (r = Some 1%nat) as -> by (vm_compute in H; by injection H). exact H.
Defined.

(** After the chosen process ran, the PBS scheduler releases the lock of [p], which
    its scan left at [&proc[NPROC]]: with a RUNNABLE process, a turn of it never
    completes properly, whatever the processes do. *)
Theorem scheduler_pbs_leaves_table `{Run} s i p :
  (forall j s0, length (procs s0) = NPROC ->
     exists s1, run_proc j s0 = Done tt s1 /\ length (procs s1) = NPROC) ->
  length (procs s) = NPROC -> held s = [] -> procs s !! i = Some p -> p_state p = RUNNABLE ->
  scheduler_pbs s = Undef.
Proof.
  intros Hrun Hl Hh E Hp.
  destruct (pbs_loop_ok NPROC 0 None s (dynamic_update <$> procs s)) as (s' & Hs & Hd & Hl');
    [done|done|done|intros; rewrite Hh; set_solver|done|]. simpl fmap in Hs.
  unfold scheduler_pbs. unfold bind at 1. rewrite Hs, drop_0.
  pose proof (pbs_scan_choice (procs s)) as HH.
  destruct (scan pbs_better _ 0 None).1 as [[h q]|]; [|by destruct (HH i p)]. simpl.
  destruct HH as (q0 & Eh & _). apply lookup_lt_Some in Eh.
  destruct (lookup_lt_is_Some_2 (procs s') h) as [q' Eq]; [lia|].
  unfold bind at 1. rewrite (getp_done h s' q') by done.
  assert (forall s0, length (procs s0) = NPROC -> punlock NPROC s0 = Undef) as Hu.
  { intros s0 H0. unfold punlock, bind, getp. by rewrite lookup_ge_None_2 by lia. }
  destruct (is_state RUNNABLE q').
  - unfold when, switch_to, modify, bind, ret. rewrite modp_done by lia.
    destruct (Hrun h (up_cur (fun _ => Some h) (up_procs (alter (set_state RUNNING) h) s'))) as (s1 & -> & H1);
      [simpl; by rewrite length_alter|].
    rewrite modp_done by (simpl; lia). rewrite Hu; [done|]. simpl. by rewrite length_alter.
  - unfold when, bind, ret. by rewrite Hu.
Qed.

Lemma scheduler_pbs_leaves_table_witness :
  (length (procs ready_kst) = NPROC /\ held ready_kst = []) /\
  @scheduler_pbs (fun _ => ret tt) ready_kst = Undef.
Proof.
  split; [done|].
  eapply (@scheduler_pbs_leaves_table (fun _ => ret tt) ready_kst 1%nat); [|reflexivity..].
  intros j s0 H0. by exists s0.
Defined.

(** ** Choosing by queue *)

Lemma mlfq_pick_body_done prio i s p :
  procs s !! i = Some p -> ProcLock i ∉ held s ->
  mlfq_pick_body prio i s =
    Done (if is_state RUNNABLE p && (p_queue p =? prio) then Some i else None) s.
Proof.
  intros E Hn. pose proof (lookup_lt_Some _ _ _ E) as Hi.
  assert (punlock i (up_held (cons (ProcLock i)) s) = Done tt s) as Hu.
  { rewrite punlock_done by (simpl; try done; set_solver). unfold up_held; simpl.
    rewrite remove_lock_cons by done. by destruct s. }
  unfold mlfq_pick_body. unfold bind at 1. rewrite plock_done by done. unfold bind at 1.
  rewrite (getp_done i _ p) by done.
  destruct (is_state RUNNABLE p), (p_queue p =? prio); unfold bind; cbn [negb andb]; by rewrite Hu.
Qed.

(** What the scan for one queue finds. *)
Definition in_queue (s : kst) (prio : Z) (i : nat) : option nat :=
  match procs s !! i with
  | Some p => if is_state RUNNABLE p && (p_queue p =? prio) then Some i else None
  | None => None
  end.

Lemma mlfq_pick_done s :
  length (procs s) = NPROC -> no_plocks s ->
  mlfq_pick s = Done (find_some (fun prio => find_some (in_queue s prio) proc_ids) [0; 1; 2; 3; 4]) s.
Proof.
  intros Hl Hn. apply for_find_pure. intros prio _. apply for_find_pure. intros i Hi.
  apply elem_of_seq in Hi. destruct (lookup_lt_is_Some_2 (procs s) i) as [p E]; [lia|].
  unfold in_queue. rewrite E. by apply mlfq_pick_body_done.
Qed.

Lemma in_queue_spec s prio i r :
  in_queue s prio i = Some r <->
  r = i /\ exists p, procs s !! i = Some p /\ p_state p = RUNNABLE /\ p_queue p = prio.
Proof.
  unfold in_queue, is_state. destruct (procs s !! i) as [p|]; [|naive_solver].
  case_bool_decide; destruct (Z.eqb_spec (p_queue p) prio); naive_solver.
Qed.

(** The MLFQ scheduler chooses a RUNNABLE process of the lowest-numbered queue that
    has one, without leaving a lock held, and chooses none only if every queue is
    without RUNNABLE processes. *)
Theorem mlfq_pick_lowest s :
  length (procs s) = NPROC -> no_plocks s ->
  (forall i p, procs s !! i = Some p -> 0 <= p_queue p <= 4) ->
  exists r, mlfq_pick s = Done r s /\
    match r with
    | Some i => exists p, procs s !! i = Some p /\ p_state p = RUNNABLE /\
        forall j q, procs s !! j = Some q -> p_state q = RUNNABLE -> p_queue p <= p_queue q
    | None => forall j q, procs s !! j = Some q -> p_state q <> RUNNABLE
    end.
Proof.
  intros Hl Hn Hq. rewrite mlfq_pick_done by done. eexists. split; [done|].
  assert (forall j q, procs s !! j = Some q -> p_state q = RUNNABLE ->
    find_some (in_queue s (p_queue q)) proc_ids <> None /\ p_queue q ∈ [0; 1; 2; 3; 4]) as Hany.
  { intros j q E Hr. split; [|specialize (Hq _ _ E); assert (p_queue q = 0 \/ p_queue q = 1 \/ p_queue q = 2 \/
      p_queue q = 3 \/ p_queue q = 4) by lia; set_solver].
    intros Hno. pose proof (find_some_spec (in_queue s (p_queue q)) proc_ids) as Hs. rewrite Hno in Hs.
    assert (in_queue s (p_queue q) j = Some j) as Hj by (apply in_queue_spec; naive_solver).
    rewrite Hs in Hj; [done|]. apply elem_of_seq. apply lookup_lt_Some in E. lia. }
  set (F := fun prio => find_some (in_queue s prio) proc_ids) in *.
  pose proof (find_some_spec F [0; 1; 2; 3; 4]) as HF.
  destruct (find_some F [0; 1; 2; 3; 4]) as [i|].
  - destruct HF as (pre & prio & suf & El & Hi & Hpre). unfold F in Hi.
    pose proof (find_some_spec (in_queue s prio) proc_ids) as Hs. rewrite Hi in Hs.
    destruct Hs as (_ & i' & _ & _ & (-> & p & E & Hr & Hp)%in_queue_spec & _).
    exists p. split_and!; [done|done|]. intros j q Ej Hrj. destruct (Hany j q Ej Hrj) as [Hsome Hin].
    destruct (decide (p_queue p <= p_queue q)) as [|Hlt]; [done|]. destruct Hsome. apply Hpre.
    assert (forall x, x ∈ pre ++ prio :: suf -> x < prio -> x ∈ pre) as Hsorted.
    { rewrite <- El. intros x Hx Hxp. clear -El Hx Hxp.
      repeat (destruct pre as [|? pre]; simplify_eq/=; [set_solver by lia|]). set_solver by lia. }
    apply Hsorted; [by rewrite <- El|lia].
  - intros j q E Hr. destruct (Hany j q E Hr) as [Hsome Hin]. destruct Hsome. by apply HF.
Qed.

Lemma mlfq_pick_lowest_witness :
  (length (procs ready_kst) = NPROC /\ no_plocks ready_kst) /\ mlfq_pick ready_kst = Done (Some 1%nat) ready_kst.
Proof.
  assert (no_plocks ready_kst) as Hn by (intros i; simpl; set_solver).
  split; [done|].
  destruct (mlfq_pick_lowest ready_kst eq_refl Hn) as (r & H & _).
  - intros i p E. assert (forallb (fun p => p_queue p =? 0) (procs ready_kst) = true) as Hf by reflexivity.
    rewrite forallb_forall in Hf. specialize (Hf p). apply list_elem_of_lookup_2, list_elem_of_In in E.
    specialize (Hf E). lia.
  - rewrite H. f_equal. vm_compute in H. by injection H.
Defined.
