(* ===== verification/Kalloc.v ===== *)
(** * The page allocator

    [kernel/kalloc.c]. The free list is threaded through the free pages
    themselves: the first word of a free page is the address of the next one.
    [free_list m h l] is the abstraction of it to the list of its pages. *)

From S2P Require Import Prelude CString State Spinlock.

(** What the linker script decides: [end], [etext], and where the trampoline
    page is. *)
Class Layout : Type := { kend : Z; etext : Z; trampoline : Z }.
Class LayoutOk `{Layout} : Prop := {
  kend_range : KERNBASE <= kend < PHYSTOP;
  etext_range : KERNBASE <= etext <= kend /\ etext mod PGSIZE = 0;
  trampoline_range : KERNBASE <= trampoline < etext /\ trampoline mod PGSIZE = 0 }.

(** kernel/riscv.h *)
Definition PGROUNDUP (sz : Z) : Z := Z.land (u64 (sz + PGSIZE - 1)) (Z.lnot (PGSIZE - 1)).
Definition PGROUNDDOWN (a : Z) : Z := Z.land a (Z.lnot (PGSIZE - 1)).

Section kalloc.
Context `{Layout}.

Definition kfree (pa : Z) : M kst unit :=
  if negb (pa mod PGSIZE =? 0) || (pa <? kend) || (pa >=? PHYSTOP) then panic "kfree"
  else
    modify (up_pmem (fun m => memset m pa 1 PGSIZE)) ;;;
    acquire KmemLock ;;;
    let! h := gets freelist in
    modify (up_pmem (fun m => wr64 m pa h)) ;;;
    modify (up_freelist (fun _ => pa)) ;;;
    release KmemLock.

(** The addresses the loop of [freerange] visits. *)
Definition range_pages (pa_start pa_end : Z) : list Z :=
  let p := PGROUNDUP pa_start in
  (fun i => p + PGSIZE * i) <$> zrange 0 ((pa_end - p) / PGSIZE).
Definition freerange (pa_start pa_end : Z) : M kst unit :=
  for_each (range_pages pa_start pa_end) kfree.

Definition kinit : M kst unit := freerange kend PHYSTOP.

Definition kalloc : M kst Z :=
  acquire KmemLock ;;;
  let! r := gets freelist in
  let! s := get in
  when (negb (r =? 0)) (modify (up_freelist (fun _ => rd64 (pmem s) r))) ;;;
  release KmemLock ;;;
  when (negb (r =? 0)) (modify (up_pmem (fun m => memset m r 5 PGSIZE))) ;;;
  ret r.
End kalloc.

(** ** The free list as a list of pages *)

Lemma PGROUNDDOWN_spec a : PGROUNDDOWN a = a - a mod PGSIZE.
Proof.
  unfold PGROUNDDOWN. change (PGSIZE - 1) with (Z.ones 12).
  rewrite <- Z.ldiff_land, Z.ldiff_ones_r by lia.
  rewrite Z.shiftl_mul_pow2, Z.shiftr_div_pow2 by lia. change (2^12) with PGSIZE.
  unfold PGSIZE. zlia.
Qed.
Lemma PGROUNDUP_aligned a : PGROUNDUP a mod PGSIZE = 0.
Proof. pose proof (PGROUNDDOWN_spec (u64 (a + PGSIZE - 1))) as E. unfold PGROUNDDOWN in E. unfold PGROUNDUP. rewrite E. unfold PGSIZE. zlia. Qed.
Lemma PGROUNDUP_spec a :
  0 <= a + (PGSIZE - 1) < 2^64 -> PGROUNDUP a = (a + (PGSIZE - 1)) - (a + (PGSIZE - 1)) mod PGSIZE.
Proof.
  intros Ha. unfold PGROUNDUP. replace (a + PGSIZE - 1) with (a + (PGSIZE - 1)) by lia. rewrite u64_small by done.
  exact (PGROUNDDOWN_spec (a + (PGSIZE - 1))).
Qed.

Section free_list.
Context `{LayoutOk}.

(** A page the allocator may manage. *)
Definition page_ok (p : Z) : Prop := p mod PGSIZE = 0 /\ kend <= p < PHYSTOP.

Fixpoint free_list (m : mem) (h : Z) (l : list Z) : Prop :=
  match l with
  | [] => h = 0
  | p :: l' => h = p /\ page_ok p /\ p ∉ l' /\ free_list m (rd64 m p) l'
  end.

(** Two different pages do not overlap. *)
Lemma pages_apart p q : p mod PGSIZE = 0 -> q mod PGSIZE = 0 -> p <> q -> p + PGSIZE <= q \/ q + PGSIZE <= p.
Proof. unfold PGSIZE. intros. zlia. Qed.
Lemma page_ok_nz p : page_ok p -> p <> 0.
Proof. intros [_ ?]. pose proof kend_range. unfold KERNBASE in *. lia. Qed.

Lemma free_list_ok m h l : free_list m h l -> Forall page_ok l /\ NoDup l.
Proof.
  revert h. induction l as [|p l IH]; intros h; simpl; [by repeat constructor|].
  intros (-> & Hp & Hn & Hl). destruct (IH _ Hl). split; by constructor.
Qed.

(** The list does not notice changes outside its pages. *)
Lemma free_list_ext m m' h l :
  (forall p, p ∈ l -> rd64 m' p = rd64 m p) -> free_list m h l -> free_list m' h l.
Proof.
  revert h. induction l as [|p l IH]; intros h Hm; simpl; [done|].
  intros (-> & Hp & Hn & Hl). split_and!; try done.
  rewrite Hm by set_solver. apply IH; [set_solver|done].
Qed.

Lemma free_list_page m h l f q :
  page_ok q -> q ∉ l -> (forall x, ~ (q <= x < q + PGSIZE) -> rd (f m) x = rd m x) ->
  free_list m h l -> free_list (f m) h l.
Proof.
  intros Hq Hn Hf Hl. apply (free_list_ext m); [|done]. intros p Hp.
  destruct (free_list_ok _ _ _ Hl) as [Hok _]. rewrite Forall_forall in Hok.
  apply rd64_ext. intros x Hx. apply Hf.
  destruct (pages_apart p q) as [?|?]; [apply Hok, Hp|apply Hq|set_solver| |]; unfold PGSIZE in *; lia.
Qed.

Definition kmem_rep (s : kst) (l : list Z) : Prop := free_list (pmem s) (freelist s) l.

#[local] Opaque memset wr64.

(** [kfree] of a page that is not free puts exactly that page on the free list,
    and overwrites nothing outside it. *)
Lemma kfree_spec p l s :
  KmemLock ∉ held s -> kmem_rep s l -> page_ok p -> p ∉ l ->
  exists m, kfree p s = Done tt (up_freelist (fun _ => p) (up_pmem (fun _ => m) s)) /\
    free_list m p (p :: l) /\
    forall x, ~ (p <= x < p + PGSIZE) -> rd m x = rd (pmem s) x.
Proof.
  intros Hn Hl Hp Hf. pose proof Hp as [Ha Hr].
  exists (wr64 (memset (pmem s) p 1 PGSIZE) p (freelist s)). split_and!.
  - unfold kfree. destruct (_ || _) eqn:E; [lia|]. unfold bind, modify, gets.
    rewrite acquire_done by done. rewrite release_done by (simpl; set_solver).
    f_equal. unfold up_held, up_freelist, up_pmem; simpl. by rewrite remove_lock_cons.
  - simpl. rewrite rd64_wr64. split_and!; try done.
    assert (u64 (freelist s) = freelist s) as ->.
    { destruct l as [|q l]; simpl in Hl; unfold kmem_rep in Hl; simpl in Hl; [by rewrite Hl|].
      destruct Hl as (-> & [_ ?] & _). pose proof kend_range. unfold KERNBASE, PHYSTOP in *.
      apply u64_small. unfold KERNBASE in *. lia. }
    revert Hl. apply (free_list_page _ _ _ (fun m => wr64 (memset m p 1 PGSIZE) p (freelist s)) p); try done.
    intros x Hx. rewrite rd_wr64_ne, memset_rd, decide_False by (unfold PGSIZE in *; lia). done.
  - intros x Hx. rewrite rd_wr64_ne, memset_rd, decide_False by (unfold PGSIZE in *; lia). done.
Qed.

(** [kalloc] takes the first page off the free list, fills it with 5 and returns
    it; with an empty list it returns 0 and changes nothing. *)
Lemma kalloc_spec l s :
  KmemLock ∉ held s -> kmem_rep s l ->
  match l with
  | [] => kalloc s = Done 0 s
  | p :: l' => exists m h, kalloc s = Done p (up_freelist (fun _ => h) (up_pmem (fun _ => m) s)) /\
      free_list m h l' /\ page_ok p /\ p ∉ l' /\
      forall x, rd m x = if decide (p <= x < p + PGSIZE) then 5 else rd (pmem s) x
  end.
Proof.
  intros Hn Hl. unfold kalloc. mrun. rewrite acquire_done by done.
  destruct l as [|p l']; unfold kmem_rep in Hl; simpl in Hl.
  - simpl. rewrite Hl. simpl.
    f_equal. unfold up_held; simpl. rewrite remove_lock_cons by done. by destruct s.
  - destruct Hl as (Hh & Hp & Hf & Hl).
    exists (memset (pmem s) p 5 PGSIZE), (rd64 (pmem s) p). simpl. rewrite Hh.
    destruct (Z.eqb_spec p 0) as [E|_]; [by apply page_ok_nz in Hp|].
    simpl. split_and!; try done.
    + f_equal. unfold up_held, up_freelist, up_pmem; simpl. by rewrite remove_lock_cons.
    + revert Hl. apply (free_list_page _ _ _ (fun m => memset m p 5 PGSIZE) p); try done.
      intros x Hx. by rewrite memset_rd, decide_False.
    + intros x. by rewrite memset_rd.
Qed.

(** ** The life of the allocator *)

Lemma range_pages_spec a b p :
  p ∈ range_pages a b <-> p mod PGSIZE = 0 /\ PGROUNDUP a <= p /\ p + PGSIZE <= b.
Proof.
  unfold range_pages. rewrite list_elem_of_fmap.
  pose proof (PGROUNDUP_aligned a) as Ha.
  unfold PGSIZE in *. split.
  - intros (i & -> & Hi%elem_of_zrange). split_and!; zlia.
  - intros (Hp & Hlo & Hhi). exists ((p - PGROUNDUP a) / 4096). rewrite elem_of_zrange. split; zlia.
Qed.
Lemma range_pages_NoDup a b : NoDup (range_pages a b).
Proof. apply NoDup_fmap_2; [intros x y; unfold PGSIZE; lia|apply NoDup_seqZ]. Qed.

Lemma freerange_ok ps : forall l s,
  held s = [] -> kmem_rep s l -> Forall page_ok ps -> NoDup ps -> (forall p, p ∈ ps -> p ∉ l) ->
  exists s', for_each ps kfree s = Done tt s' /\ held s' = [] /\ kmem_rep s' (reverse ps ++ l).
Proof.
  induction ps as [|p ps IH]; intros l s Hh Hl Hok Hnd Hf; simpl.
  - by exists s.
  - apply Forall_cons in Hok as [Hp Hok]. apply NoDup_cons in Hnd as [Hn Hnd].
    destruct (kfree_spec p l s) as (m & Hk & Hm & _); [rewrite Hh; set_solver|done|done|set_solver|].
    unfold bind. rewrite Hk. set (s1 := up_freelist _ _).
    destruct (IH (p :: l) s1) as (s' & Hs' & Hh' & Hr'); [done|exact Hm|done|done|set_solver|].
    exists s'. rewrite reverse_cons, <- app_assoc. done.
Qed.

Lemma kinit_ok s :
  held s = [] -> freelist s = 0 ->
  exists s', kinit s = Done tt s' /\ held s' = [] /\
    kmem_rep s' (reverse (range_pages kend PHYSTOP)).
Proof.
  intros Hh Hf0. destruct (freerange_ok (range_pages kend PHYSTOP) [] s) as (s' & ? & ? & Hr); try done.
  - apply Forall_forall. intros p (? & Hup & ?)%range_pages_spec. split; [done|].
    destruct kend_range. unfold PHYSTOP, KERNBASE in *.
    rewrite PGROUNDUP_spec in Hup by (unfold PGSIZE; lia). unfold PGSIZE in *. zlia.
  - apply range_pages_NoDup.
  - set_solver.
  - rewrite app_nil_r in Hr. by exists s'.
Qed.

(** What the kernel does with pages: [live] are those it got and did not give back. *)
Inductive page_step : kst * list Z -> kst * list Z -> Prop :=
| step_alloc s live p s' : kalloc s = Done p s' -> p <> 0 -> page_step (s, live) (s', p :: live)
| step_alloc_none s live s' : kalloc s = Done 0 s' -> page_step (s, live) (s', live)
| step_free s live1 p live2 s' :
    kfree p s = Done tt s' -> page_step (s, live1 ++ p :: live2) (s', live1 ++ live2).

Lemma page_step_inv x y all :
  page_step x y ->
  held x.1 = [] -> (exists l, kmem_rep x.1 l /\ l ++ x.2 ≡ₚ all) -> NoDup all -> Forall page_ok all ->
  held y.1 = [] /\ exists l, kmem_rep y.1 l /\ l ++ y.2 ≡ₚ all.
Proof.
  intros Hs Hh (l & Hl & Hp) Hnd Hok.
  destruct Hs as [s live p s' Hk Hne|s live s' Hk|s live1 p live2 s' Hk]; simpl in *.
  - pose proof (kalloc_spec l s) as Hspec. destruct l as [|q l].
    + rewrite Hspec in Hk by (rewrite ?Hh; done || set_solver). by injection Hk as <- <-.
    + destruct Hspec as (m & h & Hk' & Hf & _); [rewrite Hh; set_solver|done|].
      rewrite Hk' in Hk. injection Hk as <- <-. split; [done|]. exists l. split; [exact Hf|].
      rewrite <- Hp. symmetry. apply Permutation_middle.
  - pose proof (kalloc_spec l s) as Hspec. destruct l as [|q l].
    + rewrite Hspec in Hk by (rewrite ?Hh; done || set_solver). injection Hk as <-. split; [done|]. by exists [].
    + destruct Hspec as (m & h & Hk' & _ & Hq & _); [rewrite Hh; set_solver|done|].
      rewrite Hk' in Hk. injection Hk as E _. by apply page_ok_nz in Hq.
  - rewrite <- Hp in Hnd, Hok. apply NoDup_app in Hnd as (_ & Hd & Hnd).
    rewrite Forall_app, Forall_app, Forall_cons in Hok.
    destruct (kfree_spec p l s) as (m & Hk' & Hf & _);
      [rewrite Hh; set_solver|done|naive_solver|intros ?; apply (Hd p); set_solver|].
    rewrite Hk' in Hk. injection Hk as <-. split; [done|]. exists (p :: l). split; [exact Hf|].
    rewrite <- Hp, <- (Permutation_middle live1). apply Permutation_middle.
Qed.

(** C4. From boot on, whatever pages the kernel allocates and gives back, no page is
    lost, handed out twice, or both free and in use: the free pages and the pages
    in use are together a permutation of the pages between [end] and [PHYSTOP]. *)
Theorem pages_conserved s0 s1 s live :
  held s0 = [] -> freelist s0 = 0 -> kinit s0 = Done tt s1 -> rtc page_step (s1, []) (s, live) ->
  exists l, kmem_rep s l /\ l ++ live ≡ₚ range_pages kend PHYSTOP /\ NoDup (l ++ live).
Proof.
  intros Hh Hf0 Hk Hr. destruct (kinit_ok s0 Hh Hf0) as (s1' & Hk' & Hh1 & Hl1).
  rewrite Hk in Hk'. injection Hk' as <-.
  pose proof (range_pages_NoDup kend PHYSTOP) as Hnd.
  pose proof (free_list_ok _ _ _ Hl1) as [Hok _]. rewrite reverse_Permutation in Hok.
  assert (forall x y, rtc page_step x y ->
    held x.1 = [] -> (exists l, kmem_rep x.1 l /\ l ++ x.2 ≡ₚ range_pages kend PHYSTOP) ->
    held y.1 = [] /\ exists l, kmem_rep y.1 l /\ l ++ y.2 ≡ₚ range_pages kend PHYSTOP) as Hinv.
  { induction 1 as [x|x y z Hxy _ IH]; intros Hx Hlx; [done|].
    destruct (page_step_inv x y _ Hxy Hx Hlx Hnd Hok) as [? ?]. by apply IH. }
  destruct (Hinv _ _ Hr) as [_ (l & Hl & Hp)]; [done| |].
  - eexists. split; [exact Hl1|]. simpl. rewrite app_nil_r. apply reverse_Permutation.
  - exists l. split_and!; [done|done|]. by rewrite Hp.
Qed.
End free_list.

(** A machine with four pages of free memory. *)
#[local] Instance demo_layout : Layout :=
  {| kend := PHYSTOP - 4 * PGSIZE - 100; etext := KERNBASE + 8 * PGSIZE; trampoline := KERNBASE + 7 * PGSIZE |}.
#[local] Instance demo_layout_ok : LayoutOk.
Proof. split; vm_compute; split_and?; congruence. Qed.


(** No lock held, nothing allocated yet. *)
Definition boot_kst : kst :=
  mk_kst [] None (replicate NPROC proc0) 1 None 0 (replicate 64 None) 0
    ∅ 0 ∅ ∅ (replicate NFILE file0) (replicate NINODE inode0) []
    (mk_logst 0 0 0 false 0 []) (mk_superblock 0 0 0 0 0 0 0 0) ∅ []
    vdisk0
    (mk_consst (replicate 128 0) 0 0 0) (mk_uartst (replicate 32 0) 0 0) [].

Lemma pages_conserved_witness :
  exists s1 s2, kinit boot_kst = Done tt s1 /\ kalloc s1 = Done (PHYSTOP - PGSIZE) s2 /\
    exists l, kmem_rep s2 l /\ l ++ [PHYSTOP - PGSIZE] ≡ₚ range_pages kend PHYSTOP.
Proof.
  destruct (kinit_ok boot_kst eq_refl eq_refl) as (s1 & Hk & Hh & Hl).
  pose proof (kalloc_spec _ s1 ltac:(rewrite Hh; set_solver) Hl) as Ha.
  destruct Ha as (m & h & Ha & _).
  eexists s1, _. split_and!; [exact Hk|exact Ha|].
  destruct (pages_conserved boot_kst s1 _ [PHYSTOP - PGSIZE] eq_refl eq_refl Hk
    (rtc_once _ _ (step_alloc s1 [] _ _ Ha ltac:(discriminate)))) as (l & H1 & H2 & _).
  by exists l.
Defined.
