(* ===== verification/Vm.v ===== *)
(** * Virtual memory

    [kernel/vm.c] over the bytes of physical memory: page tables are pages of
    512 little-endian words, reached from their root by [walk]. The copies between
    kernel and user space take and give the kernel side as a list of bytes; a copy
    that fails half way also returns what it had copied by then. *)

From S2P Require Import Prelude CString State Spinlock Kalloc.

(** ** kernel/riscv.h *)

Definition PTE_V : Z := 1.
Definition PTE_R : Z := 2.
Definition PTE_W : Z := 4.
Definition PTE_X : Z := 8.
Definition PTE_U : Z := 16.
Definition PA2PTE (pa : Z) : Z := u64 (Z.shiftl (Z.shiftr pa 12) 10).
Definition PTE2PA (pte : Z) : Z := u64 (Z.shiftl (Z.shiftr pte 10) 12).
Definition PTE_FLAGS (pte : Z) : Z := Z.land pte 0x3FF.
Definition PXSHIFT (level : Z) : Z := 12 + 9 * level.
Definition PX (level va : Z) : Z := Z.land (Z.shiftr va (PXSHIFT level)) 0x1FF.

(** [pte & flag] as a condition. *)
Definition has_flag (pte flag : Z) : bool := negb (Z.land pte flag =? 0).

Definition UART0 : Z := 0x10000000.
Definition VIRTIO0 : Z := 0x10001000.
Definition PLIC : Z := 0x0c000000.
Definition SATP_SV39 : Z := 2^63.
Definition MAKE_SATP (pagetable : Z) : Z := Z.lor SATP_SV39 (Z.shiftr pagetable 12).
Definition UART0_IRQ : Z := 10.
Definition VIRTIO0_IRQ : Z := 1.

(** [*pte] and [*pte = v] *)
Definition load64 (a : Z) : M kst Z := gets (fun s => rd64 (pmem s) a).
Definition store64 (a v : Z) : M kst unit := modify (up_pmem (fun m => wr64 m a v)).
Definition memset_m (a c n : Z) : M kst unit := modify (up_pmem (fun m => memset m a c n)).

Section vm.
Context `{Layout}.

(** One turn of the loop of [walk]: the next table, [None] where [walk] returns 0. *)
Definition walk_level (pagetable va : Z) (alloc : bool) (level : Z) : M kst (option Z) :=
  let pte := pagetable + 8 * PX level va in
  let! e := load64 pte in
  if has_flag e PTE_V then ret (Some (PTE2PA e))
  else if negb alloc then ret None
  else
    let! p := kalloc in
    if p =? 0 then ret None
    else
      memset_m p 0 PGSIZE ;;;
      store64 pte (Z.lor (PA2PTE p) PTE_V) ;;;
      ret (Some p).

(** The address of the PTE, 0 for a null pointer. *)
Definition walk (pagetable va : Z) (alloc : bool) : M kst Z :=
  if va >=? MAXVA then panic "walk"
  else
    let! t1 := walk_level pagetable va alloc 2 in
    match t1 with
    | None => ret 0
    | Some t1 =>
        let! t0 := walk_level t1 va alloc 1 in
        match t0 with
        | None => ret 0
        | Some t0 => ret (t0 + 8 * PX 0 va)
        end
    end.

Definition walkaddr (pagetable va : Z) : M kst Z :=
  if va >=? MAXVA then ret 0
  else
    let! pte := walk pagetable va false in
    if pte =? 0 then ret 0
    else
      let! e := load64 pte in
      if negb (has_flag e PTE_V) then ret 0
      else if negb (has_flag e PTE_U) then ret 0
      else ret (PTE2PA e).

(** [fuel] bounds the pages from [a] to [last], around the end of the address space if [last]
    is below [a]. *)
Fixpoint mappages_loop (fuel : nat) (pagetable a last pa perm : Z) : M kst Z :=
  match fuel with
  | O => nofuel
  | S fuel' =>
      let! pte := walk pagetable a true in
      if pte =? 0 then ret (-1)
      else
        let! e := load64 pte in
        if has_flag e PTE_V then panic "mappages: remap"
        else
          store64 pte (Z.lor (Z.lor (PA2PTE pa) perm) PTE_V) ;;;
          if a =? last then ret 0
          else mappages_loop fuel' pagetable (u64 (a + PGSIZE)) last (u64 (pa + PGSIZE)) perm
  end.
Definition mappages (pagetable va size pa perm : Z) : M kst Z :=
  if size =? 0 then panic "mappages: size"
  else
    let a := PGROUNDDOWN va in
    let last := PGROUNDDOWN (u64 (va + size - 1)) in
    mappages_loop (S (Z.to_nat (u64 (last - a) / PGSIZE))) pagetable a last pa perm.

Definition kvmmap (kpgtbl va pa sz perm : Z) : M kst unit :=
  let! r := mappages kpgtbl va sz pa perm in
  if negb (r =? 0) then panic "kvmmap" else ret tt.

(** kernel/proc.c *)
Definition proc_mapstacks (kpgtbl : Z) : M kst unit :=
  for_each (seq 0 NPROC) (fun i =>
    let! pa := kalloc in
    if pa =? 0 then panic "kalloc"
    else kvmmap kpgtbl (KSTACK (Z.of_nat i)) pa PGSIZE (Z.lor PTE_R PTE_W)).

Definition kvmmake : M kst Z :=
  let! kpgtbl := kalloc in
  memset_m kpgtbl 0 PGSIZE ;;;
  kvmmap kpgtbl UART0 UART0 PGSIZE (Z.lor PTE_R PTE_W) ;;;
  kvmmap kpgtbl VIRTIO0 VIRTIO0 PGSIZE (Z.lor PTE_R PTE_W) ;;;
  kvmmap kpgtbl PLIC PLIC 0x400000 (Z.lor PTE_R PTE_W) ;;;
  kvmmap kpgtbl KERNBASE KERNBASE (etext - KERNBASE) (Z.lor PTE_R PTE_X) ;;;
  kvmmap kpgtbl etext etext (PHYSTOP - etext) (Z.lor PTE_R PTE_W) ;;;
  kvmmap kpgtbl TRAMPOLINE trampoline PGSIZE (Z.lor PTE_R PTE_X) ;;;
  proc_mapstacks kpgtbl ;;;
  ret kpgtbl.

Definition uvmunmap_page (pagetable a : Z) (do_free : bool) : M kst unit :=
  let! pte := walk pagetable a false in
  if pte =? 0 then panic "uvmunmap: walk"
  else
    let! e := load64 pte in
    if negb (has_flag e PTE_V) then panic "uvmunmap: not mapped"
    else if PTE_FLAGS e =? PTE_V then panic "uvmunmap: not a leaf"
    else
      when do_free (kfree (PTE2PA e)) ;;;
      store64 pte 0.
Definition uvmunmap (pagetable va npages : Z) (do_free : bool) : M kst unit :=
  if negb (va mod PGSIZE =? 0) then panic "uvmunmap: not aligned"
  else for_each (zrange 0 npages) (fun i => uvmunmap_page pagetable (va + i * PGSIZE) do_free).

Definition uvmcreate : M kst Z :=
  let! pagetable := kalloc in
  if pagetable =? 0 then ret 0
  else memset_m pagetable 0 PGSIZE ;;; ret pagetable.

Definition uvmfirst (pagetable : Z) (src : list Z) : M kst unit :=
  if Z.of_nat (length src) >=? PGSIZE then panic "uvmfirst: more than a page"
  else
    let! mem := kalloc in
    memset_m mem 0 PGSIZE ;;;
    mappages pagetable 0 PGSIZE mem (Z.lor (Z.lor PTE_W PTE_R) (Z.lor PTE_X PTE_U)) ;;;
    modify (up_pmem (fun m => wr_bytes m mem src)).

Definition uvmdealloc (pagetable oldsz newsz : Z) : M kst Z :=
  if newsz >=? oldsz then ret oldsz
  else
    when (PGROUNDUP newsz <? PGROUNDUP oldsz)
      (uvmunmap pagetable (PGROUNDUP newsz) ((PGROUNDUP oldsz - PGROUNDUP newsz) / PGSIZE) true) ;;;
    ret newsz.

(** The pages [a, a + PGSIZE, ...] below [newsz]; 0 if memory runs out. *)
Fixpoint uvmalloc_loop (n : nat) (pagetable oldsz newsz xperm a : Z) : M kst Z :=
  match n with
  | O => ret newsz
  | S n' =>
      let! mem := kalloc in
      if mem =? 0 then uvmdealloc pagetable a oldsz ;;; ret 0
      else
        memset_m mem 0 PGSIZE ;;;
        let! r := mappages pagetable a PGSIZE mem (Z.lor (Z.lor PTE_R PTE_U) xperm) in
        if negb (r =? 0) then kfree mem ;;; uvmdealloc pagetable a oldsz ;;; ret 0
        else uvmalloc_loop n' pagetable oldsz newsz xperm (a + PGSIZE)
  end.
Definition uvmalloc (pagetable oldsz newsz xperm : Z) : M kst Z :=
  if newsz <? oldsz then ret oldsz
  else
    let oldsz := PGROUNDUP oldsz in
    uvmalloc_loop (Z.to_nat ((newsz - oldsz + PGSIZE - 1) / PGSIZE)) pagetable oldsz newsz xperm oldsz.

(** [depth] bounds the levels of the table; those that [walk] builds have 3. *)
Fixpoint freewalk (depth : nat) (pagetable : Z) : M kst unit :=
  match depth with
  | O => nofuel
  | S depth' =>
      for_each (zrange 0 512) (fun i =>
        let! pte := load64 (pagetable + 8 * i) in
        if has_flag pte PTE_V && (Z.land pte (Z.lor PTE_R (Z.lor PTE_W PTE_X)) =? 0) then
          freewalk depth' (PTE2PA pte) ;;;
          store64 (pagetable + 8 * i) 0
        else if has_flag pte PTE_V then panic "freewalk: leaf"
        else ret tt) ;;;
      kfree pagetable
  end.

Definition uvmfree (pagetable sz : Z) : M kst unit :=
  when (sz >? 0) (uvmunmap pagetable 0 (PGROUNDUP sz / PGSIZE) true) ;;;
  freewalk 3 pagetable.

Fixpoint uvmcopy_loop (n : nat) (old new i : Z) : M kst Z :=
  match n with
  | O => ret 0
  | S n' =>
      let! pte := walk old i false in
      if pte =? 0 then panic "uvmcopy: pte should exist"
      else
        let! e := load64 pte in
        if negb (has_flag e PTE_V) then panic "uvmcopy: page not present"
        else
          let err := uvmunmap new 0 (i / PGSIZE) true ;;; ret (-1) in
          let! mem := kalloc in
          if mem =? 0 then err
          else
            modify (up_pmem (fun m => memmove m mem (PTE2PA e) PGSIZE)) ;;;
            let! r := mappages new i PGSIZE mem (PTE_FLAGS e) in
            if negb (r =? 0) then kfree mem ;;; err
            else uvmcopy_loop n' old new (i + PGSIZE)
  end.
Definition uvmcopy (old new sz : Z) : M kst Z :=
  uvmcopy_loop (Z.to_nat ((sz + PGSIZE - 1) / PGSIZE)) old new 0.

Definition uvmclear (pagetable va : Z) : M kst unit :=
  let! pte := walk pagetable va false in
  if pte =? 0 then panic "uvmclear"
  else
    let! e := load64 pte in
    store64 pte (Z.land e (Z.lnot PTE_U)).

(** ** Copies between the kernel and user space *)

(** Each turn copies at least one byte, so that the length of [src] is fuel enough. *)
Fixpoint copyout_loop (fuel : nat) (pagetable dstva : Z) (src : list Z) : M kst Z :=
  match src with
  | [] => ret 0
  | _ =>
    match fuel with
    | O => nofuel
    | S fuel' =>
        let va0 := PGROUNDDOWN dstva in
        let! pa0 := walkaddr pagetable va0 in
        if pa0 =? 0 then ret (-1)
        else
          let n := Z.min (PGSIZE - (dstva - va0)) (Z.of_nat (length src)) in
          modify (up_pmem (fun m => wr_bytes m (pa0 + (dstva - va0)) (take (Z.to_nat n) src))) ;;;
          copyout_loop fuel' pagetable (va0 + PGSIZE) (drop (Z.to_nat n) src)
    end
  end.
Definition copyout (pagetable dstva : Z) (src : list Z) : M kst Z :=
  copyout_loop (length src) pagetable dstva src.

(** The result and the bytes stored at [dst]. *)
Fixpoint copyin_loop (fuel : nat) (pagetable srcva len : Z) (got : list Z) : M kst (Z * list Z) :=
  if len <=? 0 then ret (0, got)
  else
    match fuel with
    | O => nofuel
    | S fuel' =>
        let va0 := PGROUNDDOWN srcva in
        let! pa0 := walkaddr pagetable va0 in
        if pa0 =? 0 then ret (-1, got)
        else
          let n := Z.min (PGSIZE - (srcva - va0)) len in
          let! s := get in
          copyin_loop fuel' pagetable (va0 + PGSIZE) (len - n)
            (got ++ rd_bytes (pmem s) (pa0 + (srcva - va0)) (Z.to_nat n))
    end.
Definition copyin (pagetable srcva len : Z) : M kst (Z * list Z) :=
  copyin_loop (Z.to_nat len) pagetable srcva len [].

(** The inner loop of [copyinstr]: whether it met the NUL, and the bytes it stored. *)
Fixpoint copyinstr_page (m : mem) (p : Z) (n : nat) : bool * list Z :=
  match n with
  | O => (false, [])
  | S n' =>
      if rd m p =? 0 then (true, [0])
      else let '(b, l) := copyinstr_page m (p + 1) n' in (b, rd m p :: l)
  end.
Fixpoint copyinstr_loop (fuel : nat) (pagetable srcva max : Z) (got : list Z) : M kst (Z * list Z) :=
  if max <=? 0 then ret (-1, got)
  else
    match fuel with
    | O => nofuel
    | S fuel' =>
        let va0 := PGROUNDDOWN srcva in
        let! pa0 := walkaddr pagetable va0 in
        if pa0 =? 0 then ret (-1, got)
        else
          let n := Z.min (PGSIZE - (srcva - va0)) max in
          let! s := get in
          let '(got_null, l) := copyinstr_page (pmem s) (pa0 + (srcva - va0)) (Z.to_nat n) in
          if got_null then ret (0, got ++ l)
          else copyinstr_loop fuel' pagetable (va0 + PGSIZE) (max - n) (got ++ l)
    end.
Definition copyinstr (pagetable srcva max : Z) : M kst (Z * list Z) :=
  copyinstr_loop (Z.to_nat max) pagetable srcva max [].
End vm.

(** ** Page table entries *)

Lemma land_low_0 x f k : 0 <= k -> 0 <= f < 2^k -> Z.land (Z.shiftl x k) f = 0.
Proof.
  intros Hk Hf. apply Z.bits_inj'. intros n Hn. rewrite Z.land_spec, Z.bits_0.
  destruct (decide (n < k)); [by rewrite Z.shiftl_spec_low|].
  destruct (decide (f = 0)) as [->|]; [by rewrite Z.bits_0, andb_false_r|].
  rewrite (Z.bits_above_log2 f n), andb_false_r; [done|lia|]. apply Z.log2_lt_pow2; [lia|].
  pose proof (Z.pow_le_mono_r 2 k n). lia.
Qed.
Lemma lor_low x f k : 0 <= k -> 0 <= f < 2^k -> Z.lor (Z.shiftl x k) f = x * 2^k + f.
Proof.
  intros Hk Hf. pose proof (Z.add_lor_land (Z.shiftl x k) f) as E.
  rewrite land_low_0, Z.shiftl_mul_pow2 in E by lia. rewrite Z.shiftl_mul_pow2 by lia. lia.
Qed.

(** Physical addresses that fit a PTE. *)
Definition pa_ok (pa : Z) : Prop := pa mod PGSIZE = 0 /\ 0 <= pa < 2^56.

Lemma PA2PTE_spec pa : pa_ok pa -> PA2PTE pa = pa / 4096 * 1024.
Proof.
  intros [_ ?]. unfold PA2PTE. rewrite Z.shiftl_mul_pow2, Z.shiftr_div_pow2 by lia.
  change (2^12) with 4096. change (2^10) with 1024. apply u64_small. zlia.
Qed.
(** The entry that maps a page with some flags. *)
Lemma pte_make pa f : pa_ok pa -> 0 <= f < 1024 -> Z.lor (PA2PTE pa) f = pa / 4096 * 1024 + f.
Proof.
  intros Hpa Hf. rewrite PA2PTE_spec by done. pose proof (lor_low (pa / 4096) f 10 ltac:(lia) Hf) as E.
  by rewrite Z.shiftl_mul_pow2 in E by lia.
Qed.
Lemma pte_pa x f : 0 <= x < 2^44 -> 0 <= f < 1024 -> PTE2PA (x * 1024 + f) = x * 4096.
Proof.
  intros Hx Hf. unfold PTE2PA. rewrite Z.shiftl_mul_pow2, Z.shiftr_div_pow2 by lia.
  change (2^10) with 1024. change (2^12) with 4096.
  replace ((x * 1024 + f) / 1024) with x by zlia. apply u64_small. lia.
Qed.
Lemma pte_flags x f : 0 <= f < 1024 -> PTE_FLAGS (x * 1024 + f) = f.
Proof.
  intros Hf. unfold PTE_FLAGS. change 0x3FF with (Z.ones 10). rewrite Z.land_ones by lia.
  change (2^10) with 1024. zlia.
Qed.
Lemma pte_flag x f g : 0 <= f < 1024 -> 0 <= g < 1024 -> has_flag (x * 1024 + f) g = has_flag f g.
Proof.
  intros Hf Hg. unfold has_flag. do 2 f_equal.
  change (x * 1024 + f) with (x * 2^10 + f). rewrite <- (lor_low x f 10) by lia.
  rewrite Z.land_lor_distr_l. by rewrite land_low_0, Z.lor_0_l by lia.
Qed.

(** What a leaf PTE says is what was put into it. *)
Lemma pte_roundtrip pa perm :
  pa_ok pa -> 0 <= perm < 1024 ->
  let e := Z.lor (Z.lor (PA2PTE pa) perm) PTE_V in
  0 <= e < 2^64 /\ PTE2PA e = pa /\ PTE_FLAGS e = Z.lor perm PTE_V /\
  (forall g, 0 <= g < 1024 -> has_flag e g = has_flag (Z.lor perm PTE_V) g).
Proof.
  intros Hpa Hp e. pose proof Hpa as [Ha Hr]. unfold PGSIZE in Ha.
  assert (0 <= Z.lor perm PTE_V < 1024) as Hf.
  { split; [apply Z.lor_nonneg; unfold PTE_V; lia|].
    destruct (decide (Z.lor perm PTE_V = 0)); [lia|].
    apply (Z.log2_lt_pow2 _ 10); [pose proof (proj2 (Z.lor_nonneg perm PTE_V)); unfold PTE_V in *; lia|].
    rewrite Z.log2_lor by (unfold PTE_V; lia). apply Z.max_lub_lt; [|done].
    destruct (decide (perm = 0)) as [->|]; [done|]. apply Z.log2_lt_pow2; lia. }
  unfold e. rewrite <- Z.lor_assoc, pte_make by done.
  split_and!; [zlia|zlia| | |].
  - rewrite pte_pa by zlia. zlia.
  - by apply pte_flags.
  - intros g Hg. by apply pte_flag.
Qed.
