(* ===== verification/PageTable.v ===== *)
(** * Page tables refine maps

    The bytes that [kernel/vm.c] reads and writes as a three-level tree are shown
    to implement a map from virtual pages to page table entries. [T] gives the
    page of each node of the tree; [pt_rep m T] says that memory [m] holds that
    tree, [leaf m T va] is the entry it has for [va]. *)

From S2P Require Import Prelude CString State Spinlock Kalloc Vm.

(** The nodes of a tree: the root, a level-1 table, a level-0 table. *)
Abbreviation node := (option (Z * option Z)).
Definition child (k : node) (i : Z) : option node :=
  match k with
  | None => Some (Some (i, None))
  | Some (i0, None) => Some (Some (i0, Some i))
  | Some (_, Some _) => None
  end.

Lemma child_inj k k' i i' c : child k i = Some c -> child k' i' = Some c -> k = k' /\ i = i'.
Proof. destruct k as [[? [?|]]|], k' as [[? [?|]]|]; naive_solver. Qed.

Definition dir_entry (m : mem) (a : Z) (o : option Z) : Prop :=
  match o with
  | Some p => rd64 m a = Z.lor (PA2PTE p) PTE_V
  | None => has_flag (rd64 m a) PTE_V = false
  end.

(** The table that holds the leaf entry of [va]. *)
Abbreviation leaf_node va := (Some (PX 2 va, Some (PX 1 va))).

Definition leaf (m : mem) (T : gmap node Z) (va : Z) : Z :=
  match T !! Some (PX 2 va, Some (PX 1 va)) with
  | Some q => rd64 m (q + 8 * PX 0 va)
  | None => 0
  end.

Lemma PX_spec level va : 0 <= level -> PX level va = va / 2^(12 + 9 * level) mod 512.
Proof.
  intros. unfold PX, PXSHIFT. change 0x1FF with (Z.ones 9).
  rewrite Z.land_ones, Z.shiftr_div_pow2 by lia. done.
Qed.
Lemma PX_range level va : 0 <= level -> 0 <= PX level va < 512.
Proof. intros. rewrite PX_spec by done. apply Z.mod_pos_bound. lia. Qed.

(** The three indices determine the page. *)
Lemma PX_inj va va' :
  0 <= va < MAXVA -> 0 <= va' < MAXVA ->
  PX 2 va = PX 2 va' -> PX 1 va = PX 1 va' -> PX 0 va = PX 0 va' -> va / PGSIZE = va' / PGSIZE.
Proof.
  intros Hv Hv'. rewrite !PX_spec by lia. unfold MAXVA, PGSIZE in *.
  change (2^(12 + 9 * 2)) with 1073741824. change (2^(12 + 9 * 1)) with 2097152.
  change (2^(12 + 9 * 0)) with 4096. intros. zlia.
Qed.
Lemma PX_page level va va' : 0 <= level -> va / PGSIZE = va' / PGSIZE -> PX level va = PX level va'.
Proof.
  intros Hl E. rewrite !PX_spec by done. rewrite Z.pow_add_r by lia.
  rewrite <- !Z.div_div by (try apply Z.pow_pos_nonneg; lia).
  change (2^12) with PGSIZE. by rewrite E.
Qed.

Section page_table.
Context `{LayoutOk}.

Record pt_rep (m : mem) (T : gmap node Z) : Prop := {
  rep_inj n n' p : T !! n = Some p -> T !! n' = Some p -> n = n';
  rep_ok n p : T !! n = Some p -> page_ok p;
  rep_parent k i c : child k i = Some c -> is_Some (T !! c) -> is_Some (T !! k);
  rep_dir k p i c : T !! k = Some p -> child k i = Some c -> 0 <= i < 512 -> dir_entry m (p + 8 * i) (T !! c) }.

Lemma page_pa p : page_ok p -> pa_ok p.
Proof.
  intros [? ?]. split; [done|]. pose proof kend_range. unfold KERNBASE, PHYSTOP in *. unfold KERNBASE in *. lia.
Qed.

(** Entries of different tables, or different entries of one, do not overlap. *)
Lemma entries_apart p q i j :
  page_ok p -> page_ok q -> 0 <= i < 512 -> 0 <= j < 512 -> p <> q \/ i <> j ->
  p + 8 * i + 8 <= q + 8 * j \/ q + 8 * j + 8 <= p + 8 * i.
Proof.
  intros [Hp _] [Hq _] Hi Hj Hne. destruct (decide (p = q)) as [->|Hpq]; [lia|].
  destruct (pages_apart p q) as [?|?]; try done; unfold PGSIZE in *; lia.
Qed.

Lemma dir_entry_ext m m' a o : rd64 m' a = rd64 m a -> dir_entry m a o -> dir_entry m' a o.
Proof. intros E. unfold dir_entry. by rewrite E. Qed.

(** Memory outside the tables does not matter. *)
Lemma pt_rep_ext m m' T :
  (forall n p i, T !! n = Some p -> 0 <= i < 512 -> rd64 m' (p + 8 * i) = rd64 m (p + 8 * i)) ->
  pt_rep m T -> pt_rep m' T /\ forall va, leaf m' T va = leaf m T va.
Proof.
  intros Hm HT. split.
  - split; try apply HT. intros k p i c Hk Hc Hi. eapply dir_entry_ext; [by eapply Hm|]. by eapply rep_dir.
  - intros va. unfold leaf. destruct (T !! _) as [q|] eqn:E; [|done]. eapply Hm; [done|]. by apply PX_range.
Qed.

(** Hanging a new, empty table under a node. *)
Lemma pt_rep_grow m m' T k pp i c p :
  pt_rep m T -> T !! k = Some pp -> child k i = Some c -> T !! c = None -> 0 <= i < 512 ->
  page_ok p -> (forall n, T !! n <> Some p) ->
  (forall x, p <= x < p + PGSIZE -> rd m' x = 0) ->
  rd64 m' (pp + 8 * i) = Z.lor (PA2PTE p) PTE_V ->
  (forall n q j, T !! n = Some q -> 0 <= j < 512 -> q <> pp \/ j <> i -> rd64 m' (q + 8 * j) = rd64 m (q + 8 * j)) ->
  pt_rep m' (<[c:=p]> T) /\ forall va, leaf m' (<[c:=p]> T) va = leaf m T va.
Proof.
  intros HT Hk Hc Hnone Hi Hp Hfresh Hzero Hent Hsame.
  assert (forall j, 0 <= j < 512 -> rd64 m' (p + 8 * j) = 0) as Hz.
  { intros j Hj. transitivity (rd64 ∅ 0); [|done]. unfold rd64. f_equal.
    apply list_eq. intros a. destruct (decide (a < 8)%nat).
    - rewrite !lookup_rd_bytes by done. f_equal. rewrite Hzero; [done|]. unfold PGSIZE. lia.
    - rewrite !lookup_ge_None_2; rewrite ?length_rd_bytes; try done; lia. }
  split; [split|].
  - intros n n' q. rewrite !lookup_insert. case_decide as E1; case_decide as E2.
    + congruence.
    + intros [= <-] E. by destruct (Hfresh n').
    + intros E [= <-]. by destruct (Hfresh n).
    + apply (rep_inj m T HT).
  - intros n q. rewrite lookup_insert. case_decide; [by intros [= <-]|]. apply (rep_ok m T HT).
  - intros k' i' c' Hc'. rewrite !lookup_insert. case_decide as E1; case_decide as E2; try done.
    + subst c'. intros _. destruct (child_inj _ _ _ _ _ Hc Hc') as [<- _]. by eexists.
    + apply (rep_parent m T HT _ _ _ Hc').
  - intros k' q i' c'. rewrite !lookup_insert. case_decide as E1.
    + intros [= <-] Hc' Hi'. subst k'. destruct (decide (c = c')) as [->|].
      { exfalso. by destruct c' as [[? [?|]]|]. }
      destruct (T !! c') eqn:E; [|simpl; by rewrite Hz].
      destruct (rep_parent m T HT _ _ _ Hc') as [? E']; [by eexists|congruence].
    + intros Hk' Hc' Hi'. case_decide as E2.
      * subst c'. destruct (child_inj _ _ _ _ _ Hc Hc') as [<- <-]. rewrite Hk in Hk'. by injection Hk' as <-.
      * eapply dir_entry_ext; [|by eapply (rep_dir m T HT)]. apply (Hsame k'); [done|done|].
        destruct (decide (q = pp)) as [->|]; [right|by left]. intros ->.
        destruct E2. assert (k = k') as <- by (eapply (rep_inj m T HT); done). congruence.
  - intros va. unfold leaf. rewrite lookup_insert. case_decide as E1.
    + subst c. rewrite Hnone, Hz; [done|]. by apply PX_range.
    + destruct (T !! Some (PX 2 va, Some (PX 1 va))) as [q|] eqn:E; [|done].
      apply (Hsame _ _ _ E); [by apply PX_range|]. left. intros ->.
      assert (k = Some (PX 2 va, Some (PX 1 va))) as -> by (eapply (rep_inj m T HT); done). done.
Qed.

(** Writing a leaf entry. *)
Lemma pt_rep_leaf m T va q v :
  pt_rep m T -> T !! Some (PX 2 va, Some (PX 1 va)) = Some q ->
  pt_rep (wr64 m (q + 8 * PX 0 va) v) T /\
  forall va', leaf (wr64 m (q + 8 * PX 0 va) v) T va' =
    if decide (PX 2 va' = PX 2 va /\ PX 1 va' = PX 1 va /\ PX 0 va' = PX 0 va) then u64 v else leaf m T va'.
Proof.
  intros HT Hq. pose proof (PX_range 0 va ltac:(done)) as Hr.
  assert (forall n q' j, T !! n = Some q' -> 0 <= j < 512 -> q' <> q \/ j <> PX 0 va ->
    rd64 (wr64 m (q + 8 * PX 0 va) v) (q' + 8 * j) = rd64 m (q' + 8 * j)) as Hsame.
  { intros n q' j Hn Hj Hne. apply rd64_wr64_ne.
    apply (entries_apart q' q); try done; by eapply (rep_ok m T HT). }
  split.
  - split; try apply HT. intros k p i c Hk Hc Hi. eapply dir_entry_ext; [|by eapply (rep_dir m T HT)].
    apply (Hsame k); [done|done|]. left. intros ->.
    assert (k = Some (PX 2 va, Some (PX 1 va))) as -> by (eapply (rep_inj m T HT); done). done.
  - intros va'. unfold leaf. case_decide as E.
    + destruct E as (-> & -> & ->). rewrite Hq. apply rd64_wr64.
    + destruct (T !! Some (PX 2 va', Some (PX 1 va'))) as [q'|] eqn:E'; [|done].
      apply (Hsame _ _ _ E'); [by apply PX_range|].
      destruct (decide (q' = q)) as [->|]; [right|by left]. intros E0. destruct E.
      assert (Some (PX 2 va', Some (PX 1 va')) = Some (PX 2 va, Some (PX 1 va))) as [= -> ->]
        by (eapply (rep_inj m T HT); done). done.
Qed.

(** ** Walking and mapping *)

(** The tree of one page table beside the free pages [l]. *)
Record pt_inv (s : kst) (T : gmap node Z) (l : list Z) : Prop := {
  inv_lock : KmemLock ∉ held s;
  inv_rep : pt_rep (pmem s) T;
  inv_free : kmem_rep s l;
  inv_apart n p : T !! n = Some p -> p ∉ l }.

(** [s'] differs from [s] in the allocator, and in memory only in tables and
    formerly free pages. *)
Definition only_tables (T : gmap node Z) (l : list Z) (s s' : kst) : Prop :=
  s' = up_freelist (fun _ => freelist s') (up_pmem (fun _ => pmem s') s) /\
  forall x, (forall p, p ∈ l \/ (exists n, T !! n = Some p) -> ~ (p <= x < p + PGSIZE)) ->
    rd (pmem s') x = rd (pmem s) x.

Lemma dir_entry_some m a p : pa_ok p -> dir_entry m a (Some p) -> has_flag (rd64 m a) PTE_V = true /\ PTE2PA (rd64 m a) = p.
Proof.
  intros Hp E. simpl in E. rewrite E, pte_make by done. pose proof Hp as [Ha ?]. unfold PGSIZE in Ha.
  rewrite pte_flag, pte_pa by (unfold PTE_V; zlia). split; [done|zlia].
Qed.

Lemma only_tables_refl T l s : only_tables T l s s.
Proof. split; [by destruct s|done]. Qed.

(** A page table that gained tables from the free list, and perhaps leaf entries. *)
Record grows (s : kst) (T : gmap node Z) (l : list Z) (s' : kst) (T' : gmap node Z) (l' : list Z) : Prop := {
  gr_inv : pt_inv s' T' l';
  gr_tables : T ⊆ T';
  gr_only : only_tables T l s s';
  gr_new n p : T' !! n = Some p -> T !! n = Some p \/ p ∈ l;
  gr_free p : p ∈ l' -> p ∈ l }.

Lemma grows_refl s T l : pt_inv s T l -> grows s T l s T l.
Proof. split; auto using only_tables_refl. Qed.

Lemma grows_trans s1 T1 l1 s2 T2 l2 s3 T3 l3 :
  grows s1 T1 l1 s2 T2 l2 -> grows s2 T2 l2 s3 T3 l3 -> grows s1 T1 l1 s3 T3 l3.
Proof.
  intros [_ HT1 [E1 Ho1] Hn1 Hf1] [Hi2 HT2 [E2 Ho2] Hn2 Hf2]. split; [done|by trans T2| |naive_solver|auto].
  split; [rewrite E2, E1; done|]. intros x Hx. rewrite Ho2, Ho1; [done|done|].
  intros p [Hp|[n Hp]]; apply Hx; [left; auto|]. destruct (Hn1 _ _ Hp); eauto.
Qed.

(** One level of [walk], with [alloc]. *)
Lemma walk_level_alloc s T l k pp va level c :
  pt_inv s T l -> T !! k = Some pp -> 0 <= level -> child k (PX level va) = Some c ->
  exists r s' T' l', walk_level pp va true level s = Done r s' /\ grows s T l s' T' l' /\
    (forall va', leaf (pmem s') T' va' = leaf (pmem s) T va') /\
    match r with Some p => T' !! c = Some p | None => l' = [] end.
Proof.
  intros Hinv Hk Hlev Hc. pose proof (PX_range level va Hlev) as Hi.
  destruct Hinv as [Hlock HT Hl Hap].
  pose proof (rep_dir _ _ HT k pp _ c Hk Hc Hi) as Hd. unfold walk_level, load64. mrun.
  destruct (T !! c) as [p|] eqn:Ec.
  { apply dir_entry_some in Hd as [-> ->]; [|by eapply page_pa, rep_ok].
    exists (Some p), s, T, l.
    split_and!; [done|by apply grows_refl|done|done]. }
  simpl in Hd. rewrite Hd. cbn [negb].
  pose proof (kalloc_spec l s Hlock Hl) as Ha. destruct l as [|p l'].
  { rewrite Ha. simpl. exists None, s, T, [].
    split_and!; [done|by apply grows_refl|done|done]. }
  destruct Ha as (m & h & -> & Hf & Hp & Hn & Hm).
  destruct (Z.eqb_spec p 0) as [E|_]; [by apply page_ok_nz in Hp|].
  unfold memset_m, store64, modify. simpl.
  set (m' := wr64 (memset m p 0 PGSIZE) (pp + 8 * PX level va) (Z.lor (PA2PTE p) PTE_V)).
  pose proof (rep_ok _ _ HT _ _ Hk) as Hpp.
  assert (p <> pp) as Hne by (intros ->; eapply Hap; [exact Hk|set_solver]).
  assert (p + PGSIZE <= pp \/ pp + PGSIZE <= p) as Hdis by (apply pages_apart; apply Hp || apply Hpp || done).
  assert (forall x, ~ (p <= x < p + PGSIZE) -> ~ (pp <= x < pp + PGSIZE) -> rd m' x = rd (pmem s) x) as Hout.
  { intros x Hx Hx'. unfold m'. rewrite rd_wr64_ne by (unfold PGSIZE in *; lia).
    rewrite memset_rd, decide_False by (unfold PGSIZE in *; lia || done). rewrite Hm. by rewrite decide_False. }
  assert (pt_rep m' (<[c:=p]> T) /\ forall va', leaf m' (<[c:=p]> T) va' = leaf (pmem s) T va') as [HT' Hleaf].
  { eapply (pt_rep_grow (pmem s) m' T k pp (PX level va) c p); try done.
    - intros n E. eapply Hap; [exact E|set_solver].
    - intros x Hx. unfold m'. rewrite rd_wr64_ne by (unfold PGSIZE in *; lia).
      by rewrite memset_rd, decide_True by done.
    - unfold m'. rewrite rd64_wr64, u64_small; [done|]. rewrite pte_make by first [by apply page_pa | unfold PTE_V; lia].
      destruct (page_pa p Hp) as [_ ?]. unfold PTE_V. zlia.
    - intros n q j Hq Hj Hqj. unfold m'.
      rewrite rd64_wr64_ne by (apply entries_apart; try done; by eapply rep_ok).
      assert (p <> q) by (intros ->; eapply Hap; [exact Hq|set_solver]).
      assert (p + PGSIZE <= q \/ q + PGSIZE <= p) by (apply pages_apart; [apply Hp|by eapply (rep_ok _ _ HT)|done]).
      rewrite rd64_memset_ne by (unfold PGSIZE in *; lia). apply rd64_ext. intros x Hx. rewrite Hm.
      by rewrite decide_False by (unfold PGSIZE in *; lia). }
  eexists (Some p), _, (<[c:=p]> T), l'. split; [reflexivity|]. split_and!;
    [|exact Hleaf|by rewrite lookup_insert_eq]. split.
  - split; [done|exact HT'| |].
    + apply (free_list_ext m); [|exact Hf]. intros q Hq. simpl.
      destruct (free_list_ok _ _ _ Hf) as [Hok _]. rewrite Forall_forall in Hok.
      pose proof (Hok q Hq) as [Hqa _]. apply rd64_ext. intros x Hx.
      assert (q + PGSIZE <= p \/ p + PGSIZE <= q) by (apply pages_apart; [done|apply Hp|set_solver]).
      assert (q + PGSIZE <= pp \/ pp + PGSIZE <= q).
      { apply pages_apart; [done|apply Hpp|]. intros ->. eapply Hap; [exact Hk|set_solver]. }
      rewrite Hout, Hm, decide_False by (unfold PGSIZE in *; lia). done.
    + intros n q. rewrite lookup_insert. case_decide; [by intros [= <-]|].
      intros Hq%Hap. set_solver.
  - by apply insert_subseteq.
  - split; [done|]. intros x Hx. apply Hout; apply Hx; [left; set_solver|right; by eexists].
  - intros n q. rewrite lookup_insert. case_decide; [intros [= <-]; right; set_solver|by left].
  - set_solver.
Qed.

(** [walk] with [alloc]: the tables on the way to [va] exist afterwards, unless the
    free list ran dry; no translation changes. *)
Lemma walk_alloc s T l root va :
  pt_inv s T l -> T !! None = Some root -> va < MAXVA ->
  exists r s' T' l', walk root va true s = Done r s' /\ grows s T l s' T' l' /\
    (forall va', leaf (pmem s') T' va' = leaf (pmem s) T va') /\
    (r = 0 /\ l' = [] \/ exists q, T' !! leaf_node va = Some q /\ r = q + 8 * PX 0 va).
Proof.
  intros Hinv Hroot Hva. unfold walk. destruct (Z.geb_spec va MAXVA); [lia|].
  destruct (walk_level_alloc s T l None root va 2 (Some (PX 2 va, None)) Hinv Hroot)
    as (r1 & s1 & T1 & l1 & E1 & G1 & L1 & R1); [done|done|].
  unfold bind. rewrite E1. destruct r1 as [t1|].
  - destruct (walk_level_alloc s1 T1 l1 (Some (PX 2 va, None)) t1 va 1 (leaf_node va) (gr_inv _ _ _ _ _ _ G1) R1)
      as (r2 & s2 & T2 & l2 & E2 & G2 & L2 & R2); [done|done|].
    rewrite E2. destruct r2 as [t0|].
    + exists (t0 + 8 * PX 0 va), s2, T2, l2. split_and!; [done|by eapply grows_trans| |by eauto].
      intros va'. by rewrite L2, L1.
    + exists 0, s2, T2, l2. split_and!; [done|by eapply grows_trans| |by left].
      intros va'. by rewrite L2, L1.
  - exists 0, s1, T1, l1. split_and!; [done|done|done|by left].
Qed.

(** Setting the leaf entry that [walk] found. *)
Lemma set_leaf s T l va q v :
  pt_inv s T l -> T !! leaf_node va = Some q ->
  exists s', store64 (q + 8 * PX 0 va) v s = Done tt s' /\ grows s T l s' T l /\
    forall va', leaf (pmem s') T va' =
      if decide (PX 2 va' = PX 2 va /\ PX 1 va' = PX 1 va /\ PX 0 va' = PX 0 va) then u64 v
      else leaf (pmem s) T va'.
Proof.
  intros Hinv Hq. pose proof Hinv as [Hlock HT Hl Hap].
  destruct (pt_rep_leaf (pmem s) T va q v HT Hq) as [HT' Hleaf].
  pose proof (PX_range 0 va ltac:(done)) as Hr. pose proof (rep_ok _ _ HT _ _ Hq) as Hqok.
  eexists. split; [reflexivity|]. split; [|exact Hleaf]. split; [split|done| |auto|auto].
  - done.
  - exact HT'.
  - unfold kmem_rep. simpl.
    revert Hl. apply (free_list_page _ _ _ (fun m => wr64 m (q + 8 * PX 0 va) v) q); [done|by eapply Hap|].
    intros x Hx. apply rd_wr64_ne. unfold PGSIZE in *. lia.
  - exact Hap.
  - split; [done|]. intros x Hx. simpl. apply rd_wr64_ne.
    assert (~ (q <= x < q + PGSIZE)) by (apply Hx; right; by eexists). unfold PGSIZE in *. lia.
Qed.

(** The entry for a page of a mapping. *)
Definition map_entry (pa perm : Z) : Z := Z.lor (Z.lor (PA2PTE pa) perm) PTE_V.

(** One turn of the loop of [mappages]. *)
Lemma map_page s T l root a v :
  pt_inv s T l -> T !! None = Some root -> 0 <= a < MAXVA -> 0 <= v < 2^64 ->
  has_flag (leaf (pmem s) T a) PTE_V = false ->
  exists (b : bool) s' T' l', grows s T l s' T' l' /\
    (forall k, (let! pte := walk root a true in
      if pte =? 0 then ret (-1)
      else let! e := load64 pte in
        if has_flag e PTE_V then panic "mappages: remap" else store64 pte v ;;; k) s =
      if b then k s' else Done (-1) s') /\
    (b = false -> l' = []) /\
    forall va, 0 <= va < MAXVA -> leaf (pmem s') T' va =
      if decide (b = true /\ va / PGSIZE = a / PGSIZE) then v else leaf (pmem s) T va.
Proof.
  intros Hinv Hroot Ha Hv Hfree.
  destruct (walk_alloc s T l root a Hinv Hroot) as (r & s1 & T1 & l1 & Hw & G1 & L1 & Hr); [lia|].
  destruct Hr as [[-> Hl1]|(q & Hq & ->)].
  - exists false, s1, T1, l1. split_and!; [done| |done|].
    + intros k. unfold bind at 1. by rewrite Hw.
    + intros va _. rewrite decide_False by naive_solver. apply L1.
  - pose proof (gr_inv _ _ _ _ _ _ G1) as Hinv1. pose proof Hinv1 as [_ HT1 _ _].
    pose proof (rep_ok _ _ HT1 _ _ Hq) as Hqok. pose proof (PX_range 0 a ltac:(done)) as HPX.
    assert (rd64 (pmem s1) (q + 8 * PX 0 a) = leaf (pmem s) T a) as Hload.
    { rewrite <- L1. unfold leaf. by rewrite Hq. }
    destruct (set_leaf s1 T1 l1 a q v Hinv1 Hq) as (s2 & Hst & G2 & L2).
    exists true, s2, T1, l1. split_and!; [by eapply grows_trans| |done|].
    + intros k. unfold bind at 1. rewrite Hw.
      destruct (Z.eqb_spec (q + 8 * PX 0 a) 0) as [E|_].
      { pose proof kend_range. destruct Hqok as [_ ?]. unfold KERNBASE in *. lia. }
      unfold load64, bind, gets. rewrite Hload, Hfree. by rewrite Hst.
    + intros va Hva. rewrite L2. destruct (decide (va / PGSIZE = a / PGSIZE)) as [E|E].
      * rewrite decide_True by (split_and!; by apply PX_page). rewrite decide_True by done. by apply u64_small.
      * rewrite decide_False by (intros (? & ? & ?); apply E; by apply PX_inj).
        rewrite decide_False by naive_solver. apply L1.
Qed.

Lemma map_entry_range pa perm : pa_ok pa -> 0 <= perm < 1024 -> 0 <= map_entry pa perm < 2^64.
Proof. intros ? ?. by apply pte_roundtrip. Qed.

Lemma in_page va a : a mod PGSIZE = 0 -> va / PGSIZE = a / PGSIZE <-> a <= va < a + PGSIZE.
Proof. unfold PGSIZE. intros. split; intros; zlia. Qed.
Lemma page_base va a : a mod PGSIZE = 0 -> a <= va < a + PGSIZE -> PGROUNDDOWN va = a.
Proof. intros Ha Hva. rewrite PGROUNDDOWN_spec. unfold PGSIZE in *. zlia. Qed.

Lemma mappages_loop_ok perm last n : forall s T l root a pa,
  pt_inv s T l -> T !! None = Some root -> 0 <= perm < 1024 ->
  0 <= a -> a mod PGSIZE = 0 -> last = a + Z.of_nat n * PGSIZE -> last < MAXVA ->
  pa_ok pa -> pa + Z.of_nat n * PGSIZE < 2^56 ->
  (forall va, a <= va < last + PGSIZE -> has_flag (leaf (pmem s) T va) PTE_V = false) ->
  exists r s' T' l' j, mappages_loop (S n) root a last pa perm s = Done r s' /\ grows s T l s' T' l' /\
    (r = 0 /\ j = S n \/ r = -1 /\ (j <= n)%nat /\ l' = []) /\
    forall va, 0 <= va < MAXVA -> leaf (pmem s') T' va =
      if decide (a <= va < a + Z.of_nat j * PGSIZE) then map_entry (pa + (PGROUNDDOWN va - a)) perm
      else leaf (pmem s) T va.
Proof.
  induction n as [|n IH]; intros s T l root a pa Hinv Hroot Hperm Ha0 Ha Hlast Hmax Hpa Hpa' Hfree;
    assert (0 <= a < MAXVA) as Hm by (unfold PGSIZE in *; lia);
    assert (has_flag (leaf (pmem s) T a) PTE_V = false) as Hfa by (apply Hfree; unfold PGSIZE in *; lia);
    destruct (map_page s T l root a (map_entry pa perm) Hinv Hroot Hm (map_entry_range _ _ Hpa Hperm) Hfa)
      as (b & s1 & T1 & l1 & G1 & Hk & Hb & L1);
    cbn [mappages_loop]; fold (map_entry pa perm); rewrite Hk;
    (destruct b; [|exists (-1), s1, T1, l1, 0%nat; split_and!; [done|done|right; split_and!; [done|lia|auto]|];
       intros va Hva; rewrite L1, !decide_False by (lia || naive_solver); done]).
  - destruct (Z.eqb_spec a last); [|lia]. exists 0, s1, T1, l1, 1%nat. split_and!; [done|done|by left|].
    intros va Hva. rewrite L1 by done. pose proof (in_page va a Ha) as Hin.
    destruct (decide (a <= va < a + PGSIZE)) as [E|E].
    + rewrite !decide_True by (split; tauto || lia).
      rewrite (page_base va a) by done. f_equal. lia.
    + by rewrite !decide_False by (tauto || lia).
  - destruct (Z.eqb_spec a last); [unfold PGSIZE in *; lia|].
    rewrite (u64_small (a + PGSIZE)) by (unfold MAXVA, PGSIZE in *; lia).
    destruct Hpa as [Hpa1 Hpa2]. rewrite (u64_small (pa + PGSIZE)) by (unfold PGSIZE in *; lia).
    destruct (IH s1 T1 l1 root (a + PGSIZE) (pa + PGSIZE)) as (r & s2 & T2 & l2 & j & E2 & G2 & R2 & L2);
      try done; try (unfold PGSIZE, pa_ok in *; unfold PGSIZE in *; zlia).
    { by apply G1. }
    { eapply lookup_weaken; [exact Hroot|by apply G1]. }
    { intros va Hva. rewrite L1 by (unfold PGSIZE, MAXVA in *; zlia). rewrite decide_False.
      - apply Hfree. unfold PGSIZE in *. lia.
      - intros [_ ?%in_page]; [lia|done]. }
    exists r, s2, T2, l2, (S j). split_and!; [done|by eapply grows_trans| |].
    { destruct R2 as [[-> ->]|(-> & ? & ?)]; [by left|right]. split_and!; [done|lia|done]. }
    intros va Hva. rewrite L2, L1 by done. pose proof (in_page va a Ha) as Hin.
    destruct (decide (a <= va < a + PGSIZE)) as [E|E].
    + rewrite (decide_False (P := a + PGSIZE <= va < _)) by lia.
      rewrite (decide_True (P := true = true /\ _)) by naive_solver.
      rewrite decide_True by (unfold PGSIZE in *; lia).
      rewrite (page_base va a) by done. f_equal. lia.
    + rewrite (decide_False (P := true = true /\ _)) by naive_solver.
      repeat case_decide; try done; try (unfold PGSIZE in *; lia). f_equal. lia.
Qed.

(** C2. [mappages] refines a map from virtual pages to entries: on success exactly the
    pages of the given range are mapped, to consecutive physical pages with the
    given permissions, and every other translation is what it was; it fails only
    when memory for page tables runs out, and then has mapped a prefix of the
    range. Memory outside the page table and the free pages is not touched. *)
Theorem mappages_refines s T l root va size pa perm :
  pt_inv s T l -> T !! None = Some root -> 0 <= perm < 1024 -> 0 <= va -> 0 < size -> va + size <= MAXVA ->
  pa_ok pa -> pa + size + PGSIZE < 2^56 ->
  (forall v, PGROUNDDOWN va <= v < PGROUNDDOWN (va + size - 1) + PGSIZE -> has_flag (leaf (pmem s) T v) PTE_V = false) ->
  exists r s' T' l' fin, mappages root va size pa perm s = Done r s' /\ grows s T l s' T' l' /\
    (r = 0 /\ fin = PGROUNDDOWN (va + size - 1) + PGSIZE \/
     r = -1 /\ fin <= PGROUNDDOWN (va + size - 1) /\ l' = []) /\
    forall v, 0 <= v < MAXVA -> leaf (pmem s') T' v =
      if decide (PGROUNDDOWN va <= v < fin) then map_entry (pa + (PGROUNDDOWN v - PGROUNDDOWN va)) perm
      else leaf (pmem s) T v.
Proof.
  intros Hinv Hroot Hperm Hva Hsz Hmax Hpa Hpa' Hfree. unfold mappages.
  destruct (Z.eqb_spec size 0); [lia|].
  rewrite (u64_small (va + size - 1)) by (unfold MAXVA in *; lia).
  set (a := PGROUNDDOWN va) in *. set (last := PGROUNDDOWN (va + size - 1)) in *.
  assert (a = va - va mod PGSIZE) as Ea by apply PGROUNDDOWN_spec.
  assert (last = va + size - 1 - (va + size - 1) mod PGSIZE) as El by apply PGROUNDDOWN_spec.
  destruct Hpa as [Hp1 Hp2]. unfold PGSIZE, MAXVA in Ea, El, Hmax, Hp1.
  rewrite (u64_small (last - a)) by zlia.
  destruct (mappages_loop_ok perm last (Z.to_nat ((last - a) / PGSIZE)) s T l root a pa)
    as (r & s' & T' & l' & j & E & G & R & L); try done;
    try (unfold PGSIZE, MAXVA, pa_ok in *; unfold PGSIZE in *; rewrite ?Z2Nat.id by zlia; zlia).
  exists r, s', T', l', (a + Z.of_nat j * PGSIZE). split_and!; [done|done| |exact L].
  destruct R as [[-> ->]|(-> & Hj & ->)]; [left|right; split_and!; try done];
    unfold PGSIZE in *; zlia.
Qed.

(** An empty page table, as [uvmcreate] makes it. *)
Lemma uvmcreate_ok s l :
  KmemLock ∉ held s -> kmem_rep s l ->
  match l with
  | [] => uvmcreate s = Done 0 s
  | root :: l' => exists s', uvmcreate s = Done root s' /\ pt_inv s' {[None := root]} l' /\
      held s' = held s /\ forall va, leaf (pmem s') {[None := root]} va = 0
  end.
Proof.
  intros Hn Hl. pose proof (kalloc_spec l s Hn Hl) as Ha. unfold uvmcreate, bind.
  destruct l as [|p l']; [by rewrite Ha|]. destruct Ha as (m & h & -> & Hf & Hp & Hnp & Hm).
  destruct (Z.eqb_spec p 0) as [E|_]; [by apply page_ok_nz in Hp|].
  eexists. split; [reflexivity|]. split_and!; [split|done|].
  - done.
  - split.
    + by intros n n' q [<- _]%lookup_singleton_Some [<- _]%lookup_singleton_Some.
    + intros n q [<- <-]%lookup_singleton_Some. done.
    + intros k i c Hc [q [<- <-]%lookup_singleton_Some]. by destruct k as [[? [?|]]|].
    + intros k q i c [<- <-]%lookup_singleton_Some [= <-] Hi. rewrite lookup_singleton_ne by done. simpl.
      assert (rd64 (memset m p 0 PGSIZE) (p + 8 * i) = rd64 ∅ 0) as ->; [|done]. unfold rd64. f_equal.
      apply list_eq. intros a. destruct (decide (a < 8)%nat).
      * rewrite !lookup_rd_bytes by done. f_equal. by rewrite memset_rd, decide_True by (unfold PGSIZE; lia).
      * rewrite !lookup_ge_None_2; rewrite ?length_rd_bytes; try done; lia.
  - unfold kmem_rep. cbn [pmem freelist up_pmem up_freelist]. revert Hf.
    apply (free_list_page _ _ _ (fun m => memset m p 0 PGSIZE) p); [done|done|].
    intros x Hx. by rewrite memset_rd, decide_False.
  - intros n q [<- <-]%lookup_singleton_Some. done.
  - intros va. unfold leaf. by rewrite lookup_singleton_ne.
Qed.
End page_table.

#[local] Existing Instance demo_layout.
#[local] Existing Instance demo_layout_ok.

(** The first page table after boot. *)
Lemma first_page_table : exists s T l root,
  pt_inv s T l /\ T !! None = Some root /\ forall va, leaf (pmem s) T va = 0.
Proof.
  destruct (kinit_ok boot_kst eq_refl eq_refl) as (s1 & _ & Hh & Hl).
  destruct (reverse (range_pages kend PHYSTOP)) as [|root l] eqn:E; [by vm_compute in E|].
  destruct (uvmcreate_ok s1 (root :: l)) as (s2 & _ & Hinv & _ & Hleaf); [rewrite Hh; set_solver|done|].
  exists s2, {[None := root]}, l, root. split_and!; [done| |done]. apply lookup_singleton_eq.
Qed.

Lemma mappages_refines_witness :
  exists s T l root, (pt_inv s T l /\ T !! None = Some root) /\
  exists r s', mappages root 0 PGSIZE KERNBASE 6 s = Done r s' /\ (r = 0 \/ r = -1).
Proof.
  destruct first_page_table as (s & T & l & root & Hinv & Hroot & Hleaf).
  exists s, T, l, root. split; [done|].
  destruct (mappages_refines s T l root 0 PGSIZE KERNBASE 6 Hinv Hroot ltac:(lia) ltac:(lia) ltac:(done) ltac:(done)
      ltac:(by split) ltac:(done))
    as (r & s' & T' & l' & fin & E & _ & R & _).
  - intros v _. by rewrite Hleaf.
  - exists r, s'. split; [exact E|]. destruct R as [[-> _]|[-> _]]; [by left|by right].
Defined.
