(* ===== verification/UserCopy.v ===== *)
(** * Copying between the kernel and user space

    [walkaddr], [copyin], [copyinstr] and [copyout] of [kernel/vm.c] against the
    view a user program has of its memory: [user_byte m T va] is the byte it sees
    at [va], if the page is mapped for it. *)

From S2P Require Import Prelude CString State Spinlock Kalloc Vm PageTable.

(** The physical page behind a leaf entry that user code may use, 0 otherwise. Like
    [walkaddr] it asks for the bits V and U only, not whether the page may be read or
    written. *)
Definition user_page (e : Z) : Z :=
  if has_flag e PTE_V && has_flag e PTE_U then PTE2PA e else 0.

Definition user_addr (m : mem) (T : gmap node Z) (va : Z) : option Z :=
  if decide (0 <= va < MAXVA /\ user_page (leaf m T va) <> 0)
  then Some (user_page (leaf m T va) + va mod PGSIZE) else None.
Definition user_byte (m : mem) (T : gmap node Z) (va : Z) : option Z := rd m <$> user_addr m T va.
Definition user_bytes (m : mem) (T : gmap node Z) (va : Z) (n : nat) : option (list Z) :=
  mapM (user_byte m T) (seqZ va (Z.of_nat n)).

Lemma leaf_page m T va va' : va / PGSIZE = va' / PGSIZE -> leaf m T va = leaf m T va'.
Proof. intros E. unfold leaf. by rewrite (PX_page 0 va va'), (PX_page 1 va va'), (PX_page 2 va va'). Qed.

Lemma user_addr_leaf m m' T va :
  (forall v, leaf m' T v = leaf m T v) -> user_addr m' T va = user_addr m T va.
Proof. intros E. unfold user_addr. by rewrite E. Qed.
Lemma mapM_Some_2' {A B} (f : A -> option B) l k :
  length l = length k -> (forall i x y, l !! i = Some x -> k !! i = Some y -> f x = Some y) -> mapM f l = Some k.
Proof.
  intros Hlen Hf. apply mapM_Some_2. apply Forall2_same_length_lookup_2; [done|].
  intros i x y Hx Hy. by eapply Hf.
Qed.
Lemma mapM_None_2' {A B} (f : A -> option B) l x : x ∈ l -> f x = None -> mapM f l = None.
Proof. intros Hx Hf. apply mapM_None_2, Exists_exists. by exists x. Qed.

Lemma mapM_app' {A B} (f : A -> option B) l k :
  mapM f (l ++ k) = l' ← mapM f l; k' ← mapM f k; Some (l' ++ k').
Proof.
  induction l as [|x l IH]; simpl; [by destruct (mapM f k)|].
  destruct (f x); simpl; [|done]. rewrite IH. destruct (mapM f l); simpl; [|done]. by destruct (mapM f k).
Qed.

Section user_copy.
Context `{LayoutOk}.

Lemma walk_lookup s T root va :
  pt_rep (pmem s) T -> T !! None = Some root -> 0 <= va < MAXVA ->
  walk root va false s =
    Done (match T !! leaf_node va with Some q => q + 8 * PX 0 va | None => 0 end) s.
Proof.
  intros HT Hroot Hva. unfold walk. destruct (Z.geb_spec va MAXVA); [lia|].
  assert (forall k pp level c, T !! k = Some pp -> 0 <= level -> child k (PX level va) = Some c ->
    walk_level pp va false level s = Done (T !! c) s) as Hlevel.
  { intros k pp level c Hk Hl Hc. pose proof (rep_dir _ _ HT k pp _ c Hk Hc (PX_range _ va Hl)) as Hd.
    unfold walk_level, load64. mrun. destruct (T !! c) as [p|] eqn:Ec.
    - by apply dir_entry_some in Hd as [-> ->]; [|by eapply page_pa, rep_ok].
    - simpl in Hd. by rewrite Hd. }
  unfold bind. rewrite (Hlevel None root 2 (Some (PX 2 va, None))) by done.
  destruct (T !! Some (PX 2 va, None)) as [t1|] eqn:E1.
  - rewrite (Hlevel (Some (PX 2 va, None)) t1 1 (leaf_node va)) by done.
    by destruct (T !! leaf_node va).
  - destruct (T !! leaf_node va) as [q|] eqn:E; [|done].
    destruct (rep_parent _ _ HT (Some (PX 2 va, None)) (PX 1 va) (leaf_node va)) as [? ?]; [done|by eexists|].
    congruence.
Qed.

Lemma walkaddr_done s T root va :
  pt_rep (pmem s) T -> T !! None = Some root -> 0 <= va ->
  walkaddr root va s = Done (if va >=? MAXVA then 0 else user_page (leaf (pmem s) T va)) s.
Proof.
  intros HT Hroot Hva. unfold walkaddr. destruct (Z.geb_spec va MAXVA) as [|Hlt]; [done|].
  unfold bind at 1. rewrite (walk_lookup s T) by done. unfold leaf.
  destruct (T !! leaf_node va) as [q|] eqn:E; [|done].
  pose proof (rep_ok _ _ HT _ _ E) as [_ Hq]. pose proof kend_range. pose proof (PX_range 0 va ltac:(done)).
  destruct (Z.eqb_spec (q + 8 * PX 0 va) 0); [unfold KERNBASE in *; lia|].
  unfold load64, user_page. mrun. by destruct (has_flag _ PTE_V), (has_flag _ PTE_U).
Qed.

(** A piece of one page. *)
Lemma user_bytes_page m T va n :
  0 <= va -> va < MAXVA -> va mod PGSIZE + Z.of_nat n <= PGSIZE -> user_page (leaf m T va) <> 0 ->
  user_bytes m T va n = Some (rd_bytes m (user_page (leaf m T va) + va mod PGSIZE) n).
Proof.
  intros H1 H2 Hn Hp. apply mapM_Some_2'.
  - rewrite length_seqZ, length_rd_bytes. lia.
  - intros i x y [-> Hi]%lookup_seqZ Hy.
    rewrite lookup_rd_bytes in Hy by lia. injection Hy as <-.
    assert (leaf m T (va + Z.of_nat i) = leaf m T va) as E
      by (apply leaf_page; unfold PGSIZE in *; zlia).
    unfold user_byte, user_addr. rewrite E, decide_True by (unfold PGSIZE, MAXVA in *; split; [zlia|done]).
    simpl. do 2 f_equal. unfold PGSIZE in *. zlia.
Qed.

Lemma user_bytes_app m T va n k :
  user_bytes m T va (n + k) =
    l ← user_bytes m T va n; l' ← user_bytes m T (va + Z.of_nat n) k; Some (l ++ l').
Proof.
  unfold user_bytes. rewrite Nat2Z.inj_add, seqZ_app by lia. apply mapM_app'.
Qed.

Lemma page_offset va : va - PGROUNDDOWN va = va mod PGSIZE.
Proof. rewrite PGROUNDDOWN_spec. lia. Qed.

(** What one turn of a copy loop learns about the page of [va]. *)
Lemma walkaddr_page s T root va :
  pt_rep (pmem s) T -> T !! None = Some root -> 0 <= va ->
  exists pa, walkaddr root (PGROUNDDOWN va) s = Done pa s /\
    (pa = 0 /\ user_addr (pmem s) T va = None \/
     pa <> 0 /\ va < MAXVA /\ pa = user_page (leaf (pmem s) T va)).
Proof.
  intros HT Hroot Hva. pose proof (PGROUNDDOWN_spec va) as E.
  assert (0 <= PGROUNDDOWN va) by (unfold PGSIZE in *; zlia).
  eexists. split; [by apply (walkaddr_done s T)|].
  rewrite (leaf_page _ _ (PGROUNDDOWN va) va) by (rewrite E; unfold PGSIZE; zlia).
  assert (PGROUNDDOWN va < MAXVA <-> va < MAXVA) by (rewrite E; unfold PGSIZE, MAXVA in *; zlia).
  unfold user_addr. destruct (Z.geb_spec (PGROUNDDOWN va) MAXVA); [left|].
  - split; [done|]. apply decide_False. lia.
  - destruct (decide (user_page (leaf (pmem s) T va) = 0)) as [E0|E0]; [left|right].
    + split; [done|]. apply decide_False. tauto.
    + split_and!; [done|lia|done].
Qed.

Lemma user_bytes_None m T va n : (0 < n)%nat -> user_addr m T va = None -> user_bytes m T va n = None.
Proof.
  intros Hn E. apply (mapM_None_2' _ _ va); [apply elem_of_seqZ; lia|]. unfold user_byte. by rewrite E.
Qed.

(** The part of a copy that is done in one page, and the rest. *)
Lemma user_bytes_split m T va len :
  0 <= va -> va < MAXVA -> user_page (leaf m T va) <> 0 -> 0 < len ->
  let n := Z.min (PGSIZE - va mod PGSIZE) len in
  1 <= n <= len /\
  (n < len -> va + n = PGROUNDDOWN va + PGSIZE) /\
  user_bytes m T va (Z.to_nat len) =
    l ← user_bytes m T (va + n) (Z.to_nat (len - n));
    Some (rd_bytes m (user_page (leaf m T va) + va mod PGSIZE) (Z.to_nat n) ++ l).
Proof.
  intros H1 H2 Hp Hlen n. pose proof (PGROUNDDOWN_spec va).
  assert (1 <= n <= len) by (unfold n, PGSIZE in *; zlia).
  assert (va mod PGSIZE + n <= PGSIZE) by (unfold n; lia). split_and!; [lia|lia|unfold n, PGSIZE in *; zlia|].
  replace (Z.to_nat len) with (Z.to_nat n + Z.to_nat (len - n))%nat by lia.
  rewrite user_bytes_app, (user_bytes_page m T va) by (done || lia). simpl.
  by rewrite Z2Nat.id by lia.
Qed.

Lemma copyin_loop_ok root T fuel : forall va len got s,
  pt_rep (pmem s) T -> T !! None = Some root -> 0 <= va -> len <= Z.of_nat fuel ->
  exists r l, copyin_loop fuel root va len got s = Done (r, got ++ l) s /\
    (r = 0 /\ user_bytes (pmem s) T va (Z.to_nat len) = Some l \/
     r = -1 /\ user_bytes (pmem s) T va (Z.to_nat len) = None).
Proof.
  induction fuel as [|fuel IH]; intros va len got s HT Hroot Hva Hf; cbn [copyin_loop];
    (destruct (Z.leb_spec len 0) as [Hl|Hl];
      [exists 0, []; rewrite app_nil_r; split; [done|left; split; [done|]];
       by replace (Z.to_nat len) with 0%nat by lia|]); [lia|].
  destruct (walkaddr_page s T root va HT Hroot Hva) as (pa & Hw & Hpa).
  unfold bind at 1. rewrite Hw. destruct Hpa as [[-> Hnone]|(Hnz & Hmax & ->)].
  - simpl. exists (-1), []. rewrite app_nil_r. split; [done|right]. split; [done|].
    apply user_bytes_None; [lia|done].
  - destruct (Z.eqb_spec (user_page (leaf (pmem s) T va)) 0) as [|_]; [done|].
    unfold bind, get. rewrite page_offset.
    destruct (user_bytes_split (pmem s) T va len Hva Hmax Hnz Hl) as (Hn & Hnext & ->).
    set (n := Z.min _ len) in *.
    assert (n < len \/ n = len) as [Hlt|E] by lia.
    + rewrite <- Hnext by done.
      destruct (IH (va + n) (len - n) (got ++ rd_bytes (pmem s) (user_page (leaf (pmem s) T va) + va mod PGSIZE) (Z.to_nat n)) s)
        as (r & l & -> & Hr); [done|done|lia|lia|].
      exists r, (rd_bytes (pmem s) (user_page (leaf (pmem s) T va) + va mod PGSIZE) (Z.to_nat n) ++ l).
      rewrite <- app_assoc. split; [done|]. destruct Hr as [[-> ->]|[-> ->]]; [by left|by right].
    + rewrite E, Z.sub_diag. exists 0, (rd_bytes (pmem s) (user_page (leaf (pmem s) T va) + va mod PGSIZE) (Z.to_nat len)).
      destruct fuel; simpl; (split; [done|left]); (split; [done|]); by rewrite app_nil_r.
Qed.

(** C26. [copyin] returns 0 with exactly the bytes that the user program sees in the
    range when all of it is mapped for user code below MAXVA, and -1 otherwise;
    it changes nothing. *)
Theorem copyin_spec root T va len s :
  pt_rep (pmem s) T -> T !! None = Some root -> 0 <= va -> 0 <= len ->
  exists r l, copyin root va len s = Done (r, l) s /\
    (r = 0 /\ user_bytes (pmem s) T va (Z.to_nat len) = Some l \/
     r = -1 /\ user_bytes (pmem s) T va (Z.to_nat len) = None).
Proof.
  intros HT Hroot Hva Hlen.
  destruct (copyin_loop_ok root T (Z.to_nat len) va len [] s HT Hroot Hva) as (r & l & E & Hr); [lia|].
  by exists r, l.
Qed.

(** ** Writing to user memory *)

(** A user program has its own pages: they are not tables, and two virtual pages
    do not share one. *)
Record user_inv (m : mem) (T : gmap node Z) : Prop := {
  ui_apart va n p : T !! n = Some p -> user_page (leaf m T va) <> p;
  ui_inj va va' : 0 <= va < MAXVA -> 0 <= va' < MAXVA ->
    user_page (leaf m T va) = user_page (leaf m T va') -> user_page (leaf m T va) <> 0 ->
    va / PGSIZE = va' / PGSIZE }.

Lemma user_inv_leaf m m' T : (forall va, leaf m' T va = leaf m T va) -> user_inv m T -> user_inv m' T.
Proof. intros E [H1 H2]. split; [intros va n p|intros va va']; rewrite ?E; [apply H1|apply H2]. Qed.

Lemma user_page_aligned e : user_page e mod PGSIZE = 0.
Proof.
  unfold user_page. destruct (_ && _); [|done]. unfold PTE2PA, u64, PGSIZE.
  rewrite Z.shiftl_mul_pow2 by lia. change (2^12) with 4096. zlia.
Qed.

Lemma write_page m T va l :
  pt_rep m T -> user_inv m T -> 0 <= va < MAXVA -> va mod PGSIZE + Z.of_nat (length l) <= PGSIZE ->
  user_page (leaf m T va) <> 0 ->
  let m' := wr_bytes m (user_page (leaf m T va) + va mod PGSIZE) l in
  pt_rep m' T /\ (forall va', leaf m' T va' = leaf m T va') /\
  forall va', user_byte m' T va' =
    if decide (va <= va' < va + Z.of_nat (length l)) then l !! Z.to_nat (va' - va) else user_byte m T va'.
Proof.
  intros HT HU Hva Hl Hp m'. set (pg := user_page (leaf m T va)) in *.
  pose proof (user_page_aligned (leaf m T va)) as Hal. fold pg in Hal.
  pose proof (Z.mod_pos_bound va PGSIZE ltac:(done)) as Hoff.
  assert (forall x, ~ (pg <= x < pg + PGSIZE) -> rd m' x = rd m x) as Hout.
  { intros x Hx. unfold m'. rewrite rd_wr_bytes, decide_False by lia. done. }
  destruct (pt_rep_ext m m' T) as [HT' Hleaf]; [|done|].
  { intros n p i Hn Hi. apply rd64_ext. intros x Hx. apply Hout.
    pose proof (rep_ok _ _ HT _ _ Hn) as [Hpa _].
    destruct (pages_apart pg p Hal Hpa) as [?|?]; [|unfold PGSIZE in *; lia..].
    by eapply (ui_apart _ _ HU). }
  split_and!; [done|done|]. intros va'. unfold user_byte, user_addr. rewrite Hleaf.
  destruct (decide (0 <= va' < MAXVA /\ user_page (leaf m T va') <> 0)) as [[Hr' Hp']|Hno].
  - simpl. destruct (decide (va' / PGSIZE = va / PGSIZE)) as [E|E].
    + rewrite (leaf_page m T va' va) by done. fold pg. unfold m'. rewrite rd_wr_bytes.
      assert (va' - va = va' mod PGSIZE - va mod PGSIZE) as Hd by (unfold PGSIZE in *; zlia).
      destruct (decide (va <= va' < va + Z.of_nat (length l))) as [Hin|Hin].
      * rewrite decide_True by lia.
        replace (pg + va' mod PGSIZE - (pg + va mod PGSIZE)) with (va' - va) by lia.
        destruct (lookup_lt_is_Some_2 l (Z.to_nat (va' - va))) as [x ->]; [lia|]. done.
      * rewrite !decide_False by lia. done.
    + rewrite (decide_False (P := va <= va' < _)) by (unfold PGSIZE in *; zlia).
      f_equal. apply Hout. intros Hx. apply E. symmetry. apply (ui_inj _ _ HU va va'); try done.
      pose proof (user_page_aligned (leaf m T va')) as Hal'.
      pose proof (Z.mod_pos_bound va' PGSIZE ltac:(done)). fold pg.
      destruct (decide (pg = user_page (leaf m T va'))) as [|Hne]; [done|].
      destruct (pages_apart _ _ Hal Hal' Hne); lia.
  - rewrite decide_False; [done|]. intros Hin. destruct Hno.
    rewrite (leaf_page m T va' va) by (unfold PGSIZE in *; zlia). split; [|done].
    unfold MAXVA, PGSIZE in *. zlia.
Qed.

Lemma copyout_loop_ok root T fuel : forall va src s,
  pt_rep (pmem s) T -> user_inv (pmem s) T -> T !! None = Some root -> 0 <= va -> (length src <= fuel)%nat ->
  exists r m' k, copyout_loop fuel root va src s = Done r (up_pmem (fun _ => m') s) /\
    pt_rep m' T /\ (forall va', leaf m' T va' = leaf (pmem s) T va') /\
    (r = 0 /\ k = length src \/ r = -1 /\ (k < length src)%nat /\ user_addr (pmem s) T (va + Z.of_nat k) = None) /\
    forall va', user_byte m' T va' =
      if decide (va <= va' < va + Z.of_nat k) then src !! Z.to_nat (va' - va) else user_byte (pmem s) T va'.
Proof.
  induction fuel as [|fuel IH]; intros va src s HT HU Hroot Hva Hf.
  { destruct src; [|simpl in Hf; lia]. exists 0, (pmem s), 0%nat.
    split_and!; [by destruct s|done|done|by left|]. intros va'. by rewrite decide_False by (simpl; lia). }
  destruct src as [|b src0] eqn:Es; [exists 0, (pmem s), 0%nat; split_and!; [by destruct s|done|done|by left|];
    intros va'; by rewrite decide_False by (simpl; lia)|]. rewrite <- Es in *.
  assert (0 < length src)%nat as Hpos by (rewrite Es; simpl; lia).
  replace (copyout_loop (S fuel) root va src) with (
    let! pa0 := walkaddr root (PGROUNDDOWN va) in
    if pa0 =? 0 then ret (-1)
    else
      let n := Z.min (PGSIZE - (va - PGROUNDDOWN va)) (Z.of_nat (length src)) in
      modify (up_pmem (fun m => wr_bytes m (pa0 + (va - PGROUNDDOWN va)) (take (Z.to_nat n) src))) ;;;
      copyout_loop fuel root (PGROUNDDOWN va + PGSIZE) (drop (Z.to_nat n) src)) by (by rewrite Es).
  destruct (walkaddr_page s T root va HT Hroot Hva) as (pa & Hw & Hpa).
  unfold bind at 1. rewrite Hw. destruct Hpa as [[-> Hnone]|(Hnz & Hmax & ->)].
  { simpl. exists (-1), (pmem s), 0%nat. split_and!; [by destruct s|done|done| |].
    - right. by rewrite Z.add_0_r.
    - intros va'. by rewrite decide_False by lia. }
  destruct (Z.eqb_spec (user_page (leaf (pmem s) T va)) 0) as [|_]; [done|].
  rewrite page_offset. cbv zeta. set (n := Z.min _ (Z.of_nat (length src))).
  destruct (user_bytes_split (pmem s) T va (Z.of_nat (length src)) Hva Hmax Hnz) as (Hn & Hnext & _); [lia|].
  fold n in Hn, Hnext. assert (length (take (Z.to_nat n) src) = Z.to_nat n) as Hlt by (rewrite length_take; lia).
  destruct (write_page (pmem s) T va (take (Z.to_nat n) src)) as (HT1 & Hleaf1 & Hb1);
    [done|done|lia|rewrite Hlt, Z2Nat.id by lia; unfold n; lia|done|].
  set (m1 := wr_bytes _ _ _) in *. unfold bind, modify. set (s1 := up_pmem _ s).
  set (v1 := PGROUNDDOWN va + PGSIZE) in *.
  destruct (IH v1 (drop (Z.to_nat n) src) s1) as (r & m' & k & Hc & HT' & Hleaf' & Hr & Hb);
    [exact HT1|by eapply user_inv_leaf|done|pose proof (PGROUNDDOWN_spec va); unfold v1, PGSIZE in *; zlia
    |rewrite length_drop; lia|].
  rewrite length_drop in Hr. assert (k = 0%nat \/ v1 = va + n) as Hk by lia.
  exists r, m', (Z.to_nat n + k)%nat. rewrite Hc. split_and!; [done|done| | |].
  - intros va'. by rewrite Hleaf', <- Hleaf1.
  - destruct Hr as [[-> ->]|(-> & ? & Hnone)]; [left; split; [done|lia]|right; split_and!; [done|lia|]].
    replace (va + Z.of_nat (Z.to_nat n + k)) with (v1 + Z.of_nat k) by lia.
    revert Hnone. unfold user_addr. change (pmem s1) with m1. by rewrite Hleaf1.
  - intros va'. rewrite Hb. change (pmem s1) with m1. rewrite Hb1, Hlt.
    rewrite lookup_drop. repeat case_decide; try lia; [|by rewrite lookup_take_lt by lia|done].
    f_equal. lia.
Qed.

(** C25. [copyout] returns 0 when the whole range is mapped for user code, and then the
    user program sees exactly the given bytes there; otherwise it returns -1 and has
    written the pages before the first one that is not mapped. In both cases no
    other byte the program sees changes, and no translation. *)
Theorem copyout_spec root T va src s :
  pt_rep (pmem s) T -> user_inv (pmem s) T -> T !! None = Some root -> 0 <= va ->
  exists r m' k, copyout root va src s = Done r (up_pmem (fun _ => m') s) /\
    (forall va', leaf m' T va' = leaf (pmem s) T va') /\
    (r = 0 /\ k = length src \/ r = -1 /\ (k < length src)%nat /\ user_addr (pmem s) T (va + Z.of_nat k) = None) /\
    forall va', user_byte m' T va' =
      if decide (va <= va' < va + Z.of_nat k) then src !! Z.to_nat (va' - va) else user_byte (pmem s) T va'.
Proof.
  intros HT HU Hroot Hva.
  destruct (copyout_loop_ok root T (length src) va src s) as (r & m' & k & ? & _ & ? & ? & ?);
    [done|done|done|done|lia|].
  by exists r, m', k.
Qed.
End user_copy.

#[local] Existing Instance demo_layout.
#[local] Existing Instance demo_layout_ok.

(** A page table with one user page, at virtual address 0, that starts with abc. *)
Definition demo_page (i : Z) : Z := PHYSTOP - i * PGSIZE.
Definition demo_user_mem : mem :=
  wr_bytes (wr64 (wr64 (wr64 ∅ (demo_page 1) (Z.lor (PA2PTE (demo_page 2)) PTE_V))
    (demo_page 2) (Z.lor (PA2PTE (demo_page 3)) PTE_V))
    (demo_page 3) (map_entry (demo_page 4) 22))
    (demo_page 4) (chars "abc").
Definition demo_table : gmap node Z :=
  <[None := demo_page 1]> (<[Some (0, None) := demo_page 2]> {[Some (0, Some 0) := demo_page 3]}).

Lemma demo_table_lookup n p : demo_table !! n = Some p <->
  n = None /\ p = demo_page 1 \/ n = Some (0, None) /\ p = demo_page 2 \/
  n = Some (0, Some 0) /\ p = demo_page 3.
Proof.
  unfold demo_table. rewrite !lookup_insert_Some, lookup_singleton_Some.
  split; [naive_solver|]. intros [[-> ->]|[[-> ->]|[-> ->]]]; naive_solver.
Qed.

(** Every word of the tables but three is 0. *)
Lemma demo_word p i :
  p = demo_page 1 \/ p = demo_page 2 \/ p = demo_page 3 -> 0 <= i < 512 ->
  rd64 demo_user_mem (p + 8 * i) = if decide (i = 0) then rd64 demo_user_mem p else 0.
Proof.
  intros Hp Hi. destruct (decide (i = 0)) as [->|]; [by rewrite Z.add_0_r|].
  transitivity (rd64 ∅ (p + 8 * i)).
  - apply rd64_ext. intros x Hx. unfold demo_user_mem. rewrite rd_wr_bytes, decide_False.
    + rewrite !rd_wr64_ne; try done; unfold demo_page, PGSIZE in *; lia.
    + simpl. unfold demo_page, PGSIZE in *. lia.
  - reflexivity.
Qed.

Lemma demo_user_rep : pt_rep demo_user_mem demo_table.
Proof.
  assert (forall p, p = demo_page 1 \/ p = demo_page 2 \/ p = demo_page 3 -> page_ok p) as Hok.
  { intros p [->|[->| ->]]; split; vm_compute; split_and?; congruence. }
  split.
  - intros n n' p. rewrite !demo_table_lookup. unfold demo_page, PGSIZE.
    intros [[-> E]|[[-> E]|[-> E]]] [[-> E']|[[-> E']|[-> E']]]; done || lia.
  - intros n p. rewrite demo_table_lookup. intros E. apply Hok. tauto.
  - intros k i c Hc [q Hq]. rewrite demo_table_lookup in Hq.
    destruct k as [[i0 [j|]]|]; injection Hc as <- || done; destruct Hq as [[? _]|[[? _]|[? _]]]; simplify_eq;
      eexists; apply demo_table_lookup; eauto.
  - intros k p i c Hk Hc Hi. apply demo_table_lookup in Hk.
    unfold dir_entry. rewrite demo_word by (done || tauto).
    destruct (demo_table !! c) as [q|] eqn:Ec.
    + apply demo_table_lookup in Ec.
      destruct Hk as [[-> ->]|[[-> ->]|[-> ->]]]; [| |done]; injection Hc as <-;
        destruct Ec as [[? _]|[[? ->]|[? ->]]]; simplify_eq; rewrite decide_True by done; reflexivity.
    + case_decide as E0; [|done]. subst i. destruct Hk as [[-> ->]|[[-> ->]|[-> ->]]]; [| |done]; injection Hc as <-; done.
Qed.

Lemma demo_leaf va :
  leaf demo_user_mem demo_table va =
    if decide (PX 2 va = 0 /\ PX 1 va = 0 /\ PX 0 va = 0) then map_entry (demo_page 4) 22 else 0.
Proof.
  unfold leaf. destruct (demo_table !! leaf_node va) as [q|] eqn:E.
  - apply demo_table_lookup in E. destruct E as [[? _]|[[? _]|[[= H2 H1] ->]]]; [done|done|].
    rewrite demo_word by (tauto || by apply PX_range).
    repeat case_decide; try tauto; reflexivity.
  - rewrite decide_False; [done|]. intros (E2 & E1 & _). by rewrite E1, E2 in E.
Qed.

Lemma demo_user_addr va : 0 <= va < PGSIZE -> user_addr demo_user_mem demo_table va = Some (demo_page 4 + va).
Proof.
  intros Hva. assert (forall l, 0 <= l -> PX l va = 0) as HPX.
  { intros l Hl. rewrite (PX_page l va 0) by (done || rewrite Z.div_small by done; done).
    rewrite PX_spec, Z.div_0_l by (done || apply Z.pow_nonzero; lia). done. }
  unfold user_addr. rewrite demo_leaf, (decide_True (P := PX 2 va = 0 /\ _)) by (rewrite !HPX; done).
  change (user_page (map_entry (demo_page 4) 22)) with (demo_page 4).
  rewrite decide_True by (split; [unfold PGSIZE, MAXVA in *; lia|done]).
  by rewrite Z.mod_small by lia.
Qed.

Lemma demo_user_inv : user_inv demo_user_mem demo_table.
Proof.
  assert (user_page (map_entry (demo_page 4) 22) = demo_page 4) as Ep by reflexivity.
  split.
  - intros va n p Hn. apply demo_table_lookup in Hn. rewrite demo_leaf. unfold demo_page, PGSIZE in *.
    destruct Hn as [[_ ->]|[[_ ->]|[_ ->]]]; case_decide; rewrite ?Ep; done.
  - intros va va' Hva Hva'. rewrite !demo_leaf. repeat case_decide; try done.
    intros _ _. apply PX_inj; try done; destruct_and!; congruence.
Qed.

Lemma copyin_spec_witness :
  (pt_rep demo_user_mem demo_table /\ demo_table !! None = Some (demo_page 1)) /\
  exists r l, copyin (demo_page 1) 0 3 (up_pmem (fun _ => demo_user_mem) boot_kst) =
    Done (r, l) (up_pmem (fun _ => demo_user_mem) boot_kst).
Proof.
  split; [split; [apply demo_user_rep|done]|].
  destruct (copyin_spec (demo_page 1) demo_table 0 3 (up_pmem (fun _ => demo_user_mem) boot_kst)
    demo_user_rep eq_refl ltac:(lia) ltac:(lia)) as (r & l & E & _).
  by exists r, l.
Defined.

Lemma copyout_spec_witness :
  (pt_rep demo_user_mem demo_table /\ user_inv demo_user_mem demo_table) /\
  exists r m', copyout (demo_page 1) 100 [1; 2; 3] (up_pmem (fun _ => demo_user_mem) boot_kst) =
    Done r (up_pmem (fun _ => m') boot_kst).
Proof.
  split; [split; [apply demo_user_rep|apply demo_user_inv]|].
  destruct (copyout_spec (demo_page 1) demo_table 100 [1; 2; 3] (up_pmem (fun _ => demo_user_mem) boot_kst)
    demo_user_rep demo_user_inv eq_refl ltac:(lia)) as (r & m' & k & E & _).
  by exists r, m'.
Defined.
