(* ===== verification/Ring.v ===== *)
(** * Ring buffers

    The pipe, the console input buffer and the UART transmit buffer all keep a
    queue in an array whose size divides [2^w], with a read and a write counter
    of [w] bits that are only reduced modulo the size when they index the array.
    [ring w k buf r wr l]: the array [buf] of size [2^k] with these counters
    holds the queue [l]. *)

From S2P Require Import Prelude.

Section ring.
Context (w k : Z).
Hypothesis Hwk : 0 <= k < w.

Definition wrap (z : Z) : Z := z mod 2^w.

(** The place of counter value [c] in the array. *)
Definition slot (c : Z) : nat := Z.to_nat (c mod 2^k).

Record ring (buf : list Z) (r wr : Z) (l : list Z) : Prop := {
  ring_size : length buf = Z.to_nat (2^k);
  ring_r : 0 <= r < 2^w;
  ring_w : wr = wrap (r + Z.of_nat (length l));
  ring_len : Z.of_nat (length l) <= 2^k;
  ring_data i c : l !! i = Some c -> buf !! slot (r + Z.of_nat i) = Some c }.

Lemma pow_lt : 0 < 2^k < 2^w.
Proof. split; [apply Z.pow_pos_nonneg; lia|apply Z.pow_lt_mono_r; lia]. Qed.

Lemma slot_wrap c : slot (wrap c) = slot c.
Proof.
  unfold slot, wrap. rewrite Z.mod_mod_divide; [done|].
  exists (2^(w - k)). rewrite <- Z.pow_add_r by lia. f_equal. lia.
Qed.
Lemma slot_lt c : (slot c < Z.to_nat (2^k))%nat.
Proof. unfold slot. pose proof pow_lt. pose proof (Z.mod_pos_bound c (2^k)). lia. Qed.

(** Two positions less than a whole turn apart are different places. *)
Lemma slot_inj c i j : 0 <= i < 2^k -> 0 <= j < 2^k -> slot (c + i) = slot (c + j) -> i = j.
Proof.
  intros Hi Hj E. unfold slot in E. pose proof pow_lt as [Hp _].
  pose proof (Z.mod_pos_bound (c + i) (2^k) Hp). pose proof (Z.mod_pos_bound (c + j) (2^k) Hp).
  assert ((c + i) mod 2^k = (c + j) mod 2^k) as E' by lia.
  revert E'. generalize dependent (2^k). intros n. intros. clear Hwk E.
  pose proof (Z.div_mod (c + i) n). pose proof (Z.div_mod (c + j) n).
  assert (n * ((c + i) / n - (c + j) / n) = i - j) by lia.
  assert ((c + i) / n - (c + j) / n = 0) by nia. nia.
Qed.

(** The counters are equal exactly when the queue is empty, and a whole size apart
    exactly when it is full. *)
Lemma ring_distance buf r wr l : ring buf r wr l -> wrap (wr - r) = Z.of_nat (length l).
Proof.
  intros [_ Hr -> Hl _]. pose proof pow_lt. unfold wrap.
  rewrite Zminus_mod_idemp_l. replace (r + Z.of_nat (length l) - r) with (Z.of_nat (length l)) by lia.
  apply Z.mod_small. lia.
Qed.
Lemma ring_empty buf r wr l : ring buf r wr l -> r = wr <-> l = [].
Proof.
  intros H. pose proof (ring_distance _ _ _ _ H) as Hd. destruct H as [_ Hr Hw _ _]. split.
  - intros ->. rewrite Z.sub_diag in Hd. unfold wrap in Hd. rewrite Z.mod_0_l in Hd by (pose proof pow_lt; lia).
    destruct l; [done|simpl in Hd; lia].
  - intros ->. rewrite Hw. simpl. unfold wrap. rewrite Z.add_0_r. symmetry. by apply Z.mod_small.
Qed.
Lemma ring_full buf r wr l : ring buf r wr l -> wr = wrap (r + 2^k) <-> Z.of_nat (length l) = 2^k.
Proof.
  intros H. pose proof (ring_distance _ _ _ _ H) as Hd. destruct H as [_ Hr Hw _ _]. split.
  - intros E. rewrite <- Hd, E. unfold wrap. rewrite Zminus_mod_idemp_l.
    replace (r + 2^k - r) with (2^k) by lia. apply Z.mod_small. pose proof pow_lt. lia.
  - intros <-. done.
Qed.

Lemma wrap_range z : 0 <= wrap z < 2^w.
Proof. apply Z.mod_pos_bound. pose proof pow_lt. lia. Qed.
Lemma wrap_add a b : wrap (wrap a + b) = wrap (a + b).
Proof. unfold wrap. apply Zplus_mod_idemp_l. Qed.

(** [buf[w++ % SIZE] = c] *)
Lemma ring_push buf r wr l c :
  ring buf r wr l -> Z.of_nat (length l) < 2^k -> ring (<[slot wr := c]> buf) r (wrap (wr + 1)) (l ++ [c]).
Proof.
  intros [Hs Hr Hw Hl Hd] Hlt. split.
  - by rewrite length_insert.
  - done.
  - rewrite Hw, wrap_add, length_app. simpl. f_equal. lia.
  - rewrite length_app. simpl. lia.
  - intros i x Hx. rewrite Hw, slot_wrap.
    apply lookup_app_Some in Hx as [Hx|[Hge Hx]].
    + pose proof (lookup_lt_Some _ _ _ Hx). rewrite list_lookup_insert_ne; [by apply Hd|].
      intros E. apply slot_inj in E; lia.
    + apply list_lookup_singleton_Some in Hx as [Hi <-].
      replace i with (length l) by lia. apply list_lookup_insert_eq. rewrite Hs. apply slot_lt.
Qed.

(** [c = buf[r++ % SIZE]] *)
Lemma ring_pop buf r wr c l :
  ring buf r wr (c :: l) -> buf !! slot r = Some c /\ ring buf (wrap (r + 1)) wr l.
Proof.
  intros [Hs Hr Hw Hl Hd]. split.
  - rewrite <- (Z.add_0_r r). by apply (Hd 0%nat).
  - split.
    + done.
    + apply wrap_range.
    + rewrite wrap_add, Hw. simpl. f_equal. lia.
    + simpl in Hl. lia.
    + intros i x Hx. rewrite <- slot_wrap, wrap_add, slot_wrap.
      replace (r + 1 + Z.of_nat i) with (r + Z.of_nat (S i)) by lia. by apply Hd.
Qed.

(** [w--]: the newest element goes. *)
Lemma ring_unpush buf r wr l c : ring buf r wr (l ++ [c]) ->
  ring buf r (wrap (wr - 1)) l /\ buf !! slot (wrap (wr - 1)) = Some c.
Proof.
  intros [Hs Hr Hw Hl Hd]. rewrite length_app in Hw, Hl. simpl in Hw, Hl.
  assert (wrap (wr - 1) = wrap (r + Z.of_nat (length l))) as E.
  { rewrite Hw. unfold wrap. rewrite Zminus_mod_idemp_l. f_equal. lia. }
  split.
  - split; [done|done|done|lia|]. intros i x Hx. apply Hd. rewrite lookup_app_l; [done|].
    by eapply lookup_lt_Some.
  - rewrite E, slot_wrap. apply Hd. rewrite lookup_app_r, Nat.sub_diag by lia. done.
Qed.

Lemma ring_init buf c : length buf = Z.to_nat (2^k) -> 0 <= c < 2^w -> ring buf c c [].
Proof.
  intros Hs Hc. pose proof pow_lt. split; [done|done| |simpl; lia|done].
  simpl. rewrite Z.add_0_r. symmetry. unfold wrap. apply Z.mod_small. lia.
Qed.
End ring.

(** Decides the side condition on the widths. *)
#[export] Hint Extern 1 (0 <= _ < _) => lia : xv6.
