(* ===== verification/Pipe.v ===== *)
(** * Pipes

    [kernel/pipe.c], without [pipealloc], which works on the file table. A pipe
    lives in a page of its own; [pipes] maps the page to the struct. Its buffer
    refines a queue of at most [PIPESIZE] bytes. *)

From S2P Require Import Prelude CString State Spinlock Proc Kalloc Vm PageTable UserCopy Ring.

Definition PIPESIZE : Z := 512.

Definition getpipe (pi : Z) : M kst pipe := let! ps := gets pipes in must (ps !! pi).
Definition modpipe (pi : Z) (f : pipe -> pipe) : M kst unit :=
  getpipe pi ;;; modify (up_pipes (alter f pi)).

(** [pi->data[pi->nwrite++ % PIPESIZE] = ch] *)
Definition pipe_put (ch : Z) (q : pipe) : pipe :=
  up_pi_nwrite (fun n => u32 (n + 1)) (up_pi_data (<[slot 9 (pi_nwrite q) := ch]>) q).

Section pipe.
Context `{Layout} `{Env} `{Fuel}.

Definition pipeclose (pi : Z) (writable : bool) : M kst unit :=
  acquire (PipeLock pi) ;;;
  (if writable then
     modpipe pi (up_pi_writeopen (fun _ => false)) ;;;
     wakeup (ChanPipeR pi)
   else
     modpipe pi (up_pi_readopen (fun _ => false)) ;;;
     wakeup (ChanPipeW pi)) ;;;
  let! q := getpipe pi in
  if negb (pi_readopen q) && negb (pi_writeopen q) then
    release (PipeLock pi) ;;;
    modify (up_pipes (delete pi)) ;;;
    kfree pi
  else release (PipeLock pi).

Fixpoint pipewrite_loop (fuel : nat) (pr : nat) (pi addr n i : Z) : M kst Z :=
  let fin := wakeup (ChanPipeR pi) ;;; release (PipeLock pi) ;;; ret i in
  match fuel with
  | O => nofuel
  | S fuel' =>
      if negb (i <? n) then fin
      else
        let! q := getpipe pi in
        let! k := (if negb (pi_readopen q) then ret 1 else killed pr) in
        if negb (k =? 0) then release (PipeLock pi) ;;; ret (-1)
        else if pi_nwrite q =? u32 (pi_nread q + PIPESIZE) then
          wakeup (ChanPipeR pi) ;;;
          sleep (ChanPipeW pi) (PipeLock pi) ;;;
          pipewrite_loop fuel' pr pi addr n i
        else
          let! p := getp pr in
          let! (r, l) := copyin (p_pagetable p) (u64 (addr + i)) 1 in
          if r =? -1 then fin
          else
            let! ch := must (head l) in
            modpipe pi (pipe_put ch) ;;;
            pipewrite_loop fuel' pr pi addr n (i + 1)
  end.
Definition pipewrite (pi addr n : Z) : M kst Z :=
  let! pr := curproc in
  acquire (PipeLock pi) ;;;
  pipewrite_loop fuel pr pi addr n 0.

(** The first loop of [piperead]: true if it must return -1. *)
Fixpoint piperead_wait (fuel : nat) (pr : nat) (pi : Z) : M kst bool :=
  match fuel with
  | O => nofuel
  | S fuel' =>
      let! q := getpipe pi in
      if (pi_nread q =? pi_nwrite q) && pi_writeopen q then
        let! k := killed pr in
        if negb (k =? 0) then ret true
        else sleep (ChanPipeR pi) (PipeLock pi) ;;; piperead_wait fuel' pr pi
      else ret false
  end.
(** Its second loop, [n] being the bytes still wanted. *)
Fixpoint piperead_copy (n : nat) (pr : nat) (pi addr i : Z) : M kst Z :=
  match n with
  | O => ret i
  | S n' =>
      let! q := getpipe pi in
      if pi_nread q =? pi_nwrite q then ret i
      else
        let! ch := must (pi_data q !! slot 9 (pi_nread q)) in
        modpipe pi (up_pi_nread (fun k => u32 (k + 1))) ;;;
        let! p := getp pr in
        let! r := copyout (p_pagetable p) (u64 (addr + i)) [ch] in
        if r =? -1 then ret i
        else piperead_copy n' pr pi addr (i + 1)
  end.
Definition piperead (pi addr n : Z) : M kst Z :=
  let! pr := curproc in
  acquire (PipeLock pi) ;;;
  let! dead := piperead_wait fuel pr pi in
  if dead then release (PipeLock pi) ;;; ret (-1)
  else
    let! i := piperead_copy (Z.to_nat n) pr pi addr 0 in
    wakeup (ChanPipeW pi) ;;;
    release (PipeLock pi) ;;;
    ret i.
End pipe.

(** ** The buffer is a queue *)

(** A pipe that holds the bytes [l]. *)
Definition pipe_rep (q : pipe) (l : list Z) : Prop := ring 32 9 (pi_data q) (pi_nread q) (pi_nwrite q) l.

Lemma getpipe_done pi s q : pipes s !! pi = Some q -> getpipe pi s = Done q s.
Proof. intros E. unfold getpipe. mrun. by rewrite E. Qed.
Lemma modpipe_done pi f s q :
  pipes s !! pi = Some q -> modpipe pi f s = Done tt (up_pipes (<[pi := f q]>) s).
Proof.
  intros E. unfold modpipe, bind. rewrite (getpipe_done _ _ _ E). unfold modify. f_equal.
  unfold up_pipes. f_equal. apply map_eq. intros k. destruct (decide (k = pi)) as [->|].
  - by rewrite lookup_alter_eq, lookup_insert_eq, E.
  - by rewrite lookup_alter_ne, lookup_insert_ne.
Qed.

Lemma killed_done i s p :
  procs s !! i = Some p -> ProcLock i ∉ held s -> killed i s = Done (p_killed p) s.
Proof.
  intros E Hn. pose proof (lookup_lt_Some _ _ _ E). unfold killed, bind.
  rewrite plock_done by done. rewrite (getp_done i _ p) by done.
  rewrite punlock_done by (simpl; try done; set_solver). unfold ret. f_equal.
  unfold up_held; simpl. rewrite remove_lock_cons by done. by destruct s.
Qed.

Lemma pipe_put_rep q l ch :
  pipe_rep q l -> Z.of_nat (length l) < 512 -> pipe_rep (pipe_put ch q) (l ++ [ch]).
Proof. intros Hq Hl. exact (ring_push 32 9 ltac:(lia) _ _ _ _ ch Hq Hl). Qed.
Lemma pipe_rep_full q l : pipe_rep q l -> (pi_nwrite q =? u32 (pi_nread q + PIPESIZE)) = bool_decide (Z.of_nat (length l) = 512).
Proof.
  intros Hq. apply eq_true_iff_eq. rewrite Z.eqb_eq, bool_decide_eq_true.
  exact (ring_full 32 9 ltac:(lia) _ _ _ _ Hq).
Qed.
Lemma pipe_rep_empty q l : pipe_rep q l -> (pi_nread q =? pi_nwrite q) = bool_decide (l = []).
Proof.
  intros Hq. apply eq_true_iff_eq. rewrite Z.eqb_eq, bool_decide_eq_true.
  exact (ring_empty 32 9 ltac:(lia) _ _ _ _ Hq).
Qed.

(** A live process [p] on the processor in kernel code, with page table [T]. *)
Record user_thread `{Layout} (s : kst) (me : nat) (p : proc) (T : gmap node Z) : Prop := {
  ut_cur : cur s = Some me;
  ut_proc : procs s !! me = Some p;
  ut_len : length (procs s) = NPROC;
  ut_alive : p_killed p = 0;
  ut_rep : pt_rep (pmem s) T;
  ut_root : T !! None = Some (p_pagetable p);
  ut_locks : no_plocks s }.

Lemma user_bytes_cons m T va b bs :
  user_bytes m T va (length (b :: bs)) = Some (b :: bs) ->
  user_bytes m T va 1 = Some [b] /\ user_bytes m T (va + 1) (length bs) = Some bs.
Proof.
  simpl length. change (S (length bs)) with (1 + length bs)%nat. rewrite user_bytes_app.
  change (Z.of_nat 1) with 1. destruct (user_bytes m T va 1) as [l|] eqn:E; [|done]. cbn [mbind option_bind].
  destruct (user_bytes m T (va + 1) (length bs)) as [l'|] eqn:E'; [|done]. simpl. intros [= Hl].
  assert (length l = 1%nat) as Hlen by (by apply length_mapM in E).
  destruct l as [|x [|]]; try done. by injection Hl as -> ->.
Qed.

Section pipe_proofs.
Context `{LayoutOk} `{Env} `{Fuel}.

Lemma copyin_byte s me p T va b :
  user_thread s me p T -> 0 <= va -> user_bytes (pmem s) T va 1 = Some [b] ->
  copyin (p_pagetable p) va 1 s = Done (0, [b]) s.
Proof.
  intros Hu Hva Hb.
  destruct (copyin_loop_ok (p_pagetable p) T 1 va 1 [] s) as (r & l & E & Hr); [by apply Hu|by apply Hu|done|done|].
  unfold copyin. change (Z.to_nat 1) with 1%nat in *. rewrite E. destruct Hr as [[-> Hl]|[_ Hl]]; [|congruence].
  rewrite Hb in Hl. by injection Hl as <-.
Qed.

(** Leaving the critical section of a pipe. *)
Lemma pipe_leave c pi (i : Z) h s :
  no_plocks s -> length (procs s) = NPROC -> held s = PipeLock pi :: h -> PipeLock pi ∉ h ->
  (wakeup c ;;; release (PipeLock pi) ;;; ret i) s =
  Done i (up_held (fun _ => h) (up_procs (imap (wake c (cur s))) s)).
Proof.
  intros Hn Hl Hh Hp. unfold bind. rewrite wakeup_done by done.
  rewrite release_done by (simpl; rewrite Hh; set_solver). unfold ret. f_equal.
  unfold up_held; simpl. by rewrite Hh, remove_lock_cons.
Qed.

Lemma pipewrite_loop_ok me p T pi addr n h bs : forall f i s q l,
  user_thread s me p T -> pipes s !! pi = Some q -> pipe_rep q l -> pi_readopen q = true ->
  held s = PipeLock pi :: h -> PipeLock pi ∉ h ->
  0 <= addr -> 0 <= i -> i + Z.of_nat (length bs) = n -> addr + n <= 2^64 ->
  user_bytes (pmem s) T (addr + i) (length bs) = Some bs ->
  Z.of_nat (length l + length bs) <= 512 -> (length bs < f)%nat ->
  exists q', pipewrite_loop f me pi addr n i s =
      Done n (up_held (fun _ => h) (up_procs (imap (wake (ChanPipeR pi) (cur s))) (up_pipes (<[pi := q']>) s))) /\
    pipe_rep q' (l ++ bs) /\ pi_readopen q' = true /\ pi_writeopen q' = pi_writeopen q.
Proof.
  induction bs as [|b bs IH]; intros f i s q l Hu Hq Hrep Hopen Hh Hp Haddr Hi Hin Hmax Hb Hroom Hf;
    (destruct f as [|f]; [lia|]); cbn [pipewrite_loop].
  - simpl in Hin. destruct (Z.ltb_spec i n); [lia|]. cbn [negb]. exists q. rewrite app_nil_r. split_and!; try done.
    replace i with n by lia. rewrite pipe_leave with (h := h); try done; try by apply Hu.
    unfold up_pipes. by rewrite insert_id, <- (up_procs_id id s).
  - simpl in Hin, Hroom, Hf. destruct (Z.ltb_spec i n); [|lia]. cbn [negb].
    apply user_bytes_cons in Hb as [Hb1 Hb2].
    unfold bind at 1. rewrite (getpipe_done pi s q) by done. rewrite Hopen. cbn [negb].
    unfold bind at 1. rewrite (killed_done me s p) by apply Hu. rewrite (ut_alive _ _ _ _ Hu). cbn [Z.eqb negb].
    rewrite (pipe_rep_full q l) by done. rewrite bool_decide_false by lia.
    unfold bind at 1. rewrite (getp_done me s p) by apply Hu.
    unfold bind at 1. rewrite u64_small by lia.
    rewrite (copyin_byte s me p T (addr + i) b) by (done || lia). cbn [Z.eqb].
    cbn [head must]. unfold ret at 1, bind at 1. unfold bind at 1.
    rewrite (modpipe_done pi _ s q) by done. set (s1 := up_pipes _ s).
    destruct (IH f (i + 1) s1 (pipe_put b q) (l ++ [b])) as (q' & Hq' & Hrep' & Ho & Hw);
      try done; try lia.
    + by destruct Hu; split.
    + simpl. by rewrite lookup_insert_eq.
    + apply pipe_put_rep; [done|lia].
    + by replace (addr + (i + 1)) with (addr + i + 1) by lia.
    + rewrite length_app; simpl; lia.
    + exists q'. split_and!; [|by rewrite <- app_assoc in Hrep'|done|done].
      rewrite Hq'. f_equal. unfold s1, up_pipes, up_procs, up_held; simpl. by rewrite insert_insert_eq.
Qed.

Lemma copyout_byte s me p T va b :
  user_thread s me p T -> user_inv (pmem s) T -> 0 <= va -> is_Some (user_addr (pmem s) T va) ->
  exists m', copyout (p_pagetable p) va [b] s = Done 0 (up_pmem (fun _ => m') s) /\
    pt_rep m' T /\ (forall v, leaf m' T v = leaf (pmem s) T v) /\
    forall v, user_byte m' T v = if decide (v = va) then Some b else user_byte (pmem s) T v.
Proof.
  intros Hu HU Hva [a Ha].
  destruct (copyout_loop_ok (p_pagetable p) T 1 va [b] s) as (r & m' & k & E & HT' & Hleaf & Hr & Hb);
    [by apply Hu|done|by apply Hu|done|done|].
  exists m'. destruct Hr as [[-> ->]|(_ & Hk & Hn)].
  - split_and!; [done|done|done|]. intros v. rewrite Hb. simpl.
    repeat case_decide; try lia; [|done]. by replace (Z.to_nat (v - va)) with 0%nat by lia.
  - simpl in Hk. replace k with 0%nat in Hn by lia. rewrite Z.add_0_r in Hn. congruence.
Qed.

Lemma piperead_copy_ok me p T pi addr l2 l1 : forall n i s q,
  user_thread s me p T -> user_inv (pmem s) T -> pipes s !! pi = Some q -> pipe_rep q (l1 ++ l2) ->
  0 <= addr -> 0 <= i -> addr + i + Z.of_nat (length l1) <= 2^64 ->
  n = length l1 \/ l2 = [] /\ (length l1 <= n)%nat ->
  (forall j, 0 <= j < Z.of_nat (length l1) -> is_Some (user_addr (pmem s) T (addr + i + j))) ->
  exists q' m', piperead_copy n me pi addr i s =
      Done (i + Z.of_nat (length l1)) (up_pmem (fun _ => m') (up_pipes (<[pi := q']>) s)) /\
    pipe_rep q' l2 /\ (forall v, leaf m' T v = leaf (pmem s) T v) /\
    forall v, user_byte m' T v =
      if decide (addr + i <= v < addr + i + Z.of_nat (length l1)) then l1 !! Z.to_nat (v - (addr + i))
      else user_byte (pmem s) T v.
Proof.
  induction l1 as [|b l1 IH]; intros n i s q Hu HU Hq Hrep Haddr Hi Hmax Hn Hmap.
  - exists q, (pmem s). simpl app in Hrep. split_and!; [|done|done|].
    + replace (up_pmem _ _) with s by (unfold up_pipes, up_pmem; rewrite insert_id by done; by destruct s).
      rewrite Z.add_0_r. destruct n as [|n]; [done|]. destruct Hn as [|[-> _]]; [done|].
      cbn [piperead_copy]. unfold bind at 1. rewrite (getpipe_done pi s q) by done.
      by rewrite (pipe_rep_empty q []), bool_decide_true by done.
    + intros v. by rewrite decide_False by (simpl; lia).
  - destruct n as [|n]; [simpl in Hn; lia|]. cbn [piperead_copy]. simpl length in *.
    unfold bind at 1. rewrite (getpipe_done pi s q) by done.
    rewrite (pipe_rep_empty q ((b :: l1) ++ l2)), bool_decide_false by done.
    destruct (ring_pop 32 9 ltac:(lia) _ _ _ _ _ Hrep) as [Hb Hrep1].
    unfold bind at 1. rewrite Hb. cbn [must]. unfold ret at 1, bind at 1.
    rewrite (modpipe_done pi _ s q) by done. set (q1 := up_pi_nread _ q). set (s1 := up_pipes _ s).
    assert (user_thread s1 me p T) as Hu1 by (by destruct Hu; split).
    unfold bind at 1. rewrite (getp_done me s1 p) by apply Hu1. rewrite u64_small by lia.
    destruct (copyout_byte s1 me p T (addr + i) b) as (m1 & Hc & HT1 & Hl1 & Hb1);
      [done|done|lia|rewrite <- (Z.add_0_r (addr + i)); apply Hmap; lia|].
    unfold bind at 1. rewrite Hc. cbn [Z.eqb]. set (s2 := up_pmem _ s1).
    destruct (IH n (i + 1) s2 q1) as (q' & m' & Hq' & Hrep' & Hl' & Hb');
      [by destruct Hu; split|by eapply user_inv_leaf|by simpl; rewrite lookup_insert_eq|exact Hrep1|lia|lia|lia
      |destruct Hn as [?|[-> ?]]; [left; lia|right; split; [done|lia]]| |].
    { intros j Hj. change (pmem s2) with m1. rewrite (user_addr_leaf (pmem s)) by done.
      replace (addr + (i + 1) + j) with (addr + i + (j + 1)) by lia. apply Hmap. lia. }
    exists q', m'. split_and!; [|done| |].
    + rewrite Hq'. f_equal; [lia|]. unfold s2, s1, up_pmem, up_pipes; simpl. by rewrite insert_insert_eq.
    + intros v. by rewrite Hl', <- Hl1.
    + intros v. rewrite Hb'. change (pmem s2) with m1. rewrite Hb1. change (pmem s1) with (pmem s).
      repeat case_decide; try lia; try done.
      * replace (Z.to_nat (v - (addr + i))) with (S (Z.to_nat (v - (addr + (i + 1))))) by lia. done.
      * by replace (Z.to_nat (v - (addr + i))) with 0%nat by lia.
Qed.

(** C23. [pipewrite] into a pipe with room is a FIFO append: it returns [n], the queue
    has the [n] bytes of the user's buffer at its end, in order, the readers are
    woken, and the lock is free again, also when the counters wrap around. *)
Theorem pipewrite_appends me p T pi addr n bs s q l :
  user_thread s me p T -> pipes s !! pi = Some q -> pipe_rep q l -> pi_readopen q = true ->
  PipeLock pi ∉ held s -> 0 <= addr -> n = Z.of_nat (length bs) -> addr + n <= 2^64 ->
  user_bytes (pmem s) T addr (length bs) = Some bs ->
  Z.of_nat (length l) + n <= PIPESIZE -> n < Z.of_nat fuel ->
  exists q', pipewrite pi addr n s =
      Done n (up_procs (imap (wake (ChanPipeR pi) (cur s))) (up_pipes (<[pi := q']>) s)) /\
    pipe_rep q' (l ++ bs).
Proof.
  intros Hu Hq Hrep Hopen Hh Haddr Hn Hmax Hb Hroom Hf. unfold PIPESIZE in Hroom.
  unfold pipewrite, curproc, myproc. mrun. rewrite (ut_cur _ _ _ _ Hu).
  rewrite acquire_done by done.
  destruct (pipewrite_loop_ok me p T pi addr n (held s) bs fuel 0 (up_held (cons (PipeLock pi)) s) q l)
    as (q' & E & Hrep' & _); try done; try lia.
  - destruct Hu as [? ? ? ? ? ? Hnl]. split; try done. intros i Hi. apply (Hnl i). simpl in Hi. set_solver.
  - by rewrite Z.add_0_r.
  - exists q'. split; [|done]. rewrite E. cbn [cur up_held].
    by rewrite (ut_cur _ _ _ _ Hu).
Qed.

(** C24. [piperead] on a pipe that holds bytes is a FIFO removal: it returns as many bytes
    as asked for or as there are, the user's buffer holds the oldest bytes in order
    and no other user memory changes, the rest stays queued, and the writers are woken. *)
Theorem piperead_removes me p T pi addr n s q l1 l2 :
  user_thread s me p T -> user_inv (pmem s) T -> pipes s !! pi = Some q -> pipe_rep q (l1 ++ l2) ->
  l1 <> [] -> n = Z.of_nat (length l1) \/ l2 = [] /\ Z.of_nat (length l1) <= n ->
  PipeLock pi ∉ held s -> 0 <= addr -> addr + Z.of_nat (length l1) <= 2^64 -> (0 < fuel)%nat ->
  (forall j, 0 <= j < Z.of_nat (length l1) -> is_Some (user_addr (pmem s) T (addr + j))) ->
  exists q' m', piperead pi addr n s =
      Done (Z.of_nat (length l1))
        (up_procs (imap (wake (ChanPipeW pi) (cur s))) (up_pmem (fun _ => m') (up_pipes (<[pi := q']>) s))) /\
    pipe_rep q' l2 /\
    forall v, user_byte m' T v =
      if decide (addr <= v < addr + Z.of_nat (length l1)) then l1 !! Z.to_nat (v - addr)
      else user_byte (pmem s) T v.
Proof.
  intros Hu HU Hq Hrep Hne Hn Hh Haddr Hmax Hf Hmap.
  unfold piperead, curproc, myproc. mrun. rewrite (ut_cur _ _ _ _ Hu). rewrite acquire_done by done.
  set (s1 := up_held _ s).
  assert (user_thread s1 me p T) as Hu1.
  { destruct Hu as [? ? ? ? ? ? Hnl]. split; try done. intros i Hi. apply (Hnl i). simpl in Hi. set_solver. }
  assert (piperead_wait fuel me pi s1 = Done false s1) as ->.
  { destruct fuel; [lia|]. cbn [piperead_wait]. unfold bind at 1. rewrite (getpipe_done pi s1 q) by done.
    rewrite (pipe_rep_empty q (l1 ++ l2)), bool_decide_false by (done || by destruct l1). done. }
  destruct (piperead_copy_ok me p T pi addr l2 l1 (Z.to_nat n) 0 s1 q) as (q' & m' & E & Hrep' & _ & Hb);
    try done; try lia.
  - destruct Hn as [->|[-> ?]]; [left; lia|right; split; [done|lia]].
  - intros j Hj. rewrite Z.add_0_r. by apply Hmap.
  - exists q', m'. rewrite Z.add_0_r in Hb. rewrite E. split_and!; [|done|exact Hb].
    pose proof (pipe_leave (ChanPipeW pi) pi (0 + Z.of_nat (length l1)) (held s)
      (up_pmem (fun _ => m') (up_pipes (<[pi:=q']>) s1))) as Hlv.
    unfold bind, ret in Hlv. rewrite Hlv; [|apply Hu1|apply Hu1|done|done]. cbn [cur up_held up_pmem up_pipes s1].
    by rewrite (ut_cur _ _ _ _ Hu).
Qed.
End pipe_proofs.

(** ** A pipe in use *)

#[local] Existing Instance demo_layout.
#[local] Existing Instance demo_layout_ok.


Definition demo_pipe_page : Z := demo_page 5.
Definition demo_pipe_kst : kst :=
  up_pipes (<[demo_pipe_page := mk_pipe (replicate 512 5) (2^32 - 1) (2^32 - 1) true true]>)
    (up_pmem (fun _ => demo_user_mem)
      (up_procs (alter (up_p_pagetable (fun _ => demo_page 1)) 0%nat) demo_kst)).
Definition demo_proc : proc :=
  up_p_pagetable (fun _ => demo_page 1) (up_p_pid (fun _ => 1) (set_state RUNNING proc0)).

Lemma demo_user_thread : user_thread demo_pipe_kst 0 demo_proc demo_table.
Proof. split; try done; [apply demo_user_rep|]. intros i. simpl. set_solver. Qed.
Lemma demo_pipe_rep : pipe_rep (mk_pipe (replicate 512 5) (2^32 - 1) (2^32 - 1) true true) [].
Proof. by apply (ring_init 32 9). Qed.

Lemma pipewrite_appends_witness :
  user_thread demo_pipe_kst 0 demo_proc demo_table /\
  exists q' s', @pipewrite demo_env 10%nat demo_pipe_page 0 3 demo_pipe_kst = Done 3 s' /\ pipe_rep q' (chars "abc").
Proof.
  split; [exact demo_user_thread|].
  destruct (@pipewrite_appends demo_layout demo_layout_ok demo_env 10%nat 0 demo_proc demo_table demo_pipe_page 0 3 (chars "abc")
    demo_pipe_kst _ [] demo_user_thread eq_refl demo_pipe_rep eq_refl) as (q' & E & Hrep);
    [apply not_elem_of_nil|lia|reflexivity|lia| |unfold PIPESIZE; simpl; lia|reflexivity|].
  - apply mapM_Some_2'; [done|]. intros i x y Hx Hy. simpl in Hx, Hy. unfold user_byte. simpl pmem.
    rewrite demo_user_addr by (apply lookup_seqZ in Hx; unfold PGSIZE; lia).
    destruct i as [|[|[|i]]]; simplify_eq/=; reflexivity.
  - eexists q', _. split; [exact E|exact Hrep].
Defined.

(** The same pipe with three bytes in it. *)
Definition demo_full_pipe : pipe := pipe_put 9 (pipe_put 8 (pipe_put 7 (mk_pipe (replicate 512 5) (2^32 - 1) (2^32 - 1) true true))).
Lemma demo_full_rep : pipe_rep demo_full_pipe ([7; 8] ++ [9]).
Proof.
  unfold demo_full_pipe. change ([7; 8] ++ [9]) with ((([] ++ [7]) ++ [8]) ++ [9] : list Z).
  repeat (apply pipe_put_rep; [|simpl; lia]). apply demo_pipe_rep.
Qed.

Lemma piperead_removes_witness :
  user_thread (up_pipes (<[demo_pipe_page := demo_full_pipe]>) demo_pipe_kst) 0 demo_proc demo_table /\
  exists s', @piperead demo_env 10%nat demo_pipe_page 100 2 (up_pipes (<[demo_pipe_page := demo_full_pipe]>) demo_pipe_kst) =
    Done 2 s'.
Proof.
  assert (user_thread (up_pipes (<[demo_pipe_page := demo_full_pipe]>) demo_pipe_kst) 0 demo_proc demo_table) as Hu
    by (by destruct demo_user_thread; split).
  split; [exact Hu|].
  destruct (@piperead_removes demo_layout demo_layout_ok demo_env 10%nat 0 demo_proc demo_table demo_pipe_page 100 2
    _ demo_full_pipe [7; 8] [9] Hu demo_user_inv) as (q' & m' & E & _);
    [reflexivity|apply demo_full_rep|discriminate|by left|apply not_elem_of_nil|lia|simpl; lia|unfold fuel; lia| |].
  - intros j Hj. change (pmem _) with demo_user_mem. rewrite demo_user_addr; [by eexists|]. simpl in Hj. unfold PGSIZE. lia.
  - eexists. exact E.
Defined.
