(* ===== verification/Console.v ===== *)
(** * The console and the UART

    [kernel/uart.c], [kernel/console.c], and of [kernel/printf.c] and
    [kernel/proc.c] what prints to the console or moves bytes for the devices
    ([printf], [procdump], [either_copyin], [either_copyout]). The UART itself is
    a parameter: [tx_idle s] is the idle bit of its line status register in state
    [s]. The bytes written to its transmit register are recorded in [kout]. *)

From S2P Require Import Prelude CString Printf State Spinlock Proc Kalloc Vm PageTable UserCopy Ring.

Definition INPUT_BUF_SIZE : Z := 128.
Definition UART_TX_BUF_SIZE : Z := 32.
Definition BACKSPACE : Z := 0x100.
(** [C(x)], Control-x *)
Definition ctrl (x : Z) : Z := x - 64.

(** ** The UART *)

(** [ReadReg(LSR) & LSR_TX_IDLE] *)
Class UartDev : Type := tx_idle : kst -> bool.

(** [WriteReg(THR, c)] *)
Definition write_thr (c : Z) : M kst unit := modify (up_kout (cons (u8 c))).

(** It spins until the register is empty; spinning changes nothing, and the device is taken
    to send what it has. [panicked] is not part of the state: a [panic] ends the run of
    the model, so here and in [uartputc] it is 0. *)
Definition uartputc_sync (c : Z) : M kst unit := write_thr c.

Section uart.
Context `{UartDev} `{Env} `{Fuel}.

Fixpoint uartstart_loop (n : nat) : M kst unit :=
  match n with
  | O => nofuel
  | S n' =>
      let! u := gets kuart in
      if ua_w u =? ua_r u then ret tt
      else
        let! idle := gets tx_idle in
        if negb idle then ret tt
        else
          let! c := must (ua_buf u !! slot 5 (ua_r u)) in
          modify (up_kuart (up_ua_r (fun r => u64 (r + 1)))) ;;;
          wakeup ChanUart ;;;
          write_thr c ;;;
          uartstart_loop n'
  end.
(** The buffer holds at most [UART_TX_BUF_SIZE] characters. *)
Definition uartstart : M kst unit := uartstart_loop (S (Z.to_nat UART_TX_BUF_SIZE)).

Fixpoint uartputc_wait (n : nat) : M kst unit :=
  match n with
  | O => nofuel
  | S n' =>
      let! u := gets kuart in
      if ua_w u =? u64 (ua_r u + UART_TX_BUF_SIZE) then sleep ChanUart UartLock ;;; uartputc_wait n'
      else ret tt
  end.
Definition uartputc (c : Z) : M kst unit :=
  acquire UartLock ;;;
  uartputc_wait fuel ;;;
  modify (up_kuart (fun u => up_ua_buf (<[slot 5 (ua_w u) := u8 c]>) u)) ;;;
  modify (up_kuart (up_ua_w (fun w => u64 (w + 1)))) ;;;
  uartstart ;;;
  release UartLock.
End uart.

(** ** Printing to the console *)

Definition consputc (c : Z) : M kst unit :=
  if c =? BACKSPACE then uartputc_sync 8 ;;; uartputc_sync 32 ;;; uartputc_sync 8
  else uartputc_sync c.

(** [printf] once [printfinit] ran, so that it locks. *)
Definition kprintf (fmt : list Z) (ap : list varg) : M kst unit :=
  acquire PrLock ;;;
  let! out := must (printf fmt ap) in
  for_each out consputc ;;;
  release PrLock.

Definition state_name (st : procstate) : list Z :=
  match st with
  | UNUSED => chars "unused" | USED => chars "used" | SLEEPING => chars "sleep "
  | RUNNABLE => chars "runble" | RUNNING => chars "run   " | ZOMBIE => chars "zombie"
  end.

Definition procdump_line (i : nat) : M kst unit :=
  let! p := getp i in
  if is_state UNUSED p then ret tt
  else
    kprintf (chars "%d %s %s") [AInt (p_pid p); AStr (Some (state_name (p_state p))); AStr (Some (p_name p))] ;;;
    kprintf [10] [].
Definition procdump : M kst unit :=
  kprintf [10] [] ;;;
  for_each proc_ids procdump_line.

(** ** User or kernel addresses *)

(** An address that is a user address, or a kernel address, given by the bytes
    there; [src + off] of a kernel address skips [off] bytes. *)
Inductive kaddr : Type := UserAddr (va : Z) | KernAddr (l : list Z).

Definition either_copyout (dst : kaddr) (off : Z) (src : list Z) : M kst Z :=
  match dst with
  | UserAddr va =>
      let! i := curproc in
      let! p := getp i in
      copyout (p_pagetable p) (u64 (va + off)) src
  | KernAddr _ => ret 0
  end.
(** The result, and the bytes stored at the destination. *)
Definition either_copyin (src : kaddr) (off len : Z) : M kst (Z * list Z) :=
  match src with
  | UserAddr va =>
      let! i := curproc in
      let! p := getp i in
      copyin (p_pagetable p) (u64 (va + off)) len
  | KernAddr l => ret (0, take (Z.to_nat len) (drop (Z.to_nat off) l))
  end.

(** ** The console device *)

Section console.
Context `{UartDev} `{Env} `{Fuel}.

Fixpoint consolewrite_loop (k : nat) (src : kaddr) (i : Z) : M kst Z :=
  match k with
  | O => ret i
  | S k' =>
      let! (r, l) := either_copyin src i 1 in
      if r =? -1 then ret i
      else
        let! c := must (head l) in
        uartputc c ;;;
        consolewrite_loop k' src (i + 1)
  end.
Definition consolewrite (src : kaddr) (n : Z) : M kst Z := consolewrite_loop (Z.to_nat n) src 0.

(** Waits for input; true if the process was killed. *)
Fixpoint consoleread_wait (n : nat) : M kst bool :=
  match n with
  | O => nofuel
  | S n' =>
      let! c := gets kcons in
      if c_r c =? c_w c then
        let! i := curproc in
        let! k := killed i in
        if negb (k =? 0) then ret true
        else sleep ChanCons ConsLock ;;; consoleread_wait n'
      else ret false
  end.

(** [n] counts down from [target]; [off] is how far [dst] has moved. *)
Fixpoint consoleread_loop (n : nat) (dst : kaddr) (target : nat) : M kst Z :=
  let fin := release ConsLock ;;; ret (Z.of_nat target - Z.of_nat n) in
  match n with
  | O => fin
  | S n' =>
      let! dead := consoleread_wait fuel in
      if dead then release ConsLock ;;; ret (-1)
      else
        let! cs := gets kcons in
        let! c := must (c_buf cs !! slot 7 (c_r cs)) in
        modify (up_kcons (up_c_r (fun r => u32 (r + 1)))) ;;;
        if c =? ctrl 68 then
          when (Nat.ltb n target) (modify (up_kcons (up_c_r (fun r => u32 (r - 1))))) ;;;
          fin
        else
          let! r := either_copyout dst (Z.of_nat target - Z.of_nat n) [c] in
          if r =? -1 then fin
          else if c =? 10 then release ConsLock ;;; ret (Z.of_nat target - Z.of_nat n')
          else consoleread_loop n' dst target
  end.
Definition consoleread (dst : kaddr) (n : Z) : M kst Z :=
  acquire ConsLock ;;;
  consoleread_loop (Z.to_nat n) dst (Z.to_nat n).

(** Kill line: at most the whole buffer is erased. *)
Fixpoint kill_line (n : nat) : M kst unit :=
  match n with
  | O => nofuel
  | S n' =>
      let! c := gets kcons in
      if negb (c_e c =? c_w c) then
        let! x := must (c_buf c !! slot 7 (u32 (c_e c - 1))) in
        if negb (x =? 10) then
          modify (up_kcons (up_c_e (fun e => u32 (e - 1)))) ;;;
          consputc BACKSPACE ;;;
          kill_line n'
        else ret tt
      else ret tt
  end.

Definition console_char (c : Z) : M kst unit :=
  let! cs := gets kcons in
  when (negb (c =? 0) && (u32 (c_e cs - c_r cs) <? INPUT_BUF_SIZE)) (
    let c := if c =? 13 then 10 else c in
    consputc c ;;;
    modify (up_kcons (fun k => up_c_buf (<[slot 7 (c_e k) := u8 c]>) k)) ;;;
    modify (up_kcons (up_c_e (fun e => u32 (e + 1)))) ;;;
    let! cs := gets kcons in
    when ((c =? 10) || (c =? ctrl 68) || (u32 (c_e cs - c_r cs) =? INPUT_BUF_SIZE)) (
      modify (up_kcons (fun k => up_c_w (fun _ => c_e k) k)) ;;;
      wakeup ChanCons)).

Definition consoleintr (c : Z) : M kst unit :=
  acquire ConsLock ;;;
  (if c =? ctrl 80 then procdump
   else if c =? ctrl 85 then kill_line (S (Z.to_nat INPUT_BUF_SIZE))
   else if (c =? ctrl 72) || (c =? 127) then
     let! cs := gets kcons in
     when (negb (c_e cs =? c_w cs)) (
       modify (up_kcons (up_c_e (fun e => u32 (e - 1)))) ;;;
       consputc BACKSPACE)
   else console_char c) ;;;
  release ConsLock.

(** [uartintr], [input] being the characters waiting in the UART. *)
Definition uartintr (input : list Z) : M kst unit :=
  for_each input consoleintr ;;;
  acquire UartLock ;;;
  uartstart ;;;
  release UartLock.
End console.

(** ** The transmit buffer is a queue *)

Definition uart_rep (u : uartst) (l : list Z) : Prop := ring 64 5 (ua_buf u) (ua_r u) (ua_w u) l.

(** A state in which the table's locks are free. *)
Record calm (s : kst) : Prop := { calm_locks : no_plocks s; calm_len : length (procs s) = NPROC }.

Lemma calm_wake s c f : calm s -> calm (up_procs (imap (wake c f)) s).
Proof. intros [H1 H2]. split; [exact H1|]. simpl. by rewrite length_imap. Qed.

Lemma kuart_id s f : f (kuart s) = kuart s -> up_kuart f s = s.
Proof. intros E. unfold up_kuart. rewrite E. by destruct s. Qed.

Section uart_proofs.
Context `{UartDev} `{Env} `{Fuel}.

Lemma uartstart_loop_ok n : forall s l,
  calm s -> uart_rep (kuart s) l -> (length l < n)%nat ->
  exists sent rest s', uartstart_loop n s = Done tt s' /\ l = sent ++ rest /\ uart_rep (kuart s') rest /\
    kout s' = reverse (u8 <$> sent) ++ kout s /\ held s' = held s /\ calm s' /\
    (rest = [] \/ tx_idle s' = false).
Proof.
  induction n as [|n IH]; intros s l Hc Hl Hn; [lia|]. cbn [uartstart_loop]. unfold bind at 1, gets at 1.
  destruct (Z.eqb_spec (ua_w (kuart s)) (ua_r (kuart s))) as [E|E].
  - symmetry in E. apply (ring_empty 64 5 ltac:(lia) _ _ _ _ Hl) in E as ->.
    exists [], [], s. split_and!; try done. by left.
  - unfold bind at 1, gets at 1. destruct (tx_idle s) eqn:Hidle; cbn [negb].
    2:{ exists [], l, s. split_and!; try done. by right. }
    destruct l as [|c l]; [destruct E; symmetry; by apply (ring_empty 64 5 ltac:(lia) _ _ _ _ Hl)|].
    destruct (ring_pop 64 5 ltac:(lia) _ _ _ _ _ Hl) as [Hb Hl1]. rewrite Hb. cbn [must].
    unfold ret at 1, bind at 1. unfold bind at 1, modify at 1.
    set (s1 := up_kuart _ s). unfold bind at 1. rewrite (wakeup_done ChanUart s1) by apply Hc.
    unfold bind at 1, write_thr, modify at 1. set (s2 := up_kout _ _).
    destruct (IH s2 l) as (sent & rest & s' & Hs' & -> & Hr & Ho & Hh & Hc' & Hend);
      [split; [apply Hc|simpl; rewrite length_imap; apply Hc]|exact Hl1|simpl in Hn; lia|].
    exists (c :: sent), rest, s'. split_and!; try done.
    rewrite Ho. simpl. by rewrite reverse_cons, <- app_assoc.
Qed.

(** The UART output is FIFO: [uartputc] with room in its buffer returns with the lock
    free, and what was sent since plus what is still buffered is what was buffered
    before plus the new character, in order; something stays buffered only while the
    device is busy. *)
Theorem uartputc_fifo c s l :
  calm s -> uart_rep (kuart s) l -> UartLock ∉ held s -> is_byte c -> Forall is_byte l ->
  Z.of_nat (length l) < UART_TX_BUF_SIZE -> (0 < fuel)%nat ->
  exists sent rest s', uartputc c s = Done tt s' /\ l ++ [c] = sent ++ rest /\ uart_rep (kuart s') rest /\
    kout s' = reverse sent ++ kout s /\ held s' = held s /\ 
    (rest = [] \/ exists s1, tx_idle s1 = false /\ s' = up_held (fun _ => held s) s1).
Proof.
  intros Hc Hl Hn Hb Hbs Hroom Hf. unfold UART_TX_BUF_SIZE in Hroom.
  unfold uartputc. unfold bind at 1. rewrite acquire_done by done. set (s1 := up_held _ s).
  assert (uartputc_wait fuel s1 = Done tt s1) as Hw.
  { destruct fuel as [|n]; [lia|]. cbn [uartputc_wait]. mrun.
    destruct (Z.eqb_spec (ua_w (kuart s1)) (u64 (ua_r (kuart s1) + UART_TX_BUF_SIZE))) as [E|]; [|done].
    apply (ring_full 64 5 ltac:(lia) _ _ _ _ Hl) in E. lia. }
  unfold bind at 1. rewrite Hw. unfold bind at 1, modify at 1. unfold bind at 1, modify at 1.
  set (s2 := up_kuart _ (up_kuart _ s1)).
  assert (uart_rep (kuart s2) (l ++ [u8 c])) as Hl2 by exact (ring_push 64 5 ltac:(lia) _ _ _ _ (u8 c) Hl Hroom).
  assert (calm s2) as Hc2.
  { destruct Hc as [Hc1 Hc2]. split; [|exact Hc2]. intros i Hi. apply (Hc1 i). simpl in Hi. set_solver. }
  rewrite u8_small in Hl2 by (unfold is_byte in Hb; lia).
  destruct (uartstart_loop_ok (S (Z.to_nat UART_TX_BUF_SIZE)) s2 (l ++ [c]) Hc2 Hl2)
    as (sent & rest & s3 & Hs3 & Heq & Hr & Ho & Hh & _ & Hend); 
    [change (Z.to_nat UART_TX_BUF_SIZE) with 32%nat; rewrite length_app; simpl; lia|].
  unfold bind, uartstart. rewrite Hs3. rewrite release_done by (rewrite Hh; simpl; set_solver).
  eexists sent, rest, _. split_and!; [reflexivity|done|done| | |].
  - simpl. rewrite Ho. do 2 f_equal. apply list_eq. intros i. rewrite list_lookup_fmap.
    destruct (sent !! i) as [x|] eqn:E; [|done]. simpl. f_equal. apply u8_small.
    assert (x ∈ l ++ [c]) as Hx by (rewrite Heq, elem_of_app; left; by eapply list_elem_of_lookup_2).
    apply elem_of_app in Hx as [Hx| ->%list_elem_of_singleton]; [|unfold is_byte in Hb; lia].
    rewrite Forall_forall in Hbs. specialize (Hbs x Hx). unfold is_byte in Hbs. lia.
  - simpl. rewrite Hh. simpl. by rewrite remove_lock_cons.
  - destruct Hend as [->|?]; [by left|right]. exists s3. split; [done|].
    unfold up_held. rewrite Hh. simpl. by rewrite remove_lock_cons.
Qed.
End uart_proofs.

(** A UART that is never ready. *)
Lemma uartputc_fifo_witness :
  (calm demo_kst /\ uart_rep (kuart demo_kst) []) /\
  exists sent rest s', @uartputc (fun _ => false) demo_env 1%nat 65 demo_kst = Done tt s' /\ [65] = sent ++ rest.
Proof.
  assert (calm demo_kst) as Hc by (split; [intros i; simpl; set_solver|done]).
  assert (uart_rep (kuart demo_kst) []) as Hu by (by apply (ring_init 64 5)).
  split; [done|].
  destruct (@uartputc_fifo (fun _ => false) demo_env 1%nat 65 demo_kst [] Hc Hu) as (sent & rest & s' & E & Heq & _);
    [apply not_elem_of_nil|by split|constructor|reflexivity|unfold fuel; lia|].
  exists sent, rest, s'. split; [exact E|exact Heq].
Defined.

(** ** The line discipline *)

(** What a typed character does to the bytes a reader may get ([com]) and to the
    line being edited ([ed]). *)
Definition line_edit (com ed : list Z) (c : Z) : list Z * list Z :=
  if c =? ctrl 80 then (com, ed)
  else if c =? ctrl 85 then (com, [])
  else if (c =? ctrl 72) || (c =? 127) then (com, removelast ed)
  else if negb (c =? 0) && (Z.of_nat (length com + length ed) <? INPUT_BUF_SIZE) then
    let c := if c =? 13 then 10 else c in
    let ed' := ed ++ [c] in
    if (c =? 10) || (c =? ctrl 68) || (Z.of_nat (length com + length ed') =? INPUT_BUF_SIZE)
    then (com ++ ed', []) else (com, ed')
  else (com, ed).

Record cons_rep (k : consst) (com ed : list Z) : Prop := {
  cr_ring : ring 32 7 (c_buf k) (c_r k) (c_e k) (com ++ ed);
  cr_w : c_w k = wrap 32 (c_r k + Z.of_nat (length com));
  cr_ed : Forall (fun c => c <> 10) ed }.

Lemma cons_rep_ew k com ed : cons_rep k com ed -> c_e k = c_w k <-> ed = [].
Proof.
  intros [Hr Hw _]. pose proof (ring_len _ _ _ _ _ _ Hr) as Hl. pose proof (ring_w _ _ _ _ _ _ Hr) as He.
  rewrite length_app in Hl, He. rewrite Hw, He. split; [|intros ->; simpl; f_equal; lia].
  intros E. unfold wrap in E. destruct ed; [done|]. simpl in *. exfalso.
  revert E. change (2^32) with 4294967296. change (2^7) with 128 in Hl. intros E. zlia.
Qed.

(** Erasing the last character of the line. *)
Lemma cons_rep_erase k com ed c :
  cons_rep k com (ed ++ [c]) ->
  cons_rep (up_c_e (fun e => u32 (e - 1)) k) com ed /\ c_buf k !! slot 7 (u32 (c_e k - 1)) = Some c /\ c <> 10.
Proof.
  intros [Hr Hw He]. rewrite app_assoc in Hr.
  destruct (ring_unpush 32 7 ltac:(lia) _ _ _ _ _ Hr) as [Hr' Hb].
  apply Forall_app in He as [He Hc]. apply Forall_cons in Hc as [Hc _]. split_and!; [|exact Hb|exact Hc].
  split; [exact Hr'|exact Hw|exact He].
Qed.

Lemma cons_rep_free k com ed : cons_rep k com ed -> u32 (c_e k - c_r k) = Z.of_nat (length com + length ed).
Proof. intros [Hr _ _]. pose proof (ring_distance 32 7 ltac:(lia) _ _ _ _ Hr) as Hd. by rewrite length_app in Hd. Qed.

Lemma kprintf_done fmt ap out s :
  printf fmt ap = Some out -> PrLock ∉ held s ->
  exists o, kprintf fmt ap s = Done tt (up_kout (app o) s).
Proof.
  intros E Hn. unfold kprintf. unfold bind at 1. rewrite acquire_done by done. rewrite E.
  unfold bind at 1. cbn [must]. unfold ret at 1. unfold bind at 1.
  assert (forall l s, exists o, for_each l consputc s = Done tt (up_kout (app o) s)) as Hl.
  { induction l as [|c l IH]; intros s0; [exists []; by destruct s0|]. cbn [for_each]. unfold bind.
    assert (exists o, consputc c s0 = Done tt (up_kout (app o) s0)) as [o1 ->].
    { unfold consputc, uartputc_sync, write_thr. destruct (c =? BACKSPACE).
      - by exists [u8 8; u8 32; u8 8].
      - by exists [u8 c]. }
    destruct (IH (up_kout (app o1) s0)) as [o2 ->]. exists (o2 ++ o1). f_equal. unfold up_kout. simpl.
    by rewrite app_assoc. }
  destruct (Hl out (up_held (cons PrLock) s)) as [o ->].
  rewrite release_done by (simpl; set_solver). exists o. f_equal. unfold up_held, up_kout; simpl.
  by rewrite remove_lock_cons.
Qed.

Lemma procdump_line_done i s :
  PrLock ∉ held s -> length (procs s) = NPROC -> (i < NPROC)%nat ->
  exists o, procdump_line i s = Done tt (up_kout (app o) s).
Proof.
  intros Hn Hl Hi. destruct (lookup_lt_is_Some_2 (procs s) i) as [p Ep]; [lia|].
  unfold procdump_line. unfold bind at 1. rewrite (getp_done i s p) by done.
  destruct (is_state UNUSED p); [exists []; by destruct s|].
  set (args := [_; _; _]). assert (exists out, printf (chars "%d %s %s") args = Some out) as [out Hout] by (by eexists).
  unfold bind. destruct (kprintf_done _ _ _ s Hout Hn) as [o1 ->].
  destruct (kprintf_done [10] [] [10] (up_kout (app o1) s) eq_refl Hn) as [o2 ->].
  exists (o2 ++ o1). f_equal. unfold up_kout; simpl. by rewrite app_assoc.
Qed.

Lemma procdump_done s :
  PrLock ∉ held s -> length (procs s) = NPROC -> exists o, procdump s = Done tt (up_kout (app o) s).
Proof.
  intros Hn Hl. unfold procdump, bind. destruct (kprintf_done [10] [] [10] s eq_refl Hn) as [o1 ->].
  assert (forall l s, PrLock ∉ held s -> length (procs s) = NPROC -> (forall i, i ∈ l -> (i < NPROC)%nat) ->
    exists o, for_each l procdump_line s = Done tt (up_kout (app o) s)) as Hloop.
  { induction l as [|i l IH]; intros s0 Hn0 Hl0 Hi; [exists []; by destruct s0|]. cbn [for_each]. unfold bind at 1.
    destruct (procdump_line_done i s0) as [o2 ->]; [done|done|apply Hi; set_solver|].
    destruct (IH (up_kout (app o2) s0)) as [o3 ->]; [done|done|set_solver|].
    exists (o3 ++ o2). f_equal. unfold up_kout; simpl. by rewrite app_assoc. }
  destruct (Hloop proc_ids (up_kout (app o1) s)) as [o2 ->]; [done|done| |].
  - intros i Hi. apply elem_of_seq in Hi. lia.
  - exists (o2 ++ o1). f_equal. unfold up_kout; simpl. by rewrite app_assoc.
Qed.

Section console_proofs.
Context `{UartDev} `{Env} `{Fuel}.

(** Echo only adds to the output. *)
Lemma consputc_done c s : exists o, consputc c s = Done tt (up_kout (app o) s).
Proof.
  unfold consputc, uartputc_sync, write_thr. destruct (c =? BACKSPACE); [by exists [u8 8; u8 32; u8 8]|by exists [u8 c]].
Qed.

Lemma kill_line_done n : forall s com ed,
  cons_rep (kcons s) com ed -> (length ed < n)%nat ->
  exists o k, kill_line n s = Done tt (up_kout (app o) (up_kcons (fun _ => k) s)) /\ cons_rep k com [].
Proof.
  induction n as [|n IH]; intros s com ed Hr Hn; [lia|]. cbn [kill_line]. unfold bind at 1, gets at 1.
  pose proof (cons_rep_ew _ _ _ Hr) as Hew. destruct (Z.eqb_spec (c_e (kcons s)) (c_w (kcons s))) as [E|E]; cbn [negb].
  - apply Hew in E as ->. exists [], (kcons s). split; [by destruct s|done].
  - destruct ed as [|c ed _] using rev_ind; [tauto|].
    destruct (cons_rep_erase _ _ _ _ Hr) as (Hr' & Hb & Hc). rewrite Hb. unfold bind at 1. cbn [must]. unfold ret at 1.
    destruct (Z.eqb_spec c 10); [done|]. cbn [negb]. unfold bind at 1, modify at 1. unfold bind at 1.
    destruct (consputc_done BACKSPACE (up_kcons (up_c_e (fun e => u32 (e - 1))) s)) as [o1 ->].
    destruct (IH (up_kout (app o1) (up_kcons (up_c_e (fun e => u32 (e - 1))) s)) com ed) as (o & k & -> & Hk);
      [exact Hr'|rewrite length_app in Hn; simpl in Hn; lia|].
    exists (o ++ o1), k. split; [|done]. f_equal. unfold up_kout, up_kcons; simpl. by rewrite app_assoc.
Qed.

(** A character that is not an editing command. *)
Lemma console_char_done c s com ed :
  calm s -> cons_rep (kcons s) com ed -> is_byte c ->
  c <> ctrl 80 -> c <> ctrl 85 -> c <> ctrl 72 -> c <> 127 ->
  exists o k ps, console_char c s = Done tt (up_procs (fun _ => ps) (up_kout (app o) (up_kcons (fun _ => k) s))) /\
    cons_rep k (line_edit com ed c).1 (line_edit com ed c).2 /\
    (ps = procs s \/ ps = imap (wake ChanCons (cur s)) (procs s)).
Proof.
  intros Hc Hr Hb HP HU HH HD. unfold console_char, line_edit.
  destruct (Z.eqb_spec c (ctrl 80)); [done|]. destruct (Z.eqb_spec c (ctrl 85)); [done|].
  destruct (Z.eqb_spec c (ctrl 72)); [done|]. destruct (Z.eqb_spec c 127); [done|]. cbn [orb].
  unfold bind at 1, gets at 1. rewrite (cons_rep_free _ _ _ Hr).
  destruct (negb (c =? 0) && (Z.of_nat (length com + length ed) <? INPUT_BUF_SIZE)) eqn:E; cbn [when].
  2:{ exists [], (kcons s), (procs s). split_and!; [by destruct s|done|by left]. }
  apply andb_true_iff in E as [_ Hroom]. unfold INPUT_BUF_SIZE in *. apply Z.ltb_lt in Hroom.
  set (c' := if c =? 13 then 10 else c).
  assert (u8 c' = c') as Hu8 by (unfold c', is_byte in *; destruct (c =? 13); apply u8_small; lia).
  unfold bind at 1. destruct (consputc_done c' s) as [o ->].
  unfold bind at 1, modify at 1. unfold bind at 1, modify at 1. unfold bind at 1, gets at 1. rewrite Hu8.
  set (s1 := up_kcons _ (up_kcons _ (up_kout (app o) s))).
  destruct Hr as [Hring Hw Hed].
  assert (ring 32 7 (c_buf (kcons s1)) (c_r (kcons s1)) (c_e (kcons s1)) (com ++ ed ++ [c'])) as Hring1.
  { rewrite app_assoc. apply (ring_push 32 7 ltac:(lia)); [exact Hring|]. rewrite length_app. change (2^7) with 128. lia. }
  assert (u32 (c_e (kcons s1) - c_r (kcons s1)) = Z.of_nat (length com + length (ed ++ [c']))) as Hd.
  { pose proof (ring_distance 32 7 ltac:(lia) _ _ _ _ Hring1) as Hd. by rewrite length_app in Hd. }
  rewrite Hd.
  destruct ((c' =? 10) || (c' =? ctrl 68) || (Z.of_nat (length com + length (ed ++ [c'])) =? 128)) eqn:Ecom; cbn [when].
  - unfold bind, modify. rewrite wakeup_done by apply Hc.
    exists o, (up_c_w (fun _ => c_e (kcons s1)) (kcons s1)), (imap (wake ChanCons (cur s)) (procs s)).
    split_and!; [done| |by right]. split; [|exact (ring_w _ _ _ _ _ _ Hring1)|constructor].
    simpl fst; simpl snd. rewrite app_nil_r. exact Hring1.
  - exists o, (kcons s1), (procs s). split_and!; [done| |by left]. split; [exact Hring1|exact Hw|].
    apply Forall_app. split; [done|]. apply Forall_cons. split; [|constructor].
    apply orb_false_iff in Ecom as [[? _]%orb_false_iff _]. lia.
Qed.

(** C20. The console's line discipline: after every interrupt character the input buffer
    represents exactly what a line editor would have, with committed lines for the
    reader, erase, kill line, carriage return as newline, end of file, and commit
    when the buffer is full; the locks are as before, also when counters wrap. *)
Theorem consoleintr_refines c s com ed :
  calm s -> cons_rep (kcons s) com ed -> is_byte c -> ConsLock ∉ held s -> PrLock ∉ held s ->
  exists s', consoleintr c s = Done tt s' /\
    cons_rep (kcons s') (line_edit com ed c).1 (line_edit com ed c).2 /\ held s' = held s.
Proof.
  intros Hc Hr Hb Hn Hpr. unfold consoleintr. unfold bind at 1. rewrite acquire_done by done.
  set (s1 := up_held _ s). assert (calm s1) as Hc1.
  { destruct Hc as [Hc1 Hc2]. split; [|exact Hc2]. intros i Hi. apply (Hc1 i). simpl in Hi. set_solver. }
  assert (forall o k ps, release ConsLock (up_procs (fun _ => ps) (up_kout (app o) (up_kcons (fun _ => k) s1))) =
    Done tt (up_procs (fun _ => ps) (up_kout (app o) (up_kcons (fun _ => k) s)))) as Hrel.
  { intros o k ps. rewrite release_done by (simpl; set_solver). f_equal.
    unfold up_held; simpl. by rewrite remove_lock_cons. }
  assert (forall o k, release ConsLock (up_kout (app o) (up_kcons (fun _ => k) s1)) =
    Done tt (up_kout (app o) (up_kcons (fun _ => k) s))) as Hrel'.
  { intros o k. exact (Hrel o k (procs s)). }
  unfold line_edit. destruct (Z.eqb_spec c (ctrl 80)) as [E1|E1].
  { destruct (procdump_done s1) as [o Ho]; [simpl; set_solver|apply Hc|]. unfold bind. rewrite Ho.
    change (up_kout (app o) s1) with (up_kout (app o) (up_kcons (fun _ => kcons s) s1)). rewrite Hrel'. by eexists. }
  destruct (Z.eqb_spec c (ctrl 85)) as [E2|E2].
  { pose proof (ring_len _ _ _ _ _ _ (cr_ring _ _ _ Hr)) as Hlen. rewrite length_app in Hlen. change (2^7) with 128 in Hlen.
    destruct (kill_line_done (S (Z.to_nat INPUT_BUF_SIZE)) s1 com ed Hr) as (o & k & Ho & Hk);
      [change (Z.to_nat INPUT_BUF_SIZE) with 128%nat; lia|].
    unfold bind. rewrite Ho, Hrel'. by eexists. }
  destruct ((c =? ctrl 72) || (c =? 127)) eqn:E3.
  - unfold bind at 1. unfold bind at 1, gets at 1. change (kcons s1) with (kcons s).
    pose proof (cons_rep_ew _ _ _ Hr) as Hew.
    destruct (Z.eqb_spec (c_e (kcons s)) (c_w (kcons s))) as [E|E]; cbn [negb when].
    + apply Hew in E as ->. unfold ret.
      change s1 with (up_kout (app []) (up_kcons (fun _ => kcons s) s1)). rewrite Hrel'. by eexists.
    + destruct ed as [|x ed _] using rev_ind; [tauto|]. destruct (cons_rep_erase _ _ _ _ Hr) as (Hr' & _ & _).
      unfold bind, modify. destruct (consputc_done BACKSPACE (up_kcons (up_c_e (fun e => u32 (e - 1))) s1)) as [o ->].
      change (up_kcons (up_c_e (fun e => u32 (e - 1))) s1)
        with (up_kcons (fun _ => up_c_e (fun e => u32 (e - 1)) (kcons s)) s1).
      rewrite Hrel'. eexists. split_and!; [done| |done]. simpl. by rewrite removelast_last.
  - destruct (console_char_done c s1 com ed Hc1 Hr Hb) as (o & k & ps & Ho & Hk & _); try lia.
    unfold bind. rewrite Ho, Hrel. eexists. split_and!; [done| |done]. simpl kcons.
    revert Hk. unfold line_edit. destruct (Z.eqb_spec c (ctrl 80)); [done|].
    destruct (Z.eqb_spec c (ctrl 85)); [done|]. by rewrite E3.
Qed.
End console_proofs.

Lemma consoleintr_refines_witness :
  (calm demo_kst /\ cons_rep (kcons demo_kst) [] []) /\
  exists s', consoleintr 65 demo_kst = Done tt s' /\ cons_rep (kcons s') [] [65].
Proof.
  assert (calm demo_kst) as Hc by (split; [intros i; simpl; set_solver|done]).
  assert (cons_rep (kcons demo_kst) [] []) as Hr by (split; [by apply (ring_init 32 7)|done|constructor]).
  split; [done|].
  destruct (consoleintr_refines 65 demo_kst [] [] Hc Hr ltac:(by split)
    ltac:(apply not_elem_of_nil) ltac:(apply not_elem_of_nil)) as (s' & E & Hr' & _).
  exists s'. split; [exact E|exact Hr'].
Defined.
