(* ===== verification/Sleeplock.v ===== *)
(** * Sleep locks

    [kernel/sleeplock.c], for the sleep locks of inodes and of disk buffers. *)

From S2P Require Import Prelude CString State Spinlock Proc.

(** The sleep locks of the kernel, the spin lock [lk->lk] inside one, and the
    channel its waiters sleep on. *)
Inductive slid : Type := SInode (i : nat) | SBuf (b : nat).
#[global] Instance slid_eq_dec : EqDecision slid.
Proof. solve_decision. Defined.

Definition sl_lk (k : slid) : lockid := match k with SInode i => InodeSleepLk i | SBuf b => BufSleepLk b end.
Definition sl_chan (k : slid) : chan := match k with SInode i => ChanInodeLk i | SBuf b => ChanBufLk b end.

Definition find_sl (k : slid) (s : kst) : option sleeplock :=
  match k with
  | SInode i => i_lock <$> itable s !! i
  | SBuf b => b_lock <$> bufs s !! b
  end.
Definition put_sl (k : slid) (l : sleeplock) (s : kst) : kst :=
  match k with
  | SInode i => up_itable (alter (up_i_lock (fun _ => l)) i) s
  | SBuf b => up_bufs (alter (up_b_lock (fun _ => l)) b) s
  end.
Definition getsl (k : slid) : M kst sleeplock := let! o := gets (find_sl k) in must o.
Definition setsl (k : slid) (l : sleeplock) : M kst unit := getsl k ;;; modify (put_sl k l).

(** [myproc()->pid] *)
Definition mypid : M kst Z := let! i := curproc in let! p := getp i in ret (p_pid p).

Definition initsleeplock (k : slid) : M kst unit := setsl k (mk_sleeplock false 0).

Section sleeplock.
Context `{Env} `{Fuel}.

Fixpoint acquiresleep_wait (n : nat) (k : slid) : M kst unit :=
  match n with
  | O => nofuel
  | S n' =>
      let! l := getsl k in
      if sl_locked l then sleep (sl_chan k) (sl_lk k) ;;; acquiresleep_wait n' k else ret tt
  end.
Definition acquiresleep (k : slid) : M kst unit :=
  acquire (sl_lk k) ;;;
  acquiresleep_wait fuel k ;;;
  let! pid := mypid in
  setsl k (mk_sleeplock true pid) ;;;
  release (sl_lk k).
End sleeplock.

Definition releasesleep (k : slid) : M kst unit :=
  acquire (sl_lk k) ;;;
  setsl k (mk_sleeplock false 0) ;;;
  wakeup (sl_chan k) ;;;
  release (sl_lk k).

Definition holdingsleep (k : slid) : M kst bool :=
  acquire (sl_lk k) ;;;
  let! l := getsl k in
  let! r := (if sl_locked l then let! pid := mypid in ret (sl_pid l =? pid) else ret false) in
  release (sl_lk k) ;;;
  ret r.

(** ** Behaviour when nobody else holds the lock *)

Lemma find_put_sl k l s : is_Some (find_sl k s) -> find_sl k (put_sl k l s) = Some l.
Proof.
  destruct k as [i|b]; simpl; rewrite list_lookup_alter_eq; [destruct (itable s !! i)|destruct (bufs s !! b)];
    simpl; try done; by intros [? ?].
Qed.
Lemma getsl_done k l s : find_sl k s = Some l -> getsl k s = Done l s.
Proof. intros E. unfold getsl. mrun. by rewrite E. Qed.
Lemma setsl_done k l l0 s : find_sl k s = Some l0 -> setsl k l s = Done tt (put_sl k l s).
Proof. intros E. unfold setsl, bind. by rewrite (getsl_done k l0). Qed.
Lemma find_sl_held f k s : find_sl k (up_held f s) = find_sl k s.
Proof. by destruct k. Qed.
Lemma find_sl_procs f k s : find_sl k (up_procs f s) = find_sl k s.
Proof. by destruct k. Qed.
Lemma put_sl_held f k l s : put_sl k l (up_held f s) = up_held f (put_sl k l s).
Proof. by destruct k. Qed.
Lemma held_put_sl k l s : held (put_sl k l s) = held s.
Proof. by destruct k. Qed.
Lemma cur_put_sl k l s : cur (put_sl k l s) = cur s.
Proof. by destruct k. Qed.
Lemma procs_put_sl k l s : procs (put_sl k l s) = procs s.
Proof. by destruct k. Qed.

Lemma mypid_done i p s : cur s = Some i -> procs s !! i = Some p -> mypid s = Done (p_pid p) s.
Proof. intros Hc E. unfold mypid, curproc, myproc. mrun. rewrite Hc. unfold getp. by rewrite E. Qed.

Lemma acquiresleep_free `{Env} `{Fuel} k i p s l :
  cur s = Some i -> procs s !! i = Some p -> sl_lk k ∉ held s -> find_sl k s = Some l -> sl_locked l = false ->
  (0 < fuel)%nat ->
  acquiresleep k s = Done tt (put_sl k (mk_sleeplock true (p_pid p)) s).
Proof.
  intros Hc Hp Hn Hl Hf Hfuel. unfold acquiresleep. unfold bind at 1. rewrite acquire_done by done.
  assert (acquiresleep_wait fuel k (up_held (cons (sl_lk k)) s) = Done tt (up_held (cons (sl_lk k)) s)) as Hw.
  { destruct fuel as [|n]; [lia|]. cbn [acquiresleep_wait]. unfold bind.
    rewrite (getsl_done k l) by by rewrite find_sl_held. by rewrite Hf. }
  unfold bind. rewrite Hw. rewrite (mypid_done i p) by done.
  rewrite (setsl_done k _ l) by by rewrite find_sl_held.
  rewrite release_done by (rewrite held_put_sl; simpl; set_solver). f_equal.
  rewrite put_sl_held. unfold up_held; simpl. rewrite held_put_sl, remove_lock_cons by done.
  by destruct k, s.
Qed.

Lemma releasesleep_done k s l :
  no_plocks s -> length (procs s) = NPROC -> sl_lk k ∉ held s -> find_sl k s = Some l ->
  releasesleep k s = Done tt (up_procs (imap (wake (sl_chan k) (cur s))) (put_sl k (mk_sleeplock false 0) s)).
Proof.
  intros Hn Hlen Hh Hl. unfold releasesleep. unfold bind at 1. rewrite acquire_done by done.
  unfold bind. rewrite (setsl_done k _ l) by by rewrite find_sl_held.
  rewrite wakeup_done.
  - rewrite cur_put_sl. rewrite release_done by (simpl; rewrite held_put_sl; simpl; set_solver). f_equal.
    unfold up_held; simpl. rewrite held_put_sl; simpl. rewrite remove_lock_cons by done. by destruct k, s.
  - intros i. rewrite held_put_sl. simpl. intros [E|Hi]%elem_of_cons; [by destruct k|by apply (Hn i)].
  - by rewrite procs_put_sl.
Qed.

Lemma holdingsleep_done k i p s l :
  cur s = Some i -> procs s !! i = Some p -> sl_lk k ∉ held s -> find_sl k s = Some l ->
  holdingsleep k s = Done (sl_locked l && (sl_pid l =? p_pid p)) s.
Proof.
  intros Hc Hp Hn Hl. unfold holdingsleep. unfold bind at 1. rewrite acquire_done by done.
  unfold bind. rewrite (getsl_done k l) by by rewrite find_sl_held.
  assert (forall b : bool, match release (sl_lk k) (up_held (cons (sl_lk k)) s) with
    | Done _ s' => ret b s' | Panic m s' => Panic m s' | Blocked s' => Blocked s' | Undef => Undef | NoFuel => NoFuel end
    = Done b s) as Hrel.
  { intros b. rewrite release_done by (simpl; set_solver). unfold ret. f_equal.
    unfold up_held; simpl. rewrite remove_lock_cons by done. by destruct s. }
  destruct (sl_locked l); [rewrite (mypid_done i p) by done|]; unfold ret at 1; apply Hrel.
Qed.
