(* ===== verification/Bytes.v ===== *)
(** * Structures in byte buffers

    The blocks of the disk are byte arrays that the C code casts to structs.
    [get16]/[get32] read a little-endian field at a byte offset, [put16]/[put32]
    write one, [sub] is a range of bytes and [splice] overwrites one. *)

From S2P Require Import Prelude.

Definition sub (off n : Z) (l : list Z) : list Z := take (Z.to_nat n) (drop (Z.to_nat off) l).
Definition splice (off : Z) (bs l : list Z) : list Z :=
  take (Z.to_nat off) l ++ bs ++ drop (Z.to_nat off + length bs) l.

Definition get16 (off : Z) (l : list Z) : Z := le_word (sub off 2 l).
Definition get32 (off : Z) (l : list Z) : Z := le_word (sub off 4 l).
Definition put16 (off v : Z) (l : list Z) : list Z := splice off (le_bytes 2 v) l.
Definition put32 (off v : Z) (l : list Z) : list Z := splice off (le_bytes 4 v) l.

Lemma length_splice off bs l :
  0 <= off -> off + Z.of_nat (length bs) <= Z.of_nat (length l) -> length (splice off bs l) = length l.
Proof. intros. unfold splice. rewrite !length_app, length_take, length_drop. lia. Qed.
Lemma length_put32 off v l :
  0 <= off -> off + 4 <= Z.of_nat (length l) -> length (put32 off v l) = length l.
Proof. intros. apply length_splice; [lia|rewrite le_bytes_length; lia]. Qed.
Lemma length_put16 off v l :
  0 <= off -> off + 2 <= Z.of_nat (length l) -> length (put16 off v l) = length l.
Proof. intros. apply length_splice; [lia|rewrite le_bytes_length; lia]. Qed.

Lemma sub_splice off bs l n :
  0 <= off -> off + Z.of_nat (length bs) <= Z.of_nat (length l) -> n = Z.of_nat (length bs) ->
  sub off n (splice off bs l) = bs.
Proof.
  intros Ho Hl ->. unfold sub, splice. rewrite drop_app_ge by (rewrite length_take; lia).
  rewrite length_take, Nat.min_l, Nat.sub_diag by lia. simpl. rewrite drop_0, Nat2Z.id. by rewrite take_app_length.
Qed.
(** Fields that do not overlap. *)
Lemma sub_splice_ne off n off' bs l :
  0 <= off -> 0 <= n -> 0 <= off' -> off' + Z.of_nat (length bs) <= Z.of_nat (length l) ->
  off + n <= off' \/ off' + Z.of_nat (length bs) <= off ->
  sub off n (splice off' bs l) = sub off n l.
Proof.
  intros Ho Hn Ho' Hl Hd. unfold sub. apply list_eq. intros i.
  destruct (decide (i < Z.to_nat n)%nat) as [Hi|Hi]; [|by rewrite !lookup_take_ge by lia].
  rewrite !lookup_take_lt, !lookup_drop by done. unfold splice. destruct Hd as [Hd|Hd].
  - rewrite lookup_app_l by (rewrite length_take; lia). by rewrite lookup_take_lt by lia.
  - rewrite lookup_app_r by (rewrite length_take; lia). rewrite length_take, Nat.min_l by lia.
    rewrite lookup_app_r by lia. rewrite lookup_drop. f_equal. lia.
Qed.
(** A single byte. *)
Lemma lookup_splice o bs l k :
  0 <= o -> o + Z.of_nat (length bs) <= Z.of_nat (length l) ->
  splice o bs l !! k = if decide (o <= Z.of_nat k < o + Z.of_nat (length bs)) then bs !! (k - Z.to_nat o)%nat else l !! k.
Proof.
  intros Ho Hl. unfold splice. case_decide.
  - rewrite lookup_app_r, length_take, Nat.min_l by (rewrite ?length_take; lia). by rewrite lookup_app_l by lia.
  - destruct (decide (k < Z.to_nat o)%nat).
    + by rewrite lookup_app_l, lookup_take_lt by (rewrite ?length_take; lia).
    + rewrite lookup_app_r, length_take, Nat.min_l by (rewrite ?length_take; lia). rewrite lookup_app_r, lookup_drop by lia. f_equal. lia.
Qed.
Lemma get32_put32 off v l :
  0 <= off -> off + 4 <= Z.of_nat (length l) -> get32 off (put32 off v l) = u32 v.
Proof.
  intros. unfold get32, put32. rewrite sub_splice by (rewrite ?le_bytes_length; lia).
  by rewrite le_word_bytes.
Qed.
Lemma get32_put32_ne off off' v l :
  0 <= off -> 0 <= off' -> off' + 4 <= Z.of_nat (length l) -> off + 4 <= off' \/ off' + 4 <= off ->
  get32 off (put32 off' v l) = get32 off l.
Proof. intros. unfold get32, put32. by rewrite sub_splice_ne by (rewrite ?le_bytes_length; lia). Qed.

Lemma get16_put16 off v l :
  0 <= off -> off + 2 <= Z.of_nat (length l) -> get16 off (put16 off v l) = u16 v.
Proof.
  intros. unfold get16, put16. rewrite sub_splice by (rewrite ?le_bytes_length; lia). by rewrite le_word_bytes.
Qed.
(** A range outside the field that was written. *)
Lemma sub_put16_ne off n off' v l :
  0 <= off -> 0 <= n -> 0 <= off' -> off' + 2 <= Z.of_nat (length l) -> off + n <= off' \/ off' + 2 <= off ->
  sub off n (put16 off' v l) = sub off n l.
Proof. intros. unfold put16. by rewrite sub_splice_ne by (rewrite ?le_bytes_length; lia). Qed.
Lemma sub_put32_ne off n off' v l :
  0 <= off -> 0 <= n -> 0 <= off' -> off' + 4 <= Z.of_nat (length l) -> off + n <= off' \/ off' + 4 <= off ->
  sub off n (put32 off' v l) = sub off n l.
Proof. intros. unfold put32. by rewrite sub_splice_ne by (rewrite ?le_bytes_length; lia). Qed.
