(* ===== verification/Virtio.v ===== *)
(** * The disk driver

    [kernel/virtio_disk.c]: requests to the disk are chains of three descriptors in
    a queue shared with the device, which serves them and reports the finished ones
    in the used ring. The queue and the driver's own data are [vdisk] of the kernel
    state. The device is hardware: [mmio_read] is what its registers hold and
    [vserve] what it does to the state when it serves the next request of the
    queue; [BlockDevOk] states what the virtio specification says about it. *)

From S2P Require Import Prelude CString State Spinlock Proc Kalloc.

Definition BSIZE : Z := 1024.
(** virtio.h *)
Definition NUM : nat := 8.
Definition VRING_DESC_F_NEXT : Z := 1.
Definition VRING_DESC_F_WRITE : Z := 2.
Definition VIRTIO_BLK_T_IN : Z := 0.
Definition VIRTIO_BLK_T_OUT : Z := 1.
Definition sizeof_virtio_blk_req : Z := 16.

(** The block on disk; blocks never written are zero. *)
Definition disk_block (s : kst) (n : Z) : list Z := default (replicate (Z.to_nat BSIZE) 0) (disk s !! n).

Definition getb (i : nat) : M kst buf := let! l := gets bufs in must (l !! i).
Definition modb (i : nat) (f : buf -> buf) : M kst unit := getb i ;;; modify (up_bufs (alter f i)).

(** ** The device *)

Class BlockDev : Type := {
  mmio_read : kst -> Z -> Z;
  vserve : kst -> kst }.

(** [*R(r) = v] *)
Definition mmio_write (r v : Z) : M kst unit := modify (up_vdisk (up_vd_regs (cons (r, u32 v)))).

(** ** Descriptors *)

Definition modv (f : vdiskst -> vdiskst) : M kst unit := modify (up_vdisk f).

(** [disk.free[i]] *)
Definition is_free (i : nat) : M kst bool := let! v := gets vdisk in must (vd_free v !! i).

Definition alloc_desc : M kst (option nat) :=
  for_find (seq 0 NUM) (fun i =>
    let! f := is_free i in
    if f then modv (up_vd_free (<[i := false]>)) ;;; ret (Some i) else ret None).

Definition free_desc (i : nat) : M kst unit :=
  if (NUM <=? i)%nat then panic "free_desc 1"
  else
    let! f := is_free i in
    if f then panic "free_desc 2"
    else
      modv (up_vd_desc (<[i := mk_vdesc VNull 0 0 0]>)) ;;;
      modv (up_vd_free (<[i := true]>)) ;;;
      wakeup ChanDiskFree.

(** Every turn frees a descriptor that was in use, or panics: [NUM + 1] turns are
    enough. *)
Fixpoint free_chain_loop (n : nat) (i : nat) : M kst unit :=
  match n with
  | O => nofuel
  | S n' =>
      let! v := gets vdisk in
      let! d := must (vd_desc v !! i) in
      free_desc i ;;;
      if negb (Z.land (d_flags d) VRING_DESC_F_NEXT =? 0) then free_chain_loop n' (Z.to_nat (d_next d))
      else ret tt
  end.
Definition free_chain (i : nat) : M kst unit := free_chain_loop (S NUM) i.

(** The loop over the three entries of [idx], written out. *)
Definition alloc3_desc : M kst (option (nat * nat * nat)) :=
  let! a := alloc_desc in
  match a with
  | None => ret None
  | Some i0 =>
      let! b := alloc_desc in
      match b with
      | None => free_desc i0 ;;; ret None
      | Some i1 =>
          let! c := alloc_desc in
          match c with
          | None => free_desc i0 ;;; free_desc i1 ;;; ret None
          | Some i2 => ret (Some (i0, i1, i2))
          end
      end
  end.

(** ** Requests *)

Section driver.
Context `{BlockDev} `{Env} `{Fuel}.

Fixpoint alloc3_wait (n : nat) : M kst (nat * nat * nat) :=
  match n with
  | O => nofuel
  | S n' =>
      let! r := alloc3_desc in
      match r with
      | Some idx => ret idx
      | None => sleep ChanDiskFree VdiskLock ;;; alloc3_wait n'
      end
  end.

Fixpoint disk_wait (n : nat) (b : nat) : M kst unit :=
  match n with
  | O => nofuel
  | S n' =>
      let! x := getb b in
      if b_disk x then sleep (ChanBuf b) VdiskLock ;;; disk_wait n' b else ret tt
  end.

(** The chain of a request, formatted for the device. *)
Definition format_request (b : nat) (write : bool) (sector : Z) (i0 i1 i2 : nat) : M kst unit :=
  modv (up_vd_ops (<[i0 := mk_vreq (if write then VIRTIO_BLK_T_OUT else VIRTIO_BLK_T_IN) 0 sector]>)) ;;;
  modv (up_vd_desc (<[i0 := mk_vdesc (VOp i0) sizeof_virtio_blk_req VRING_DESC_F_NEXT (Z.of_nat i1)]>)) ;;;
  modv (up_vd_desc (<[i1 := mk_vdesc (VData b) BSIZE
    (Z.lor (if write then 0 else VRING_DESC_F_WRITE) VRING_DESC_F_NEXT) (Z.of_nat i2)]>)) ;;;
  modv (up_vd_info (alter (up_in_status (fun _ => 0xff)) i0)) ;;;
  modv (up_vd_desc (<[i2 := mk_vdesc (VStatus i0) 1 VRING_DESC_F_WRITE 0]>)).

(** [fuel] bounds how often the thread sleeps in either loop. *)
Definition virtio_disk_rw (b : nat) (write : bool) : M kst unit :=
  let! x := getb b in
  let sector := u32 (b_blockno x * (BSIZE / 512)) in
  acquire VdiskLock ;;;
  let! idx := alloc3_wait (S fuel) in
  let '(i0, i1, i2) := idx in
  format_request b write sector i0 i1 i2 ;;;
  modb b (up_b_disk (fun _ => true)) ;;;
  modv (up_vd_info (alter (up_in_b (fun _ => Some b)) i0)) ;;;
  modv (fun v => up_vd_avail (<[Z.to_nat (vd_aidx v mod Z.of_nat NUM) := Z.of_nat i0]>) v) ;;;
  modv (up_vd_aidx (fun i => u16 (i + 1))) ;;;
  mmio_write 0x050 0 ;;;
  disk_wait (S fuel) b ;;;
  modv (up_vd_info (alter (up_in_b (fun _ => None)) i0)) ;;;
  free_chain i0 ;;;
  release VdiskLock.

(** ** Completion interrupts *)

Fixpoint intr_loop (n : nat) : M kst unit :=
  match n with
  | O => nofuel
  | S n' =>
      let! v := gets vdisk in
      if vd_used_idx v =? vd_uidx v then ret tt
      else
        let! id := must (vd_used v !! Z.to_nat (vd_used_idx v mod Z.of_nat NUM)) in
        let! info := must (vd_info v !! Z.to_nat id) in
        if negb (in_status info =? 0) then panic "virtio_disk_intr status"
        else
          let! b := must (in_b info) in
          modb b (up_b_disk (fun _ => false)) ;;;
          wakeup (ChanBuf b) ;;;
          modv (up_vd_used_idx (fun i => u16 (i + 1))) ;;;
          intr_loop n'
  end.

(** The loop ends after as many turns as the used ring has new entries. *)
Definition virtio_disk_intr : M kst unit :=
  acquire VdiskLock ;;;
  let! st := gets (fun s => mmio_read s 0x060) in
  mmio_write 0x064 (Z.land st 3) ;;;
  let! v := gets vdisk in
  intr_loop (S (Z.to_nat (u16 (vd_uidx v - vd_used_idx v)))) ;;;
  release VdiskLock.

(** ** Initialisation *)

Definition clear_bit (f k : Z) : Z := Z.ldiff f (Z.shiftl 1 k).

Definition virtio_disk_init `{Layout} : M kst unit :=
  let! magic := gets (fun s => mmio_read s 0x000) in
  let! version := gets (fun s => mmio_read s 0x004) in
  let! device := gets (fun s => mmio_read s 0x008) in
  let! vendor := gets (fun s => mmio_read s 0x00c) in
  if negb (magic =? 0x74726976) || negb (version =? 2) || negb (device =? 2) || negb (vendor =? 0x554d4551)
  then panic "could not find virtio disk"
  else
    mmio_write 0x070 0 ;;;
    mmio_write 0x070 1 ;;;
    mmio_write 0x070 3 ;;;
    let! features := gets (fun s => mmio_read s 0x010) in
    mmio_write 0x020 (foldl clear_bit features [5; 7; 11; 12; 27; 29; 28]) ;;;
    mmio_write 0x070 11 ;;;
    let! status := gets (fun s => mmio_read s 0x070) in
    if Z.land status 8 =? 0 then panic "virtio disk FEATURES_OK unset"
    else
      mmio_write 0x030 0 ;;;
      let! ready := gets (fun s => mmio_read s 0x044) in
      if negb (ready =? 0) then panic "virtio disk should not be ready"
      else
        let! max := gets (fun s => mmio_read s 0x034) in
        if max =? 0 then panic "virtio disk has no queue 0"
        else if max <? Z.of_nat NUM then panic "virtio disk max queue too short"
        else
          let! desc := kalloc in
          let! avail := kalloc in
          let! used := kalloc in
          if (desc =? 0) || (avail =? 0) || (used =? 0) then panic "virtio disk kalloc"
          else
            for_each [desc; avail; used] (fun pa => modify (up_pmem (fun m => memset m pa 0 PGSIZE))) ;;;
            modv (up_vd_desc (fun _ => replicate NUM (mk_vdesc VNull 0 0 0))) ;;;
            modv (fun v => up_vd_avail (fun _ => replicate NUM 0) (up_vd_aidx (fun _ => 0) v)) ;;;
            modv (fun v => up_vd_used (fun _ => replicate NUM 0) (up_vd_uidx (fun _ => 0) v)) ;;;
            mmio_write 0x038 (Z.of_nat NUM) ;;;
            mmio_write 0x080 desc ;;; mmio_write 0x084 (Z.shiftr desc 32) ;;;
            mmio_write 0x090 avail ;;; mmio_write 0x094 (Z.shiftr avail 32) ;;;
            mmio_write 0x0a0 used ;;; mmio_write 0x0a4 (Z.shiftr used 32) ;;;
            mmio_write 0x044 1 ;;;
            modv (up_vd_free (fun _ => replicate NUM true)) ;;;
            mmio_write 0x070 (Z.lor status 4).
End driver.

(** ** What the driver relies on *)

(** The state with the fields given that a disk request changes. *)
Definition dst (s : kst) (h : list lockid) (c : option nat) (ps : list proc) (bs : list buf)
    (d : gmap Z (list Z)) (w : list (Z * list Z)) (v : vdiskst) : kst :=
  mk_kst h c ps (nextpid s) (initproc s) (ticks s) (queues0 s) (queue_it0 s) (pmem s) (freelist s) (tframes s) (pipes s)
    (ftable s) (itable s) bs (klog s) (sb s) d w v (kcons s) (kuart s) (kout s).

Create HintDb dst.
Section dst.
Context (s : kst) (h : list lockid) (c : option nat) (ps : list proc) (bs : list buf)
  (d : gmap Z (list Z)) (w : list (Z * list Z)) (v : vdiskst).
Lemma dst_id : dst s (held s) (cur s) (procs s) (bufs s) (disk s) (dwrites s) (vdisk s) = s.
Proof. by destruct s. Qed.
Lemma up_held_dst f : up_held f (dst s h c ps bs d w v) = dst s (f h) c ps bs d w v.
Proof. done. Qed.
Lemma up_cur_dst f : up_cur f (dst s h c ps bs d w v) = dst s h (f c) ps bs d w v.
Proof. done. Qed.
Lemma up_procs_dst f : up_procs f (dst s h c ps bs d w v) = dst s h c (f ps) bs d w v.
Proof. done. Qed.
Lemma up_bufs_dst f : up_bufs f (dst s h c ps bs d w v) = dst s h c ps (f bs) d w v.
Proof. done. Qed.
Lemma up_disk_dst f : up_disk f (dst s h c ps bs d w v) = dst s h c ps bs (f d) w v.
Proof. done. Qed.
Lemma up_dwrites_dst f : up_dwrites f (dst s h c ps bs d w v) = dst s h c ps bs d (f w) v.
Proof. done. Qed.
Lemma up_vdisk_dst f : up_vdisk f (dst s h c ps bs d w v) = dst s h c ps bs d w (f v).
Proof. done. Qed.
End dst.
#[export] Hint Rewrite up_held_dst up_cur_dst up_procs_dst up_bufs_dst up_disk_dst up_dwrites_dst up_vdisk_dst : dst.

(** The next request of the queue: the chain at descriptor [i0], whose header asks
    for a transfer at [sector], a write of buffer [b] to the disk if [w], and
    whose status byte is that of [info[k]]. *)
Record request (v : vdiskst) (i0 b k : nat) (w : bool) (sector : Z) : Prop := {
  rq_new : vd_aidx v = u16 (vd_seen v + 1);
  rq_head : vd_avail v !! Z.to_nat (vd_seen v mod Z.of_nat NUM) = Some (Z.of_nat i0);
  rq_chain : exists i1 i2, 
    vd_desc v !! i0 = Some (mk_vdesc (VOp i0) sizeof_virtio_blk_req VRING_DESC_F_NEXT (Z.of_nat i1)) /\
    vd_desc v !! i1 = Some (mk_vdesc (VData b) BSIZE
      (Z.lor (if w then 0 else VRING_DESC_F_WRITE) VRING_DESC_F_NEXT) (Z.of_nat i2)) /\
    vd_desc v !! i2 = Some (mk_vdesc (VStatus k) 1 VRING_DESC_F_WRITE 0);
  rq_op : vd_ops v !! i0 = Some (mk_vreq (if w then VIRTIO_BLK_T_OUT else VIRTIO_BLK_T_IN) 0 sector) }.

(** The queue after the device has served it: status 0, the chain in the used ring. *)
Definition served (i0 k : nat) (v : vdiskst) : vdiskst :=
  up_vd_info (alter (up_in_status (fun _ => 0)) k)
    (up_vd_used (<[Z.to_nat (vd_uidx v mod Z.of_nat NUM) := Z.of_nat i0]>)
      (up_vd_uidx (fun i => u16 (i + 1)) (up_vd_seen (fun i => u16 (i + 1)) v))).

(** The transfer of a block, two sectors of 512 bytes. *)
Definition transfer (b : nat) (x : buf) (w : bool) (n : Z) (s : kst) : kst :=
  if w then up_dwrites (cons (n, b_data x)) (up_disk (<[n := b_data x]>) s)
  else up_bufs (alter (up_b_data (fun _ => disk_block s n)) b) s.

(** A thread asleep on the buffer of a request in flight. *)
Definition waiting (me b : nat) (s : kst) : Prop :=
  cur s = Some me /\ held s = [ProcLock me] /\
  exists p, procs s !! me = Some p /\ p_state p = SLEEPING /\ p_chan p = ChanBuf b.

(** [vserve_ok]: the device serves the request at the head of the queue.
    [resched_disk]: the machine is otherwise idle, so that while a thread waits for
    the disk the device serves the request and raises its interrupt, the handler
    runs (on no process, with no lock held), and if it woke the thread, the
    scheduler runs it again. *)
Class BlockDevOk `{BlockDev} `{Env} : Prop := {
  vserve_ok s i0 b k w n x :
    request (vdisk s) i0 b k w (2 * n) -> bufs s !! b = Some x ->
    vserve s = up_vdisk (served i0 k) (transfer b x w n s);
  resched_disk s s2 me b p :
    waiting me b s ->
    virtio_disk_intr (up_held (fun _ => []) (up_cur (fun _ => None) (vserve s))) = Done tt s2 ->
    procs s2 !! me = Some p -> p_state p = RUNNABLE ->
    resched s = Some (up_held (fun _ => [ProcLock me]) (up_cur (fun _ => Some me)
      (up_procs (alter (set_state RUNNING) me) s2))) }.

(** ** The driver serves a request *)

(** The driver with no request in flight. *)
Record vd_idle (v : vdiskst) : Prop := {
  vi_desc : length (vd_desc v) = NUM;
  vi_avail : length (vd_avail v) = NUM;
  vi_used : length (vd_used v) = NUM;
  vi_info : length (vd_info v) = NUM;
  vi_ops : length (vd_ops v) = NUM;
  vi_free : vd_free v = replicate NUM true;
  vi_seen : vd_seen v = vd_aidx v;
  vi_used_idx : vd_used_idx v = vd_uidx v;
  vi_aidx : 0 <= vd_aidx v < 2^16;
  vi_uidx : 0 <= vd_uidx v < 2^16 }.

(** Process [me] runs, holds no spin lock, and no process waits for the disk. *)
Record disk_ready (me : nat) (s : kst) : Prop := {
  dr_cur : cur s = Some me;
  dr_held : held s = [];
  dr_len : length (procs s) = NPROC;
  dr_proc : exists p, procs s !! me = Some p /\ p_state p = RUNNING /\ p_chan p = ChanNull;
  dr_calm j q : procs s !! j = Some q -> p_state q = SLEEPING -> p_chan q <> ChanDiskFree /\ forall b, p_chan q <> ChanBuf b;
  dr_idle : vd_idle (vdisk s) }.

Lemma disk_ready_ext me s s' :
  disk_ready me s -> cur s' = cur s -> held s' = held s -> procs s' = procs s -> vdisk s' = vdisk s -> disk_ready me s'.
Proof. intros [] Ec Eh Ep Ev. split; by rewrite ?Ec, ?Eh, ?Ep, ?Ev. Qed.
Lemma disk_ready_wake me c s : disk_ready me s -> disk_ready me (up_procs (imap (wake c (Some me))) s).
Proof.
  intros [Hc Hh Hl (p & Hp & Hr & Hn) Hcalm Hi]. split; try done; simpl.
  - by rewrite length_imap.
  - exists p. rewrite list_lookup_imap, Hp. simpl. unfold wake. by rewrite bool_decide_false by naive_solver.
  - intros j q Hj Hs. rewrite list_lookup_imap in Hj. destruct (procs s !! j) as [q'|] eqn:E; [|done]. injection Hj as <-.
    unfold wake in *. destruct (_ && _); [done|]. by apply (Hcalm j).
Qed.

(** The driver's data with the request for buffer [b] in the queue. *)
Definition submitted (b : nat) (w : bool) (n : Z) (v : vdiskst) : vdiskst :=
  up_vd_regs (cons (0x050, 0))
    (up_vd_aidx (fun i => u16 (i + 1))
      (up_vd_avail (<[Z.to_nat (vd_aidx v mod Z.of_nat NUM) := 0]>)
        (up_vd_info (fun l => alter (up_in_b (fun _ => Some b)) 0%nat (alter (up_in_status (fun _ => 0xff)) 0%nat l))
          (up_vd_desc (fun l => <[2%nat := mk_vdesc (VStatus 0) 1 VRING_DESC_F_WRITE 0]>
              (<[1%nat := mk_vdesc (VData b) BSIZE (Z.lor (if w then 0 else VRING_DESC_F_WRITE) VRING_DESC_F_NEXT) 2]>
                (<[0%nat := mk_vdesc (VOp 0) sizeof_virtio_blk_req VRING_DESC_F_NEXT 1]> l)))
            (up_vd_ops (<[0%nat := mk_vreq (if w then VIRTIO_BLK_T_OUT else VIRTIO_BLK_T_IN) 0 (2 * n)]>)
              (up_vd_free (fun _ => replicate 3 false ++ replicate 5 true) v)))))).

Lemma alloc3_desc_idle s :
  vd_idle (vdisk s) ->
  alloc3_desc s = Done (Some (0%nat, 1%nat, 2%nat)) (up_vdisk (up_vd_free (fun _ => replicate 3 false ++ replicate 5 true)) s).
Proof.
  intros [_ _ _ _ _ Hf _ _ _ _]. destruct s as [? ? ? ? ? ? ? ? ? ? ? ? ? ? ? ? ? ? ? v]; simpl in *. destruct v; simpl in *.
  subst. reflexivity.
Qed.

Lemma wakeup_nobody c s :
  no_plocks s -> length (procs s) = NPROC ->
  (forall j q, procs s !! j = Some q -> p_state q = SLEEPING -> p_chan q <> c) -> wakeup c s = Done tt s.
Proof.
  intros Hn Hl Hno. rewrite wakeup_done by done. f_equal. apply up_procs_id. apply list_eq. intros j.
  rewrite list_lookup_imap. destruct (procs s !! j) as [q|] eqn:E; [|done]. simpl. f_equal. unfold wake, is_state.
  case_bool_decide; [|done]. case_bool_decide as Hs; [|done]. rewrite bool_decide_false by by eapply Hno. done.
Qed.

Section request.
Context `{BlockDev} `{Env} `{Fuel}.

(** [virtio_disk_rw] puts the request in the queue and waits. *)
Lemma virtio_disk_rw_submit me b x w s :
  disk_ready me s -> bufs s !! b = Some x -> 0 <= b_blockno x < 2^31 ->
  virtio_disk_rw b w s =
    (disk_wait (S fuel) b ;;; modv (up_vd_info (alter (up_in_b (fun _ => None)) 0%nat)) ;;; free_chain 0%nat ;;; release VdiskLock)
      (dst s [VdiskLock] (Some me) (procs s) (alter (up_b_disk (fun _ => true)) b (bufs s)) (disk s) (dwrites s)
        (submitted b w (b_blockno x) (vdisk s))).
Proof.
  intros [Hc Hh Hl Hp Hcalm Hi] Hb Hr. unfold virtio_disk_rw. unfold bind at 1, getb, bind at 1, gets, must. rewrite Hb.
  unfold ret at 1. assert (u32 (b_blockno x * (BSIZE / 512)) = 2 * b_blockno x) as ->
    by (change (BSIZE / 512) with 2; unfold u32; rewrite Z.mod_small; lia).
  unfold bind at 1. rewrite acquire_done by (rewrite Hh; set_solver).
  cbn [alloc3_wait]. unfold bind at 1, bind at 1. rewrite alloc3_desc_idle by done.
  unfold format_request, modv, mmio_write, modify, bind, modb, getb, gets, ret, must, bind.
  cbn [bufs up_vdisk up_held]. rewrite Hb. unfold ret, modify. cbv beta iota zeta.
  match goal with |- match disk_wait _ _ ?a with _ => _ end = match disk_wait _ _ ?c with _ => _ end => replace a with c; [done|] end.
  unfold submitted, dst. destruct s as [h c0 ps ? ? ? ? ? ? ? ? ? ? ? ? ? ? ? ? v]; simpl in *. destruct v; simpl in *. subst.
  unfold dst. reflexivity.
Qed.

(** The handler with one finished request. *)
Lemma virtio_disk_intr_one b x s :
  held s = [] -> cur s = None -> length (procs s) = NPROC -> bufs s !! b = Some x ->
  vd_uidx (vdisk s) = u16 (vd_used_idx (vdisk s) + 1) -> 0 <= vd_used_idx (vdisk s) < 2^16 ->
  vd_used (vdisk s) !! Z.to_nat (vd_used_idx (vdisk s) mod Z.of_nat NUM) = Some 0 ->
  vd_info (vdisk s) !! 0%nat = Some (mk_vinfo (Some b) 0) ->
  exists r, virtio_disk_intr s = Done tt
    (up_vdisk (fun v => up_vd_used_idx (fun _ => vd_uidx v) (up_vd_regs (cons r) v))
      (up_procs (imap (wake (ChanBuf b) None)) (up_bufs (alter (up_b_disk (fun _ => false)) b) s))).
Proof.
  intros Hh Hc Hl Hb Hu Hr Hus Hin. eexists. unfold virtio_disk_intr, mmio_write, modify, gets.
  unfold bind at 1. rewrite acquire_done by (rewrite Hh; set_solver). unfold bind at 1, bind at 1, bind at 1. cbn [vdisk up_vdisk up_held].
  cbn [vd_uidx vd_used_idx up_vd_regs]. rewrite Hu.
  assert (u16 (u16 (vd_used_idx (vdisk s) + 1) - vd_used_idx (vdisk s)) = 1) as ->.
  { unfold u16. rewrite Zminus_mod_idemp_l. by replace (_ + 1 - _) with 1 by lia. }
  change (S (Z.to_nat 1)) with 2%nat. cbn [intr_loop]. unfold bind at 1, bind at 1, gets. cbn [vdisk up_vdisk up_held vd_used_idx vd_uidx up_vd_regs].
  rewrite Hu. destruct (Z.eqb_spec (vd_used_idx (vdisk s)) (u16 (vd_used_idx (vdisk s) + 1))) as [E|_]; [exfalso|].
  { unfold u16 in E. destruct (decide (vd_used_idx (vdisk s) = 2^16 - 1)) as [E1|]; [by rewrite E1 in E|].
    rewrite Z.mod_small in E; lia. }
  unfold must, bind at 1. cbn [vd_used up_vd_regs]. rewrite Hus. unfold ret at 1, bind at 1. cbn [vd_info up_vd_regs].
  change (Z.to_nat 0) with 0%nat. rewrite Hin. unfold ret at 1. cbn [in_status in_b negb Z.eqb]. unfold bind at 1, ret at 1.
  unfold modb, getb, gets, must, bind, modify. cbn [bufs up_vdisk up_held]. rewrite Hb. unfold ret at 1.
  rewrite wakeup_done; [|intros i; simpl; rewrite Hh; set_solver|exact Hl].
  unfold modv, modify. cbn [vdisk up_procs up_bufs up_vdisk up_held vd_used_idx vd_uidx up_vd_regs up_vd_used_idx cur]. rewrite Hu, Z.eqb_refl.
  unfold ret. rewrite release_done by (simpl; set_solver). f_equal.
  destruct s as [h c0 ps ? ? ? ? ? ? ? ? ? ? ? ? ? ? ? ? v]; simpl in *. destruct v; simpl in *. subst. reflexivity.
Qed.

(** The sleeper is woken, scheduled, and finds its process as it was. *)
Lemma procs_back me b p (ps : list proc) :
  ps !! me = Some p -> p_state p = RUNNING -> p_chan p = ChanNull ->
  (forall j q, ps !! j = Some q -> p_state q = SLEEPING -> p_chan q <> ChanBuf b) ->
  let asleep := alter (fun q => set_state SLEEPING (set_chan (ChanBuf b) q)) me ps in
  (imap (wake (ChanBuf b) None) asleep) !! me = Some (set_state RUNNABLE (set_chan (ChanBuf b) p)) /\
  alter (set_chan ChanNull) me (alter (set_state RUNNING) me (imap (wake (ChanBuf b) None) asleep)) = ps.
Proof.
  intros Hp Hr Hc Hno asleep.
  assert (imap (wake (ChanBuf b) None) asleep !! me = Some (set_state RUNNABLE (set_chan (ChanBuf b) p))) as Hme.
  { rewrite list_lookup_imap. unfold asleep. rewrite list_lookup_alter_eq, Hp. simpl. f_equal. unfold wake, is_state. simpl.
    by rewrite bool_decide_true. }
  split; [done|]. apply list_eq. intros j. destruct (decide (j = me)) as [->|Hne].
  - rewrite !list_lookup_alter_eq, Hme, Hp. simpl. f_equal. destruct p; simpl in *. by subst.
  - rewrite !list_lookup_alter_ne by done. rewrite list_lookup_imap. unfold asleep. rewrite list_lookup_alter_ne by done.
    destruct (ps !! j) as [q|] eqn:E; [|done]. simpl. f_equal. unfold wake, is_state. simpl.
    case_bool_decide as Hs; [|done]. by rewrite bool_decide_false by by eapply Hno.
Qed.

(** The driver's data when the waiting thread runs again. *)
Definition finished (b : nat) (w : bool) (n : Z) (r : Z * Z) (v : vdiskst) : vdiskst :=
  let v2 := served 0 0 (submitted b w n v) in up_vd_used_idx (fun _ => vd_uidx v2) (up_vd_regs (cons r) v2).

Lemma submitted_request b w n v :
  vd_idle v -> request (submitted b w n v) 0 b 0 w (2 * n).
Proof.
  intros [Hd Ha _ Hi Ho _ Hs _ Hr _]. split; simpl.
  - by rewrite Hs.
  - rewrite Hs. apply list_lookup_insert_eq. rewrite Ha. change (Z.of_nat NUM) with 8. unfold NUM.
    pose proof (Z.mod_pos_bound (vd_aidx v) 8 ltac:(lia)). lia.
  - exists 1%nat, 2%nat. split_and!.
    + rewrite !list_lookup_insert_ne by done. apply list_lookup_insert_eq. rewrite Hd. unfold NUM. lia.
    + rewrite list_lookup_insert_ne by done. apply list_lookup_insert_eq. rewrite length_insert, Hd. unfold NUM. lia.
    + apply list_lookup_insert_eq. rewrite !length_insert, Hd. unfold NUM. lia.
  - apply list_lookup_insert_eq. rewrite Ho. unfold NUM. lia.
Qed.

(** The two rings index with the same wrap-around, and the status byte is 0. *)
Lemma served_ring b w n v :
  vd_idle v -> let v2 := served 0 0 (submitted b w n v) in
  vd_uidx v2 = u16 (vd_used_idx v2 + 1) /\ 0 <= vd_used_idx v2 < 2^16 /\
  vd_used v2 !! Z.to_nat (vd_used_idx v2 mod Z.of_nat NUM) = Some 0 /\
  vd_info v2 !! 0%nat = Some (mk_vinfo (Some b) 0).
Proof.
  intros [_ _ Hu Hi _ _ _ Hx _ Hr] v2. split_and!; simpl.
  - by rewrite Hx.
  - rewrite Hx. lia.
  - rewrite Hx. lia.
  - rewrite Hx. apply list_lookup_insert_eq. rewrite Hu. change (Z.of_nat NUM) with 8. unfold NUM.
    pose proof (Z.mod_pos_bound (vd_uidx v) 8 ltac:(lia)). lia.
  - rewrite !list_lookup_alter_eq. destruct (vd_info v) as [|[] ?]; [done|]. done.
Qed.

Context `{!BlockDevOk}.

Lemma disk_wait_done n b x s : bufs s !! b = Some x -> b_disk x = false -> disk_wait (S n) b s = Done tt s.
Proof. intros Hb Hd. cbn [disk_wait]. unfold bind, getb, gets, must, bind. rewrite Hb. unfold ret. by rewrite Hd. Qed.

Lemma transfer_dst b x w n s :
  transfer b x w n s = let t := transfer b x w n s in dst s (held s) (cur s) (procs s) (bufs t) (disk t) (dwrites t) (vdisk s).
Proof. destruct w; by destruct s. Qed.

(** Descriptor [i] is freed. *)
Definition freed_desc (i : nat) (v : vdiskst) : vdiskst :=
  up_vd_free (<[i := true]>) (up_vd_desc (<[i := mk_vdesc VNull 0 0 0]>) v).

Lemma finished_idle b w n r v :
  vd_idle v -> vd_idle (freed_desc 2 (freed_desc 1 (freed_desc 0 (up_vd_info (alter (up_in_b (fun _ => None)) 0%nat) (finished b w n r v))))).
Proof.
  intros [Hd Ha Hu Hin Ho Hf Hs Hx Hra Hru].
  split; simpl; rewrite ?length_insert, ?length_alter; try done; [by rewrite Hs|..]; unfold u16; apply Z.mod_pos_bound; lia.
Qed.

Lemma transfer_in_flight b x w n s s2 :
  bufs s !! b = Some x -> b_disk x = false ->
  bufs s2 = alter (up_b_disk (fun _ => true)) b (bufs s) -> disk s2 = disk s -> dwrites s2 = dwrites s ->
  let t := transfer b x w n s in let t2 := transfer b (up_b_disk (fun _ => true) x) w n s2 in
  alter (up_b_disk (fun _ => false)) b (bufs t2) = bufs t /\ disk t2 = disk t /\ dwrites t2 = dwrites t.
Proof.
  intros Hb Hd Eb Ed Ew. destruct w; simpl; rewrite Eb, ?Ed, ?Ew; split_and!; try done; rewrite ?list_alter_alter_eq.
  - erewrite alter_as_insert by done. apply list_insert_id. rewrite Hb. f_equal. destruct x; simpl in *. by subst.
  - erewrite alter_as_insert by done. erewrite alter_as_insert by done. f_equal. unfold compose, disk_block. rewrite Ed.
    destruct x; simpl in *. by subst.
Qed.

(** While the thread sleeps the request is served. *)
Lemma disk_sleep me b x w s :
  disk_ready me s -> bufs s !! b = Some x -> b_disk x = false ->
  let n := b_blockno x in
  exists r, sleep (ChanBuf b) VdiskLock
      (dst s [VdiskLock] (Some me) (procs s) (alter (up_b_disk (fun _ => true)) b (bufs s)) (disk s) (dwrites s)
        (submitted b w n (vdisk s))) =
    Done tt (let t := transfer b x w n s in dst s [VdiskLock] (Some me) (procs s) (bufs t) (disk t) (dwrites t) (finished b w n r (vdisk s))).
Proof.
  intros [Hc Hh Hl (p & Hp & Hrun & Hch) Hcalm Hi] Hb Hd n. set (s1 := dst _ _ _ _ _ _ _ _).
  set (asleep := alter (fun q => set_state SLEEPING (set_chan (ChanBuf b) q)) me (procs s)).
  set (s2 := up_held (fun _ => [ProcLock me]) (up_procs (alter (fun q => set_state SLEEPING (set_chan (ChanBuf b) q)) me) s1)).
  destruct (procs_back me b p (procs s) Hp Hrun Hch) as [Hme Hps].
  { intros j q Hj Hs. by apply (Hcalm j q). }
  assert (vserve s2 = up_vdisk (served 0 0) (transfer b (up_b_disk (fun _ => true) x) w n s2)) as Hv.
  { apply vserve_ok; [by apply submitted_request|]. simpl. by rewrite list_lookup_alter_eq, Hb. }
  destruct (served_ring b w n (vdisk s) Hi) as (Hu & Hur & Hus & Hin).
  set (s3 := up_held (fun _ => []) (up_cur (fun _ => None) (vserve s2))).
  assert (vdisk s3 = served 0 0 (submitted b w n (vdisk s)) /\ procs s3 = asleep) as [Hvd Hpr] by (unfold s3; rewrite Hv; by destruct w).
  assert (is_Some (bufs s3 !! b)) as [y Hy].
  { unfold s3. rewrite Hv. destruct w; simpl; rewrite ?list_lookup_alter_eq, Hb; by eexists. }
  destruct (virtio_disk_intr_one b y s3) as [r Hr]; rewrite ?Hvd; try done.
  { by rewrite Hpr; unfold asleep; rewrite length_alter. }
  exists r.
  pose proof (resched_disk s2 _ me b (set_state RUNNABLE (set_chan (ChanBuf b) p))
    ltac:(split; [done|split; [done|]]; eexists; simpl; rewrite list_lookup_alter_eq, Hp; by split) Hr) as Hre.
  assert (resched s2 = Some (let t := transfer b x w n s in
    dst s [ProcLock me] (Some me) (alter (set_state RUNNING) me (imap (wake (ChanBuf b) None) asleep))
      (bufs t) (disk t) (dwrites t) (finished b w n r (vdisk s)))) as Hs2.
  { rewrite Hre; [|change (imap (wake (ChanBuf b) None) (procs s3) !! me = Some (set_state RUNNABLE (set_chan (ChanBuf b) p))); by rewrite Hpr|done]. f_equal. unfold s3. rewrite Hv. unfold finished.
    destruct (transfer_in_flight b x w n s s2 Hb Hd eq_refl eq_refl eq_refl) as (E1 & E2 & E3). cbv zeta.
    rewrite <- E1, <- E2, <- E3. unfold s2, s1, transfer. destruct w; by autorewrite with dst. }
  assert (length asleep = NPROC) as Hla by (unfold asleep; by rewrite length_alter).
  apply lookup_lt_Some in Hp as Hlt.
  rewrite (sleep_run (ChanBuf b) VdiskLock me p s1); try done; fold s2; rewrite Hs2.
  - cbv zeta. f_equal. match goal with |- _ = dst _ _ _ _ ?y1 ?y2 ?y3 ?y4 =>
      change (dst s [VdiskLock] (Some me) (alter (set_chan ChanNull) me (alter (set_state RUNNING) me (imap (wake (ChanBuf b) None) asleep))) y1 y2 y3 y4
        = dst s [VdiskLock] (Some me) (procs s) y1 y2 y3 y4) end.
    unfold asleep. by rewrite Hps.
  - intros s4 [= <-]. split; [done|]. simpl. rewrite length_alter, length_imap, Hla. by rewrite <- Hl.
Qed.

Record calm_free (s : kst) : Prop := {
  cf_locks : no_plocks s;
  cf_len : length (procs s) = NPROC;
  cf_none j q : procs s !! j = Some q -> p_state q = SLEEPING -> p_chan q <> ChanDiskFree }.

Lemma free_chain_step k i d s :
  calm_free s -> vd_desc (vdisk s) !! i = Some d -> vd_free (vdisk s) !! i = Some false -> (i < NUM)%nat ->
  free_chain_loop (S k) i s =
    (if negb (Z.land (d_flags d) VRING_DESC_F_NEXT =? 0) then free_chain_loop k (Z.to_nat (d_next d)) else ret tt)
      (up_vdisk (freed_desc i) s).
Proof.
  intros [Hn Hl Hno] Ed Hf Hi. cbn [free_chain_loop]. unfold bind at 1, bind at 1, gets, must. rewrite Ed. unfold ret at 1.
  unfold free_desc. rewrite (proj2 (Nat.leb_gt NUM i)) by done.
  unfold bind at 1, bind at 1, is_free, bind at 1, gets, must. rewrite Hf. unfold ret at 1, modv, modify, bind.
  by rewrite wakeup_nobody.
Qed.

Lemma free_chain_request b n s v w :
  calm_free s -> vd_idle v ->
  vd_desc (vdisk s) = vd_desc (submitted b w n v) -> vd_free (vdisk s) = vd_free (submitted b w n v) ->
  free_chain 0 s = Done tt (up_vdisk (fun v => freed_desc 2 (freed_desc 1 (freed_desc 0 v))) s).
Proof.
  intros [Hn Hl Hno] [Hd _ _ _ _ _ _ _ _ _] Ed Ef. simpl in Ed, Ef.
  destruct (vd_desc v) as [|d0 [|d1 [|d2 r]]]; try done. cbn in Ed.
  unfold free_chain. change (S NUM) with 9%nat. rewrite (free_chain_step _ _ (mk_vdesc (VOp 0) sizeof_virtio_blk_req VRING_DESC_F_NEXT 1));
    [|by split|by rewrite Ed|by rewrite Ef|unfold NUM; lia].
  change (negb (Z.land (d_flags _) _ =? 0)) with true. cbv iota. cbn [d_next].
  rewrite (free_chain_step _ _ (mk_vdesc (VData b) BSIZE (Z.lor (if w then 0 else VRING_DESC_F_WRITE) VRING_DESC_F_NEXT) 2));
    [|by split|simpl; by rewrite Ed|simpl; by rewrite Ef|unfold NUM; simpl; lia].
  replace (negb _) with true by (by destruct w). cbv iota. cbn [d_next].
  rewrite (free_chain_step _ _ (mk_vdesc (VStatus 0) 1 VRING_DESC_F_WRITE 0));
    [|by split|simpl; by rewrite Ed|simpl; by rewrite Ef|unfold NUM; simpl; lia].
  done.
Qed.

Hypothesis fuel_pos : (0 < fuel)%nat.

(** [virtio_disk_rw] transfers the whole block between the buffer and the disk,
    returns the three descriptors, and changes nothing else. *)
Lemma virtio_disk_rw_done me b x w s :
  disk_ready me s -> bufs s !! b = Some x -> b_disk x = false -> 0 <= b_blockno x < 2^31 ->
  exists v, virtio_disk_rw b w s = Done tt (up_vdisk (fun _ => v) (transfer b x w (b_blockno x) s)) /\ vd_idle v.
Proof.
  intros R Hb Hd Hr. pose proof R as [Hc Hh Hl (p & Hp & Hrun & Hch) Hcalm Hi].
  rewrite (virtio_disk_rw_submit me b x w s R Hb Hr). destruct (disk_sleep me b x w s R Hb Hd) as [r Hs]. cbv zeta in Hs.
  set (t := transfer b x w (b_blockno x) s) in *.
  set (s4 := dst s [VdiskLock] (Some me) (procs s) (bufs t) (disk t) (dwrites t) (finished b w (b_blockno x) r (vdisk s))) in *.
  assert (exists y, bufs s4 !! b = Some y /\ b_disk y = false) as (y & Hy & Hyd).
  { unfold s4, t. destruct w; simpl; rewrite ?list_lookup_alter_eq, Hb; by eexists. }
  unfold bind at 1. cbn [disk_wait]. unfold bind at 1, getb, bind at 1, gets, must.
  assert (bufs (dst s [VdiskLock] (Some me) (procs s) (alter (up_b_disk (fun _ => true)) b (bufs s)) (disk s) (dwrites s)
    (submitted b w (b_blockno x) (vdisk s))) !! b = Some (up_b_disk (fun _ => true) x)) as -> by (simpl; by rewrite list_lookup_alter_eq, Hb).
  unfold ret at 1. cbn [b_disk up_b_disk]. unfold bind at 1. rewrite Hs.
  destruct fuel as [|k] eqn:Ek; [lia|]. rewrite (disk_wait_done k b y s4 Hy Hyd).
  unfold modv, modify, bind. rewrite (free_chain_request b (b_blockno x) _ (vdisk s) w); [|split|done|done|done].
  - rewrite release_done by (simpl; set_solver). eexists. split; [|by apply (finished_idle b w (b_blockno x) r)].
    f_equal. unfold s4. autorewrite with dst. pose proof (transfer_dst b x w (b_blockno x) s) as Ht. cbv zeta in Ht. fold t in Ht.
    rewrite Hc, Hh in Ht. etransitivity; [|apply (f_equal (up_vdisk _) (eq_sym Ht))]. by autorewrite with dst.
  - intros i. simpl. set_solver.
  - done.
  - intros j q Hj Hsl. by apply (Hcalm j q).
Qed.

(** C10. The disk driver serves a request completely: a write leaves the data of the buffer
    on the disk, a read leaves the block of the disk in the buffer; no other block,
    buffer or process changes, and all descriptors are free again, so that the next
    request finds the driver idle. *)
Theorem virtio_disk_rw_transfers me b x w s :
  disk_ready me s -> bufs s !! b = Some x -> b_disk x = false -> 0 <= b_blockno x < 2^31 ->
  exists s', virtio_disk_rw b w s = Done tt s' /\ disk_ready me s' /\ procs s' = procs s /\
    (forall n, disk_block s' n = if decide (w = true /\ n = b_blockno x) then b_data x else disk_block s n) /\
    (forall i, bufs s' !! i =
      if decide (w = false /\ i = b) then Some (up_b_data (fun _ => disk_block s (b_blockno x)) x) else bufs s !! i).
Proof.
  intros R Hb Hd Hr. destruct (virtio_disk_rw_done me b x w s R Hb Hd Hr) as (v & E & Hv).
  eexists. split; [exact E|]. destruct R. split; [destruct w; by split|]. split; [by destruct w|]. split.
  - intros n. unfold disk_block. destruct w; cbn [disk up_vdisk transfer up_dwrites up_disk up_bufs].
    + rewrite lookup_insert. case_decide as E1; case_decide as E2; naive_solver.
    + by rewrite decide_False by naive_solver.
  - intros i. destruct w; cbn [bufs up_vdisk transfer up_dwrites up_disk up_bufs]; [by rewrite decide_False by naive_solver|].
    destruct (decide (i = b)) as [->|].
    + rewrite decide_True by done. by rewrite list_lookup_alter_eq, Hb.
    + rewrite decide_False by naive_solver. by rewrite list_lookup_alter_ne.
Qed.
End request.

(** ** A device and a machine that behave so *)

(** The device follows the chain of the next request. *)
Definition demo_serve (s : kst) : kst :=
  let v := vdisk s in
  match vd_avail v !! Z.to_nat (vd_seen v mod Z.of_nat NUM) with
  | Some h =>
      let i0 := Z.to_nat h in
      match vd_desc v !! i0, vd_ops v !! i0 with
      | Some d0, Some op =>
          match vd_desc v !! Z.to_nat (d_next d0) with
          | Some d1 =>
              match d_addr d1, vd_desc v !! Z.to_nat (d_next d1) with
              | VData b, Some d2 =>
                  match d_addr d2, bufs s !! b with
                  | VStatus k, Some x => up_vdisk (served i0 k) (transfer b x (rq_type op =? 1) (rq_sector op / 2) s)
                  | _, _ => s
                  end
              | _, _ => s
              end
          | None => s
          end
      | _, _ => s
      end
  | None => s
  end.
Definition demo_disk : BlockDev := {| mmio_read _ _ := 1; vserve := demo_serve |}.
Definition demo_disk_env : Env := fun s =>
  match cur s with
  | Some me =>
      match @virtio_disk_intr demo_disk (up_held (fun _ => []) (up_cur (fun _ => None) (demo_serve s))) with
      | Done _ s2 => Some (up_held (fun _ => [ProcLock me]) (up_cur (fun _ => Some me) (up_procs (alter (set_state RUNNING) me) s2)))
      | _ => None
      end
  | None => None
  end.
Lemma demo_disk_ok : @BlockDevOk demo_disk demo_disk_env.
Proof.
  split.
  - intros s i0 b k w n x [_ Hh (i1 & i2 & E0 & E1 & E2) Hop] Hb. change (@vserve demo_disk s) with (demo_serve s).
    unfold demo_serve. rewrite Hh, Nat2Z.id, E0, Hop. cbn [d_next]. rewrite Nat2Z.id, E1. cbn [d_addr d_next].
    rewrite Nat2Z.id, E2. cbn [d_addr]. rewrite Hb. cbn [rq_type rq_sector].
    rewrite (Z.mul_comm 2), Z.div_mul by done. by destruct w.
  - intros s s2 me b p (Hc & _ & _) Hi _ _. unfold resched, demo_disk_env. rewrite Hc.
    change (vserve s) with (demo_serve s) in Hi. by rewrite Hi.
Qed.

Definition demo_vdisk : vdiskst := up_vd_free (fun _ => replicate NUM true) vdisk0.
Lemma demo_vdisk_idle : vd_idle demo_vdisk.
Proof. by split. Qed.
(** Process 0 runs; buffer 0 is for block 100. *)
Definition demo_disk_kst : kst :=
  up_vdisk (fun _ => demo_vdisk) (up_bufs (fun _ => [mk_buf true false 1 100 (mk_sleeplock true 1) 1 0 0 (replicate 1024 7)]) demo_kst).
Lemma demo_disk_ready : disk_ready 0 demo_disk_kst.
Proof.
  split; try done; [by eexists|].
  intros [|[|j]] q Hj Hs; [by injection Hj as <-|by injection Hj as <-|].
  apply lookup_replicate in Hj as [-> _]. done.
Qed.
Lemma virtio_disk_rw_transfers_witness :
  exists s', @virtio_disk_rw demo_disk_env 1%nat 0 true demo_disk_kst = Done tt s' /\ disk_block s' 100 = replicate 1024 7.
Proof.
  destruct (@virtio_disk_rw_transfers demo_disk demo_disk_env 1%nat demo_disk_ok Nat.lt_0_1 0 0
    (mk_buf true false 1 100 (mk_sleeplock true 1) 1 0 0 (replicate 1024 7)) true demo_disk_kst demo_disk_ready eq_refl eq_refl)
    as (s' & E & _ & _ & Hd & _); [done|].
  exists s'. split; [exact E|]. by rewrite Hd.
Defined.
