(* ===== verification/Bio.v ===== *)
(** * The buffer cache

    [kernel/bio.c]. Element [NBUF] of [bufs] is [bcache.head]; [b_prev] and
    [b_next] are the links of the circular list. The list is shown to be
    the buffers in order of recent use. *)

From S2P Require Import Prelude CString State Spinlock Proc Sleeplock Virtio.

Definition head_buf : nat := NBUF.

Definition set_next (x : nat) : buf -> buf := up_b_next (fun _ => x).
Definition set_prev (x : nat) : buf -> buf := up_b_prev (fun _ => x).

(** Putting buffer [i], which is in no list, behind the head. *)
Definition link_front (i : nat) : M kst unit :=
  let! h := getb head_buf in
  modb i (set_next (b_next h)) ;;;
  modb i (set_prev head_buf) ;;;
  let! h := getb head_buf in
  modb (b_next h) (set_prev i) ;;;
  modb head_buf (set_next i).

Definition binit : M kst unit :=
  modb head_buf (set_prev head_buf) ;;;
  modb head_buf (set_next head_buf) ;;;
  for_each (seq 0 NBUF) (fun i =>
    let! h := getb head_buf in
    modb i (set_next (b_next h)) ;;;
    modb i (set_prev head_buf) ;;;
    initsleeplock (SBuf i) ;;;
    let! h := getb head_buf in
    modb (b_next h) (set_prev i) ;;;
    modb head_buf (set_next i)).

(** The two searches of [bget], from [b]; the list has [NBUF] buffers. *)
Fixpoint bget_cached (n : nat) (dev blockno : Z) (b : nat) : M kst (option nat) :=
  match n with
  | O => nofuel
  | S n' =>
      if bool_decide (b = head_buf) then ret None
      else
        let! x := getb b in
        if (b_dev x =? dev) && (b_blockno x =? blockno) then ret (Some b)
        else bget_cached n' dev blockno (b_next x)
  end.
Fixpoint bget_unused (n : nat) (b : nat) : M kst (option nat) :=
  match n with
  | O => nofuel
  | S n' =>
      if bool_decide (b = head_buf) then ret None
      else
        let! x := getb b in
        if b_refcnt x =? 0 then ret (Some b)
        else bget_unused n' (b_prev x)
  end.

Section bio.
Context `{BlockDev} `{Env} `{Fuel}.

Definition bget (dev blockno : Z) : M kst nat :=
  acquire BcacheLock ;;;
  let! h := getb head_buf in
  let! r := bget_cached (S NBUF) dev blockno (b_next h) in
  match r with
  | Some b =>
      modb b (up_b_refcnt (fun n => u32 (n + 1))) ;;;
      release BcacheLock ;;;
      acquiresleep (SBuf b) ;;;
      ret b
  | None =>
      let! h := getb head_buf in
      let! r := bget_unused (S NBUF) (b_prev h) in
      match r with
      | Some b =>
          modb b (fun x => up_b_refcnt (fun _ => 1) (up_b_valid (fun _ => false)
            (up_b_blockno (fun _ => blockno) (up_b_dev (fun _ => dev) x)))) ;;;
          release BcacheLock ;;;
          acquiresleep (SBuf b) ;;;
          ret b
      | None => panic "bget: no buffers"
      end
  end.

Definition bread (dev blockno : Z) : M kst nat :=
  let! b := bget dev blockno in
  let! x := getb b in
  when (negb (b_valid x)) (
    virtio_disk_rw b false ;;;
    modb b (up_b_valid (fun _ => true))) ;;;
  ret b.

Definition bwrite (b : nat) : M kst unit :=
  let! h := holdingsleep (SBuf b) in
  if negb h then panic "bwrite" else virtio_disk_rw b true.

Definition brelse (b : nat) : M kst unit :=
  let! h := holdingsleep (SBuf b) in
  if negb h then panic "brelse"
  else
    releasesleep (SBuf b) ;;;
    acquire BcacheLock ;;;
    modb b (up_b_refcnt (fun n => u32 (n - 1))) ;;;
    let! x := getb b in
    when (b_refcnt x =? 0) (
      modb (b_next x) (set_prev (b_prev x)) ;;;
      let! x := getb b in
      modb (b_prev x) (set_next (b_next x)) ;;;
      link_front b) ;;;
    release BcacheLock.

Definition bpin (b : nat) : M kst unit :=
  acquire BcacheLock ;;; modb b (up_b_refcnt (fun n => u32 (n + 1))) ;;; release BcacheLock.
Definition bunpin (b : nat) : M kst unit :=
  acquire BcacheLock ;;; modb b (up_b_refcnt (fun n => u32 (n - 1))) ;;; release BcacheLock.
End bio.

(** ** The list *)

Definition nxt (bs : list buf) (i : nat) : option nat := b_next <$> bs !! i.
Definition prv (bs : list buf) (i : nat) : option nat := b_prev <$> bs !! i.

(** From [x] through the buffers [l] to [y], in both directions. *)
Fixpoint linked (bs : list buf) (x : nat) (l : list nat) (y : nat) : Prop :=
  match l with
  | [] => nxt bs x = Some y /\ prv bs y = Some x
  | z :: l' => nxt bs x = Some z /\ prv bs z = Some x /\ linked bs z l' y
  end.

Lemma linked_app bs x l1 z l2 y : linked bs x (l1 ++ z :: l2) y <-> linked bs x l1 z /\ linked bs z l2 y.
Proof. revert x. induction l1 as [|w l1 IH]; intros x; simpl; [tauto|]. rewrite IH. tauto. Qed.

Lemma linked_ext bs bs' x l y :
  (forall i, i ∈ x :: l -> nxt bs' i = nxt bs i) -> (forall i, i ∈ l ++ [y] -> prv bs' i = prv bs i) ->
  linked bs x l y -> linked bs' x l y.
Proof.
  revert x. induction l as [|z l IH]; intros x Hn Hp; simpl.
  - intros [? ?]. rewrite Hn, Hp by set_solver. done.
  - intros (? & ? & ?). rewrite Hn, Hp by set_solver. split_and!; try done. apply IH; set_solver.
Qed.

(** The ring of the cache: the head, then every buffer once. *)
Record lru (bs : list buf) (l : list nat) : Prop := {
  lru_len : length bs = S NBUF;
  lru_all : l ≡ₚ seq 0 NBUF;
  lru_linked : linked bs head_buf l head_buf }.

Lemma lru_NoDup bs l : lru bs l -> NoDup l /\ head_buf ∉ l /\ forall i, i ∈ l -> (i < NBUF)%nat.
Proof.
  intros [_ Hp _]. split_and!.
  - rewrite Hp. apply NoDup_seq.
  - rewrite Hp, elem_of_seq. unfold head_buf. lia.
  - intros i. rewrite Hp, elem_of_seq. lia.
Qed.

Lemma getb_done i s b : bufs s !! i = Some b -> getb i s = Done b s.
Proof. intros E. unfold getb. mrun. by rewrite E. Qed.
Lemma modb_done i f s : (i < length (bufs s))%nat -> modb i f s = Done tt (up_bufs (alter f i) s).
Proof. intros H. apply lookup_lt_is_Some_2 in H as [b E]. unfold modb, bind. by rewrite (getb_done i s b). Qed.

Lemma nxt_alter bs i f j :
  nxt (alter f i bs) j = if decide (i = j) then (fun b => b_next (f b)) <$> bs !! i else nxt bs j.
Proof.
  unfold nxt. destruct (decide (i = j)) as [->|].
  - rewrite list_lookup_alter_eq. by destruct (bs !! j).
  - by rewrite list_lookup_alter_ne.
Qed.
Lemma prv_alter bs i f j :
  prv (alter f i bs) j = if decide (i = j) then (fun b => b_prev (f b)) <$> bs !! i else prv bs j.
Proof.
  unfold prv. destruct (decide (i = j)) as [->|].
  - rewrite list_lookup_alter_eq. by destruct (bs !! j).
  - by rewrite list_lookup_alter_ne.
Qed.

(** Fields other than the links do not matter to the list. *)
Lemma lru_alter bs l i f :
  (forall b, b_next (f b) = b_next b /\ b_prev (f b) = b_prev b) -> lru bs l -> lru (alter f i bs) l.
Proof.
  intros Hf [Hlen Hall Hl]. split; [by rewrite length_alter|done|].
  revert Hl. apply linked_ext; intros j _; [rewrite nxt_alter|rewrite prv_alter]; case_decide as E; try done;
    subst j; [unfold nxt|unfold prv]; destruct (bs !! i) as [b|]; try done; simpl;
    destruct (Hf b); congruence.
Qed.

(** Pointing the last link of a path to another node. *)
Lemma linked_retarget bs bs' x l y y' p :
  linked bs x l y -> NoDup (x :: l) -> last (x :: l) = Some p ->
  nxt bs' p = Some y' -> prv bs' y' = Some p ->
  (forall i, i ∈ x :: l -> i <> p -> nxt bs' i = nxt bs i) -> (forall i, i ∈ l -> prv bs' i = prv bs i) ->
  linked bs' x l y'.
Proof.
  revert x. induction l as [|z l IH]; intros x Hl Hnd Hlast Hn Hp Hns Hps; [by injection Hlast as ->|].
  destruct Hl as (H1 & H2 & H3). apply NoDup_cons in Hnd as [Hx Hnd].
  rewrite last_cons_cons in Hlast. simpl. split_and!.
  - rewrite Hns; [done|set_solver|]. intros ->. apply Hx. by eapply last_Some_elem_of.
  - rewrite Hps by set_solver. done.
  - apply IH; try done; set_solver.
Qed.

Lemma linked_ends bs x l y :
  linked bs x l y ->
  (exists p, last (x :: l) = Some p /\ nxt bs p = Some y /\ prv bs y = Some p) /\
  (exists n, head (l ++ [y]) = Some n /\ nxt bs x = Some n /\ prv bs n = Some x).
Proof.
  revert x. induction l as [|z l IH]; intros x Hl; simpl in Hl.
  - split; eexists; (split; [reflexivity|tauto]).
  - destruct Hl as (H1 & H2 & H3). destruct (IH _ H3) as [(p & Hp) _]. split.
    + exists p. by rewrite last_cons_cons.
    + by exists z.
Qed.

Lemma unlink_linked bs x l1 b l2 :
  linked bs x (l1 ++ b :: l2) x -> NoDup (x :: l1 ++ b :: l2) ->
  (forall i, i ∈ x :: l1 ++ b :: l2 -> is_Some (bs !! i)) ->
  exists n p, nxt bs b = Some n /\ prv bs b = Some p /\ n ∈ x :: l1 ++ l2 /\ p ∈ x :: l1 ++ l2 /\
    linked (alter (set_next n) p (alter (set_prev p) n bs)) x (l1 ++ l2) x.
Proof.
  intros Hl Hnd Hin. apply linked_app in Hl as [Hl1 Hl2].
  destruct (linked_ends _ _ _ _ Hl1) as [(p & Hlast & Hp1 & Hp2) _].
  destruct (linked_ends _ _ _ _ Hl2) as [_ (n & Hhead & Hn1 & Hn2)].
  assert (p ∈ x :: l1) as Hpin by by eapply last_Some_elem_of.
  assert (n ∈ l2 ++ [x]) as Hnin by (destruct (l2 ++ [x]); simplify_eq/=; set_solver).
  assert (NoDup (x :: l1) /\ (forall i, i ∈ x :: l1 -> i ∉ l2)) as [Hnd1 Hdis].
  { change (x :: l1 ++ b :: l2) with ((x :: l1) ++ (b :: l2)) in Hnd. apply NoDup_app in Hnd as (? & Hd & _).
    split; [done|]. intros i Hi Hi2. apply (Hd i Hi). set_solver. }
  exists n, p. split_and!; [done|done|set_solver|set_solver|].
  set (bs' := alter _ p _).
  assert (forall i, nxt bs' i = if decide (i = p) then Some n else nxt bs i) as HN.
  { intros i. unfold bs'. rewrite nxt_alter. destruct (decide (p = i)) as [->|].
    - rewrite decide_True by done. rewrite list_lookup_alter. destruct (Hin i) as [y Hy]; [set_solver|].
      case_decide; simplify_eq; by rewrite Hy.
    - rewrite decide_False by done. rewrite nxt_alter. case_decide as E; [|done]. subst i. unfold nxt. by destruct (bs !! n). }
  assert (forall i, prv bs' i = if decide (i = n) then Some p else prv bs i) as HP.
  { intros i. unfold bs'. rewrite prv_alter. destruct (decide (p = i)) as [->|].
    - rewrite list_lookup_alter. destruct (Hin i) as [y Hy]; [set_solver|]. unfold prv.
      repeat case_decide; simplify_eq; by rewrite Hy.
    - rewrite prv_alter. destruct (decide (n = i)) as [->|]; [|by rewrite decide_False].
      rewrite decide_True by done. destruct (Hin i) as [y ->]; [set_solver|]. done. }
  assert (linked bs' x l1 n) as Hl1'.
  { eapply (linked_retarget bs bs' x l1 b n p); try done.
    - rewrite HN. by rewrite decide_True.
    - rewrite HP. by rewrite decide_True.
    - intros i _ Hi. rewrite HN. by rewrite decide_False.
    - intros i Hi. rewrite HP, decide_False; [done|]. intros ->.
      apply elem_of_app in Hnin as [Hn| ->%list_elem_of_singleton]; [apply (Hdis n); set_solver|].
      apply NoDup_cons in Hnd1 as [? _]. done. }
  destruct l2 as [|z l2]; simpl in Hhead; injection Hhead as ->; [by rewrite app_nil_r|].
  apply linked_app. split; [done|]. destruct Hl2 as (_ & _ & Hl2). revert Hl2. apply linked_ext.
  - intros i Hi. rewrite HN, decide_False; [done|]. intros ->. by apply (Hdis p).
  - intros i Hi. rewrite HP, decide_False; [done|]. intros ->.
    change (x :: l1 ++ b :: n :: l2) with (x :: l1 ++ (b :: n :: l2)) in Hnd.
    apply NoDup_cons in Hnd as [Hx Hnd]. apply NoDup_app in Hnd as (_ & _ & Hnd).
    apply NoDup_cons in Hnd as [_ Hnd]. apply NoDup_cons in Hnd as [? _]. set_solver.
Qed.

Lemma link_front_linked bs x l b n :
  linked bs x l x -> NoDup (b :: x :: l) -> nxt bs x = Some n -> is_Some (bs !! b) ->
  linked (alter (set_next b) x (alter (set_prev b) n (alter (set_prev x) b (alter (set_next n) b bs)))) x (b :: l) x.
Proof.
  intros Hl Hnd Hn [y Hy]. destruct (linked_ends _ _ _ _ Hl) as [(p & _ & _ & Hpx) (n' & Hhead & Hn' & Hp')].
  assert (n' = n) as -> by congruence. clear Hn'.
  apply NoDup_cons in Hnd as [Hb Hnd]. apply NoDup_cons in Hnd as [Hx Hnd].
  assert (n ∈ x :: l) as Hnin by (destruct l; simplify_eq/=; set_solver).
  set (bs' := alter _ x _).
  assert (b <> n) by set_solver. assert (b <> x) by set_solver.
  assert (exists yn, bs !! n = Some yn) as [yn Hyn] by (unfold prv in Hp'; destruct (bs !! n); eauto; done).
  assert (exists yx, bs !! x = Some yx) as [yx Hyx] by (unfold nxt in Hn; destruct (bs !! x); eauto; done).
  assert (forall i, nxt bs' i = if decide (i = x) then Some b else if decide (i = b) then Some n else nxt bs i) as HN.
  { intros i. unfold bs', nxt. rewrite !list_lookup_alter.
    repeat case_decide; simplify_eq; rewrite ?Hy, ?Hyn, ?Hyx; done. }
  assert (forall i, prv bs' i = if decide (i = n) then Some b else if decide (i = b) then Some x else prv bs i) as HP.
  { intros i. unfold bs', prv. rewrite !list_lookup_alter.
    repeat case_decide; simplify_eq; rewrite ?Hy, ?Hyn, ?Hyx; done. }
  cbn [linked]. rewrite HN, HP, decide_True, (decide_False (P := b = n)), decide_True by done. split_and!; [done|done|].
  destruct l as [|z l]; simpl in Hhead; injection Hhead as ->.
  - simpl. rewrite HN, HP, decide_False, !decide_True by done. done.
  - cbn [linked] in *. rewrite HN, HP, decide_False, !decide_True by done. split_and!; [done|done|].
    destruct Hl as (_ & _ & Hl). revert Hl. apply linked_ext; intros i Hi.
    + rewrite HN, !decide_False by set_solver. done.
    + rewrite HP, !decide_False; [done|set_solver|]. intros ->. apply NoDup_cons in Hnd as [? _]. set_solver.
Qed.

(** ** The searches *)

Lemma bget_cached_done dev blockno s : forall l b n,
  linked (bufs s) b l head_buf -> head_buf ∉ b :: l -> (length l < n)%nat ->
  bget_cached (S n) dev blockno b s =
    Done (find_some (fun i => match bufs s !! i with
      | Some x => if (b_dev x =? dev) && (b_blockno x =? blockno) then Some i else None
      | None => None end) (b :: l)) s.
Proof.
  induction l as [|z l IH]; intros b n Hl Hh Hn; cbn [bget_cached];
    (rewrite bool_decide_false by set_solver); cbn [linked] in Hl; unfold nxt at 1 in Hl;
    (destruct (bufs s !! b) as [x|] eqn:Ex; [|by destruct Hl]);
    unfold bind; rewrite (getb_done b s x Ex); cbn [find_some]; rewrite Ex;
    (destruct ((b_dev x =? dev) && (b_blockno x =? blockno)); [done|]); simpl in Hl.
  - destruct Hl as [[= ->] _]. destruct n as [|n]; [lia|]. cbn [bget_cached]. by rewrite bool_decide_true.
  - destruct Hl as ([= ->] & _ & Hl). destruct n as [|n]; [simpl in Hn; lia|].
    apply IH; [done|set_solver|simpl in Hn; lia].
Qed.

(** Backwards; [l] is in the order of the list, so the search sees its reverse. *)
Lemma bget_unused_done s : forall l b n,
  linked (bufs s) head_buf l b -> head_buf ∉ b :: l -> (length l < n)%nat -> is_Some (bufs s !! b) ->
  bget_unused (S n) b s =
    Done (find_some (fun i => match bufs s !! i with
      | Some x => if b_refcnt x =? 0 then Some i else None
      | None => None end) (b :: reverse l)) s.
Proof.
  induction l as [|z l IH] using rev_ind; intros b n Hl Hh Hn [x Ex]; cbn [bget_unused];
    (rewrite bool_decide_false by set_solver); unfold bind; rewrite (getb_done b s x Ex);
    cbn [find_some]; rewrite Ex; (destruct (b_refcnt x =? 0); [done|]).
  - destruct Hl as [_ Hp]. unfold prv in Hp. rewrite Ex in Hp. injection Hp as ->.
    destruct n as [|n]; [lia|]. cbn [bget_unused]. by rewrite bool_decide_true.
  - rewrite length_app in Hn. simpl in Hn. destruct n as [|n]; [lia|].
    apply linked_app in Hl as [Hl [Hz Hp]]. unfold prv in Hp. rewrite Ex in Hp. injection Hp as ->.
    rewrite reverse_app. apply IH; [done|set_solver|lia|].
    unfold nxt in Hz. destruct (bufs s !! z); [by eexists|done].
Qed.
