(* ===== verification/BufCache.v ===== *)
(** * What the buffer cache promises

    The interface between [kernel/bio.c] and the log: a thread that runs alone in
    the cache sees each block of the device through [view]; [ref] is how often
    the block is in use. [bc_inv L s]: the cache is in order and this thread has
    locked exactly the blocks in [L]. The rules below are what [bread], writing to
    a buffer, [bwrite], [brelse], [bpin] and [bunpin] do in these terms. *)

From S2P Require Import Prelude CString State Spinlock Proc Sleeplock Virtio Bio.

Section cache.
Context `{BlockDev} `{Env} `{Fuel} `{!BlockDevOk} (dev : Z) (me : nat) (pid : Z).

Definition cached (s : kst) (n : Z) (i : nat) (b : buf) : Prop :=
  bufs s !! i = Some b /\ (i < NBUF)%nat /\ b_dev b = dev /\ b_blockno b = n.

Definition lookup_buf (s : kst) (n : Z) : option buf :=
  snd <$> list_find (fun b => b_dev b = dev /\ b_blockno b = n) (take NBUF (bufs s)).

(** The content of block [n] as the file system sees it, and the users of its buffer. *)
Definition view (s : kst) (n : Z) : list Z :=
  match lookup_buf s n with
  | Some b => if b_valid b then b_data b else disk_block s n
  | None => disk_block s n
  end.
Definition ref (s : kst) (n : Z) : Z :=
  match lookup_buf s n with Some b => b_refcnt b | None => 0 end.
Definition nfree (s : kst) : nat := length (filter (fun b => b_refcnt b = 0) (take NBUF (bufs s))).

(** The thread: process [me] with [pid], holding no spin lock; the disk is idle. *)
Record on_cpu (s : kst) : Prop := {
  oc_cur : cur s = Some me;
  oc_proc : exists p, procs s !! me = Some p /\ p_pid p = pid;
  oc_len : length (procs s) = NPROC;
  oc_held : held s = [];
  oc_disk : disk_ready me s }.

(** The state of one buffer. *)
Record buf_ok (L : gset Z) (s : kst) (b : buf) : Prop := {
  bo_range : 0 <= b_refcnt b < 2^32;
  bo_block : 0 <= b_blockno b < 2^31;
  bo_disk : b_disk b = false;
  bo_size : length (b_data b) = Z.to_nat BSIZE;
  bo_clean : b_refcnt b = 0 -> b_valid b = true -> b_dev b = dev -> b_data b = disk_block s (b_blockno b);
  bo_lock : if decide (b_dev b = dev /\ b_blockno b ∈ L)
    then sl_locked (b_lock b) = true /\ sl_pid (b_lock b) = pid /\ b_valid b = true /\ 1 <= b_refcnt b
    else sl_locked (b_lock b) = false }.

Record bc_inv (L : gset Z) (s : kst) : Prop := {
  bi_cpu : on_cpu s;
  bi_disk n : length (disk_block s n) = Z.to_nat BSIZE;
  bi_lru : exists l, lru (bufs s) l;
  bi_uniq n i j b b' : cached s n i b -> cached s n j b' -> i = j;
  bi_buf i b : bufs s !! i = Some b -> (i < NBUF)%nat -> buf_ok L s b;
  bi_have n : n ∈ L -> exists i b, cached s n i b }.

Lemma lookup_buf_Some s n b : lookup_buf s n = Some b -> exists i, cached s n i b.
Proof.
  unfold lookup_buf. intros E. apply fmap_Some in E as ([i b'] & E & ->). simpl.
  apply list_find_Some in E as (Hi & [Hd Hn] & _). apply lookup_take_Some in Hi as [Hi Hlt]. by exists i.
Qed.
Lemma lookup_buf_cached L s n i b : bc_inv L s -> cached s n i b -> lookup_buf s n = Some b.
Proof.
  intros HI Hc. pose proof Hc as (Hi & Hlt & Hd & Hn).
  destruct (lookup_buf s n) as [b'|] eqn:E.
  - pose proof (lookup_buf_Some _ _ _ E) as [j Hj]. pose proof (bi_uniq _ _ HI _ _ _ _ _ Hc Hj) as <-.
    destruct Hj as [Hj _]. congruence.
  - unfold lookup_buf in E. apply fmap_None, list_find_None in E. rewrite Forall_lookup in E.
    destruct (E i b); [|done]. by apply lookup_take_Some.
Qed.
Lemma lookup_buf_None s n : lookup_buf s n = None -> forall i b, ~ cached s n i b.
Proof.
  unfold lookup_buf. intros E i b (Hi & Hlt & Hd & Hn). apply fmap_None, list_find_None in E.
  rewrite Forall_lookup in E. destruct (E i b); [|done]. by apply lookup_take_Some.
Qed.

(** ** Changing one buffer *)

(** Buffer [i] goes from [b] to [b'], which may hold another block if [b] was
    unused; the disk may change at the block of [b']. *)
Record one_buf (s s' : kst) (i : nat) (b b' : buf) : Prop := {
  ob_old : bufs s !! i = Some b;
  ob_lt : (i < NBUF)%nat;
  ob_new : bufs s' = <[i := b']> (bufs s);
  ob_next : b_next b' = b_next b;
  ob_prev : b_prev b' = b_prev b;
  ob_dev : b_dev b' = dev;
  ob_uniq j x : cached s (b_blockno b') j x -> j = i;
  ob_evict : b_dev b = dev /\ b_blockno b = b_blockno b' \/ b_refcnt b = 0;
  ob_disk n : n <> b_blockno b' -> disk_block s' n = disk_block s n }.

Lemma one_buf_cached s s' i b b' n j x :
  one_buf s s' i b b' ->
  cached s' n j x <-> (j = i /\ x = b' /\ n = b_blockno b') \/ (j <> i /\ cached s n j x).
Proof.
  intros O. pose proof (lookup_lt_Some _ _ _ (ob_old _ _ _ _ _ O)). pose proof (ob_lt _ _ _ _ _ O).
  pose proof (ob_dev _ _ _ _ _ O). unfold cached. rewrite (ob_new _ _ _ _ _ O). destruct (decide (j = i)) as [->|].
  - rewrite list_lookup_insert_eq by done. naive_solver.
  - rewrite list_lookup_insert_ne by done. naive_solver.
Qed.

Lemma lookup_buf_upd L s s' i b b' n :
  bc_inv L s -> one_buf s s' i b b' ->
  lookup_buf s' n =
    if decide (n = b_blockno b') then Some b'
    else if decide (b_dev b = dev /\ n = b_blockno b) then None else lookup_buf s n.
Proof.
  intros HI O. pose proof (fun j x => one_buf_cached s s' i b b' n j x O) as Hc.
  destruct (lookup_buf s' n) as [x|] eqn:E.
  - apply lookup_buf_Some in E as [j Hj]. apply Hc in Hj as [(-> & -> & ->)|[Hne Hj]].
    + by rewrite decide_True.
    + rewrite decide_False by (intros ->; apply Hne; by apply (ob_uniq _ _ _ _ _ O j x)).
      rewrite decide_False; [by rewrite (lookup_buf_cached L s n j x)|].
      intros [Hdb ->]. apply Hne. eapply (bi_uniq _ _ HI); [exact Hj|]. split_and!; apply O || done.
  - pose proof (lookup_buf_None _ _ E) as Hno. rewrite decide_False by (intros ->; eapply Hno, Hc; by left).
    case_decide as E2; [done|]. destruct (lookup_buf s n) as [x|] eqn:E3; [|done]. exfalso.
    apply lookup_buf_Some in E3 as [j Hj]. apply (Hno j x), Hc. right. split; [|done].
    intros ->. destruct Hj as (Hj & _ & ? & ?). rewrite (ob_old _ _ _ _ _ O) in Hj. injection Hj as <-. by apply E2.
Qed.

(** A block whose buffer is unused is seen as it is on the disk. *)
Lemma view_unused L s b i n :
  bc_inv L s -> cached s n i b -> b_refcnt b = 0 -> view s n = disk_block s n /\ ref s n = 0.
Proof.
  intros HI Hc Hr. unfold view, ref. rewrite (lookup_buf_cached L s n i b) by done. split; [|done].
  destruct Hc as (Hi & Hlt & Hd & <-). destruct (b_valid b) eqn:Ev; [|done]. by apply (bi_buf _ _ HI i b).
Qed.

Lemma view_upd L s s' i b b' n :
  bc_inv L s -> one_buf s s' i b b' ->
  view s' n = if decide (n = b_blockno b') then if b_valid b' then b_data b' else disk_block s' n else view s n.
Proof.
  intros HI O. unfold view at 1. rewrite (lookup_buf_upd L s s' i b b' n) by done. case_decide as E1; [done|].
  case_decide as E2.
  - destruct E2 as [Hd ->]. destruct (ob_evict _ _ _ _ _ O) as [[_ E]|E]; [done|].
    rewrite (ob_disk _ _ _ _ _ O) by done. symmetry. apply (view_unused L s b i); [done| |done].
    split_and!; apply O || done.
  - unfold view. by rewrite (ob_disk _ _ _ _ _ O).
Qed.
Lemma ref_upd L s s' i b b' n :
  bc_inv L s -> one_buf s s' i b b' ->
  ref s' n = if decide (n = b_blockno b') then b_refcnt b' else ref s n.
Proof.
  intros HI O. unfold ref at 1. rewrite (lookup_buf_upd L s s' i b b' n) by done. case_decide as E1; [done|].
  case_decide as E2; [|done].
  destruct E2 as [Hd ->]. destruct (ob_evict _ _ _ _ _ O) as [[_ E]|E]; [done|].
  symmetry. apply (view_unused L s b i); [done| |done]. split_and!; apply O || done.
Qed.

Definition is0 (z : Z) : nat := if z =? 0 then 1%nat else 0%nat.
Lemma nfree_upd s s' i b b' :
  one_buf s s' i b b' -> (nfree s' + is0 (b_refcnt b) = nfree s + is0 (b_refcnt b'))%nat.
Proof.
  intros O. unfold nfree. rewrite (ob_new _ _ _ _ _ O). pose proof (ob_lt _ _ _ _ _ O) as Hlt.
  assert (take NBUF (bufs s) !! i = Some b) as Hi by (apply lookup_take_Some; split; [apply O|done]).
  rewrite take_insert_lt by done. pose proof (take_drop_middle _ _ _ Hi) as Et.
  rewrite insert_take_drop by by eapply lookup_lt_Some. rewrite <- Et at 3.
  rewrite !filter_app, !length_app, !filter_cons. unfold is0.
  destruct (Z.eqb_spec (b_refcnt b) 0), (Z.eqb_spec (b_refcnt b') 0); repeat case_decide; try done; simpl; lia.
Qed.

(** The invariant after one buffer changed; [n] is the block of [b']. *)
Lemma bc_inv_upd L L' s s' i b b' :
  bc_inv L s -> one_buf s s' i b b' -> on_cpu s' ->
  (forall n, n <> b_blockno b' -> n ∈ L' <-> n ∈ L) ->
  length (disk_block s' (b_blockno b')) = Z.to_nat BSIZE -> buf_ok L' s' b' -> bc_inv L' s'.
Proof.
  intros HI O Hcpu HL Hsz Hok. destruct (O) as [Hi Hlt Hs Hnx Hpv Hd Huniq Hev Hdisk].
  pose proof (lookup_lt_Some _ _ _ Hi) as Hlen.
  split; [done| | | | |].
  - intros n. destruct (decide (n = b_blockno b')) as [->|]; [done|]. rewrite Hdisk by done. apply HI.
  - destruct (bi_lru _ _ HI) as [l Hl]. exists l. rewrite Hs.
    replace (<[i:=b']> (bufs s)) with (alter (fun _ => b') i (bufs s)).
    + split; [by rewrite length_alter; apply Hl|apply Hl|]. generalize (lru_linked _ _ Hl).
      apply linked_ext; intros j _; [rewrite nxt_alter|rewrite prv_alter]; case_decide as E; try done; subst j;
        [unfold nxt|unfold prv]; rewrite Hi; simpl; congruence.
    + exact (alter_as_insert (fun _ => b') i (bufs s) b Hi).
  - intros n j k x y Hj Hk.
    apply (one_buf_cached _ _ _ _ _ _ _ _ O) in Hj as [(-> & -> & ->)|[Hne Hj]],
      Hk as [(-> & _ & ?)|[Hne' Hk]]; try done.
    + by apply Huniq in Hk.
    + subst n. by apply Huniq in Hj.
    + by eapply (bi_uniq _ _ HI).
  - intros j x Hj Hlt'. rewrite Hs in Hj. destruct (decide (j = i)) as [->|Hne].
    + rewrite list_lookup_insert_eq in Hj by done. by injection Hj as <-.
    + rewrite list_lookup_insert_ne in Hj by done. destruct (bi_buf _ _ HI j x Hj Hlt') as [Hr Hbk Hdk Hl Hcl Hlk].
      assert (b_dev x = dev -> b_blockno x <> b_blockno b') as Hbn.
      { intros Hdx E. apply Hne, (Huniq j x). by split_and!. }
      split; [done|done|done|done| |].
      * intros Hr0 Hv0 Hd0. rewrite Hdisk by auto. auto.
      * destruct (decide (b_dev x = dev)) as [Hdx|Hdx].
        -- specialize (HL (b_blockno x) (Hbn Hdx)). repeat case_decide; tauto || done.
        -- rewrite decide_False by tauto. by rewrite decide_False in Hlk by tauto.
  - intros n Hn. destruct (decide (n = b_blockno b')) as [->|Hne].
    + exists i, b'. apply (one_buf_cached _ _ _ _ _ _ _ _ O). by left.
    + apply HL in Hn; [|done]. destruct (bi_have _ _ HI n Hn) as (j & x & Hc).
      exists j, x. apply (one_buf_cached _ _ _ _ _ _ _ _ O). right. split; [|done]. intros ->.
      destruct Hc as (Hj & _ & Hdx & Hbx). assert (x = b) as -> by congruence.
      destruct Hev as [[_ E]|E]; [congruence|]. pose proof (bo_lock _ _ _ (bi_buf _ _ HI i b Hi Hlt)) as Hlk.
      rewrite decide_True in Hlk by (split; congruence). lia.
Qed.

(** The links of the list are invisible. *)
Definition core (b : buf) : buf := set_next 0 (set_prev 0 b).
Lemma core_fields x y : core x = core y ->
  b_valid x = b_valid y /\ b_dev x = b_dev y /\ b_blockno x = b_blockno y /\
  b_lock x = b_lock y /\ b_refcnt x = b_refcnt y /\ b_data x = b_data y /\ b_disk x = b_disk y.
Proof. destruct x, y. unfold core, set_next, set_prev, up_b_next, up_b_prev; simpl. intros [=]. by subst. Qed.
Lemma core_lookup (l l' : list buf) j x :
  core <$> l' = core <$> l -> l' !! j = Some x -> exists y, l !! j = Some y /\ core x = core y.
Proof.
  intros Hcore Hj. assert ((core <$> l') !! j = Some (core x)) as E by by rewrite list_lookup_fmap, Hj.
  rewrite Hcore, list_lookup_fmap in E. destruct (l !! j) as [y|]; [|done].
  exists y. split; [done|]. simpl in E. congruence.
Qed.
Lemma core_nfree l : length (filter (fun b => b_refcnt b = 0) l) = length (filter (fun b => b_refcnt b = 0) (core <$> l)).
Proof.
  induction l as [|b l IH]; [done|]. rewrite fmap_cons, !filter_cons. change (b_refcnt (core b)) with (b_refcnt b).
  case_decide; simpl; congruence.
Qed.

Lemma bc_inv_relink L s s' :
  bc_inv L s -> core <$> bufs s' = core <$> bufs s -> (exists l, lru (bufs s') l) -> on_cpu s' ->
  disk s' = disk s ->
  bc_inv L s' /\ (forall n, view s' n = view s n) /\ (forall n, ref s' n = ref s n) /\ nfree s' = nfree s.
Proof.
  intros HI Hcore Hl Hcpu Hdisk.
  assert (bc_inv L s') as HI'.
  { split; [done| |done| | |].
    - intros n. unfold disk_block. rewrite Hdisk. apply HI.
    - intros n i j b b' (Hi & ? & ? & ?) (Hj & ? & ? & ?).
      destruct (core_lookup _ _ _ _ Hcore Hi) as (x & Hx & (? & ? & ? & ?)%core_fields),
        (core_lookup _ _ _ _ Hcore Hj) as (y & Hy & (? & ? & ? & ?)%core_fields).
      apply (bi_uniq _ _ HI n i j x y); split_and!; congruence.
    - intros i b Hi Hlt. destruct (core_lookup _ _ _ _ Hcore Hi) as (x & Hx & Hcx).
      destruct (core_fields _ _ Hcx) as (E1 & E2 & E3 & E4 & E5 & E6 & E7).
      destruct (bi_buf _ _ HI i x Hx Hlt) as [Hr Hbk Hdk Hsz Hcl Hlk].
      split; [by rewrite E5|by rewrite E3|by rewrite E7|by rewrite E6|unfold disk_block in *; rewrite E5, E1, E2, E6, E3, Hdisk; exact Hcl|].
      by rewrite E2, E3, E4, E1, E5.
    - intros n Hn. destruct (bi_have _ _ HI n Hn) as (i & b & Hi & ? & ? & ?).
      destruct (core_lookup _ _ _ _ (eq_sym Hcore) Hi) as (x & Hx & (? & ? & ? & ?)%core_fields).
      exists i, x. split_and!; congruence. }
  assert (forall n, core <$> lookup_buf s' n = core <$> lookup_buf s n) as Hlk.
  { intros n. destruct (lookup_buf s n) as [b|] eqn:E.
    - apply lookup_buf_Some in E as (i & Hi & Hlt & ? & ?).
      destruct (core_lookup _ _ _ _ (eq_sym Hcore) Hi) as (x & Hx & Hcx).
      destruct (core_fields _ _ Hcx) as (? & ? & ? & ?).
      rewrite (lookup_buf_cached L s' n i x HI') by (split_and!; congruence). simpl. congruence.
    - destruct (lookup_buf s' n) as [x|] eqn:E'; [|done]. apply lookup_buf_Some in E' as (i & Hi & Hlt & ? & ?).
      destruct (core_lookup _ _ _ _ Hcore Hi) as (y & Hy & Hcy). destruct (core_fields _ _ Hcy) as (? & ? & ? & ?).
      exfalso. apply (lookup_buf_None s n E i y). split_and!; congruence. }
  split_and!; [done| | |].
  - intros n. specialize (Hlk n). unfold view, disk_block. rewrite Hdisk.
    destruct (lookup_buf s' n) as [x|], (lookup_buf s n) as [y|]; try done; simpl in Hlk.
    assert (core x = core y) as (E1 & _ & _ & _ & _ & E6 & _)%core_fields by congruence. by rewrite E1, E6.
  - intros n. specialize (Hlk n). unfold ref.
    destruct (lookup_buf s' n) as [x|], (lookup_buf s n) as [y|]; try done; simpl in Hlk.
    assert (core x = core y) as (_ & _ & _ & _ & E5 & _)%core_fields by congruence. by rewrite E5.
  - unfold nfree. by rewrite core_nfree, (core_nfree (take NBUF (bufs s))), !fmap_take, Hcore.
Qed.

(** ** The searches *)

Lemma lru_ends bs l :
  lru bs l -> exists h x y l1 l2, bs !! head_buf = Some h /\ l = x :: l1 /\ l = l2 ++ [y] /\
    b_next h = x /\ b_prev h = y /\ linked bs x l1 head_buf /\ linked bs head_buf l2 y.
Proof.
  intros Hl. destruct (Hl) as [Hlen Hall Hk].
  destruct l as [|x l1]; [by apply Permutation_nil_l in Hall|].
  destruct (exists_last (l := x :: l1)) as (l2 & y & E); [done|].
  assert (linked bs head_buf l2 y /\ prv bs head_buf = Some y) as [Hk2 Hp].
  { rewrite E in Hk. apply linked_app in Hk as [? [_ ?]]. done. }
  destruct Hk as (Hn & _ & Hk). unfold nxt in Hn. unfold prv in Hp.
  destruct (bs !! head_buf) as [h|]; [|done]. injection Hn as Hn. injection Hp as Hp.
  exists h, x, y, l1, l2. split_and!; done.
Qed.

Lemma bget_cached_all s n :
  (exists l, lru (bufs s) l) ->
  exists h r, bufs s !! head_buf = Some h /\ bget_cached (S NBUF) dev n (b_next h) s = Done r s /\
    match r with Some i => exists b, cached s n i b | None => forall i b, ~ cached s n i b end.
Proof.
  intros [l Hl]. destruct (lru_ends _ _ Hl) as (h & x & y & l1 & l2 & Hh & E1 & _ & Hx & _ & Hk & _).
  destruct (lru_NoDup _ _ Hl) as (Hnd & Hnh & Hin). exists h. eexists. split; [done|]. rewrite Hx.
  pose proof (Permutation_length (lru_all _ _ Hl)) as Hlen. rewrite length_seq, E1 in Hlen. simpl in Hlen.
  rewrite (bget_cached_done dev n s l1); [|done|by rewrite <- E1|lia]. split; [reflexivity|].
  rewrite <- E1. match goal with |- context [find_some ?f l] => pose proof (find_some_spec f l) as Hf end.
  destruct (find_some _ l) as [i|].
  - destruct Hf as (l0 & j & l3 & E & Hj & _). destruct (bufs s !! j) as [b|] eqn:Eb; [|done].
    destruct ((b_dev b =? dev) && (b_blockno b =? n)) eqn:Ec; [|done]. injection Hj as <-.
    exists b. split_and!; [done| |lia|lia]. apply Hin. rewrite E. set_solver.
  - intros i b (Hi & Hlt & Hd & Hn). assert (i ∈ l) as Hil by (rewrite (lru_all _ _ Hl); apply elem_of_seq; lia).
    specialize (Hf i Hil). rewrite Hi in Hf.
    destruct ((b_dev b =? dev) && (b_blockno b =? n)) eqn:Ec; [done|lia].
Qed.

Lemma bget_unused_all s :
  (exists l, lru (bufs s) l) -> (0 < nfree s)%nat ->
  exists h i b, bufs s !! head_buf = Some h /\ bget_unused (S NBUF) (b_prev h) s = Done (Some i) s /\
    bufs s !! i = Some b /\ (i < NBUF)%nat /\ b_refcnt b = 0.
Proof.
  intros [l Hl] Hfree. destruct (lru_ends _ _ Hl) as (h & x & y & l1 & l2 & Hh & _ & E2 & _ & Hy & _ & Hk).
  destruct (lru_NoDup _ _ Hl) as (Hnd & Hnh & Hin). exists h. rewrite Hy.
  pose proof (Permutation_length (lru_all _ _ Hl)) as Hlen. rewrite length_seq, E2, length_app in Hlen. simpl in Hlen.
  assert (is_Some (bufs s !! y)) as Hsy.
  { apply lookup_lt_is_Some_2. rewrite (lru_len _ _ Hl). specialize (Hin y). rewrite E2 in Hin.
    assert (y < NBUF)%nat by (apply Hin; set_solver). lia. }
  rewrite (bget_unused_done s l2); [|done|rewrite E2 in Hnh; set_solver|lia|done].
  match goal with |- context [find_some ?f ?m] => pose proof (find_some_spec f m) as Hf end.
  assert (forall i, i ∈ y :: reverse l2 <-> i ∈ l) as Hel by (intros; rewrite E2; set_solver).
  destruct (find_some _ (y :: reverse l2)) as [i|].
  - destruct Hf as (l0 & j & l3 & E & Hj & _). destruct (bufs s !! j) as [b|] eqn:Eb; [|done].
    destruct (Z.eqb_spec (b_refcnt b) 0) as [Ec|]; [|done]. injection Hj as <-.
    exists j, b. split_and!; try done. apply Hin, Hel. rewrite E. set_solver.
  - exfalso. unfold nfree in Hfree. destruct (filter _ _) as [|b f] eqn:Ef; simpl in Hfree; [lia|].
    assert (b ∈ filter (fun b => b_refcnt b = 0) (take NBUF (bufs s))) as Hb by (rewrite Ef; set_solver).
    apply list_elem_of_filter in Hb as [Hr Hb]. apply list_elem_of_lookup in Hb as [i Hi].
    apply lookup_take_Some in Hi as [Hi Hlt].
    assert (i ∈ l) as Hil by (rewrite (lru_all _ _ Hl); apply elem_of_seq; lia).
    specialize (Hf i (proj2 (Hel i) Hil)). rewrite Hi in Hf. by rewrite Hr in Hf.
Qed.

(** ** The operations *)

(** Buffer [j] holds block [m]. *)
Definition at_buf (s : kst) (m : Z) (j : nat) : Prop := exists b, cached s m j b.

(** An operation of the cache that changes the locked blocks from [L] to [L']. *)
Record bc_step (L L' : gset Z) (s s' : kst) : Prop := {
  bs_inv : bc_inv L' s';
  bs_frame : s' = up_bufs (fun _ => bufs s') (up_procs (fun _ => procs s')
        (up_disk (fun _ => disk s') (up_dwrites (fun _ => dwrites s') (up_vdisk (fun _ => vdisk s') s))));
  bs_at m j : m ∈ L -> m ∈ L' -> at_buf s m j -> at_buf s' m j }.

Lemma at_buf_upd L s s' i b b' m j :
  bc_inv L s -> one_buf s s' i b b' -> m ∈ L -> at_buf s m j -> at_buf s' m j.
Proof.
  intros HI O Hm [x Hx]. destruct (decide (j = i)) as [->|Hne].
  - destruct (Hx) as (Hi & Hlt & Hd & Hb). assert (x = b) as -> by (pose proof (ob_old _ _ _ _ _ O); congruence).
    exists b'. apply (one_buf_cached _ _ _ _ _ _ _ _ O). left. split_and!; [done|done|].
    destruct (ob_evict _ _ _ _ _ O) as [[_ E]|E]; [congruence|].
    pose proof (bo_lock _ _ _ (bi_buf _ _ HI i b Hi Hlt)) as Hlk. subst m. rewrite decide_True in Hlk by done. lia.
  - exists x. apply (one_buf_cached _ _ _ _ _ _ _ _ O). by right.
Qed.

Lemma on_cpu_bufs f s : on_cpu s -> on_cpu (up_bufs f s).
Proof. intros [? ? ? ? ?]. split; try done. by eapply disk_ready_ext. Qed.
Lemma on_cpu_vdisk v s : vd_idle v -> on_cpu s -> on_cpu (up_vdisk (fun _ => v) s).
Proof. intros Hv [? ? ? ? []]. by split. Qed.
Lemma on_cpu_ext s s' :
  on_cpu s -> cur s' = cur s -> held s' = held s -> procs s' = procs s -> vdisk s' = vdisk s -> on_cpu s'.
Proof. intros [] Ec Eh Ep Ev. split; rewrite ?Ec, ?Eh, ?Ep; try done. by eapply disk_ready_ext. Qed.

Hypothesis fuel_pos : (0 < fuel)%nat.

(** [bget] of a block with a buffer, and of one without. *)
Definition taken (b : buf) : buf := up_b_lock (fun _ => mk_sleeplock true pid) b.
Lemma acquiresleep_taken s i b :
  on_cpu s -> bufs s !! i = Some b -> sl_locked (b_lock b) = false ->
  acquiresleep (SBuf i) s = Done tt (up_bufs (<[i := taken b]>) s).
Proof.
  intros [Hc (p & Hp & Hpid) _ Hh _] Hi Hl.
  rewrite (acquiresleep_free (SBuf i) me p s (b_lock b)); try done.
  - rewrite Hpid. f_equal. cbn [put_sl]. unfold up_bufs. f_equal. by apply alter_as_insert.
  - rewrite Hh. set_solver.
  - simpl. by rewrite Hi.
Qed.

Lemma bget_found L s n i b :
  bc_inv L s -> cached s n i b -> n ∉ L ->
  bget dev n s = Done i (up_bufs (<[i := taken (up_b_refcnt (fun r => u32 (r + 1)) b)]>) s).
Proof.
  intros HI Hc Hn. destruct (bi_cpu _ _ HI) as [Hcur Hp Hlen Hh Hdr]. unfold bget. unfold bind at 1.
  rewrite acquire_done by (rewrite Hh; set_solver).
  destruct (bget_cached_all (up_held (cons BcacheLock) s) n (bi_lru _ _ HI)) as (h & r & Ehd & Er & Hr).
  unfold bind. rewrite (getb_done head_buf _ h) by done. rewrite Er.
  destruct r as [i'|]; [|exfalso; by apply (Hr i b)]. destruct Hr as [b' Hc'].
  change (cached s n i' b') in Hc'. assert (i' = i) as -> by (by eapply (bi_uniq _ _ HI)).
  destruct (Hc) as (Hi & Hlt & Hd & Hb). rewrite modb_done by by eapply lookup_lt_Some.
  rewrite release_done by (simpl; set_solver).
  rewrite (acquiresleep_taken _ i (up_b_refcnt (fun r => u32 (r + 1)) b)).
  - unfold ret. f_equal. unfold up_bufs, up_held; simpl. rewrite Hh, remove_lock_cons by set_solver.
    f_equal. by rewrite (alter_as_insert _ _ _ b), list_insert_insert_eq by done.
  - apply (on_cpu_ext s); [apply HI|done| |done|done]. simpl. by rewrite Hh, remove_lock_cons by set_solver.
  - simpl. rewrite list_lookup_alter_eq, Hi. done.
  - simpl. pose proof (bo_lock _ _ _ (bi_buf _ _ HI i b Hi Hlt)) as Hlk. by rewrite decide_False in Hlk by naive_solver.
Qed.

Definition renamed (n : Z) (b : buf) : buf :=
  up_b_refcnt (fun _ => 1) (up_b_valid (fun _ => false) (up_b_blockno (fun _ => n) (up_b_dev (fun _ => dev) b))).
Lemma bget_miss L s n :
  bc_inv L s -> (forall i b, ~ cached s n i b) -> (0 < nfree s)%nat ->
  exists i b, bufs s !! i = Some b /\ (i < NBUF)%nat /\ b_refcnt b = 0 /\
    bget dev n s = Done i (up_bufs (<[i := taken (renamed n b)]>) s).
Proof.
  intros HI Hno Hfree. destruct (bi_cpu _ _ HI) as [Hcur Hp Hlen Hh Hdr].
  destruct (bget_cached_all (up_held (cons BcacheLock) s) n (bi_lru _ _ HI)) as (h & r & Ehd & Er & Hr).
  destruct (bget_unused_all (up_held (cons BcacheLock) s) (bi_lru _ _ HI) Hfree) as (h' & i & b & Ehd' & Ei & Hi & Hlt & H0r).
  assert (h' = h) as -> by congruence. exists i, b. split_and!; [done|done|done|].
  unfold bget. unfold bind at 1. rewrite acquire_done by (rewrite Hh; set_solver).
  unfold bind. rewrite (getb_done head_buf _ h) by done. rewrite Er.
  destruct r as [i'|]; [destruct Hr as [b' Hc']; by destruct (Hno i' b')|].
  rewrite (getb_done head_buf _ h) by done. rewrite Ei. rewrite modb_done by by eapply lookup_lt_Some.
  rewrite release_done by (simpl; set_solver).
  rewrite (acquiresleep_taken _ i (renamed n b)).
  - unfold ret. f_equal. unfold up_bufs, up_held; simpl. rewrite Hh, remove_lock_cons by set_solver.
    f_equal. by rewrite (alter_as_insert _ _ _ b), list_insert_insert_eq by done.
  - apply (on_cpu_ext s); [apply HI|done| |done|done]. simpl. by rewrite Hh, remove_lock_cons by set_solver.
  - simpl in *. rewrite list_lookup_alter_eq, Hi. done.
  - simpl. pose proof (bo_lock _ _ _ (bi_buf _ _ HI i b Hi Hlt)) as Hlk. case_decide; [lia|done].
Qed.

(** The rest of [bread]: an invalid buffer is read from the disk. *)
Definition filled (s : kst) (b : buf) : buf :=
  if b_valid b then b else up_b_valid (fun _ => true) (up_b_data (fun _ => disk_block s (b_blockno b)) b).
Lemma bread_fill s n i x :
  on_cpu s -> bget dev n s = Done i (up_bufs (<[i := x]>) s) -> (i < length (bufs s))%nat ->
  b_disk x = false -> 0 <= b_blockno x < 2^31 ->
  exists v, bread dev n s = Done i (up_vdisk (fun _ => v) (up_bufs (<[i := filled s x]>) s)) /\ vd_idle v.
Proof.
  intros Hcpu E Hi Hdk Hbk. unfold bread, bind. rewrite E. set (s1 := up_bufs _ s).
  assert (bufs s1 !! i = Some x) as Hx by (simpl; by apply list_lookup_insert_eq).
  rewrite (getb_done i s1 x Hx). unfold filled. destruct (b_valid x); cbn [negb when].
  { exists (vdisk s). split; [by destruct s|apply Hcpu]. }
  destruct (virtio_disk_rw_done fuel_pos me i x false s1) as (v & Er & Hv); [|done|done|done|].
  { apply (disk_ready_ext me s); [apply Hcpu|done..]. }
  exists v. split; [|done]. rewrite Er. rewrite modb_done by (simpl; by rewrite length_alter, length_insert).
  unfold ret. f_equal. unfold s1, transfer. unfold up_bufs, up_vdisk; simpl. f_equal.
  rewrite (alter_as_insert (up_b_data _) _ _ x) by (by apply list_lookup_insert_eq).
  rewrite list_insert_insert_eq.
  erewrite alter_as_insert by (by apply list_lookup_insert_eq). by rewrite list_insert_insert_eq.
Qed.

Lemma bread_buf L s n :
  bc_inv L s -> n ∉ L -> 0 <= n < 2^31 -> ref s n < 2^32 - 1 -> (ref s n = 0 -> (0 < nfree s)%nat) ->
  exists i b b' v, let s' := up_vdisk (fun _ => v) (up_bufs (<[i := b']>) s) in
    bread dev n s = Done i s' /\ vd_idle v /\ one_buf s s' i b b' /\ b_refcnt b = ref s n /\
    b_blockno b' = n /\ b_disk b' = false /\ b_valid b' = true /\ b_data b' = view s n /\
    b_lock b' = mk_sleeplock true pid /\ b_refcnt b' = ref s n + 1.
Proof.
  intros HI Hn Hnr Hmax Hfree. destruct (lookup_buf s n) as [b|] eqn:E.
  - pose proof (lookup_buf_Some _ _ _ E) as [i Hc]. pose proof (Hc) as (Hi & Hlt & Hd & Hb).
    destruct (bi_buf _ _ HI i b Hi Hlt) as [Hr Hbk Hdk _ _ _].
    assert (ref s n = b_refcnt b) as Eref by (unfold ref; by rewrite E).
    destruct (bread_fill s n i _ (bi_cpu _ _ HI) (bget_found L s n i b HI Hc Hn)) as (v & Er & Hv);
      [by eapply lookup_lt_Some|done|done|].
    eexists i, b, _, v. cbv zeta. split; [exact Er|]. split; [done|].
    unfold filled. change (b_valid (taken _)) with (b_valid b). change (b_blockno (taken _)) with (b_blockno b).
    assert (forall x, b_refcnt x = u32 (b_refcnt b + 1) -> b_refcnt x = ref s n + 1) as Hu.
    { intros x ->. rewrite u32_small; lia. }
    unfold view. rewrite E, Eref in *. subst n.
    destruct (b_valid b) eqn:Ev; (split_and!; [split; try done; [by intros j x ?; eapply (bi_uniq _ _ HI)|by left]
      |done|done|done|done|done|done|by apply Hu]).
  - assert (ref s n = 0) as Eref by (unfold ref; by rewrite E).
    destruct (bget_miss L s n HI (lookup_buf_None _ _ E) (Hfree Eref)) as (i & b & Hi & Hlt & Hr & Eg).
    destruct (bi_buf _ _ HI i b Hi Hlt) as [_ _ Hdk _ _ _].
    destruct (bread_fill s n i _ (bi_cpu _ _ HI) Eg) as (v & Er & Hv); [by eapply lookup_lt_Some|done|done|].
    eexists i, b, _, v. cbv zeta. split; [exact Er|]. split; [done|].
    unfold filled, view. rewrite E, Eref. cbn [taken renamed up_b_lock up_b_refcnt up_b_valid up_b_blockno up_b_dev b_valid].
    split_and!; try done. split; try done; [|by right].
    intros j x Hc. by destruct (lookup_buf_None _ _ E j x).
Qed.

Lemma upd_step L L' s s' i b b' :
  bc_inv L s -> one_buf s s' i b b' -> on_cpu s' ->
  s' = up_bufs (fun _ => bufs s') (up_procs (fun _ => procs s')
    (up_disk (fun _ => disk s') (up_dwrites (fun _ => dwrites s') (up_vdisk (fun _ => vdisk s') s)))) ->
  (forall n, n <> b_blockno b' -> n ∈ L' <-> n ∈ L) ->
  length (disk_block s' (b_blockno b')) = Z.to_nat BSIZE -> buf_ok L' s' b' -> bc_step L L' s s'.
Proof.
  intros HI O Hcpu Hf HL Hsz Hok. split; [by eapply bc_inv_upd|done|]. intros m j Hm _. by eapply at_buf_upd.
Qed.

(** [bread] locks the block and shows its content. *)
Lemma bread_ok L s n :
  bc_inv L s -> n ∉ L -> 0 <= n < 2^31 -> ref s n < 2^32 - 1 -> (ref s n = 0 -> (0 < nfree s)%nat) ->
  exists i b s', bread dev n s = Done i s' /\ bc_step L ({[n]} ∪ L) s s' /\ cached s' n i b /\ b_data b = view s n /\
    disk s' = disk s /\ dwrites s' = dwrites s /\
    (forall m, view s' m = view s m) /\
    (forall m, ref s' m = if decide (m = n) then ref s n + 1 else ref s m) /\
    (nfree s' + is0 (ref s n) = nfree s)%nat.
Proof.
  intros HI Hn Hnr Hmax Hfree.
  destruct (bread_buf L s n HI Hn Hnr Hmax Hfree) as (i & b & b' & v & E & Hvd & O & Hr & Hbn & Hdk & Hv & Hda & Hlk & Hr').
  assert (0 <= ref s n) as Hpos.
  { rewrite <- Hr. apply (bi_buf _ _ HI i b); apply O. }
  assert (length (view s n) = Z.to_nat BSIZE) as Hsz.
  { unfold view. destruct (lookup_buf s n) as [x|] eqn:Ex; [|apply HI]. destruct (b_valid x); [|apply HI].
    apply lookup_buf_Some in Ex as (j & Hj & Hlt & _). by apply (bi_buf _ _ HI j x). }
  exists i, b'. eexists. split; [exact E|]. split_and!.
  - apply (upd_step L _ s _ i b b'); try done; [by apply on_cpu_vdisk, on_cpu_bufs, HI|set_solver|apply HI|].
    split; [lia|by rewrite Hbn|done|by rewrite Hda|lia|]. pose proof (ob_dev _ _ _ _ _ O). rewrite decide_True by set_solver.
    rewrite Hlk, Hr'. split_and!; try done; lia.
  - apply (one_buf_cached _ _ _ _ _ _ _ _ O). by left.
  - done.
  - done.
  - done.
  - intros m. rewrite (view_upd L s _ i b b' m HI O). case_decide; [|done]. rewrite Hv. congruence.
  - intros m. rewrite (ref_upd L s _ i b b' m HI O), Hbn, Hr'. done.
  - pose proof (nfree_upd _ _ _ _ _ O) as Hf. rewrite Hr, Hr' in Hf. unfold is0 in *.
    destruct (Z.eqb_spec (ref s n + 1) 0); lia.
Qed.

(** What the holder of a locked block knows of its buffer. *)
Lemma locked_buf L s n i :
  bc_inv L s -> n ∈ L -> at_buf s n i ->
  exists b, cached s n i b /\ lookup_buf s n = Some b /\ b_valid b = true /\ b_data b = view s n /\ b_refcnt b = ref s n /\
    1 <= ref s n < 2^32 /\ sl_locked (b_lock b) = true /\ sl_pid (b_lock b) = pid /\
    length (b_data b) = Z.to_nat BSIZE /\ 0 <= n < 2^31 /\ b_disk b = false.
Proof.
  intros HI Hn [b Hc]. exists b. pose proof (lookup_buf_cached L s n i b HI Hc) as E.
  destruct (Hc) as (Hi & Hlt & Hd & Hb). destruct (bi_buf _ _ HI i b Hi Hlt) as [Hr Hbk Hdk Hsz _ Hlk].
  rewrite decide_True in Hlk by (split; congruence). destruct Hlk as (Hl & Hp & Hv & Hr1).
  unfold view, ref. rewrite E, Hv. split_and!; try done; lia || (subst n; lia).
Qed.

(** A change to the data of a locked block. *)
Lemma setdata_ok L s n i d :
  bc_inv L s -> n ∈ L -> at_buf s n i -> length d = Z.to_nat BSIZE ->
  exists s', modb i (up_b_data (fun _ => d)) s = Done tt s' /\ bc_step L L s s' /\
    disk s' = disk s /\ dwrites s' = dwrites s /\
    (forall m, view s' m = if decide (m = n) then d else view s m) /\ (forall m, ref s' m = ref s m) /\ nfree s' = nfree s.
Proof.
  intros HI Hn Ha Hd. destruct (locked_buf L s n i HI Hn Ha) as (b & Hc & E & Hv & Hda & Hr & Hr1 & Hl & Hp & Hsz & Hnr & Hdk).
  destruct (Hc) as (Hi & Hlt & Hdev & Hbn).
  assert (one_buf s (up_bufs (<[i := up_b_data (fun _ => d) b]>) s) i b (up_b_data (fun _ => d) b)) as O.
  { split; try done; [|by left]. intros j x Hx. simpl in Hx. rewrite Hbn in Hx. by eapply (bi_uniq _ _ HI). }
  rewrite modb_done by by eapply lookup_lt_Some. eexists. split; [reflexivity|].
  replace (up_bufs (alter _ i) s) with (up_bufs (<[i := up_b_data (fun _ => d) b]>) s)
    by (unfold up_bufs; f_equal; symmetry; by apply alter_as_insert).
  split_and!; [|done|done| | |].
  - apply (upd_step L L s _ i b _ HI O); try done; [by apply on_cpu_bufs, HI|apply HI|].
    split; cbn [b_refcnt b_data b_valid b_dev b_blockno b_lock up_b_data]; [lia|by rewrite Hbn|done|done|lia|].
    rewrite decide_True by (split; congruence). split_and!; try done. lia.
  - intros m. rewrite (view_upd L s _ i b _ m HI O). simpl. rewrite Hbn, Hv. done.
  - intros m. rewrite (ref_upd L s _ i b _ m HI O). simpl. rewrite Hbn, Hr. case_decide; congruence.
  - pose proof (nfree_upd _ _ _ _ _ O) as Hf. simpl in Hf. lia.
Qed.

Lemma holdingsleep_mine s i b :
  on_cpu s -> bufs s !! i = Some b -> sl_locked (b_lock b) = true -> sl_pid (b_lock b) = pid ->
  holdingsleep (SBuf i) s = Done true s.
Proof.
  intros [Hc (p & Hp & Hpid) _ Hh _] Hi Hl Hpd.
  rewrite (holdingsleep_done (SBuf i) me p s (b_lock b)); try done.
  - by rewrite Hl, Hpd, Hpid, Z.eqb_refl.
  - rewrite Hh. set_solver.
  - simpl. by rewrite Hi.
Qed.

(** [bwrite] puts a locked block on the disk. *)
Lemma bwrite_ok L s n i :
  bc_inv L s -> n ∈ L -> at_buf s n i ->
  exists s', bwrite i s = Done tt s' /\ bc_step L L s s' /\
    disk s' = <[n := view s n]> (disk s) /\ dwrites s' = (n, view s n) :: dwrites s /\
    (forall m, view s' m = view s m) /\ (forall m, ref s' m = ref s m) /\ nfree s' = nfree s.
Proof.
  intros HI Hn Ha. destruct (locked_buf L s n i HI Hn Ha) as (b & Hc & E & Hv & Hda & Hr & Hr1 & Hl & Hp & Hsz & Hnr & Hdk).
  destruct (Hc) as (Hi & Hlt & Hdev & Hbn).
  unfold bwrite, bind. rewrite (holdingsleep_mine s i b) by (apply HI || done). cbn [negb].
  destruct (virtio_disk_rw_done fuel_pos me i b true s) as (v & Er & Hvd); [apply HI|done|done|by rewrite Hbn|].
  rewrite Er. eexists. split; [reflexivity|]. unfold transfer. rewrite Hbn, Hda. set (s' := up_vdisk _ _).
  assert (forall m, disk_block s' m = if decide (m = n) then view s n else disk_block s m) as Hdb.
  { intros m. unfold disk_block, s'; simpl. rewrite lookup_insert. repeat case_decide; congruence || done. }
  assert (one_buf s s' i b b) as O.
  { split; try done; [by rewrite list_insert_id| |by left|].
    - intros j x Hx. rewrite Hbn in Hx. by eapply (bi_uniq _ _ HI).
    - intros m Hm. rewrite Hdb, decide_False by congruence. done. }
  split_and!; [|done|done| | |done].
  - apply (upd_step L L s s' i b b HI O); try done.
    + apply on_cpu_vdisk; [done|]. apply (on_cpu_ext s); [apply HI|done..].
    + rewrite Hbn, Hdb, decide_True by done. by rewrite <- Hda.
    + destruct (bi_buf _ _ HI i b Hi Hlt) as [? ? ? ? _ ?]. split; try done. lia.
  - intros m. rewrite (view_upd L s s' i b b m HI O), Hv, Hda, Hbn. case_decide; congruence.
  - intros m. rewrite (ref_upd L s s' i b b m HI O), Hr, Hbn. case_decide; congruence.
Qed.

(** [bpin] and [bunpin] change the number of users of a locked block. *)
Lemma pin_ok L s n i (f : Z -> Z) :
  bc_inv L s -> n ∈ L -> at_buf s n i -> 1 <= f (ref s n) < 2^32 ->
  exists s', (acquire BcacheLock ;;; modb i (up_b_refcnt f) ;;; release BcacheLock) s = Done tt s' /\ bc_step L L s s' /\
    disk s' = disk s /\ dwrites s' = dwrites s /\
    (forall m, view s' m = view s m) /\
    (forall m, ref s' m = if decide (m = n) then f (ref s n) else ref s m) /\ nfree s' = nfree s.
Proof.
  intros HI Hn Ha Hf. destruct (locked_buf L s n i HI Hn Ha) as (b & Hc & E & Hv & Hda & Hr & Hr1 & Hl & Hp & Hsz & Hnr & Hdk).
  destruct (Hc) as (Hi & Hlt & Hdev & Hbn). pose proof (oc_held _ (bi_cpu _ _ HI)) as Hh.
  unfold bind. rewrite acquire_done by (rewrite Hh; set_solver). rewrite modb_done by by eapply lookup_lt_Some.
  rewrite release_done by (simpl; set_solver). eexists. split; [reflexivity|].
  assert (one_buf s (up_bufs (<[i := up_b_refcnt f b]>) s) i b (up_b_refcnt f b)) as O.
  { split; try done; [|by left]. intros j x Hx. simpl in Hx. rewrite Hbn in Hx. by eapply (bi_uniq _ _ HI). }
  replace (up_held (remove_lock BcacheLock) (up_bufs (alter _ i) (up_held (cons BcacheLock) s)))
    with (up_bufs (<[i := up_b_refcnt f b]>) s).
  2:{ unfold up_held, up_bufs; simpl. rewrite remove_lock_cons by (rewrite Hh; set_solver).
      f_equal. symmetry. by apply alter_as_insert. }
  split_and!; [|done|done| | |].
  - apply (upd_step L L s _ i b _ HI O); try done; [by apply on_cpu_bufs, HI|apply HI|].
    split; cbn [b_refcnt b_data b_valid b_dev b_blockno b_lock up_b_refcnt]; rewrite ?Hr; [lia|by rewrite Hbn|done|done|lia|].
    rewrite decide_True by (split; congruence). split_and!; try done. lia.
  - intros m. rewrite (view_upd L s _ i b _ m HI O). simpl. rewrite Hbn, Hv. case_decide; congruence.
  - intros m. rewrite (ref_upd L s _ i b _ m HI O). simpl. rewrite Hbn, Hr. done.
  - pose proof (nfree_upd _ _ _ _ _ O) as Hfr. simpl in Hfr. rewrite Hr in Hfr. unfold is0 in Hfr.
    destruct (Z.eqb_spec (ref s n) 0), (Z.eqb_spec (f (ref s n)) 0); lia.
Qed.
Lemma bpin_ok L s n i :
  bc_inv L s -> n ∈ L -> at_buf s n i -> ref s n < 2^32 - 1 ->
  exists s', bpin i s = Done tt s' /\ bc_step L L s s' /\
    disk s' = disk s /\ dwrites s' = dwrites s /\ (forall m, view s' m = view s m) /\
    (forall m, ref s' m = if decide (m = n) then ref s n + 1 else ref s m) /\ nfree s' = nfree s.
Proof.
  intros HI Hn Ha Hr. destruct (locked_buf L s n i HI Hn Ha) as (b & _ & _ & _ & _ & _ & Hr1 & _).
  assert (u32 (ref s n + 1) = ref s n + 1) as Eu by (apply u32_small; lia).
  destruct (pin_ok L s n i (fun r => u32 (r + 1)) HI Hn Ha) as (s' & E & ? & ? & ? & ? & Href & ?); [lia|].
  exists s'. rewrite Eu in Href. done.
Qed.
Lemma bunpin_ok L s n i :
  bc_inv L s -> n ∈ L -> at_buf s n i -> 2 <= ref s n ->
  exists s', bunpin i s = Done tt s' /\ bc_step L L s s' /\
    disk s' = disk s /\ dwrites s' = dwrites s /\ (forall m, view s' m = view s m) /\
    (forall m, ref s' m = if decide (m = n) then ref s n - 1 else ref s m) /\ nfree s' = nfree s.
Proof.
  intros HI Hn Ha Hr. destruct (locked_buf L s n i HI Hn Ha) as (b & _ & _ & _ & _ & _ & Hr1 & _).
  assert (u32 (ref s n - 1) = ref s n - 1) as Eu by (apply u32_small; lia).
  destruct (pin_ok L s n i (fun r => u32 (r - 1)) HI Hn Ha) as (s' & E & ? & ? & ? & ? & Href & ?); [lia|].
  exists s'. rewrite Eu in Href. done.
Qed.

Lemma up_held_id f s : f (held s) = held s -> up_held f s = s.
Proof. destruct s; unfold up_held; simpl. by intros ->. Qed.

(** The links after a buffer was moved to the front. *)
Definition move_front (i : nat) (x : buf) : M kst unit :=
  modb (b_next x) (set_prev (b_prev x)) ;;;
  let! x := getb i in
  modb (b_prev x) (set_next (b_next x)) ;;;
  link_front i.

Lemma core_alter_link f (i : nat) (bs : list buf) : (forall b, core (f b) = core b) -> core <$> alter f i bs = core <$> bs.
Proof.
  intros Hf. apply list_eq. intros j. rewrite !list_lookup_fmap, list_lookup_alter. case_decide; [subst|done].
  destruct (bs !! j); simpl; by rewrite ?Hf.
Qed.

Lemma link_front_done s i l :
  linked (bufs s) head_buf l head_buf -> NoDup (i :: head_buf :: l) -> is_Some (bufs s !! i) ->
  exists bs, link_front i s = Done tt (up_bufs (fun _ => bs) s) /\ length bs = length (bufs s) /\
    core <$> bs = core <$> bufs s /\ linked bs head_buf (i :: l) head_buf.
Proof.
  intros Hl Hnd Hi. destruct (linked_ends _ _ _ _ Hl) as [_ (n & _ & Hn & Hpn)].
  assert (exists h, bufs s !! head_buf = Some h /\ b_next h = n) as (h & Hh & En).
  { unfold nxt in Hn. destruct (bufs s !! head_buf) as [h|]; [|done]. exists h. split; [done|]. by injection Hn. }
  assert (is_Some (bufs s !! n)) as Hsn by (unfold prv in Hpn; destruct (bufs s !! n); [eauto|done]).
  apply lookup_lt_is_Some in Hsn. pose proof Hi as Hii. apply lookup_lt_is_Some in Hii.
  pose proof (lookup_lt_Some _ _ _ Hh) as Hhl.
  assert (i <> head_buf) as Hne by (apply NoDup_cons in Hnd as [? _]; set_solver).
  exists (alter (set_next i) head_buf (alter (set_prev i) n (alter (set_prev head_buf) i (alter (set_next n) i (bufs s))))).
  split_and!.
  - unfold link_front. unfold bind. rewrite (getb_done _ _ h Hh), En. rewrite modb_done by done.
    rewrite modb_done by (simpl; by rewrite length_alter).
    rewrite (getb_done _ _ h) by (simpl; by rewrite !list_lookup_alter_ne). rewrite En.
    rewrite modb_done by (simpl; by rewrite !length_alter). by rewrite modb_done by (simpl; by rewrite !length_alter).
  - by rewrite !length_alter.
  - by rewrite !core_alter_link.
  - by apply link_front_linked.
Qed.

Lemma move_front_done s i x :
  (exists l, lru (bufs s) l) -> bufs s !! i = Some x -> (i < NBUF)%nat ->
  exists bs, move_front i x s = Done tt (up_bufs (fun _ => bs) s) /\
    core <$> bs = core <$> bufs s /\ exists l, lru bs l /\ head l = Some i.
Proof.
  intros [l Hl] Hi Hlt. destruct (lru_NoDup _ _ Hl) as (Hnd & Hnh & Hin).
  assert (i ∈ l) as Hil by (rewrite (lru_all _ _ Hl); apply elem_of_seq; lia).
  apply list_elem_of_split in Hil as (l1 & l2 & ->).
  assert (NoDup (head_buf :: l1 ++ i :: l2)) as Hnd' by by apply NoDup_cons.
  assert (NoDup (i :: head_buf :: l1 ++ l2)) as Hnd2.
  { rewrite app_comm_cons, <- Permutation_middle in Hnd'. done. }
  destruct (unlink_linked (bufs s) head_buf l1 i l2) as (n & p & Hn & Hp & Hnin & Hpin & Hk); [apply Hl|done| |].
  { intros j Hj. apply lookup_lt_is_Some. rewrite (lru_len _ _ Hl).
    apply elem_of_cons in Hj as [->|Hj]; [unfold head_buf; lia|]. apply Hin in Hj. lia. }
  unfold nxt in Hn. unfold prv in Hp. rewrite Hi in Hn, Hp. injection Hn as Hn. injection Hp as Hp.
  assert (forall j, j ∈ head_buf :: l1 ++ l2 -> j <> i /\ (j < length (bufs s))%nat) as Hj.
  { intros j Hj. apply NoDup_cons in Hnd2 as [Hni _]. split; [set_solver|]. rewrite (lru_len _ _ Hl).
    apply elem_of_cons in Hj as [->|Hj]; [unfold head_buf; lia|].
    assert (j < NBUF)%nat by (apply Hin; set_solver). lia. }
  destruct (Hj n Hnin) as [Hni Hnl], (Hj p Hpin) as [Hpi Hpl].
  set (s1 := up_bufs (fun _ => alter (set_next n) p (alter (set_prev p) n (bufs s))) s).
  destruct (link_front_done s1 i (l1 ++ l2)) as (bs & E & Hlen & Hcore & Hk'); [done|done| |].
  { simpl. rewrite !list_lookup_alter_ne by done. by eexists. }
  exists bs. split_and!.
  - unfold move_front. unfold bind. rewrite Hn, Hp. rewrite modb_done by done.
    rewrite (getb_done _ _ x) by (simpl; by rewrite list_lookup_alter_ne).
    rewrite Hn, Hp, modb_done by (simpl; by rewrite length_alter).
    change (link_front i s1 = Done tt (up_bufs (fun _ => bs) s)). by rewrite E.
  - rewrite Hcore. simpl. by rewrite !core_alter_link.
  - exists (i :: l1 ++ l2). split; [|done]. split; [|by rewrite <- (lru_all _ _ Hl), Permutation_middle|done].
    rewrite Hlen. simpl. rewrite !length_alter. apply Hl.
Qed.

(** The last user's [brelse] moves the buffer to the front of the list. *)
Definition freed (b : buf) : buf :=
  up_b_refcnt (fun r => u32 (r - 1)) (up_b_lock (fun _ => mk_sleeplock false 0) b).
Lemma brelse_run s i b :
  on_cpu s -> (exists l, lru (bufs s) l) -> bufs s !! i = Some b -> (i < NBUF)%nat ->
  sl_locked (b_lock b) = true -> sl_pid (b_lock b) = pid ->
  exists bs, brelse i s = Done tt (up_bufs (fun _ => bs) (up_procs (imap (wake (ChanBufLk i) (Some me))) s)) /\
    core <$> bs = core <$> <[i := freed b]> (bufs s) /\ exists l, lru bs l.
Proof.
  intros Hcpu [l Hl] Hi Hlt Hlk Hpid. destruct (Hcpu) as [Hc _ Hlen Hh _].
  unfold brelse. unfold bind at 1. rewrite (holdingsleep_mine s i b) by done. cbn [negb].
  unfold bind at 1. rewrite (releasesleep_done (SBuf i) s (b_lock b)); [|by intros j; rewrite Hh; set_solver|done
    |rewrite Hh; set_solver|by simpl; rewrite Hi].
  unfold bind at 1. rewrite acquire_done by (simpl; rewrite Hh; set_solver).
  unfold bind at 1. rewrite modb_done by (simpl; rewrite length_alter; by eapply lookup_lt_Some).
  rewrite Hc. cbn [put_sl sl_chan].
  set (f := up_procs (imap (wake (ChanBufLk i) (Some me)))). set (s1 := up_bufs (alter _ i) _).
  assert (bufs s1 = <[i := freed b]> (bufs s)) as Eb.
  { simpl. rewrite (alter_as_insert (up_b_lock _) _ _ b) by done.
    erewrite alter_as_insert by (apply list_lookup_insert_eq; by eapply lookup_lt_Some).
    by rewrite list_insert_insert_eq. }
  assert (bufs s1 !! i = Some (freed b)) as Ei by (rewrite Eb; apply list_lookup_insert_eq; by eapply lookup_lt_Some).
  assert (exists l, lru (bufs s1) l) as Hl1 by (exists l; simpl; by repeat apply lru_alter).
  assert (forall bs, up_held (remove_lock BcacheLock) (up_bufs (fun _ => bs) s1) = up_bufs (fun _ => bs) (f s)) as Eend.
  { intros bs. apply (up_held_id (fun h => remove_lock BcacheLock (BcacheLock :: h)) (up_bufs (fun _ => bs) (f s))).
    simpl. by rewrite Hh. }
  unfold bind at 1. rewrite (getb_done i s1 (freed b) Ei).
  destruct (b_refcnt (freed b) =? 0); cbn [when].
  - destruct (move_front_done s1 i (freed b) Hl1 Ei Hlt) as (bs & E & Hcore & l' & Hl' & _).
    exists bs. split_and!; [|by rewrite Hcore, Eb|by exists l'].
    unfold bind at 1. change (match move_front i (freed b) s1 with Done _ s' => release BcacheLock s' | Panic m s' => Panic m s'
      | Blocked s' => Blocked s' | Undef => Undef | NoFuel => NoFuel end = Done tt (up_bufs (fun _ => bs) (f s))).
    rewrite E, release_done by (simpl; set_solver). f_equal. apply Eend.
  - exists (bufs s1). split_and!; [|by rewrite Eb|done].
    unfold bind, ret. rewrite release_done by (simpl; set_solver). f_equal. rewrite <- Eend. by destruct s1.
Qed.

Lemma brelse_ok L s n i :
  bc_inv L s -> n ∈ L -> at_buf s n i -> (ref s n = 1 -> view s n = disk_block s n) ->
  exists s', brelse i s = Done tt s' /\ bc_step L (L ∖ {[n]}) s s' /\
    disk s' = disk s /\ dwrites s' = dwrites s /\ (forall m, view s' m = view s m) /\
    (forall m, ref s' m = if decide (m = n) then ref s n - 1 else ref s m) /\
    (nfree s' = nfree s + is0 (ref s n - 1))%nat.
Proof.
  intros HI Hn Ha Hclean. destruct (locked_buf L s n i HI Hn Ha) as (b & Hc & E & Hv & Hda & Hr & Hr1 & Hl & Hp & Hsz & Hnr & Hdk).
  destruct (Hc) as (Hi & Hlt & Hdev & Hbn).
  destruct (brelse_run s i b (bi_cpu _ _ HI) (bi_lru _ _ HI) Hi Hlt Hl Hp) as (bs & Er & Hcore & Hlru).
  set (s1 := up_bufs (<[i := freed b]>) (up_procs (imap (wake (ChanBufLk i) (Some me))) s)).
  assert (b_refcnt (freed b) = ref s n - 1) as Hrf by (simpl; rewrite Hr, u32_small; lia).
  assert (on_cpu s1) as Hcpu1.
  { destruct (bi_cpu _ _ HI) as [Hcur (p & Hpr & Hpid) Hlen Hh Hdr]. split; try done; simpl; [|by rewrite length_imap|].
    2:{ apply (disk_ready_ext me _ _ (disk_ready_wake me (ChanBufLk i) s Hdr)); done. }
    rewrite list_lookup_imap, Hpr. simpl. eexists. split; [done|]. unfold wake. by rewrite bool_decide_false by naive_solver. }
  assert (one_buf s s1 i b (freed b)) as O.
  { split; try done; [|by left]. intros j x Hx. simpl in Hx. rewrite Hbn in Hx. by eapply (bi_uniq _ _ HI). }
  assert (bc_step L (L ∖ {[n]}) s s1) as [HI1 _ Hat].
  { apply (upd_step L _ s s1 i b _ HI O); try done; [simpl; set_solver|apply HI|].
    split; [lia|by simpl; rewrite Hbn|done|by simpl| |].
    - intros H0r _ _. change (b_data b = disk_block s (b_blockno b)). rewrite Hda, Hbn. apply Hclean. lia.
    - rewrite decide_False by (simpl; set_solver). done. }
  destruct (bc_inv_relink (L ∖ {[n]}) s1 (up_bufs (fun _ => bs) s1) HI1 Hcore Hlru) as (HI2 & Hview & Href & Hnf);
    [by apply on_cpu_bufs|done|].
  eexists. split; [exact Er|]. split_and!; [|done|done| | |].
  - split; [done|done|]. intros m j Hm Hm' Hmj. destruct (Hat m j Hm Hm' Hmj) as [y (Hy & ? & ? & ?)].
    destruct (core_lookup _ _ _ _ (eq_sym Hcore) Hy) as (z & Hz & (? & ? & ? & _)%core_fields).
    exists z. split_and!; simpl; congruence.
  - intros m. etrans; [apply Hview|]. rewrite (view_upd L s s1 i b _ m HI O). simpl. rewrite Hbn, Hv.
    case_decide; congruence.
  - intros m. etrans; [apply Href|]. rewrite (ref_upd L s s1 i b _ m HI O), Hrf. simpl. by rewrite Hbn.
  - etrans; [apply Hnf|]. pose proof (nfree_upd _ _ _ _ _ O) as Hfr. rewrite Hrf, Hr in Hfr. unfold is0 in *.
    destruct (Z.eqb_spec (ref s n) 0); lia.
Qed.
End cache.
