(* ===== verification/Log.v ===== *)
(** * The log

    [kernel/log.c]. The block numbers of the in-memory header are the list
    [lh_block], whose length is [log.lh.n]. *)

From S2P Require Import Prelude Bytes State Spinlock Proc Sleeplock Virtio Bio.

Definition up_log (f : logst -> logst) : M kst unit := modify (up_klog f).

(** The header block as [struct logheader]: [n], then the block numbers. *)
Fixpoint put_words (off : Z) (ws : list Z) (d : list Z) : list Z :=
  match ws with
  | [] => d
  | w :: ws' => put_words (off + 4) ws' (put32 off w d)
  end.
Definition hdr_put (bl : list Z) (d : list Z) : list Z := put_words 4 bl (put32 0 (Z.of_nat (length bl)) d).
Definition hdr_n (d : list Z) : Z := i32 (get32 0 d).
Definition hdr_blocks (d : list Z) : list Z :=
  (fun i => i32 (get32 (4 + 4 * Z.of_nat i) d)) <$> seq 0 (Z.to_nat (hdr_n d)).

(** [memmove(dst->data, src->data, BSIZE)] *)
Definition copy_block (dst src : nat) : M kst unit :=
  let! x := getb src in modb dst (up_b_data (splice 0 (sub 0 BSIZE (b_data x)))).

Section log.
Context `{BlockDev} `{Env} `{Fuel}.

(** One turn of the loop of [install_trans]. *)
Definition install_one (recovering : bool) (tail : nat) : M kst unit :=
  let! lg := gets klog in
  let! lbuf := bread (lg_dev lg) (u32 (lg_start lg + Z.of_nat tail + 1)) in
  let! lg := gets klog in
  let! blk := must (lh_block lg !! tail) in
  let! dbuf := bread (lg_dev lg) (u32 blk) in
  copy_block dbuf lbuf ;;;
  bwrite dbuf ;;;
  when (negb recovering) (bunpin dbuf) ;;;
  brelse lbuf ;;;
  brelse dbuf.
Definition install_trans (recovering : bool) : M kst unit :=
  let! lg := gets klog in
  for_each (seq 0 (length (lh_block lg))) (install_one recovering).

(** A count above [LOGSIZE] would run past the end of [log.lh.block]. *)
Definition read_head : M kst unit :=
  let! lg := gets klog in
  let! b := bread (lg_dev lg) (u32 (lg_start lg)) in
  let! x := getb b in
  if LOGSIZE <? hdr_n (b_data x) then undef
  else
    up_log (up_lh_block (fun _ => hdr_blocks (b_data x))) ;;;
    brelse b.

Definition write_head : M kst unit :=
  let! lg := gets klog in
  let! b := bread (lg_dev lg) (u32 (lg_start lg)) in
  let! lg := gets klog in
  modb b (up_b_data (hdr_put (lh_block lg))) ;;;
  bwrite b ;;;
  brelse b.

Definition recover_from_log : M kst unit :=
  read_head ;;;
  install_trans true ;;;
  up_log (up_lh_block (fun _ => [])) ;;;
  write_head.

(** sizeof(struct logheader) is 4 + 4 * LOGSIZE. *)
Definition initlog (dev : Z) (b : superblock) : M kst unit :=
  if BSIZE <=? 4 + 4 * LOGSIZE then panic "initlog: too big logheader"
  else
    up_log (fun lg => up_lg_dev (fun _ => dev) (up_lg_size (fun _ => i32 (sb_nlog b))
      (up_lg_start (fun _ => i32 (sb_logstart b)) lg))) ;;;
    recover_from_log.

(** [outstanding] is an [int]; the second test keeps it at [LOGSIZE / MAXOPBLOCKS] or below. *)
Fixpoint begin_op_loop (n : nat) : M kst unit :=
  match n with
  | O => nofuel
  | S n' =>
      let! lg := gets klog in
      if lg_committing lg then sleep ChanLog LogLock ;;; begin_op_loop n'
      else if LOGSIZE <? Z.of_nat (length (lh_block lg)) + (lg_outstanding lg + 1) * MAXOPBLOCKS
        then sleep ChanLog LogLock ;;; begin_op_loop n'
      else up_log (up_lg_outstanding (fun o => o + 1)) ;;; release LogLock
  end.
Definition begin_op : M kst unit := acquire LogLock ;;; begin_op_loop fuel.

(** One turn of the loop of [write_log]. *)
Definition write_log_one (tail : nat) : M kst unit :=
  let! lg := gets klog in
  let! to := bread (lg_dev lg) (u32 (lg_start lg + Z.of_nat tail + 1)) in
  let! lg := gets klog in
  let! blk := must (lh_block lg !! tail) in
  let! from := bread (lg_dev lg) (u32 blk) in
  copy_block to from ;;;
  bwrite to ;;;
  brelse from ;;;
  brelse to.
Definition write_log : M kst unit :=
  let! lg := gets klog in
  for_each (seq 0 (length (lh_block lg))) write_log_one.

Definition commit : M kst unit :=
  let! lg := gets klog in
  when (0 <? Z.of_nat (length (lh_block lg))) (
    write_log ;;;
    write_head ;;;
    install_trans false ;;;
    up_log (up_lh_block (fun _ => [])) ;;;
    write_head).

Definition end_op : M kst unit :=
  acquire LogLock ;;;
  up_log (up_lg_outstanding (fun o => o - 1)) ;;;
  let! lg := gets klog in
  if lg_committing lg then panic "log.committing"
  else
    let! do_commit :=
      (if lg_outstanding lg =? 0 then up_log (up_lg_committing (fun _ => true)) ;;; ret true
       else wakeup ChanLog ;;; ret false) in
    release LogLock ;;;
    when do_commit (
      commit ;;;
      acquire LogLock ;;;
      up_log (up_lg_committing (fun _ => false)) ;;;
      wakeup ChanLog ;;;
      release LogLock).

Definition log_write (b : nat) : M kst unit :=
  acquire LogLock ;;;
  let! lg := gets klog in
  let n := Z.of_nat (length (lh_block lg)) in
  if (LOGSIZE <=? n) || (lg_size lg - 1 <=? n) then panic "too big a transaction"
  else if lg_outstanding lg <? 1 then panic "log_write outside of trans"
  else
    let! x := getb b in
    match list_find (fun h => u32 h = b_blockno x) (lh_block lg) with
    | Some (i, _) => up_log (up_lh_block (<[i := i32 (b_blockno x)]>)) ;;; release LogLock
    | None =>
        bpin b ;;;
        up_log (up_lh_block (fun l => l ++ [i32 (b_blockno x)])) ;;;
        release LogLock
    end.
End log.

(** ** The header *)

Lemma put_words_length ws : forall off d,
  0 <= off -> off + 4 * Z.of_nat (length ws) <= Z.of_nat (length d) -> length (put_words off ws d) = length d.
Proof.
  induction ws as [|w ws IH]; intros off d Ho Hl; simpl in *; [done|].
  rewrite IH, length_put32; rewrite ?length_put32; lia.
Qed.
Lemma put_words_before ws : forall off d o,
  0 <= o -> o + 4 <= off -> off + 4 * Z.of_nat (length ws) <= Z.of_nat (length d) ->
  get32 o (put_words off ws d) = get32 o d.
Proof.
  induction ws as [|w ws IH]; intros off d o Ho Hlt Hl; simpl in *; [done|].
  rewrite IH, get32_put32_ne; rewrite ?length_put32; lia || done.
Qed.
Lemma put_words_get ws : forall off d i w,
  0 <= off -> off + 4 * Z.of_nat (length ws) <= Z.of_nat (length d) -> ws !! i = Some w ->
  get32 (off + 4 * Z.of_nat i) (put_words off ws d) = u32 w.
Proof.
  induction ws as [|w' ws IH]; intros off d i w Ho Hl Hi; simpl in *; [done|]. destruct i as [|i]; simpl in Hi.
  - injection Hi as ->. replace (off + 4 * Z.of_nat 0) with off by lia.
    rewrite put_words_before, get32_put32; rewrite ?length_put32; lia || done.
  - replace (off + 4 * Z.of_nat (S i)) with (off + 4 + 4 * Z.of_nat i) by lia.
    apply IH; rewrite ?length_put32; lia || done.
Qed.

(** Reading back a header that was written. *)
Lemma hdr_roundtrip bl d :
  Forall (fun h => 0 <= h < 2^31) bl -> Z.of_nat (length bl) <= LOGSIZE -> length d = Z.to_nat BSIZE ->
  length (hdr_put bl d) = Z.to_nat BSIZE /\ hdr_n (hdr_put bl d) = Z.of_nat (length bl) /\ hdr_blocks (hdr_put bl d) = bl.
Proof.
  intros Hbl Hn Hd. unfold LOGSIZE, MAXOPBLOCKS, BSIZE in *. unfold hdr_put.
  assert (hdr_n (put_words 4 bl (put32 0 (Z.of_nat (length bl)) d)) = Z.of_nat (length bl)) as En.
  { unfold hdr_n. rewrite put_words_before, get32_put32; rewrite ?length_put32; try lia. unfold i32, u32. word. }
  split_and!; [rewrite put_words_length, length_put32; rewrite ?length_put32; lia|done|].
  unfold hdr_blocks. rewrite En, Nat2Z.id. apply list_eq. intros i.
  rewrite list_lookup_fmap.
  destruct (bl !! i) as [h|] eqn:E.
  - pose proof (lookup_lt_Some _ _ _ E). rewrite lookup_seq_lt by done. simpl. f_equal.
    rewrite (put_words_get bl 4 _ i h); rewrite ?length_put32; try lia; [|done].
    rewrite Forall_lookup in Hbl. apply Hbl in E. unfold i32, u32. word.
  - rewrite lookup_seq_ge; [done|]. by apply lookup_ge_None.
Qed.
