(* ===== verification/Recovery.v ===== *)
(** * Crash recovery

    A transaction is atomic: whatever prefix of the disk writes of [commit] reached
    the disk before a crash, [initlog] at the next boot leaves either the old or the
    new contents of every block outside the log. The first part is about sequences
    of disk writes; the second shows that [commit] and [recover_from_log], through
    the buffer cache, make exactly these writes. *)

From S2P Require Import Prelude Bytes State Spinlock Proc Sleeplock Virtio Bio BufCache Log.

Definition blk (d : gmap Z (list Z)) (n : Z) : list Z := default (replicate (Z.to_nat BSIZE) 0) (d !! n).
Definition apply_writes (ws : list (Z * list Z)) (d : gmap Z (list Z)) : gmap Z (list Z) :=
  foldl (fun d w => <[w.1 := w.2]> d) d ws.

Lemma apply_writes_app ws ws' d : apply_writes (ws ++ ws') d = apply_writes ws' (apply_writes ws d).
Proof. apply foldl_app. Qed.
(** Writing what a function says, at some blocks. *)
Lemma apply_writes_fun hs (v : Z -> list Z) d n :
  blk (apply_writes ((fun h => (h, v h)) <$> hs) d) n = if decide (n ∈ hs) then v n else blk d n.
Proof.
  revert d. induction hs as [|h hs IH]; intros d; [done|].
  change (blk (apply_writes ((fun h => (h, v h)) <$> hs) (<[h := v h]> d)) n =
    if decide (n ∈ h :: hs) then v n else blk d n).
  rewrite IH. destruct (decide (n ∈ hs)); [by rewrite decide_True by set_solver|].
  unfold blk. rewrite lookup_insert. destruct (decide (h = n)) as [->|]; [by rewrite decide_True by set_solver|].
  by rewrite decide_False by set_solver.
Qed.

(** ** The writes of a transaction and of recovery *)

(** What is seen after writes. *)
Definition fupd {A} (f : Z -> A) (n : Z) (x : A) : Z -> A := fun m => if decide (m = n) then x else f m.
Lemma fupd_eq {A} (f : Z -> A) n x : fupd f n x n = x.
Proof. unfold fupd. by rewrite decide_True. Qed.
Lemma fupd_ne {A} (f : Z -> A) n x m : m <> n -> fupd f n x m = f m.
Proof. intros. unfold fupd. by rewrite decide_False. Qed.
Ltac fupd_simpl C := repeat (rewrite fupd_eq in C || rewrite fupd_ne in C by done).

Definition overlay (ws : list (Z * list Z)) (vw : Z -> list Z) : Z -> list Z :=
  foldl (fun f w => fupd f w.1 w.2) vw ws.
Lemma overlay_snoc ws n x vw : overlay (ws ++ [(n, x)]) vw = fupd (overlay ws vw) n x.
Proof. unfold overlay. by rewrite foldl_app. Qed.
Lemma overlay_app ws ws' vw : overlay (ws ++ ws') vw = overlay ws' (overlay ws vw).
Proof. unfold overlay. by rewrite foldl_app. Qed.
Lemma overlay_ext ws : forall vw vw' n, vw n = vw' n -> overlay ws vw n = overlay ws vw' n.
Proof.
  induction ws as [|[m x] ws IH]; intros vw vw' n E; [done|]. apply (IH (fupd vw m x) (fupd vw' m x)).
  unfold fupd. by case_decide.
Qed.
Lemma blk_apply_writes ws : forall d n, blk (apply_writes ws d) n = overlay ws (blk d) n.
Proof.
  induction ws as [|[m x] ws IH]; intros d n; [done|].
  change (blk (apply_writes ws (<[m := x]> d)) n = overlay ws (fupd (blk d) m x) n). rewrite IH. apply overlay_ext.
  unfold blk, fupd. rewrite lookup_insert. repeat case_decide; congruence || done.
Qed.
Lemma overlay_other ws : forall vw n, n ∉ ws.*1 -> overlay ws vw n = vw n.
Proof.
  induction ws as [|[m x] ws IH]; intros vw n Hn; [done|]. apply not_elem_of_cons in Hn as [Hne Hn].
  change (overlay ws (fupd vw m x) n = vw n). rewrite IH by done. by apply fupd_ne.
Qed.
Lemma apply_writes_other ws d n : n ∉ ws.*1 -> blk (apply_writes ws d) n = blk d n.
Proof. intros. rewrite blk_apply_writes. by apply overlay_other. Qed.
Lemma overlay_in ws vw n x : NoDup ws.*1 -> (n, x) ∈ ws -> overlay ws vw n = x.
Proof.
  revert vw. induction ws as [|[m y] ws IH]; intros vw Hnd Hin; [by apply not_elem_of_nil in Hin|].
  apply NoDup_cons in Hnd as [Hm Hnd]. change (overlay ws (fupd vw m y) n = x).
  apply elem_of_cons in Hin as [[= -> ->]|Hin]; [|by apply IH]. rewrite overlay_other by done. apply fupd_eq.
Qed.

(** The home blocks [hs] with contents [v]; [hd] is the header block. *)
Definition log_writes (start : Z) (hs : list Z) (v : Z -> list Z) : list (Z * list Z) :=
  imap (fun k h => (start + Z.of_nat k + 1, v h)) hs.
Definition home_writes (hs : list Z) (v : Z -> list Z) : list (Z * list Z) := (fun h => (h, v h)) <$> hs.
Definition commit_writes (start : Z) (hs : list Z) (v : Z -> list Z) (hd : list Z) : list (Z * list Z) :=
  log_writes start hs v ++ [(start, hdr_put hs hd)] ++ home_writes hs v ++ [(start, hdr_put [] (hdr_put hs hd))].

Definition recover_writes (start : Z) (d : gmap Z (list Z)) : list (Z * list Z) :=
  imap (fun k h => (h, blk d (start + Z.of_nat k + 1))) (hdr_blocks (blk d start)) ++
  [(start, hdr_put [] (blk d start))].

(** The log: the [nlog = LOGSIZE] blocks [mkfs] lays out, the header among them. *)
Definition in_log (start n : Z) : Prop := start <= n < start + LOGSIZE.

Record good_hdr (start : Z) (hs : list Z) : Prop := {
  gh_start : 0 <= start < 2^30;
  gh_len : Z.of_nat (length hs) < LOGSIZE;
  gh_nodup : NoDup hs;
  gh_home h : h ∈ hs -> 0 <= h < 2^31 /\ ~ in_log start h }.

Lemma good_hdr_nil start hs : good_hdr start hs -> good_hdr start [].
Proof. intros [? ? ? ?]. split; [done|done|constructor|set_solver]. Qed.

Lemma log_writes_in_log start hs v n : good_hdr start hs -> n ∈ (log_writes start hs v).*1 -> in_log start n /\ n <> start.
Proof.
  unfold log_writes. intros good Hn. apply list_elem_of_fmap in Hn as ([m x] & -> & Hin).
  apply elem_of_lookup_imap in Hin as (k & h & [= -> ->] & Hk). apply lookup_lt_Some in Hk.
  pose proof (gh_len _ _ good). unfold in_log. simpl. lia.
Qed.
Lemma log_writes_nodup start hs v : NoDup (log_writes start hs v).*1.
Proof.
  apply NoDup_alt. intros i j x Hi Hj. unfold log_writes in *. rewrite list_lookup_fmap, list_lookup_imap in Hi, Hj.
  destruct (hs !! i), (hs !! j); simpl in *; simplify_eq. lia.
Qed.


Section crash.
Context (start : Z) (hs : list Z) (v : Z -> list Z) (d0 : gmap Z (list Z)).
Hypothesis good : good_hdr start hs.
Hypothesis size0 : length (blk d0 start) = Z.to_nat BSIZE.
Hypothesis clean : hdr_n (blk d0 start) = 0.

Let hd := blk d0 start.

Lemma hdr_clean d : hdr_n d = 0 -> hdr_blocks d = [].
Proof. intros E. unfold hdr_blocks. by rewrite E. Qed.

(** Before the header is written, recovery finds an empty log. *)
Lemma crash_early j n :
  let d := apply_writes (take j (log_writes start hs v)) d0 in
  ~ in_log start n -> hdr_blocks (blk d start) = [] /\ blk (apply_writes (recover_writes start d) d) n = blk d0 n.
Proof.
  intros d Hn.
  assert (forall m, m ∉ (log_writes start hs v).*1 -> blk d m = blk d0 m) as Hd.
  { intros m Hm. apply apply_writes_other. intros Hin. apply Hm.
    apply list_elem_of_fmap in Hin as (w & -> & Hw). apply list_elem_of_fmap. exists w. split; [done|].
    by eapply elem_of_take in Hw as (? & ? & ?); apply list_elem_of_lookup; eauto. }
  assert (blk d start = hd) as Es by (apply Hd; intros []%(log_writes_in_log _ _ _ _ good); done).
  assert (hdr_blocks hd = []) as Eb by by apply hdr_clean.
  rewrite Es. split; [done|]. unfold recover_writes. rewrite Es, Eb. simpl. unfold apply_writes; simpl.
  assert (n <> start) by (intros ->; apply Hn; unfold in_log, LOGSIZE, MAXOPBLOCKS; lia).
  unfold blk at 1. rewrite lookup_insert_ne by done. apply Hd. intros []%(log_writes_in_log _ _ _ _ good); done.
Qed.

(** Once it is written, recovery installs the transaction, installed in part or not. *)
Lemma crash_late j n :
  let d := apply_writes (log_writes start hs v ++ [(start, hdr_put hs hd)] ++ take j (home_writes hs v)) d0 in
  ~ in_log start n -> hdr_n (blk d start) = Z.of_nat (length hs) /\ hdr_blocks (blk d start) = hs /\
  blk (apply_writes (recover_writes start d) d) n = if decide (n ∈ hs) then v n else blk d0 n.
Proof.
  intros d Hn. destruct good as [Hst Hlen Hnd Hhome].
  assert (take j (home_writes hs v) = home_writes (take j hs) v) as Et by (unfold home_writes; by rewrite fmap_take).
  assert (forall m, m ∈ take j hs -> m ∈ hs) as Hsub
    by (intros m (k & Hk & _)%elem_of_take; by eapply list_elem_of_lookup_2).
  assert (forall m, in_log start m -> blk d m = blk (apply_writes (log_writes start hs v ++ [(start, hdr_put hs hd)]) d0) m) as Hl.
  { intros m Hm. unfold d. rewrite app_assoc, apply_writes_app, Et. unfold home_writes. rewrite apply_writes_fun.
    rewrite decide_False; [done|]. intros Hin%Hsub. by apply (Hhome m). }
  assert (blk d start = hdr_put hs hd) as Es.
  { rewrite Hl by (unfold in_log, LOGSIZE, MAXOPBLOCKS; lia). rewrite apply_writes_app. unfold apply_writes at 1; simpl.
    unfold blk. by rewrite lookup_insert_eq. }
  destruct (hdr_roundtrip hs hd) as (_ & En & Eb); [apply Forall_forall; intros h Hh; by apply Hhome|lia|done|].
  assert (imap (fun k h => (h, blk d (start + Z.of_nat k + 1))) hs = home_writes hs v) as Ei.
  { apply list_eq. intros k. unfold home_writes. rewrite list_lookup_imap, list_lookup_fmap.
    destruct (hs !! k) as [h|] eqn:Ek; [|done]. simpl. do 2 f_equal. pose proof (lookup_lt_Some _ _ _ Ek).
    rewrite Hl by (unfold in_log; lia). rewrite apply_writes_app. unfold apply_writes at 1; simpl.
    unfold blk. rewrite lookup_insert_ne by lia. etrans; [apply blk_apply_writes|]. apply (overlay_in _ _ _ _ (log_writes_nodup _ _ _)).
    apply list_elem_of_lookup. exists k. unfold log_writes. by rewrite list_lookup_imap, Ek. }
  rewrite Es. split_and!; [done|done|]. unfold recover_writes. rewrite Es, Eb, Ei, apply_writes_app.
  assert (n <> start) by (intros ->; apply Hn; unfold in_log, LOGSIZE, MAXOPBLOCKS; lia).
  unfold apply_writes at 1; simpl. unfold blk at 1. rewrite lookup_insert_ne by done.
  change (blk (apply_writes (home_writes hs v) d) n = if decide (n ∈ hs) then v n else blk d0 n).
  unfold home_writes. rewrite apply_writes_fun. case_decide as Hin; [done|].
  unfold d. rewrite app_assoc, apply_writes_app, Et. unfold home_writes. rewrite apply_writes_fun.
  rewrite decide_False by (intros ?%Hsub; done). apply apply_writes_other. rewrite fmap_app. simpl.
  intros [[? _]%(log_writes_in_log _ _ _ _ good)|?%list_elem_of_singleton]%elem_of_app; done.
Qed.

(** After the last write the transaction is in place and the log empty. *)
Lemma crash_done n :
  let d := apply_writes (commit_writes start hs v hd) d0 in
  ~ in_log start n -> hdr_n (blk d start) = 0 /\ hdr_blocks (blk d start) = [] /\
  blk (apply_writes (recover_writes start d) d) n = (if decide (n ∈ hs) then v n else blk d0 n) /\
  blk d n = if decide (n ∈ hs) then v n else blk d0 n.
Proof.
  intros d Hn. destruct (hdr_roundtrip hs hd) as (Hsz & _ & _);
    [apply Forall_forall; intros h Hh; by apply (gh_home _ _ good)|apply Z.lt_le_incl, good|done|].
  assert (n <> start) as Hne by (intros ->; apply Hn; unfold in_log, LOGSIZE, MAXOPBLOCKS; lia).
  assert (blk d start = hdr_put [] (hdr_put hs hd)) as Es.
  { unfold d, commit_writes. rewrite !app_assoc, apply_writes_app. unfold apply_writes at 1; simpl.
    unfold blk. by rewrite lookup_insert_eq. }
  destruct (hdr_roundtrip [] (hdr_put hs hd)) as (_ & En & Eb); [constructor|done|done|].
  assert (blk d n = if decide (n ∈ hs) then v n else blk d0 n) as Ed.
  { unfold d, commit_writes. rewrite !app_assoc, apply_writes_app. unfold apply_writes at 1; simpl.
    unfold blk at 1. rewrite lookup_insert_ne by done. fold (apply_writes ((log_writes start hs v ++
      [(start, hdr_put hs hd)]) ++ home_writes hs v) d0).
    rewrite apply_writes_app. change (default _ (?d !! n)) with (blk d n). unfold home_writes.
    rewrite apply_writes_fun. case_decide; [done|]. apply apply_writes_other. rewrite fmap_app. simpl.
    intros [[? _]%(log_writes_in_log _ _ _ _ good)|?%list_elem_of_singleton]%elem_of_app; done. }
  rewrite Es. split_and!; [done|done| |done]. unfold recover_writes. rewrite Es, Eb. unfold apply_writes; simpl.
  unfold blk at 1. rewrite lookup_insert_ne by done. exact Ed.
Qed.
End crash.

(** ** The cache as a client sees it *)

Section client.
Context `{BlockDev} `{Env} `{Fuel} `{!BlockDevOk} (dev : Z) (me : nat) (pid : Z).
Hypothesis fuel_pos : (0 < fuel)%nat.

(** From [s0] to [s] the thread wrote [ws] to the disk; it has locked the blocks of
    [hl], each in its buffer, sees the contents [vw], and [nf] buffers are unused. *)
Record cst (s0 s : kst) (hl : list (Z * nat)) (vw : Z -> list Z) (rf : Z -> Z) (nf : nat) (ws : list (Z * list Z)) : Prop := {
  c_inv : bc_inv dev me pid (list_to_set hl.*1) s;
  c_frame : s = up_bufs (fun _ => bufs s) (up_procs (fun _ => procs s)
        (up_disk (fun _ => disk s) (up_dwrites (fun _ => dwrites s) (up_vdisk (fun _ => vdisk s) s0))));
  c_at n i : (n, i) ∈ hl -> at_buf dev s n i;
  c_view m : view dev s m = vw m;
  c_ref m : ref dev s m = rf m;
  c_nfree : nfree s = nf;
  c_disk : disk s = apply_writes ws (disk s0);
  c_writes : dwrites s = reverse ws ++ dwrites s0 }.

Lemma cst_klog s0 s hl vw rf nf ws : cst s0 s hl vw rf nf ws -> klog s = klog s0.
Proof. intros C. by rewrite (c_frame _ _ _ _ _ _ _ C). Qed.
Lemma cst_ext s0 s hl vw rf nf ws vw' rf' :
  cst s0 s hl vw rf nf ws -> (forall m, vw m = vw' m) -> (forall m, rf m = rf' m) -> cst s0 s hl vw' rf' nf ws.
Proof. intros [] Hv Hr. split; try done; intros m; [rewrite <- Hv|rewrite <- Hr]; auto. Qed.
Lemma cst_up_klog f s0 s hl vw rf nf ws :
  cst s0 s hl vw rf nf ws -> cst (up_klog f s0) (up_klog f s) hl vw rf nf ws.
Proof.
  intros [[Hcpu ? ? ? Hb ?] Hf ? ? ? ? ? ?]. split; try done.
  - split; try done; [by apply (on_cpu_ext me pid s)|]. intros i b Hi Hlt. destruct (Hb i b Hi Hlt). by split.
  - rewrite Hf at 1. done.
Qed.
Lemma cst_locked s0 s hl vw rf nf ws n i :
  cst s0 s hl vw rf nf ws -> (n, i) ∈ hl ->
  exists b, bufs s !! i = Some b /\ b_blockno b = n /\ b_data b = vw n /\ length (vw n) = Z.to_nat BSIZE /\ 1 <= rf n < 2^32.
Proof.
  intros C Hin. assert (n ∈ (list_to_set hl.*1 : gset Z)) as Hn by (apply elem_of_list_to_set, list_elem_of_fmap; by exists (n, i)).
  destruct (locked_buf dev me pid fuel_pos _ s n i (c_inv _ _ _ _ _ _ _ C) Hn (c_at _ _ _ _ _ _ _ C _ _ Hin))
    as (b & (Hi & _ & _ & Hbn) & _ & _ & Hd & _ & Hr & _ & _ & Hsz & _).
  exists b. rewrite <- (c_view _ _ _ _ _ _ _ C), <- (c_ref _ _ _ _ _ _ _ C), <- Hd.
  split_and!; try done; lia.
Qed.

(** Putting a rule of the cache into this form. *)
Lemma cst_step s0 s s' hl hl' vw rf nf ws vw' rf' nf' ws' L :
  cst s0 s hl vw rf nf ws -> list_to_set hl'.*1 = L ->
  bc_step dev me pid (list_to_set hl.*1) L s s' ->
  (forall n i, (n, i) ∈ hl' -> (n, i) ∈ hl \/ at_buf dev s' n i) ->
  disk s' = apply_writes ws' (disk s) -> dwrites s' = reverse ws' ++ dwrites s ->
  (forall m, view dev s' m = vw' m) -> (forall m, ref dev s' m = rf' m) -> nfree s' = nf' ->
  cst s0 s' hl' vw' rf' nf' (ws ++ ws').
Proof.
  intros C <- [Hinv Hfr Hat] HH Hd Hw Hv Hr Hn. split; try done.
  - rewrite Hfr at 1. rewrite (c_frame _ _ _ _ _ _ _ C). done.
  - intros n i Hin. destruct (HH n i Hin) as [Hin'|]; [|done].
    apply Hat; [| |by apply C]; apply elem_of_list_to_set, list_elem_of_fmap; by exists (n, i).
  - by rewrite Hd, (c_disk _ _ _ _ _ _ _ C), apply_writes_app.
  - by rewrite Hw, (c_writes _ _ _ _ _ _ _ C), reverse_app, app_assoc.
Qed.

Lemma cst_bread s0 s hl vw rf nf ws n :
  cst s0 s hl vw rf nf ws -> n ∉ hl.*1 -> 0 <= n < 2^31 -> rf n < 2^32 - 1 -> (rf n = 0 -> (0 < nf)%nat) ->
  wp (bread dev n) (fun i s' => cst s0 s' ((n, i) :: hl) vw (fupd rf n (rf n + 1)) (nf - is0 (rf n)) ws) s.
Proof.
  intros C Hn Hnr Hr Hf. rewrite <- (c_ref _ _ _ _ _ _ _ C) in Hr, Hf. rewrite <- (c_nfree _ _ _ _ _ _ _ C) in Hf.
  destruct (bread_ok dev me pid fuel_pos (list_to_set hl.*1) s n) as (i & b & s' & E & Hs & Hc & _ & Hd & Hw & Hv & Hrf & Hnf);
    [apply C|by rewrite elem_of_list_to_set|done|done|done|].
  unfold wp. rewrite E. rewrite <- (app_nil_r ws).
  eapply cst_step; [exact C| |exact Hs| |done|done| | |].
  - by rewrite fmap_cons, list_to_set_cons.
  - intros m j [[= -> ->]|]%elem_of_cons; [right; by exists b|by left].
  - intros m. rewrite Hv. apply C.
  - intros m. rewrite Hrf. unfold fupd. by rewrite !(c_ref _ _ _ _ _ _ _ C).
  - rewrite <- (c_ref _ _ _ _ _ _ _ C), <- (c_nfree _ _ _ _ _ _ _ C). lia.
Qed.

Lemma elem_H (hl : list (Z * nat)) n i : (n, i) ∈ hl -> n ∈ (list_to_set hl.*1 : gset Z).
Proof. intros. apply elem_of_list_to_set, list_elem_of_fmap. by exists (n, i). Qed.

Lemma cst_data s0 s hl vw rf nf ws n i g :
  cst s0 s hl vw rf nf ws -> (n, i) ∈ hl -> length (g (vw n)) = Z.to_nat BSIZE ->
  wp (modb i (up_b_data g)) (fun _ s' => cst s0 s' hl (fupd vw n (g (vw n))) rf nf ws) s.
Proof.
  intros C Hin Hg. destruct (cst_locked _ _ _ _ _ _ _ _ _ C Hin) as (b & Hi & Hbn & Hd & _).
  assert (modb i (up_b_data g) s = modb i (up_b_data (fun _ => g (vw n))) s) as E.
  { unfold modb. unfold bind. rewrite (getb_done i s b Hi). unfold modify. f_equal. unfold up_bufs. f_equal.
    rewrite !(alter_as_insert _ _ _ b) by done. unfold up_b_data. by rewrite Hd. }
  unfold wp. rewrite E. destruct (setdata_ok dev me pid fuel_pos (list_to_set hl.*1) s n i (g (vw n)))
    as (s' & E' & Hs & Hdk & Hw & Hv & Hrf & Hnf); [apply C|by eapply elem_H|by apply C|done|].
  rewrite E'. rewrite <- (app_nil_r ws). eapply cst_step; [exact C|done|exact Hs|by left|done|done| | |].
  - intros m. rewrite Hv. unfold fupd. by rewrite (c_view _ _ _ _ _ _ _ C).
  - intros m. rewrite Hrf. apply C.
  - rewrite Hnf. apply C.
Qed.

Lemma cst_bwrite s0 s hl vw rf nf ws n i :
  cst s0 s hl vw rf nf ws -> (n, i) ∈ hl ->
  wp (bwrite i) (fun _ s' => cst s0 s' hl vw rf nf (ws ++ [(n, vw n)])) s.
Proof.
  intros C Hin. destruct (bwrite_ok dev me pid fuel_pos (list_to_set hl.*1) s n i) as (s' & E & Hs & Hd & Hw & Hv & Hrf & Hnf);
    [apply C|by eapply elem_H|by apply C|].
  unfold wp. rewrite E. rewrite (c_view _ _ _ _ _ _ _ C) in Hd, Hw.
  eapply cst_step; [exact C|done|exact Hs|by left|done|done| | |].
  - intros m. rewrite Hv. apply C.
  - intros m. rewrite Hrf. apply C.
  - rewrite Hnf. apply C.
Qed.

Lemma cst_bpin s0 s hl vw rf nf ws n i :
  cst s0 s hl vw rf nf ws -> (n, i) ∈ hl -> rf n < 2^32 - 1 ->
  wp (bpin i) (fun _ s' => cst s0 s' hl vw (fupd rf n (rf n + 1)) nf ws) s.
Proof.
  intros C Hin Hr. rewrite <- (c_ref _ _ _ _ _ _ _ C) in Hr.
  destruct (bpin_ok dev me pid fuel_pos (list_to_set hl.*1) s n i) as (s' & E & Hs & Hd & Hw & Hv & Hrf & Hnf);
    [apply C|by eapply elem_H|by apply C|done|].
  unfold wp. rewrite E. rewrite <- (app_nil_r ws). eapply cst_step; [exact C|done|exact Hs|by left|done|done| | |].
  - intros m. rewrite Hv. apply C.
  - intros m. rewrite Hrf. unfold fupd. by rewrite !(c_ref _ _ _ _ _ _ _ C).
  - rewrite Hnf. apply C.
Qed.
Lemma cst_bunpin s0 s hl vw rf nf ws n i :
  cst s0 s hl vw rf nf ws -> (n, i) ∈ hl -> 2 <= rf n ->
  wp (bunpin i) (fun _ s' => cst s0 s' hl vw (fupd rf n (rf n - 1)) nf ws) s.
Proof.
  intros C Hin Hr. rewrite <- (c_ref _ _ _ _ _ _ _ C) in Hr.
  destruct (bunpin_ok dev me pid fuel_pos (list_to_set hl.*1) s n i) as (s' & E & Hs & Hd & Hw & Hv & Hrf & Hnf);
    [apply C|by eapply elem_H|by apply C|done|].
  unfold wp. rewrite E. rewrite <- (app_nil_r ws). eapply cst_step; [exact C|done|exact Hs|by left|done|done| | |].
  - intros m. rewrite Hv. apply C.
  - intros m. rewrite Hrf. unfold fupd. by rewrite !(c_ref _ _ _ _ _ _ _ C).
  - rewrite Hnf. apply C.
Qed.

Lemma cst_brelse s0 s hl hl' vw rf nf ws n i :
  cst s0 s hl vw rf nf ws -> hl ≡ₚ (n, i) :: hl' -> n ∉ hl'.*1 ->
  (rf n = 1 -> vw n = blk (apply_writes ws (disk s0)) n) ->
  wp (brelse i) (fun _ s' => cst s0 s' hl' vw (fupd rf n (rf n - 1)) (nf + is0 (rf n - 1)) ws) s.
Proof.
  intros C HP Hn Hcl. assert ((n, i) ∈ hl) as Hin by (rewrite HP; set_solver).
  destruct (brelse_ok dev me pid fuel_pos (list_to_set hl.*1) s n i) as (s' & E & Hs & Hd & Hw & Hv & Hrf & Hnf);
    [apply C|by eapply elem_H|by apply C| |].
  { rewrite (c_ref _ _ _ _ _ _ _ C), (c_view _ _ _ _ _ _ _ C). intros Hr. rewrite (Hcl Hr).
    unfold disk_block. by rewrite (c_disk _ _ _ _ _ _ _ C). }
  unfold wp. rewrite E. rewrite <- (app_nil_r ws). eapply cst_step; [exact C| |exact Hs| |done|done| | |].
  - apply leibniz_equiv. rewrite HP, fmap_cons, list_to_set_cons. simpl. set_solver.
  - intros m j Hm. left. rewrite HP. set_solver.
  - intros m. rewrite Hv. apply C.
  - intros m. rewrite Hrf. unfold fupd. by rewrite !(c_ref _ _ _ _ _ _ _ C).
  - by rewrite Hnf, (c_nfree _ _ _ _ _ _ _ C), (c_ref _ _ _ _ _ _ _ C).
Qed.

(** ** The operations of the log *)

Record log_ok (start : Z) (hs : list Z) (s : kst) : Prop := {
  lo_dev : lg_dev (klog s) = dev;
  lo_start : lg_start (klog s) = start;
  lo_block : lh_block (klog s) = hs;
  lo_good : good_hdr start hs }.
Definition few (rf : Z -> Z) : Prop := forall m, 0 <= rf m < 2^31.

Lemma copy_block_ok s0 s hl vw rf nf ws a i b j :
  cst s0 s hl vw rf nf ws -> (a, i) ∈ hl -> (b, j) ∈ hl ->
  wp (copy_block i j) (fun _ s' => cst s0 s' hl (fupd vw a (vw b)) rf nf ws) s.
Proof.
  intros C Ha Hb. destruct (cst_locked _ _ _ _ _ _ _ _ _ C Ha) as (x & _ & _ & _ & Hx & _).
  destruct (cst_locked _ _ _ _ _ _ _ _ _ C Hb) as (y & Hj & _ & Hd & Hy & _).
  assert (splice 0 (sub 0 BSIZE (b_data y)) (vw a) = vw b) as E.
  { rewrite Hd. assert (sub 0 BSIZE (vw b) = vw b) as -> by (unfold sub; rewrite drop_0; apply take_ge; lia).
    unfold splice. rewrite drop_ge by lia. apply app_nil_r. }
  apply wp_bind. unfold wp. rewrite (getb_done j s y Hj).
  pose proof (cst_data _ _ _ _ _ _ _ _ _ (splice 0 (sub 0 BSIZE (b_data y))) C Ha) as Hw.
  rewrite E in Hw. by apply Hw.
Qed.

Lemma is0_pos z : 1 <= z -> is0 z = 0%nat.
Proof. intros. unfold is0. destruct (Z.eqb_spec z 0); lia. Qed.

Lemma home_in_log start hs k h :
  good_hdr start hs -> hs !! k = Some h ->
  u32 h = h /\ u32 (start + Z.of_nat k + 1) = start + Z.of_nat k + 1 /\ h <> start + Z.of_nat k + 1 /\
  in_log start (start + Z.of_nat k + 1) /\ 0 <= h < 2^31 /\ 0 <= start + Z.of_nat k + 1 < 2^31.
Proof.
  intros [Hs Hl _ Hh] Hk. pose proof (lookup_lt_Some _ _ _ Hk).
  destruct (Hh h) as [Hr Hn]; [by eapply list_elem_of_lookup_2|].
  unfold in_log, LOGSIZE, MAXOPBLOCKS in *. split_and!; try lia; apply u32_small; lia.
Qed.

Lemma write_log_one_ok start hs s0 s vw rf nf ws k h :
  cst s0 s [] vw rf nf ws -> log_ok start hs s0 -> hs !! k = Some h -> few rf -> 1 <= rf h -> (0 < nf)%nat ->
  let to := start + Z.of_nat k + 1 in
  wp (write_log_one k) (fun _ s' => cst s0 s' [] (fupd vw to (vw h)) rf nf (ws ++ [(to, vw h)])) s.
Proof.
  intros C [Hdev Hst Hbl Hg] Hk Hfew Hrh Hnf to. destruct (home_in_log start hs k h Hg Hk) as (Eh & Et & Hne & _ & Hrh31 & Hrt).
  fold to in Et, Hne, Hrt. pose proof (Hfew h). pose proof (Hfew to).
  apply wp_bind, wp_gets. rewrite (cst_klog _ _ _ _ _ _ _ C), Hdev, Hst. fold to. rewrite Et.
  apply wp_bind. eapply wp_mono; [apply (cst_bread s0 s [] vw rf nf ws to C); [set_solver|lia|lia|lia]|].
  intros i s1 C1. cbv beta. apply wp_bind, wp_gets. rewrite (cst_klog _ _ _ _ _ _ _ C1), Hbl, Hdev.
  apply wp_bind. unfold wp at 1. rewrite Hk. cbn [must ret]. rewrite Eh.
  assert (fupd rf to (rf to + 1) h = rf h) as Efh by by apply fupd_ne.
  apply wp_bind. eapply wp_mono; [apply (cst_bread _ _ _ _ _ _ _ h C1); [set_solver|done|rewrite Efh; lia|rewrite Efh; lia]|].
  intros j s2 C2. rewrite Efh in C2. rewrite (is0_pos (rf h)) in C2 by done. cbv beta.
  apply wp_bind. eapply wp_mono; [apply (copy_block_ok _ _ _ _ _ _ _ to i h j C2); set_solver|].
  intros [] s3 C3. cbv beta.
  apply wp_bind. eapply wp_mono; [apply (cst_bwrite _ _ _ _ _ _ _ to i C3); set_solver|]. intros [] s4 C4. cbv beta.
  fupd_simpl C4.
  apply wp_bind. eapply wp_mono; [apply (cst_brelse _ _ _ [(to, i)] _ _ _ _ h j C4); [done|set_solver|]|].
  { rewrite fupd_eq. lia. }
  intros [] s5 C5. cbv beta.
  eapply wp_mono; [apply (cst_brelse _ _ _ [] _ _ _ _ to i C5); [done|set_solver|]|].
  { intros _. rewrite fupd_eq. symmetry. rewrite apply_writes_app. unfold blk, apply_writes; simpl. by rewrite lookup_insert_eq. }
  intros [] s6 C6. cbv beta in C6. fupd_simpl C6.
  replace (nf - is0 (rf to) - 0 + is0 (rf h + 1 - 1) + is0 (rf to + 1 - 1))%nat with nf in C6.
  2:{ rewrite !Z.add_simpl_r, (is0_pos (rf h)) by done. unfold is0. destruct (Z.eqb_spec (rf to) 0); lia. }
  eapply cst_ext; [exact C6|done|]. intros m. unfold fupd. repeat case_decide; subst; lia || done.
Qed.

Lemma log_writes_snoc start pre h (v : Z -> list Z) :
  log_writes start (pre ++ [h]) v = log_writes start pre v ++ [(start + Z.of_nat (length pre) + 1, v h)].
Proof. unfold log_writes. rewrite imap_app. simpl. by rewrite Nat.add_0_r. Qed.

Lemma write_log_ok start hs s0 s vw rf nf ws :
  cst s0 s [] vw rf nf ws -> log_ok start hs s0 -> few rf -> (forall h, h ∈ hs -> 1 <= rf h) -> (0 < nf)%nat ->
  wp write_log (fun _ s' => cst s0 s' [] (overlay (log_writes start hs vw) vw) rf nf (ws ++ log_writes start hs vw)) s.
Proof.
  intros C Hlog Hfew Hpin Hnf. apply wp_bind, wp_gets. rewrite (cst_klog _ _ _ _ _ _ _ C), (lo_block _ _ _ Hlog).
  apply (wp_for_each _ _ (fun pre s' => let lw := log_writes start (take (length pre) hs) vw in
    cst s0 s' [] (overlay lw vw) rf nf (ws ++ lw))).
  - simpl. by rewrite app_nil_r.
  - intros pre k suf s1 Hpre C1. cbv zeta in C1.
    assert (k = length pre /\ k < length hs)%nat as [-> Hk].
    { assert (seq 0 (length hs) !! length pre = Some k) as E by (rewrite Hpre, lookup_app_r, Nat.sub_diag; done).
      apply lookup_seq in E. lia. }
    apply lookup_lt_is_Some in Hk as [h Hh]. pose proof (lookup_lt_Some _ _ _ Hh).
    destruct (home_in_log start hs _ h (lo_good _ _ _ Hlog) Hh) as (_ & _ & Hne & _).
    eapply wp_mono; [apply (write_log_one_ok start hs _ _ _ _ _ _ _ h C1); try done; apply Hpin; by eapply list_elem_of_lookup_2|].
    intros [] s2 C2. cbv beta zeta in *. rewrite length_app. simpl. rewrite Nat.add_1_r, (take_S_r _ _ _ Hh).
    rewrite log_writes_snoc, overlay_snoc, length_take, Nat.min_l, app_assoc by lia.
    rewrite (overlay_other _ vw h) in C2; [done|].
    intros Hin. apply (gh_home _ _ (lo_good _ _ _ Hlog) h); [by eapply list_elem_of_lookup_2|].
    apply list_elem_of_fmap in Hin as (w & -> & Hw). unfold log_writes in Hw.
    apply elem_of_lookup_imap in Hw as (k' & h' & -> & Hk'). apply lookup_take_Some in Hk' as [Hk' ?].
    by eapply home_in_log; [apply Hlog|].
  - intros s1 C1. rewrite length_seq, take_ge in C1 by lia. done.
Qed.

Lemma write_head_ok start hs s0 s vw rf nf ws :
  cst s0 s [] vw rf nf ws -> log_ok start hs s0 -> few rf -> (0 < nf)%nat ->
  let hd := hdr_put hs (vw start) in
  wp write_head (fun _ s' => cst s0 s' [] (fupd vw start hd) rf nf (ws ++ [(start, hd)])) s.
Proof.
  intros C Hlog Hfew Hnf hd. pose proof (Hfew start). pose proof (gh_start _ _ (lo_good _ _ _ Hlog)).
  apply wp_bind, wp_gets. rewrite (cst_klog _ _ _ _ _ _ _ C), (lo_dev _ _ _ Hlog), (lo_start _ _ _ Hlog).
  rewrite u32_small by lia.
  apply wp_bind. eapply wp_mono; [apply (cst_bread _ _ _ _ _ _ _ start C); [set_solver|lia|lia|lia]|].
  intros i s1 C1. cbv beta. apply wp_bind, wp_gets. rewrite (cst_klog _ _ _ _ _ _ _ C1), (lo_block _ _ _ Hlog).
  destruct (cst_locked _ _ _ _ _ _ _ start i C1) as (b & _ & _ & _ & Hsz & _); [set_solver|].
  destruct (hdr_roundtrip hs (vw start)) as (Hl & _ & _);
    [apply Forall_forall; intros h Hh; by apply (gh_home _ _ (lo_good _ _ _ Hlog))|apply Z.lt_le_incl, Hlog|done|].
  apply wp_bind. eapply wp_mono; [apply (cst_data _ _ _ _ _ _ _ start i _ C1); [set_solver|done]|].
  intros [] s2 C2. cbv beta.
  apply wp_bind. eapply wp_mono; [apply (cst_bwrite _ _ _ _ _ _ _ start i C2); set_solver|].
  intros [] s3 C3. cbv beta. fupd_simpl C3.
  eapply wp_mono; [apply (cst_brelse _ _ _ [] _ _ _ _ start i C3); [done|set_solver|]|].
  { intros _. by rewrite blk_apply_writes, overlay_snoc, !fupd_eq. }
  intros [] s4 C4. cbv beta in C4. fupd_simpl C4.
  replace (nf - is0 (rf start) + is0 (rf start + 1 - 1))%nat with nf in C4
    by (rewrite Z.add_simpl_r; unfold is0; destruct (Z.eqb_spec (rf start) 0); lia).
  eapply cst_ext; [exact C4|done|]. intros m. unfold fupd. repeat case_decide; subst; lia || done.
Qed.

(** [r]: during recovery nothing is pinned. *)
Definition unpin (r : bool) (rf : Z -> Z) (hs : list Z) : Z -> Z :=
  fun m => if negb r && bool_decide (m ∈ hs) then rf m - 1 else rf m.

Lemma install_one_ok (r : bool) start hs s0 s vw rf nf ws k h :
  cst s0 s [] vw rf nf ws -> log_ok start hs s0 -> hs !! k = Some h -> few rf ->
  (if r then (2 <= nf)%nat else (1 <= nf)%nat /\ 1 <= rf h) ->
  let lb := start + Z.of_nat k + 1 in
  vw lb = blk (apply_writes ws (disk s0)) lb ->
  wp (install_one r k) (fun _ s' => exists nf', (nf <= nf')%nat /\
    cst s0 s' [] (fupd vw h (vw lb)) (unpin r rf [h]) nf' (ws ++ [(h, vw lb)])) s.
Proof.
  intros C [Hdev Hst Hbl Hg] Hk Hfew Hpin lb Hclean. destruct (home_in_log start hs k h Hg Hk) as (Eh & Et & Hne & _ & Hrh31 & Hrt).
  fold lb in Et, Hne, Hrt. pose proof (Hfew h). pose proof (Hfew lb).
  assert (1 <= nf)%nat as Hnf by (destruct r; lia).
  apply wp_bind, wp_gets. rewrite (cst_klog _ _ _ _ _ _ _ C), Hdev, Hst. fold lb. rewrite Et.
  apply wp_bind. eapply wp_mono; [apply (cst_bread s0 s [] vw rf nf ws lb C); [set_solver|lia|lia|lia]|].
  intros i s1 C1. cbv beta. apply wp_bind, wp_gets. rewrite (cst_klog _ _ _ _ _ _ _ C1), Hbl, Hdev.
  apply wp_bind. unfold wp at 1. rewrite Hk. cbn [must ret]. rewrite Eh.
  assert (fupd rf lb (rf lb + 1) h = rf h) as Efh by by apply fupd_ne.
  apply wp_bind. eapply wp_mono; [apply (cst_bread _ _ _ _ _ _ _ h C1); [set_solver|done|rewrite Efh; lia|]|].
  { rewrite Efh. unfold is0. destruct r, (Z.eqb_spec (rf lb) 0); lia. }
  intros j s2 C2. rewrite Efh in C2. cbv beta.
  apply wp_bind. eapply wp_mono; [apply (copy_block_ok _ _ _ _ _ _ _ h j lb i C2); set_solver|].
  intros [] s3 C3. cbv beta.
  apply wp_bind. eapply wp_mono; [apply (cst_bwrite _ _ _ _ _ _ _ h j C3); set_solver|]. intros [] s4 C4. cbv beta.
  fupd_simpl C4.
  set (rf4 := fupd (fupd rf lb (rf lb + 1)) h (rf h + 1)) in C4.
  set (rf5 := if r then rf4 else fupd rf4 h (rf h)).
  apply wp_bind. apply (wp_mono _ (fun _ s' => cst s0 s' [(h, j); (lb, i)] (fupd vw h (vw lb)) rf5
    (nf - is0 (rf lb) - is0 (rf h)) (ws ++ [(h, vw lb)]))).
  { unfold rf5. destruct r; cbn [negb when]; [by apply wp_ret|].
    assert (rf4 h = rf h + 1) as E4 by apply fupd_eq.
    eapply wp_mono; [apply (cst_bunpin _ _ _ _ _ _ _ h j C4); [set_solver|lia]|].
    intros [] s5 C5. cbv beta in C5. rewrite E4, Z.add_simpl_r in C5. done. }
  intros [] s5 C5. cbv beta.
  assert (rf5 lb = rf lb + 1) as E5l.
  { unfold rf5, rf4. destruct r; rewrite !fupd_ne by done; apply fupd_eq. }
  apply wp_bind. eapply wp_mono; [apply (cst_brelse _ _ _ [(h, j)] _ _ _ _ lb i C5); [apply Permutation_swap|set_solver|]|].
  { intros _. rewrite fupd_ne, Hclean by done. rewrite !blk_apply_writes, overlay_snoc, fupd_ne by done. done. }
  intros [] s6 C6. cbv beta. rewrite E5l, Z.add_simpl_r in C6.
  assert (rf5 h = if r then rf h + 1 else rf h) as E5h by (unfold rf5, rf4; destruct r; apply fupd_eq).
  eapply wp_mono; [apply (cst_brelse _ _ _ [] _ _ _ _ h j C6); [done|set_solver|]|].
  { intros _. by rewrite blk_apply_writes, overlay_snoc, !fupd_eq. }
  intros [] s7 C7. cbv beta in C7. rewrite fupd_ne, E5h in C7 by done. eexists. split.
  2:{ eapply cst_ext; [exact C7|done|]. intros m. unfold unpin. rewrite (bool_decide_ext _ (m = h)) by set_solver.
      unfold rf5, rf4, fupd. destruct r, (bool_decide_reflect (m = h)); simpl; repeat case_decide; subst; lia || done. }
  unfold is0. destruct r; rewrite ?Z.add_simpl_r; destruct (Z.eqb_spec (rf lb) 0), (Z.eqb_spec (rf h) 0); lia.
Qed.

Definition install_writes (start : Z) (hs : list Z) (vw : Z -> list Z) : list (Z * list Z) :=
  imap (fun k h => (h, vw (start + Z.of_nat k + 1))) hs.
Lemma install_writes_snoc start pre h vw :
  install_writes start (pre ++ [h]) vw = install_writes start pre vw ++ [(h, vw (start + Z.of_nat (length pre) + 1))].
Proof. unfold install_writes. rewrite imap_app. simpl. by rewrite Nat.add_0_r. Qed.
Lemma install_writes_fst start hs vw : (install_writes start hs vw).*1 = hs.
Proof.
  unfold install_writes. apply list_eq. intros i. rewrite list_lookup_fmap, list_lookup_imap. by destruct (hs !! i).
Qed.

Lemma install_trans_ok (r : bool) start hs s0 s vw rf nf ws :
  cst s0 s [] vw rf nf ws -> log_ok start hs s0 -> few rf ->
  (if r then (2 <= nf)%nat else (1 <= nf)%nat /\ forall h, h ∈ hs -> 1 <= rf h) ->
  (forall n, in_log start n -> vw n = blk (apply_writes ws (disk s0)) n) ->
  let iw := install_writes start hs vw in
  wp (install_trans r) (fun _ s' => exists nf', (nf <= nf')%nat /\
    cst s0 s' [] (overlay iw vw) (unpin r rf hs) nf' (ws ++ iw)) s.
Proof.
  intros C Hlog Hfew Hpin Hclean iw. pose proof (lo_good _ _ _ Hlog) as Hg.
  apply wp_bind, wp_gets. rewrite (cst_klog _ _ _ _ _ _ _ C), (lo_block _ _ _ Hlog).
  apply (wp_for_each _ _ (fun pre s' => let iw := install_writes start (take (length pre) hs) vw in
    exists nf', (nf <= nf')%nat /\ cst s0 s' [] (overlay iw vw) (unpin r rf (take (length pre) hs)) nf' (ws ++ iw))).
  - exists nf. split; [done|]. simpl. rewrite app_nil_r. eapply cst_ext; [exact C|done|].
    intros m. unfold unpin. rewrite bool_decide_false by set_solver. by rewrite andb_false_r.
  - intros pre k suf s1 Hpre (nf1 & Hnf1 & C1). cbv zeta in C1.
    assert (k = length pre /\ k < length hs)%nat as [-> Hk].
    { assert (seq 0 (length hs) !! length pre = Some k) as E by (rewrite Hpre, lookup_app_r, Nat.sub_diag; done).
      apply lookup_seq in E. lia. }
    apply lookup_lt_is_Some in Hk as [h Hh]. pose proof (lookup_lt_Some _ _ _ Hh).
    assert (h ∈ hs) as Hin by by eapply list_elem_of_lookup_2.
    assert (h ∉ take (length pre) hs) as Hnew.
    { intros (k' & Hk' & Hlt)%elem_of_take. pose proof (NoDup_lookup _ _ _ _ (gh_nodup _ _ Hg) Hh Hk'). lia. }
    destruct (home_in_log start hs _ h Hg Hh) as (_ & _ & Hne & Hil & _).
    assert (forall n, in_log start n -> n ∉ take (length pre) hs) as Hdis.
    { intros n Hn (k' & Hk' & _)%elem_of_take. apply (gh_home _ _ Hg n); [by eapply list_elem_of_lookup_2|done]. }
    assert (unpin r rf (take (length pre) hs) h = rf h) as Eu
      by (unfold unpin; rewrite bool_decide_false by done; by rewrite andb_false_r).
    eapply wp_mono; [apply (install_one_ok r start hs _ _ _ _ _ _ _ h C1); try done|].
    + intros m. unfold unpin. pose proof (Hfew m). destruct r; simpl; [lia|]. case_bool_decide as Hm; [|lia].
      apply elem_of_take in Hm as (k' & Hk' & _). destruct Hpin as [_ Hp]. specialize (Hp m). 
      assert (1 <= rf m) by (apply Hp; by eapply list_elem_of_lookup_2). lia.
    + rewrite Eu. destruct r; [lia|]. destruct Hpin as [? Hp]. split; [lia|auto].
    + rewrite apply_writes_app, blk_apply_writes, !overlay_other by (rewrite install_writes_fst; by apply Hdis).
      by apply Hclean.
    + intros [] s2 (nf2 & Hnf2 & C2). exists nf2. split; [lia|]. rewrite length_app. simpl.
      rewrite Nat.add_1_r, (take_S_r _ _ _ Hh). rewrite install_writes_snoc, overlay_snoc, length_take, Nat.min_l, app_assoc by lia.
      rewrite (overlay_other _ vw (start + _ + 1)) in C2 by (rewrite install_writes_fst; by apply Hdis).
      eapply cst_ext; [exact C2|done|]. intros m. unfold unpin. destruct r; simpl; [done|].
      repeat case_bool_decide; set_solver by lia.
  - intros s1 (nf1 & Hnf1 & C1). rewrite length_seq, take_ge in C1 by lia. by exists nf1.
Qed.

Lemma log_writes_not_start start hs (v : Z -> list Z) : good_hdr start hs -> start ∉ (log_writes start hs v).*1.
Proof. intros Hg Hin. by apply (log_writes_in_log start hs v _ Hg) in Hin as [_ ?]. Qed.

(** After the header is written, the log holds the new contents of the home blocks. *)
Lemma install_writes_log start hs vw hd :
  good_hdr start hs ->
  install_writes start hs (fupd (overlay (log_writes start hs vw) vw) start hd) = home_writes hs vw.
Proof.
  intros Hg. apply list_eq. intros k. unfold install_writes, home_writes. rewrite list_lookup_imap, list_lookup_fmap.
  destruct (hs !! k) as [h|] eqn:Ek; [|done]. simpl. do 2 f_equal. rewrite fupd_ne by lia.
  apply overlay_in; [by apply log_writes_nodup|]. apply list_elem_of_lookup. exists k. unfold log_writes.
  by rewrite list_lookup_imap, Ek.
Qed.

Definition clear_lh : logst -> logst := up_lh_block (fun _ => []).

Lemma few_unpin r hs rf : few rf -> (forall h, h ∈ hs -> 1 <= rf h) -> few (unpin r rf hs).
Proof.
  intros Hf Hp m. pose proof (Hf m). unfold unpin. destruct r; simpl; [lia|]. case_bool_decide as Hm; [|lia].
  specialize (Hp m Hm). lia.
Qed.

Lemma commit_cst start hs s vw rf nf :
  cst s s [] vw rf nf [] -> log_ok start hs s -> hs <> [] -> few rf -> (forall h, h ∈ hs -> 1 <= rf h) -> (0 < nf)%nat ->
  (forall n, in_log start n -> vw n = blk (disk s) n) ->
  let ws := commit_writes start hs vw (vw start) in
  wp commit (fun _ s' => exists nf', (nf <= nf')%nat /\
    cst (up_klog clear_lh s) s' [] (overlay ws vw) (unpin false rf hs) nf' ws) s.
Proof.
  intros C Hlog Hne Hfew Hpin Hnf Hclean ws. pose proof (lo_good _ _ _ Hlog) as Hg.
  apply wp_bind, wp_gets. rewrite (lo_block _ _ _ Hlog). apply wp_when; [|intros E%Z.ltb_ge; destruct hs; [done|cbn [length] in E; lia]]. intros _.
  apply wp_bind. eapply wp_mono; [by apply (write_log_ok start hs _ _ _ _ _ _ C)|]. intros [] s1 C1. cbv beta.
  apply wp_bind. eapply wp_mono; [by apply (write_head_ok start hs _ _ _ _ _ _ C1)|]. intros [] s2 C2. cbv beta zeta in C2 |- *.
  rewrite (overlay_other _ vw start) in C2 by by apply log_writes_not_start.
  set (hd := hdr_put hs (vw start)) in C2. set (lw := log_writes start hs vw) in *.
  apply wp_bind. eapply wp_mono; [apply (install_trans_ok false start hs _ _ _ _ _ _ C2); try done|].
  { intros n Hn. rewrite blk_apply_writes, <- overlay_snoc. by apply overlay_ext, Hclean. }
  unfold lw. rewrite install_writes_log by done. fold lw. intros [] s3 (nf3 & Hnf3 & C3).
  apply wp_bind, wp_modify. apply (cst_up_klog clear_lh) in C3.
  eapply wp_mono; [apply (write_head_ok start [] _ _ _ _ _ _ C3)|].
  - destruct Hlog. split; [done|done|done|by eapply good_hdr_nil].
  - by apply few_unpin.
  - lia.
  - intros [] s4 C4. cbv beta zeta in C4. exists nf3. split; [done|].
    rewrite (overlay_other _ _ start), fupd_eq in C4.
    2:{ unfold home_writes. rewrite <- list_fmap_compose. intros (h & -> & Hh)%list_elem_of_fmap.
        apply (gh_home _ _ Hg h) in Hh as [_ []]. unfold in_log, LOGSIZE, MAXOPBLOCKS. simpl. lia. }
    assert (ws = ((lw ++ [(start, hd)]) ++ home_writes hs vw) ++ [(start, hdr_put [] hd)]) as ->
      by (unfold ws, commit_writes; by rewrite <- !app_assoc).
    rewrite overlay_snoc, overlay_app, overlay_snoc. exact C4.
Qed.

Lemma read_head_ok start s0 s vw rf nf ws :
  cst s0 s [] vw rf nf ws -> lg_dev (klog s0) = dev -> lg_start (klog s0) = start -> 0 <= start < 2^30 ->
  few rf -> (0 < nf)%nat -> hdr_n (vw start) <= LOGSIZE -> vw start = blk (apply_writes ws (disk s0)) start ->
  wp read_head (fun _ s' => cst (up_klog (up_lh_block (fun _ => hdr_blocks (vw start))) s0) s' [] vw rf nf ws) s.
Proof.
  intros C Hdev Hst Hr Hfew Hnf Hn Hclean. pose proof (Hfew start).
  apply wp_bind, wp_gets. rewrite (cst_klog _ _ _ _ _ _ _ C), Hdev, Hst, u32_small by lia.
  apply wp_bind. eapply wp_mono; [apply (cst_bread _ _ _ _ _ _ _ start C); [set_solver|lia|lia|lia]|].
  intros i s1 C1. cbv beta. destruct (cst_locked _ _ _ _ _ _ _ start i C1) as (b & Hi & _ & Hd & _); [set_solver|].
  apply wp_bind. unfold wp at 1. rewrite (getb_done i s1 b Hi), Hd.
  replace (LOGSIZE <? hdr_n (vw start)) with false by lia.
  apply wp_bind, wp_modify. apply (cst_up_klog (up_lh_block (fun _ => hdr_blocks (vw start)))) in C1.
  eapply wp_mono; [apply (cst_brelse _ _ _ [] _ _ _ _ start i C1); [done|set_solver|done]|].
  intros [] s2 C2. cbv beta in C2. fupd_simpl C2.
  replace (nf - is0 (rf start) + is0 (rf start + 1 - 1))%nat with nf in C2
    by (rewrite Z.add_simpl_r; unfold is0; destruct (Z.eqb_spec (rf start) 0); lia).
  eapply cst_ext; [exact C2|done|]. intros m. unfold fupd. repeat case_decide; subst; lia || done.
Qed.

(** [recover_from_log] makes the writes [recover_writes]. *)
Lemma recover_cst start s rf nf :
  cst s s [] (blk (disk s)) rf nf [] -> lg_dev (klog s) = dev -> lg_start (klog s) = start -> few rf -> (2 <= nf)%nat ->
  hdr_n (blk (disk s) start) <= LOGSIZE -> good_hdr start (hdr_blocks (blk (disk s) start)) ->
  wp recover_from_log (fun _ s' => disk s' = apply_writes (recover_writes start (disk s)) (disk s)) s.
Proof.
  intros C Hdev Hst Hfew Hnf Hn Hg. set (hs := hdr_blocks (blk (disk s) start)) in *.
  apply wp_bind. eapply wp_mono; [apply (read_head_ok start _ _ _ _ _ _ C); try done; [apply Hg|lia]|].
  fold hs. intros [] s1 C1. cbv beta.
  set (s0 := up_klog (up_lh_block (fun _ => hs)) s) in *.
  apply wp_bind. eapply wp_mono; [apply (install_trans_ok true start hs _ _ _ _ _ _ C1); try done|].
  intros [] s2 (nf2 & Hnf2 & C2). apply wp_bind, wp_modify. apply (cst_up_klog clear_lh) in C2.
  eapply wp_mono; [apply (write_head_ok start [] _ _ _ _ _ _ C2)|].
  - split; [done|done|done|by eapply good_hdr_nil].
  - done.
  - lia.
  - intros [] s3 C3. rewrite (c_disk _ _ _ _ _ _ _ C3). rewrite (overlay_other _ _ start).
    + done.
    + rewrite install_writes_fst. intros Hin. apply (gh_home _ _ Hg start Hin).
      unfold in_log, LOGSIZE, MAXOPBLOCKS. lia.
Qed.
End client.
