(* ===== verification/CrashSafety.v ===== *)
(** * Transactions

    The theorems about [kernel/log.c] and [kernel/bio.c] together: [binit] sets up
    the cache, [log_write] keeps the invariant of a transaction, [end_op] puts the
    transaction on the disk, and a crash at any moment of [commit] followed by the
    recovery of the next boot leaves all of it or nothing. *)

From S2P Require Import Prelude Bytes State Spinlock Proc Kalloc Sleeplock Virtio Bio BufCache Log Recovery.

Section txn.
Context `{BlockDev} `{Env} `{Fuel} `{!BlockDevOk} (dev : Z) (me : nat) (pid : Z).
Hypothesis fuel_pos : (0 < fuel)%nat.

(** ** The invariant of a transaction *)

(** The thread has locked the blocks of [hl], each in its buffer, and changed those in
    [D] without logging them yet. The blocks [hs] of the transaction are pinned; every
    other block, those of the log included, is on the disk as it is seen; the log on
    the disk is empty. *)
Record txn (hl : list (Z * nat)) (D : gset Z) (start : Z) (hs : list Z) (s : kst) : Prop := {
  t_cache : bc_inv dev me pid (list_to_set hl.*1) s;
  t_at n i : (n, i) ∈ hl -> at_buf dev s n i;
  t_dirty : D ⊆ list_to_set hl.*1;
  t_log : log_ok dev start hs s;
  t_few m : 0 <= ref dev s m < 2^31;
  t_pinned h : h ∈ hs -> (if decide (h ∈ hl.*1) then 2 else 1) <= ref dev s h;
  t_clean n : n ∉ hs -> n ∉ D -> view dev s n = disk_block s n;
  t_home n : n ∈ D -> ~ in_log start n;
  t_free : (0 < nfree s)%nat;
  t_empty : hdr_n (disk_block s start) = 0 }.

(** A machine that has just booted, before [initlog]: no buffer is in use. *)
Record cold (s : kst) : Prop := {
  cd_cache : bc_inv dev me pid ∅ s;
  cd_unused m : ref dev s m = 0;
  cd_free : (2 <= nfree s)%nat }.

Lemma cst_init s vw rf :
  bc_inv dev me pid ∅ s -> (forall m, view dev s m = vw m) -> (forall m, ref dev s m = rf m) ->
  cst dev me pid s s [] vw rf (nfree s) [].
Proof.
  intros HI Hv Hr. split; try done; [by destruct s|]. intros n i Hin. by apply not_elem_of_nil in Hin.
Qed.
Lemma cold_view s n : cold s -> view dev s n = disk_block s n.
Proof.
  intros [HI Hu _]. unfold view. destruct (lookup_buf dev s n) as [b|] eqn:E; [|done].
  apply lookup_buf_Some in E as [i Hi]. destruct (view_unused dev me pid ∅ s b i n HI Hi) as [Hv _].
  { specialize (Hu n). unfold ref in Hu. by rewrite (lookup_buf_cached _ _ _ _ _ _ _ _ HI Hi) in Hu. }
  unfold view in Hv. by rewrite (lookup_buf_cached _ _ _ _ _ _ _ _ HI Hi) in Hv.
Qed.

Lemma t_home_out start hs s h : txn [] ∅ start hs s -> h ∈ hs -> ~ in_log start h.
Proof. intros T Hh. apply (gh_home _ _ (lo_good _ _ _ _ (t_log _ _ _ _ _ T)) h Hh). Qed.
Lemma t_log_clean start hs s n : txn [] ∅ start hs s -> in_log start n -> view dev s n = disk_block s n.
Proof. intros T Hn. apply (t_clean _ _ _ _ _ T); [|done]. intros Hin. by apply (t_home_out _ _ _ _ T Hin). Qed.
Lemma t_pinned0 start hs s : txn [] ∅ start hs s -> forall h, h ∈ hs -> 1 <= ref dev s h.
Proof. intros T h Hh. apply (t_pinned _ _ _ _ _ T h Hh). Qed.
Lemma in_log_start start : in_log start start.
Proof. unfold in_log, LOGSIZE, MAXOPBLOCKS. lia. Qed.

(** ** The state outside the cache *)

Lemma cache_ext L s s' :
  bc_inv dev me pid L s -> bufs s' = bufs s -> disk s' = disk s -> on_cpu me pid s' ->
  bc_inv dev me pid L s' /\ (forall n, view dev s' n = view dev s n) /\ (forall n, ref dev s' n = ref dev s n) /\
  nfree s' = nfree s /\ (forall n, disk_block s' n = disk_block s n).
Proof.
  intros [Hc Hd Hl Hu Hb Hh] Eb Ed Hcpu.
  assert (forall n, disk_block s' n = disk_block s n) as Hdb by (intros n; unfold disk_block; by rewrite Ed).
  assert (forall n, lookup_buf dev s' n = lookup_buf dev s n) as Hlk by (intros n; unfold lookup_buf; by rewrite Eb).
  assert (forall n i b, cached dev s' n i b <-> cached dev s n i b) as Hca by (intros; unfold cached; by rewrite Eb).
  split_and!; [split| | | |done].
  - done.
  - intros n. rewrite Hdb. apply Hd.
  - by rewrite Eb.
  - intros n i j b b' H1c H2c. apply Hca in H1c, H2c. by eapply Hu.
  - intros i b Hi Hlt. rewrite Eb in Hi. destruct (Hb i b Hi Hlt). split; try done. by rewrite Hdb.
  - intros n Hn. destruct (Hh n Hn) as (i & b & Hi). exists i, b. by apply Hca.
  - intros n. unfold view. by rewrite Hlk, Hdb.
  - intros n. unfold ref. by rewrite Hlk.
  - unfold nfree. by rewrite Eb.
Qed.

Lemma txn_ext hl D start hs s s' :
  txn hl D start hs s -> bufs s' = bufs s -> disk s' = disk s -> on_cpu me pid s' -> log_ok dev start hs s' ->
  txn hl D start hs s'.
Proof.
  intros [Hc Ha Hdi Hlo Hf Hp Hcl Hho Hfr He] Eb Ed Hcpu Hlo'.
  destruct (cache_ext _ _ _ Hc Eb Ed Hcpu) as (Hc' & Hv & Hr & Hn & Hdb). split; try done.
  - intros n i Hin. destruct (Ha n i Hin) as [b Hb]. exists b. unfold cached. by rewrite Eb.
  - intros m. by rewrite Hr.
  - intros h Hh. rewrite Hr. auto.
  - intros n Hn1 Hn2. rewrite Hv, Hdb. auto.
  - by rewrite Hn.
  - by rewrite Hdb.
Qed.

(** [wakeup] leaves the running process alone. *)
Lemma on_cpu_wake c s : on_cpu me pid s -> on_cpu me pid (up_procs (imap (wake c (Some me))) s).
Proof.
  intros [Hcur (p & Hp & Hpid) Hlen Hh Hdr]. split; try done; simpl; [|by rewrite length_imap|by apply disk_ready_wake].
  rewrite list_lookup_imap, Hp. simpl. eexists. split; [done|]. unfold wake. by rewrite bool_decide_false by naive_solver.
Qed.
Lemma on_cpu_klog f s : on_cpu me pid s -> on_cpu me pid (up_klog f s).
Proof. intros Hc. by apply (on_cpu_ext me pid s). Qed.

(** The writes [commit] makes. *)
Lemma commit_run start hs s :
  txn [] ∅ start hs s ->
  let ws := match hs with [] => [] | _ => commit_writes start hs (view dev s) (disk_block s start) end in
  exists s' nf, commit s = Done tt s' /\ (nfree s <= nf)%nat /\
    cst dev me pid (up_klog clear_lh s) s' [] (overlay ws (view dev s)) (unpin false (ref dev s) hs) nf ws.
Proof.
  intros T ws. assert (cst dev me pid s s [] (view dev s) (ref dev s) (nfree s) []) as C by (by apply cst_init; [apply T| |]).
  destruct hs as [|h hs'] eqn:Ehs.
  - exists s, (nfree s). unfold commit, bind, gets, when. rewrite (lo_block _ _ _ _ (t_log _ _ _ _ _ T)). simpl. split_and!; [done|done|].
    assert (up_klog clear_lh s = s) as ->.
    { destruct (t_log _ _ _ _ _ T) as [_ _ E _]. destruct s; unfold up_klog, clear_lh, up_lh_block; simpl in *. f_equal.
      destruct klog; simpl in *. by subst. }
    eapply cst_ext; [exact C|done|]. intros m. unfold unpin. by rewrite bool_decide_false by set_solver.
  - rewrite <- Ehs in *.
    assert (hs <> []) as Hne by by rewrite Ehs.
    pose proof (commit_cst dev me pid fuel_pos start hs s _ _ _ C (t_log _ _ _ _ _ T) Hne (t_few _ _ _ _ _ T) (t_pinned0 _ _ _ T)
      (t_free _ _ _ _ _ T) (fun n Hn => t_log_clean _ _ _ n T Hn)) as Hw.
    apply wp_done in Hw as ([] & s' & E & nf & Hnf & C').
    exists s', nf. split_and!; [done|done|]. unfold ws. rewrite <- Ehs.
    rewrite (t_log_clean _ _ _ start T) in C' by apply in_log_start. done.
Qed.

(** What the transaction makes of a block outside the log. *)
Lemma commit_view start hs s n :
  txn [] ∅ start hs s -> ~ in_log start n ->
  overlay (match hs with [] => [] | _ => commit_writes start hs (view dev s) (disk_block s start) end) (view dev s) n = view dev s n /\
  blk (apply_writes (match hs with [] => [] | _ => commit_writes start hs (view dev s) (disk_block s start) end) (disk s)) n = view dev s n.
Proof.
  intros T Hn. assert (n <> start) as Hne by (intros ->; apply Hn, in_log_start).
  destruct hs as [|h hs'] eqn:Ehs.
  { split; [done|]. symmetry. apply (t_clean _ _ _ _ _ T); set_solver. }
  rewrite <- Ehs in *. clear h hs' Ehs. pose proof (lo_good _ _ _ _ (t_log _ _ _ _ _ T)) as Hg.
  assert (forall f, (forall m, m ∉ hs -> m = n -> f m = view dev s m) ->
    overlay (commit_writes start hs (view dev s) (disk_block s start)) f n = view dev s n) as Ho.
  { intros f Hf. unfold commit_writes. rewrite !app_assoc, overlay_snoc, fupd_ne, overlay_app by done.
    destruct (decide (n ∈ hs)) as [Hin|Hin].
    - apply overlay_in; [|unfold home_writes; apply list_elem_of_fmap; by exists n].
      unfold home_writes. rewrite <- list_fmap_compose. unfold compose; simpl. rewrite list_fmap_id. apply Hg.
    - rewrite overlay_other by (unfold home_writes; rewrite <- list_fmap_compose; unfold compose; simpl; by rewrite list_fmap_id).
      rewrite overlay_snoc, fupd_ne, overlay_other by (done || by intros [? _]%(log_writes_in_log _ _ _ _ Hg)). by apply Hf. }
  split; [by apply Ho|]. rewrite blk_apply_writes. apply Ho. intros m Hm ->. symmetry. by apply (t_clean _ _ _ _ _ T).
Qed.
End txn.

Section recovery.
Context `{BlockDev} `{Env} `{Fuel} `{!BlockDevOk} (dev : Z).
Hypothesis fuel_pos : (0 < fuel)%nat.

Lemma initlog_ok me pid start r :
  cold dev me pid r -> sb_logstart (sb r) = start ->
  hdr_n (disk_block r start) <= LOGSIZE -> good_hdr start (hdr_blocks (disk_block r start)) ->
  exists r', initlog dev (sb r) r = Done tt r' /\ disk r' = apply_writes (recover_writes start (disk r)) (disk r).
Proof.
  intros Hc Hst Hn Hg. unfold initlog. change (BSIZE <=? 4 + 4 * LOGSIZE) with false. cbv iota.
  set (f := fun lg => up_lg_dev _ _).
  assert (cst dev me pid r r [] (blk (disk r)) (fun _ => 0) (nfree r) []) as C.
  { apply cst_init; [apply Hc|intros m; by apply (cold_view dev me pid)|apply Hc]. }
  apply (cst_up_klog dev me pid f) in C. pose proof (gh_start _ _ Hg).
  pose proof (recover_cst dev me pid fuel_pos start (up_klog f r) _ _ C) as Hw.
  apply wp_done in Hw as ([] & r' & E & Hd); [by exists r'|done| | |apply Hc|done|done].
  - simpl. rewrite Hst. apply i32_small. lia.
  - intros m. lia.
Qed.

(** A crash after the first [j] writes of a transaction, then recovery. *)
Lemma crash_point start hs v d j :
  good_hdr start hs -> length (blk d start) = Z.to_nat BSIZE -> hdr_n (blk d start) = 0 ->
  let d1 := apply_writes (take j (commit_writes start hs v (blk d start))) d in
  let d2 := apply_writes (recover_writes start d1) d1 in
  hdr_n (blk d1 start) <= LOGSIZE /\ good_hdr start (hdr_blocks (blk d1 start)) /\
  ((forall n, ~ in_log start n -> blk d2 n = blk d n) \/
   (forall n, ~ in_log start n -> blk d2 n = if decide (n ∈ hs) then v n else blk d n)).
Proof.
  intros Hg Hsz Hcl. pose proof (gh_len _ _ Hg) as Hlen. pose proof (gh_start _ _ Hg) as Hst.
  assert (~ in_log start (-1)) as Hout by (unfold in_log; lia).
  assert (length (log_writes start hs v) = length hs) as Ell by apply length_imap.
  assert (length (home_writes hs v) = length hs) as Elh by apply length_fmap.
  unfold commit_writes. destruct (decide (j <= length hs)%nat) as [Hj|Hj].
  - rewrite take_app_le by lia.
    destruct (crash_early start hs v d Hg Hsz Hcl j (-1) Hout) as [Eb _]. cbv zeta.
    rewrite Eb. split_and!.
    + assert (blk (apply_writes (take j (log_writes start hs v)) d) start = blk d start) as ->; [|rewrite Hcl; unfold LOGSIZE, MAXOPBLOCKS; lia].
      apply apply_writes_other. rewrite fmap_take. intros (k & Hk & _)%elem_of_take.
      apply list_elem_of_lookup_2 in Hk. by apply (log_writes_not_start start hs v Hg).
    + by eapply good_hdr_nil.
    + left. intros n Hn. by apply (crash_early start hs v d Hg Hsz Hcl j n Hn).
  - rewrite take_app_ge by lia. destruct (decide (j <= length hs + 1 + length hs)%nat) as [Hj2|Hj2].
    + rewrite take_app_ge by (simpl; lia). rewrite take_app_le by (simpl; lia).
      set (j2 := (j - _ - _)%nat). cbv zeta.
      destruct (crash_late start hs v d Hg Hsz j2 (-1) Hout) as (En & Eb & _). rewrite En, Eb.
      split_and!; [lia|done|]. right. intros n Hn. by apply (crash_late start hs v d Hg Hsz j2 n Hn).
    + rewrite (take_ge (_ ++ _)) by (rewrite !length_app; simpl; lia). cbv zeta.
      destruct (crash_done start hs v d Hg Hsz (-1) Hout) as (En & Eb & _). unfold commit_writes in *.
      rewrite En, Eb. split_and!; [unfold LOGSIZE, MAXOPBLOCKS; lia|by eapply good_hdr_nil|].
      right. intros n Hn. by apply (crash_done start hs v d Hg Hsz n Hn).
Qed.

(** C1. A file-system transaction is atomic with respect to crashes. [commit] returns
    with every block outside the log on the disk as the transaction left it; and if
    the machine stops after any number [j] of the disk writes it makes, [initlog] at
    the next boot (cold cache, same superblock) returns with either all blocks
    outside the log as before the transaction or all as the transaction left them. *)
Theorem commit_atomic me pid start hs s :
  txn dev me pid [] ∅ start hs s ->
  exists s' ws, commit s = Done tt s' /\ dwrites s' = reverse ws ++ dwrites s /\
    (forall n, ~ in_log start n -> disk_block s' n = view dev s n) /\
    forall j r me' pid', disk r = apply_writes (take j ws) (disk s) -> cold dev me' pid' r -> sb_logstart (sb r) = start ->
      exists r', initlog dev (sb r) r = Done tt r' /\
        ((forall n, ~ in_log start n -> disk_block r' n = disk_block s n) \/
         (forall n, ~ in_log start n -> disk_block r' n = view dev s n)).
Proof.
  intros T. destruct (commit_run dev me pid fuel_pos start hs s T) as (s' & nf & E & _ & C).
  pose proof (lo_good _ _ _ _ (t_log _ _ _ _ _ _ _ _ T)) as Hg.
  eexists s', _. split; [done|]. split; [apply C|]. split.
  { intros n Hn. unfold disk_block. rewrite (c_disk _ _ _ _ _ _ _ _ _ _ C). destruct (commit_view dev me pid fuel_pos start hs s n T Hn) as [_ <-]. done. }
  intros j r me' pid' Hd Hc Hsb.
  set (d2 := apply_writes (recover_writes start (disk r)) (disk r)).
  assert (hdr_n (blk (disk r) start) <= LOGSIZE /\ good_hdr start (hdr_blocks (blk (disk r) start)) /\
    ((forall n, ~ in_log start n -> blk d2 n = blk (disk s) n) \/
     (forall n, ~ in_log start n -> blk d2 n = view dev s n))) as (Hn & Hgr & Hcase).
  { unfold d2. clear d2. rewrite Hd. destruct hs as [|h hs'] eqn:Ehs.
    - rewrite take_nil. destruct (crash_point start [] (view dev s) (disk s) 0 Hg) as (Hn1 & Hgr & Hor);
        [apply T|apply (t_empty _ _ _ _ _ _ _ _ T)|]. refine (conj Hn1 (conj Hgr _)).
      left. intros n Hn. destruct Hor as [Ho|Ho]; by rewrite Ho.
    - rewrite <- Ehs in *. destruct (crash_point start hs (view dev s) (disk s) j Hg) as (Hn1 & Hgr & Hor);
        [apply T|apply (t_empty _ _ _ _ _ _ _ _ T)|].
      refine (conj Hn1 (conj Hgr _)). destruct Hor as [Ho|Ho]; [by left|right]. intros n Hn. rewrite Ho by done.
      case_decide; [done|]. symmetry. by apply (t_clean _ _ _ _ _ _ _ _ T). }
  destruct (initlog_ok me' pid' start r Hc Hsb Hn Hgr) as (r' & Er & Hdr).
  exists r'. split; [done|]. unfold disk_block. rewrite Hdr. exact Hcase.
Qed.
End recovery.

(** ** [log_write], [end_op] and [begin_op] *)

Section operations.
Context `{BlockDev} `{Env} `{Fuel} `{!BlockDevOk} (dev : Z) (me : nat) (pid : Z).
Hypothesis fuel_pos : (0 < fuel)%nat.

Lemma bpin_done i s :
  BcacheLock ∉ held s -> (i < length (bufs s))%nat ->
  bpin i s = Done tt (up_bufs (alter (up_b_refcnt (fun n => u32 (n + 1))) i) s).
Proof.
  intros Hh Hi. unfold bpin, bind. rewrite acquire_done by done. rewrite modb_done by done.
  rewrite release_done by (simpl; set_solver). f_equal.
  apply (up_held_id (fun h => remove_lock BcacheLock (BcacheLock :: h)) (up_bufs _ s)). by apply remove_lock_cons.
Qed.

(** The number of a logged block is found in the header. *)
Lemma find_block start hs n :
  good_hdr start hs -> 0 <= n < 2^32 ->
  match list_find (fun h => u32 h = n) hs with
  | Some (i, h) => hs !! i = Some n /\ n ∈ hs
  | None => n ∉ hs
  end.
Proof.
  intros Hg Hn. destruct (list_find _ hs) as [[i h]|] eqn:E.
  - apply list_find_Some in E as (Hi & Hh & _). assert (h ∈ hs) as Hin by by eapply list_elem_of_lookup_2.
    destruct (gh_home _ _ Hg h Hin) as [Hr _]. rewrite u32_small in Hh by lia. by subst.
  - apply list_find_None in E. rewrite Forall_forall in E. intros Hin. apply (E n Hin). by apply u32_small.
Qed.

Lemma log_write_run start hs s n i b :
  log_ok dev start hs s -> held s = [] -> bufs s !! i = Some b -> b_blockno b = n -> 0 <= n < 2^31 ->
  lg_size (klog s) <= LOGSIZE -> Z.of_nat (length hs) < lg_size (klog s) - 1 -> 1 <= lg_outstanding (klog s) ->
  log_write i s =
    if decide (n ∈ hs) then Done tt s
    else Done tt (up_klog (up_lh_block (fun l => l ++ [n])) (up_bufs (alter (up_b_refcnt (fun r => u32 (r + 1))) i) s)).
Proof.
  intros [Hdev Hst Hbl Hg] Hh Hi Hbn Hr H1l H2l H3l. unfold log_write, bind, gets.
  rewrite acquire_done by (rewrite Hh; set_solver). cbv zeta.
  change (klog (up_held (cons LogLock) s)) with (klog s). rewrite Hbl.
  replace ((LOGSIZE <=? Z.of_nat (length hs)) || (lg_size (klog s) - 1 <=? Z.of_nat (length hs))) with false by lia.
  replace (lg_outstanding (klog s) <? 1) with false by lia.
  rewrite (getb_done i _ b) by done. rewrite Hbn, i32_small by lia.
  pose proof (find_block start hs n Hg) as Hf. destruct (list_find _ hs) as [[k h]|].
  - destruct Hf as [Hk Hin]; [lia|]. rewrite decide_True by done. unfold up_log, modify.
    rewrite release_done by (simpl; set_solver). f_equal.
    etrans; [apply (up_held_id (fun l => remove_lock LogLock (LogLock :: l)) (up_klog _ s)); simpl; by rewrite Hh|].
    destruct s; unfold up_klog; simpl in *. f_equal. destruct klog; unfold up_lh_block; simpl in *. subst.
    by rewrite list_insert_id.
  - rewrite decide_False by (apply Hf; lia). rewrite bpin_done; [|simpl; rewrite Hh; set_solver|simpl; by eapply lookup_lt_Some].
    unfold up_log, modify. rewrite release_done by (simpl; set_solver). f_equal.
    match goal with |- _ = ?x => apply (up_held_id (fun l => remove_lock LogLock (LogLock :: l)) x) end.
    simpl. by rewrite Hh.
Qed.

(** What an operation of the file system leaves alone until [commit]. *)
Record tframe (s s' : kst) : Prop := {
  tf_eq : s' = up_bufs (fun _ => bufs s') (up_procs (fun _ => procs s') (up_vdisk (fun _ => vdisk s') (up_klog (fun _ => klog s') s)));
  tf_size : lg_size (klog s') = lg_size (klog s);
  tf_out : lg_outstanding (klog s') = lg_outstanding (klog s) }.

Lemma log_write_txn hl D start hs s n i :
  txn dev me pid hl D start hs s -> (n, i) ∈ hl -> 0 <= n < 2^31 -> ~ in_log start n ->
  lg_size (klog s) <= LOGSIZE -> Z.of_nat (length hs) < lg_size (klog s) - 1 -> 1 <= lg_outstanding (klog s) ->
  ref dev s n < 2^31 - 1 ->
  exists s', log_write i s = Done tt s' /\
    txn dev me pid hl (D ∖ {[n]}) start (if decide (n ∈ hs) then hs else hs ++ [n]) s' /\
    (forall m, view dev s' m = view dev s m) /\ tframe s s' /\ nfree s' = nfree s /\
    (forall m, ref dev s' m = if decide (m = n /\ n ∉ hs) then ref dev s n + 1 else ref dev s m).
Proof.
  intros T Hin Hr Hout H1l H2l H3l Hmax. destruct (T) as [Hc Ha Hdi Hlo Hf Hp Hcl Hho Hfr He].
  assert (n ∈ (list_to_set hl.*1 : gset Z)) as HnL by by eapply elem_H.
  destruct (locked_buf dev me pid fuel_pos _ s n i Hc HnL (Ha n i Hin)) as (b & (Hi & Hlt & Hd & Hbn) & _ & _ & _ & Hrf & Hr1 & _).
  pose proof (oc_held _ _ _ (bi_cpu _ _ _ _ _ Hc)) as Hh.
  rewrite (log_write_run start hs s n i b) by done. case_decide as Hlg.
  - exists s. split; [done|]. split; [|split_and!; [done|by destruct s|done|intros m; by rewrite decide_False by naive_solver]]. split; try done.
    + set_solver.
    + intros m Hm HmD. apply Hcl; [done|]. intros HD. destruct (decide (m = n)); set_solver.
    + intros m Hm. apply Hho. set_solver.
  - destruct (bpin_ok dev me pid fuel_pos _ s n i Hc HnL (Ha n i Hin)) as (s1 & E & [Hi1 Hfm Hat] & Hdk & Hdw & Hv & Hrn & Hnf); [lia|].
    rewrite bpin_done in E; [|rewrite Hh; set_solver|by eapply lookup_lt_Some]. injection E as <-.
    eexists. split; [reflexivity|]. set (s1 := up_bufs _ s) in *. set (f := up_lh_block _).
    destruct (cache_ext dev me pid _ s1 (up_klog f s1) Hi1 eq_refl eq_refl) as (Hi2 & Hv2 & Hr2 & Hn2 & Hd2);
      [apply on_cpu_klog, Hi1|].
    split; [|split_and!; [intros m; by rewrite Hv2, Hv|by destruct s|by rewrite Hn2, Hnf|]].
    2:{ intros m. rewrite Hr2, Hrn. destruct (decide (m = n)) as [->|]; [by rewrite decide_True|by rewrite decide_False by naive_solver]. }
    split; [done| |set_solver| | | | | | |].
    + intros m j Hm. apply Hat; [by eapply elem_H|by eapply elem_H|by apply Ha].
    + destruct Hlo as [? ? Hbl [? ? ? Hhome]]. split; try done; [simpl; by rewrite Hbl|]. split; try done.
      * rewrite length_app. simpl. lia.
      * apply NoDup_app. split_and!; [done|set_solver|apply NoDup_singleton].
      * intros h [Hh'| ->%list_elem_of_singleton]%elem_of_app; [by apply Hhome|done].
    + intros m. rewrite Hr2, Hrn. pose proof (Hf m). case_decide; subst; lia.
    + intros h Hh'. rewrite Hr2, Hrn. destruct (decide (h = n)) as [->|Hne]; [case_decide; lia|].
      apply Hp. set_solver.
    + intros m Hm HmD. rewrite Hv2, Hv, Hd2. apply Hcl; set_solver.
    + intros m Hm. apply Hho. set_solver.
    + rewrite Hn2, Hnf. done.
    + by rewrite Hd2.
Qed.

(** C6. [log_write] on a locked block keeps the invariant of the transaction: the block
    joins the transaction (once, however often it is logged), is pinned in the cache,
    and no longer counts as changed but unlogged; nothing else changes. *)
Theorem log_write_joins hl D start hs s n i :
  txn dev me pid hl D start hs s -> (n, i) ∈ hl -> 0 <= n < 2^31 -> ~ in_log start n ->
  lg_size (klog s) <= LOGSIZE -> Z.of_nat (length hs) < lg_size (klog s) - 1 -> 1 <= lg_outstanding (klog s) ->
  ref dev s n < 2^31 - 1 ->
  exists s', log_write i s = Done tt s' /\
    txn dev me pid hl (D ∖ {[n]}) start (if decide (n ∈ hs) then hs else hs ++ [n]) s' /\
    (forall m, view dev s' m = view dev s m) /\ disk s' = disk s.
Proof.
  intros T Hin Hr Hout H1l H2l H3l Hmax.
  destruct (log_write_txn hl D start hs s n i T Hin Hr Hout H1l H2l H3l Hmax) as (s' & E & T' & Hv & Hf & _).
  exists s'. split_and!; [done..|]. by rewrite (tf_eq _ _ Hf).
Qed.

(** [end_op] of the last operation, up to the call of [commit]. *)
Definition closing (lg : logst) : logst := up_lg_committing (fun _ => true) (up_lg_outstanding (fun o => o - 1) lg).
Lemma end_op_run s s1 :
  held s = [] -> lg_committing (klog s) = false -> lg_outstanding (klog s) = 1 ->
  commit (up_klog closing s) = Done tt s1 -> held s1 = [] -> length (procs s1) = NPROC ->
  end_op s = Done tt (up_procs (imap (wake ChanLog (cur s1))) (up_klog (up_lg_committing (fun _ => false)) s1)).
Proof.
  intros Hh Hc Ho E Hh1 Hlen. unfold end_op. unfold bind at 1. rewrite acquire_done by (rewrite Hh; set_solver).
  unfold up_log, bind, gets, modify. cbn [klog up_klog up_held lg_committing lg_outstanding up_lg_outstanding].
  rewrite Hc, Ho. change (1 - 1 =? 0) with true. cbv beta iota. unfold ret at 1. cbv beta iota.
  rewrite release_done by (simpl; set_solver). cbn [when].
  match goal with |- context [commit ?s'] => assert (s' = up_klog closing s) as -> end.
  { apply (up_held_id (fun l => remove_lock LogLock (LogLock :: l)) (up_klog closing s)). simpl. by rewrite Hh. }
  rewrite E. rewrite acquire_done by (rewrite Hh1; set_solver).
  rewrite wakeup_done; [|intros i; simpl; rewrite Hh1; set_solver|done].
  rewrite release_done by (simpl; set_solver). f_equal.
  match goal with |- _ = ?x => apply (up_held_id (fun l => remove_lock LogLock (LogLock :: l)) x) end.
  simpl. by rewrite Hh1.
Qed.

(** C5. [end_op] of the only running operation puts the transaction on the disk: every
    block outside the log is on the disk as the operation saw it, what is seen does
    not change, and the log is empty and ready for the next operation. *)
Theorem end_op_commits start hs s :
  txn dev me pid [] ∅ start hs s -> lg_committing (klog s) = false -> lg_outstanding (klog s) = 1 ->
  exists s', end_op s = Done tt s' /\ txn dev me pid [] ∅ start [] s' /\
    lg_outstanding (klog s') = 0 /\ lg_committing (klog s') = false /\
    forall n, ~ in_log start n -> disk_block s' n = view dev s n /\ view dev s' n = view dev s n.
Proof.
  intros T Hc Ho. pose proof (t_cache _ _ _ _ _ _ _ _ T) as HI. destruct (bi_cpu _ _ _ _ _ HI) as [Hcur Hpr Hlen Hh].
  assert (txn dev me pid [] ∅ start hs (up_klog closing s)) as T1.
  { apply (txn_ext dev me pid _ _ _ _ s); [done|done|done|apply on_cpu_klog, HI|]. destruct (t_log _ _ _ _ _ _ _ _ T). by split. }
  destruct (commit_run dev me pid fuel_pos start hs _ T1) as (s1 & nf & E & Hnf & C).
  pose proof (fun n => commit_view dev me pid fuel_pos start hs _ n T1) as Hcv.
  set (ws := match hs with [] => [] | _ => _ end) in *.
  pose proof (c_inv _ _ _ _ _ _ _ _ _ _ C) as HI1. destruct (bi_cpu _ _ _ _ _ HI1) as [Hcur1 _ Hlen1 Hh1].
  rewrite (end_op_run s s1) by done. eexists. split; [reflexivity|]. rewrite Hcur1.
  set (s2 := up_klog _ s1). set (s3 := up_procs _ s2).
  destruct (cache_ext dev me pid _ s1 s3 HI1 eq_refl eq_refl) as (HI3 & Hv3 & Hr3 & Hn3 & Hd3);
    [by apply on_cpu_wake, on_cpu_klog, HI1|].
  assert (forall m, disk_block s1 m = overlay ws (blk (disk s)) m) as Hd1.
  { intros m. unfold disk_block. rewrite (c_disk _ _ _ _ _ _ _ _ _ _ C). apply blk_apply_writes. }
  assert (forall m, in_log start m -> overlay ws (view dev s) m = overlay ws (blk (disk s)) m) as Hlg.
  { intros m Hm. apply overlay_ext. by apply (t_log_clean dev me pid start hs). }
  assert (klog s1 = clear_lh (closing (klog s))) as Ek by by rewrite (cst_klog _ _ _ _ _ _ _ _ _ _ C).
  assert (forall n, ~ in_log start n -> disk_block s3 n = view dev s n /\ view dev s3 n = view dev s n) as Hall.
  { intros n Hn. rewrite Hd3, Hv3, Hd1, (c_view _ _ _ _ _ _ _ _ _ _ C). destruct (Hcv n Hn) as [Ev Eb]. split; [|exact Ev].
    rewrite <- blk_apply_writes. exact Eb. }
  split_and!; [|simpl; rewrite Ek; simpl; by rewrite Ho|done|done].
  pose proof (t_log _ _ _ _ _ _ _ _ T) as [Hdev Hst Hbl Hg].
  split; [done|by intros n i ?%not_elem_of_nil|done| | |by intros h ?%not_elem_of_nil| |set_solver| |].
  - split; [simpl; by rewrite Ek|simpl; by rewrite Ek|simpl; by rewrite Ek|by eapply good_hdr_nil].
  - intros m. rewrite Hr3, (c_ref _ _ _ _ _ _ _ _ _ _ C). apply few_unpin; [done|exact (t_few _ _ _ _ _ _ _ _ T)|exact (t_pinned0 dev me pid start hs s T)].
  - intros n _ _. destruct (decide (start <= n < start + LOGSIZE)) as [Hn|Hn].
    + rewrite Hv3, Hd3, (c_view _ _ _ _ _ _ _ _ _ _ C), Hd1. by apply Hlg.
    + destruct (Hall n Hn) as [-> ->]. done.
  - rewrite Hn3, (c_nfree _ _ _ _ _ _ _ _ _ _ C). pose proof (t_free _ _ _ _ _ _ _ _ T). unfold nfree in *. simpl in Hnf. lia.
  - rewrite Hd3, Hd1. rewrite <- blk_apply_writes. unfold ws. destruct hs as [|h hs'] eqn:Ehs; [apply T|]. rewrite <- Ehs in *.
    assert (~ in_log start (-1)) as Hout by (destruct Hg as [? _ _ _]; unfold in_log; lia).
    apply (crash_done start hs (view dev s) (disk s) Hg (bi_disk _ _ _ _ _ HI start) (-1) Hout).
Qed.
End operations.

(** C36. The reservation of [begin_op] is one block too generous for the log that mkfs
    lays out ([nlog = LOGSIZE] blocks, one of them the header): three operations are
    admitted, each entitled to [MAXOPBLOCKS] blocks, and yet the 30th block they log
    between them makes [log_write] panic. *)
Theorem begin_op_overcommits `{BlockDev} `{Env} `{Fuel} s hs b :
  (0 < fuel)%nat -> held s = [] -> lg_committing (klog s) = false -> lg_outstanding (klog s) = 0 ->
  lh_block (klog s) = [] -> lg_size (klog s) = LOGSIZE -> Z.of_nat (length hs) = 3 * MAXOPBLOCKS - 1 ->
  exists s3 s4, (begin_op ;;; begin_op ;;; begin_op) s = Done tt s3 /\ lg_outstanding (klog s3) = 3 /\
    log_write b (up_klog (up_lh_block (fun _ => hs)) s3) = Panic "too big a transaction" s4.
Proof.
  intros Hf Hh Hc Ho Hb Hsz Hlen.
  assert (forall s', held s' = [] -> lg_committing (klog s') = false -> lh_block (klog s') = [] -> lg_outstanding (klog s') <= 2 ->
    begin_op s' = Done tt (up_klog (up_lg_outstanding (fun o => o + 1)) s')) as Hbegin.
  { intros s' Hh' Hc' Hb' Ho'. unfold begin_op, bind. rewrite acquire_done by (rewrite Hh'; set_solver).
    destruct fuel as [|n]; [lia|]. cbn [begin_op_loop]. unfold bind, gets.
    change (klog (up_held (cons LogLock) s')) with (klog s'). rewrite Hc', Hb'. cbv beta iota. cbn [length].
    rewrite (proj2 (Z.ltb_ge LOGSIZE _)) by (unfold LOGSIZE, MAXOPBLOCKS; lia).
    unfold up_log, modify. rewrite release_done by (simpl; set_solver). f_equal.
    match goal with |- _ = ?x => apply (up_held_id (fun l => remove_lock LogLock (LogLock :: l)) x) end.
    simpl. by rewrite Hh'. }
  eexists _, _. split; [|split].
  - unfold bind. rewrite Hbegin by (done || lia). rewrite Hbegin by (done || (simpl; lia)).
    rewrite Hbegin by (done || (simpl; lia)). reflexivity.
  - simpl. lia.
  - unfold log_write, bind, gets. rewrite acquire_done by (simpl; rewrite Hh; set_solver). cbv zeta.
    cbn [klog up_klog up_held lh_block lg_size up_lh_block up_lg_outstanding]. rewrite Hlen, Hsz. reflexivity.
Qed.

(** ** A machine with one block in the cache *)

#[local] Existing Instance demo_disk.
#[local] Existing Instance demo_disk_env.
#[local] Existing Instance demo_disk_ok.
#[local] Instance demo_fuel : Fuel := 1%nat.

(** The buffers in a ring, unused. *)
Definition ring_buf (i : nat) : buf :=
  mk_buf false false 0 0 (mk_sleeplock false 0) 0 ((i + NBUF) mod S NBUF) ((i + 1) mod S NBUF) (replicate (Z.to_nat BSIZE) 0).
Definition demo_boot : kst :=
  up_sb (fun _ => mk_superblock 0 0 0 0 30 2 0 0)
    (up_bufs (fun _ => ring_buf <$> seq 0 (S NBUF)) (up_vdisk (fun _ => demo_vdisk)
      (up_procs (<[0%nat := set_state RUNNING proc0]>) (up_cur (fun _ => Some 0%nat) boot_kst)))).
(** Buffer 0 holds [b]. *)
Definition demo_cached (b : buf) (hs : list Z) : kst :=
  up_klog (fun _ => mk_logst 2 30 1 false 1 hs) (up_bufs (<[0%nat := b]>) demo_boot).
Definition demo_buf (lock : sleeplock) (refcnt : Z) (data : list Z) : buf :=
  mk_buf true false 1 100 lock refcnt NBUF 1 data.

Lemma demo_bufs i b : bufs demo_boot !! i = Some b -> b = ring_buf i.
Proof.
  change (bufs demo_boot) with (ring_buf <$> seq 0 (S NBUF)).
  rewrite list_lookup_fmap. destruct (seq 0 (S NBUF) !! i) as [j|] eqn:E; [|done]. apply lookup_seq in E as [-> _].
  simpl. congruence.
Qed.
Lemma demo_cpu : on_cpu 0 0 demo_boot.
Proof.
  split; [done|by eexists|done|done|]. split; [done|done|done|by eexists|intros j q Hj Hs|apply demo_vdisk_idle].
  destruct j as [|j]; [by injection Hj as <-|]. apply (lookup_replicate 63) in Hj as [-> _]. done.
Qed.
Lemma demo_inv : bc_inv 1 0 0 ∅ demo_boot.
Proof.
  assert (forall n, disk_block demo_boot n = replicate (Z.to_nat BSIZE) 0) as Hd by done.
  split.
  - apply demo_cpu.
  - intros n. by rewrite Hd, length_replicate.
  - exists (seq 0 NBUF). split; [done|done|]. vm_compute. repeat split.
  - intros n i j b b' (Hi & _ & Hb & _). apply demo_bufs in Hi. by subst.
  - intros i b Hi _. apply demo_bufs in Hi as ->. split; [done|done|done|apply length_replicate|done|].
    rewrite decide_False by (intros [? _]; done). done.
  - intros n Hn. by apply elem_of_empty in Hn.
Qed.
Lemma demo_lookup n : lookup_buf 1 demo_boot n = None.
Proof.
  destruct (lookup_buf 1 demo_boot n) as [b|] eqn:E; [|done].
  apply lookup_buf_Some in E as (i & Hi & _ & Hd & _). apply demo_bufs in Hi as ->. done.
Qed.
Lemma demo_one b hs :
  b_next b = 1%nat -> b_prev b = NBUF -> b_dev b = 1 -> one_buf 1 demo_boot (demo_cached b hs) 0 (ring_buf 0) b.
Proof.
  intros Hn Hp Hd. split; [done|apply Nat.lt_0_succ|done|exact Hn|exact Hp|exact Hd| |by right|done].
  intros j x Hc. by destruct (lookup_buf_None 1 demo_boot _ (demo_lookup (b_blockno b)) j x).
Qed.
Lemma demo_block n : disk_block demo_boot n = replicate (Z.to_nat BSIZE) 0.
Proof. done. Qed.
Lemma demo_home : good_hdr 2 [100].
Proof.
  split; [lia|done|apply NoDup_singleton|]. intros h ->%list_elem_of_singleton. unfold in_log, LOGSIZE, MAXOPBLOCKS. lia.
Qed.

(** The transaction of block 100, before and after it is logged. *)
Lemma demo_txn hl (D : gset Z) hs lock refcnt data :
  1 <= refcnt < 100 -> length data = Z.to_nat BSIZE ->
  match hl with
  | [] => D = ∅ /\ sl_locked lock = false /\ hs = [100]
  | [(n, i)] => D = {[100]} /\ n = 100 /\ i = 0%nat /\ lock = mk_sleeplock true 0 /\ hs = []
  | _ => False
  end ->
  txn 1 0 0 hl D 2 hs (demo_cached (demo_buf lock refcnt data) hs).
Proof.
  intros Hr Hsz Hcase. set (b := demo_buf lock refcnt data).
  pose proof (demo_one b hs eq_refl eq_refl eq_refl) as O.
  assert (forall n, view 1 (demo_cached b hs) n = if decide (n = 100) then data else disk_block demo_boot n) as Hv.
  { intros n. rewrite (view_upd 1 0 0 ∅ demo_boot _ 0 _ b n demo_inv O). change (b_blockno b) with 100. case_decide; [done|].
    unfold view. by rewrite demo_lookup. }
  assert (forall n, ref 1 (demo_cached b hs) n = if decide (n = 100) then refcnt else 0) as Hrf.
  { intros n. rewrite (ref_upd 1 0 0 ∅ demo_boot _ 0 _ b n demo_inv O). change (b_blockno b) with 100. case_decide; [done|].
    unfold ref. by rewrite demo_lookup. }
  assert (hl.*1 = [] /\ hs = [100] /\ D = ∅ \/ hl = [(100, 0%nat)] /\ hs = [] /\ D = {[100]}) as Hc.
  { destruct hl as [|[n i] [|]]; naive_solver. }
  split.
  - apply (bc_inv_upd 1 0 0 ∅ _ demo_boot _ 0 (ring_buf 0) b demo_inv O).
    + by apply (on_cpu_ext 0 0 demo_boot _ demo_cpu).
    + intros n Hn. simpl in Hn. destruct Hc as [(-> & _)|(-> & _)]; simpl; set_solver.
    + apply length_replicate.
    + split; simpl; [lia|lia|done|done|lia|]. destruct hl as [|[n i] [|]]; [| |done]; simpl.
      * rewrite decide_False by set_solver. apply Hcase.
      * destruct Hcase as (_ & -> & _ & -> & _). rewrite decide_True by set_solver. simpl. split_and!; done || lia.
  - intros n i Hin. destruct Hc as [(E & _)|(-> & _)].
    + destruct hl; [by apply not_elem_of_nil in Hin|done].
    + apply list_elem_of_singleton in Hin as [= -> ->]. exists b. split_and!; [done|apply Nat.lt_0_succ|done|done].
  - destruct Hc as [(-> & -> & ->)|(-> & -> & ->)]; simpl; set_solver.
  - split; [done|done|done|]. destruct Hc as [(_ & -> & _)|(_ & -> & _)]; [apply demo_home|by eapply good_hdr_nil, demo_home].
  - intros m. rewrite Hrf. case_decide; lia.
  - intros h Hh. rewrite Hrf. destruct Hc as [(-> & -> & _)|(_ & -> & _)]; [|by apply not_elem_of_nil in Hh].
    apply list_elem_of_singleton in Hh as ->. simpl. lia.
  - intros n Hn HD. rewrite Hv. destruct (decide (n = 100)) as [->|]; [|done].
    destruct Hc as [(_ & -> & _)|(_ & _ & ->)]; set_solver.
  - intros n Hn. destruct Hc as [(_ & _ & ->)|(_ & _ & ->)]; [set_solver|].
    apply elem_of_singleton in Hn as ->. unfold in_log, LOGSIZE, MAXOPBLOCKS. lia.
  - pose proof (nfree_upd 1 _ _ _ _ _ O) as Hf. assert (nfree demo_boot = NBUF) as E by reflexivity. rewrite E in Hf.
    unfold NBUF in *. unfold is0 in Hf. simpl in Hf. destruct (refcnt =? 0); lia.
  - reflexivity.
Qed.
Lemma demo_cold : cold 1 0 0 demo_boot.
Proof.
  split; [apply demo_inv|intros m; unfold ref; by rewrite demo_lookup|].
  assert (nfree demo_boot = NBUF) as -> by reflexivity. unfold NBUF. lia.
Qed.
Definition sevens : list Z := replicate (Z.to_nat BSIZE) 7.
Definition demo_logged : kst := demo_cached (demo_buf (mk_sleeplock false 0) 1 sevens) [100].
Definition demo_locked : kst := demo_cached (demo_buf (mk_sleeplock true 0) 1 sevens) [].

Lemma commit_atomic_witness :
  exists s' ws r', commit demo_logged = Done tt s' /\ dwrites s' = reverse ws /\ disk_block s' 100 = sevens /\
    initlog 1 (sb demo_boot) demo_boot = Done tt r'.
Proof.
  assert (txn 1 0 0 [] ∅ 2 [100] demo_logged) as T by (apply demo_txn; [lia|apply length_replicate|done]).
  destruct (commit_atomic 1 Nat.lt_0_1 0 0 2 [100] demo_logged T) as (s' & ws & E & Hw & Hd & Hcrash).
  destruct (Hcrash 0%nat demo_boot 0%nat 0) as (r' & Er & _); [done|apply demo_cold|done|].
  exists s', ws, r'. rewrite app_nil_r in Hw. split_and!; [done|done| |done].
  rewrite Hd by (unfold in_log, LOGSIZE, MAXOPBLOCKS; lia). vm_compute. reflexivity.
Defined.

Lemma log_write_joins_witness :
  exists s', log_write 0 demo_locked = Done tt s' /\ txn 1 0 0 [(100, 0%nat)] ∅ 2 [100] s'.
Proof.
  assert (txn 1 0 0 [(100, 0%nat)] {[100]} 2 [] demo_locked) as T by (apply demo_txn; [lia|apply length_replicate|done]).
  destruct (log_write_joins 1 0 0 Nat.lt_0_1 [(100, 0%nat)] {[100]} 2 [] demo_locked 100 0 T) as (s' & E & T' & _).
  - set_solver.
  - lia.
  - unfold in_log, LOGSIZE, MAXOPBLOCKS. lia.
  - done.
  - done.
  - done.
  - vm_compute. done.
  - exists s'. split; [exact E|]. by rewrite difference_diag_L in T'.
Defined.

Lemma end_op_commits_witness :
  exists s', end_op demo_logged = Done tt s' /\ txn 1 0 0 [] ∅ 2 [] s' /\ disk_block s' 100 = sevens.
Proof.
  assert (txn 1 0 0 [] ∅ 2 [100] demo_logged) as T by (apply demo_txn; [lia|apply length_replicate|done]).
  destruct (end_op_commits 1 0 0 Nat.lt_0_1 2 [100] demo_logged T eq_refl eq_refl) as (s' & E & T' & _ & _ & Hd).
  exists s'. split_and!; [done|done|]. destruct (Hd 100) as [-> _]; [unfold in_log, LOGSIZE, MAXOPBLOCKS; lia|].
  vm_compute. reflexivity.
Defined.

Lemma begin_op_overcommits_witness :
  exists s3 s4, (begin_op ;;; begin_op ;;; begin_op) (up_klog (fun _ => mk_logst 2 30 0 false 1 []) demo_boot) = Done tt s3 /\
    log_write 0 (up_klog (up_lh_block (fun _ => seqZ 100 29)) s3) = Panic "too big a transaction" s4.
Proof.
  destruct (begin_op_overcommits (up_klog (fun _ => mk_logst 2 30 0 false 1 []) demo_boot) (seqZ 100 29) 0
    Nat.lt_0_1 eq_refl eq_refl eq_refl eq_refl eq_refl eq_refl) as (s3 & s4 & E & _ & Ep).
  by exists s3, s4.
Defined.
