(* ===== verification/Fs.v ===== *)
(** * The file system

    [kernel/fs.c]: the block allocator, inodes, the contents of files, directories
    and path names, over the buffer cache and the log. An inode pointer is an
    index in [itable]; a disk inode or a directory entry is a range of bytes of
    its block. *)

From S2P Require Import Prelude CString Bytes Printf State Spinlock Proc Console Sleeplock Virtio Bio Log.

Definition NDIRECT : nat := 12.
Definition NINDIRECT : Z := 256.
Definition MAXFILE : Z := Z.of_nat NDIRECT + NINDIRECT.
Definition FSMAGIC : Z := 0x10203040.
Definition ROOTINO : Z := 1.
Definition T_DIR : Z := 1.
Definition T_FILE : Z := 2.
Definition T_DEVICE : Z := 3.
Definition DIRSIZ : nat := 14.
(** sizeof(struct dinode), sizeof(struct dirent) *)
Definition dinode_size : Z := 64.
Definition dirent_size : Z := 16.
Definition IPB : Z := BSIZE / dinode_size.
Definition BPB : Z := BSIZE * 8.
Definition IBLOCK (i : Z) (b : superblock) : Z := u32 (i / IPB + sb_inodestart b).
Definition BBLOCK (n : Z) (b : superblock) : Z := u32 (n / BPB + sb_bmapstart b).

(** ** The super block *)

Definition sb_of (d : list Z) : superblock :=
  mk_superblock (get32 0 d) (get32 4 d) (get32 8 d) (get32 12 d) (get32 16 d) (get32 20 d) (get32 24 d) (get32 28 d).

Section blocks.
Context `{UartDev} `{BlockDev} `{Env} `{Fuel}.

Definition readsb (dev : Z) : M kst unit :=
  let! bp := bread dev 1 in
  let! x := getb bp in
  modify (up_sb (fun _ => sb_of (b_data x))) ;;;
  brelse bp.
Definition fsinit (dev : Z) : M kst unit :=
  readsb dev ;;;
  let! b := gets sb in
  if negb (sb_magic b =? FSMAGIC) then panic "invalid file system"
  else initlog dev b.

(** [memset(bp->data, 0, BSIZE)] *)
Definition bzero (dev bno : Z) : M kst unit :=
  let! bp := bread dev (u32 bno) in
  modb bp (up_b_data (splice 0 (replicate (Z.to_nat BSIZE) 0))) ;;;
  log_write bp ;;;
  brelse bp.

(** ** The block allocator *)

Definition byte_at (d : list Z) (i : Z) : Z := default 0 (d !! Z.to_nat i).
Definition bit_mask (bi : Z) : Z := Z.shiftl 1 (bi mod 8).
Definition bit_free (d : list Z) (bi : Z) : bool := Z.land (byte_at d (bi / 8)) (bit_mask bi) =? 0.
(** [data[bi/8] |= m] and [data[bi/8] &= ~m], on bytes *)
Definition bit_set (bi : Z) (d : list Z) : list Z :=
  splice (bi / 8) [u8 (Z.lor (byte_at d (bi / 8)) (bit_mask bi))] d.
Definition bit_clear (bi : Z) (d : list Z) : list Z :=
  splice (bi / 8) [u8 (Z.land (byte_at d (bi / 8)) (Z.lnot (bit_mask bi)))] d.

(** The first free bit that [balloc]'s inner loop finds in the bitmap block of block [b]. *)
Definition first_free (size b : Z) (d : list Z) : option Z :=
  find_some (fun bi => if bit_free d bi then Some bi else None) (seqZ 0 (Z.min BPB (size - b))).

(** One turn of [balloc]'s outer loop. *)
Definition balloc_at (dev b : Z) : M kst (option Z) :=
  let! sup := gets sb in
  let! bp := bread dev (BBLOCK b sup) in
  let! x := getb bp in
  match first_free (sb_size sup) b (b_data x) with
  | Some bi =>
      modb bp (up_b_data (bit_set bi)) ;;;
      log_write bp ;;;
      brelse bp ;;;
      bzero dev (b + bi) ;;;
      ret (Some (b + bi))
  | None => brelse bp ;;; ret None
  end.
Definition balloc (dev : Z) : M kst Z :=
  let! sup := gets sb in
  let! r := for_find ((fun k => BPB * k) <$> seqZ 0 ((sb_size sup + BPB - 1) / BPB)) (balloc_at dev) in
  match r with
  | Some b => ret b
  | None => kprintf (chars "balloc: out of blocks" ++ [10]) [] ;;; ret 0
  end.

Definition bfree (dev b : Z) : M kst unit :=
  let! sup := gets sb in
  let! bp := bread dev (BBLOCK b sup) in
  let bi := b mod BPB in
  let! x := getb bp in
  if bit_free (b_data x) bi then panic "freeing free block"
  else
    modb bp (up_b_data (bit_clear bi)) ;;;
    log_write bp ;;;
    brelse bp.
End blocks.

(** ** Inodes *)

Definition geti (i : nat) : M kst inode := let! l := gets itable in must (l !! i).
Definition modi (i : nat) (f : inode -> inode) : M kst unit := geti i ;;; modify (up_itable (alter f i)).

Definition iinit : M kst unit := for_each (seq 0 NINODE) (fun i => initsleeplock (SInode i)).

(** The disk inode at offset [o] of a block. *)
Definition dinode_off (inum : Z) : Z := (inum mod IPB) * dinode_size.
Definition get_addrs (o : Z) (d : list Z) : list Z := (fun k => get32 (o + 12 + 4 * Z.of_nat k) d) <$> seq 0 (S NDIRECT).
Definition load_dinode (o : Z) (d : list Z) (x : inode) : inode :=
  up_i_addrs (fun _ => get_addrs o d) (up_i_size (fun _ => get32 (o + 8) d) (up_i_nlink (fun _ => i16 (get16 (o + 6) d))
    (up_i_minor (fun _ => i16 (get16 (o + 4) d)) (up_i_major (fun _ => i16 (get16 (o + 2) d))
      (up_i_type (fun _ => i16 (get16 o d)) x))))).
Definition store_dinode (x : inode) (o : Z) (d : list Z) : list Z :=
  put_words (o + 12) (i_addrs x) (put32 (o + 8) (i_size x) (put16 (o + 6) (i_nlink x)
    (put16 (o + 4) (i_minor x) (put16 (o + 2) (i_major x) (put16 o (i_type x) d))))).

(** The scan of [iget]: the entry of the inode, or the first unused entry. *)
Fixpoint iget_scan (dev inum : Z) (l : list inode) (k : nat) (empty : option nat) : option nat * option nat :=
  match l with
  | [] => (None, empty)
  | x :: l' =>
      if (0 <? i_ref x) && (i_dev x =? dev) && (i_inum x =? inum) then (Some k, empty)
      else iget_scan dev inum l' (S k)
        (match empty with None => if i_ref x =? 0 then Some k else None | Some _ => empty end)
  end.

Definition iget (dev inum : Z) : M kst nat :=
  acquire ItableLock ;;;
  let! l := gets itable in
  match iget_scan dev inum l 0 None with
  | (Some i, _) =>
      modi i (up_i_ref (fun r => r + 1)) ;;;
      release ItableLock ;;;
      ret i
  | (None, None) => panic "iget: no inodes"
  | (None, Some i) =>
      modi i (fun x => up_i_valid (fun _ => false) (up_i_ref (fun _ => 1) (up_i_inum (fun _ => inum)
        (up_i_dev (fun _ => dev) x)))) ;;;
      release ItableLock ;;;
      ret i
  end.

Definition idup (ip : nat) : M kst nat :=
  acquire ItableLock ;;;
  modi ip (up_i_ref (fun r => r + 1)) ;;;
  release ItableLock ;;;
  ret ip.

Definition iunlock (ip : nat) : M kst unit :=
  let! h := holdingsleep (SInode ip) in
  let! x := geti ip in
  if negb h || (i_ref x <? 1) then panic "iunlock" else releasesleep (SInode ip).

(** [stati] *)
Record stat : Type := mk_stat { st_dev : Z; st_ino : Z; st_type : Z; st_nlink : Z; st_size : Z }.
Definition stati (x : inode) : stat := mk_stat (i32 (i_dev x)) (i_inum x) (i_type x) (i_nlink x) (i_size x).

Section inodes.
Context `{UartDev} `{BlockDev} `{Env} `{Fuel}.

(** One turn of [ialloc]'s loop. *)
Definition ialloc_at (dev type inum : Z) : M kst (option nat) :=
  let! sup := gets sb in
  let! bp := bread dev (IBLOCK inum sup) in
  let! x := getb bp in
  let o := dinode_off inum in
  if get16 o (b_data x) =? 0 then
    modb bp (up_b_data (fun d => put16 o type (splice o (replicate (Z.to_nat dinode_size) 0) d))) ;;;
    log_write bp ;;;
    brelse bp ;;;
    let! ip := iget dev inum in
    ret (Some ip)
  else brelse bp ;;; ret None.
Definition ialloc (dev type : Z) : M kst (option nat) :=
  let! sup := gets sb in
  let! r := for_find (seqZ 1 (sb_ninodes sup - 1)) (ialloc_at dev type) in
  match r with
  | Some ip => ret (Some ip)
  | None => kprintf (chars "ialloc: no inodes" ++ [10]) [] ;;; ret None
  end.

Definition iupdate (ip : nat) : M kst unit :=
  let! x := geti ip in
  let! sup := gets sb in
  let! bp := bread (i_dev x) (IBLOCK (i_inum x) sup) in
  let! x := geti ip in
  modb bp (up_b_data (store_dinode x (dinode_off (i_inum x)))) ;;;
  log_write bp ;;;
  brelse bp.

Definition ilock (ip : nat) : M kst unit :=
  let! x := geti ip in
  if i_ref x <? 1 then panic "ilock"
  else
    acquiresleep (SInode ip) ;;;
    let! x := geti ip in
    when (negb (i_valid x)) (
      let! sup := gets sb in
      let! bp := bread (i_dev x) (IBLOCK (i_inum x) sup) in
      let! b := getb bp in
      modi ip (load_dinode (dinode_off (i_inum x)) (b_data b)) ;;;
      brelse bp ;;;
      modi ip (up_i_valid (fun _ => true)) ;;;
      let! x := geti ip in
      when (i_type x =? 0) (panic "ilock: no type")).

(** ** The contents of an inode *)

Definition set_addr (k : nat) (a : Z) : inode -> inode := up_i_addrs (<[k := a]>).

Definition bmap (ip : nat) (bn : Z) : M kst Z :=
  let! x := geti ip in
  if bn <? Z.of_nat NDIRECT then
    let! addr := must (i_addrs x !! Z.to_nat bn) in
    if addr =? 0 then
      let! addr := balloc (i_dev x) in
      if addr =? 0 then ret 0
      else modi ip (set_addr (Z.to_nat bn) addr) ;;; ret addr
    else ret addr
  else
    let bn := bn - Z.of_nat NDIRECT in
    if bn <? NINDIRECT then
      let! addr := must (i_addrs x !! NDIRECT) in
      let! addr :=
        (if addr =? 0 then
           let! addr := balloc (i_dev x) in
           when (negb (addr =? 0)) (modi ip (set_addr NDIRECT addr)) ;;; ret addr
         else ret addr) in
      if addr =? 0 then ret 0
      else
        let! bp := bread (i_dev x) addr in
        let! b := getb bp in
        let addr := get32 (4 * bn) (b_data b) in
        let! addr :=
          (if addr =? 0 then
             let! addr := balloc (i_dev x) in
             when (negb (addr =? 0)) (modb bp (up_b_data (put32 (4 * bn) addr)) ;;; log_write bp) ;;; ret addr
           else ret addr) in
        brelse bp ;;;
        ret addr
    else panic "bmap: out of range".

Definition itrunc (ip : nat) : M kst unit :=
  for_each (seq 0 NDIRECT) (fun i =>
    let! x := geti ip in
    let! a := must (i_addrs x !! i) in
    when (negb (a =? 0)) (bfree (i_dev x) a ;;; modi ip (set_addr i 0))) ;;;
  let! x := geti ip in
  let! a := must (i_addrs x !! NDIRECT) in
  when (negb (a =? 0)) (
    let! bp := bread (i_dev x) a in
    for_each (seqZ 0 NINDIRECT) (fun j =>
      let! b := getb bp in
      let aj := get32 (4 * j) (b_data b) in
      when (negb (aj =? 0)) (bfree (i_dev x) aj)) ;;;
    brelse bp ;;;
    bfree (i_dev x) a ;;;
    modi ip (set_addr NDIRECT 0)) ;;;
  modi ip (up_i_size (fun _ => 0)) ;;;
  iupdate ip.

Definition iput (ip : nat) : M kst unit :=
  acquire ItableLock ;;;
  let! x := geti ip in
  when ((i_ref x =? 1) && i_valid x && (i_nlink x =? 0)) (
    acquiresleep (SInode ip) ;;;
    release ItableLock ;;;
    itrunc ip ;;;
    modi ip (up_i_type (fun _ => 0)) ;;;
    iupdate ip ;;;
    modi ip (up_i_valid (fun _ => false)) ;;;
    releasesleep (SInode ip) ;;;
    acquire ItableLock) ;;;
  modi ip (up_i_ref (fun r => r - 1)) ;;;
  release ItableLock.

Definition iunlockput (ip : nat) : M kst unit := iunlock ip ;;; iput ip.

(** The loop of [readi]: at most [n / BSIZE + 2] blocks. [got] is what was copied to
    a kernel destination so far. *)
Fixpoint readi_loop (k : nat) (ip : nat) (dst : kaddr) (off n tot : Z) (got : list Z) : M kst (Z * list Z) :=
  match k with
  | O => nofuel
  | S k' =>
      if tot <? n then
        let! addr := bmap ip (off / BSIZE) in
        if addr =? 0 then ret (tot, got)
        else
          let! x := geti ip in
          let! bp := bread (i_dev x) addr in
          let m := Z.min (n - tot) (BSIZE - off mod BSIZE) in
          let! b := getb bp in
          let data := sub (off mod BSIZE) m (b_data b) in
          let! r := either_copyout dst tot data in
          if r =? -1 then brelse bp ;;; ret (-1, got)
          else brelse bp ;;; readi_loop k' ip dst (u32 (off + m)) n (tot + m) (got ++ data)
      else ret (tot, got)
  end.
(** The result, and the bytes stored at a kernel destination. *)
Definition readi (ip : nat) (dst : kaddr) (off n : Z) : M kst (Z * list Z) :=
  let! x := geti ip in
  if (i_size x <? off) || (u32 (off + n) <? off) then ret (0, [])
  else
    let n := if i_size x <? u32 (off + n) then i_size x - off else n in
    readi_loop (Z.to_nat (n / BSIZE + 3)) ip dst off n 0 [].

Fixpoint writei_loop (k : nat) (ip : nat) (src : kaddr) (off n tot : Z) : M kst (Z * Z) :=
  match k with
  | O => nofuel
  | S k' =>
      if tot <? n then
        let! addr := bmap ip (off / BSIZE) in
        if addr =? 0 then ret (tot, off)
        else
          let! x := geti ip in
          let! bp := bread (i_dev x) addr in
          let m := Z.min (n - tot) (BSIZE - off mod BSIZE) in
          let! (r, l) := either_copyin src tot m in
          modb bp (up_b_data (splice (off mod BSIZE) l)) ;;;
          if r =? -1 then brelse bp ;;; ret (tot, off)
          else
            log_write bp ;;;
            brelse bp ;;;
            writei_loop k' ip src (u32 (off + m)) n (tot + m)
      else ret (tot, off)
  end.
Definition writei (ip : nat) (src : kaddr) (off n : Z) : M kst Z :=
  let! x := geti ip in
  if (i_size x <? off) || (u32 (off + n) <? off) then ret (-1)
  else if MAXFILE * BSIZE <? u32 (off + n) then ret (-1)
  else
    let! (tot, off) := writei_loop (Z.to_nat (n / BSIZE + 3)) ip src off n 0 in
    let! x := geti ip in
    when (i_size x <? off) (modi ip (up_i_size (fun _ => off))) ;;;
    iupdate ip ;;;
    ret tot.
End inodes.

(** ** Directories *)

(** [strncmp(s, t, DIRSIZ)] on arrays of characters; a shorter list is followed by
    a zero byte. *)
Fixpoint namecmp_loop (n : nat) (s t : list Z) : Z :=
  match n with
  | O => 0
  | S n' =>
      let a := default 0 (head s) in
      let b := default 0 (head t) in
      if (a =? 0) || negb (a =? b) then a - b else namecmp_loop n' (tail s) (tail t)
  end.
Definition namecmp (s t : list Z) : Z := namecmp_loop DIRSIZ s t.

(** [strncpy(de.name, name, DIRSIZ)] *)
Fixpoint dir_name (n : nat) (name : list Z) : list Z :=
  match n with
  | O => []
  | S n' =>
      match name with
      | [] => replicate n 0
      | c :: name' => if c =? 0 then replicate n 0 else c :: dir_name n' name'
      end
  end.
(** struct dirent *)
Definition de_inum (d : list Z) : Z := get16 0 d.
Definition de_name (d : list Z) : list Z := sub 2 (Z.of_nat DIRSIZ) d.
Definition mk_dirent (inum : Z) (name : list Z) : list Z := le_bytes 2 inum ++ dir_name DIRSIZ name.

Definition dir_offsets (size : Z) : list Z := (fun k => dirent_size * k) <$> seqZ 0 ((size + dirent_size - 1) / dirent_size).

Section directories.
Context `{UartDev} `{BlockDev} `{Env} `{Fuel}.

(** The entry at [off]. *)
Definition read_dirent (dp : nat) (off : Z) (msg : string) : M kst (list Z) :=
  let! (r, de) := readi dp (KernAddr []) off dirent_size in
  if r =? dirent_size then ret de else panic msg.

(** The inode, and the offset of its entry. *)
Definition dirlookup (dp : nat) (name : list Z) : M kst (option (nat * Z)) :=
  let! x := geti dp in
  if negb (i_type x =? T_DIR) then panic "dirlookup not DIR"
  else
    for_find (dir_offsets (i_size x)) (fun off =>
      let! de := read_dirent dp off "dirlookup read" in
      if de_inum de =? 0 then ret None
      else if namecmp name (de_name de) =? 0 then
        let! x := geti dp in
        let! ip := iget (i_dev x) (de_inum de) in
        ret (Some (ip, off))
      else ret None).

Definition dirlink (dp : nat) (name : list Z) (inum : Z) : M kst Z :=
  let! r := dirlookup dp name in
  match r with
  | Some (ip, _) => iput ip ;;; ret (-1)
  | None =>
      let! x := geti dp in
      let! r := for_find (dir_offsets (i_size x)) (fun off =>
        let! de := read_dirent dp off "dirlink read" in
        if de_inum de =? 0 then ret (Some off) else ret None) in
      let off := match r with Some o => o | None => dirent_size * ((i_size x + dirent_size - 1) / dirent_size) end in
      let! w := writei dp (KernAddr (mk_dirent inum name)) off dirent_size in
      ret (if w =? dirent_size then 0 else -1)
  end.

(** ** Path names *)

Definition slash : Z := 47.
Fixpoint skip_slashes (path : list Z) : list Z :=
  match path with
  | c :: path' => if c =? slash then skip_slashes path' else path
  | [] => []
  end.
(** The characters up to the next slash, and the rest. *)
Fixpoint span_elem (path : list Z) : list Z * list Z :=
  match path with
  | [] => ([], [])
  | c :: path' =>
      if c =? slash then ([], path)
      else let (e, r) := span_elem path' in (c :: e, r)
  end.
(** The rest of the path and the name of the element. A path is the bytes of the C
    string; a name is those before its zero byte, at most [DIRSIZ]. *)
Definition skipelem (path : list Z) : option (list Z * list Z) :=
  match skip_slashes path with
  | [] => None
  | p =>
      let (e, r) := span_elem p in
      Some (skip_slashes r, take DIRSIZ e)
  end.

Fixpoint namex_loop (k : nat) (ip : nat) (path : list Z) (parent : bool) (name : list Z) : M kst (option (nat * list Z)) :=
  match k with
  | O => nofuel
  | S k' =>
      match skipelem path with
      | Some (path', name) =>
          ilock ip ;;;
          let! x := geti ip in
          if negb (i_type x =? T_DIR) then iunlockput ip ;;; ret None
          else if parent && bool_decide (path' = []) then iunlock ip ;;; ret (Some (ip, name))
          else
            let! r := dirlookup ip name in
            match r with
            | None => iunlockput ip ;;; ret None
            | Some (next, _) => iunlockput ip ;;; namex_loop k' next path' parent name
            end
      | None => if parent then iput ip ;;; ret None else ret (Some (ip, name))
      end
  end.
Definition namex (path : list Z) (parent : bool) : M kst (option (nat * list Z)) :=
  let! ip :=
    (if bool_decide (head path = Some slash) then iget ROOTDEV ROOTINO
     else
       let! i := curproc in
       let! p := getp i in
       let! cwd := must (p_cwd p) in
       idup cwd) in
  namex_loop (S (length path)) ip path parent [].
Definition namei (path : list Z) : M kst (option nat) :=
  let! r := namex path false in ret (fst <$> r).
Definition nameiparent (path : list Z) : M kst (option (nat * list Z)) := namex path true.
End directories.
