(* ===== verification/FileData.v ===== *)
(** * The contents of files

    What [readi] returns, in terms of the blocks as the buffer cache shows them: a
    file is the blocks its inode lists, directly and in its indirect block. *)

From S2P Require Import Prelude CString Bytes State Spinlock Proc Console Sleeplock Virtio Bio BufCache Log Recovery CrashSafety Fs.

(** The indirect block of an inode, the address of its [k]th block, its [j]th byte, and
    the bytes in a range; [vw] is the content of the disk's blocks. *)
Definition ind_block (x : inode) : Z := default 0 (i_addrs x !! NDIRECT).
Definition baddr (vw : Z -> list Z) (x : inode) (k : Z) : Z :=
  if k <? Z.of_nat NDIRECT then default 0 (i_addrs x !! Z.to_nat k)
  else get32 (4 * (k - Z.of_nat NDIRECT)) (vw (ind_block x)).
Definition fbyte (vw : Z -> list Z) (x : inode) (j : Z) : Z :=
  default 0 (vw (baddr vw x (j / BSIZE)) !! Z.to_nat (j mod BSIZE)).
Definition fdata (vw : Z -> list Z) (x : inode) (off n : Z) : list Z := fbyte vw x <$> seqZ off n.

(** Every block of the file is allocated. *)
Record no_holes (vw : Z -> list Z) (x : inode) : Prop := {
  nh_len : length (i_addrs x) = S NDIRECT;
  nh_size : 0 <= i_size x <= MAXFILE * BSIZE;
  nh_block k : 0 <= k -> k * BSIZE < i_size x -> 0 < baddr vw x k < 2^31;
  nh_ind : Z.of_nat NDIRECT * BSIZE < i_size x -> 0 < ind_block x < 2^31 }.

Lemma length_fdata vw x off n : 0 <= n -> length (fdata vw x off n) = Z.to_nat n.
Proof. intros. unfold fdata. by rewrite length_fmap, length_seqZ. Qed.
Lemma fdata_app vw x off n m : 0 <= n -> 0 <= m -> fdata vw x off (n + m) = fdata vw x off n ++ fdata vw x (off + n) m.
Proof. intros. unfold fdata. by rewrite seqZ_app, fmap_app by lia. Qed.

(** A range inside one block. *)
Lemma fdata_block vw x off m :
  0 <= off -> 0 <= m <= BSIZE - off mod BSIZE -> length (vw (baddr vw x (off / BSIZE))) = Z.to_nat BSIZE ->
  sub (off mod BSIZE) m (vw (baddr vw x (off / BSIZE))) = fdata vw x off m.
Proof.
  intros Ho Hm Hl. unfold BSIZE in *. pose proof (Z.mod_pos_bound off 1024 ltac:(lia)). apply list_eq. intros i. unfold sub, fdata.
  destruct (decide (i < Z.to_nat m)%nat) as [Hi|Hi].
  - rewrite lookup_take_lt, lookup_drop by done. rewrite list_lookup_fmap, lookup_seqZ_lt by lia. simpl. unfold fbyte, BSIZE.
    assert ((off + Z.of_nat i) / 1024 = off / 1024 /\ (off + Z.of_nat i) mod 1024 = off mod 1024 + Z.of_nat i) as [-> ->] by zlia.
    rewrite Z2Nat.inj_add, Nat2Z.id by lia.
    destruct (lookup_lt_is_Some_2 (vw (baddr vw x (off / 1024))) (Z.to_nat (off mod 1024) + i)) as [z Hz]; [lia|]. by rewrite Hz.
  - rewrite lookup_take_ge, (lookup_ge_None_2 (fbyte vw x <$> _)); [done| |lia].
    rewrite length_fmap, length_seqZ. lia.
Qed.

(** ** Reading blocks *)

Section reading.
Context `{UartDev} `{BlockDev} `{Env} `{Fuel} `{!BlockDevOk} (dev : Z) (me : nat) (pid : Z).
Hypothesis fuel_pos : (0 < fuel)%nat.
Variables (s0 : kst) (vw : Z -> list Z) (rf : Z -> Z) (nf : nat) (ws : list (Z * list Z)).
Hypothesis refs_few : few rf.
Hypothesis a_free : (0 < nf)%nat.
Hypothesis clean : forall n, rf n = 0 -> vw n = blk (apply_writes ws (disk s0)) n.

(** Between operations, and with block [n] locked in buffer [i]. *)
Definition at_rest (s : kst) : Prop := cst dev me pid s0 s [] vw rf nf ws.
Definition reading (n : Z) (i : nat) (s : kst) : Prop :=
  cst dev me pid s0 s [(n, i)] vw (fupd rf n (rf n + 1)) (nf - is0 (rf n)) ws.

Lemma rest_bread n s : at_rest s -> 0 <= n < 2^31 -> wp (bread dev n) (fun i => reading n i) s.
Proof. intros C Hn. pose proof (refs_few n). by apply cst_bread; [done|done|set_solver|done|lia|]. Qed.
Lemma reading_getb n i s :
  reading n i s -> wp (getb i) (fun b s' => s' = s /\ b_data b = vw n /\ length (vw n) = Z.to_nat BSIZE) s.
Proof.
  intros C. destruct (cst_locked dev me pid fuel_pos _ _ _ _ _ _ _ n i C) as (b & Hi & _ & Hd & Hl & _); [set_solver|].
  unfold wp. by rewrite (getb_done i s b Hi).
Qed.
Lemma reading_brelse n i s : reading n i s -> wp (brelse i) (fun _ => at_rest) s.
Proof.
  intros C. pose proof (refs_few n). eapply wp_mono; [apply (cst_brelse dev me pid fuel_pos _ _ _ [] _ _ _ _ n i C); [done|set_solver|]|].
  { rewrite fupd_eq. intros ?. apply clean. lia. }
  intros [] s' C'. cbv beta in C'. rewrite fupd_eq in C'. unfold at_rest.
  replace (nf - is0 (rf n) + is0 (rf n + 1 - 1))%nat with nf in C'
    by (rewrite Z.add_simpl_r; unfold is0; destruct (Z.eqb_spec (rf n) 0); lia).
  eapply cst_ext; [exact C'|done|]. intros m. unfold fupd. repeat case_decide; subst; lia || done.
Qed.
Lemma rest_geti ip x s : at_rest s -> itable s0 !! ip = Some x -> geti ip s = Done x s.
Proof.
  intros C Hx. unfold geti. mrun. rewrite (c_frame _ _ _ _ _ _ _ _ _ _ C). cbn [itable up_bufs up_procs up_disk up_dwrites up_vdisk].
  by rewrite Hx.
Qed.

(** [bmap] of an allocated block. *)
Lemma bmap_mapped ip x k s :
  at_rest s -> itable s0 !! ip = Some x -> i_dev x = dev -> no_holes vw x -> 0 <= k -> k * BSIZE < i_size x ->
  wp (bmap ip k) (fun a s' => a = baddr vw x k /\ at_rest s') s.
Proof.
  intros C Hx Hdev [Hl Hsz Hb Hind] Hk Hks. specialize (Hb k Hk Hks). unfold bmap. apply wp_bind. unfold wp at 1.
  rewrite (rest_geti ip x s C Hx). unfold baddr in *. unfold BSIZE, MAXFILE, NINDIRECT, NDIRECT in *.
  destruct (Z.ltb_spec k (Z.of_nat 12)) as [Hlt|Hge].
  - destruct (i_addrs x !! Z.to_nat k) as [a|] eqn:Ea; [|simpl in Hb; lia]. simpl in Hb.
    apply wp_bind. unfold wp at 1. cbn [must ret]. rewrite (proj2 (Z.eqb_neq a 0)) by lia. by apply wp_ret.
  - specialize (Hind ltac:(lia)). unfold ind_block, NDIRECT in *. rewrite (proj2 (Z.ltb_lt (k - Z.of_nat 12) 256)) by lia.
    destruct (i_addrs x !! 12%nat) as [a|] eqn:Ea; [|simpl in Hind; lia]. simpl in Hind, Hb.
    apply wp_bind. unfold wp at 1. cbn [must ret]. rewrite (proj2 (Z.eqb_neq a 0)) by lia.
    apply wp_bind, wp_ret. rewrite (proj2 (Z.eqb_neq a 0)) by lia. rewrite Hdev.
    apply wp_bind. eapply wp_mono; [by apply rest_bread; [|lia]|]. intros i s1 C1. cbv beta.
    apply wp_bind. eapply wp_mono; [by apply (reading_getb a i)|]. intros b s2 (-> & Hd & _). cbv beta. rewrite Hd.
    cbv zeta. simpl. rewrite (proj2 (Z.eqb_neq _ 0)) by lia. apply wp_bind, wp_ret.
    apply wp_bind. eapply wp_mono; [by apply (reading_brelse a i)|]. intros [] s2 C2. by apply wp_ret.
Qed.

(** The loop of [readi] into kernel memory; [k] turns are enough when [k] is more than
    the number of blocks left. *)
Lemma readi_loop_ok ip x l off0 n : forall k tot s,
  at_rest s -> itable s0 !! ip = Some x -> i_dev x = dev -> no_holes vw x ->
  0 <= off0 -> off0 + n <= i_size x -> 0 <= tot <= n -> (0 < k)%nat ->
  (tot < n -> (off0 + n + BSIZE - 1) / BSIZE - (off0 + tot) / BSIZE < Z.of_nat k) ->
  wp (readi_loop k ip (KernAddr l) (off0 + tot) n tot (fdata vw x off0 tot))
    (fun r s' => r = (n, fdata vw x off0 n) /\ at_rest s') s.
Proof.
  induction k as [|k IH]; intros tot s C Hx Hdev Hnh Ho Hn Ht Hk Hfuel; [lia|]. cbn [readi_loop].
  destruct (Z.ltb_spec tot n) as [Hlt|Hge]; [|replace tot with n by lia; by apply wp_ret].
  specialize (Hfuel Hlt). set (off := off0 + tot) in *. pose proof (nh_size _ _ Hnh) as Hsz.
  unfold BSIZE, MAXFILE, NINDIRECT, NDIRECT in *. assert (off / 1024 * 1024 < i_size x /\ 0 <= off / 1024) as [Hb1 Hb2] by zlia.
  pose proof (nh_block _ _ Hnh (off / 1024) Hb2 Hb1) as Hb.
  apply wp_bind. eapply wp_mono; [by apply bmap_mapped|]. intros a s1 [-> C1]. cbv beta.
  rewrite (proj2 (Z.eqb_neq _ 0)) by lia. apply wp_bind. unfold wp at 1. rewrite (rest_geti ip x s1 C1 Hx). rewrite Hdev.
  apply wp_bind. eapply wp_mono; [by apply rest_bread; [|lia]|]. intros i s2 C2. cbv beta zeta.
  apply wp_bind. eapply wp_mono; [by apply (reading_getb (baddr vw x (off / 1024)) i)|]. intros b s3 (-> & Hd & Hl). cbv beta.
  apply wp_bind, wp_ret. change (0 =? -1) with false. cbv iota.
  apply wp_bind. eapply wp_mono; [by apply (reading_brelse (baddr vw x (off / 1024)) i)|]. intros [] s3 C3. cbv beta.
  set (m := Z.min (n - tot) (1024 - off mod 1024)). pose proof (Z.mod_pos_bound off 1024 ltac:(lia)).
  assert (0 < m <= n - tot /\ m <= 1024 - off mod 1024) as [Hm1 Hm2] by lia.
  pose proof (fdata_block vw x off m ltac:(lia) ltac:(unfold BSIZE; lia) Hl) as Hfb. unfold BSIZE in Hfb. rewrite Hd, Hfb.
  pose proof (fdata_app vw x off0 tot m ltac:(lia) ltac:(lia)) as Ha. fold off in Ha. rewrite <- Ha. rewrite u32_small by lia. unfold off. rewrite <- Z.add_assoc.
  apply IH; try done; try lia.
  - destruct (Nat.eq_dec k 0) as [->|]; [|lia]. exfalso. unfold off in Hfuel. zlia.
  - intros Hlt'. assert (m = 1024 - off mod 1024) as Em by lia.
    assert ((off0 + (tot + m)) / 1024 = off / 1024 + 1) as -> by (rewrite Em; unfold off; zlia). unfold off in *. lia.
Qed.

(** The range [readi] reads: cut at the end of the file; empty if it starts beyond the
    end or wraps around. *)
Definition read_len (x : inode) (off n : Z) : Z :=
  if decide (off <= i_size x /\ off + n < 2^32) then Z.min n (i_size x - off) else 0.

Lemma readi_rest ip x l off n s :
  at_rest s -> itable s0 !! ip = Some x -> i_dev x = dev -> no_holes vw x -> 0 <= off < 2^32 -> 0 <= n < 2^32 ->
  wp (readi ip (KernAddr l) off n) (fun r s' => r = (read_len x off n, fdata vw x off (read_len x off n)) /\ at_rest s') s.
Proof.
  intros C Hx Hdev Hnh Ho Hn. pose proof (nh_size _ _ Hnh) as Hsz. unfold BSIZE, MAXFILE, NINDIRECT, NDIRECT in Hsz.
  unfold readi. apply wp_bind. unfold wp at 1. rewrite (rest_geti ip x s C Hx).
  unfold read_len, u32. case_decide as E.
  - rewrite Z.mod_small by lia. rewrite (proj2 (Z.ltb_ge _ _)), (proj2 (Z.ltb_ge _ _)) by lia. cbv beta iota zeta delta [orb].
    replace (if i_size x <? off + n then i_size x - off else n) with (Z.min n (i_size x - off))
      by (destruct (Z.ltb_spec (i_size x) (off + n)); lia).
    set (r := Z.min n (i_size x - off)). assert (fdata vw x off 0 = []) as E0 by done.
    pose proof (readi_loop_ok ip x l off r (Z.to_nat (r / BSIZE + 3)) 0 s C Hx Hdev Hnh) as L.
    rewrite Z.add_0_r, E0 in L. apply L; unfold BSIZE; try lia; zlia.
  - assert ((i_size x <? off) || ((off + n) mod 2^32 <? off) = true) as ->; [|by apply wp_ret].
    apply orb_true_iff. destruct (decide (i_size x < off)) as [?|?]; [left; lia|right].
    apply Z.ltb_lt. assert (2^32 <= off + n) by lia. zlia.
Qed.
End reading.

(** ** [readi] in a transaction *)

Section readi.
Context `{UartDev} `{BlockDev} `{Env} `{Fuel} `{!BlockDevOk} (dev : Z) (me : nat) (pid : Z).
Hypothesis fuel_pos : (0 < fuel)%nat.

(** Reading blocks does not change the transaction. *)
Lemma txn_rest start hs s s' :
  txn dev me pid [] ∅ start hs s ->
  cst dev me pid s s' [] (view dev s) (ref dev s) (nfree s) [] -> txn dev me pid [] ∅ start hs s'.
Proof.
  intros [Hc Ha Hdi Hlo Hf Hp Hcl Hho Hfr He] C.
  pose proof (c_disk _ _ _ _ _ _ _ _ _ _ C) as Hd. change (apply_writes [] (disk s)) with (disk s) in Hd.
  assert (forall n, disk_block s' n = disk_block s n) as Hdb by (intros n; unfold disk_block; by rewrite Hd).
  split; try done.
  - apply C.
  - intros n i Hin. by apply not_elem_of_nil in Hin.
  - destruct Hlo. pose proof (cst_klog _ _ _ _ _ _ _ _ _ _ C) as Ek. split; rewrite ?Ek; done.
  - intros m. rewrite (c_ref _ _ _ _ _ _ _ _ _ _ C). apply Hf.
  - intros h Hh. rewrite (c_ref _ _ _ _ _ _ _ _ _ _ C). by apply Hp.
  - intros n Hn HD. rewrite (c_view _ _ _ _ _ _ _ _ _ _ C), Hdb. by apply Hcl.
  - by rewrite (c_nfree _ _ _ _ _ _ _ _ _ _ C).
  - by rewrite Hdb.
Qed.

Lemma txn_clean start hs s :
  txn dev me pid [] ∅ start hs s -> forall n, ref dev s n = 0 -> view dev s n = blk (apply_writes [] (disk s)) n.
Proof.
  intros T n Hn. apply (t_clean _ _ _ _ _ _ _ _ T); [|set_solver]. intros Hin. pose proof (t_pinned0 _ _ _ _ _ _ T n Hin). lia.
Qed.

(** C12. [readi] into kernel memory, as directories and programs are read, from a file that has
    a block for every part of its size, returns exactly the bytes of the file in the requested
    range, cut at the end of the file; a range that starts beyond the end or
    wraps around reads nothing. The blocks, the inode table and the running
    transaction stay as they are. Reads to a user address, where a page may be missing,
    and files with holes, where [bmap] allocates, are not covered. *)
Theorem readi_reads start hs s ip x l off n :
  txn dev me pid [] ∅ start hs s -> itable s !! ip = Some x -> i_dev x = dev -> no_holes (view dev s) x ->
  0 <= off < 2^32 -> 0 <= n < 2^32 ->
  let n' := read_len x off n in
  exists s', readi ip (KernAddr l) off n s = Done (n', fdata (view dev s) x off n') s' /\
    txn dev me pid [] ∅ start hs s' /\ (forall m, view dev s' m = view dev s m) /\ itable s' = itable s.
Proof.
  intros T Hx Hdev Hnh Ho Hn n'.
  assert (cst dev me pid s s [] (view dev s) (ref dev s) (nfree s) []) as C by (by apply cst_init; [apply T| |]).
  pose proof (readi_rest dev me pid fuel_pos s (view dev s) (ref dev s) (nfree s) [] (t_few _ _ _ _ _ _ _ _ T) (t_free _ _ _ _ _ _ _ _ T)
    (txn_clean start hs s T) ip x l off n s C Hx Hdev Hnh Ho Hn) as W.
  apply wp_done in W as ([r1 r2] & s' & E & [= -> ->] & C'). exists s'. split; [exact E|]. split_and!.
  - by apply (txn_rest start hs s).
  - apply C'.
  - by rewrite (c_frame _ _ _ _ _ _ _ _ _ _ C').
Qed.
End readi.

(** ** A machine with a file *)

#[local] Existing Instance demo_disk.
#[local] Existing Instance demo_disk_env.
#[local] Existing Instance demo_disk_ok.
#[local] Existing Instance demo_fuel.
#[local] Instance demo_uart : UartDev := fun _ => true.

(** Inode 0 of the table is a file of [size] bytes in block 100, which holds [data]. *)
Definition demo_inode (type size : Z) : inode :=
  mk_inode 1 1 1 (mk_sleeplock false 0) true type 0 0 1 size (100 :: replicate 12 0).
Definition demo_file (type size : Z) (data : list Z) : kst :=
  up_itable (<[0%nat := demo_inode type size]>) (demo_cached (demo_buf (mk_sleeplock false 0) 1 data) [100]).
Lemma demo_file_txn type size data :
  length data = Z.to_nat BSIZE -> txn 1 0 0 [] ∅ 2 [100] (demo_file type size data).
Proof.
  intros Hl. assert (txn 1 0 0 [] ∅ 2 [100] (demo_cached (demo_buf (mk_sleeplock false 0) 1 data) [100])) as T by (apply demo_txn; [lia|done|done]).
  apply (txn_ext 1 0 0 [] ∅ 2 [100] _ _ T); [done|done| |].
  - apply (on_cpu_ext 0 0 (demo_cached (demo_buf (mk_sleeplock false 0) 1 data) [100])); [apply T|done..].
  - destruct (t_log _ _ _ _ _ _ _ _ T). by split.
Qed.
Lemma demo_file_mapped type size vw : 0 <= size <= 1024 -> no_holes vw (demo_inode type size).
Proof.
  intros Hs. split; simpl; [done| |intros k Hk Hks|]; unfold MAXFILE, NINDIRECT, NDIRECT, BSIZE in *; [lia| |lia].
  assert (k = 0) as -> by lia. done.
Qed.

Definition demo_text : list Z := chars "hello, world" ++ replicate 1012 0.
Lemma readi_reads_witness :
  exists s', readi 0 (KernAddr []) 7 100 (demo_file T_FILE 12 demo_text) = Done (5, chars "world") s'.
Proof.
  destruct (readi_reads 1 0 0 Nat.lt_0_1 2 [100] (demo_file T_FILE 12 demo_text) 0 (demo_inode T_FILE 12) [] 7 100) as (s' & E & _);
    [by apply demo_file_txn|done|done|by apply demo_file_mapped|lia|lia|].
  exists s'. etransitivity; [exact E|]. f_equal; vm_compute; reflexivity.
Defined.
