(* ===== verification/Itable.v ===== *)
(** * The inode table and directories

    The table of in-memory inodes as a count of references per inode, what [iget]
    does in these terms, and what [dirlookup] finds in a directory. *)

From S2P Require Import Prelude CString Bytes State Spinlock Proc Kalloc Console Sleeplock Virtio Bio BufCache Log Recovery CrashSafety Fs FileData.

(** ** References *)

Definition is_inode (dev inum : Z) (x : inode) : Prop := 0 < i_ref x /\ i_dev x = dev /\ i_inum x = inum.
#[global] Instance is_inode_dec dev inum x : Decision (is_inode dev inum x) := _.

(** How often inode [inum] of [dev] is referenced. *)
Definition iref (l : list inode) (dev inum : Z) : Z :=
  match list_find (is_inode dev inum) l with Some (_, x) => i_ref x | None => 0 end.

(** No inode has two entries. *)
Record it_ok (l : list inode) : Prop := {
  it_len : length l = NINODE;
  it_ref i x : l !! i = Some x -> 0 <= i_ref x;
  it_uniq dev inum i j x y : l !! i = Some x -> l !! j = Some y -> is_inode dev inum x -> is_inode dev inum y -> i = j }.

Lemma iget_scan_spec dev inum l : forall k empty,
  iget_scan dev inum l k empty =
    (match list_find (is_inode dev inum) l with
     | Some (i, _) => (Some (k + i)%nat, snd (iget_scan dev inum l k empty))
     | None => (None, match empty with
         | Some e => Some e
         | None => (fun p => k + p.1)%nat <$> list_find (fun x => i_ref x = 0) l
         end)
     end).
Proof.
  induction l as [|x l IH]; intros k empty; [by destruct empty|]. cbn [iget_scan list_find].
  destruct (decide (is_inode dev inum x)) as [[Hr [Hd Hn]]|Hno].
  - rewrite (proj2 (Z.ltb_lt _ _)), Hd, Hn, !Z.eqb_refl by done. simpl. by rewrite Nat.add_0_r.
  - assert ((0 <? i_ref x) && (i_dev x =? dev) && (i_inum x =? inum) = false) as ->.
    { apply not_true_iff_false. intros [[?%Z.ltb_lt ?%Z.eqb_eq]%andb_true_iff ?%Z.eqb_eq]%andb_true_iff. by apply Hno. }
    set (e := match empty with None => _ | Some _ => _ end). pose proof (IH (S k) e) as E. rewrite E.
    destruct (list_find (is_inode dev inum) l) as [[i y]|] eqn:El; simpl.
    + by rewrite <- plus_n_Sm.
    + f_equal. unfold e. destruct empty as [e0|]; [done|]. destruct (Z.eqb_spec (i_ref x) 0) as [E0|E0].
      * rewrite decide_True by done. simpl. by rewrite Nat.add_0_r.
      * rewrite decide_False by done. rewrite <- option_fmap_compose. apply option_fmap_ext. intros [p q]. simpl. lia.
Qed.

Lemma modi_done i f x s : itable s !! i = Some x -> modi i f s = Done tt (up_itable (<[i := f x]>) s).
Proof.
  intros E. unfold modi, geti. mrun. rewrite E. unfold ret, modify, up_itable. do 2 f_equal. by apply alter_as_insert.
Qed.

(** The entry [iget] recycles. *)
Definition fresh_inode (dev inum : Z) (x : inode) : inode :=
  up_i_valid (fun _ => false) (up_i_ref (fun _ => 1) (up_i_inum (fun _ => inum) (up_i_dev (fun _ => dev) x))).

Lemma iget_run dev inum s :
  ItableLock ∉ held s -> 0 < iref (itable s) dev inum \/ Exists (fun x => i_ref x = 0) (itable s) ->
  exists i x, itable s !! i = Some x /\
    (is_inode dev inum x \/ i_ref x = 0 /\ forall y, y ∈ itable s -> ~ is_inode dev inum y) /\
    iget dev inum s = Done i (up_itable (<[i := if decide (is_inode dev inum x)
      then up_i_ref (fun r => r + 1) x else fresh_inode dev inum x]>) s).
Proof.
  intros Hh Hex. unfold iget. unfold bind at 1. rewrite acquire_done by done. unfold bind at 1, gets.
  change (itable (up_held (cons ItableLock) s)) with (itable s). rewrite iget_scan_spec.
  assert (forall f, up_held (remove_lock ItableLock) (up_itable f (up_held (cons ItableLock) s)) = up_itable f s) as Hrel.
  { intros f. apply (up_held_id (fun h => remove_lock ItableLock (ItableLock :: h)) (up_itable f s)). simpl.
    by apply remove_lock_cons. }
  destruct (list_find (is_inode dev inum) (itable s)) as [[i x]|] eqn:El.
  - apply list_find_Some in El as (Hi & Hx & _). exists i, x. split; [done|]. split; [by left|].
    rewrite decide_True by done. cbn [Nat.add]. unfold bind. rewrite (modi_done _ _ x) by done.
    rewrite release_done by (simpl; set_solver). by rewrite Hrel.
  - unfold iref in Hex. rewrite El in Hex. destruct Hex as [?|Hex]; [lia|]. apply list_find_None in El. rewrite Forall_forall in El.
    destruct (list_find (fun x => i_ref x = 0) (itable s)) as [[i x]|] eqn:Ee.
    + apply list_find_Some in Ee as (Hi & Hx & _). exists i, x. split; [done|]. split; [right; by split|].
      rewrite decide_False by (intros [? _]; lia). cbn [fmap option_fmap option_map fst Nat.add]. unfold bind.
      rewrite (modi_done _ _ x) by done. rewrite release_done by (simpl; set_solver). by rewrite Hrel.
    + apply list_find_None in Ee. apply Exists_exists in Hex as (x & Hx & H0x). rewrite Forall_forall in Ee. by destruct (Ee x).
Qed.

Lemma iref_Some l d n i x : it_ok l -> l !! i = Some x -> is_inode d n x -> iref l d n = i_ref x.
Proof.
  intros Hok Hi Hx. unfold iref. destruct (list_find (is_inode d n) l) as [[j y]|] eqn:E.
  - apply list_find_Some in E as (Hj & Hy & _). pose proof (it_uniq _ Hok d n i j x y Hi Hj Hx Hy) as <-. congruence.
  - apply list_find_None in E. rewrite Forall_lookup in E. by destruct (E i x).
Qed.
Lemma iref_None l d n : (forall i x, l !! i = Some x -> ~ is_inode d n x) -> iref l d n = 0.
Proof.
  intros Hno. unfold iref. destruct (list_find (is_inode d n) l) as [[j y]|] eqn:E; [|done].
  apply list_find_Some in E as (Hj & Hy & _). by destruct (Hno j y).
Qed.
Lemma iref_cases l d n :
  it_ok l -> (exists i x, l !! i = Some x /\ is_inode d n x /\ iref l d n = i_ref x) \/
    (forall i x, l !! i = Some x -> ~ is_inode d n x) /\ iref l d n = 0.
Proof.
  intros Hok. destruct (list_find (is_inode d n) l) as [[j y]|] eqn:E.
  - apply list_find_Some in E as (Hj & Hy & _). left. exists j, y. split_and!; [done..|]. by eapply iref_Some.
  - right. apply list_find_None in E. rewrite Forall_lookup in E. split; [done|by apply iref_None].
Qed.

Section table.
Variables (l : list inode) (i : nat) (x y : inode) (dev inum : Z).
Hypothesis ok : it_ok l.
Hypothesis at_i : l !! i = Some x.
Hypothesis old : is_inode dev inum x \/ i_ref x = 0 /\ forall z, z ∈ l -> ~ is_inode dev inum z.
Hypothesis new : is_inode dev inum y.

Lemma old_other d n : is_inode d n x -> d = dev /\ n = inum.
Proof. intros (Hr & Hd & Hn). destruct old as [(_ & ? & ?)|[? _]]; [split; congruence|lia]. Qed.
Lemma insert_lookup j z : <[i := y]> l !! j = Some z -> j = i /\ z = y \/ j <> i /\ l !! j = Some z.
Proof.
  intros Hj. destruct (decide (j = i)) as [->|]; [left|right].
  - rewrite list_lookup_insert_eq in Hj by by eapply lookup_lt_Some. by injection Hj.
  - by rewrite list_lookup_insert_ne in Hj.
Qed.
Lemma it_ok_insert : it_ok (<[i := y]> l).
Proof.
  assert (forall j z, j <> i -> l !! j = Some z -> ~ is_inode dev inum z) as Hne.
  { intros j z Hj Hz Hi. destruct old as [Ho|[_ Ho]]; [|eapply Ho; [by eapply list_elem_of_lookup_2|done]].
    by apply Hj, (it_uniq _ ok dev inum j i z x). }
  split.
  - rewrite length_insert. apply ok.
  - intros j z [(-> & ->)|[_ Hj]]%insert_lookup; [destruct new; lia|by apply (it_ref _ ok j)].
  - intros d n j k z w [(-> & ->)|[Hji Hj]]%insert_lookup [(-> & ->)|[Hki Hk]]%insert_lookup Hz Hw; [done| | |].
    + exfalso. destruct new as (_ & Hd & Hn), Hz as (_ & Hd' & Hn'). apply (Hne k w Hki Hk). by rewrite <- Hd, <- Hn, Hd', Hn'.
    + exfalso. destruct new as (_ & Hd & Hn), Hw as (_ & Hd' & Hn'). apply (Hne j z Hji Hj). by rewrite <- Hd, <- Hn, Hd', Hn'.
    + by apply (it_uniq _ ok d n j k z w).
Qed.
Lemma iref_insert_eq : iref (<[i := y]> l) dev inum = i_ref y.
Proof. apply (iref_Some _ _ _ i); [apply it_ok_insert| |done]. apply list_lookup_insert_eq. by eapply lookup_lt_Some. Qed.
Lemma iref_old : iref l dev inum = if decide (is_inode dev inum x) then i_ref x else 0.
Proof.
  destruct old as [Ho|[H0x Ho]].
  - rewrite decide_True by done. by eapply iref_Some.
  - rewrite decide_False by (intros [? _]; lia). apply iref_None. intros j z Hj. apply Ho. by eapply list_elem_of_lookup_2.
Qed.
Lemma iref_insert_ne d n : ~ (d = dev /\ n = inum) -> iref (<[i := y]> l) d n = iref l d n.
Proof.
  intros Hne. destruct (iref_cases l d n ok) as [(j & z & Hj & Hz & ->)|[Hno ->]].
  - apply (iref_Some _ _ _ j); [apply it_ok_insert| |done]. rewrite list_lookup_insert_ne; [done|]. intros <-.
    assert (z = x) as -> by congruence. by apply Hne, old_other.
  - apply iref_None. intros j z [(-> & ->)|[_ Hj]]%insert_lookup; [|by eapply Hno].
    intros (_ & Hd & Hn). destruct new as (_ & ? & ?). apply Hne. split; congruence.
Qed.
End table.

Lemma iget_one dev inum s :
  it_ok (itable s) -> ItableLock ∉ held s ->
  0 < iref (itable s) dev inum \/ Exists (fun x => i_ref x = 0) (itable s) ->
  exists i x s', iget dev inum s = Done i s' /\ s' = up_itable (fun _ => itable s') s /\ it_ok (itable s') /\
    itable s' !! i = Some x /\ is_inode dev inum x /\
    forall d n, iref (itable s') d n = iref (itable s) d n + (if decide (d = dev /\ n = inum) then 1 else 0).
Proof.
  intros Hok Hh Hex. destruct (iget_run dev inum s Hh Hex) as (i & x & Hi & Hold & E).
  set (y := if decide _ then _ else _) in E. pose proof (it_ref _ Hok i x Hi).
  assert (is_inode dev inum y) as Hy.
  { unfold y. case_decide as Hd; [|done]. destruct Hd as (? & ? & ?). split_and!; simpl; [lia|done|done]. }
  assert (i_ref y = (if decide (is_inode dev inum x) then i_ref x else 0) + 1) as Hr by (unfold y; by case_decide).
  clearbody y.
  exists i, y. eexists. split; [exact E|]. split; [done|]. cbn [itable up_itable]. split_and!.
  - by eapply it_ok_insert.
  - apply list_lookup_insert_eq. by eapply lookup_lt_Some.
  - done.
  - intros d n. destruct (decide (d = dev /\ n = inum)) as [Hdn|Hdn].
    + destruct Hdn as [-> ->]. rewrite (iref_insert_eq _ i x y) by done. rewrite Hr. by rewrite (iref_old _ i x).
    + rewrite (iref_insert_ne _ i x y dev inum) by done. lia.
Qed.

(** C14. [iget] adds one reference to the inode and to no other, whether it finds an entry or
    recycles an unused one, and never gives an inode a second entry. *)
Theorem iget_counts dev inum s :
  it_ok (itable s) -> ItableLock ∉ held s ->
  0 < iref (itable s) dev inum \/ Exists (fun x => i_ref x = 0) (itable s) ->
  exists i x s', iget dev inum s = Done i s' /\ s' = up_itable (fun _ => itable s') s /\ it_ok (itable s') /\
    itable s' !! i = Some x /\ is_inode dev inum x /\
    forall d n, iref (itable s') d n = iref (itable s) d n + (if decide (d = dev /\ n = inum) then 1 else 0).
Proof. apply iget_one. Qed.
Lemma iget_counts_witness :
  exists i s', iget 1 7 boot_kst = Done i s' /\ iref (itable s') 1 7 = 1 /\ it_ok (itable s').
Proof.
  assert (it_ok (replicate NINODE inode0)) as Hok.
  { split; [done| |].
    - intros i x [-> _]%lookup_replicate. done.
    - intros d n i j x y [-> _]%lookup_replicate _ [? _]. done. }
  destruct (iget_counts 1 7 boot_kst Hok) as (i & x & s' & E & _ & Hok' & _ & _ & Hc).
  - simpl. set_solver.
  - right. apply Exists_cons. by left.
  - exists i, s'. split_and!; [done| |done]. rewrite Hc. by vm_compute.
Defined.

(** ** Directories *)

(** The first entry with this name: its inode number and offset. *)
Definition entry_at (vw : Z -> list Z) (x : inode) (name : list Z) (off : Z) : option (Z * Z) :=
  let de := fdata vw x off dirent_size in
  if de_inum de =? 0 then None else if namecmp name (de_name de) =? 0 then Some (de_inum de, off) else None.
Definition find_entry (vw : Z -> list Z) (x : inode) (name : list Z) : option (Z * Z) :=
  find_some (entry_at vw x name) (dir_offsets (i_size x)).

Lemma dir_offsets_in x off :
  0 <= i_size x -> i_size x mod dirent_size = 0 -> off ∈ dir_offsets (i_size x) -> 0 <= off /\ off + dirent_size <= i_size x.
Proof.
  unfold dir_offsets, dirent_size. intros Hs Hm (k & -> & Hk)%list_elem_of_fmap. apply elem_of_seqZ in Hk. zlia.
Qed.

Section dirlookup.
Context `{UartDev} `{BlockDev} `{Env} `{Fuel} `{!BlockDevOk} (dev : Z) (me : nat) (pid : Z).
Hypothesis fuel_pos : (0 < fuel)%nat.

(** The scan over the entries. *)
Lemma dir_scan start hs s0 dp x name l :
  txn dev me pid [] ∅ start hs s0 -> itable s0 !! dp = Some x -> i_dev x = dev -> no_holes (view dev s0) x ->
  let rest := at_rest dev me pid s0 (view dev s0) (ref dev s0) (nfree s0) [] in
  (forall inum s1, rest s1 -> exists ip s', iget dev inum s1 = Done ip s') ->
  (forall off, off ∈ l -> 0 <= off /\ off + dirent_size <= i_size x) ->
  forall s, rest s ->
  wp (for_find l (fun off =>
      let! de := read_dirent dp off "dirlookup read" in
      if de_inum de =? 0 then ret None
      else if namecmp name (de_name de) =? 0 then
        let! x := geti dp in
        let! ip := iget (i_dev x) (de_inum de) in
        ret (Some (ip, off))
      else ret None))
    (fun r s' => match find_some (entry_at (view dev s0) x name) l with
     | None => r = None /\ rest s'
     | Some (inum, off) => exists ip s1, rest s1 /\ iget dev inum s1 = Done ip s' /\ r = Some (ip, off)
     end) s.
Proof.
  intros T Hx Hdev Hnh rest Hget. induction l as [|off l IH]; intros Hl s C; [by apply wp_ret|].
  cbn [for_find find_some]. destruct (Hl off) as [Ho1 Ho2]; [set_solver|]. pose proof (nh_size _ _ Hnh) as Hsz.
  unfold dirent_size, BSIZE, MAXFILE, NINDIRECT, NDIRECT in *.
  pose proof (readi_rest dev me pid fuel_pos s0 (view dev s0) (ref dev s0) (nfree s0) [] (t_few _ _ _ _ _ _ _ _ T) (t_free _ _ _ _ _ _ _ _ T)
    (txn_clean dev me pid fuel_pos start hs s0 T) dp x [] off 16 s C Hx Hdev Hnh ltac:(lia) ltac:(lia)) as W.
  assert (read_len x off 16 = 16) as Elen by (unfold read_len; rewrite decide_True by lia; lia). rewrite Elen in W.
  apply wp_bind, wp_bind. unfold read_dirent. apply wp_bind. eapply wp_mono; [exact W|]. intros [r de] s1 [[= -> ->] C1]. cbv beta iota.
  change (16 =? dirent_size) with true. cbv iota. apply wp_ret. unfold entry_at at 1. unfold dirent_size.
  set (de := fdata _ x off 16). destruct (de_inum de =? 0) eqn:E0.
  { apply wp_ret. apply IH; [|done]. intros off' Hoff. apply Hl. set_solver. }
  destruct (namecmp name (de_name de) =? 0) eqn:E1.
  - apply wp_bind. unfold wp at 1. rewrite (rest_geti dev me pid s0 _ _ _ _ dp x s1 C1 Hx). rewrite Hdev.
    apply wp_bind. destruct (Hget (de_inum de) s1 C1) as (ip & s2 & Eg). unfold wp at 1. rewrite Eg. apply wp_ret, wp_ret. by exists ip, s1.
  - apply wp_ret. apply IH; [|done]. intros off' Hoff. apply Hl. set_solver.
Qed.

(** C15. [dirlookup] in a directory returns the inode of the first entry with the name, with
    one more reference to it, and the offset of the entry; or nothing if no entry
    has the name. The blocks and the running transaction stay as they are. *)
Theorem dirlookup_finds start hs s dp x name :
  txn dev me pid [] ∅ start hs s -> itable s !! dp = Some x -> i_dev x = dev -> no_holes (view dev s) x ->
  i_type x = T_DIR -> i_size x mod dirent_size = 0 -> it_ok (itable s) -> Exists (fun y => i_ref y = 0) (itable s) ->
  exists r s', dirlookup dp name s = Done r s' /\ txn dev me pid [] ∅ start hs s' /\
    (forall m, view dev s' m = view dev s m) /\
    match find_entry (view dev s) x name with
    | None => r = None /\ itable s' = itable s
    | Some (inum, off) => exists ip y, r = Some (ip, off) /\ itable s' !! ip = Some y /\ is_inode dev inum y /\
        iref (itable s') dev inum = iref (itable s) dev inum + 1
    end.
Proof.
  intros T Hx Hdev Hnh Hty Hmod Hok Hfree.
  set (rest := at_rest dev me pid s (view dev s) (ref dev s) (nfree s) []).
  assert (forall s1, rest s1 -> txn dev me pid [] ∅ start hs s1 /\ (forall m, view dev s1 m = view dev s m) /\ itable s1 = itable s) as Hrest.
  { intros s1 C1. split_and!; [by apply (txn_rest dev me pid start hs s)|apply C1|]. by rewrite (c_frame _ _ _ _ _ _ _ _ _ _ C1). }
  assert (forall inum s1, rest s1 -> exists i y s', iget dev inum s1 = Done i s' /\ s' = up_itable (fun _ => itable s') s1 /\
    itable s' !! i = Some y /\ is_inode dev inum y /\ iref (itable s') dev inum = iref (itable s1) dev inum + 1) as Hget.
  { intros inum s1 C1. destruct (Hrest s1 C1) as (T1 & _ & Ei). pose proof (oc_held _ _ _ (bi_cpu _ _ _ _ _ (t_cache _ _ _ _ _ _ _ _ T1))) as Hh.
    destruct (iget_one dev inum s1) as (i & y & s' & E & Hs & _ & Hy & Hi & Hc);
      [by rewrite Ei|rewrite Hh; set_solver|right; by rewrite Ei|]. exists i, y, s'. split_and!; [done..|]. rewrite Hc. by rewrite decide_True. }
  pose proof (dir_scan start hs s dp x name (dir_offsets (i_size x)) T Hx Hdev Hnh) as W. cbv zeta in W. fold rest in W.
  specialize (W (fun inum s1 C1 => match Hget inum s1 C1 with ex_intro _ i (ex_intro _ _ (ex_intro _ s' (conj E _))) => ex_intro _ i (ex_intro _ s' E) end)
    (fun off => dir_offsets_in x off (proj1 (nh_size _ _ Hnh)) Hmod) s ltac:(by apply cst_init; [apply T| |])).
  apply wp_done in W as (r & s' & E & Hpost). exists r, s'. split.
  { unfold dirlookup. unfold bind at 1. assert (geti dp s = Done x s) as -> by (unfold geti; mrun; by rewrite Hx). by rewrite Hty. }
  unfold find_entry. destruct (find_some _ _) as [[inum off]|].
  - destruct Hpost as (ip & s1 & C1 & Eg & ->). destruct (Hrest s1 C1) as (T1 & Hv & Ei).
    destruct (Hget inum s1 C1) as (i & y & s2 & Eg' & Hs & Hy & Hin & Hc). rewrite Eg in Eg'. injection Eg' as -> <-.
    rewrite Ei in Hc. rewrite Hs. destruct (cache_ext dev me pid _ s1 (up_itable (fun _ => itable s') s1) (t_cache _ _ _ _ _ _ _ _ T1) eq_refl eq_refl)
      as (_ & Hv2 & _); [apply (on_cpu_ext me pid s1); [apply T1|done..]|]. split_and!.
    + apply (txn_ext dev me pid [] ∅ start hs s1); [done|done|done| |]; [apply (on_cpu_ext me pid s1); [apply T1|done..]|].
      destruct (t_log _ _ _ _ _ _ _ _ T1). by split.
    + intros m. by rewrite Hv2.
    + by exists i, y.
  - destruct Hpost as [-> C1]. destruct (Hrest s' C1) as (T1 & Hv & Ei). done.
Qed.
End dirlookup.

#[local] Existing Instance demo_disk.
#[local] Existing Instance demo_disk_env.
#[local] Existing Instance demo_disk_ok.
#[local] Existing Instance demo_fuel.
#[local] Existing Instance demo_uart.

(** A directory with the entries . and README. *)
Definition demo_dir : list Z := mk_dirent 1 (chars ".") ++ mk_dirent 5 (chars "README") ++ replicate 992 0.
Lemma dirlookup_finds_witness :
  exists ip y s', dirlookup 0 (chars "README") (demo_file T_DIR 32 demo_dir) = Done (Some (ip, 16)) s' /\
    itable s' !! ip = Some y /\ is_inode 1 5 y.
Proof.
  destruct (dirlookup_finds 1 0 0 Nat.lt_0_1 2 [100] (demo_file T_DIR 32 demo_dir) 0 (demo_inode T_DIR 32) (chars "README"))
    as (r & s' & E & _ & _ & Hr); [by apply demo_file_txn|done|done|by apply demo_file_mapped|done|done| |..].
  - split; [done| |].
    + intros [|i] x; [intros [= <-]; done|]. intros [-> _]%(lookup_replicate 49). done.
    + intros d n [|i] [|j] x y Hx Hy Hix Hiy; [done| | |]; [|apply (lookup_replicate 49) in Hx as [-> _]; by destruct Hix..].
      apply (lookup_replicate 49) in Hy as [-> _]. by destruct Hiy.
  - apply Exists_cons_tl, Exists_cons_hd. done.
  - assert (find_entry (view 1 (demo_file T_DIR 32 demo_dir)) (demo_inode T_DIR 32) (chars "README") = Some (5, 16)) as Ef by (vm_compute; reflexivity).
    rewrite Ef in Hr. destruct Hr as (ip & y & -> & Hy & Hi & _).
    exists ip, y, s'. split; [exact E|split; [exact Hy|exact Hi]].
Defined.
