(* ===== verification/Alloc.v ===== *)
(** * The block allocator

    The rules of the buffer cache and the log inside a transaction, and what
    [balloc] and [bfree] do to the set of free blocks. *)

From S2P Require Import Prelude CString Bytes State Spinlock Proc Console Sleeplock Virtio Bio BufCache Log Recovery CrashSafety Fs.

(** Block [n] joins the transaction; it is pinned if it is new to it. *)
Definition join (n : Z) (hs : list Z) : list Z := if decide (n ∈ hs) then hs else hs ++ [n].
Definition joined (n : Z) (hs : list Z) (rf : Z -> Z) : Z -> Z := if decide (n ∈ hs) then rf else fupd rf n (rf n + 1).
Lemma length_join n hs : (length (join n hs) <= S (length hs))%nat.
Proof. unfold join. case_decide; [lia|]. rewrite length_app. simpl. lia. Qed.

(** A whole block of zeroes. *)
Definition zeroes : list Z := replicate (Z.to_nat BSIZE) 0.
Lemma splice_zeroes l : length l = Z.to_nat BSIZE -> splice 0 zeroes l = zeroes.
Proof.
  intros Hl. unfold splice. simpl take. rewrite drop_ge; [by rewrite app_nil_r|]. unfold zeroes. rewrite length_replicate. lia.
Qed.

Section transaction.
Context `{UartDev} `{BlockDev} `{Env} `{Fuel} `{!BlockDevOk} (dev : Z) (me : nat) (pid : Z) (start : Z) (s0 : kst).
Hypothesis fuel_pos : (0 < fuel)%nat.

(** An operation that started in [s0] is in [s]: the blocks of [hl] are locked, those of
    [D] changed but not logged, those of [hs] in the transaction; block [m] is seen
    as [vw m] and has [rf m] users; [nf] buffers are unused. *)
Record tst (hl : list (Z * nat)) (D : gset Z) (hs : list Z) (vw : Z -> list Z) (rf : Z -> Z) (nf : nat) (s : kst) : Prop := {
  ts_txn : txn dev me pid hl D start hs s;
  ts_frame : tframe s0 s;
  ts_view m : view dev s m = vw m;
  ts_ref m : ref dev s m = rf m;
  ts_nfree : nfree s = nf }.

Lemma tframe_trans s s' : tframe s0 s -> tframe s s' -> tframe s0 s'.
Proof.
  intros [E1 E2 E3] [F1 F2 F3]. split; [|congruence..]. rewrite F1 at 1. rewrite E1 at 1. done.
Qed.
Lemma bc_step_tframe L L' s s' :
  bc_step dev me pid L L' s s' -> disk s' = disk s -> dwrites s' = dwrites s -> tframe s s'.
Proof.
  intros [_ E _] Hd Hw. rewrite Hd, Hw in E. assert (klog s' = klog s) as Ek by by rewrite E.
  split; [|by rewrite Ek..]. rewrite Ek. rewrite E at 1. by destruct s.
Qed.

(** A step of the cache that keeps the log and the disk. *)
Lemma tst_step hl D hs vw rf nf s s' hl' D' vw' rf' nf' :
  tst hl D hs vw rf nf s -> bc_step dev me pid (list_to_set hl.*1) (list_to_set hl'.*1) s s' ->
  disk s' = disk s -> dwrites s' = dwrites s ->
  (forall m, view dev s' m = vw' m) -> (forall m, ref dev s' m = rf' m) -> nfree s' = nf' ->
  (forall n i, (n, i) ∈ hl' -> (n, i) ∈ hl \/ at_buf dev s' n i) -> D' ⊆ list_to_set hl'.*1 ->
  few rf' -> (forall h, h ∈ hs -> (if decide (h ∈ hl'.*1) then 2 else 1) <= rf' h) ->
  (forall n, n ∉ hs -> n ∉ D' -> vw' n = disk_block s n) -> (forall n, n ∈ D' -> ~ in_log start n) -> (0 < nf')%nat ->
  tst hl' D' hs vw' rf' nf' s'.
Proof.
  intros [[Hc Ha Hdi Hlo Hf Hp Hcl Hho Hfr He] Hfm Hv Hr Hn] St Hdk Hdw Hv' Hr' Hn' Hat HD Hfew Hpin Hclean Hhome Hfree.
  assert (forall n, disk_block s' n = disk_block s n) as Hdb by (intros n; unfold disk_block; by rewrite Hdk).
  pose proof (bc_step_tframe _ _ _ _ St Hdk Hdw) as Hf'.
  split; [|by eapply tframe_trans|done|done|done]. split; try done.
  - apply St.
  - intros n i Hin. destruct (Hat n i Hin) as [Hin'|?]; [|done].
    apply (bs_at _ _ _ _ _ _ _ St); [by eapply elem_H|by eapply elem_H|by apply Ha].
  - assert (klog s' = klog s) as Ek by by rewrite (bs_frame _ _ _ _ _ _ _ St).
    destruct Hlo. split; rewrite ?Ek; done.
  - intros m. rewrite Hr'. apply Hfew.
  - intros h Hh. rewrite Hr'. by apply Hpin.
  - intros n Hn1 Hn2. rewrite Hv', Hdb. by apply Hclean.
  - by rewrite Hn'.
  - by rewrite Hdb.
Qed.

Lemma tst_clean hl D hs vw rf nf s n : tst hl D hs vw rf nf s -> n ∉ hs -> n ∉ D -> vw n = disk_block s n.
Proof. intros T Hn HD. rewrite <- (ts_view _ _ _ _ _ _ _ T). by apply (t_clean _ _ _ _ _ _ _ _ (ts_txn _ _ _ _ _ _ _ T)). Qed.
Lemma tst_few hl D hs vw rf nf s : tst hl D hs vw rf nf s -> few rf.
Proof. intros T m. rewrite <- (ts_ref _ _ _ _ _ _ _ T). apply (t_few _ _ _ _ _ _ _ _ (ts_txn _ _ _ _ _ _ _ T)). Qed.
Lemma tst_pinned hl D hs vw rf nf s h : tst hl D hs vw rf nf s -> h ∈ hs -> (if decide (h ∈ hl.*1) then 2 else 1) <= rf h.
Proof. intros T Hh. rewrite <- (ts_ref _ _ _ _ _ _ _ T). by apply (t_pinned _ _ _ _ _ _ _ _ (ts_txn _ _ _ _ _ _ _ T)). Qed.

Lemma tst_len hl D hs vw rf nf s n : tst hl D hs vw rf nf s -> length (vw n) = Z.to_nat BSIZE.
Proof.
  intros T. rewrite <- (ts_view _ _ _ _ _ _ _ T). pose proof (t_cache _ _ _ _ _ _ _ _ (ts_txn _ _ _ _ _ _ _ T)) as HI.
  unfold view. destruct (lookup_buf dev s n) as [x|] eqn:Ex; [|apply HI]. destruct (b_valid x); [|apply HI].
  apply lookup_buf_Some in Ex as (j & Hj & Hlt & _). by apply (bi_buf _ _ _ _ _ HI j x).
Qed.

Lemma tst_bread hl D hs vw rf nf s n :
  tst hl D hs vw rf nf s -> n ∉ hl.*1 -> 0 <= n < 2^31 -> rf n < 2^31 - 1 -> (2 <= nf)%nat ->
  wp (bread dev n) (fun i => tst ((n, i) :: hl) D hs vw (fupd rf n (rf n + 1)) (nf - is0 (rf n))) s.
Proof.
  intros T Hn Hnr Hr Hf. destruct (T) as [Tx Hfm Hv Href Hnf]. pose proof (tst_few _ _ _ _ _ _ _ T) as Hfew.
  assert (n ∉ (list_to_set hl.*1 : gset Z)) as HnL by by rewrite elem_of_list_to_set. pose proof (Hfew n).
  destruct (bread_ok dev me pid fuel_pos (list_to_set hl.*1) s n) as (i & b & s' & E & Hs & Hc & _ & Hd & Hw & Hv' & Hrf & Hnf');
    [apply Tx|done|done|rewrite Href; lia|lia|]. rewrite Href in Hrf, Hnf'. rewrite Hnf in Hnf'.
  unfold wp. rewrite E. unfold is0 in *.
  eapply (tst_step hl D hs vw rf nf s s'); try done.
  - intros m. by rewrite Hv'.
  - intros m. rewrite Hrf. unfold fupd. by rewrite Href.
  - lia.
  - intros m j [[= -> ->]|Hin]%elem_of_cons; [right; by exists b|by left].
  - pose proof (t_dirty _ _ _ _ _ _ _ _ Tx). simpl. set_solver.
  - intros m. unfold fupd. pose proof (Hfew m). case_decide; subst; lia.
  - intros h Hh. pose proof (tst_pinned _ _ _ _ _ _ _ h T Hh) as Hp. unfold fupd. destruct (decide (h = n)) as [->|].
    + rewrite decide_False in Hp by done. case_decide; lia.
    + simpl. rewrite (decide_ext _ (h ∈ hl.*1)) by set_solver. done.
  - intros m Hm HD. by eapply tst_clean.
  - apply Tx.
  - destruct (rf n =? 0); lia.
Qed.

Lemma tst_locked hl D hs vw rf nf s n i :
  tst hl D hs vw rf nf s -> (n, i) ∈ hl ->
  exists b, bufs s !! i = Some b /\ b_blockno b = n /\ b_data b = vw n /\ length (vw n) = Z.to_nat BSIZE /\ 1 <= rf n /\ 0 <= n < 2^31.
Proof.
  intros T Hin. destruct (T) as [Tx _ Hv Hr _].
  destruct (locked_buf dev me pid fuel_pos _ s n i (t_cache _ _ _ _ _ _ _ _ Tx) (elem_H _ _ _ Hin) (t_at _ _ _ _ _ _ _ _ Tx _ _ Hin))
    as (b & (Hi & _ & _ & Hbn) & _ & _ & Hd & Hrf & Hr1 & _ & _ & Hsz & Hnr & _).
  exists b. rewrite Hv in Hd. rewrite Hr in Hr1. split_and!; try done; [by rewrite <- Hd|lia|lia|lia].
Qed.
Lemma tst_getb hl D hs vw rf nf s n i :
  tst hl D hs vw rf nf s -> (n, i) ∈ hl ->
  wp (getb i) (fun b s' => s' = s /\ b_data b = vw n /\ length (vw n) = Z.to_nat BSIZE) s.
Proof. intros T Hin. destruct (tst_locked _ _ _ _ _ _ _ _ _ T Hin) as (b & Hi & _ & Hd & Hl & _). unfold wp. by rewrite (getb_done i s b Hi). Qed.

Lemma tst_data hl D hs vw rf nf s n i g :
  tst hl D hs vw rf nf s -> (n, i) ∈ hl -> ~ in_log start n -> length (g (vw n)) = Z.to_nat BSIZE ->
  wp (modb i (up_b_data g)) (fun _ => tst hl (D ∪ {[n]}) hs (fupd vw n (g (vw n))) rf nf) s.
Proof.
  intros T Hin Hout Hg. destruct (tst_locked _ _ _ _ _ _ _ _ _ T Hin) as (b & Hi & Hbn & Hd & _).
  assert (modb i (up_b_data g) s = modb i (up_b_data (fun _ => g (vw n))) s) as E.
  { unfold modb. unfold bind. rewrite (getb_done i s b Hi). unfold modify. f_equal. unfold up_bufs. f_equal.
    rewrite !(alter_as_insert _ _ _ b) by done. by rewrite <- Hd. }
  destruct (T) as [Tx Hfm Hv Hr Hnf]. pose proof (elem_H _ _ _ Hin) as HnL.
  destruct (setdata_ok dev me pid fuel_pos _ s n i (g (vw n)) (t_cache _ _ _ _ _ _ _ _ Tx) HnL (t_at _ _ _ _ _ _ _ _ Tx _ _ Hin) Hg)
    as (s' & E' & Hs & Hdk & Hdw & Hv' & Hr' & Hn').
  unfold wp. rewrite E, E'. eapply (tst_step hl D hs vw rf nf s s'); try done.
  - intros m. rewrite Hv'. unfold fupd. by rewrite Hv.
  - intros m. by rewrite Hr'.
  - by rewrite Hn'.
  - by left.
  - pose proof (t_dirty _ _ _ _ _ _ _ _ Tx). set_solver.
  - by eapply tst_few.
  - intros h. by eapply tst_pinned.
  - intros m Hm HD. rewrite fupd_ne by set_solver. eapply tst_clean; [done|done|set_solver].
  - intros m [?| ->%elem_of_singleton]%elem_of_union; [by apply (t_home _ _ _ _ _ _ _ _ Tx)|done].
  - rewrite <- Hnf. apply Tx.
Qed.

Lemma tst_log_write hl D hs vw rf nf s n i :
  tst hl D hs vw rf nf s -> (n, i) ∈ hl -> ~ in_log start n ->
  lg_size (klog s0) <= LOGSIZE -> Z.of_nat (length hs) < lg_size (klog s0) - 1 -> 1 <= lg_outstanding (klog s0) ->
  rf n < 2^31 - 1 ->
  wp (log_write i) (fun _ => tst hl (D ∖ {[n]}) (join n hs) vw (joined n hs rf) nf) s.
Proof.
  intros T Hin Hout H1l H2l H3l Hr. destruct (tst_locked _ _ _ _ _ _ _ _ _ T Hin) as (b & _ & _ & _ & _ & _ & Hnr).
  destruct (T) as [Tx Hfm Hv Href Hnf]. pose proof (tf_size _ _ Hfm) as Es. pose proof (tf_out _ _ Hfm) as Eo.
  destruct (log_write_txn dev me pid fuel_pos hl D start hs s n i Tx Hin Hnr Hout ltac:(by rewrite Es) ltac:(by rewrite Es) ltac:(by rewrite Eo) ltac:(by rewrite Href))
    as (s' & E & T' & Hv' & Hf' & Hn' & Hr').
  unfold wp. rewrite E. split; [done|by eapply tframe_trans|intros m; by rewrite Hv'| |by rewrite Hn'].
  intros m. rewrite Hr'. unfold joined, fupd. rewrite !Href. repeat case_decide; naive_solver.
Qed.

Lemma tst_brelse hl hl' D hs vw rf nf s n i :
  tst hl D hs vw rf nf s -> hl ≡ₚ (n, i) :: hl' -> n ∉ hl'.*1 -> n ∉ D ->
  wp (brelse i) (fun _ => tst hl' D hs vw (fupd rf n (rf n - 1)) (nf + is0 (rf n - 1))) s.
Proof.
  intros T HP Hn HD. assert ((n, i) ∈ hl) as Hin by (rewrite HP; set_solver).
  pose proof (tst_few _ _ _ _ _ _ _ T) as Hfew. destruct (T) as [Tx Hfm Hv Href Hnf].
  destruct (tst_locked _ _ _ _ _ _ _ _ _ T Hin) as (b & _ & _ & _ & _ & Hr1 & _).
  assert (forall m, m ∈ hl.*1 <-> m = n \/ m ∈ hl'.*1) as Hel by (intros m; rewrite HP; set_solver).
  destruct (brelse_ok dev me pid fuel_pos (list_to_set hl.*1) s n i) as (s' & E & Hs & Hd & Hw & Hv' & Hrf & Hnf');
    [apply Tx|by eapply elem_H|by apply Tx| |].
  { intros H1r. rewrite Href in H1r. apply (t_clean _ _ _ _ _ _ _ _ Tx); [|done]. intros Hin'.
    pose proof (tst_pinned _ _ _ _ _ _ _ n T Hin') as Hp. rewrite decide_True in Hp by (apply Hel; by left). lia. }
  unfold wp. rewrite E. assert (list_to_set hl.*1 ∖ {[n]} = (list_to_set hl'.*1 : gset Z)) as EL.
  { apply set_eq. intros m. rewrite elem_of_difference, !elem_of_list_to_set, Hel, elem_of_singleton. set_solver. }
  rewrite EL in Hs. eapply (tst_step hl D hs vw rf nf s s'); try done.
  - intros m. by rewrite Hv'.
  - intros m. rewrite Hrf. unfold fupd. by rewrite !Href.
  - by rewrite Hnf', Href, Hnf.
  - intros m j Hm. left. rewrite HP. set_solver.
  - pose proof (t_dirty _ _ _ _ _ _ _ _ Tx) as Hdi. rewrite <- EL. set_solver.
  - intros m. unfold fupd. pose proof (Hfew m). case_decide; subst; lia.
  - intros h Hh. pose proof (tst_pinned _ _ _ _ _ _ _ h T Hh) as Hp. unfold fupd. destruct (decide (h = n)) as [->|].
    + rewrite decide_True in Hp by (apply Hel; by left). rewrite decide_False by done. lia.
    + rewrite (decide_ext _ (h ∈ hl.*1)); [done|]. rewrite Hel. naive_solver.
  - intros m Hm HmD. by eapply tst_clean.
  - apply Tx.
  - pose proof (t_free _ _ _ _ _ _ _ _ Tx). lia.
Qed.

Lemma tst_ext hl D D' hs vw vw' rf rf' nf nf' s :
  tst hl D hs vw rf nf s -> D = D' -> (forall m, vw m = vw' m) -> (forall m, rf m = rf' m) -> nf = nf' -> tst hl D' hs vw' rf' nf' s.
Proof. intros [] -> Hv Hr ->. split; try done; intros m; [rewrite <- Hv|rewrite <- Hr]; auto. Qed.

(** ** A block that is only read, and one that is changed and logged *)

(** [bread] was done; the block is released. *)
Lemma tst_put hs vw rf nf s n i :
  tst [(n, i)] ∅ hs vw (fupd rf n (rf n + 1)) (nf - is0 (rf n)) s -> 0 <= rf n -> (2 <= nf)%nat ->
  wp (brelse i) (fun _ => tst [] ∅ hs vw rf nf) s.
Proof.
  intros T Hr Hf. eapply wp_mono; [apply (tst_brelse _ [] _ _ _ _ _ _ n i T); [done|set_solver|set_solver]|]. intros [] s2 T2. cbv beta in T2.
  rewrite fupd_eq in T2. eapply tst_ext; [exact T2|done|done| |].
  - intros m. unfold fupd. repeat case_decide; subst; lia || done.
  - rewrite Z.add_simpl_r. unfold is0. destruct (rf n =? 0); lia.
Qed.

(** [bread] was done; the block is changed, logged and released. *)
Lemma tst_change hs vw rf nf s n i g :
  tst [(n, i)] ∅ hs vw (fupd rf n (rf n + 1)) (nf - is0 (rf n)) s -> ~ in_log start n -> 0 <= rf n < 2^31 - 2 ->
  length (g (vw n)) = Z.to_nat BSIZE ->
  lg_size (klog s0) <= LOGSIZE -> Z.of_nat (length hs) < lg_size (klog s0) - 1 -> 1 <= lg_outstanding (klog s0) ->
  wp (modb i (up_b_data g) ;;; log_write i ;;; brelse i)
    (fun _ s' => exists nf', (nf <= S nf')%nat /\ tst [] ∅ (join n hs) (fupd vw n (g (vw n))) (joined n hs rf) nf' s') s.
Proof.
  intros T Hout Hr Hg H1l H2l H3l.
  apply wp_bind. eapply wp_mono; [apply (tst_data _ _ _ _ _ _ _ n i g T); [set_solver|done|done]|]. intros [] s1 T1. cbv beta.
  apply wp_bind. eapply wp_mono; [apply (tst_log_write _ _ _ _ _ _ _ n i T1); [set_solver|done|done|done|done|rewrite fupd_eq; lia]|].
  intros [] s2 T2. cbv beta.
  eapply wp_mono; [apply (tst_brelse _ [] _ _ _ _ _ _ n i T2); [done|set_solver|set_solver]|]. intros [] s3 T3. cbv beta in T3.
  eexists. split; [|eapply tst_ext; [exact T3|set_solver|done| |reflexivity]].
  - unfold is0. destruct (rf n =? 0); lia.
  - intros m. unfold joined. destruct (decide (n ∈ hs)); unfold fupd; repeat case_decide; subst; lia || done.
Qed.
Lemma tst_modify hs vw rf nf s n g :
  tst [] ∅ hs vw rf nf s -> 0 <= n < 2^31 -> ~ in_log start n -> rf n < 2^31 - 2 -> (2 <= nf)%nat ->
  length (g (vw n)) = Z.to_nat BSIZE ->
  lg_size (klog s0) <= LOGSIZE -> Z.of_nat (length hs) < lg_size (klog s0) - 1 -> 1 <= lg_outstanding (klog s0) ->
  wp (let! bp := bread dev n in modb bp (up_b_data g) ;;; log_write bp ;;; brelse bp)
    (fun _ s' => exists nf', (nf <= S nf')%nat /\ tst [] ∅ (join n hs) (fupd vw n (g (vw n))) (joined n hs rf) nf' s') s.
Proof.
  intros T Hn Hout Hr Hf Hg H1l H2l H3l. pose proof (tst_few _ _ _ _ _ _ _ T n).
  apply wp_bind. eapply wp_mono; [apply tst_bread; [exact T|set_solver|done|lia|done]|]. intros i s1 T1. cbv beta in T1 |- *.
  by apply tst_change; [|done|lia|..].
Qed.
End transaction.

(** ** Bitmaps *)

Lemma bit_free_testbit d bi : 0 <= bi -> bit_free d bi = negb (Z.testbit (byte_at d (bi / 8)) (bi mod 8)).
Proof.
  intros Hb. unfold bit_free, bit_mask. set (a := byte_at d (bi / 8)). set (k := bi mod 8).
  assert (0 <= k) by (subst k; zlia). rewrite Z.shiftl_1_l. destruct (Z.testbit a k) eqn:E; simpl.
  - apply Z.eqb_neq. intros E0. assert (Z.testbit (Z.land a (2^k)) k = false) as Hf by by rewrite E0, Z.bits_0.
    by rewrite Z.land_spec, E, Z.pow2_bits_true in Hf.
  - apply Z.eqb_eq. apply Z.bits_inj'. intros j Hj. rewrite Z.land_spec, Z.bits_0, Z.pow2_bits_eqb by done.
    destruct (Z.eqb_spec k j) as [<-|]; [by rewrite E|by rewrite andb_false_r].
Qed.
Lemma byte_at_splice i v d j :
  0 <= i < Z.of_nat (length d) -> 0 <= j -> byte_at (splice i [v] d) j = if decide (j = i) then v else byte_at d j.
Proof.
  intros Hi Hj. unfold byte_at. assert (splice i [v] d = <[Z.to_nat i := v]> d) as ->.
  { unfold splice. rewrite insert_take_drop by lia. simpl. by rewrite Nat.add_1_r. }
  case_decide as E.
  - subst. by rewrite list_lookup_insert_eq by lia.
  - by rewrite list_lookup_insert_ne by lia.
Qed.

Section bits.
Variables (d : list Z) (bi bj : Z).
Hypothesis bi_in : 0 <= bi < 8 * Z.of_nat (length d).
Hypothesis bj_in : 0 <= bj.
Lemma same_bit : bi / 8 = bj / 8 -> (bi mod 8 =? bj mod 8) = (bi =? bj).
Proof. intros E. destruct (Z.eqb_spec (bi mod 8) (bj mod 8)), (Z.eqb_spec bi bj); try done; zlia. Qed.
Lemma bit_free_set : bit_free (bit_set bi d) bj = bit_free d bj && negb (bi =? bj).
Proof.
  rewrite !bit_free_testbit by done. unfold bit_set. rewrite byte_at_splice by zlia. case_decide as E.
  - unfold u8. rewrite Z.mod_pow2_bits_low by zlia. rewrite Z.lor_spec, negb_orb. unfold bit_mask. rewrite <- E. f_equal. f_equal.
    rewrite Z.shiftl_1_l, Z.pow2_bits_eqb by zlia. by apply same_bit.
  - rewrite (proj2 (Z.eqb_neq bi bj)) by (intros ->; done). by rewrite andb_true_r.
Qed.
Lemma bit_free_clear : bit_free (bit_clear bi d) bj = bit_free d bj || (bi =? bj).
Proof.
  rewrite !bit_free_testbit by done. unfold bit_clear. rewrite byte_at_splice by zlia. case_decide as E.
  - unfold u8. rewrite Z.mod_pow2_bits_low by zlia. rewrite Z.land_spec, negb_andb, Z.lnot_spec, negb_involutive by zlia.
    unfold bit_mask. rewrite <- E. f_equal. rewrite Z.shiftl_1_l, Z.pow2_bits_eqb by zlia. by apply same_bit.
  - rewrite (proj2 (Z.eqb_neq bi bj)) by (intros ->; done). by rewrite orb_false_r.
Qed.
Lemma length_bit_set : length (bit_set bi d) = length d.
Proof. apply length_splice; simpl; zlia. Qed.
Lemma length_bit_clear : length (bit_clear bi d) = length d.
Proof. apply length_splice; simpl; zlia. Qed.
End bits.

Lemma find_some_skip {X R} (f : X -> option R) pre l : (forall y, y ∈ pre -> f y = None) -> find_some f (pre ++ l) = find_some f l.
Proof. induction pre as [|y pre IH]; intros Hp; [done|]. simpl. rewrite Hp by set_solver. apply IH. set_solver. Qed.
Lemma seqZ_at m k n : 0 <= k < n -> seqZ m n = seqZ m k ++ (m + k) :: seqZ (m + k + 1) (n - k - 1).
Proof.
  intros Hk. replace n with (k + (n - k)) at 1 by lia. rewrite seqZ_app by lia. f_equal. rewrite seqZ_cons by lia.
  f_equal; f_equal; lia.
Qed.
Lemma first_free_some size b d bi :
  0 <= bi < Z.min BPB (size - b) -> bit_free d bi = true -> (forall j, 0 <= j < bi -> bit_free d j = false) ->
  first_free size b d = Some bi.
Proof.
  intros Hb Hf Hlow. unfold first_free. rewrite (seqZ_at 0 bi) by lia. rewrite find_some_skip.
  - cbn [find_some]. by rewrite Z.add_0_l, Hf.
  - intros j Hj%elem_of_seqZ. by rewrite Hlow by lia.
Qed.
Lemma first_free_none size b d :
  (forall j, 0 <= j < Z.min BPB (size - b) -> bit_free d j = false) -> first_free size b d = None.
Proof.
  intros Hlow. unfold first_free. rewrite <- (app_nil_r (seqZ _ _)). rewrite find_some_skip; [done|].
  intros j Hj%elem_of_seqZ. by rewrite Hlow by lia.
Qed.

(** ** The free blocks *)

Definition free_block (vw : Z -> list Z) (b : superblock) (n : Z) : bool := bit_free (vw (BBLOCK n b)) (n mod BPB).

(** The blocks of the bitmap are in range and outside the log, and neither they nor the
    blocks of the log are marked free. *)
Record bitmap_ok (vw : Z -> list Z) (start : Z) (b : superblock) : Prop := {
  bm_size : 0 <= sb_size b < 2^31;
  bm_start : 0 <= sb_bmapstart b < 2^30;
  bm_out n : 0 <= n < sb_size b -> ~ in_log start (BBLOCK n b);
  bm_meta n m : 0 <= n < sb_size b -> 0 <= m < sb_size b -> free_block vw b n = true -> ~ in_log start n /\ n <> BBLOCK m b }.

Lemma BBLOCK_eq vw start b n : bitmap_ok vw start b -> 0 <= n < sb_size b -> BBLOCK n b = n / BPB + sb_bmapstart b /\ 0 <= BBLOCK n b < 2^31.
Proof.
  intros [Hs Hb _ _] Hn. unfold BBLOCK, BPB, BSIZE in *. change (1024 * 8) with 8192. rewrite u32_small by zlia. split; [done|zlia].
Qed.

Section balloc.
Context `{UartDev} `{BlockDev} `{Env} `{Fuel} `{!BlockDevOk} (dev : Z) (me : nat) (pid : Z) (start : Z) (s0 : kst).
Hypothesis fuel_pos : (0 < fuel)%nat.
Notation tst := (tst dev me pid start s0).

Lemma tst_sb hl D hs vw rf nf s : tst hl D hs vw rf nf s -> sb s = sb s0.
Proof. intros T. by rewrite (tf_eq _ _ (ts_frame _ _ _ _ _ _ _ _ _ _ _ _ T)). Qed.

(** The start of a turn of [balloc]'s loop. *)
Lemma balloc_at_read hs vw rf nf s b Q :
  tst [] ∅ hs vw rf nf s -> 0 <= BBLOCK b (sb s0) < 2^31 -> rf (BBLOCK b (sb s0)) < 2^31 - 1 -> (2 <= nf)%nat ->
  let n := BBLOCK b (sb s0) in
  (forall i s1, tst [(n, i)] ∅ hs vw (fupd rf n (rf n + 1)) (nf - is0 (rf n)) s1 -> length (vw n) = Z.to_nat BSIZE ->
    wp (match first_free (sb_size (sb s0)) b (vw n) with
        | Some bi => modb i (up_b_data (bit_set bi)) ;;; log_write i ;;; brelse i ;;; bzero dev (b + bi) ;;; ret (Some (b + bi))
        | None => brelse i ;;; ret None end) Q s1) ->
  wp (balloc_at dev b) Q s.
Proof.
  intros T Hn Hr Hf n Hk. unfold balloc_at. apply wp_bind, wp_gets. rewrite (tst_sb _ _ _ _ _ _ _ T).
  apply wp_bind. eapply wp_mono; [apply (tst_bread dev me pid start s0 fuel_pos _ _ _ _ _ _ _ _ T); [set_solver|done|done|done]|]. intros i s1 T1. cbv beta in T1 |- *.
  apply wp_bind. eapply wp_mono; [apply (tst_getb dev me pid start s0 fuel_pos _ _ _ _ _ _ _ n i T1); set_solver|]. intros x s2 (-> & Hd & Hl). cbv beta.
  rewrite Hd. by apply Hk.
Qed.

(** A bitmap block without a free block. *)
Lemma balloc_at_full hs vw rf nf s b :
  tst [] ∅ hs vw rf nf s -> 0 <= BBLOCK b (sb s0) < 2^31 -> rf (BBLOCK b (sb s0)) < 2^31 - 1 -> (2 <= nf)%nat ->
  (forall j, 0 <= j < Z.min BPB (sb_size (sb s0) - b) -> bit_free (vw (BBLOCK b (sb s0))) j = false) ->
  wp (balloc_at dev b) (fun r s' => r = None /\ tst [] ∅ hs vw rf nf s') s.
Proof.
  intros T Hn Hr Hf Hno. pose proof (tst_few _ _ _ _ _ _ _ _ _ _ _ _ T (BBLOCK b (sb s0))).
  eapply balloc_at_read; [done..|]. intros i s1 T1 _. rewrite first_free_none by done.
  apply wp_bind. eapply wp_mono; [apply (tst_put dev me pid start s0 fuel_pos _ _ _ _ _ _ i T1); [lia|done]|].
  intros [] s2 T2. by apply wp_ret.
Qed.

(** The bitmap block of the first free block [n]. *)
Lemma balloc_at_free hs vw rf nf s n :
  let bb := BBLOCK n (sb s0) in let b := BPB * (n / BPB) in
  tst [] ∅ hs vw rf nf s -> bitmap_ok vw start (sb s0) -> 0 <= n < sb_size (sb s0) -> BBLOCK b (sb s0) = bb ->
  free_block vw (sb s0) n = true -> (forall j, 0 <= j < n mod BPB -> bit_free (vw bb) j = false) ->
  (forall m, rf m < 2^31 - 3) -> (3 <= nf)%nat ->
  lg_size (klog s0) <= LOGSIZE -> Z.of_nat (length hs) + 1 < lg_size (klog s0) - 1 -> 1 <= lg_outstanding (klog s0) ->
  wp (balloc_at dev b) (fun r s' => r = Some n /\ exists rf' nf',
    tst [] ∅ (join n (join bb hs)) (fupd (fupd vw bb (bit_set (n mod BPB) (vw bb))) n zeroes) rf' nf' s') s.
Proof.
  intros bb b T Hbm Hn Ebb Hfree Hlow Hr Hf H1l H2l H3l. destruct (BBLOCK_eq _ _ _ n Hbm Hn) as [_ Hbr]. fold bb in Hbr.
  pose proof (tst_few _ _ _ _ _ _ _ _ _ _ _ _ T) as Hfew. pose proof (bm_size _ _ _ Hbm).
  destruct (bm_meta _ _ _ Hbm n n Hn Hn Hfree) as [Hnl Hnb]. fold bb in Hnb.
  assert (b + n mod BPB = n /\ 0 <= n mod BPB < BPB) as [En Hm] by (unfold b, BPB, BSIZE; zlia).
  eapply balloc_at_read; [done|by rewrite Ebb|rewrite Ebb; specialize (Hr bb); lia|lia|]. rewrite Ebb. intros i s1 T1 Hlen.
  rewrite (first_free_some _ _ _ (n mod BPB)); [|lia|done|done]. rewrite En.
  assert (0 <= n mod BPB < 8 * Z.of_nat (length (vw bb))) as Hbit by (rewrite Hlen; unfold BPB, BSIZE in *; lia).
  pose proof (tst_change dev me pid start s0 fuel_pos hs vw rf nf s1 bb i (bit_set (n mod BPB)) T1) as W.
  pose proof (Hr bb). pose proof (Hfew bb). specialize (W (bm_out _ _ _ Hbm n Hn) ltac:(lia) ltac:(by rewrite length_bit_set) ltac:(lia) ltac:(lia) H3l).
  apply wp_done in W as ([] & s2 & E & nf2 & Hnf2 & T2).
  assert (forall k : M kst (option Z), (modb i (up_b_data (bit_set (n mod BPB))) ;;; log_write i ;;; brelse i ;;; k) s1 = k s2) as Ek.
  { intros k. unfold bind in *. destruct (modb _ _ s1) as [a1 t1| | | |]; try done. destruct (log_write i t1) as [a2 t2| | | |]; try done. by rewrite E. }
  unfold wp. rewrite Ek. change (wp (bzero dev n ;;; ret (Some n)) (fun r s' => r = Some n /\ exists rf' nf', tst [] ∅ (join n (join bb hs))
    (fupd (fupd vw bb (bit_set (n mod BPB) (vw bb))) n zeroes) rf' nf' s') s2).
  pose proof (length_join bb hs). apply wp_bind. unfold bzero. rewrite u32_small by lia.
  assert (joined bb hs rf n < 2^31 - 2) as Hj by (unfold joined; case_decide; [specialize (Hr n); lia|]; rewrite fupd_ne by done; specialize (Hr n); lia).
  pose proof (tst_len dev me pid start s0 _ _ _ _ _ _ _ n T) as Hln.
  eapply wp_mono; [apply (tst_modify dev me pid start s0 fuel_pos _ _ _ _ _ n (splice 0 zeroes) T2)|]; try done; try lia.
  - rewrite fupd_ne by done. rewrite splice_zeroes by done. apply length_replicate.
  - intros [] s3 (nf3 & _ & T3). apply wp_ret. split; [done|]. rewrite fupd_ne in T3 by done. rewrite splice_zeroes in T3 by done. eauto.
Qed.

Lemma balloc_scan hs vw rf nf n :
  let bb := BBLOCK n (sb s0) in
  bitmap_ok vw start (sb s0) -> 0 <= n < sb_size (sb s0) ->
  free_block vw (sb s0) n = true -> (forall m, 0 <= m < n -> free_block vw (sb s0) m = false) ->
  (forall m, rf m < 2^31 - 3) -> (3 <= nf)%nat ->
  lg_size (klog s0) <= LOGSIZE -> Z.of_nat (length hs) + 1 < lg_size (klog s0) - 1 -> 1 <= lg_outstanding (klog s0) ->
  forall c j s, 0 <= j -> Z.of_nat c = n / BPB - j -> tst [] ∅ hs vw rf nf s ->
  wp (for_find ((fun k => BPB * k) <$> seqZ j ((sb_size (sb s0) + BPB - 1) / BPB - j)) (balloc_at dev))
    (fun r s' => r = Some n /\ exists rf' nf',
      tst [] ∅ (join n (join bb hs)) (fupd (fupd vw bb (bit_set (n mod BPB) (vw bb))) n zeroes) rf' nf' s') s.
Proof.
  intros bb Hbm Hn Hfree Hlow Hr Hf H1l H2l H3l.
  assert (forall k m, 0 <= k -> 0 <= m < BPB -> BPB * k + m < sb_size (sb s0) -> BBLOCK (BPB * k + m) (sb s0) = BBLOCK (BPB * k) (sb s0) /\
    (BPB * k + m) mod BPB = m /\ 0 <= BBLOCK (BPB * k) (sb s0) < 2^31) as Hbb.
  { intros k m Hk Hm Hs. destruct (BBLOCK_eq _ _ _ (BPB * k + m) Hbm) as [-> _]; [unfold BPB, BSIZE in *; lia|].
    destruct (BBLOCK_eq _ _ _ (BPB * k) Hbm) as [-> Hr2]; [unfold BPB, BSIZE in *; lia|]. unfold BPB, BSIZE in *. split_and!; zlia. }
  induction c as [|c IH]; intros j s Hj Hc T.
  - rewrite seqZ_cons by (unfold BPB, BSIZE in *; zlia). rewrite fmap_cons. cbn [for_find]. assert (j = n / BPB) as -> by lia.
    assert (n = BPB * (n / BPB) + n mod BPB /\ 0 <= n mod BPB < BPB) as [En Hm] by (unfold BPB, BSIZE; zlia).
    destruct (Hbb (n / BPB) (n mod BPB)) as (Eb & _ & _); [unfold BPB, BSIZE in *; zlia|done|lia|]. rewrite <- En in Eb.
    apply wp_bind. eapply wp_mono; [apply (balloc_at_free hs vw rf nf s n T Hbm Hn)|]; try done.
    + intros i Hi. destruct (Hbb (n / BPB) i) as (Ei & Em & _); [unfold BPB, BSIZE in *; zlia|lia|lia|].
      specialize (Hlow (BPB * (n / BPB) + i) ltac:(unfold BPB, BSIZE in *; zlia)).
      unfold free_block in Hlow. rewrite Ei, Em, <- Eb in Hlow. done.
    + intros r s' [-> HT]. by apply wp_ret.
  - rewrite seqZ_cons by (unfold BPB, BSIZE in *; zlia). rewrite fmap_cons. cbn [for_find].
    assert (BPB * j + BPB <= n) as Hle by (unfold BPB, BSIZE in *; zlia).
    destruct (Hbb j 0) as (_ & _ & Hrange); [lia|unfold BPB, BSIZE; lia|unfold BPB, BSIZE in *; lia|].
    apply wp_bind. eapply wp_mono; [apply (balloc_at_full hs vw rf nf s (BPB * j) T Hrange)|]; [specialize (Hr (BBLOCK (BPB * j) (sb s0))); lia|lia| |].
    + intros i Hi. destruct (Hbb j i) as (Ei & Em & _); [lia|lia|lia|]. specialize (Hlow (BPB * j + i) ltac:(unfold BPB, BSIZE in *; lia)).
      unfold free_block in Hlow. by rewrite Ei, Em in Hlow.
    + intros r s' [-> T']. replace (Z.pred (_ - j)) with ((sb_size (sb s0) + BPB - 1) / BPB - (j + 1)) by lia.
      replace (Z.succ j) with (j + 1) by lia. apply IH; [lia|lia|done].
Qed.
End balloc.

(** ** [balloc] and [bfree] *)

Section allocator.
Context `{UartDev} `{BlockDev} `{Env} `{Fuel} `{!BlockDevOk} (dev : Z) (me : nat) (pid : Z).
Hypothesis fuel_pos : (0 < fuel)%nat.

(** Room in the log and in the cache for an operation that logs two blocks. *)
Record room (hs : list Z) (s : kst) : Prop := {
  rm_log : lg_size (klog s) <= LOGSIZE;
  rm_disk : Z.of_nat (length hs) + 1 < lg_size (klog s) - 1;
  rm_op : 1 <= lg_outstanding (klog s);
  rm_ref m : ref dev s m < 2^31 - 3;
  rm_free : (3 <= nfree s)%nat }.

Lemma tst_init start hs s : txn dev me pid [] ∅ start hs s -> tst dev me pid start s [] ∅ hs (view dev s) (ref dev s) (nfree s) s.
Proof. intros T. split; try done. split; [by destruct s|done|done]. Qed.

(** The bitmap after block [n] was marked. *)
Lemma free_block_set vw start b n m (f : list Z -> list Z) vw' :
  bitmap_ok vw start b -> 0 <= n < sb_size b -> 0 <= m < sb_size b -> length (vw (BBLOCK n b)) = Z.to_nat BSIZE ->
  vw' (BBLOCK m b) = (if decide (BBLOCK m b = BBLOCK n b) then f (vw (BBLOCK n b)) else vw (BBLOCK m b)) ->
  forall g : bool -> bool -> bool, (forall x, g x false = x) ->
  (forall k, 0 <= k -> bit_free (f (vw (BBLOCK n b))) k = g (bit_free (vw (BBLOCK n b)) k) (n mod BPB =? k)) ->
  free_block vw' b m = g (free_block vw b m) (m =? n).
Proof.
  intros Hbm Hn Hm Hl E g Hg Hbit. unfold free_block. rewrite E.
  destruct (BBLOCK_eq _ _ _ n Hbm Hn) as [En _], (BBLOCK_eq _ _ _ m Hbm Hm) as [Em _]. case_decide as Eq.
  - rewrite Hbit by (unfold BPB, BSIZE; zlia). rewrite Eq. f_equal. rewrite En, Em in Eq.
    destruct (Z.eqb_spec (n mod BPB) (m mod BPB)), (Z.eqb_spec m n); try done; unfold BPB, BSIZE in *; zlia.
  - rewrite (proj2 (Z.eqb_neq m n)) by (intros ->; done). by rewrite Hg.
Qed.

(** C11. [balloc] returns the first free block, zeroed, and removes exactly it from the set of
    free blocks; the bitmap block and the new block join the transaction, and no
    other block changes. *)
Theorem balloc_allocates start hs s n :
  txn dev me pid [] ∅ start hs s -> bitmap_ok (view dev s) start (sb s) -> room hs s ->
  0 <= n < sb_size (sb s) -> free_block (view dev s) (sb s) n = true ->
  (forall m, 0 <= m < n -> free_block (view dev s) (sb s) m = false) ->
  exists s', balloc dev s = Done n s' /\ txn dev me pid [] ∅ start (join n (join (BBLOCK n (sb s)) hs)) s' /\
    view dev s' n = zeroes /\
    (forall m, 0 <= m < sb_size (sb s) -> free_block (view dev s') (sb s) m = free_block (view dev s) (sb s) m && negb (m =? n)) /\
    (forall m, m <> n -> m <> BBLOCK n (sb s) -> view dev s' m = view dev s m).
Proof.
  intros T Hbm [R1 R2 R3 R4 R5] Hn Hfree Hlow. pose proof (tst_init start hs s T) as T0.
  pose proof (balloc_scan dev me pid start s fuel_pos hs _ _ _ n Hbm Hn Hfree Hlow R4 R5 R1 R2 R3 (Z.to_nat (n / BPB)) 0 s ltac:(lia)
    ltac:(unfold BPB, BSIZE; zlia) T0) as W.
  rewrite Z.sub_0_r in W. apply wp_done in W as (r & s' & E & -> & rf' & nf' & T'). exists s'. split.
  { unfold balloc. unfold bind at 1, gets. unfold bind. by rewrite E. }
  assert (n <> BBLOCK n (sb s)) as Hnb by (by apply (bm_meta _ _ _ Hbm n n)).
  split_and!.
  - apply T'.
  - rewrite (ts_view _ _ _ _ _ _ _ _ _ _ _ _ T'). apply fupd_eq.
  - intros m Hm. pose proof (tst_len dev me pid start s _ _ _ _ _ _ _ (BBLOCK n (sb s)) T0) as Hl.
    apply (free_block_set _ start _ n m (bit_set (n mod BPB)) _ Hbm Hn Hm Hl) with (g := fun x y => x && negb y).
    + rewrite (ts_view _ _ _ _ _ _ _ _ _ _ _ _ T'). rewrite fupd_ne; [done|]. intros Heq. by apply (bm_meta _ _ _ Hbm n m Hn Hm Hfree).
    + intros x. apply andb_true_r.
    + intros k Hk. apply bit_free_set; [|done]. rewrite Hl. unfold BPB, BSIZE. zlia.
  - intros m H1m H2m. rewrite (ts_view _ _ _ _ _ _ _ _ _ _ _ _ T'). by rewrite !fupd_ne by done.
Qed.

(** [bfree] of a block in use adds exactly it to the set of free blocks. *)
Theorem bfree_frees start hs s n :
  txn dev me pid [] ∅ start hs s -> bitmap_ok (view dev s) start (sb s) -> room hs s ->
  0 <= n < sb_size (sb s) -> free_block (view dev s) (sb s) n = false ->
  exists s', bfree dev n s = Done tt s' /\ txn dev me pid [] ∅ start (join (BBLOCK n (sb s)) hs) s' /\
    (forall m, 0 <= m < sb_size (sb s) -> free_block (view dev s') (sb s) m = free_block (view dev s) (sb s) m || (m =? n)) /\
    (forall m, m <> BBLOCK n (sb s) -> view dev s' m = view dev s m).
Proof.
  intros T Hbm [R1 R2 R3 R4 R5] Hn Hused. pose proof (tst_init start hs s T) as T0. set (bb := BBLOCK n (sb s)).
  destruct (BBLOCK_eq _ _ _ n Hbm Hn) as [_ Hbr]. fold bb in Hbr. pose proof (R4 bb). pose proof (t_few _ _ _ _ _ _ _ _ T bb).
  pose proof (tst_len dev me pid start s _ _ _ _ _ _ _ bb T0) as Hl.
  assert (0 <= n mod BPB < 8 * Z.of_nat (length (view dev s bb))) as Hbit by (rewrite Hl; unfold BPB, BSIZE; zlia).
  assert (wp (bfree dev n) (fun _ s' => exists nf', tst dev me pid start s [] ∅ (join bb hs)
    (fupd (view dev s) bb (bit_clear (n mod BPB) (view dev s bb))) (joined bb hs (ref dev s)) nf' s') s) as W.
  { unfold bfree. apply wp_bind, wp_gets. fold bb.
    apply wp_bind. eapply wp_mono; [apply (tst_bread dev me pid start s fuel_pos _ _ _ _ _ _ _ _ T0); [set_solver|done|lia|lia]|]. intros i s1 T1. cbv beta in T1 |- *.
    apply wp_bind. eapply wp_mono; [apply (tst_getb dev me pid start s fuel_pos _ _ _ _ _ _ _ bb i T1); set_solver|]. intros x s2 (-> & Hd & _). cbv beta.
    rewrite Hd. unfold free_block in Hused. fold bb in Hused. rewrite Hused.
    eapply wp_mono; [apply (tst_change dev me pid start s fuel_pos _ _ _ _ _ bb i (bit_clear (n mod BPB)) T1)|]; try done; try lia.
    - by apply (bm_out _ _ _ Hbm).
    - by rewrite length_bit_clear.
    - intros [] s2 (nf' & _ & T2). eauto. }
  apply wp_done in W as ([] & s' & E & nf' & T'). exists s'. split_and!; [done|apply T'| |].
  - intros m Hm. apply (free_block_set _ start _ n m (bit_clear (n mod BPB)) _ Hbm Hn Hm Hl) with (g := fun x y => x || y).
    + rewrite (ts_view _ _ _ _ _ _ _ _ _ _ _ _ T'). done.
    + intros x. apply orb_false_r.
    + intros k Hk. by apply bit_free_clear.
  - intros m H1m. rewrite (ts_view _ _ _ _ _ _ _ _ _ _ _ _ T'). by rewrite fupd_ne.
Qed.
End allocator.

(** ** A disk with 160 blocks, of which 150 to 159 are free; block 100 is the bitmap *)

#[local] Existing Instance demo_disk.
#[local] Existing Instance demo_disk_env.
#[local] Existing Instance demo_disk_ok.
#[local] Existing Instance demo_fuel.
#[local] Instance demo_uart_busy : UartDev := fun _ => false.

Definition demo_bitmap : list Z := replicate 18 0xff ++ 0x3f :: replicate 1005 0.
Definition demo_alloc : kst :=
  up_sb (fun _ => mk_superblock FSMAGIC 160 0 0 30 2 0 100) (demo_cached (demo_buf (mk_sleeplock false 0) 1 demo_bitmap) [100]).
Lemma demo_alloc_txn : txn 1 0 0 [] ∅ 2 [100] demo_alloc.
Proof.
  set (s := demo_cached (demo_buf (mk_sleeplock false 0) 1 demo_bitmap) [100]).
  assert (txn 1 0 0 [] ∅ 2 [100] s) as T by (apply demo_txn; [lia|done|done]).
  apply (txn_ext 1 0 0 [] ∅ 2 [100] _ _ T); [done|done|apply (on_cpu_ext 0 0 s); [apply T|done..]|].
  destruct (t_log _ _ _ _ _ _ _ _ T). by split.
Qed.
Lemma demo_alloc_free n : 0 <= n < 160 -> free_block (view 1 demo_alloc) (sb demo_alloc) n = (150 <=? n).
Proof.
  intros Hn. assert (view 1 demo_alloc 100 = demo_bitmap) as Hv by (vm_compute; reflexivity).
  assert (BBLOCK n (sb demo_alloc) = 100 /\ n mod BPB = n) as [Eb Em].
  { unfold BBLOCK. change (sb_bmapstart (sb demo_alloc)) with 100. unfold BPB, BSIZE. rewrite u32_small by zlia. zlia. }
  unfold free_block. rewrite Eb, Hv, Em.
  assert (Forall (fun n => bit_free demo_bitmap n = (150 <=? n)) (seqZ 0 160)) as HF by (repeat constructor).
  rewrite Forall_forall in HF. apply HF, elem_of_seqZ. lia.
Qed.
Lemma demo_alloc_ok : bitmap_ok (view 1 demo_alloc) 2 (sb demo_alloc).
Proof.
  assert (forall n, 0 <= n < 160 -> BBLOCK n (sb demo_alloc) = 100) as Eb.
  { intros n Hn. unfold BBLOCK. change (sb_bmapstart (sb demo_alloc)) with 100. unfold BPB, BSIZE. rewrite u32_small by zlia. zlia. }
  split; [done|done| |].
  - intros n Hn. rewrite Eb by done. unfold in_log, LOGSIZE, MAXOPBLOCKS. lia.
  - intros n m Hn Hm Hf. rewrite demo_alloc_free in Hf by done. rewrite Eb by done. unfold in_log, LOGSIZE, MAXOPBLOCKS. lia.
Qed.
Lemma demo_alloc_room : room 1 [100] demo_alloc.
Proof.
  pose proof demo_alloc_txn as T. split; [done|done|done| |].
  - intros m. assert (ref 1 demo_alloc m < 100); [|lia].
    unfold ref. destruct (lookup_buf 1 demo_alloc m) as [b|] eqn:E; [|done]. apply lookup_buf_Some in E as (i & Hi & _).
    destruct i as [|i]; [by injection Hi as <-|]. apply (demo_bufs (S i)) in Hi as ->. done.
  - assert (nfree demo_alloc = 29%nat) as -> by (vm_compute; reflexivity). lia.
Qed.
Lemma balloc_allocates_witness :
  exists s', balloc 1 demo_alloc = Done 150 s' /\ free_block (view 1 s') (sb demo_alloc) 150 = false /\ view 1 s' 150 = zeroes.
Proof.
  destruct (balloc_allocates 1 0 0 Nat.lt_0_1 2 [100] demo_alloc 150 demo_alloc_txn demo_alloc_ok demo_alloc_room) as (s' & E & _ & Hz & Hf & _).
  - change (0 <= 150 < 160). lia.
  - by rewrite demo_alloc_free by lia.
  - intros m Hm. rewrite demo_alloc_free by lia. lia.
  - exists s'. split; [exact E|]. split; [|exact Hz]. rewrite Hf by (change (0 <= 150 < 160); lia). apply andb_false_r.
Defined.
Lemma bfree_frees_witness :
  exists s', bfree 1 149 demo_alloc = Done tt s' /\ free_block (view 1 s') (sb demo_alloc) 149 = true.
Proof.
  destruct (bfree_frees 1 0 0 Nat.lt_0_1 2 [100] demo_alloc 149 demo_alloc_txn demo_alloc_ok demo_alloc_room) as (s' & E & _ & Hf & _).
  - change (0 <= 149 < 160). lia.
  - by rewrite demo_alloc_free by lia.
  - exists s'. split; [exact E|]. rewrite Hf by (change (0 <= 149 < 160); lia). apply orb_true_r.
Defined.
