(* ===== verification/Inodes.v ===== *)
(** * Inodes on the disk

    [iupdate] writes an inode to its place in its block, where [ilock] finds it
    again; the other inodes of the block are not touched. *)

From S2P Require Import Prelude CString Bytes State Spinlock Proc Kalloc Console Sleeplock Virtio Bio BufCache Log Recovery CrashSafety Fs FileData Itable Alloc.

(** The fields of an inode that are on the disk fit their types there. *)
Record inode_wf (x : inode) : Prop := {
  iw_type : - 2^15 <= i_type x < 2^15;
  iw_major : - 2^15 <= i_major x < 2^15;
  iw_minor : - 2^15 <= i_minor x < 2^15;
  iw_nlink : - 2^15 <= i_nlink x < 2^15;
  iw_size : 0 <= i_size x < 2^32;
  iw_len : length (i_addrs x) = S NDIRECT;
  iw_addrs : Forall (fun a => 0 <= a < 2^32) (i_addrs x) }.
(** [y] with the disk fields of [x]. *)
Definition with_disk (x y : inode) : inode :=
  up_i_addrs (fun _ => i_addrs x) (up_i_size (fun _ => i_size x) (up_i_nlink (fun _ => i_nlink x)
    (up_i_minor (fun _ => i_minor x) (up_i_major (fun _ => i_major x) (up_i_type (fun _ => i_type x) y))))).

Lemma sub_put_words ws : forall off d o n,
  0 <= o -> 0 <= n -> 0 <= off -> off + 4 * Z.of_nat (length ws) <= Z.of_nat (length d) ->
  o + n <= off \/ off + 4 * Z.of_nat (length ws) <= o -> sub o n (put_words off ws d) = sub o n d.
Proof.
  induction ws as [|w ws IH]; intros off d o n Ho Hn Hoff Hl Hdis; simpl in *; [done|].
  rewrite IH, sub_put32_ne; rewrite ?length_put32; lia || done.
Qed.
Lemma i16_u16 z : - 2^15 <= z < 2^15 -> i16 (u16 z) = z.
Proof. intros. word. Qed.

(** Sizes of a block under writes of its fields. *)
Ltac lens := repeat (rewrite ?length_put32, ?length_put16; try lia).

Section dinode.
Variables (x : inode) (o : Z) (d : list Z).
Hypothesis wf : inode_wf x.
Hypothesis o_pos : 0 <= o.
Hypothesis o_in : o + dinode_size <= Z.of_nat (length d).

Lemma addrs_len : length (i_addrs x) = 13%nat.
Proof. apply (iw_len _ wf). Qed.
Lemma store_dinode_len : length (store_dinode x o d) = length d.
Proof.
  pose proof addrs_len. unfold store_dinode, dinode_size in *. rewrite put_words_length; [|lia|]; lens.
Qed.
(** Bytes outside the inode stay as they are. *)
Lemma sub_store_dinode o' n : 0 <= o' -> 0 <= n -> o' + n <= o \/ o + dinode_size <= o' -> sub o' n (store_dinode x o d) = sub o' n d.
Proof.
  intros Ho' Hn Hd. pose proof addrs_len. unfold store_dinode, dinode_size in *.
  rewrite sub_put_words by (lens); rewrite sub_put32_ne by lens; by rewrite !sub_put16_ne by lens.
Qed.
Lemma load_store_addrs : get_addrs o (store_dinode x o d) = i_addrs x.
Proof.
  pose proof addrs_len as Hl. unfold get_addrs, store_dinode, dinode_size in *. apply list_eq. intros i. rewrite list_lookup_fmap.
  destruct (i_addrs x !! i) as [a|] eqn:Ea.
  - pose proof (lookup_lt_Some _ _ _ Ea). rewrite lookup_seq_lt by (unfold NDIRECT; lia). cbn [fmap option_fmap option_map].
    rewrite Nat.add_0_l. rewrite (put_words_get _ _ _ i a); [|lens|lens|done]. rewrite u32_small; [done|].
    by apply (Forall_lookup_1 _ _ _ _ (iw_addrs _ wf) Ea).
  - apply lookup_ge_None in Ea. rewrite lookup_seq_ge by (unfold NDIRECT; lia). done.
Qed.

(** An inode is read back as it was written. *)
Lemma load_store_dinode y : load_dinode o (store_dinode x o d) y = with_disk x y.
Proof.
  pose proof addrs_len. unfold load_dinode, with_disk. rewrite load_store_addrs. unfold store_dinode, dinode_size in *. destruct wf.
  assert (get32 (o + 8) (store_dinode x o d) = i_size x) as E1.
  { unfold store_dinode. rewrite put_words_before by lens. rewrite get32_put32 by lens. by rewrite u32_small. }
  assert (forall k v, get16 (o + k) (store_dinode x o d) = u16 v -> - 2^15 <= v < 2^15 -> i16 (get16 (o + k) (store_dinode x o d)) = v) as E2.
  { intros k v -> Hv. by apply i16_u16. }
  unfold store_dinode in *. rewrite E1.
  rewrite (E2 6 (i_nlink x)), (E2 4 (i_minor x)), (E2 2 (i_major x)); try done.
  2-4: unfold get16; rewrite sub_put_words by lens; rewrite sub_put32_ne by lens; rewrite ?sub_put16_ne by lens; apply get16_put16; lens.
  pose proof (E2 0 (i_type x)) as E3. rewrite Z.add_0_r in E3. rewrite E3; try done.
  unfold get16; rewrite sub_put_words by lens; rewrite sub_put32_ne by lens; rewrite ?sub_put16_ne by lens. apply get16_put16; lens.
Qed.
(** Another inode of the block. *)
Lemma load_store_other o' y :
  0 <= o' -> o' + dinode_size <= o \/ o + dinode_size <= o' -> load_dinode o' (store_dinode x o d) y = load_dinode o' d y.
Proof.
  intros Ho' Hd. assert (forall k n, 0 <= k -> 0 <= n -> k + n <= 64 -> sub (o' + k) n (store_dinode x o d) = sub (o' + k) n d) as E.
  { intros k n Hk Hn Hkn. apply sub_store_dinode; unfold dinode_size in *; lia. }
  assert (get_addrs o' (store_dinode x o d) = get_addrs o' d) as Ea.
  { apply list_fmap_ext. intros i k [-> Hk]%lookup_seq. unfold NDIRECT in Hk. unfold get32. rewrite <- Z.add_assoc. by rewrite E by lia. }
  unfold load_dinode. rewrite Ea. unfold get32, get16. rewrite !E by lia. pose proof (E 0 2) as E0. rewrite Z.add_0_r in E0. by rewrite E0 by lia.
Qed.
End dinode.

(** Whatever bytes the disk holds, they are read as values of the fields' C types. *)
Lemma get_range o n d : Forall is_byte d -> 0 <= n -> 0 <= le_word (sub o n d) < 256 ^ n.
Proof.
  intros Hd Hn. assert (length (sub o n d) <= Z.to_nat n)%nat as Hl by (unfold sub; rewrite length_take; lia).
  pose proof (le_word_range (sub o n d) ltac:(by apply Forall_take, Forall_drop)) as Hr.
  pose proof (Z.pow_le_mono_r 256 (Z.of_nat (length (sub o n d))) n). lia.
Qed.
Lemma i16_range z : - 2^15 <= i16 z < 2^15.
Proof. unfold i16. word. Qed.
Lemma load_dinode_wf o d y : Forall is_byte d -> inode_wf (load_dinode o d y).
Proof.
  intros Hd. split; try apply i16_range.
  - by apply (get_range (o + 8) 4 d).
  - done.
  - apply Forall_fmap, Forall_forall. intros k _. by apply (get_range _ 4 d).
Qed.

(** ** The layout of an inode on the disk *)

(** [struct dinode] of [fs.h], field after field as the compiler lays it out: four [short]s,
    a [uint] and [NDIRECT + 1] [uint]s, each with its low byte first, without padding. *)
Definition dinode_bytes (x : inode) : list Z :=
  le_bytes 2 (i_type x) ++ le_bytes 2 (i_major x) ++ le_bytes 2 (i_minor x) ++ le_bytes 2 (i_nlink x) ++
  le_bytes 4 (i_size x) ++ concat (le_bytes 4 <$> i_addrs x).

Lemma dinode_bytes_valid f x : dinode_bytes (up_i_valid f x) = dinode_bytes x.
Proof. by destruct x. Qed.
Lemma sub_add o n m d : 0 <= o -> 0 <= n -> 0 <= m -> sub o n d ++ sub (o + n) m d = sub o (n + m) d.
Proof.
  intros. unfold sub. rewrite !Z2Nat.inj_add by lia. rewrite <- drop_drop. by rewrite take_take_drop.
Qed.
Lemma le_bytes_sub n o d : Forall is_byte d -> 0 <= o -> o + Z.of_nat n <= Z.of_nat (length d) ->
  le_bytes n (le_word (sub o (Z.of_nat n) d)) = sub o (Z.of_nat n) d.
Proof.
  intros Hd Ho Hl. assert (length (sub o (Z.of_nat n) d) = n) as E by (unfold sub; rewrite length_take, length_drop; lia).
  rewrite <- E at 1. apply le_bytes_word. by apply Forall_take, Forall_drop.
Qed.
Lemma le_bytes_i16 z : le_bytes 2 (i16 z) = le_bytes 2 z.
Proof.
  cbn [le_bytes]. assert (i16 z mod 256 = z mod 256) as -> by word. do 2 f_equal. word.
Qed.
Lemma get_addrs_bytes o d n : Forall is_byte d -> 0 <= o -> o + 4 * Z.of_nat n <= Z.of_nat (length d) ->
  concat (le_bytes 4 <$> ((fun k => get32 (o + 4 * Z.of_nat k) d) <$> seq 0 n)) = sub o (4 * Z.of_nat n) d.
Proof.
  intros Hd Ho. induction n as [|n IH]; intros Hl; [done|].
  rewrite seq_S, !fmap_app, concat_app, IH by lia. cbn [fmap list_fmap concat Nat.add]. rewrite app_nil_r.
  unfold get32. rewrite (le_bytes_sub 4) by (done || lia). rewrite sub_add by lia. f_equal. lia.
Qed.

(** What is read from 64 bytes are the values whose layout these bytes are. *)
Lemma load_dinode_bytes o d y : Forall is_byte d -> 0 <= o -> o + dinode_size <= Z.of_nat (length d) ->
  dinode_bytes (load_dinode o d y) = sub o dinode_size d.
Proof.
  intros Hd Ho Hl. unfold dinode_size in *. unfold dinode_bytes, load_dinode, get_addrs. cbn [i_type i_major i_minor i_nlink i_size i_addrs up_i_type up_i_major up_i_minor up_i_nlink up_i_size up_i_addrs].
  rewrite get_addrs_bytes by (done || unfold NDIRECT; lia). rewrite !le_bytes_i16. unfold get16, get32.
  rewrite (le_bytes_sub 4) by (done || lia). rewrite !(le_bytes_sub 2) by (done || lia).
  change (4 * Z.of_nat (S NDIRECT)) with 52. 
  rewrite <- (sub_add o 2 62), <- (sub_add (o + 2) 2 60), <- (sub_add (o + 2 + 2) 2 58), <- (sub_add (o + 2 + 2 + 2) 2 56),
    <- (sub_add (o + 2 + 2 + 2 + 2) 4 52) by lia.
  by rewrite <- !Z.add_assoc.
Qed.
Lemma type_zero o d y : Forall is_byte d -> 0 <= o -> o + 2 <= Z.of_nat (length d) ->
  i_type (load_dinode o d y) = 0 <-> sub o 2 d = [0; 0].
Proof.
  intros Hd Ho Hl. change (i_type (load_dinode o d y)) with (i16 (get16 o d)). split.
  - intros E. rewrite <- (le_bytes_sub 2) by (done || lia). change (Z.of_nat 2) with 2. fold (get16 o d). by rewrite <- le_bytes_i16, E.
  - intros E. unfold get16. by rewrite E.
Qed.

(** ** Inodes and their blocks *)

(** The inode [inum] of the disk, loaded into the table entry [y]. *)
Definition disk_inode (vw : Z -> list Z) (b : superblock) (inum : Z) (y : inode) : inode :=
  load_dinode (dinode_off inum) (vw (IBLOCK inum b)) y.

(** The inode blocks are blocks of the disk and not of the log. *)
Record inodes_ok (start : Z) (b : superblock) : Prop := {
  io_start : 0 <= sb_inodestart b;
  io_end : sb_ninodes b / IPB + sb_inodestart b < 2^31;
  io_log inum : 0 <= inum < sb_ninodes b -> ~ in_log start (IBLOCK inum b) }.

Lemma IBLOCK_eq start b inum :
  inodes_ok start b -> 0 <= inum < sb_ninodes b ->
  IBLOCK inum b = inum / IPB + sb_inodestart b /\ 0 <= IBLOCK inum b < 2^31.
Proof.
  intros [H1 H2 _] Hi. unfold IBLOCK. change IPB with 16 in *. assert (0 <= inum / 16 <= sb_ninodes b / 16) by zlia.
  rewrite u32_small by lia. lia.
Qed.
Lemma dinode_off_in inum : 0 <= dinode_off inum /\ dinode_off inum + dinode_size <= BSIZE.
Proof. unfold dinode_off, dinode_size, BSIZE. change IPB with 16. zlia. Qed.
(** Two inodes of one block are at different places in it. *)
Lemma dinode_off_ne start b i j :
  inodes_ok start b -> 0 <= i < sb_ninodes b -> 0 <= j < sb_ninodes b -> i <> j -> IBLOCK i b = IBLOCK j b ->
  dinode_off i + dinode_size <= dinode_off j \/ dinode_off j + dinode_size <= dinode_off i.
Proof.
  intros Ho Hi Hj Hne E. destruct (IBLOCK_eq _ _ _ Ho Hi) as [Ei _], (IBLOCK_eq _ _ _ Ho Hj) as [Ej _].
  unfold dinode_off, dinode_size. change IPB with 16 in *. zlia.
Qed.

Section inodes.
Context `{UartDev} `{BlockDev} `{Env} `{Fuel} `{!BlockDevOk} (dev : Z) (me : nat) (pid : Z).

Lemma tst_frame_eq start s0 hl D hs vw rf nf s :
  tst dev me pid start s0 hl D hs vw rf nf s -> itable s = itable s0 /\ sb s = sb s0.
Proof. intros T. by rewrite (tf_eq _ _ (ts_frame _ _ _ _ _ _ _ _ _ _ _ _ T)). Qed.
Lemma geti_done i x s : itable s !! i = Some x -> geti i s = Done x s.
Proof. intros E. unfold geti. mrun. by rewrite E. Qed.
Lemma txn_itable hl D start hs f s : txn dev me pid hl D start hs s -> txn dev me pid hl D start hs (up_itable f s).
Proof.
  intros T. apply (txn_ext dev me pid _ _ _ _ s _ T); [done|done| |].
  - apply (on_cpu_ext me pid s); [apply T|done..].
  - destruct (t_log _ _ _ _ _ _ _ _ T). by split.
Qed.
Lemma tst_itable start s0 hl D hs vw rf nf f s :
  tst dev me pid start s0 hl D hs vw rf nf s -> tst dev me pid start (up_itable f s0) hl D hs vw rf nf (up_itable f s).
Proof.
  intros [T [E E1 E2] Hv Hr Hn]. split; [by apply txn_itable| |done|done|done]. split; [|done|done].
  rewrite E. by destruct s0.
Qed.

Hypothesis fuel_pos : (0 < fuel)%nat.

Lemma iupdate_done start hs s ip x :
  txn dev me pid [] ∅ start hs s -> room dev hs s -> itable s !! ip = Some x -> i_dev x = dev ->
  inode_wf x -> inodes_ok start (sb s) -> 0 <= i_inum x < sb_ninodes (sb s) ->
  let n := IBLOCK (i_inum x) (sb s) in
  exists s' nf', iupdate ip s = Done tt s' /\ (nfree s <= S nf')%nat /\
    tst dev me pid start s [] ∅ (join n hs) (fupd (view dev s) n (store_dinode x (dinode_off (i_inum x)) (view dev s n)))
      (joined n hs (ref dev s)) nf' s'.
Proof.
  intros T [R1 R2 R3 R4 R5] Hx Hd Hwf Ho Hi n. destruct (IBLOCK_eq _ _ _ Ho Hi) as [_ Hn]. fold n in Hn.
  pose proof (tst_init dev me pid start hs s T) as T0. pose proof (tst_len _ _ _ _ _ _ _ _ _ _ _ _ n T0) as Hl.
  destruct (dinode_off_in (i_inum x)). pose proof (R4 n). pose proof (t_few _ _ _ _ _ _ _ _ T n).
  assert (wp (iupdate ip) (fun _ s' => exists nf', (nfree s <= S nf')%nat /\ tst dev me pid start s [] ∅ (join n hs)
    (fupd (view dev s) n (store_dinode x (dinode_off (i_inum x)) (view dev s n))) (joined n hs (ref dev s)) nf' s') s) as W.
  { unfold iupdate. apply wp_bind. unfold wp at 1. rewrite (geti_done _ x) by done. apply wp_bind, wp_gets. rewrite Hd. fold n.
    apply wp_bind. eapply wp_mono; [apply (tst_bread dev me pid start s fuel_pos _ _ _ _ _ _ _ n T0); [set_solver|done|lia|lia]|].
    intros i s1 T1. cbv beta in T1 |- *. apply wp_bind. unfold wp at 1.
    rewrite (geti_done _ x) by by rewrite (proj1 (tst_frame_eq _ _ _ _ _ _ _ _ _ T1)).
    eapply wp_mono; [apply (tst_change dev me pid start s fuel_pos _ _ _ _ _ n i (store_dinode x (dinode_off (i_inum x))) T1)|].
    - by apply (io_log _ _ Ho).
    - lia.
    - rewrite store_dinode_len by (done || lia || (rewrite Hl; unfold BSIZE in *; lia)). done.
    - lia.
    - lia.
    - lia.
    - intros [] s2 (nf' & Hnf & T2). by exists nf'. }
  apply wp_done in W as ([] & s' & E & nf' & Hnf & T'). by exists s', nf'.
Qed.

(** [iupdate] writes the inode to its place on the disk, inside the transaction: read
    back, it has the fields of the table entry; every other inode and every other
    block stays as it is. *)
Theorem iupdate_stores start hs s ip x :
  txn dev me pid [] ∅ start hs s -> room dev hs s -> itable s !! ip = Some x -> i_dev x = dev ->
  inode_wf x -> inodes_ok start (sb s) -> 0 <= i_inum x < sb_ninodes (sb s) ->
  exists s', iupdate ip s = Done tt s' /\ txn dev me pid [] ∅ start (join (IBLOCK (i_inum x) (sb s)) hs) s' /\ itable s' = itable s /\
    (forall j y, 0 <= j < sb_ninodes (sb s) ->
      disk_inode (view dev s') (sb s) j y = if decide (j = i_inum x) then with_disk x y else disk_inode (view dev s) (sb s) j y) /\
    (forall m, m <> IBLOCK (i_inum x) (sb s) -> view dev s' m = view dev s m).
Proof.
  intros T R Hx Hd Hwf Ho Hi. destruct (iupdate_done start hs s ip x T R Hx Hd Hwf Ho Hi) as (s' & nf' & E & _ & T').
  exists s'. split; [exact E|]. split; [apply T'|]. split; [apply (tst_frame_eq _ _ _ _ _ _ _ _ _ T')|].
  pose proof (ts_view _ _ _ _ _ _ _ _ _ _ _ _ T') as Hv. split.
  - intros j y Hj. unfold disk_inode. rewrite Hv. destruct (dinode_off_in (i_inum x)), (dinode_off_in j).
    assert (dinode_off (i_inum x) + dinode_size <= Z.of_nat (length (view dev s (IBLOCK (i_inum x) (sb s))))) as Hin.
    { rewrite (tst_len _ _ _ _ _ _ _ _ _ _ _ _ _ (tst_init dev me pid start hs s T)). unfold BSIZE in *. lia. }
    case_decide as Ej.
    + subst j. rewrite fupd_eq. by apply load_store_dinode.
    + unfold fupd. case_decide as Eb; [|done]. rewrite Eb. apply load_store_other; try done.
      by apply (dinode_off_ne start (sb s)).
  - intros m Hm. rewrite Hv. by rewrite fupd_ne.
Qed.

(** The table entry after [ilock] read its inode from the disk. *)
Definition loaded (vw : Z -> list Z) (b : superblock) (y : inode) : inode :=
  up_i_valid (fun _ => true) (disk_inode vw b (i_inum y) y).
(** The entry with its lock held. *)
Definition locked_inode (y : inode) : inode := up_i_lock (fun _ => mk_sleeplock true pid) y.

Lemma wp_geti ip y (Q : inode -> kst -> Prop) s : itable s !! ip = Some y -> Q y s -> wp (geti ip) Q s.
Proof. intros E HQ. unfold wp. by rewrite (geti_done _ y). Qed.
Lemma wp_modi ip f y (Q : unit -> kst -> Prop) s : itable s !! ip = Some y -> Q tt (up_itable (<[ip := f y]>) s) -> wp (modi ip f) Q s.
Proof. intros E HQ. unfold wp. by rewrite (modi_done _ _ y). Qed.
Lemma itable_step start s0 hl D hs vw rf nf s ip (f : inode -> inode) y :
  tst dev me pid start s0 hl D hs vw rf nf s -> itable s0 !! ip = Some y ->
  tst dev me pid start (up_itable (<[ip := f y]>) s0) hl D hs vw rf nf (up_itable (<[ip := f y]>) s) /\
  itable (up_itable (<[ip := f y]>) s0) !! ip = Some (f y).
Proof.
  intros T Hy. split; [by apply tst_itable|]. cbn [itable up_itable]. apply list_lookup_insert_eq. by eapply lookup_lt_Some.
Qed.

(** The part of [ilock] that reads the inode, up to the test of its type. *)
Lemma ilock_fill start hs vw rf nf s ip y :
  tst dev me pid start s [] ∅ hs vw rf nf s -> (2 <= nf)%nat -> itable s !! ip = Some y -> i_dev y = dev -> i_valid y = false ->
  0 <= IBLOCK (i_inum y) (sb s) < 2^31 -> rf (IBLOCK (i_inum y) (sb s)) < 2^31 - 1 ->
  exists s' s0, tst dev me pid start s0 [] ∅ hs vw rf nf s' /\ itable s0 = <[ip := loaded vw (sb s) y]> (itable s) /\
  forall k, (let! x := geti ip in
      when (negb (i_valid x)) (
        let! sup := gets sb in
        let! bp := bread (i_dev x) (IBLOCK (i_inum x) sup) in
        let! b := getb bp in
        modi ip (load_dinode (dinode_off (i_inum x)) (b_data b)) ;;;
        brelse bp ;;;
        modi ip (up_i_valid (fun _ => true)) ;;;
        let! x := geti ip in k x)) s = k (loaded vw (sb s) y) s'.
Proof.
  intros T Hnf Hy Hd Hv Hn Hr. set (n := IBLOCK (i_inum y) (sb s)) in *. pose proof (tst_few _ _ _ _ _ _ _ _ _ _ _ _ T n).
  assert (W1 : wp (bread dev n) _ s)
    by (apply (tst_bread dev me pid start s fuel_pos _ _ _ _ _ _ _ n T); [set_solver|done|lia|lia]).
  apply wp_done in W1 as (i & s1 & E1 & T1). cbv beta in T1.
  assert (W2 : wp (getb i) _ s1) by (apply (tst_getb dev me pid start s fuel_pos _ _ _ _ _ _ _ n i T1); set_solver).
  apply wp_done in W2 as (b & s2 & E2 & -> & Eb & _).
  destruct (itable_step _ _ _ _ _ _ _ _ _ ip (load_dinode (dinode_off (i_inum y)) (vw n)) y T1 Hy) as [T2 Hy2].
  assert (W3 : wp (brelse i) _ _) by (apply (tst_put dev me pid start _ fuel_pos _ _ _ _ _ n i T2); lia).
  apply wp_done in W3 as ([] & s3 & E3 & T3). cbv beta in T3.
  destruct (itable_step _ _ _ _ _ _ _ _ _ ip (up_i_valid (fun _ => true)) _ T3 Hy2) as [T4 Hy4].
  eexists _, _. split; [exact T4|]. split; [cbn [itable up_itable]; apply list_insert_insert_eq|]. intros k.
  unfold bind at 1. rewrite (geti_done _ y) by done. rewrite Hv, Hd. cbn [negb when].
  unfold bind at 1, gets at 1. fold n. unfold bind at 1. rewrite E1. unfold bind at 1. rewrite E2, Eb.
  unfold bind at 1. rewrite (modi_done _ _ y) by by rewrite (proj1 (tst_frame_eq _ _ _ _ _ _ _ _ _ T1)).
  unfold bind at 1. rewrite E3. unfold bind at 1.
  rewrite (modi_done _ _ (load_dinode (dinode_off (i_inum y)) (vw n) y)) by by rewrite (proj1 (tst_frame_eq _ _ _ _ _ _ _ _ _ T3)).
  unfold bind at 1. by rewrite (geti_done _ (loaded vw (sb s) y)) by (rewrite (proj1 (tst_frame_eq _ _ _ _ _ _ _ _ _ T4)); exact Hy4).
Qed.

(** [ilock] of an entry whose inode is not in memory: it reads the inode, and panics
    exactly if its type is 0. *)
Lemma ilock_reads start hs s ip y :
  txn dev me pid [] ∅ start hs s -> (2 <= nfree s)%nat -> itable s !! ip = Some y -> i_dev y = dev ->
  inodes_ok start (sb s) -> 0 <= i_inum y < sb_ninodes (sb s) ->
  1 <= i_ref y -> i_valid y = false -> sl_locked (i_lock y) = false -> ref dev s (IBLOCK (i_inum y) (sb s)) < 2^31 - 1 ->
  exists s', txn dev me pid [] ∅ start hs s' /\ (forall m, view dev s' m = view dev s m) /\
    itable s' = <[ip := loaded (view dev s) (sb s) (locked_inode y)]> (itable s) /\
    ilock ip s = if i_type (disk_inode (view dev s) (sb s) (i_inum y) y) =? 0 then Panic "ilock: no type" s' else Done tt s'.
Proof.
  intros T Hnf Hy Hd Ho Hi Hr Hv Hl Href. destruct (IBLOCK_eq _ _ _ Ho Hi) as [_ Hn].
  set (s1 := up_itable (<[ip := locked_inode y]>) s).
  assert (acquiresleep (SInode ip) s = Done tt s1) as Eacq.
  { destruct (bi_cpu _ _ _ _ _ (t_cache _ _ _ _ _ _ _ _ T)) as [Hc (p & Hp & Hpid) _ Hh _].
    rewrite (acquiresleep_free (SInode ip) me p s (i_lock y)); try done.
    - rewrite Hpid. unfold put_sl, s1, up_itable. do 2 f_equal. by apply alter_as_insert.
    - rewrite Hh. set_solver.
    - cbn [find_sl]. by rewrite Hy. }
  pose proof (tst_init dev me pid start hs s1 (txn_itable _ _ _ _ _ _ T)) as T1.
  assert (itable s1 !! ip = Some (locked_inode y)) as Hy1 by (apply list_lookup_insert_eq; by eapply lookup_lt_Some).
  destruct (ilock_fill start hs _ _ _ s1 ip (locked_inode y) T1 Hnf Hy1 Hd Hv Hn Href) as (s' & s0 & T' & Eit & E).
  exists s'. split_and!.
  - apply T'.
  - apply (ts_view _ _ _ _ _ _ _ _ _ _ _ _ T').
  - rewrite (proj1 (tst_frame_eq _ _ _ _ _ _ _ _ _ T')), Eit. apply list_insert_insert_eq.
  - unfold ilock. unfold bind at 1. rewrite (geti_done _ y) by done. rewrite (proj2 (Z.ltb_ge _ _)) by lia.
    unfold bind at 1. rewrite Eacq. rewrite (E (fun x => when (i_type x =? 0) (panic "ilock: no type"))).
    unfold when. change (i_type (loaded _ _ _)) with (i_type (disk_inode (view dev s) (sb s) (i_inum y) y)). by destruct (_ =? 0).
Qed.

Lemma ilock_done start hs s ip y :
  txn dev me pid [] ∅ start hs s -> (2 <= nfree s)%nat -> itable s !! ip = Some y -> i_dev y = dev ->
  inodes_ok start (sb s) -> 0 <= i_inum y < sb_ninodes (sb s) ->
  1 <= i_ref y -> i_valid y = false -> sl_locked (i_lock y) = false -> ref dev s (IBLOCK (i_inum y) (sb s)) < 2^31 - 1 ->
  i_type (disk_inode (view dev s) (sb s) (i_inum y) y) <> 0 ->
  exists s', ilock ip s = Done tt s' /\ txn dev me pid [] ∅ start hs s' /\ (forall m, view dev s' m = view dev s m) /\
    itable s' = <[ip := loaded (view dev s) (sb s) (locked_inode y)]> (itable s).
Proof.
  intros T Hnf Hy Hd Ho Hi Hr Hv Hl Href Hty. destruct (ilock_reads start hs s ip y) as (s' & T' & Hv' & Hit & E); try done.
  rewrite (proj2 (Z.eqb_neq _ _)) in E by done. by exists s'.
Qed.

(** C17. [ilock] of an inode that is not in memory, whatever bytes the disk holds at the place
    of the inode, 64 bytes in block [inodestart + inum / 16]: if the two bytes of the type
    are 0 it panics. Otherwise it returns with the lock of the entry held and no other entry
    and no block changed; the fields of the entry are then values of their C types and,
    laid out as [struct dinode], they are exactly these 64 bytes. *)
Theorem ilock_decodes start hs s ip y d :
  txn dev me pid [] ∅ start hs s -> (2 <= nfree s)%nat -> itable s !! ip = Some y -> i_dev y = dev ->
  inodes_ok start (sb s) -> 0 <= i_inum y < sb_ninodes (sb s) ->
  1 <= i_ref y -> i_valid y = false -> sl_locked (i_lock y) = false ->
  ref dev s (sb_inodestart (sb s) + i_inum y / 16) < 2^31 - 1 ->
  view dev s (sb_inodestart (sb s) + i_inum y / 16) = d -> Forall is_byte d ->
  let here := sub (64 * (i_inum y mod 16)) 64 d in
  (take 2 here = [0; 0] -> exists s', ilock ip s = Panic "ilock: no type" s') /\
  (take 2 here <> [0; 0] -> exists s' z, ilock ip s = Done tt s' /\ txn dev me pid [] ∅ start hs s' /\
    (forall m, view dev s' m = view dev s m) /\ itable s' = <[ip := z]> (itable s) /\
    inode_wf z /\ dinode_bytes z = here /\ i_valid z = true /\ i_lock z = mk_sleeplock true pid /\
    i_dev z = i_dev y /\ i_inum z = i_inum y /\ i_ref z = i_ref y).
Proof.
  intros T Hnf Hy Hd Ho Hi Hr Hv Hl Href Ed Hb here.
  destruct (IBLOCK_eq _ _ _ Ho Hi) as [En _]. change IPB with 16 in En. rewrite Z.add_comm, <- En in Href, Ed.
  destruct (ilock_reads start hs s ip y) as (s' & T' & Hv' & Hit & E); try done.
  pose proof (tst_len _ _ _ _ _ _ _ _ _ _ _ _ (IBLOCK (i_inum y) (sb s)) (tst_init dev me pid start hs s T)) as Hlen.
  cbv beta in Hlen. rewrite Ed in Hlen. destruct (dinode_off_in (i_inum y)) as [Ho1 Ho2].
  assert (dinode_off (i_inum y) + dinode_size <= Z.of_nat (length d)) as Hin by (rewrite Hlen; unfold BSIZE in *; lia).
  assert (here = sub (dinode_off (i_inum y)) dinode_size d) as Eh
    by (unfold here, dinode_off; rewrite (Z.mul_comm 64); done).
  assert (take 2 here = sub (dinode_off (i_inum y)) 2 d) as Et by (rewrite Eh; unfold sub; by rewrite take_take).
  pose proof (type_zero (dinode_off (i_inum y)) d y Hb Ho1 ltac:(unfold dinode_size in *; lia)) as Hz.
  rewrite Et. unfold disk_inode in E. rewrite Ed in E. split; intros Hty.
  - apply Hz in Hty. rewrite Hty in E. by exists s'.
  - rewrite (proj2 (Z.eqb_neq _ _)) in E by (by intros ?%Hz).
    exists s', (up_i_valid (fun _ => true) (load_dinode (dinode_off (i_inum y)) d (locked_inode y))). do 3 (split; [done|]).
    split; [by rewrite Hit, <- Ed|].
    split; [destruct (load_dinode_wf (dinode_off (i_inum y)) d y Hb); by split|].
    split; [|done]. rewrite Eh, dinode_bytes_valid. exact (load_dinode_bytes _ d (locked_inode y) Hb Ho1 Hin).
Qed.

(** C16. An inode written by [iupdate] is what [ilock] reads later, in whatever entry of the
    table the inode then has, as long as its block was not written since: type, device
    numbers, link count, size and block addresses come back, at every value that fits
    their C types, 0 for the type excepted, where [ilock] panics. *)
Theorem iupdate_ilock start hs s ip x :
  txn dev me pid [] ∅ start hs s -> room dev hs s -> itable s !! ip = Some x -> i_dev x = dev ->
  inode_wf x -> i_type x <> 0 -> inodes_ok start (sb s) -> 0 <= i_inum x < sb_ninodes (sb s) ->
  let n := IBLOCK (i_inum x) (sb s) in
  exists s1, iupdate ip s = Done tt s1 /\ txn dev me pid [] ∅ start (join n hs) s1 /\
    itable s1 = itable s /\ sb s1 = sb s /\ (nfree s <= S (nfree s1))%nat /\ (forall m, ref dev s1 m <= ref dev s m + 1) /\
    forall hs2 s2 jp y, txn dev me pid [] ∅ start hs2 s2 -> (2 <= nfree s2)%nat -> ref dev s2 n < 2^31 - 1 ->
      sb s2 = sb s -> view dev s2 n = view dev s1 n ->
      itable s2 !! jp = Some y -> i_dev y = dev -> i_inum y = i_inum x -> 1 <= i_ref y -> i_valid y = false -> sl_locked (i_lock y) = false ->
      exists s3, ilock jp s2 = Done tt s3 /\
        itable s3 = <[jp := up_i_valid (fun _ => true) (with_disk x (locked_inode y))]> (itable s2).
Proof.
  intros T R Hx Hd Hwf Hty Ho Hi n. destruct (iupdate_done start hs s ip x T R Hx Hd Hwf Ho Hi) as (s1 & nf' & E & Hnf & T').
  destruct (tst_frame_eq _ _ _ _ _ _ _ _ _ T'). exists s1. split; [exact E|]. split; [apply T'|]. split; [done|]. split; [done|].
  split; [by rewrite (ts_nfree _ _ _ _ _ _ _ _ _ _ _ _ T')|]. split.
  { intros m. rewrite (ts_ref _ _ _ _ _ _ _ _ _ _ _ _ T'). unfold joined, fupd. repeat case_decide; subst; lia. }
  intros hs2 s2 jp y T2 H2f Hr Hsb Hv Hy Hyd Hyi Hyr Hyv Hyl.
  rewrite (ts_view _ _ _ _ _ _ _ _ _ _ _ _ T'), fupd_eq in Hv. destruct (dinode_off_in (i_inum x)).
  assert (forall z, disk_inode (view dev s2) (sb s2) (i_inum y) z = with_disk x z) as Hload.
  { intros z. unfold disk_inode. rewrite Hsb, Hyi. fold n. rewrite Hv. apply load_store_dinode; try done.
    rewrite (tst_len _ _ _ _ _ _ _ _ _ _ _ _ _ (tst_init dev me pid start hs s T)). unfold BSIZE in *. lia. }
  destruct (ilock_done start hs2 s2 jp y T2 H2f Hy Hyd) as (s3 & E3 & _ & _ & Hit); try done.
  - by rewrite Hsb.
  - by rewrite Hsb, Hyi.
  - by rewrite Hsb, Hyi.
  - by rewrite Hload.
  - exists s3. split; [exact E3|]. rewrite Hit. unfold loaded. cbn [locked_inode i_inum up_i_lock]. by rewrite Hload.
Qed.
End inodes.

(** ** A disk with 16 inodes in block 40 *)

#[local] Existing Instance demo_disk.
#[local] Existing Instance demo_disk_env.
#[local] Existing Instance demo_disk_ok.
#[local] Existing Instance demo_fuel.
#[local] Existing Instance demo_uart.

Definition demo_inodes : kst :=
  up_sb (fun _ => mk_superblock FSMAGIC 160 0 16 30 2 40 100) (demo_file T_FILE 12 demo_text).
Lemma demo_inodes_txn : txn 1 0 0 [] ∅ 2 [100] demo_inodes.
Proof.
  assert (txn 1 0 0 [] ∅ 2 [100] (demo_file T_FILE 12 demo_text)) as T by by apply demo_file_txn.
  apply (txn_ext 1 0 0 [] ∅ 2 [100] _ _ T); [done|done|apply (on_cpu_ext 0 0 (demo_file T_FILE 12 demo_text)); [apply T|done..]|].
  destruct (t_log _ _ _ _ _ _ _ _ T). by split.
Qed.
Lemma demo_inodes_ref m : ref 1 demo_inodes m < 100.
Proof.
  unfold ref. destruct (lookup_buf 1 demo_inodes m) as [b|] eqn:E; [|done]. apply lookup_buf_Some in E as (i & Hi & _).
  destruct i as [|i]; [by injection Hi as <-|]. apply (demo_bufs (S i)) in Hi as ->. done.
Qed.
Lemma demo_inodes_room : room 1 [100] demo_inodes.
Proof.
  split; [done|done|done| |].
  - intros m. pose proof (demo_inodes_ref m). lia.
  - assert (nfree demo_inodes = 29%nat) as -> by (vm_compute; reflexivity). lia.
Qed.
Lemma demo_inodes_ok : inodes_ok 2 (sb demo_inodes).
Proof.
  split; [done|done|]. intros i Hi. change (sb_ninodes (sb demo_inodes)) with 16 in Hi.
  unfold IBLOCK. change (sb_inodestart (sb demo_inodes)) with 40. change IPB with 16.
  rewrite u32_small by zlia. unfold in_log, LOGSIZE, MAXOPBLOCKS. zlia.
Qed.
Lemma demo_inode_wf : inode_wf (demo_inode T_FILE 12).
Proof. split; [done..|]. apply (bool_decide_unpack _). vm_compute. exact I. Qed.

(** Inode 1 with its fields in block 40, which is in the cache. *)
Definition demo_iblock : list Z := store_dinode (demo_inode T_FILE 12) 64 (replicate 1024 0).
Definition demo_ondisk : kst :=
  up_sb (fun _ => mk_superblock FSMAGIC 160 0 16 30 2 100 90)
    (up_itable (<[0%nat := mk_inode 1 1 1 (mk_sleeplock false 0) false 0 0 0 0 0 []]>) (demo_file T_FILE 12 demo_iblock)).
Lemma ilock_decodes_witness :
  take 12 (sub 64 64 demo_iblock) = [2; 0; 0; 0; 0; 0; 1; 0; 12; 0; 0; 0] /\
  exists s' z, ilock 0 demo_ondisk = Done tt s' /\ itable s' !! 0%nat = Some z /\ inode_wf z /\ dinode_bytes z = sub 64 64 demo_iblock.
Proof.
  set (y := mk_inode 1 1 1 (mk_sleeplock false 0) false 0 0 0 0 0 []).
  assert (txn 1 0 0 [] ∅ 2 [100] demo_ondisk) as T.
  { assert (txn 1 0 0 [] ∅ 2 [100] (demo_file T_FILE 12 demo_iblock)) as T by by apply demo_file_txn.
    apply (txn_ext 1 0 0 [] ∅ 2 [100] _ _ T); [done|done|apply (on_cpu_ext 0 0 (demo_file T_FILE 12 demo_iblock)); [apply T|done..]|].
    destruct (t_log _ _ _ _ _ _ _ _ T). by split. }
  split; [vm_compute; reflexivity|].
  destruct (ilock_decodes 1 0 0 Nat.lt_0_1 2 [100] demo_ondisk 0 y demo_iblock T) as [_ Hok].
  - apply (bool_decide_unpack _). vm_compute. exact I.
  - reflexivity.
  - reflexivity.
  - split; [done|done|]. intros i Hi. change (sb_ninodes (sb demo_ondisk)) with 16 in Hi.
    unfold IBLOCK. change (sb_inodestart (sb demo_ondisk)) with 100. change IPB with 16.
    rewrite u32_small by zlia. unfold in_log, LOGSIZE, MAXOPBLOCKS. zlia.
  - change (0 <= 1 < 16). lia.
  - apply Z.le_refl.
  - reflexivity.
  - reflexivity.
  - apply (bool_decide_unpack _). vm_compute. exact I.
  - vm_compute. reflexivity.
  - apply (bool_decide_unpack _). vm_compute. exact I.
  - destruct Hok as (s' & z & E & _ & _ & Hit & Hwf & Hz & _); [apply (bool_decide_unpack _); vm_compute; exact I|].
    exists s', z. split; [exact E|]. split; [rewrite Hit; apply list_lookup_insert_eq; apply (bool_decide_unpack _); vm_compute; exact I|].
    split; [exact Hwf|exact Hz].
Defined.
Lemma iupdate_stores_witness :
  exists s', iupdate 0 demo_inodes = Done tt s' /\
    i_size (disk_inode (view 1 demo_inodes) (sb demo_inodes) 1 inode0) = 0 /\ i_size (disk_inode (view 1 s') (sb demo_inodes) 1 inode0) = 12.
Proof.
  destruct (iupdate_stores 1 0 0 Nat.lt_0_1 2 [100] demo_inodes 0 (demo_inode T_FILE 12) demo_inodes_txn demo_inodes_room
    eq_refl eq_refl demo_inode_wf demo_inodes_ok) as (s' & E & _ & _ & Hd & _); [change (0 <= 1 < 16); lia|].
  exists s'. split; [exact E|]. split; [vm_compute; reflexivity|]. by rewrite Hd by (change (0 <= 1 < 16); lia).
Defined.
Lemma iupdate_ilock_witness :
  exists s1 s3, iupdate 0 demo_inodes = Done tt s1 /\
    ilock 0 (up_itable (<[0%nat := mk_inode 1 1 1 (mk_sleeplock false 0) false 0 0 0 0 0 []]>) s1) = Done tt s3 /\
    itable s3 !! 0%nat = Some (up_i_lock (fun _ => mk_sleeplock true 0) (demo_inode T_FILE 12)).
Proof.
  destruct (iupdate_ilock 1 0 0 Nat.lt_0_1 2 [100] demo_inodes 0 (demo_inode T_FILE 12) demo_inodes_txn demo_inodes_room
    eq_refl eq_refl demo_inode_wf ltac:(done) demo_inodes_ok) as (s1 & E & T & Hit & Hsb & Hnf & Hr & Hlock); [change (0 <= 1 < 16); lia|].
  set (y := mk_inode 1 1 1 (mk_sleeplock false 0) false 0 0 0 0 0 []).
  assert (length (itable s1) = NINODE) as Hl by (rewrite Hit; vm_compute; reflexivity).
  destruct (Hlock _ (up_itable (<[0%nat := y]>) s1) 0%nat y (txn_itable 1 0 0 _ _ _ _ _ _ T)) as (s3 & E3 & Hit3);
    [| |exact Hsb|reflexivity| |reflexivity|reflexivity|apply Z.le_refl|reflexivity|reflexivity|].
  - change (2 <= nfree s1)%nat. assert (nfree demo_inodes = 29%nat) as E29 by (vm_compute; reflexivity). lia.
  - change (ref 1 s1 (IBLOCK 1 (sb demo_inodes)) < 2^31 - 1). pose proof (Hr (IBLOCK 1 (sb demo_inodes))).
    pose proof (rm_ref _ _ _ demo_inodes_room (IBLOCK 1 (sb demo_inodes))). lia.
  - apply list_lookup_insert_eq. rewrite Hl. unfold NINODE. lia.
  - exists s1, s3. split; [exact E|]. split; [exact E3|]. rewrite Hit3. apply list_lookup_insert_eq.
    cbn [itable up_itable]. rewrite length_insert, Hl. unfold NINODE. lia.
Defined.
