(* ===== verification/FileWrite.v ===== *)
(** * Writing to files

    [writei] over data a file has: exactly the bytes of the range change, and the
    blocks that hold them and the inode's join the transaction. *)

From S2P Require Import Prelude CString Bytes State Spinlock Proc Console Sleeplock Virtio Bio BufCache Log Recovery CrashSafety Fs FileData Itable Alloc Inodes.

(** Block [k] is one of the file's. *)
Definition file_block (x : inode) (k : Z) : Prop := 0 <= k /\ k * BSIZE < i_size x.
(** The blocks of the file are distinct, and neither in the log nor the block of inodes. *)
Record file_apart (start : Z) (b : superblock) (vw : Z -> list Z) (x : inode) : Prop := {
  fa_distinct k l : file_block x k -> file_block x l -> baddr vw x k = baddr vw x l -> k = l;
  fa_ind k : file_block x k -> Z.of_nat NDIRECT * BSIZE < i_size x -> baddr vw x k <> ind_block x;
  fa_log k : file_block x k -> ~ in_log start (baddr vw x k);
  fa_inode k : file_block x k -> baddr vw x k <> IBLOCK (i_inum x) b;
  fa_ind_inode : Z.of_nat NDIRECT * BSIZE < i_size x -> ind_block x <> IBLOCK (i_inum x) b }.

(** The view [v'] differs from [v] by the [tot] bytes of [l] at [off] of the file. *)
Record wrote (x : inode) (off tot : Z) (l : list Z) (v v' : Z -> list Z) : Prop := {
  wr_byte j : 0 <= j < i_size x -> fbyte v' x j = if decide (off <= j < off + tot) then default 0 (l !! Z.to_nat (j - off)) else fbyte v x j;
  wr_addr k : file_block x k -> baddr v' x k = baddr v x k;
  wr_ind : Z.of_nat NDIRECT * BSIZE < i_size x -> v' (ind_block x) = v (ind_block x);
  wr_other m : (forall k, file_block x k -> m <> baddr v x k) -> v' m = v m }.

Section wrote.
Variables (start : Z) (b : superblock) (v : Z -> list Z) (x : inode) (l : list Z) (off0 : Z).
Hypothesis N : no_holes v x.
Hypothesis A : file_apart start b v x.
Hypothesis off0_pos : 0 <= off0.

Lemma wrote_none : wrote x off0 0 l v v.
Proof. split; try done. intros j Hj. by rewrite decide_False by lia. Qed.
(** The indirect block is needed only for a long file. *)
Lemma baddr_ext v1 v2 k : file_block x k -> (Z.of_nat NDIRECT * BSIZE < i_size x -> v2 (ind_block x) = v1 (ind_block x)) -> baddr v2 x k = baddr v1 x k.
Proof.
  intros [Hk Hs] Hi. unfold baddr. destruct (Z.ltb_spec k (Z.of_nat NDIRECT)); [done|]. rewrite Hi; [done|]. unfold BSIZE, NDIRECT in *. lia.
Qed.

(** One more piece, inside one block. *)
Lemma wrote_block v1 tot m :
  wrote x off0 tot l v v1 -> 0 <= tot -> 0 < m -> off0 + tot + m <= i_size x -> m <= BSIZE - (off0 + tot) mod BSIZE ->
  tot + m <= Z.of_nat (length l) -> (forall n, length (v1 n) = Z.to_nat BSIZE) ->
  let off := off0 + tot in let a := baddr v x (off / BSIZE) in
  wrote x off0 (tot + m) l v (fupd v1 a (splice (off mod BSIZE) (take (Z.to_nat m) (drop (Z.to_nat tot) l)) (v1 a))).
Proof.
  intros [W1 W2 W3 W4] Ht Hm Hs Hb Hl Hlen off a. fold off in Hs, Hb. set (bs := take (Z.to_nat m) (drop (Z.to_nat tot) l)).
  assert (Z.of_nat (length bs) = m) as Hbs by (unfold bs; rewrite length_take, length_drop; lia). pose proof (Z.mod_pos_bound off BSIZE ltac:(done)) as Hmod.
  assert (file_block x (off / BSIZE)) as Hf by (unfold file_block, BSIZE in *; split; zlia). set (v2 := fupd v1 a _).
  assert (Z.of_nat NDIRECT * BSIZE < i_size x -> v2 (ind_block x) = v (ind_block x)) as Hi.
  { intros Hlong. unfold v2. rewrite fupd_ne; [by apply W3|]. intros E. by apply (fa_ind _ _ _ _ A (off / BSIZE)). }
  assert (forall k, file_block x k -> baddr v2 x k = baddr v x k) as Ha by (intros k Hk; by apply baddr_ext).
  split; [|done|done|].
  - intros j Hj. pose proof (Z.mod_pos_bound j BSIZE ltac:(done)). assert (file_block x (j / BSIZE)) as Hjb by (unfold file_block, BSIZE in *; split; zlia).
    specialize (W1 j Hj). unfold fbyte in *. rewrite (Ha _ Hjb). rewrite (W2 _ Hjb) in W1. destruct (decide (j / BSIZE = off / BSIZE)) as [E|E].
    + rewrite E in W1 |- *. fold a in W1 |- *. unfold v2. rewrite fupd_eq, lookup_splice by (rewrite ?Hlen, ?Hbs; unfold BSIZE in *; lia).
      rewrite Hbs. assert (j mod BSIZE - off mod BSIZE = j - off) as Ed by (unfold BSIZE in *; zlia). destruct (decide (off <= j < off + m)) as [Hin|Hout].
      * rewrite decide_True by (unfold BSIZE in *; lia). rewrite decide_True by (unfold off in *; lia). unfold bs. rewrite lookup_take_lt, lookup_drop by (unfold BSIZE in *; lia).
        do 2 f_equal. unfold off, BSIZE in *. lia.
      * rewrite (decide_False (P := off mod BSIZE <= Z.of_nat (Z.to_nat (j mod BSIZE)) < off mod BSIZE + m)) by (unfold BSIZE in *; lia). rewrite W1. repeat case_decide; try done; unfold off in *; lia.
    + unfold v2. rewrite fupd_ne by (intros Eq; apply E; by apply (fa_distinct _ _ _ _ A)). rewrite W1.
      assert (~ (off <= j < off + m)) by (unfold BSIZE in *; zlia). repeat case_decide; try done; unfold off in *; lia.
  - intros n Hn. unfold v2. rewrite fupd_ne by (intros ->; by apply (Hn _ Hf)). by apply W4.
Qed.
End wrote.

(** ** The loop of [writei] *)

Section writei.
Context `{UartDev} `{BlockDev} `{Env} `{Fuel} `{!BlockDevOk} (dev : Z) (me : nat) (pid : Z) (start : Z) (s0 : kst).
Hypothesis fuel_pos : (0 < fuel)%nat.
Notation tst := (tst dev me pid start s0).

(** [bmap] of a block the file has. *)
Lemma tst_bmap hs vw rf nf s ip x k :
  tst [] ∅ hs vw rf nf s -> itable s0 !! ip = Some x -> i_dev x = dev -> no_holes vw x -> file_block x k ->
  rf (ind_block x) < 2^31 - 1 -> (2 <= nf)%nat ->
  wp (bmap ip k) (fun a s' => a = baddr vw x k /\ tst [] ∅ hs vw rf nf s') s.
Proof.
  intros T Hx Hdev [Hl Hsz Hb Hind] [Hk Hks] Hr Hnf. specialize (Hb k Hk Hks). unfold bmap.
  apply wp_bind, (wp_geti _ x); [by rewrite (proj1 (tst_frame_eq _ _ _ _ _ _ _ _ _ _ _ _ T))|]. unfold baddr in *. unfold BSIZE, MAXFILE, NINDIRECT, NDIRECT in *.
  destruct (Z.ltb_spec k (Z.of_nat 12)) as [Hlt|Hge].
  - destruct (i_addrs x !! Z.to_nat k) as [a|] eqn:Ea; [|simpl in Hb; lia]. simpl in Hb.
    apply wp_bind. unfold wp at 1. cbn [must ret]. rewrite (proj2 (Z.eqb_neq a 0)) by lia. by apply wp_ret.
  - specialize (Hind ltac:(lia)). unfold ind_block, NDIRECT in *. rewrite (proj2 (Z.ltb_lt (k - Z.of_nat 12) 256)) by lia.
    destruct (i_addrs x !! 12%nat) as [a|] eqn:Ea; [|simpl in Hind; lia]. simpl in Hind, Hb, Hr. pose proof (tst_few _ _ _ _ _ _ _ _ _ _ _ _ T a).
    apply wp_bind. unfold wp at 1. cbn [must ret]. rewrite (proj2 (Z.eqb_neq a 0)) by lia.
    apply wp_bind, wp_ret. rewrite (proj2 (Z.eqb_neq a 0)) by lia. rewrite Hdev.
    apply wp_bind. eapply wp_mono; [apply (tst_bread dev me pid start s0 fuel_pos _ _ _ _ _ _ _ a T); [set_solver|lia|lia|lia]|]. intros i s1 T1. cbv beta in T1 |- *.
    apply wp_bind. eapply wp_mono; [apply (tst_getb dev me pid start s0 fuel_pos _ _ _ _ _ _ _ a i T1); set_solver|]. intros b ? (-> & Hd & _). cbv beta. rewrite Hd.
    cbv zeta. simpl. rewrite (proj2 (Z.eqb_neq _ 0)) by lia. apply wp_bind, wp_ret.
    apply wp_bind. eapply wp_mono; [apply (tst_put dev me pid start s0 fuel_pos _ _ _ _ _ a i T1); lia|]. intros [] s2 T2. by apply wp_ret.
Qed.

Variables (hs0 : list Z) (v0 : Z -> list Z) (rf0 : Z -> Z) (nf0 : nat) (ip : nat) (x : inode) (l : list Z) (off0 n : Z) (b : superblock).
Hypothesis x_in : itable s0 !! ip = Some x.
Hypothesis x_dev : i_dev x = dev.
Hypothesis N : no_holes v0 x.
Hypothesis A : file_apart start b v0 x.
Hypothesis range : 0 <= off0 /\ 0 <= n /\ off0 + n <= i_size x.
Hypothesis l_len : n <= Z.of_nat (length l).
(** The blocks of the first [tot] bytes of the range. *)
Definition touched (tot : Z) : Z := (off0 + tot + BSIZE - 1) / BSIZE - off0 / BSIZE.
Hypothesis log_room : lg_size (klog s0) <= LOGSIZE /\ Z.of_nat (length hs0) + touched n < lg_size (klog s0) - 1 /\ 1 <= lg_outstanding (klog s0).
Hypothesis ref_room : forall m, rf0 m < 2^31 - 4.
Hypothesis buf_room : touched n + 2 <= Z.of_nat nf0.

(** After [tot] bytes: [j] blocks joined the transaction at most. *)
Definition writing (tot : Z) (s : kst) : Prop := exists hs vw rf nf j,
  tst [] ∅ hs vw rf nf s /\ wrote x off0 tot l v0 vw /\ Z.of_nat (length hs) <= Z.of_nat (length hs0) + j /\ Z.of_nat nf0 <= Z.of_nat nf + j /\
  (tot = 0 /\ j = 0 \/ 0 < tot /\ j <= touched tot /\ (tot < n -> (off0 + tot) mod BSIZE = 0)) /\
  forall m, rf m <= rf0 m + (if decide (m ∈ hs) then 1 else 0).

Lemma no_holes_wrote tot vw : wrote x off0 tot l v0 vw -> no_holes vw x.
Proof. intros W. destruct N as [N1 N2 N3 N4]. split; [done|done| |done]. intros k Hk Hks. rewrite (wr_addr _ _ _ _ _ _ W) by done. by apply N3. Qed.
Lemma joined_bound m hs rf : (forall m, rf m <= rf0 m + (if decide (m ∈ hs) then 1 else 0)) ->
  forall k, joined m hs rf k <= rf0 k + (if decide (k ∈ join m hs) then 1 else 0).
Proof.
  intros Hb k. specialize (Hb k). unfold joined, join, fupd. destruct (decide (m ∈ hs)) as [|Hm]; [done|]. destruct (decide (k = m)) as [->|Hne].
  - rewrite decide_False in Hb by done. rewrite decide_True by set_solver. lia.
  - etransitivity; [exact Hb|]. repeat case_decide; try lia. set_solver.
Qed.
(** The blocks after one more turn. *)
Lemma touched_turn tot j :
  0 <= tot < n -> (tot = 0 /\ j = 0 \/ 0 < tot /\ j <= touched tot /\ (tot < n -> (off0 + tot) mod BSIZE = 0)) ->
  let m := Z.min (n - tot) (BSIZE - (off0 + tot) mod BSIZE) in
  0 < tot + m /\ j + 1 <= touched (tot + m) <= touched n /\ (tot + m < n -> (off0 + (tot + m)) mod BSIZE = 0).
Proof. clear - range. intros Ht Hj m. unfold touched, BSIZE in *. zlia. Qed.

(** One turn of the loop. *)
Lemma writei_turn tot s : writing tot s -> 0 <= tot < n ->
  let off := off0 + tot in let m := Z.min (n - tot) (BSIZE - off mod BSIZE) in
  forall k Q, (forall s', writing (tot + m) s' -> wp (writei_loop k ip (KernAddr l) (u32 (off + m)) n (tot + m)) Q s') ->
  wp (writei_loop (S k) ip (KernAddr l) off n tot) Q s.
Proof.
  intros (hs & vw & rf & nf & j & T & W & Hh & Hf & Hj & Hrf) Ht off m k Q HQ. destruct range as (Ho & Hn & Hs). destruct log_room as (L1 & L2 & L3).
  pose proof (Z.mod_pos_bound off BSIZE ltac:(done)) as Hmod. destruct (touched_turn tot j Ht Hj) as (Hm0 & Hj1 & Hal). fold off m in Hm0, Hj1, Hal.
  assert (0 < m <= n - tot /\ m <= BSIZE - off mod BSIZE) as [Hm1 Hm2] by (unfold m; lia).
  assert (forall a, rf a < 2^31 - 3) as Hrm by (intros a; specialize (Hrf a); specialize (ref_room a); case_decide; lia).
  assert (file_block x (off / BSIZE)) as Hfb by (unfold file_block, BSIZE, off in *; split; zlia).
  pose proof (tst_few _ _ _ _ _ _ _ _ _ _ _ _ T) as Hfew. pose proof (tst_len _ _ _ _ _ _ _ _ _ _ _ _ (baddr v0 x (off / BSIZE)) T) as Hlen.
  destruct Hfb as [Hf1 Hf2]. pose proof (nh_block _ _ N _ Hf1 Hf2) as Ha. pose proof (conj Hf1 Hf2 : file_block x _) as Hfb.
  cbn [writei_loop]. rewrite (proj2 (Z.ltb_lt _ _)) by lia. apply wp_bind. pose proof (Hrm (ind_block x)).
  eapply wp_mono; [apply (tst_bmap hs vw rf nf s ip x _ T x_in x_dev (no_holes_wrote _ _ W) Hfb); lia|]. intros a s1 [-> T1]. cbv beta.
  rewrite (wr_addr _ _ _ _ _ _ W) by done. set (a := baddr v0 x (off / BSIZE)) in *. rewrite (proj2 (Z.eqb_neq a 0)) by lia. pose proof (Hrm a). pose proof (Hfew a).
  apply wp_bind, (wp_geti _ x); [by rewrite (proj1 (tst_frame_eq _ _ _ _ _ _ _ _ _ _ _ _ T1))|]. rewrite x_dev.
  apply wp_bind. eapply wp_mono; [apply (tst_bread dev me pid start s0 fuel_pos _ _ _ _ _ _ _ a T1); [set_solver|lia|lia|lia]|]. intros i s2 T2. cbv beta in T2 |- *. fold m.
  cbn [either_copyin]. apply wp_bind, wp_ret. cbn [Z.eqb]. apply wp_seq3. 
  eapply wp_mono; [apply (tst_change dev me pid start s0 fuel_pos _ _ _ _ _ a i (splice (off mod BSIZE) (take (Z.to_nat m) (drop (Z.to_nat tot) l))) T2); try lia|].
  - by apply (fa_log _ _ _ _ A).
  - rewrite length_splice; [done|lia|]. rewrite Hlen, length_take, length_drop. unfold BSIZE in *. lia.
  - intros [] s3 (nf' & Hnf & T3). apply HQ. exists (join a hs), (fupd vw a (splice (off mod BSIZE) (take (Z.to_nat m) (drop (Z.to_nat tot) l)) (vw a))), (joined a hs rf), nf', (j + 1). pose proof (length_join a hs).
    split; [exact T3|]. split; [|split; [lia|split; [lia|split; [right; lia|by apply joined_bound]]]].
    eapply wrote_block; try done; try (unfold off in *; lia). intros y. by apply (tst_len _ _ _ _ _ _ _ _ _ _ _ _ _ T).
Qed.

(** The whole loop. *)
Lemma writei_loop_writes k tot s : writing tot s -> 0 <= tot <= n -> off0 + n < 2^32 -> (n - tot + BSIZE - 1) / BSIZE + (if decide (tot = 0) then 1 else 0) < Z.of_nat k ->
  wp (writei_loop k ip (KernAddr l) (off0 + tot) n tot) (fun r s' => r = (n, off0 + n) /\ writing n s') s.
Proof.
  revert tot s. induction k as [|k IH]; intros tot s Hw Ht Hoff Hk; [unfold BSIZE in *; case_decide; zlia|].
  destruct (decide (tot = n)) as [->|Hne].
  { cbn [writei_loop]. rewrite (proj2 (Z.ltb_ge _ _)) by lia. by apply wp_ret. }
  apply writei_turn; [done|lia|]. intros s' Hw'. pose proof (Z.mod_pos_bound (off0 + tot) BSIZE ltac:(done)) as Hmod.
  set (m := Z.min _ _) in *. assert (0 < m <= n - tot) by (unfold m; lia). destruct range. rewrite u32_small by lia.
  replace (off0 + tot + m) with (off0 + (tot + m)) by lia. apply IH; [done|lia|lia|].
  destruct Hw as (_ & _ & _ & _ & j & _ & _ & _ & _ & Hj & _). rewrite decide_False by lia.
  unfold m, BSIZE in *. case_decide; zlia.
Qed.

Hypothesis T0 : tst [] ∅ hs0 v0 rf0 nf0 s0.
Lemma writing_start : writing 0 s0.
Proof.
  exists hs0, v0, rf0, nf0, 0. split; [done|]. split; [apply wrote_none|]. split; [lia|]. split; [lia|]. split; [by left|]. intros m. case_decide; lia.
Qed.
(** [writei] up to the update of the inode. *)
Lemma writei_bytes : exists s1 hs vw rf nf,
  writei ip (KernAddr l) off0 n s0 = (iupdate ip ;;; ret n) s1 /\ tst [] ∅ hs vw rf nf s1 /\ wrote x off0 n l v0 vw /\
  Z.of_nat (length hs) <= Z.of_nat (length hs0) + touched n /\ Z.of_nat nf0 <= Z.of_nat nf + touched n /\ forall m, rf m <= rf0 m + 1.
Proof.
  destruct range as (Ho & Hn & Hs). destruct (nh_size _ _ N) as [_ Hmax]. unfold MAXFILE, NINDIRECT, NDIRECT in Hmax.
  assert (off0 + n < 2^32) by (unfold BSIZE in *; lia). assert (0 <= touched n) by (unfold touched, BSIZE; zlia).
  pose proof (writei_loop_writes (Z.to_nat (n / BSIZE + 3)) 0 s0 writing_start) as W. rewrite Z.add_0_r in W. 
  apply wp_done in W as ([r o] & s1 & E & [= -> ->] & hs & vw & rf & nf & j & T & Hw & Hh & Hf & Hj & Hrf); [|lia|lia|rewrite decide_True by done; unfold BSIZE in *; zlia].
  exists s1, hs, vw, rf, nf. split; [|split; [done|split; [done|split; [lia|split; [lia|intros m; specialize (Hrf m); case_decide; lia]]]]].
  unfold writei. unfold bind at 1. rewrite (geti_done _ x) by done. rewrite u32_small by lia.
  rewrite (proj2 (Z.ltb_ge _ _)), (proj2 (Z.ltb_ge _ _)), (proj2 (Z.ltb_ge _ _)) by (unfold MAXFILE, NINDIRECT, NDIRECT, BSIZE in *; lia). cbn [orb].
  unfold bind at 1. rewrite E. unfold bind at 1. rewrite (geti_done _ x) by by rewrite (proj1 (tst_frame_eq _ _ _ _ _ _ _ _ _ _ _ _ T)).
  by rewrite (proj2 (Z.ltb_ge _ _)) by lia.
Qed.
End writei.

(** ** [writei] in a transaction *)

(** Room in the log and in the cache for the range and the block of the inode. *)
Record write_room (dev : Z) (hs : list Z) (off n : Z) (s : kst) : Prop := {
  wm_log : lg_size (klog s) <= LOGSIZE;
  wm_disk : Z.of_nat (length hs) + touched off n + 1 < lg_size (klog s) - 1;
  wm_op : 1 <= lg_outstanding (klog s);
  wm_ref m : ref dev s m < 2^31 - 4;
  wm_free : touched off n + 3 <= Z.of_nat (nfree s) }.

(** The bytes of the file as a list. *)
Lemma fdata_wrote x off n l v v' :
  wrote x off n l v v' -> 0 <= off -> 0 <= n -> off + n <= i_size x -> n <= Z.of_nat (length l) ->
  fdata v' x 0 (i_size x) = splice off (take (Z.to_nat n) l) (fdata v x 0 (i_size x)).
Proof.
  intros W Ho Hn Hs Hl. assert (Z.of_nat (length (take (Z.to_nat n) l)) = n) as Ht by (rewrite length_take; lia).
  apply list_eq. intros i. rewrite lookup_splice; [|lia|rewrite Ht, length_fdata by lia; lia]. rewrite Ht. unfold fdata.
  destruct (decide (i < Z.to_nat (i_size x))%nat) as [Hi|Hi].
  - rewrite !list_lookup_fmap, !lookup_seqZ_lt by lia. simpl. rewrite (wr_byte _ _ _ _ _ _ W) by lia. destruct (decide (off <= Z.of_nat i < off + n)) as [Hin|Hout].
    + rewrite decide_True by lia. rewrite lookup_take_lt by lia. replace (i - Z.to_nat off)%nat with (Z.to_nat (Z.of_nat i - off)) by lia.
      destruct (lookup_lt_is_Some_2 l (Z.to_nat (Z.of_nat i - off))) as [z Hz]; [lia|]. rewrite Hz. replace (0 + Z.of_nat i - off) with (Z.of_nat i - off) by lia. by rewrite Hz.
    + by rewrite decide_False by lia.
  - rewrite decide_False by lia. rewrite !lookup_ge_None_2; [done|rewrite length_fmap, length_seqZ; lia..].
Qed.
(** The block of the inode is none of the file's. *)
Lemma wrote_inode start b x off n l v v1 v2 :
  file_apart start b v x -> wrote x off n l v v1 -> (forall m, m <> IBLOCK (i_inum x) b -> v2 m = v1 m) ->
  (forall j, 0 <= j < i_size x -> fbyte v2 x j = fbyte v1 x j) /\ (forall k, file_block x k -> baddr v2 x k = baddr v x k).
Proof.
  intros A W Hv. assert (forall k, file_block x k -> baddr v2 x k = baddr v x k) as Hb.
  { intros k Hk. rewrite <- (wr_addr _ _ _ _ _ _ W k Hk). apply baddr_ext; [done|]. intros Hlong. apply Hv. by apply (fa_ind_inode _ _ _ _ A). }
  split; [|done]. intros j Hj. assert (file_block x (j / BSIZE)) as Hf by (unfold file_block, BSIZE in *; split; zlia).
  unfold fbyte. rewrite Hb, (wr_addr _ _ _ _ _ _ W) by done. rewrite Hv; [done|]. by apply (fa_inode _ _ _ _ A).
Qed.

Section writei_txn.
Context `{UartDev} `{BlockDev} `{Env} `{Fuel} `{!BlockDevOk} (dev : Z) (me : nat) (pid : Z).
Hypothesis fuel_pos : (0 < fuel)%nat.

Lemma write_room_room start hs hs' s s' off n vw rf nf :
  write_room dev hs off n s -> tst dev me pid start s [] ∅ hs' vw rf nf s' ->
  Z.of_nat (length hs') <= Z.of_nat (length hs) + touched off n -> Z.of_nat (nfree s) <= Z.of_nat nf + touched off n ->
  (forall m, rf m <= ref dev s m + 1) -> room dev hs' s'.
Proof.
  intros [R1 R2 R3 R4 R5] T Hh Hf Hr. destruct (ts_frame _ _ _ _ _ _ _ _ _ _ _ _ T) as [_ E2 E3].
  split; rewrite ?E2, ?E3; try lia.
  - intros m. rewrite (ts_ref _ _ _ _ _ _ _ _ _ _ _ _ T). specialize (Hr m). specialize (R4 m). lia.
  - rewrite (ts_nfree _ _ _ _ _ _ _ _ _ _ _ _ T). lia.
Qed.

(** C13. [writei] from kernel memory over bytes the file has, in a file without holes whose blocks
    are its own and with room in the log, direct and indirect blocks alike, writes
    them all: the file is what it was with the bytes of the range
    replaced, the data of no other file and no other block changes, the inode on
    the disk is the one in memory, and every block that changed is in the transaction
    that was running. Writes from a user address, where a page may be missing, and
    writes that make the file longer are not covered. *)
Theorem writei_writes start hs s ip x l off n :
  txn dev me pid [] ∅ start hs s -> write_room dev hs off n s -> itable s !! ip = Some x -> i_dev x = dev ->
  inode_wf x -> inodes_ok start (sb s) -> 0 <= i_inum x < sb_ninodes (sb s) ->
  no_holes (view dev s) x -> file_apart start (sb s) (view dev s) x ->
  0 <= off -> 0 <= n -> off + n <= i_size x -> n <= Z.of_nat (length l) ->
  exists s' hs', writei ip (KernAddr l) off n s = Done n s' /\ txn dev me pid [] ∅ start hs' s' /\ itable s' = itable s /\
    fdata (view dev s') x 0 (i_size x) = splice off (take (Z.to_nat n) l) (fdata (view dev s) x 0 (i_size x)) /\
    no_holes (view dev s') x /\
    (forall y, disk_inode (view dev s') (sb s) (i_inum x) y = with_disk x y) /\
    (forall m, (forall k, file_block x k -> m <> baddr (view dev s) x k) -> m <> IBLOCK (i_inum x) (sb s) -> view dev s' m = view dev s m).
Proof.
  intros T R Hx Hd Hwf Ho Hi N A H1o H1n Hs Hl. pose proof (tst_init dev me pid start hs s T) as T0. pose proof R as [R1 R2 R3 R4 R5].
  destruct (writei_bytes dev me pid start s fuel_pos hs (view dev s) (ref dev s) (nfree s) ip x l off n (sb s)) as (s1 & hs1 & vw & rf & nf & E & T1 & W & Hh & Hf & Hr); try done; try lia.
  pose proof (write_room_room _ _ _ _ _ _ _ _ _ _ R T1 Hh Hf Hr) as R'. destruct (tst_frame_eq _ _ _ _ _ _ _ _ _ _ _ _ T1) as [Ei Es].
  destruct (iupdate_stores dev me pid fuel_pos start hs1 s1 ip x (ts_txn _ _ _ _ _ _ _ _ _ _ _ _ T1) R') as (s2 & E2 & T2 & It2 & Hdi & Hv2); rewrite ?Ei, ?Es; try done.
  rewrite Es in Hdi, Hv2. pose proof (ts_view _ _ _ _ _ _ _ _ _ _ _ _ T1) as Hv1.
  assert (forall m, m <> IBLOCK (i_inum x) (sb s) -> view dev s2 m = vw m) as Hv by (intros m Hm; by rewrite Hv2, Hv1).
  destruct (wrote_inode start (sb s) x off n l _ _ _ A W Hv) as [Hb Ha]. exists s2. eexists. split.
  { rewrite E. unfold bind. by rewrite E2. }
  split; [exact T2|]. split; [congruence|]. split.
  { rewrite <- (fdata_wrote x off n l _ vw W) by done. unfold fdata. apply list_fmap_ext. intros i j Hj. apply lookup_seqZ in Hj. apply Hb. lia. }
  split. { destruct N as [N1 N2 N3 N4]. split; [done|done| |done]. intros k Hk Hks. rewrite (Ha k) by done. by apply N3. }
  split. { intros y. rewrite Hdi by done. by rewrite decide_True. }
  intros m Hm Hmi. rewrite Hv by done. by apply (wr_other _ _ _ _ _ _ W).
Qed.
End writei_txn.

(** ** Over the text of a file *)

#[local] Existing Instance demo_disk.
#[local] Existing Instance demo_disk_env.
#[local] Existing Instance demo_disk_ok.
#[local] Existing Instance demo_fuel.
#[local] Existing Instance demo_uart.

Lemma demo_write_room : write_room 1 [100] 7 5 demo_inodes.
Proof.
  split; [done|done|done| |].
  - intros m. pose proof (demo_inodes_ref m). lia.
  - assert (nfree demo_inodes = 29%nat) as -> by (vm_compute; reflexivity). done.
Qed.
Lemma demo_file_apart : file_apart 2 (sb demo_inodes) (view 1 demo_inodes) (demo_inode T_FILE 12).
Proof.
  assert (forall k, file_block (demo_inode T_FILE 12) k -> k = 0) as Hk by (intros k [Hk Hks]; cbn in Hks; unfold BSIZE in *; lia).
  split; try (intros k Hf; rewrite (Hk k Hf)); try done.
  - intros k j Hkf Hjf _. by rewrite (Hk k), (Hk j).
  - change (~ in_log 2 100). unfold in_log, LOGSIZE, MAXOPBLOCKS. lia.
Qed.
Lemma writei_writes_witness : exists s', writei 0 (KernAddr (chars "there")) 7 5 demo_inodes = Done 5 s' /\
  fdata (view 1 s') (demo_inode T_FILE 12) 0 12 = chars "hello, there".
Proof.
  destruct (writei_writes 1 0 0 Nat.lt_0_1 2 [100] demo_inodes 0 (demo_inode T_FILE 12) (chars "there") 7 5 demo_inodes_txn demo_write_room
    eq_refl eq_refl demo_inode_wf demo_inodes_ok) as (s' & hs' & E & _ & _ & Hd & _); [change (0 <= 1 < 16); lia|by apply demo_file_mapped|apply demo_file_apart|lia|lia|cbn; lia|cbn; lia|].
  exists s'. split; [exact E|]. etransitivity; [exact Hd|]. vm_compute. reflexivity.
Defined.
