(* ===== verification/Paths.v ===== *)
(** * Path names

    [skipelem] of [kernel/fs.c] against the elements of a path: the parts between its
    slashes. *)

From S2P Require Import Prelude CString Bytes State Virtio Fs.

(** The parts of a path between the slashes, some of them empty. *)
Fixpoint parts (path : list Z) : list (list Z) :=
  match path with
  | [] => [[]]
  | c :: path' => if c =? slash then [] :: parts path' else match parts path' with x :: l => (c :: x) :: l | [] => [[c]] end
  end.
(** The elements, cut to the length of a directory entry's name. *)
Definition elements (path : list Z) : list (list Z) := take DIRSIZ <$> filter (fun x => x <> []) (parts path).

(** The names [namex] looks up: [skipelem] until it returns 0. *)
Fixpoint walk_names (k : nat) (path : list Z) : option (list (list Z)) :=
  match k with
  | O => None
  | S k' => match skipelem path with Some (path', name) => cons name <$> walk_names k' path' | None => Some [] end
  end.

Lemma parts_skip path : filter (fun x => x <> []) (parts (skip_slashes path)) = filter (fun x => x <> []) (parts path).
Proof.
  induction path as [|c path IH]; [done|]. simpl. destruct (Z.eqb_spec c slash) as [->|Hc].
  2: { simpl. by rewrite (proj2 (Z.eqb_neq c slash)). }
  by rewrite filter_cons, decide_False by naive_solver.
Qed.
Lemma skip_head path c l : skip_slashes path = c :: l -> c <> slash.
Proof. induction path as [|d path IH]; [done|]. simpl. destruct (Z.eqb_spec d slash); [done|]. by intros [= <- _]. Qed.
Lemma skip_length path : (length (skip_slashes path) <= length path)%nat.
Proof. induction path as [|c path IH]; [done|]. simpl. destruct (c =? slash); simpl; lia. Qed.
Lemma span_parts p e r : span_elem p = (e, r) ->
  p = e ++ r /\ exists l, parts p = e :: l /\ filter (fun x => x <> []) (parts r) = filter (fun x => x <> []) l.
Proof.
  revert e r. induction p as [|c p IH]; intros e r E; simpl in E |- *; [simplify_eq; split; [done|by exists []]|].
  destruct (Z.eqb_spec c slash) as [->|Hc].
  - simplify_eq. split; [done|]. exists (parts p). split; [done|]. simpl. by rewrite filter_cons, decide_False by naive_solver.
  - destruct (span_elem p) as [e' r'] eqn:E'. simplify_eq. destruct (IH e' r eq_refl) as (-> & l & -> & Hl). split; [done|]. by exists l.
Qed.
(** [skipelem] takes the first element off the path. *)
Lemma skipelem_elements path :
  match skipelem path with
  | None => elements path = []
  | Some (path', name) => elements path = name :: elements path' /\ (length path' < length path)%nat /\ name <> []
  end.
Proof.
  unfold skipelem, elements. pose proof (parts_skip path) as Hp. pose proof (skip_length path) as Hl.
  destruct (skip_slashes path) as [|c p] eqn:Es; [by rewrite <- Hp|]. pose proof (skip_head _ _ _ Es) as Hc.
  destruct (span_elem (c :: p)) as [e r] eqn:E. assert (e <> []) as He.
  { simpl in E. rewrite (proj2 (Z.eqb_neq c slash)) in E by done. destruct (span_elem p). by simplify_eq. }
  apply span_parts in E as (Ecp & l & El & Hr). rewrite <- Hp, El, filter_cons, decide_True by done. cbn [fmap list_fmap]. split_and!.
  - by rewrite parts_skip, Hr.
  - assert (length (c :: p) = length e + length r)%nat as Hlen by (by rewrite Ecp, length_app).
    pose proof (skip_length r). assert (0 < length e)%nat by (destruct e; [done|simpl; lia]). lia.
  - by destruct e.
Qed.

Lemma walk_names_ok k : forall path, (length path < k)%nat -> walk_names k path = Some (elements path).
Proof.
  induction k as [|k IH]; intros path Hk; [lia|]. cbn [walk_names]. pose proof (skipelem_elements path) as Hs.
  destruct (skipelem path) as [[path' name]|]; [|by rewrite Hs]. destruct Hs as (-> & Hl & _). by rewrite IH by lia.
Qed.

(** Walking a path with [skipelem] visits the elements between its slashes, in order,
    whatever slashes lead, trail or are doubled, each cut to [DIRSIZ] bytes, and
    ends: the fuel of [namex] suffices for every path. *)
Theorem skipelem_walks path : walk_names (S (length path)) path = Some (elements path).
Proof. apply walk_names_ok. lia. Qed.

(** A path made of names has these names as its elements. *)
Lemma elements_join names :
  Forall (fun x => x <> [] /\ slash ∉ x /\ (length x <= DIRSIZ)%nat) names -> elements (concat (cons slash <$> names)) = names.
Proof.
  intros HF. unfold elements. assert (forall x l, slash ∉ x -> parts (x ++ slash :: l) = x :: parts l) as Hp.
  { induction x as [|c x IH]; intros l; [done|]. intros [Hc Hx]%not_elem_of_cons. simpl. rewrite (proj2 (Z.eqb_neq c slash)) by done. by rewrite IH. }
  assert (forall x, slash ∉ x -> parts x = [x]) as Hp1.
  { induction x as [|c x IH]; [done|]. intros [Hc Hx]%not_elem_of_cons. simpl. rewrite (proj2 (Z.eqb_neq c slash)) by done. by rewrite IH. }
  assert (parts (concat (cons slash <$> names)) = [] :: names) as ->.
  { induction HF as [|x names (Hx & Hs & _) HF IH]; [done|]. cbn [fmap list_fmap concat app parts]. rewrite Z.eqb_refl. f_equal.
    destruct names as [|y names]; [by rewrite app_nil_r, Hp1|]. cbn [fmap list_fmap concat app] in IH |- *. rewrite Hp by done. f_equal.
    cbn [parts] in IH. rewrite Z.eqb_refl in IH. by injection IH. }
  rewrite filter_cons, decide_False by naive_solver. induction HF as [|x names (Hx & _ & Hl) HF IH]; [done|].
  rewrite filter_cons, decide_True by done. cbn [fmap list_fmap]. by rewrite take_ge, IH.
Qed.
