(* ===== verification/Mkfs.v ===== *)
(** * Building the disk image

    [mkfs/mkfs.c], which runs on the host and writes the disk the kernel boots from,
    and what the kernel's own definitions find on that disk. The image is the list of
    its blocks; the host is little-endian, and writing the image does not fail. The
    messages mkfs prints are left out. *)

From S2P Require Import Prelude CString Bytes State Virtio Bio BufCache Log Recovery CrashSafety Fs FileData Alloc Inodes.

Definition NINODES : Z := 200.
Definition nbitmap : Z := FSSIZE / (BSIZE * 8) + 1.
Definition ninodeblocks : Z := NINODES / IPB + 1.
Definition nlog : Z := LOGSIZE.
Definition nmeta : Z := 2 + nlog + ninodeblocks + nbitmap.
Definition nblocks : Z := FSSIZE - nmeta.

(** The image and the global variables of mkfs. *)
Record mst : Type := mk_mst {
  m_img : list (list Z);
  m_sb : superblock;
  m_freeinode : Z;
  m_freeblock : Z }.
Definition up_img (f : list (list Z) -> list (list Z)) (s : mst) : mst :=
  mk_mst (f (m_img s)) (m_sb s) (m_freeinode s) (m_freeblock s).
Definition mst0 : mst := mk_mst [] (mk_superblock 0 0 0 0 0 0 0 0) 1 0.

(** The files of the host: the results of the successive calls of [read] on a file
    that can be opened. *)
Class Host : Type := host_open : list Z -> option (list (list Z)).

Definition xshort (x : Z) : Z := le_word [u8 x; u8 (Z.shiftr x 8)].
Definition xint (x : Z) : Z := le_word [u8 x; u8 (Z.shiftr x 8); u8 (Z.shiftr x 16); u8 (Z.shiftr x 24)].

(** [lseek(fsfd, sec * BSIZE, 0)] goes to this block of the image; a write behind the
    end of a file fills the gap with zeroes. *)
Definition seek_block (sec : Z) : nat := Z.to_nat (u32 (sec * BSIZE) / BSIZE).
Definition wsect (sec : Z) (buf : list Z) : M mst unit :=
  let p := seek_block sec in
  modify (up_img (fun l => if decide (p < length l)%nat then <[p := buf]> l
                           else l ++ replicate (p - length l) zeroes ++ [buf])).
Definition rsect (sec : Z) : M mst (list Z) :=
  let! l := gets m_img in
  match l !! seek_block sec with Some b => ret b | None => panic "read" end.

(** A [struct dinode] is its 64 bytes. *)
Definition winode (inum : Z) (din : list Z) : M mst unit :=
  let! b := gets m_sb in
  let bn := IBLOCK inum b in
  let! buf := rsect bn in
  wsect bn (splice (dinode_off inum) din buf).
Definition rinode (inum : Z) : M mst (list Z) :=
  let! b := gets m_sb in
  let! buf := rsect (IBLOCK inum b) in
  ret (sub (dinode_off inum) dinode_size buf).

(** [freeinode++], [freeblock++] *)
Definition next_inode : M mst Z := fun s =>
  Done (m_freeinode s) (mk_mst (m_img s) (m_sb s) (u32 (m_freeinode s + 1)) (m_freeblock s)).
Definition next_block : M mst Z := fun s =>
  Done (m_freeblock s) (mk_mst (m_img s) (m_sb s) (m_freeinode s) (u32 (m_freeblock s + 1))).

Definition mkfs_ialloc (type : Z) : M mst Z :=
  let! inum := next_inode in
  winode inum (put32 8 (xint 0) (put16 6 (xshort 1) (put16 0 (xshort type) (replicate 64 0)))) ;;;
  ret inum.

Definition mkfs_balloc (used : Z) : M mst unit :=
  if negb (used <? BSIZE * 8) then panic "assert" else
  let buf := foldl (fun buf i => bit_set i buf) zeroes (seqZ 0 used) in
  let! b := gets m_sb in
  wsect (sb_bmapstart b) buf.

(** [din.addrs[k]] *)
Definition din_addr (k : Z) (din : list Z) : Z := get32 (12 + 4 * k) din.

(** The block [x] of the file that holds its block [fbn], allocated if it was not. *)
Definition iappend_block (din : list Z) (fbn : Z) : M mst (list Z * Z) :=
  if fbn <? Z.of_nat NDIRECT then
    let! din := (if xint (din_addr fbn din) =? 0 then
                   let! b := next_block in ret (put32 (12 + 4 * fbn) (xint b) din)
                 else ret din) in
    ret (din, xint (din_addr fbn din))
  else
    let! din := (if xint (din_addr (Z.of_nat NDIRECT) din) =? 0 then
                   let! b := next_block in ret (put32 (12 + 4 * Z.of_nat NDIRECT) (xint b) din)
                 else ret din) in
    let! indirect := rsect (xint (din_addr (Z.of_nat NDIRECT) din)) in
    let k := fbn - Z.of_nat NDIRECT in
    let! indirect := (if get32 (4 * k) indirect =? 0 then
                        let! b := next_block in
                        let indirect := put32 (4 * k) (xint b) indirect in
                        wsect (xint (din_addr (Z.of_nat NDIRECT) din)) indirect ;;;
                        ret indirect
                      else ret indirect) in
    ret (din, xint (get32 (4 * k) indirect)).

Fixpoint iappend_loop (fuel : nat) (din : list Z) (off : Z) (p : list Z) : M mst (list Z * Z) :=
  if bool_decide (p = []) then ret (din, off) else
  match fuel with
  | O => nofuel
  | S fuel' =>
      let fbn := off / BSIZE in
      if negb (fbn <? MAXFILE) then panic "assert" else
      let! (din, x) := iappend_block din fbn in
      let n1 := Z.min (Z.of_nat (length p)) (u32 ((fbn + 1) * BSIZE - off)) in
      let! buf := rsect x in
      wsect x (splice (off - fbn * BSIZE) (take (Z.to_nat n1) p) buf) ;;;
      iappend_loop fuel' din (u32 (off + n1)) (drop (Z.to_nat n1) p)
  end.
Definition iappend (inum : Z) (p : list Z) : M mst unit :=
  let! din := rinode inum in
  let! (din, off) := iappend_loop (length p) din (xint (get32 8 din)) p in
  winode inum (put32 8 (xint off) din).

(** The super block [main] writes. *)
Definition mkfs_sb : superblock :=
  mk_superblock FSMAGIC (xint FSSIZE) (xint nblocks) (xint NINODES) (xint nlog) (xint 2) (xint (2 + nlog)) (xint (2 + nlog + ninodeblocks)).
Definition sb_words (b : superblock) : list Z :=
  [sb_magic b; sb_size b; sb_nblocks b; sb_ninodes b; sb_nlog b; sb_logstart b; sb_inodestart b; sb_bmapstart b].
Definition sb_block : list Z := put_words 0 (sb_words mkfs_sb) zeroes.

(** The name of a file in the image. *)
Definition short_name (arg : list Z) : list Z :=
  if bool_decide (take 5 arg = chars "user/") then drop 5 arg else arg.
Definition skip_underscore (name : list Z) : list Z :=
  match name with c :: name' => if c =? 95 then name' else name | [] => name end.

(** [while((cc = read(fd, buf, sizeof(buf))) > 0) iappend(inum, buf, cc);] *)
Fixpoint append_reads (inum : Z) (reads : list (list Z)) : M mst unit :=
  match reads with
  | [] => ret tt
  | c :: reads' => if bool_decide (c = []) then ret tt else iappend inum c ;;; append_reads inum reads'
  end.

Section main.
Context `{Host}.

Definition add_file (rootino : Z) (arg : list Z) : M mst unit :=
  let shortname := short_name arg in
  if bool_decide (slash ∈ shortname) then panic "assert" else
  match host_open arg with
  | None => panic "open"
  | Some reads =>
      let! inum := mkfs_ialloc T_FILE in
      iappend rootino (mk_dirent (xshort inum) (skip_underscore shortname)) ;;;
      append_reads inum reads
  end.

(** [main]; [argv[1]], the image, is opened and truncated. *)
Definition mkfs_main (argv : list (list Z)) : M mst unit :=
  if bool_decide (length argv < 2)%nat then panic "Usage: mkfs fs.img files..." else
  modify (fun s => mk_mst [] mkfs_sb (m_freeinode s) nmeta) ;;;
  for_each (seqZ 0 FSSIZE) (fun i => wsect i zeroes) ;;;
  wsect 1 sb_block ;;;
  let! rootino := mkfs_ialloc T_DIR in
  if negb (rootino =? ROOTINO) then panic "assert" else
  iappend rootino (mk_dirent (xshort rootino) (chars ".")) ;;;
  iappend rootino (mk_dirent (xshort rootino) (chars "..")) ;;;
  for_each (drop 2 argv) (add_file rootino) ;;;
  let! din := rinode rootino in
  let off := (xint (get32 8 din) / BSIZE + 1) * BSIZE in
  winode rootino (put32 8 (xint off) din) ;;;
  let! fb := gets m_freeblock in
  mkfs_balloc fb.
End main.

(** ** Blocks of the image *)

Definition vw (s : mst) (b : Z) : list Z := default zeroes (m_img s !! Z.to_nat b).
Record img_wf (s : mst) : Prop := {
  iw_blocks : Z.of_nat (length (m_img s)) = FSSIZE;
  iw_bsize : Forall (fun d => length d = Z.to_nat BSIZE) (m_img s) }.
Definition set_block (b : Z) (d : list Z) (s : mst) : mst := up_img (<[Z.to_nat b := d]>) s.

Lemma xint_u32 x : xint x = u32 x.
Proof.
  unfold xint, u8, u32. cbn [le_word]. rewrite !Z.shiftr_div_pow2 by lia.
  change (2^8) with 256. change (2^16) with 65536. change (2^24) with 16777216. change (2^32) with 4294967296. zlia.
Qed.
Lemma xshort_u16 x : xshort x = u16 x.
Proof.
  unfold xshort, u8, u16. cbn [le_word]. rewrite !Z.shiftr_div_pow2 by lia. change (2^8) with 256. change (2^16) with 65536. zlia.
Qed.
Lemma xint_small x : 0 <= x < 2^32 -> xint x = x.
Proof. intros. by rewrite xint_u32, u32_small. Qed.

Lemma seek_small b : 0 <= b < FSSIZE -> seek_block b = Z.to_nat b.
Proof. unfold FSSIZE, seek_block, BSIZE. intros. rewrite u32_small by lia. f_equal. zlia. Qed.

Section image.
Variables (s : mst).
Hypothesis wf : img_wf s.

Lemma vw_len b : length (vw s b) = Z.to_nat BSIZE.
Proof.
  unfold vw. destruct (m_img s !! Z.to_nat b) as [d|] eqn:E; [|done]. simpl. by apply (Forall_lookup_1 _ _ _ _ (iw_bsize _ wf) E).
Qed.
Lemma rsect_done b : 0 <= b < FSSIZE -> rsect b s = Done (vw s b) s.
Proof.
  intros Hb. pose proof (iw_blocks _ wf). unfold rsect, vw. mrun. rewrite seek_small by done.
  destruct (lookup_lt_is_Some_2 (m_img s) (Z.to_nat b)) as [d ->]; [lia|]. done.
Qed.
Lemma wsect_done b d : 0 <= b < FSSIZE -> wsect b d s = Done tt (set_block b d s).
Proof.
  intros Hb. pose proof (iw_blocks _ wf). unfold wsect, set_block, up_img. mrun. rewrite seek_small by done.
  by rewrite decide_True by lia.
Qed.
Lemma set_block_wf b d : length d = Z.to_nat BSIZE -> img_wf (set_block b d s).
Proof.
  intros Hd. destruct wf as [H1 H2]. split; simpl; [by rewrite length_insert|]. by apply Forall_insert.
Qed.
Lemma vw_set b d c : 0 <= b < FSSIZE -> 0 <= c -> vw (set_block b d s) c = fupd (vw s) b d c.
Proof.
  intros Hb Hc. pose proof (iw_blocks _ wf). unfold vw, set_block, fupd. simpl. case_decide as E.
  - subst. by rewrite list_lookup_insert_eq by lia.
  - by rewrite list_lookup_insert_ne by lia.
Qed.
End image.

(** ** The blocks of a file

    [own] says what each allocated block is for: [(i, k)] is block [k] of inode [i],
    [(i, -1)] its indirect block. Being a map, it makes the blocks of all the files
    distinct. [layout]: inode [x] lists [m] blocks, and an indirect block if [ind]. *)
(** The constants of the layout as numbers. *)
Ltac consts := change (Z.of_nat NDIRECT) with 12 in *; change MAXFILE with 268 in *; change BSIZE with 1024 in *;
  change nmeta with 46 in *; change FSSIZE with 2000 in *.

Notation ownership := (gmap Z (Z * Z)).

Record layout (v : Z -> list Z) (own : ownership) (i : Z) (x : inode) (m : Z) (ind : bool) : Prop := {
  ly_len : length (i_addrs x) = S NDIRECT;
  ly_m : 0 <= m <= MAXFILE;
  ly_own k : 0 <= k < m -> own !! baddr v x k = Some (i, k);
  ly_zero k : m <= k < Z.of_nat NDIRECT -> default 0 (i_addrs x !! Z.to_nat k) = 0;
  ly_ind : if ind then own !! ind_block x = Some (i, -1) else ind_block x = 0;
  ly_ent k : ind = true -> m <= k -> Z.of_nat NDIRECT <= k < MAXFILE -> baddr v x k = 0;
  ly_max : Z.of_nat NDIRECT < m -> ind = true }.
(** The bytes in the [m] blocks: [data], then zeroes. *)
Definition holds (v : Z -> list Z) (x : inode) (m : Z) (data : list Z) : Prop :=
  forall j, 0 <= j < m * BSIZE -> fbyte v x j = default 0 (data !! Z.to_nat j).
(** The blocks a file uses. *)
Definition usage (m : Z) (ind : bool) : Z := m + (if ind then 1 else 0).

Lemma fresh_ne (own : ownership) b c e : own !! b = None -> own !! c = Some e -> b <> c.
Proof. congruence. Qed.

Section layout.
Variables (v : Z -> list Z) (own : ownership) (i : Z) (x : inode) (m : Z) (ind : bool) (data : list Z).
Hypothesis L : layout v own i x m ind.
Hypothesis D : holds v x m data.

(** Only the blocks of inode [i] matter. *)
Lemma baddr_frame v' :
  (ind = true -> v' (ind_block x) = v (ind_block x)) -> forall k, 0 <= k < m \/ ind = true -> baddr v' x k = baddr v x k.
Proof.
  intros Hv k Hk. unfold baddr. destruct (Z.ltb_spec k (Z.of_nat NDIRECT)); [done|]. rewrite Hv; [done|].
  destruct Hk; [apply (ly_max _ _ _ _ _ _ L); lia|done].
Qed.
Lemma layout_frame v' own' :
  (forall b k, own !! b = Some (i, k) -> own' !! b = Some (i, k)) ->
  (ind = true -> v' (ind_block x) = v (ind_block x)) -> layout v' own' i x m ind.
Proof.
  intros Ho Hv. pose proof (baddr_frame v' Hv) as Hb. destruct L as [H1 H2 H3 H4 H5 H6 H7]. split; try done.
  - intros k Hk. rewrite Hb by auto. by apply Ho, H3.
  - destruct ind; [by apply Ho|done].
  - intros k Hi Hm Hk. rewrite Hb by auto. by apply H6.
Qed.
Lemma holds_frame v' :
  (forall b k, own !! b = Some (i, k) -> v' b = v b) -> holds v' x m data.
Proof.
  intros Hv j Hj. rewrite <- D by done. unfold fbyte. assert (0 <= j / BSIZE < m) by (unfold BSIZE in *; zlia).
  rewrite baddr_frame; [|intros Hi; apply (Hv _ (-1)); pose proof (ly_ind _ _ _ _ _ _ L) as E; by rewrite Hi in E|by left].
  by rewrite (Hv _ (j / BSIZE)) by by apply (ly_own _ _ _ _ _ _ L).
Qed.

(** A new direct block, an indirect block, and a new entry of the indirect block. *)
Lemma layout_direct x' b :
  i_addrs x' = <[Z.to_nat m := b]> (i_addrs x) -> m < Z.of_nat NDIRECT -> own !! b = None ->
  layout v (<[b := (i, m)]> own) i x' (m + 1) ind /\ (forall k, 0 <= k < m -> baddr v x' k = baddr v x k) /\ baddr v x' m = b.
Proof.
  intros Ea Hm Hb. pose proof L as [H1 H2 H3 H4 H5 H6 H7]. unfold NDIRECT, MAXFILE, NINDIRECT in *.
  assert (ind_block x' = ind_block x) as Ei by (unfold ind_block; rewrite Ea, list_lookup_insert_ne; [done|unfold NDIRECT; lia]).
  assert (forall k, 0 <= k -> k <> m -> baddr v x' k = baddr v x k) as E1.
  { intros k Hk Hkm. unfold baddr. rewrite Ei, Ea. by rewrite list_lookup_insert_ne by lia. }
  assert (baddr v x' m = b) as E2.
  { unfold baddr, NDIRECT. rewrite (proj2 (Z.ltb_lt _ _)) by lia. by rewrite Ea, list_lookup_insert_eq by lia. }
  split; [|by auto with lia]. split; try lia.
  - rewrite Ea, length_insert. done.
  - unfold MAXFILE, NDIRECT, NINDIRECT. lia.
  - intros k Hk. destruct (decide (k = m)) as [->|]; [by rewrite E2, lookup_insert_eq|].
    rewrite E1 by lia. rewrite lookup_insert_ne by (by apply (fresh_ne own _ _ (i, k) Hb), H3; lia). apply H3. lia.
  - intros k Hk. unfold NDIRECT in Hk. rewrite Ea, list_lookup_insert_ne by lia. apply H4. lia.
  - rewrite Ei. destruct ind; [|done]. by rewrite lookup_insert_ne by (by apply (fresh_ne own _ _ (i, -1) Hb)).
  - intros k Hi Hk Hr. unfold MAXFILE, NDIRECT, NINDIRECT in *. rewrite E1 by lia. apply H6; [done|lia|lia].
  - unfold NDIRECT. lia.
Qed.
Lemma layout_indirect x' b :
  i_addrs x' = <[NDIRECT := b]> (i_addrs x) -> ind = false -> own !! b = None -> v b = zeroes ->
  layout v (<[b := (i, -1)]> own) i x' m true /\ (forall k, 0 <= k < m -> baddr v x' k = baddr v x k) /\ ind_block x' = b.
Proof.
  intros Ea Hi Hb Hz. pose proof L as [H1 H2 H3 H4 H5 H6 H7].
  assert (ind_block x' = b) as Ei by (unfold ind_block; rewrite Ea, list_lookup_insert_eq; [done|lia]).
  assert (m <= Z.of_nat NDIRECT) as Hm by (destruct (Z.le_gt_cases m (Z.of_nat NDIRECT)) as [|G]; [done|]; rewrite Hi in H7; by specialize (H7 ltac:(lia))).
  assert (forall k, 0 <= k < m -> baddr v x' k = baddr v x k) as E1.
  { intros k Hk. unfold baddr. rewrite (proj2 (Z.ltb_lt _ _)) by lia. by rewrite Ea, list_lookup_insert_ne by (unfold NDIRECT in *; lia). }
  split; [|done]. split; try done.
  - by rewrite Ea, length_insert.
  - intros k Hk. rewrite E1 by lia. rewrite lookup_insert_ne by (by apply (fresh_ne own _ _ (i, k) Hb), H3; lia). by apply H3.
  - intros k Hk. rewrite Ea, list_lookup_insert_ne by (unfold NDIRECT in *; lia). by apply H4.
  - by rewrite Ei, lookup_insert_eq.
  - intros k _ _ Hk. unfold baddr. rewrite (proj2 (Z.ltb_ge _ _)) by lia. rewrite Ei, Hz. unfold get32.
    assert (sub (4 * (k - Z.of_nat NDIRECT)) 4 zeroes = replicate 4 0) as ->; [|done].
    unfold sub, zeroes. rewrite drop_replicate, take_replicate. f_equal. unfold BSIZE, MAXFILE, NINDIRECT, NDIRECT in *. lia.
Qed.
Lemma layout_entry b :
  ind = true -> Z.of_nat NDIRECT <= m < MAXFILE -> own !! b = None -> b <> ind_block x -> 0 <= b < 2^32 ->
  length (v (ind_block x)) = Z.to_nat BSIZE ->
  let v' := fupd v (ind_block x) (put32 (4 * (m - Z.of_nat NDIRECT)) b (v (ind_block x))) in
  layout v' (<[b := (i, m)]> own) i x (m + 1) ind /\ (forall k, 0 <= k < m -> baddr v' x k = baddr v x k) /\ baddr v' x m = b.
Proof.
  intros Hi Hm Hb Hne Hr Hl v'. pose proof L as [H1 H2 H3 H4 H5 H6 H7]. consts.
  assert (forall k, 0 <= k < 268 -> k <> m -> baddr v' x k = baddr v x k) as E1.
  { intros k Hk Hkm. unfold baddr. consts. destruct (Z.ltb_spec k 12); [done|]. unfold v'. rewrite fupd_eq.
    apply get32_put32_ne; lia. }
  assert (baddr v' x m = b) as E2.
  { unfold baddr. consts. rewrite (proj2 (Z.ltb_ge _ _)) by lia. unfold v'. rewrite fupd_eq, get32_put32 by lia. by apply u32_small. }
  split; [|split; [intros k Hk; apply E1; lia|done]]. split; try (consts; lia || done).
  - intros k Hk. destruct (decide (k = m)) as [->|]; [by rewrite E2, lookup_insert_eq|].
    rewrite E1 by lia. rewrite lookup_insert_ne by (by apply (fresh_ne own _ _ (i, k) Hb), H3; lia). apply H3. lia.
  - rewrite Hi in H5 |- *. rewrite lookup_insert_ne by done. done.
  - intros k _ Hk Hk'. consts. rewrite E1 by lia. by apply H6; [|lia|].
Qed.
End layout.

(** Growing a file by an empty block. *)
Lemma holds_grow v x v' x' m data :
  holds v x m data -> Z.of_nat (length data) <= m * BSIZE -> 0 <= m ->
  (forall k, 0 <= k < m -> baddr v' x' k = baddr v x k /\ v' (baddr v x k) = v (baddr v x k)) ->
  v' (baddr v' x' m) = zeroes -> holds v' x' (m + 1) data.
Proof.
  intros D Hl Hm Hk Hz j Hj. consts. destruct (decide (j < m * 1024)) as [Hlt|Hge].
  - rewrite <- D by (consts; lia). unfold fbyte. consts. destruct (Hk (j / 1024)) as [-> ->]; [zlia|done].
  - rewrite lookup_ge_None_2 by lia. unfold fbyte. consts. replace (j / 1024) with m by zlia. rewrite Hz. unfold zeroes.
    rewrite lookup_replicate_2; [done|]. consts. zlia.
Qed.
Lemma holds_same v x v' x' m data :
  holds v x m data -> (forall k, 0 <= k < m -> baddr v' x' k = baddr v x k /\ v' (baddr v x k) = v (baddr v x k)) -> holds v' x' m data.
Proof.
  intros D Hk j Hj. consts. rewrite <- D by (consts; lia). unfold fbyte. consts. destruct (Hk (j / 1024)) as [-> ->]; [zlia|done].
Qed.

(** ** The invariant of mkfs *)

Record inv (own : ownership) (s : mst) : Prop := {
  iv_wf : img_wf s;
  iv_sb : m_sb s = mkfs_sb;
  iv_fb : nmeta <= m_freeblock s <= FSSIZE;
  iv_own b e : own !! b = Some e -> nmeta <= b < m_freeblock s;
  iv_zero b : m_freeblock s <= b -> vw s b = zeroes }.
(** Between [s] and [s'] only blocks of inode [i] and blocks that were free changed. *)
Record mstep (i : Z) (own : ownership) (s : mst) (own' : ownership) (s' : mst) : Prop := {
  sp_own b : b < m_freeblock s -> own' !! b = own !! b;
  sp_fb : m_freeblock s <= m_freeblock s';
  sp_new b j k : own' !! b = Some (j, k) -> own !! b = Some (j, k) \/ j = i;
  sp_fi : m_freeinode s' = m_freeinode s;
  sp_vw b : 0 <= b < m_freeblock s -> (forall k, own !! b <> Some (i, k)) -> vw s' b = vw s b }.

Lemma mstep_refl i own s : mstep i own s own s.
Proof. split; auto with lia. Qed.
Lemma mstep_trans i own s own1 s1 own2 s2 : mstep i own s own1 s1 -> mstep i own1 s1 own2 s2 -> mstep i own s own2 s2.
Proof.
  intros [A1 A2 A5 A3 A4] [B1 B2 B5 B3 B4]. split; [|lia| |congruence|].
  - intros b Hb. rewrite B1 by lia. by apply A1.
  - intros b j k [?%A5|?]%B5; auto.
  - intros b Hb Hk. rewrite B4; [by apply A4|lia|]. intros k. rewrite A1 by lia. apply Hk.
Qed.
Lemma mstep_keeps i own s own' s' b e : inv own s -> mstep i own s own' s' -> own !! b = Some e -> own' !! b = Some e.
Proof. intros I S Hb. rewrite (sp_own _ _ _ _ _ S); [done|]. by apply (iv_own _ _ I b e). Qed.

Lemma fresh own s : inv own s -> own !! m_freeblock s = None.
Proof. intros I. apply eq_None_not_Some. intros [e He]. apply (iv_own _ _ I) in He. lia. Qed.

(** Taking a block for [e]. *)
Definition took (s : mst) : mst := mk_mst (m_img s) (m_sb s) (m_freeinode s) (m_freeblock s + 1).
Lemma next_block_done own s : inv own s -> m_freeblock s < FSSIZE -> next_block s = Done (m_freeblock s) (took s).
Proof. intros I Hf. pose proof (iv_fb _ _ I). unfold next_block, took. rewrite u32_small; [done|]. consts. lia. Qed.
Lemma took_inv own s e : inv own s -> m_freeblock s < FSSIZE -> inv (<[m_freeblock s := e]> own) (took s).
Proof.
  intros [W Hs Hf Ho Hz] Hlt. split; simpl; [by destruct W|done|lia| |].
  - intros b e' [[<- _]|[_ Hb]]%lookup_insert_Some; [lia|]. apply Ho in Hb. lia.
  - intros b Hb. apply Hz. lia.
Qed.
Lemma took_step i own s k : inv own s -> mstep i own s (<[m_freeblock s := (i, k)]> own) (took s).
Proof.
  intros I. split; simpl; [|lia| |done|done].
  - intros b Hb. by rewrite lookup_insert_ne by lia.
  - intros b j k' [[_ [= -> _]]|[_ Hb]]%lookup_insert_Some; auto.
Qed.

(** Writing a block of inode [i]. *)
Lemma write_inv own s b e d :
  inv own s -> own !! b = Some e -> length d = Z.to_nat BSIZE -> inv own (set_block b d s).
Proof.
  intros I Hb Hd. pose proof (iv_own _ _ I b e Hb) as Hr. pose proof I as [W Hs Hf Ho Hz].
  assert (0 <= b < FSSIZE) by (consts; lia).
  split; simpl; [by apply set_block_wf|done|lia|done|]. intros c Hc. rewrite vw_set by (done || lia). rewrite fupd_ne by lia. by apply Hz.
Qed.
Lemma write_step i own s b k d : inv own s -> own !! b = Some (i, k) -> mstep i own s own (set_block b d s).
Proof.
  intros I Hb. pose proof (iv_own _ _ I b _ Hb) as Hr. pose proof I as [W Hs Hf Ho Hz].
  assert (0 <= b < FSSIZE) by (consts; lia).
  split; simpl; [done|lia|by auto|done|]. intros c Hc Hk. rewrite vw_set by (done || lia). apply fupd_ne. intros ->. by apply (Hk k).
Qed.

(** ** An inode as bytes *)

Definition ino (din : list Z) : inode := load_dinode 0 din inode0.
Lemma ino_addrs din : i_addrs (ino din) = get_addrs 0 din.
Proof. done. Qed.
Lemma ino_addr k din : 0 <= k <= Z.of_nat NDIRECT -> din_addr k din = default 0 (i_addrs (ino din) !! Z.to_nat k).
Proof.
  intros Hk. consts. rewrite ino_addrs. unfold get_addrs. rewrite list_lookup_fmap, lookup_seq_lt by (unfold NDIRECT; lia).
  simpl. unfold din_addr. f_equal. lia.
Qed.
Lemma ino_put k b din :
  length din = 64%nat -> 0 <= k <= Z.of_nat NDIRECT -> 0 <= b < 2^32 ->
  i_addrs (ino (put32 (12 + 4 * k) b din)) = <[Z.to_nat k := b]> (i_addrs (ino din)).
Proof.
  intros Hd Hk Hb. consts. rewrite !ino_addrs. apply list_eq. intros j. unfold get_addrs.
  destruct (decide (j < 13)%nat) as [Hj|Hj].
  - destruct (decide (j = Z.to_nat k)) as [->|Hne].
    + rewrite list_lookup_insert_eq by (rewrite length_fmap, length_seq; unfold NDIRECT; lia).
      rewrite list_lookup_fmap, lookup_seq_lt by (unfold NDIRECT; lia).
      cbn [fmap option_fmap option_map]. replace (0 + 12 + 4 * Z.of_nat (0 + Z.to_nat k)) with (12 + 4 * k) by lia. rewrite get32_put32 by lia. by rewrite u32_small.
    + rewrite list_lookup_insert_ne by done. rewrite !list_lookup_fmap, lookup_seq_lt by (unfold NDIRECT; lia).
      cbn [fmap option_fmap option_map]. by rewrite get32_put32_ne by lia.
  - rewrite !lookup_ge_None_2; [done|rewrite length_insert|]; rewrite length_fmap, length_seq; unfold NDIRECT; lia.
Qed.
(** The fields before the addresses. *)
Lemma put_addr_head k b din o n :
  length din = 64%nat -> 0 <= k <= Z.of_nat NDIRECT -> 0 <= o -> 0 <= n -> o + n <= 12 ->
  sub o n (put32 (12 + 4 * k) b din) = sub o n din.
Proof. intros. consts. apply sub_put32_ne; lia. Qed.
Lemma ino_size v din : length din = 64%nat -> i_addrs (ino (put32 8 v din)) = i_addrs (ino din).
Proof.
  intros Hd. rewrite !ino_addrs. unfold get_addrs. apply list_fmap_ext. intros j k [-> Hj]%lookup_seq. by rewrite get32_put32_ne by lia.
Qed.

(** ** Appending to a file *)

(** While [iappend] runs: the file with the inode [din], not yet written back, has [m]
    blocks that hold [data]. *)
Record fstate (own : ownership) (s : mst) (i : Z) (din : list Z) (m : Z) (ind : bool) (data : list Z) : Prop := {
  fs_inv : inv own s;
  fs_din : length din = 64%nat;
  fs_ly : layout (vw s) own i (ino din) m ind;
  fs_da : holds (vw s) (ino din) m data;
  fs_len : Z.of_nat (length data) <= m * BSIZE }.

Section moves.
Variables (own : ownership) (s : mst) (i : Z) (din : list Z) (m : Z) (ind : bool) (data : list Z).
Hypothesis F : fstate own s i din m ind data.
Hypothesis room : m_freeblock s < FSSIZE.
Notation fb := (m_freeblock s).

Lemma fb_range : nmeta <= fb < FSSIZE.
Proof. pose proof (iv_fb _ _ (fs_inv _ _ _ _ _ _ _ F)). lia. Qed.

Lemma move_direct : m < Z.of_nat NDIRECT -> fstate (<[fb := (i, m)]> own) (took s) i (put32 (12 + 4 * m) fb din) (m + 1) ind data.
Proof.
  intros Hm. pose proof F as [I Hd L D Hl]. pose proof fb_range. pose proof (ly_m _ _ _ _ _ _ L). consts.
  destruct (layout_direct _ _ _ _ _ _ L (ino (put32 (12 + 4 * m) fb din)) fb) as (L' & Hb & Em);
    [apply ino_put; consts; lia|done|by apply fresh|].
  split; [by apply took_inv|rewrite length_put32; lia|exact L'| |consts; lia].
  apply (holds_grow (vw s) (ino din)); [done|consts; lia|lia|by intros k Hk; rewrite Hb|]. change (vw (took s)) with (vw s). rewrite Em. by apply (iv_zero _ _ I).
Qed.
Lemma move_indirect :
  ind = false -> fstate (<[fb := (i, -1)]> own) (took s) i (put32 (12 + 4 * Z.of_nat NDIRECT) fb din) m true data.
Proof.
  intros Hi. pose proof F as [I Hd L D Hl]. pose proof fb_range. consts.
  destruct (layout_indirect _ _ _ _ _ _ L (ino (put32 (12 + 4 * 12) fb din)) fb) as (L' & Hb & _);
    [rewrite ino_put by (consts; lia); done|done|by apply fresh|by apply (iv_zero _ _ I)|].
  split; [by apply took_inv|rewrite length_put32; lia|exact L'| |done].
  apply (holds_same (vw s) (ino din)); [done|]. intros k Hk. by rewrite Hb.
Qed.
Definition entry_block : list Z := put32 (4 * (m - Z.of_nat NDIRECT)) fb (vw s (ind_block (ino din))).
Lemma move_entry :
  ind = true -> Z.of_nat NDIRECT <= m < MAXFILE ->
  fstate (<[fb := (i, m)]> own) (set_block (ind_block (ino din)) entry_block (took s)) i din (m + 1) true data /\
  baddr (vw (set_block (ind_block (ino din)) entry_block (took s))) (ino din) m = fb.
Proof.
  intros Hi Hm. pose proof F as [I Hd L D Hl]. pose proof fb_range. set (ib := ind_block (ino din)).
  assert (own !! ib = Some (i, -1)) as Hib by (pose proof (ly_ind _ _ _ _ _ _ L) as E; by rewrite Hi in E).
  pose proof (iv_own _ _ I _ _ Hib). pose proof (vw_len s (iv_wf _ _ I) ib) as Hlib.
  assert (fb <> ib) by lia. destruct (layout_entry _ _ _ _ _ _ L fb) as (L' & Hb & Em); [done|done|by apply fresh|done|consts; lia|done|].
  set (v' := fupd (vw s) ib entry_block). change (baddr v' (ino din) m = fb) in Em.
  change (forall k, 0 <= k < m -> baddr v' (ino din) k = baddr (vw s) (ino din) k) in Hb.
  assert (forall b, 0 <= b -> vw (set_block ib entry_block (took s)) b = v' b) as Ev.
  { intros b Hb0. rewrite vw_set; [done|apply (iv_wf _ _ (took_inv _ _ (i, m) I room))|consts; lia|done]. }
  assert (length entry_block = Z.to_nat BSIZE) as Hle by (unfold entry_block; fold ib; rewrite length_put32; consts; lia).
  assert (forall k, baddr (vw (set_block ib entry_block (took s))) (ino din) k = baddr v' (ino din) k) as Ek.
  { intros k. unfold baddr. fold ib. by rewrite Ev by (consts; lia). }
  split; [|by rewrite Ek]. split; [|done| | |consts; lia].
  - apply (write_inv _ _ ib (i, -1)); [by apply took_inv|by rewrite lookup_insert_ne|done].
  - rewrite <- Hi. apply (layout_frame v' _ _ _ _ _ L'); [done|]. intros _. fold ib. apply Ev. consts. lia.
  - apply (holds_grow (vw s) (ino din)); [done|consts; lia|consts; lia| |].
    + intros k Hk. rewrite Ek, Hb by done. split; [done|]. pose proof (ly_own _ _ _ _ _ _ L k Hk) as Hok. pose proof (iv_own _ _ I _ _ Hok).
      rewrite Ev by (consts; lia). apply fupd_ne. intros Eq. rewrite Eq in Hok. rewrite Hib in Hok. injection Hok. lia.
    + rewrite Ek, Em, Ev by (consts; lia). unfold v'. rewrite fupd_ne by done. by apply (iv_zero _ _ I).
Qed.
End moves.

Lemma baddr_direct v din k : 0 <= k < Z.of_nat NDIRECT -> baddr v (ino din) k = din_addr k din.
Proof. intros Hk. unfold baddr. rewrite (proj2 (Z.ltb_lt _ _)) by lia. by rewrite ino_addr by lia. Qed.
Lemma ind_block_addr din : ind_block (ino din) = din_addr (Z.of_nat NDIRECT) din.
Proof. by rewrite ino_addr by lia. Qed.
Lemma baddr_indirect v din k : Z.of_nat NDIRECT <= k -> baddr v (ino din) k = get32 (4 * (k - Z.of_nat NDIRECT)) (v (din_addr (Z.of_nat NDIRECT) din)).
Proof. intros Hk. unfold baddr. rewrite (proj2 (Z.ltb_ge _ _)) by lia. by rewrite ind_block_addr. Qed.
(** Blocks in use are not block 0, and fit a word. *)
Lemma own_xint own s b e : inv own s -> own !! b = Some e -> xint b = b /\ (b =? 0) = false /\ 0 <= b < FSSIZE.
Proof.
  intros I Hb. pose proof (iv_own _ _ I b e Hb). pose proof (iv_fb _ _ I). consts.
  rewrite xint_small by lia. split_and!; lia.
Qed.

(** The result of making sure that the file has a block [fbn]. *)
Definition block_post (own : ownership) (s : mst) (i : Z) (din : list Z) (m : Z) (ind : bool) (data : list Z) (fbn : Z)
    (r : list Z * Z) (s' : mst) : Prop :=
  exists own', let m' := Z.max m (fbn + 1) in let ind' := ind || (Z.of_nat NDIRECT <=? fbn) in
    fstate own' s' i r.1 m' ind' data /\ mstep i own s own' s' /\ r.2 = baddr (vw s') (ino r.1) fbn /\
    m_freeblock s' = m_freeblock s + usage m' ind' - usage m ind /\
    (forall o n, 0 <= o -> 0 <= n -> o + n <= 12 -> sub o n r.1 = sub o n din).

Section block.
Variables (own : ownership) (s : mst) (i : Z) (din : list Z) (m : Z) (ind : bool) (data : list Z) (fbn : Z).
Hypothesis F : fstate own s i din m ind data.
Hypothesis fbn_range : 0 <= fbn <= m.
Hypothesis fbn_max : fbn < MAXFILE.
Hypothesis room : m_freeblock s + usage (Z.max m (fbn + 1)) (ind || (Z.of_nat NDIRECT <=? fbn)) - usage m ind <= FSSIZE.

Lemma iappend_block_direct : fbn < Z.of_nat NDIRECT -> wp (iappend_block din fbn) (block_post own s i din m ind data fbn) s.
Proof.
  intros Hd. pose proof F as [I Hdin L D Hl]. unfold iappend_block. rewrite (proj2 (Z.ltb_lt _ _)) by done.
  rewrite <- (baddr_direct (vw s)) by lia. unfold block_post. rewrite (proj2 (Z.leb_gt (Z.of_nat NDIRECT) fbn)), orb_false_r in * by lia.
  destruct (decide (fbn = m)) as [->|Hne].
  - rewrite Z.max_r in * by lia. assert (baddr (vw s) (ino din) m = 0) as ->.
    { rewrite baddr_direct, ino_addr by lia. apply (ly_zero _ _ _ _ _ _ L). lia. }
    change (xint 0 =? 0) with true. unfold usage in room. pose proof (fb_range _ _ _ _ _ _ _ F ltac:(lia)) as Hfb.
    unfold wp. mrun. rewrite (next_block_done own s I) by lia. rewrite xint_small by (consts; lia).
    pose proof (move_direct _ _ _ _ _ _ _ F ltac:(lia) ltac:(lia)) as F'.
    exists (<[m_freeblock s := (i, m)]> own). cbn [fst snd]. split_and!; [done|by apply took_step| |unfold usage; simpl; lia|].
    + rewrite baddr_direct by lia. rewrite xint_u32. unfold din_addr at 2. rewrite u32_small; [done|]. consts.
      unfold din_addr. rewrite get32_put32 by lia. apply u32_range.
    + intros o n Ho Hn Hon. by apply put_addr_head; [|lia|..].
  - assert (own !! baddr (vw s) (ino din) fbn = Some (i, fbn)) as Ho by (apply (ly_own _ _ _ _ _ _ L); lia).
    destruct (own_xint _ _ _ _ I Ho) as (-> & -> & _). rewrite Z.max_l by lia. unfold wp. mrun.
    exists own. cbn [fst snd]. rewrite <- (baddr_direct (vw s)) by lia. destruct (own_xint _ _ _ _ I Ho) as (-> & _).
    split_and!; [done|apply mstep_refl|done|lia|done].
Qed.

(** The indirect block first. *)
Definition ind_part : M mst (list Z) :=
  if xint (din_addr (Z.of_nat NDIRECT) din) =? 0 then
    let! b := next_block in ret (put32 (12 + 4 * Z.of_nat NDIRECT) (xint b) din)
  else ret din.
Lemma ind_part_ok : (ind = false -> m_freeblock s < FSSIZE) ->
  wp ind_part (fun din' s' => exists own', fstate own' s' i din' m true data /\ mstep i own s own' s' /\
    m_freeblock s' = m_freeblock s + (if ind then 0 else 1) /\
    (forall o n, 0 <= o -> 0 <= n -> o + n <= 12 -> sub o n din' = sub o n din)) s.
Proof.
  clear fbn_range fbn_max room. intros Hroom. pose proof F as [I Hdin L D Hl]. unfold ind_part. rewrite <- ind_block_addr. pose proof (ly_ind _ _ _ _ _ _ L) as Hi.
  destruct ind eqn:Ei.
  - destruct (own_xint _ _ _ _ I Hi) as (-> & -> & _). apply wp_ret. exists own. split_and!; [done|apply mstep_refl|lia|done].
  - rewrite Hi. change (xint 0 =? 0) with true. specialize (Hroom eq_refl). pose proof (fb_range _ _ _ _ _ _ _ F Hroom).
    unfold wp. mrun. rewrite (next_block_done own s I) by lia. rewrite xint_small by (consts; lia).
    exists (<[m_freeblock s := (i, -1)]> own). split_and!; [by eapply move_indirect|by apply took_step|simpl; lia|].
    intros o n Ho Hn Hon. by apply put_addr_head; [|lia|..].
Qed.
End block.

(** Then its entry. *)
Definition entry_part (din : list Z) (fbn : Z) : M mst (list Z * Z) :=
  let! indirect := rsect (xint (din_addr (Z.of_nat NDIRECT) din)) in
  let k := fbn - Z.of_nat NDIRECT in
  let! indirect := (if get32 (4 * k) indirect =? 0 then
                      let! b := next_block in
                      let indirect := put32 (4 * k) (xint b) indirect in
                      wsect (xint (din_addr (Z.of_nat NDIRECT) din)) indirect ;;;
                      ret indirect
                    else ret indirect) in
  ret (din, xint (get32 (4 * k) indirect)).
Lemma entry_part_ok own s i din m data fbn :
  fstate own s i din m true data -> Z.of_nat NDIRECT <= fbn <= m -> fbn < MAXFILE ->
  m_freeblock s + usage (Z.max m (fbn + 1)) true - usage m true <= FSSIZE ->
  wp (entry_part din fbn) (block_post own s i din m true data fbn) s.
Proof.
  intros F Hf Hmax Hroom. pose proof F as [I Hdin L D Hl]. pose proof (iv_wf _ _ I) as W. unfold entry_part.
  pose proof (ly_ind _ _ _ _ _ _ L) as Hi. simpl in Hi. destruct (own_xint _ _ _ _ I Hi) as (Ex & _ & Hir).
  rewrite <- ind_block_addr, Ex. unfold wp. unfold bind at 1. rewrite rsect_done by done. unfold block_post. cbn [orb].
  assert (get32 (4 * (fbn - Z.of_nat NDIRECT)) (vw s (ind_block (ino din))) = baddr (vw s) (ino din) fbn) as ->
    by (rewrite baddr_indirect, ind_block_addr by lia; done).
  destruct (decide (fbn = m)) as [->|Hne].
  - rewrite Z.max_r in * by lia. rewrite (ly_ent _ _ _ _ _ _ L m) by (done || lia). cbn [Z.eqb]. unfold usage in Hroom.
    pose proof (fb_range _ _ _ _ _ _ _ F ltac:(lia)) as Hfb. mrun. rewrite (next_block_done own s I) by lia. rewrite (xint_small (m_freeblock s)) by (consts; lia).
    rewrite (wsect_done (took s) ltac:(by destruct W)) by done.
    destruct (move_entry _ _ _ _ _ _ _ F ltac:(lia) eq_refl) as [F' Em]; [lia|].
    exists (<[m_freeblock s := (i, m)]> own). cbn [fst snd]. split_and!; [exact F'| | |unfold usage; simpl; lia|done].
    + eapply mstep_trans; [by apply (took_step i _ _ m)|]. apply (write_step _ _ _ _ (-1)); [apply took_inv; [done|lia]|].
      rewrite lookup_insert_ne; [done|]. pose proof (iv_own _ _ I _ _ Hi). lia.
    + etrans; [|symmetry; exact Em]. rewrite get32_put32 by (rewrite ?vw_len by done; consts; lia). rewrite u32_small, xint_small by (consts; lia). done.
  - assert (own !! baddr (vw s) (ino din) fbn = Some (i, fbn)) as Ho by (apply (ly_own _ _ _ _ _ _ L); lia).
    destruct (own_xint _ _ _ _ I Ho) as (Exb & -> & _). rewrite Z.max_l by lia. mrun.
    exists own. cbn [fst snd]. rewrite ind_block_addr. rewrite <- (baddr_indirect (vw s)) by lia.
    split_and!; [done|apply mstep_refl|done|lia|done].
Qed.

Lemma iappend_block_ok own s i din m ind data fbn :
  fstate own s i din m ind data -> 0 <= fbn <= m -> fbn < MAXFILE ->
  m_freeblock s + usage (Z.max m (fbn + 1)) (ind || (Z.of_nat NDIRECT <=? fbn)) - usage m ind <= FSSIZE ->
  wp (iappend_block din fbn) (block_post own s i din m ind data fbn) s.
Proof.
  intros F Hf Hmax Hroom. destruct (decide (fbn < Z.of_nat NDIRECT)) as [Hd|Hd]; [by apply iappend_block_direct|].
  assert (wp (bind (ind_part din) (fun din => entry_part din fbn)) (block_post own s i din m ind data fbn) s) as W;
    [|unfold iappend_block; by rewrite (proj2 (Z.ltb_ge fbn _)) by lia].
  rewrite (proj2 (Z.leb_le (Z.of_nat NDIRECT) fbn)), orb_true_r in Hroom by lia.
  apply wp_bind. eapply wp_mono; [apply (ind_part_ok own s i din m ind data F)|].
  { intros ->. unfold usage in Hroom. lia. }
  intros din1 s1 (own1 & F1 & S1 & E1 & H1). cbv beta. eapply wp_mono; [apply (entry_part_ok own1 s1 i din1 m data fbn F1)|].
  - lia.
  - done.
  - rewrite E1. unfold usage in *. destruct ind; lia.
  - intros [din2 x] s2 (own2 & F2 & S2 & Ex & E2 & H2). cbn [fst snd orb] in *. exists own2. cbn [fst snd].
    rewrite (proj2 (Z.leb_le (Z.of_nat NDIRECT) fbn)), orb_true_r by lia.
    split_and!; [done|by eapply mstep_trans|done|rewrite E2, E1; unfold usage; destruct ind; lia|].
    intros o n Ho Hn Hon. by rewrite H2, H1.
Qed.

(** The blocks of a file of [n] bytes, whether it has an indirect block, and how many
    blocks it uses in all. *)
Definition blocks_of (n : Z) : Z := (n + BSIZE - 1) / BSIZE.
Definition has_ind (n : Z) : bool := Z.of_nat NDIRECT <? blocks_of n.
Definition cost (n : Z) : Z := usage (blocks_of n) (has_ind n).

Lemma cost_mono a b : a <= b -> cost a <= cost b.
Proof.
  intros Hab. assert (blocks_of a <= blocks_of b) by (unfold blocks_of; consts; zlia). unfold cost, usage, has_ind.
  destruct (Z.ltb_spec (Z.of_nat NDIRECT) (blocks_of a)), (Z.ltb_spec (Z.of_nat NDIRECT) (blocks_of b)); lia.
Qed.
(** One turn of the loop stays in block [off / BSIZE]. *)
Lemma blocks_of_turn off n1 :
  0 <= off -> 0 < n1 -> off + n1 <= (off / BSIZE + 1) * BSIZE ->
  blocks_of (off + n1) = off / BSIZE + 1 /\ Z.max (blocks_of off) (off / BSIZE + 1) = off / BSIZE + 1 /\
  has_ind off || (Z.of_nat NDIRECT <=? off / BSIZE) = has_ind (off + n1).
Proof.
  intros Ho Hn Hle. assert (blocks_of (off + n1) = off / BSIZE + 1) as E by (unfold blocks_of; consts; zlia).
  assert (blocks_of off <= off / BSIZE + 1) by (unfold blocks_of; consts; zlia). split_and!; [done|lia|].
  unfold has_ind. rewrite E. consts. destruct (Z.ltb_spec 12 (blocks_of off)), (Z.leb_spec 12 (off / 1024)), (Z.ltb_spec 12 (off / 1024 + 1)); lia || done.
Qed.

Section write.
Variables (own : ownership) (s : mst) (i : Z) (din : list Z) (m : Z) (ind : bool) (data bs : list Z).
Hypothesis F : fstate own s i din m ind data.
Notation off := (Z.of_nat (length data)).
Notation fbn := (off / BSIZE).
Hypothesis in_file : fbn < m.
Hypothesis in_block : off + Z.of_nat (length bs) <= (fbn + 1) * BSIZE.
Notation b := (baddr (vw s) (ino din) fbn).
Definition written : mst := set_block b (splice (off - fbn * BSIZE) bs (vw s b)) s.

Lemma off_block : 0 <= off - fbn * BSIZE /\ off - fbn * BSIZE + Z.of_nat (length bs) <= BSIZE.
Proof. consts. zlia. Qed.
Lemma written_own : own !! b = Some (i, fbn).
Proof. apply (ly_own _ _ _ _ _ _ (fs_ly _ _ _ _ _ _ _ F)). split; [consts; zlia|done]. Qed.
Lemma write_len : length (splice (off - fbn * BSIZE) bs (vw s b)) = Z.to_nat BSIZE.
Proof. pose proof off_block. pose proof (vw_len s (iv_wf _ _ (fs_inv _ _ _ _ _ _ _ F)) b) as E. rewrite length_splice; consts; lia. Qed.
(** Another block of the file. *)
Lemma written_other c k : own !! c = Some (i, k) -> k <> fbn -> vw written c = vw s c.
Proof.
  intros Hc Hk. pose proof written_own as Hb. pose proof (fs_inv _ _ _ _ _ _ _ F) as I. destruct (own_xint _ _ _ _ I Hb) as (_ & _ & ?).
  destruct (own_xint _ _ _ _ I Hc) as (_ & _ & ?). unfold written. rewrite vw_set by (apply I || lia). apply fupd_ne. congruence.
Qed.
Lemma written_block : vw written b = splice (off - fbn * BSIZE) bs (vw s b).
Proof.
  pose proof written_own as Hb. pose proof (fs_inv _ _ _ _ _ _ _ F) as I. destruct (own_xint _ _ _ _ I Hb) as (_ & _ & ?).
  unfold written. rewrite vw_set by (apply I || lia). apply fupd_eq.
Qed.

Lemma written_baddr k : 0 <= k < m -> baddr (vw written) (ino din) k = baddr (vw s) (ino din) k.
Proof.
  intros Hk. apply (baddr_frame _ _ _ _ _ _ (fs_ly _ _ _ _ _ _ _ F)); [|by left]. intros Hi. apply (written_other _ (-1)); [|consts; zlia].
  pose proof (ly_ind _ _ _ _ _ _ (fs_ly _ _ _ _ _ _ _ F)) as E. by rewrite Hi in E.
Qed.
Lemma written_holds : holds (vw written) (ino din) m (data ++ bs).
Proof.
  intros j Hj. pose proof (fs_da _ _ _ _ _ _ _ F j Hj) as Hold. pose proof off_block. assert (0 <= j / BSIZE < m) as Hk by (consts; zlia).
  unfold fbyte in *. rewrite written_baddr by done. destruct (decide (j / BSIZE = fbn)) as [E|E].
  - rewrite E in *. rewrite written_block, lookup_splice by (rewrite ?vw_len by apply F; consts; lia).
    case_decide as Hin.
    + rewrite lookup_app_r by (consts; zlia). do 2 f_equal. consts. zlia.
    + rewrite Hold. destruct (decide (j < off)) as [Hlt|Hge]; [by rewrite lookup_app_l by lia|].
      rewrite !lookup_ge_None_2; [done|rewrite length_app; consts; zlia|lia].
  - rewrite (written_other _ (j / BSIZE)) by (done || by apply (ly_own _ _ _ _ _ _ (fs_ly _ _ _ _ _ _ _ F))).
    rewrite Hold. destruct (decide (j < off)) as [Hlt|Hge]; [by rewrite lookup_app_l by lia|].
    rewrite !lookup_ge_None_2; [done|rewrite length_app; consts; zlia|lia].
Qed.
Lemma written_fstate : fstate own written i din m ind (data ++ bs) /\ mstep i own s own written.
Proof.
  pose proof F as [I Hd L D Hl]. pose proof written_own as Hb. split; [|by apply (write_step _ _ _ _ fbn)].
  split; [by apply (write_inv _ _ _ (i, fbn)), write_len|done| |apply written_holds|rewrite length_app; consts; zlia].
  apply (layout_frame _ _ _ _ _ _ L); [done|]. intros Hi. apply (written_other _ (-1)); [|consts; zlia].
  pose proof (ly_ind _ _ _ _ _ _ L) as E. by rewrite Hi in E.
Qed.
End write.

(** A file with the inode [din] that has just the blocks its length needs. *)
Definition fstate_n (own : ownership) (s : mst) (i : Z) (din : list Z) (data : list Z) : Prop :=
  fstate own s i din (blocks_of (Z.of_nat (length data))) (has_ind (Z.of_nat (length data))) data.

Lemma iappend_turn fuel own s i din data p :
  fstate_n own s i din data -> p <> [] -> Z.of_nat (length (data ++ p)) <= MAXFILE * BSIZE ->
  m_freeblock s + cost (Z.of_nat (length (data ++ p))) - cost (Z.of_nat (length data)) <= FSSIZE ->
  exists bs q own' din' s', p = bs ++ q /\ bs <> [] /\
    iappend_loop (S fuel) din (Z.of_nat (length data)) p s = iappend_loop fuel din' (Z.of_nat (length (data ++ bs))) q s' /\
    fstate_n own' s' i din' (data ++ bs) /\ mstep i own s own' s' /\
    m_freeblock s' = m_freeblock s + cost (Z.of_nat (length (data ++ bs))) - cost (Z.of_nat (length data)) /\
    (forall o n, 0 <= o -> 0 <= n -> o + n <= 12 -> sub o n din' = sub o n din).
Proof.
  intros F Hp Hmax Hroom. assert (0 < length p)%nat as Hpos by (destruct p; [done|simpl; lia]).
  rewrite length_app, Nat2Z.inj_add in *. simpl iappend_loop. rewrite bool_decide_false by done. set (off := Z.of_nat (length data)) in *.
  assert (0 <= off / BSIZE < MAXFILE) as Hf by (consts; zlia). rewrite (proj2 (Z.ltb_lt _ _)) by lia. cbn [negb].
  set (n1 := Z.min (Z.of_nat (length p)) (u32 ((off / BSIZE + 1) * BSIZE - off))).
  assert (n1 = Z.min (Z.of_nat (length p)) ((off / BSIZE + 1) * BSIZE - off)) as En by (unfold n1; rewrite u32_small; [done|consts; zlia]).
  assert (0 < n1 <= Z.of_nat (length p) /\ off + n1 <= (off / BSIZE + 1) * BSIZE) as [Hn1 Hend] by (rewrite En; consts; zlia).
  destruct (blocks_of_turn off n1 ltac:(lia) ltac:(lia) Hend) as (Eb & Em & Ei).
  set (bs := take (Z.to_nat n1) p). assert (Z.of_nat (length bs) = n1) as Hbs by (unfold bs; rewrite length_take; lia).
  assert (Z.of_nat (length (data ++ bs)) = off + n1) as El by (rewrite length_app; lia).
  pose proof (cost_mono (off + n1) (off + Z.of_nat (length p)) ltac:(lia)) as Hmono.
  destruct (proj1 (wp_done _ _ _) (iappend_block_ok own s i din (blocks_of off) (has_ind off) data (off / BSIZE) F ltac:(split; [lia|unfold blocks_of; consts; zlia]) (proj2 Hf)
    ltac:(rewrite Em, Ei, <- Eb; change (m_freeblock s + cost (off + n1) - cost off <= FSSIZE); lia)))
    as ([din1 x] & s1 & E & own1 & F1 & S1 & Ex & E1 & H1).
  cbn [fst snd] in *. fold off in F1, E1. rewrite Em, Ei, <- Eb in F1, E1.
  assert (off / BSIZE < blocks_of (off + n1)) as Hin by (rewrite Eb; lia).
  destruct (written_fstate own1 s1 i din1 _ _ data bs F1 Hin) as [F2 S2]; [by rewrite Hbs|].
  pose proof (ly_own _ _ _ _ _ _ (fs_ly _ _ _ _ _ _ _ F1) (off / BSIZE) ltac:(lia)) as Hx.
  pose proof (fs_inv _ _ _ _ _ _ _ F1) as I1. destruct (own_xint _ _ _ _ I1 Hx) as (_ & _ & Hxr). rewrite <- Ex in Hxr.
  exists bs, (drop (Z.to_nat n1) p), own1, din1, (written s1 din1 data bs).
  split_and!; [unfold bs; by rewrite take_drop|by intros Eq; rewrite Eq in Hbs; simpl in Hbs; lia| | |by eapply mstep_trans|rewrite El; exact E1|done].
  - unfold bind at 1. rewrite E. unfold bind at 1. rewrite rsect_done by (done || apply I1). unfold bind at 1. rewrite wsect_done by (done || apply I1).
    rewrite El, u32_small by (consts; lia). unfold written. fold off. by rewrite <- Ex.
  - unfold fstate_n. rewrite El. exact F2.
Qed.

Lemma iappend_loop_ok fuel : forall own s i din data p,
  fstate_n own s i din data -> (length p <= fuel)%nat -> Z.of_nat (length (data ++ p)) <= MAXFILE * BSIZE ->
  m_freeblock s + cost (Z.of_nat (length (data ++ p))) - cost (Z.of_nat (length data)) <= FSSIZE ->
  wp (iappend_loop fuel din (Z.of_nat (length data)) p) (fun r s' => exists own',
    fstate_n own' s' i r.1 (data ++ p) /\ mstep i own s own' s' /\ r.2 = Z.of_nat (length (data ++ p)) /\
    m_freeblock s' = m_freeblock s + cost (Z.of_nat (length (data ++ p))) - cost (Z.of_nat (length data)) /\
    (forall o n, 0 <= o -> 0 <= n -> o + n <= 12 -> sub o n r.1 = sub o n din)) s.
Proof.
  induction fuel as [|fuel IH]; intros own s i din data p F Hp Hmax Hroom; (destruct (decide (p = [])) as [->|Hne];
    [simpl; rewrite app_nil_r; apply wp_ret; exists own; split_and!; [done|apply mstep_refl|done|lia|done]|]).
  { destruct p; [done|simpl in Hp; lia]. }
  destruct (iappend_turn fuel own s i din data p F Hne Hmax Hroom) as (bs & q & own1 & din1 & s1 & -> & Hbs & E & F1 & S1 & E1 & H1).
  unfold wp. rewrite E. rewrite app_assoc in *. rewrite length_app in Hp. assert (0 < length bs)%nat by (destruct bs; [done|simpl; lia]).
  eapply wp_mono; [apply (IH own1 s1 i din1 (data ++ bs) q F1); [lia|done|lia]|].
  intros [din3 off3] s3 (own3 & F3 & S3 & Eo & E3 & H3). cbn [fst snd] in *. exists own3.
  split_and!; [done|by eapply mstep_trans|done|lia|]. intros o n Ho Hn Hon. by rewrite H3, H1.
Qed.

(** ** Inodes in the image *)

Definition on_disk (s : mst) (i : Z) : list Z := sub (dinode_off i) dinode_size (vw s (IBLOCK i mkfs_sb)).

Lemma iblock_mkfs i : 0 <= i < NINODES -> IBLOCK i mkfs_sb = i / 16 + 32 /\ 32 <= IBLOCK i mkfs_sb < nmeta - 1.
Proof.
  intros Hi. unfold IBLOCK. change (sb_inodestart mkfs_sb) with 32. change IPB with 16. unfold NINODES in Hi. consts.
  rewrite u32_small by zlia. split; [done|zlia].
Qed.
Lemma iblock_ne i j : 0 <= i -> 0 <= j -> i <> j -> i / 16 = j / 16 ->
  dinode_off i + dinode_size <= dinode_off j \/ dinode_off j + dinode_size <= dinode_off i.
Proof. intros Hi Hj Hne E. unfold dinode_off, dinode_size. change IPB with 16. zlia. Qed.
Lemma on_disk_len own s i : inv own s -> length (on_disk s i) = 64%nat.
Proof.
  intros I. destruct (dinode_off_in i) as [H1 H2]. unfold on_disk, sub. rewrite length_take, length_drop, (vw_len s (iv_wf _ _ I)).
  unfold dinode_size in *. consts. lia.
Qed.
Lemma rinode_done own s i : inv own s -> 0 <= i < NINODES -> rinode i s = Done (on_disk s i) s.
Proof.
  intros I Hi. destruct (iblock_mkfs i Hi) as [_ Hb]. unfold rinode. mrun. rewrite (iv_sb _ _ I), rsect_done; [done|apply I|consts; lia].
Qed.

(** Writing inode [i] back. *)
Definition put_inode (i : Z) (din : list Z) (s : mst) : mst :=
  set_block (IBLOCK i mkfs_sb) (splice (dinode_off i) din (vw s (IBLOCK i mkfs_sb))) s.
Section winode.
Variables (own : ownership) (s : mst) (i : Z) (din : list Z).
Hypothesis I : inv own s.
Hypothesis i_range : 0 <= i < NINODES.
Hypothesis din_len : length din = 64%nat.
Notation s' := (put_inode i din s).

Lemma winode_done : winode i din s = Done tt s'.
Proof.
  clear din_len. destruct (iblock_mkfs i i_range) as [_ Hb]. pose proof (iv_wf _ _ I). assert (0 <= IBLOCK i mkfs_sb < FSSIZE) by (consts; lia).
  unfold winode. mrun. rewrite (iv_sb _ _ I), rsect_done by done. by rewrite wsect_done.
Qed.
Lemma splice_dinode_len : length (splice (dinode_off i) din (vw s (IBLOCK i mkfs_sb))) = Z.to_nat BSIZE.
Proof.
  destruct (dinode_off_in i) as [H1 H2]. unfold dinode_size in *. pose proof (vw_len s (iv_wf _ _ I) (IBLOCK i mkfs_sb)). rewrite length_splice; consts; lia.
Qed.
Lemma put_inode_vw b : 0 <= b -> vw s' b = fupd (vw s) (IBLOCK i mkfs_sb) (splice (dinode_off i) din (vw s (IBLOCK i mkfs_sb))) b.
Proof. clear din_len. intros Hb. destruct (iblock_mkfs i i_range) as [_ Hr]. apply vw_set; [apply I|consts; lia|done]. Qed.
Lemma put_inode_other b : 0 <= b -> b < 32 \/ nmeta - 1 <= b -> vw s' b = vw s b.
Proof. clear din_len. intros Hb Hor. destruct (iblock_mkfs i i_range) as [_ Hr]. rewrite put_inode_vw by done. apply fupd_ne. lia. Qed.
Lemma put_inode_inv : inv own s'.
Proof.
  pose proof I as [W Hs Hf Ho Hz]. split; simpl; [apply set_block_wf; [done|apply splice_dinode_len]|done|done|done|].
  intros b Hb. rewrite put_inode_other by (consts; lia). by apply Hz.
Qed.
Lemma put_inode_same : on_disk s' i = din.
Proof.
  destruct (dinode_off_in i) as [H1 H2]. destruct (iblock_mkfs i i_range) as [_ Hr]. pose proof (vw_len s (iv_wf _ _ I) (IBLOCK i mkfs_sb)).
  unfold on_disk. rewrite put_inode_vw, fupd_eq by lia. unfold dinode_size in *. apply sub_splice; consts; lia.
Qed.
Lemma put_inode_ne j : 0 <= j < NINODES -> j <> i -> on_disk s' j = on_disk s j.
Proof.
  intros Hj Hne. destruct (dinode_off_in i) as [H1 H2], (dinode_off_in j) as [H3 H4]. destruct (iblock_mkfs i i_range) as [E1 Hr], (iblock_mkfs j Hj) as [E2 Hr'].
  pose proof (vw_len s (iv_wf _ _ I) (IBLOCK i mkfs_sb)). unfold on_disk. rewrite put_inode_vw by lia. unfold fupd. case_decide as E; [|done].
  rewrite E. pose proof (iblock_ne i j ltac:(lia) ltac:(lia) ltac:(lia) ltac:(lia)). unfold dinode_size in *. apply sub_splice_ne; consts; lia.
Qed.
End winode.

(** File [i] of the image. *)
Record has_file (own : ownership) (s : mst) (i type : Z) (data : list Z) : Prop := {
  hf_state : fstate_n own s i (on_disk s i) data;
  hf_type : get16 0 (on_disk s i) = type;
  hf_major : get16 2 (on_disk s i) = 0;
  hf_minor : get16 4 (on_disk s i) = 0;
  hf_nlink : get16 6 (on_disk s i) = 1;
  hf_size : get32 8 (on_disk s i) = Z.of_nat (length data) }.

(** A file whose blocks did not change. *)
Lemma fstate_frame own s own' s' i din m ind data :
  fstate own s i din m ind data -> inv own' s' ->
  (forall b k, own !! b = Some (i, k) -> own' !! b = Some (i, k) /\ vw s' b = vw s b) -> fstate own' s' i din m ind data.
Proof.
  intros [I Hl L D Hm] I' Hb. split; [done|done| | |done].
  - apply (layout_frame _ _ _ _ _ _ L); [intros b k Hk; apply (Hb _ _ Hk)|]. intros Hi. apply (Hb _ (-1)).
    pose proof (ly_ind _ _ _ _ _ _ L) as E. by rewrite Hi in E.
  - apply (holds_frame _ _ _ _ _ _ _ L D). intros b k Hk. apply (Hb _ _ Hk).
Qed.
(** Only the addresses of an inode say where its blocks are. *)
Lemma baddr_addrs v x x' k : i_addrs x' = i_addrs x -> baddr v x' k = baddr v x k.
Proof. intros E. unfold baddr, ind_block. by rewrite E. Qed.
Lemma fbyte_addrs v x x' j : i_addrs x' = i_addrs x -> fbyte v x' j = fbyte v x j.
Proof. intros E. unfold fbyte. by rewrite (baddr_addrs v x x'). Qed.
Lemma fstate_addrs own s i din din' m ind data :
  fstate own s i din m ind data -> length din' = 64%nat -> i_addrs (ino din') = i_addrs (ino din) -> fstate own s i din' m ind data.
Proof.
  intros [I Hl [H1 H2 H3 H4 H5 H6 H7] D Hm] Hl' E. assert (ind_block (ino din') = ind_block (ino din)) as Ei by (unfold ind_block; by rewrite E).
  split; [done|done| | |done].
  - split; rewrite ?E, ?Ei; try done; intros k; rewrite (baddr_addrs _ _ _ k E); auto.
  - intros j Hj. rewrite (fbyte_addrs _ _ _ j E). by apply D.
Qed.

(** [iappend] on one file: what it may change. *)
Record istep (i : Z) (own : ownership) (s : mst) (own' : ownership) (s' : mst) : Prop := {
  is_inv : inv own' s';
  is_fi : m_freeinode s' = m_freeinode s;
  is_new b j k : own' !! b = Some (j, k) -> own !! b = Some (j, k) \/ j = i;
  is_low b : 0 <= b < 32 -> vw s' b = vw s b;
  is_keep b j k : own !! b = Some (j, k) -> j <> i -> own' !! b = Some (j, k) /\ vw s' b = vw s b;
  is_other j : 0 <= j < NINODES -> j <> i -> on_disk s' j = on_disk s j }.

Lemma istep_file i own s own' s' j type data :
  istep i own s own' s' -> 0 <= j < NINODES -> j <> i -> has_file own s j type data -> has_file own' s' j type data.
Proof.
  intros S Hj Hne [F H1 H2 H3 H4 H5]. split; rewrite ?(is_other _ _ _ _ _ S j Hj Hne); try done.
  apply (fstate_frame own s); [done|apply S|]. intros b k Hb. by apply (is_keep _ _ _ _ _ S b j k).
Qed.

Lemma mstep_istep i own s own' s' din :
  inv own s -> mstep i own s own' s' -> inv own' s' -> 0 <= i < NINODES -> length din = 64%nat ->
  istep i own s own' (put_inode i din s').
Proof.
  intros I S I' Hi Hd. pose proof (iv_fb _ _ I). pose proof (iv_fb _ _ I').
  assert (forall b, 0 <= b < nmeta -> vw s' b = vw s b) as Hmeta.
  { intros b Hb. apply (sp_vw _ _ _ _ _ S); [lia|]. intros k Hk. apply (iv_own _ _ I) in Hk. lia. }
  split.
  - by apply put_inode_inv.
  - apply S.
  - apply S.
  - intros b Hb. rewrite (put_inode_other own') by (done || consts; lia). apply Hmeta. consts. lia.
  - intros b j k Hb Hj. pose proof (iv_own _ _ I _ _ Hb). split; [by apply (mstep_keeps i own s _ s')|].
    rewrite (put_inode_other own') by (done || consts; lia). apply (sp_vw _ _ _ _ _ S); [consts; lia|]. intros k'. congruence.
  - intros j Hj Hne. rewrite (put_inode_ne own') by done. unfold on_disk. destruct (iblock_mkfs j Hj). rewrite Hmeta; [done|lia].
Qed.

Lemma iappend_file own s i type data p :
  inv own s -> 0 <= i < NINODES -> has_file own s i type data -> Z.of_nat (length (data ++ p)) <= MAXFILE * BSIZE ->
  m_freeblock s + cost (Z.of_nat (length (data ++ p))) - cost (Z.of_nat (length data)) <= FSSIZE ->
  wp (iappend i p) (fun _ s' => exists own', istep i own s own' s' /\ has_file own' s' i type (data ++ p) /\
    m_freeblock s' = m_freeblock s + cost (Z.of_nat (length (data ++ p))) - cost (Z.of_nat (length data))) s.
Proof.
  intros I Hi [F H1 H2 H3 H4 H5] Hmax Hroom. unfold iappend. apply wp_bind. unfold wp at 1. rewrite (rinode_done own) by done.
  rewrite H5, xint_small by (rewrite length_app in Hmax; consts; lia). apply wp_bind. eapply wp_mono; [by apply (iappend_loop_ok _ own s i (on_disk s i) data p F)|].
  intros [din off] s1 (own1 & F1 & S1 & Eo & E1 & Hh). cbn [fst snd] in *. subst off. rewrite xint_small by (consts; lia).
  pose proof (fs_inv _ _ _ _ _ _ _ F1) as I1. pose proof (fs_din _ _ _ _ _ _ _ F1) as Hd. set (n := Z.of_nat (length (data ++ p))).
  assert (length (put32 8 n din) = 64%nat) as Hd' by (rewrite length_put32; lia).
  unfold wp. rewrite (winode_done own1 s1 i _ I1 Hi). exists own1. pose proof (put_inode_same own1 s1 i _ I1 Hi Hd') as Ed.
  split_and!; [by apply mstep_istep| |exact E1]. split; rewrite ?Ed; unfold get16; rewrite ?sub_put32_ne by lia; try (by rewrite Hh by lia).
  - apply (fstate_frame own1 s1); [apply (fstate_addrs _ _ _ _ _ _ _ _ F1 Hd'), ino_size, Hd|by apply put_inode_inv|].
    intros b k Hb. split; [done|]. apply (iv_own _ _ I1) in Hb. apply (put_inode_other own1); [done|done|consts; lia..].
  - rewrite get32_put32 by lia. apply u32_small. unfold n. consts. lia.
Qed.

(** A new inode, of an empty file. *)
Definition new_din (type : Z) : list Z := put32 8 (xint 0) (put16 6 (xshort 1) (put16 0 (xshort type) (replicate 64 0))).
Lemma new_file own s i type :
  inv own s -> on_disk s i = new_din type -> type = T_DIR \/ type = T_FILE -> has_file own s i type [].
Proof.
  intros I Ed Ht. assert (length (new_din type) = 64%nat /\ i_addrs (ino (new_din type)) = replicate 13 0) as [Hl Ea]
    by (destruct Ht as [-> | ->]; split; vm_compute; reflexivity).
  split; rewrite ?Ed; try (by destruct Ht as [-> | ->]; vm_compute).
  change (fstate own s i (new_din type) 0 false []). split; [done|done| | |done].
  - split; rewrite ?Ea; try (consts; lia || done).
    intros k Hk. consts. by rewrite lookup_replicate_2 by lia.
  - intros j Hj. consts. lia.
Qed.
Lemma ialloc_file own s type :
  inv own s -> 1 <= m_freeinode s < NINODES -> type = T_DIR \/ type = T_FILE ->
  let i := m_freeinode s in
  (forall b k, own !! b <> Some (i, k)) ->
  wp (mkfs_ialloc type) (fun r s' => r = i /\ m_freeinode s' = i + 1 /\ m_freeblock s' = m_freeblock s /\ has_file own s' i type [] /\
    (forall j type' data, 0 <= j < NINODES -> j <> i -> has_file own s j type' data -> has_file own s' j type' data) /\
    (forall b, 0 <= b < 32 -> vw s' b = vw s b)) s.
Proof.
  intros I Hi Ht i Hno. unfold mkfs_ialloc. apply wp_bind. unfold wp at 1, next_inode. fold i. fold (new_din type).
  set (s1 := mk_mst _ _ _ _). assert (inv own s1) as I1 by (destruct I as [[W1 W2] Hs Hf Ho Hz]; by split).
  assert (length (new_din type) = 64%nat) as Hl by (destruct Ht as [-> | ->]; vm_compute; reflexivity).
  unfold NINODES in *. apply wp_bind. unfold wp at 1. rewrite (winode_done own s1 i _ I1 ltac:(unfold NINODES; lia)). apply wp_ret.
  assert (0 <= i < NINODES) as Hi' by (unfold NINODES; lia). pose proof (put_inode_inv own s1 i _ I1 Hi' Hl) as I2. split_and!; [done| |done| | |].
  - simpl. rewrite u32_small; [done|lia].
  - apply new_file; [done|by apply (put_inode_same own)|done].
  - intros j type' data Hj Hne [F H1 H2 H3 H4 H5]. assert (on_disk (put_inode i (new_din type) s1) j = on_disk s j) as E by (rewrite (put_inode_ne own) by done; done).
    split; rewrite ?E; try done. apply (fstate_frame own s); [done|done|]. intros b k Hb. split; [done|].
    apply (iv_own _ _ I) in Hb. etrans; [apply (put_inode_other own); [done|done|consts; lia..]|done].
  - intros b Hb. etrans; [apply (put_inode_other own); [done|done|lia..]|done].
Qed.

(** ** The image against a list of files

    [files] lists the type and the contents of the inodes from 1 on. *)
Definition total_cost (files : list (Z * list Z)) : Z := foldr (fun f n => cost (Z.of_nat (length f.2)) + n) 0 files.
Record repr (files : list (Z * list Z)) (own : ownership) (s : mst) : Prop := {
  rp_inv : inv own s;
  rp_count : Z.of_nat (length files) < NINODES;
  rp_fi : m_freeinode s = 1 + Z.of_nat (length files);
  rp_fb : m_freeblock s = nmeta + total_cost files;
  rp_low b : 0 <= b < 32 -> vw s b = if decide (b = 1) then sb_block else zeroes;
  rp_file k type data : files !! k = Some (type, data) -> has_file own s (Z.of_nat k + 1) type data;
  rp_own b j k : own !! b = Some (j, k) -> 1 <= j <= Z.of_nat (length files) }.

Lemma cost_pos n : 0 <= n -> 0 <= cost n.
Proof. intros Hn. unfold cost, usage, blocks_of. consts. destruct (has_ind n); zlia. Qed.
Lemma total_cost_pos files : 0 <= total_cost files.
Proof. induction files as [|f files IH]; simpl; [done|]. pose proof (cost_pos (Z.of_nat (length f.2))). fold (total_cost files). lia. Qed.
Lemma total_cost_app a b : total_cost (a ++ b) = total_cost a + total_cost b.
Proof. induction a as [|f a IH]; [done|]. simpl. fold (total_cost a) (total_cost (a ++ b)). lia. Qed.
Lemma total_cost_insert files k type d d' :
  files !! k = Some (type, d) ->
  total_cost (<[k := (type, d')]> files) = total_cost files + cost (Z.of_nat (length d')) - cost (Z.of_nat (length d)).
Proof.
  revert k. induction files as [|f files IH]; intros [|k] Hk; simpl in *; simplify_eq/=; [fold (total_cost files); lia|].
  fold (total_cost files) (total_cost (<[k := (type, d')]> files)). rewrite (IH k Hk). lia.
Qed.

(** Appending to file [k] of the list. *)
Lemma iappend_repr files own s k type data p :
  repr files own s -> files !! k = Some (type, data) -> Z.of_nat (length (data ++ p)) <= MAXFILE * BSIZE ->
  nmeta + total_cost (<[k := (type, data ++ p)]> files) <= FSSIZE ->
  wp (iappend (Z.of_nat k + 1) p) (fun _ s' => exists own', repr (<[k := (type, data ++ p)]> files) own' s') s.
Proof.
  intros [I Hc Hfi Hfb Hlow Hfile Hown] Hk Hmax Hroom. pose proof (lookup_lt_Some _ _ _ Hk) as Hlt.
  rewrite (total_cost_insert _ _ _ _ _ Hk) in Hroom.
  eapply wp_mono; [apply (iappend_file own s _ type data p I); [lia|by apply Hfile|done|lia]|].
  intros _ s' (own' & S & HF & E). exists own'. split.
  - apply S.
  - by rewrite length_insert.
  - by rewrite length_insert, (is_fi _ _ _ _ _ S).
  - rewrite (total_cost_insert _ _ _ _ _ Hk). lia.
  - intros b Hb. rewrite (is_low _ _ _ _ _ S b Hb). by apply Hlow.
  - intros k' type' data' [(<- & [= <- <-] & _)|[Hne Hk']]%list_lookup_insert_Some; [done|].
    pose proof (lookup_lt_Some _ _ _ Hk'). apply (istep_file _ _ _ _ _ _ _ _ S); [lia|lia|by apply Hfile].
  - intros b j k' [Hb| ->]%(is_new _ _ _ _ _ S); rewrite length_insert; [by eapply Hown|lia].
Qed.
Lemma ialloc_repr files own s type :
  repr files own s -> Z.of_nat (length files) + 1 < NINODES -> type = T_DIR \/ type = T_FILE ->
  wp (mkfs_ialloc type) (fun r s' => r = Z.of_nat (length files) + 1 /\ repr (files ++ [(type, [])]) own s') s.
Proof.
  intros [I Hc Hfi Hfb Hlow Hfile Hown] Hr Ht.
  eapply wp_mono; [apply (ialloc_file own s type I); [lia|done|]|].
  { intros b k Hb%Hown. lia. }
  intros r s' (-> & E1 & E2 & HF & Hk & Hv). split; [lia|]. split.
  - apply HF.
  - rewrite length_app. simpl. lia.
  - rewrite length_app. simpl. lia.
  - rewrite total_cost_app. change (total_cost [(type, [])]) with 0. lia.
  - intros b Hb. rewrite Hv by done. by apply Hlow.
  - intros k type' data' Hl. pose proof (lookup_lt_Some _ _ _ Hl) as Hlt. rewrite length_app in Hlt. simpl in Hlt. apply lookup_app_Some in Hl as [Hl|[Hge Hl]].
    + pose proof (lookup_lt_Some _ _ _ Hl). apply Hk; [lia|lia|by apply Hfile].
    + destruct (k - length files)%nat as [|n] eqn:Ek; [|done]. injection Hl as <- <-. replace (Z.of_nat k + 1) with (m_freeinode s) by lia. done.
  - intros b j k Hb%Hown. rewrite length_app. simpl. lia.
Qed.

(** ** The whole run *)

(** The root directory and the files, as a list of inodes. *)
Definition inodes_of (root : list Z) (contents : list (list Z)) : list (Z * list Z) := (T_DIR, root) :: ((fun c => (T_FILE, c)) <$> contents).
(** The entries of the root directory, the first with inode number [i]. *)
Fixpoint entries (i : Z) (args : list (list Z)) : list Z :=
  match args with
  | [] => []
  | arg :: args' => mk_dirent i (skip_underscore (short_name arg)) ++ entries (i + 1) args'
  end.
Definition dots : list Z := mk_dirent ROOTINO (chars ".") ++ mk_dirent ROOTINO (chars "..").
Definition root_data (args : list (list Z)) : list Z := dots ++ entries 2 args.

Lemma dir_name_len n : forall name, length (dir_name n name) = n.
Proof.
  induction n as [|n IH]; intros [|c name]; try done; cbn [dir_name]; [by rewrite length_replicate|].
  destruct (c =? 0); [by rewrite length_replicate|]. simpl. by rewrite IH.
Qed.
Lemma mk_dirent_len i name : length (mk_dirent i name) = 16%nat.
Proof. unfold mk_dirent. by rewrite length_app, le_bytes_length, dir_name_len. Qed.
Lemma entries_len args : forall i, length (entries i args) = (16 * length args)%nat.
Proof. induction args as [|a args IH]; intros i; [done|]. cbn [entries length]. rewrite length_app, mk_dirent_len, IH. lia. Qed.

Lemma total_inodes root contents : total_cost (inodes_of root contents) = cost (Z.of_nat (length root)) + total_cost ((fun c => (T_FILE, c)) <$> contents).
Proof. done. Qed.
Lemma total_snoc root a c : total_cost (inodes_of root (a ++ [c])) = total_cost (inodes_of root a) + cost (Z.of_nat (length c)).
Proof. rewrite !total_inodes, fmap_app, total_cost_app. simpl. lia. Qed.
Lemma total_cost_grow root root' a b :
  (length root <= length root')%nat -> total_cost (inodes_of root a) <= total_cost (inodes_of root' (a ++ b)).
Proof.
  intros Hr. rewrite !total_inodes, fmap_app, total_cost_app. pose proof (cost_mono (Z.of_nat (length root)) (Z.of_nat (length root')) ltac:(lia)).
  pose proof (total_cost_pos ((fun c => (T_FILE, c)) <$> b)). lia.
Qed.

Section run.
Context `{Host}.

(** A file the host has, read in pieces, with the contents [c]. *)
Definition hosted (arg c : list Z) : Prop :=
  slash ∉ short_name arg /\ exists reads, host_open arg = Some reads /\ Forall (fun r => r <> []) reads /\ c = concat reads.

Lemma append_reads_repr reads : forall files own s k type data,
  repr files own s -> files !! k = Some (type, data) -> Forall (fun r => r <> []) reads ->
  Z.of_nat (length (data ++ concat reads)) <= MAXFILE * BSIZE ->
  nmeta + total_cost (<[k := (type, data ++ concat reads)]> files) <= FSSIZE ->
  wp (append_reads (Z.of_nat k + 1) reads) (fun _ s' => exists own', repr (<[k := (type, data ++ concat reads)]> files) own' s') s.
Proof.
  induction reads as [|r reads IH]; intros files own s k type data R Hk Hne Hmax Hroom; simpl.
  { apply wp_ret. exists own. by rewrite app_nil_r, list_insert_id. }
  inversion Hne as [|? ? Hr Hne']; subst. rewrite bool_decide_false by done. simpl in *. rewrite app_assoc in *.
  pose proof (lookup_lt_Some _ _ _ Hk) as Hlt.
  assert (<[k := (type, (data ++ r) ++ concat reads)]> files = <[k := (type, (data ++ r) ++ concat reads)]> (<[k := (type, data ++ r)]> files)) as Ei
    by by rewrite list_insert_insert_eq.
  apply wp_bind. eapply wp_mono; [apply (iappend_repr files own s k type data r R Hk)|].
  - rewrite length_app in Hmax. lia.
  - pose proof (cost_mono (Z.of_nat (length (data ++ r))) (Z.of_nat (length ((data ++ r) ++ concat reads))) ltac:(rewrite (length_app (data ++ r)); lia)).
    rewrite (total_cost_insert _ _ _ _ _ Hk) in Hroom. rewrite (total_cost_insert _ _ _ _ _ Hk). lia.
  - intros _ s1 (own1 & R1). cbv beta. rewrite Ei in Hroom |- *. eapply IH; [done|by rewrite list_lookup_insert_eq|done|done|done].
Qed.

Lemma add_file_repr root contents own s arg c :
  repr (inodes_of root contents) own s -> hosted arg c ->
  Z.of_nat (length contents) + 2 < NINODES -> Z.of_nat (length root) + 16 <= MAXFILE * BSIZE -> Z.of_nat (length c) <= MAXFILE * BSIZE ->
  let root' := root ++ mk_dirent (Z.of_nat (length contents) + 2) (skip_underscore (short_name arg)) in
  nmeta + total_cost (inodes_of root' (contents ++ [c])) <= FSSIZE ->
  wp (add_file ROOTINO arg) (fun _ s' => exists own', repr (inodes_of root' (contents ++ [c])) own' s') s.
Proof.
  intros R (Hs & reads & Eo & Hr & ->) Hn Hroot Hc root' Hroom. unfold add_file. rewrite bool_decide_false by done. rewrite Eo.
  assert (length root' = (length root + 16)%nat) as Hl by (unfold root'; by rewrite length_app, mk_dirent_len).
  apply wp_bind. eapply wp_mono; [apply (ialloc_repr _ _ _ T_FILE R)|]; [unfold inodes_of; simpl; rewrite length_fmap; lia|by right|].
  intros r s1 [-> R1]. cbv beta. assert (inodes_of root contents ++ [(T_FILE, [])] = inodes_of root (contents ++ [[]])) as Ei
    by (unfold inodes_of; by rewrite fmap_app). rewrite Ei in R1.
  assert (Z.of_nat (length (inodes_of root contents)) + 1 = Z.of_nat (length contents) + 2) as -> by (unfold inodes_of; simpl; rewrite length_fmap; lia).
  assert (forall a b, <[0%nat := (T_DIR, a)]> (inodes_of root b) = inodes_of a b) as E0 by done.
  rewrite xshort_u16. unfold u16. rewrite Z.mod_small by (unfold NINODES in *; lia). fold root'.
  apply wp_bind. eapply wp_mono; [apply (iappend_repr _ _ _ 0 T_DIR root _ R1 eq_refl)|].
  - rewrite length_app, mk_dirent_len. lia.
  - rewrite E0. fold root'. rewrite total_snoc in Hroom. rewrite total_snoc. pose proof (cost_mono 0 (Z.of_nat (length (concat reads))) ltac:(lia)).
    change (Z.of_nat (length (@nil Z))) with 0. lia.
  - intros _ s2 (own2 & R2). cbv beta. rewrite E0 in R2. fold root' in R2.
    assert (inodes_of root' (contents ++ [[]]) !! S (length contents) = Some (T_FILE, [])) as Hlk.
    { unfold inodes_of. simpl. rewrite fmap_app, lookup_app_r, length_fmap, Nat.sub_diag by (rewrite length_fmap; lia). done. }
    assert (forall d, <[S (length contents) := (T_FILE, d)]> (inodes_of root' (contents ++ [[]])) = inodes_of root' (contents ++ [d])) as Eins.
    { intros d. unfold inodes_of. simpl. f_equal. rewrite !fmap_app, insert_app_r_alt, length_fmap, Nat.sub_diag by (rewrite length_fmap; lia). done. }
    replace (Z.of_nat (length contents) + 2) with (Z.of_nat (S (length contents)) + 1) by lia.
    pose proof (append_reads_repr reads _ _ _ _ _ _ R2 Hlk Hr) as W. rewrite app_nil_l, Eins in W. by apply W.
Qed.

(** All the files in turn. *)
Lemma add_files_repr args : forall root contents own s cs,
  repr (inodes_of root contents) own s -> Forall2 hosted args cs ->
  Z.of_nat (length contents + length args) + 1 < NINODES -> Z.of_nat (length root + 16 * length args) <= MAXFILE * BSIZE ->
  Forall (fun c => Z.of_nat (length c) <= MAXFILE * BSIZE) cs ->
  let root' := root ++ entries (Z.of_nat (length contents) + 2) args in
  nmeta + total_cost (inodes_of root' (contents ++ cs)) <= FSSIZE ->
  wp (for_each args (add_file ROOTINO)) (fun _ s' => exists own', repr (inodes_of root' (contents ++ cs)) own' s') s.
Proof.
  induction args as [|arg args IH]; intros root contents own s cs R Hh Hn Hroot Hc root' Hroom.
  { inversion Hh; subst. apply wp_ret. exists own. unfold root'. simpl. by rewrite !app_nil_r. }
  inversion Hh as [|? c ? cs' Ha Hh']; subst. inversion Hc as [|? ? Hc1 Hc2]; subst. simpl in Hn, Hroot. cbn [for_each].
  set (d := mk_dirent (Z.of_nat (length contents) + 2) (skip_underscore (short_name arg))).
  assert (root' = (root ++ d) ++ entries (Z.of_nat (length (contents ++ [c])) + 2) args) as Er.
  { unfold root'. cbn [entries]. fold d. rewrite length_app, app_assoc. simpl. do 2 f_equal. lia. }
  assert (contents ++ c :: cs' = (contents ++ [c]) ++ cs') as Ec by by rewrite <- app_assoc. rewrite Er, Ec in *.
  apply wp_bind. eapply wp_mono; [apply (add_file_repr root contents own s arg c R Ha); [lia|lia|done|]|].
  - fold d. pose proof (total_cost_grow (root ++ d) ((root ++ d) ++ entries (Z.of_nat (length (contents ++ [c])) + 2) args) (contents ++ [c]) cs') as G.
    rewrite (length_app (root ++ d)) in G. specialize (G ltac:(lia)). lia.
  - intros _ s1 (own1 & R1). cbv beta. eapply IH; [exact R1|done| |  |done|done].
    + rewrite length_app. simpl. lia.
    + unfold d. rewrite length_app, mk_dirent_len. lia.
Qed.

(** The empty image. *)
Definition blank : mst := mk_mst (replicate (Z.to_nat FSSIZE) zeroes) mkfs_sb 1 nmeta.
Lemma blank_image : wp (for_each (seqZ 0 FSSIZE) (fun i => wsect i zeroes)) (fun _ s => s = blank) (mk_mst [] mkfs_sb 1 nmeta).
Proof.
  eapply (wp_for_each _ _ (fun pre s => s = mk_mst (replicate (length pre) zeroes) mkfs_sb 1 nmeta)).
  - done.
  - intros pre i suf s El ->. assert (i = Z.of_nat (length pre) /\ 0 <= i < FSSIZE) as [-> Hr].
    { assert (seqZ 0 FSSIZE !! length pre = Some i) as Hl by (rewrite El; by apply list_lookup_middle). apply lookup_seqZ in Hl. lia. }
    unfold wp, wsect. mrun. unfold up_img. cbn [m_img m_sb m_freeinode m_freeblock]. rewrite seek_small, Nat2Z.id by done.
    rewrite length_replicate, decide_False, Nat.sub_diag by lia. simpl. rewrite length_app. simpl. by rewrite replicate_add.
  - intros s ->. rewrite length_seqZ. done.
Qed.
Lemma repr_blank : repr [] ∅ (set_block 1 sb_block blank).
Proof.
  assert (img_wf blank) as W by (split; [vm_compute; done|apply Forall_replicate; done]).
  assert (forall b, 0 <= b -> vw (set_block 1 sb_block blank) b = if decide (b = 1) then sb_block else zeroes) as Ev.
  { intros b Hb. rewrite vw_set by (done || consts; lia). unfold fupd. case_decide; [done|]. unfold vw.
    destruct (m_img blank !! Z.to_nat b) eqn:E; [|done]. apply lookup_replicate in E as [-> _]. done. }
  split; [|done|done|done|intros b Hb; apply Ev; lia|done|done].
  split; [apply set_block_wf; [done|vm_compute; reflexivity]|done|change (46 <= 46 <= 2000); lia|done|].
  intros b Hb. change (46 <= b) in Hb. rewrite Ev by lia. by rewrite decide_False by lia.
Qed.
End run.

(** ** What the kernel finds on the disk *)

(** The bitmap marks the first [used] blocks. *)
Lemma bitmap_marks used : 0 <= used <= BPB ->
  let d := foldl (fun buf i => bit_set i buf) zeroes (seqZ 0 used) in
  length d = Z.to_nat BSIZE /\ forall n, 0 <= n < BPB -> bit_free d n = (used <=? n).
Proof.
  intros Hu. cbv zeta. rewrite <- (Z2Nat.id used) in * by lia. induction (Z.to_nat used) as [|k IH].
  - simpl. split; [done|]. intros n Hn. rewrite bit_free_testbit by lia. unfold byte_at, zeroes.
    rewrite (proj2 (Z.leb_le _ _)) by lia. unfold BPB in Hn. consts. rewrite lookup_replicate_2 by zlia. simpl. by rewrite Z.bits_0.
  - destruct IH as [Hl Hf]; [lia|]. rewrite seqZ_S, foldl_app. cbn [foldl]. set (d := foldl _ _ _) in *.
    assert (Z.of_nat (length d) = 1024) as Hl' by (rewrite Hl; done). unfold BPB in *. consts.
    split; [rewrite length_bit_set; [done|..]; lia|]. intros n Hn. rewrite bit_free_set by lia. rewrite Hf by done.
    destruct (Z.leb_spec (Z.of_nat k) n), (Z.eqb_spec (0 + Z.of_nat k) n), (Z.leb_spec (Z.of_nat (S k)) n); simpl; lia || done.
Qed.

Lemma sub_sub o n o' n' l : 0 <= o -> 0 <= n -> 0 <= o' -> 0 <= n' -> o' + n' <= n -> sub o' n' (sub o n l) = sub (o + o') n' l.
Proof.
  intros. unfold sub. rewrite skipn_firstn_comm, take_take, drop_drop. f_equal; [lia|]. f_equal. lia.
Qed.
(** The inode the kernel reads is the one mkfs wrote. *)
Lemma disk_inode_ino s i : disk_inode (vw s) mkfs_sb i inode0 = ino (on_disk s i).
Proof.
  destruct (dinode_off_in i) as [H1 _]. unfold disk_inode, ino, on_disk. set (o := dinode_off i) in *. set (d := vw s _).
  assert (forall k n, 0 <= k -> 0 <= n -> k + n <= 64 -> sub k n (sub o dinode_size d) = sub (o + k) n d) as E by (intros; apply sub_sub; unfold dinode_size; lia).
  unfold load_dinode, get16, get32. rewrite !E by lia. replace (o + 0) with o by lia.
  assert (get_addrs 0 (sub o dinode_size d) = get_addrs o d) as ->; [|done].
  unfold get_addrs. apply list_fmap_ext. intros k j [-> Hj]%lookup_seq. unfold get32. unfold NDIRECT in Hj. rewrite E by lia. do 2 f_equal. lia.
Qed.

Record kernel_file (v : Z -> list Z) (i type : Z) (data : list Z) : Prop := {
  kf_type : i_type (disk_inode v mkfs_sb i inode0) = type;
  kf_nlink : i_nlink (disk_inode v mkfs_sb i inode0) = 1;
  kf_size : i_size (disk_inode v mkfs_sb i inode0) = Z.of_nat (length data);
  kf_holes : no_holes v (disk_inode v mkfs_sb i inode0);
  kf_data : fdata v (disk_inode v mkfs_sb i inode0) 0 (Z.of_nat (length data)) = data }.

Lemma holds_fdata v x m data : holds v x m data -> Z.of_nat (length data) <= m * BSIZE -> fdata v x 0 (Z.of_nat (length data)) = data.
Proof.
  intros D Hl. apply list_eq. intros j. unfold fdata. rewrite list_lookup_fmap. destruct (data !! j) as [c|] eqn:E.
  - pose proof (lookup_lt_Some _ _ _ E). rewrite lookup_seqZ_lt by lia. cbn [fmap option_fmap option_map].
    rewrite D by (consts; lia). replace (Z.to_nat (0 + Z.of_nat j)) with j by lia. by rewrite E.
  - apply lookup_ge_None in E. rewrite lookup_ge_None_2; [done|]. rewrite length_seqZ. lia.
Qed.
(** The blocks of a file are in the file system. *)
Lemma layout_no_holes own s i x m ind :
  inv own s -> layout (vw s) own i x m ind -> 0 <= i_size x <= m * BSIZE -> no_holes (vw s) x.
Proof.
  intros I L Hs. pose proof L as [H1 H2 H3 H4 H5 H6 H7]. split; [done|consts; lia| |].
  - intros k Hk Hlt. destruct (own_xint _ _ _ _ I (H3 k ltac:(consts; lia))) as (_ & ?%Z.eqb_neq & ?). consts. lia.
  - intros Hlt. rewrite H7 in H5 by (consts; lia). destruct (own_xint _ _ _ _ I H5) as (_ & ?%Z.eqb_neq & ?). consts. lia.
Qed.
Lemma has_file_kernel own s i type data :
  has_file own s i type data -> type = T_DIR \/ type = T_FILE -> kernel_file (vw s) i type data.
Proof.
  intros [F H1 H2 H3 H4 H5] Ht. pose proof F as [I Hd L D Hl]. split; rewrite disk_inode_ino.
  - change (i16 (get16 0 (on_disk s i)) = type). rewrite H1. by destruct Ht as [-> | ->].
  - change (i16 (get16 6 (on_disk s i)) = 1). by rewrite H4.
  - exact H5.
  - apply (layout_no_holes own s i _ _ _ I L). change (i_size (ino (on_disk s i))) with (get32 8 (on_disk s i)). lia.
  - by apply (holds_fdata _ _ _ _ D).
Qed.

(** The inode of the root directory. *)
Definition root_inode (v : Z -> list Z) : inode := disk_inode v mkfs_sb ROOTINO inode0.

(** The disk the kernel boots from: the super block, an empty log, each file under its
    inode with its contents, the root directory with an entry for each, the blocks of all
    files distinct and in use, and exactly the others free. *)
Record boot_image (args cs : list (list Z)) (s : mst) : Prop := {
  bi_size : Z.of_nat (length (m_img s)) = FSSIZE;
  bi_sb : sb_of (vw s 1) = mkfs_sb;
  bi_log : hdr_n (vw s 2) = 0;
  bi_inodes : inodes_ok 2 mkfs_sb;
  bi_bitmap : bitmap_ok (vw s) 2 mkfs_sb;
  bi_file k c : cs !! k = Some c -> kernel_file (vw s) (Z.of_nat k + 2) T_FILE c;
  bi_root : i_type (root_inode (vw s)) = T_DIR /\ i_nlink (root_inode (vw s)) = 1 /\
    i_size (root_inode (vw s)) = (Z.of_nat (length (root_data args)) / BSIZE + 1) * BSIZE;
  bi_holes : no_holes (vw s) (root_inode (vw s)) <-> Z.of_nat (length (root_data args)) mod BSIZE <> 0;
  bi_dots : fdata (vw s) (root_inode (vw s)) 0 32 = dots;
  bi_entry k arg : args !! k = Some arg ->
    fdata (vw s) (root_inode (vw s)) (16 * (Z.of_nat k + 2)) 16 = mk_dirent (Z.of_nat k + 2) (skip_underscore (short_name arg));
  bi_distinct i j a b k l c d : inodes_of (root_data args) cs !! i = Some (a, c) -> inodes_of (root_data args) cs !! j = Some (b, d) ->
    0 <= k < blocks_of (Z.of_nat (length c)) -> 0 <= l < blocks_of (Z.of_nat (length d)) ->
    baddr (vw s) (disk_inode (vw s) mkfs_sb (Z.of_nat i + 1) inode0) k = baddr (vw s) (disk_inode (vw s) mkfs_sb (Z.of_nat j + 1) inode0) l ->
    i = j /\ k = l;
  bi_used i a k c : inodes_of (root_data args) cs !! i = Some (a, c) -> 0 <= k < blocks_of (Z.of_nat (length c)) ->
    free_block (vw s) mkfs_sb (baddr (vw s) (disk_inode (vw s) mkfs_sb (Z.of_nat i + 1) inode0) k) = false;
  bi_free n : 0 <= n < FSSIZE -> free_block (vw s) mkfs_sb n = (nmeta + total_cost (inodes_of (root_data args) cs) <=? n) }.

(** Enough inodes, and enough blocks. *)
Record fits (args cs : list (list Z)) : Prop := {
  ft_count : Z.of_nat (length args) + 1 < NINODES;
  ft_each : Forall (fun c => Z.of_nat (length c) <= MAXFILE * BSIZE) cs;
  ft_blocks : nmeta + total_cost (inodes_of (root_data args) cs) <= FSSIZE }.

(** The end of [main]: the size of the root directory is rounded up, and the bitmap written. *)
Section finish.
Variables (args cs : list (list Z)) (own : ownership) (s : mst).
Hypothesis R : repr (inodes_of (root_data args) cs) own s.
Notation n := (Z.of_nat (length (root_data args))).
Definition root_din : list Z := put32 8 ((n / BSIZE + 1) * BSIZE) (on_disk s ROOTINO).
Definition bitmap : list Z := foldl (fun buf i => bit_set i buf) zeroes (seqZ 0 (m_freeblock s)).
Definition finished : mst := set_block (nmeta - 1) bitmap (put_inode ROOTINO root_din s).

Lemma root_here : has_file own s ROOTINO T_DIR (root_data args).
Proof. apply (rp_file _ _ _ R 0 T_DIR). done. Qed.
Lemma bitmap_ok_here : length bitmap = Z.to_nat BSIZE /\ forall k, 0 <= k < BPB -> bit_free bitmap k = (m_freeblock s <=? k).
Proof. pose proof (iv_fb _ _ (rp_inv _ _ _ R)). apply bitmap_marks. unfold BPB. consts. lia. Qed.
Lemma root_din_len : length root_din = 64%nat.
Proof. pose proof (on_disk_len own s ROOTINO (rp_inv _ _ _ R)) as E. unfold root_din. rewrite length_put32; lia. Qed.
Lemma finished_mid : inv own (put_inode ROOTINO root_din s).
Proof. apply put_inode_inv; [apply R|done|apply root_din_len]. Qed.
Lemma finished_vw b : 0 <= b -> vw finished b = if decide (b = nmeta - 1) then bitmap else vw (put_inode ROOTINO root_din s) b.
Proof. intros Hb. unfold finished. rewrite vw_set; [done|apply finished_mid|consts; lia|done]. Qed.
Lemma finished_other b : 0 <= b -> b < 32 \/ nmeta <= b -> vw finished b = vw s b.
Proof.
  intros Hb Ho. rewrite finished_vw, decide_False by (done || consts; lia). apply (put_inode_other own); [apply R|done|done|consts; lia].
Qed.
Lemma finished_inv : inv own finished.
Proof.
  destruct finished_mid as [W Hs Hf Ho Hz]. split; [apply set_block_wf; [done|apply bitmap_ok_here]|done|done|done|].
  intros b Hb. assert (nmeta <= b) by (pose proof (iv_fb _ _ (rp_inv _ _ _ R)); simpl in Hb; lia).
  rewrite finished_other by (consts; lia). apply (iv_zero _ _ (rp_inv _ _ _ R)). done.
Qed.
Lemma finished_on_disk j : 0 <= j < NINODES -> on_disk finished j = if decide (j = ROOTINO) then root_din else on_disk s j.
Proof.
  intros Hj. destruct (iblock_mkfs j Hj) as [_ Hb]. unfold on_disk at 1. rewrite finished_vw, decide_False by lia.
  change (on_disk (put_inode ROOTINO root_din s) j = if decide (j = ROOTINO) then root_din else on_disk s j). case_decide as E.
  - subst. apply (put_inode_same own); [apply R|done|apply root_din_len].
  - apply (put_inode_ne own); [apply R|done|apply root_din_len|done|done].
Qed.
(** The blocks of the files did not change. *)
Lemma finished_fstate i din m ind data : fstate own s i din m ind data -> fstate own finished i din m ind data.
Proof.
  intros F. apply (fstate_frame own s); [done|apply finished_inv|]. intros b k Hb. split; [done|].
  apply (iv_own _ _ (rp_inv _ _ _ R)) in Hb. apply finished_other; consts; lia.
Qed.
Lemma finished_file i type data : 0 <= i < NINODES -> i <> ROOTINO -> has_file own s i type data -> has_file own finished i type data.
Proof.
  intros Hi Hne [F H1 H2 H3 H4 H5]. assert (on_disk finished i = on_disk s i) as E by (rewrite finished_on_disk by done; by rewrite decide_False).
  split; rewrite ?E; try done. by apply finished_fstate.
Qed.
(** Inode [i], the root or not, has the blocks of its data. *)
Lemma finished_blocks i a c : inodes_of (root_data args) cs !! i = Some (a, c) ->
  fstate_n own finished (Z.of_nat i + 1) (on_disk finished (Z.of_nat i + 1)) c.
Proof.
  intros Hi. pose proof (rp_file _ _ _ R _ _ _ Hi) as HF. pose proof (lookup_lt_Some _ _ _ Hi). pose proof (rp_count _ _ _ R).
  destruct (decide (i = 0%nat)) as [->|Hne].
  - injection Hi as <- <-. rewrite finished_on_disk by (unfold NINODES; lia). rewrite decide_True by done. apply finished_fstate.
    apply (fstate_addrs own s _ (on_disk s ROOTINO)); [apply HF|apply root_din_len|]. apply ino_size, (on_disk_len own), R.
  - apply (finished_file _ a); [lia|unfold ROOTINO; lia|done].
Qed.

Lemma bblock_mkfs k : 0 <= k < FSSIZE -> BBLOCK k mkfs_sb = nmeta - 1 /\ k mod BPB = k.
Proof. intros Hk. unfold BBLOCK, BPB. change (sb_bmapstart mkfs_sb) with 45. consts. rewrite u32_small by zlia. zlia. Qed.
Lemma finished_free k : 0 <= k < FSSIZE -> free_block (vw finished) mkfs_sb k = (m_freeblock s <=? k).
Proof.
  intros Hk. destruct (bblock_mkfs k Hk) as [E1 E2]. unfold free_block. rewrite E1, E2, finished_vw, decide_True by (done || consts; lia).
  apply bitmap_ok_here. unfold BPB. consts. lia.
Qed.
Lemma finished_bitmap : bitmap_ok (vw finished) 2 mkfs_sb.
Proof.
  pose proof (iv_fb _ _ (rp_inv _ _ _ R)) as Hf. split; [done|done| |]; change (sb_size mkfs_sb) with FSSIZE.
  - intros k Hk. destruct (bblock_mkfs k Hk) as [-> _]. unfold in_log. change LOGSIZE with 30. consts. lia.
  - intros k m Hk Hm. rewrite finished_free by done. intros Hle%Z.leb_le. destruct (bblock_mkfs m Hm) as [-> _].
    unfold in_log. change LOGSIZE with 30. consts. lia.
Qed.
Lemma mkfs_inodes_ok : inodes_ok 2 mkfs_sb.
Proof.
  split; [done|done|]. intros i Hi. change (sb_ninodes mkfs_sb) with NINODES in Hi. destruct (iblock_mkfs i Hi) as [_ Hb].
  unfold in_log. change LOGSIZE with 30. lia.
Qed.
Lemma finished_root : root_inode (vw finished) = ino root_din.
Proof. unfold root_inode. rewrite disk_inode_ino, finished_on_disk by done. done. Qed.
Lemma finished_root_fields :
  i_type (root_inode (vw finished)) = T_DIR /\ i_nlink (root_inode (vw finished)) = 1 /\
  i_size (root_inode (vw finished)) = (n / BSIZE + 1) * BSIZE.
Proof.
  destruct root_here as [F H1 H2 H3 H4 H5]. pose proof (on_disk_len own s ROOTINO (rp_inv _ _ _ R)) as Hl.
  pose proof (ly_m _ _ _ _ _ _ (fs_ly _ _ _ _ _ _ _ F)) as Hm. pose proof (fs_len _ _ _ _ _ _ _ F). rewrite finished_root. split_and!.
  - change (i16 (get16 0 root_din) = T_DIR). unfold root_din, get16. rewrite sub_put32_ne by lia. fold (get16 0 (on_disk s ROOTINO)). by rewrite H1.
  - change (i16 (get16 6 root_din) = 1). unfold root_din, get16. rewrite sub_put32_ne by lia. fold (get16 6 (on_disk s ROOTINO)). by rewrite H4.
  - change (get32 8 root_din = (n / BSIZE + 1) * BSIZE). unfold root_din. rewrite get32_put32 by lia. apply u32_small. consts. zlia.
Qed.
(** Any part of the root directory's data. *)
Lemma finished_root_data off m : 0 <= off -> 0 <= m -> off + m <= n ->
  fdata (vw finished) (root_inode (vw finished)) off m = sub off m (root_data args).
Proof.
  intros Ho Hm Hle. pose proof (finished_blocks 0 T_DIR _ eq_refl) as F. rewrite finished_on_disk in F by done. rewrite decide_True in F by done.
  pose proof (holds_fdata _ _ _ _ (fs_da _ _ _ _ _ _ _ F) (fs_len _ _ _ _ _ _ _ F)) as E. rewrite finished_root.
  assert (fdata (vw finished) (ino root_din) 0 n = fdata (vw finished) (ino root_din) 0 off ++ fdata (vw finished) (ino root_din) off (n - off)) as E1.
  { rewrite <- (Z.add_0_l off) at 3. rewrite <- fdata_app by lia. f_equal. lia. }
  replace (n - off) with (m + (n - off - m)) in E1 by lia. rewrite (fdata_app _ _ off) in E1 by lia. rewrite E in E1. unfold sub. rewrite E1.
  rewrite drop_app_ge by (rewrite length_fdata; lia). rewrite length_fdata by lia. rewrite Nat.sub_diag, drop_0.
  by rewrite take_app_ge, length_fdata, Nat.sub_diag, take_0, app_nil_r by (rewrite ?length_fdata; lia).
Qed.
(** The rounded size is that of the allocated blocks unless they were full. *)
Lemma finished_holes : n < Z.of_nat NDIRECT * BSIZE -> no_holes (vw finished) (root_inode (vw finished)) <-> n mod BSIZE <> 0.
Proof.
  intros Hn. pose proof (finished_blocks 0 T_DIR _ eq_refl) as F. rewrite finished_on_disk in F by done. rewrite decide_True in F by done.
  destruct finished_root_fields as (_ & _ & Es). rewrite finished_root in *. split.
  - intros N Hz. assert (blocks_of n = n / BSIZE) as Eb by (unfold blocks_of; consts; zlia).
    pose proof (nh_block _ _ N (n / BSIZE) ltac:(consts; zlia) ltac:(rewrite Es; consts; lia)) as Hb.
    unfold baddr in Hb. rewrite (proj2 (Z.ltb_lt _ _)) in Hb by (consts; zlia).
    rewrite (ly_zero _ _ _ _ _ _ (fs_ly _ _ _ _ _ _ _ F)) in Hb by (rewrite Eb; consts; zlia). lia.
  - intros Hz. apply (layout_no_holes own finished ROOTINO _ _ _ finished_inv (fs_ly _ _ _ _ _ _ _ F)). rewrite Es. unfold blocks_of. consts. zlia.
Qed.
Lemma finished_run :
  (let! din := rinode ROOTINO in
   let off := (xint (get32 8 din) / BSIZE + 1) * BSIZE in
   winode ROOTINO (put32 8 (xint off) din) ;;;
   let! fb := gets m_freeblock in mkfs_balloc fb) s = Done tt finished.
Proof.
  pose proof R as [I _ _ _ _ _ _]. destruct root_here as [F H1 H2 H3 H4 H5]. pose proof (iv_fb _ _ I).
  pose proof (ly_m _ _ _ _ _ _ (fs_ly _ _ _ _ _ _ _ F)) as Hm. pose proof (fs_len _ _ _ _ _ _ _ F). unfold bind at 1. rewrite (rinode_done own) by done.
  cbv zeta. rewrite H5, (xint_small n) by (consts; lia). rewrite xint_small by (consts; zlia). fold root_din.
  unfold bind at 1. rewrite (winode_done own) by done. mrun. change (m_freeblock (put_inode ROOTINO root_din s)) with (m_freeblock s).
  unfold mkfs_balloc. rewrite (proj2 (Z.ltb_lt _ _)) by (consts; lia). cbn [negb]. mrun. change (m_sb (put_inode ROOTINO root_din s)) with (m_sb s).
  rewrite (iv_sb _ _ I). change (sb_bmapstart mkfs_sb) with (nmeta - 1). fold bitmap. apply wsect_done; [apply finished_mid|consts; lia].
Qed.
End finish.

Lemma entries_at args : forall i k arg, args !! k = Some arg ->
  sub (16 * Z.of_nat k) 16 (entries i args) = mk_dirent (i + Z.of_nat k) (skip_underscore (short_name arg)).
Proof.
  induction args as [|a args IH]; intros i [|k] arg Hk; [done|done| |]; cbn [entries]; simpl in Hk.
  - injection Hk as ->. unfold sub. rewrite drop_0, take_app_le by (by rewrite mk_dirent_len). rewrite take_ge by (by rewrite mk_dirent_len).
    f_equal. lia.
  - replace (i + Z.of_nat (S k)) with (i + 1 + Z.of_nat k) by lia. rewrite <- (IH (i + 1) k arg Hk). unfold sub.
    rewrite drop_app_ge by (rewrite mk_dirent_len; lia). rewrite mk_dirent_len. do 2 f_equal. lia.
Qed.
Lemma root_data_len args : length (root_data args) = (32 + 16 * length args)%nat.
Proof. unfold root_data, dots. by rewrite !length_app, !mk_dirent_len, entries_len. Qed.
Lemma root_data_at args k arg : args !! k = Some arg ->
  sub (16 * (Z.of_nat k + 2)) 16 (root_data args) = mk_dirent (Z.of_nat k + 2) (skip_underscore (short_name arg)).
Proof.
  intros Hk. rewrite Z.add_comm, <- (entries_at args 2 k arg Hk). unfold sub, root_data.
  rewrite drop_app_ge by (change (length dots) with 32%nat; lia). change (length dots) with 32%nat. do 2 f_equal. lia.
Qed.

Lemma finished_image args cs own s :
  repr (inodes_of (root_data args) cs) own s -> Z.of_nat (length args) < NINODES -> boot_image args cs (finished args s).
Proof.
  intros R Hargs. pose proof (finished_inv _ _ _ _ R) as I. pose proof (rp_count _ _ _ R) as Hc. pose proof (root_data_len args) as Hl.
  assert (forall i a k c, inodes_of (root_data args) cs !! i = Some (a, c) -> 0 <= k < blocks_of (Z.of_nat (length c)) ->
    own !! baddr (vw (finished args s)) (disk_inode (vw (finished args s)) mkfs_sb (Z.of_nat i + 1) inode0) k = Some (Z.of_nat i + 1, k)) as Hown.
  { intros i a k c Hi Hk. rewrite disk_inode_ino. by apply (ly_own _ _ _ _ _ _ (fs_ly _ _ _ _ _ _ _ (finished_blocks _ _ _ _ R _ _ _ Hi))). }
  split.
  - apply I.
  - rewrite (finished_other _ _ _ _ R) by lia. rewrite (rp_low _ _ _ R) by lia. vm_compute. reflexivity.
  - rewrite (finished_other _ _ _ _ R) by lia. rewrite (rp_low _ _ _ R) by lia. reflexivity.
  - apply mkfs_inodes_ok.
  - by apply (finished_bitmap _ cs own).
  - intros k c Hk. assert (inodes_of (root_data args) cs !! S k = Some (T_FILE, c)) as Hi by (unfold inodes_of; simpl; by rewrite list_lookup_fmap, Hk).
    pose proof (lookup_lt_Some _ _ _ Hi). pose proof (rp_file _ _ _ R _ _ _ Hi) as HF. replace (Z.of_nat (S k) + 1) with (Z.of_nat k + 2) in HF by lia.
    apply (has_file_kernel own); [|by right]. apply (finished_file _ cs); [done|lia|unfold ROOTINO; lia|done].
  - by apply (finished_root_fields _ cs own).
  - apply (finished_holes _ cs own s R). unfold NINODES in Hargs. consts. lia.
  - rewrite (finished_root_data _ cs own s R) by lia. reflexivity.
  - intros k arg Hk. pose proof (lookup_lt_Some _ _ _ Hk). rewrite (finished_root_data _ cs own s R) by lia. by apply root_data_at.
  - intros i j a b k l c d Hi Hj Hk Hk' E. pose proof (Hown i a k c Hi Hk) as E1. rewrite E, (Hown j b l d Hj Hk') in E1. injection E1. lia.
  - intros i a k c Hi Hk. pose proof (Hown i a k c Hi Hk) as Ho. pose proof (iv_own _ _ (rp_inv _ _ _ R) _ _ Ho). pose proof (iv_fb _ _ (rp_inv _ _ _ R)).
    rewrite (finished_free _ cs own s R) by (consts; lia). lia.
  - intros k Hk. rewrite (finished_free _ cs own s R) by done. by rewrite (rp_fb _ _ _ R).
Qed.

(** The first entries of the root directory. *)
Lemma append_dot d e own s :
  repr [(T_DIR, d)] own s -> Z.of_nat (length (d ++ e)) <= BSIZE ->
  wp (iappend ROOTINO e) (fun _ s' => exists own', repr [(T_DIR, d ++ e)] own' s') s.
Proof.
  intros R Hl. apply (iappend_repr [(T_DIR, d)] own s 0 T_DIR d e R eq_refl); [consts; lia|].
  pose proof (cost_mono (Z.of_nat (length (d ++ e))) BSIZE Hl) as Hc. change (cost BSIZE) with 1 in Hc.
  change (total_cost (<[0%nat := (T_DIR, d ++ e)]> [(T_DIR, d)])) with (cost (Z.of_nat (length (d ++ e))) + 0). consts. lia.
Qed.
Lemma mkfs_main_ok `{Host} argv cs :
  (2 <= length argv)%nat -> Forall2 hosted (drop 2 argv) cs -> fits (drop 2 argv) cs ->
  wp (mkfs_main argv) (fun _ => boot_image (drop 2 argv) cs) mst0.
Proof.
  intros Ha Hh [Hn He Hb]. unfold mkfs_main. rewrite bool_decide_false by lia. set (args := drop 2 argv) in *.
  apply wp_bind, wp_modify. cbn [m_freeinode mst0]. apply wp_bind. eapply wp_mono; [apply blank_image|]. intros _ ? ->. cbv beta.
  assert (img_wf blank) as W by (split; [vm_compute; done|apply Forall_replicate; done]).
  apply wp_bind. unfold wp at 1. rewrite wsect_done by (done || consts; lia).
  apply wp_bind. eapply wp_mono; [apply (ialloc_repr [] _ _ T_DIR repr_blank); [done|by left]|]. intros r s1 [-> R1]. cbv beta.
  change (Z.of_nat (length (@nil (Z * list Z))) + 1) with ROOTINO. change (negb (ROOTINO =? ROOTINO)) with false. cbv iota. change (xshort ROOTINO) with ROOTINO.
  apply wp_bind. eapply wp_mono; [apply (append_dot [] _ _ _ R1); done|]. intros _ s2 (own2 & R2). cbv beta.
  apply wp_bind. eapply wp_mono; [apply (append_dot _ _ _ _ R2); done|]. intros _ s3 (own3 & R3). cbv beta.
  apply wp_bind. eapply wp_mono; [apply (add_files_repr args dots [] own3 s3 cs); [exact R3|done|simpl; lia| |done|exact Hb]|].
  { change (length dots) with 32%nat. unfold NINODES in Hn. consts. lia. }
  intros _ s4 (own4 & R4). cbv beta. pose proof (finished_run args cs own4 s4 R4) as E. cbv zeta in E. unfold wp. rewrite E. apply (finished_image _ _ own4); [done|lia].
Qed.

(** C7. The image mkfs builds is one the kernel can boot from: given enough inodes and blocks it
    runs to its end, whatever pieces the host's [read] returns, and the definitions of the
    kernel find on the disk the super block, an empty log, every file under its name with
    its contents, no block in two files, and as free exactly the blocks no file uses. *)
Theorem mkfs_boots `{Host} argv cs :
  (2 <= length argv)%nat -> Forall2 hosted (drop 2 argv) cs -> fits (drop 2 argv) cs ->
  exists s, mkfs_main argv mst0 = Done tt s /\ boot_image (drop 2 argv) cs s.
Proof. intros Ha Hh Hf. destruct (proj1 (wp_done _ _ _) (mkfs_main_ok argv cs Ha Hh Hf)) as ([] & s & E & B). by exists s. Qed.


(** C39. With a multiple of 64 entries the rounding at the end of [main] adds a whole block to
    the size of the root directory, one that is not allocated: the kernel meets a hole
    when it reads its root directory. *)
Theorem mkfs_root_hole `{Host} argv cs :
  (2 <= length argv)%nat -> Forall2 hosted (drop 2 argv) cs -> fits (drop 2 argv) cs -> Z.of_nat (length argv) mod 64 = 0 ->
  exists s, mkfs_main argv mst0 = Done tt s /\ ~ no_holes (vw s) (root_inode (vw s)).
Proof.
  intros Ha Hh Hf Hz. destruct (proj1 (wp_done _ _ _) (mkfs_main_ok argv cs Ha Hh Hf)) as ([] & s & E & B). exists s. split; [done|].
  intros N%(bi_holes _ _ _ B). apply N. rewrite root_data_len, length_drop. consts. zlia.
Qed.

(** ** A host with a file in two pieces *)

Definition demo_host : Host := fun arg =>
  if bool_decide (arg = chars "user/_cat") then Some [replicate 1024 7; chars "abc"] else
  if bool_decide (arg = chars "README") then Some [chars "xv6"] else None.
Lemma mkfs_boots_witness :
  exists s, @mkfs_main demo_host [chars "mkfs"; chars "fs.img"; chars "user/_cat"; chars "README"] mst0 = Done tt s /\
    fdata (vw s) (disk_inode (vw s) mkfs_sb 3 inode0) 0 3 = chars "xv6" /\
    fdata (vw s) (root_inode (vw s)) 32 16 = mk_dirent 2 (chars "cat") /\ free_block (vw s) mkfs_sb 50 = true.
Proof.
  destruct (@mkfs_boots demo_host [chars "mkfs"; chars "fs.img"; chars "user/_cat"; chars "README"] [replicate 1024 7 ++ chars "abc"; chars "xv6"])
    as (s & E & B).
  - apply (bool_decide_unpack _). vm_compute. exact I.
  - constructor; [|constructor; [|constructor]]; (split; [apply (bool_decide_unpack _); vm_compute; exact I|]).
    + exists [replicate 1024 7; chars "abc"]. split; [vm_compute; reflexivity|]. split; [by repeat constructor|]. vm_compute. reflexivity.
    + exists [chars "xv6"]. split; [vm_compute; reflexivity|]. split; [by repeat constructor|]. reflexivity.
  - split; [vm_compute; reflexivity|apply (bool_decide_unpack _); vm_compute; exact I|vm_compute; discriminate].
  - exists s. split; [exact E|]. split; [apply (kf_data _ _ _ _ (bi_file _ _ _ B 1 (chars "xv6") eq_refl))|].
    split; [apply (bi_entry _ _ _ B 0 (chars "user/_cat") eq_refl)|]. rewrite (bi_free _ _ _ B) by (vm_compute; split; [discriminate|reflexivity]).
    vm_compute. reflexivity.
Defined.

(** 62 empty files. *)
Definition demo_empty_host : Host := fun _ => Some [].
Lemma mkfs_root_hole_witness :
  exists s, @mkfs_main demo_empty_host (replicate 64 (chars "f")) mst0 = Done tt s /\ ~ no_holes (vw s) (root_inode (vw s)).
Proof.
  apply (@mkfs_root_hole demo_empty_host (replicate 64 (chars "f")) (replicate 62 [])).
  - apply (bool_decide_unpack _). vm_compute. exact I.
  - change (drop 2 (replicate 64 (chars "f"))) with (replicate 62 (chars "f")). apply Forall2_replicate.
    split; [apply (bool_decide_unpack _); vm_compute; exact I|]. exists []. split; [reflexivity|]. split; [constructor|reflexivity].
  - split; [vm_compute; reflexivity|apply Forall_replicate; vm_compute; discriminate|vm_compute; discriminate].
  - reflexivity.
Defined.
