(* ===== verification/File.v ===== *)
(** * Files

    [kernel/file.c] and [pipealloc] of [kernel/pipe.c]. A [struct file *] is an
    index in [ftable]. The device table holds the console, which [consoleinit]
    registered. *)

From S2P Require Import Prelude CString Bytes State Spinlock Proc Kalloc Vm Pipe Console Sleeplock Virtio Bio Log Fs.

(** [n] bytes of memory that the program has not initialised. *)
Class Indet : Type := indet : nat -> list Z.

Definition CONSOLE : Z := 1.

Definition getf (i : nat) : M kst file := let! l := gets ftable in must (l !! i).
Definition modf (i : nat) (f : file -> file) : M kst unit := getf i ;;; modify (up_ftable (alter f i)).

(** The first entry of the table with reference count 0. *)
Definition free_file (l : list file) : option nat := fst <$> list_find (fun f => f_ref f = 0) l.
Definition filealloc : M kst (option nat) :=
  acquire FtableLock ;;;
  let! l := gets ftable in
  match free_file l with
  | Some i => modf i (up_f_ref (fun _ => 1)) ;;; release FtableLock ;;; ret (Some i)
  | None => release FtableLock ;;; ret None
  end.

Definition filedup (i : nat) : M kst nat :=
  acquire FtableLock ;;;
  let! f := getf i in
  if f_ref f <? 1 then panic "filedup"
  else modf i (up_f_ref (fun r => r + 1)) ;;; release FtableLock ;;; ret i.

Section file.
Context `{Layout} `{UartDev} `{BlockDev} `{Env} `{Fuel} `{Indet}.

Definition fileclose (i : nat) : M kst unit :=
  acquire FtableLock ;;;
  let! f := getf i in
  if f_ref f <? 1 then panic "fileclose"
  else
    modf i (up_f_ref (fun r => r - 1)) ;;;
    let! f := getf i in
    if 0 <? f_ref f then release FtableLock
    else
      modf i (fun x => up_f_type (fun _ => FD_NONE) (up_f_ref (fun _ => 0) x)) ;;;
      release FtableLock ;;;
      match f_type f with
      | FD_PIPE => pipeclose (f_pipe f) (f_writable f)
      | FD_INODE | FD_DEVICE =>
          begin_op ;;;
          let! ip := must (f_ip f) in
          iput ip ;;;
          end_op
      | FD_NONE => ret tt
      end.

(** struct stat as bytes; four bytes of padding precede [size]. *)
Definition stat_bytes (st : stat) : list Z :=
  le_bytes 4 (st_dev st) ++ le_bytes 4 (st_ino st) ++ le_bytes 2 (st_type st) ++ le_bytes 2 (st_nlink st) ++
  indet 4 ++ le_bytes 8 (st_size st).
Definition filestat (i : nat) (addr : Z) : M kst Z :=
  let! me := curproc in
  let! f := getf i in
  match f_type f with
  | FD_INODE | FD_DEVICE =>
      let! ip := must (f_ip f) in
      ilock ip ;;;
      let! x := geti ip in
      iunlock ip ;;;
      let! p := getp me in
      let! r := copyout (p_pagetable p) addr (stat_bytes (stati x)) in
      ret (if r <? 0 then -1 else 0)
  | _ => ret (-1)
  end.

(** [devsw[major].read(1, addr, n)] and [devsw[major].write(1, addr, n)] *)
Definition devsw_read (major addr n : Z) : option (M kst Z) :=
  if major =? CONSOLE then Some (consoleread (UserAddr addr) n) else None.
Definition devsw_write (major addr n : Z) : option (M kst Z) :=
  if major =? CONSOLE then Some (consolewrite (UserAddr addr) n) else None.

Definition fileread (i : nat) (addr n : Z) : M kst Z :=
  let! f := getf i in
  if negb (f_readable f) then ret (-1)
  else
    match f_type f with
    | FD_PIPE => piperead (f_pipe f) addr n
    | FD_DEVICE =>
        if (f_major f <? 0) || (NDEV <=? f_major f) then ret (-1)
        else match devsw_read (f_major f) addr n with Some m => m | None => ret (-1) end
    | FD_INODE =>
        let! ip := must (f_ip f) in
        ilock ip ;;;
        let! (r, _) := readi ip (UserAddr addr) (f_off f) (u32 n) in
        when (0 <? r) (modf i (up_f_off (fun o => u32 (o + r)))) ;;;
        iunlock ip ;;;
        ret r
    | FD_NONE => panic "fileread"
    end.

(** [max] of [filewrite] *)
Definition write_max : Z := ((MAXOPBLOCKS - 1 - 1 - 2) / 2) * BSIZE.
(** The loop of [filewrite], from [i0]; at most [n / write_max + 1] turns. *)
Fixpoint filewrite_loop (k : nat) (i ip : nat) (addr n i0 : Z) : M kst Z :=
  match k with
  | O => nofuel
  | S k' =>
      if i0 <? n then
        let n1 := Z.min (n - i0) write_max in
        begin_op ;;;
        ilock ip ;;;
        let! f := getf i in
        let! r := writei ip (UserAddr (u64 (addr + i0))) (f_off f) n1 in
        when (0 <? r) (modf i (up_f_off (fun o => u32 (o + r)))) ;;;
        iunlock ip ;;;
        end_op ;;;
        if negb (r =? n1) then ret i0 else filewrite_loop k' i ip addr n (i0 + r)
      else ret i0
  end.
Definition filewrite (i : nat) (addr n : Z) : M kst Z :=
  let! f := getf i in
  if negb (f_writable f) then ret (-1)
  else
    match f_type f with
    | FD_PIPE => pipewrite (f_pipe f) addr n
    | FD_DEVICE =>
        if (f_major f <? 0) || (NDEV <=? f_major f) then ret (-1)
        else match devsw_write (f_major f) addr n with Some m => m | None => ret (-1) end
    | FD_INODE =>
        let! ip := must (f_ip f) in
        let! done := filewrite_loop (Z.to_nat (n / write_max + 2)) i ip addr n 0 in
        ret (if done =? n then n else -1)
    | FD_NONE => panic "filewrite"
    end.

(** ** [pipealloc] *)

Definition set_pipe_file (readable : bool) (pi : Z) (f : file) : file :=
  up_f_pipe (fun _ => pi) (up_f_writable (fun _ => negb readable) (up_f_readable (fun _ => readable)
    (up_f_type (fun _ => FD_PIPE) f))).
(** A fresh page is filled with 5 by [kalloc]. *)
Definition new_pipe : pipe := mk_pipe (replicate (Z.to_nat PIPESIZE) 5) 0 0 true true.

Definition pipealloc : M kst (option (nat * nat)) :=
  let! f0 := filealloc in
  match f0 with
  | None => ret None
  | Some i0 =>
      let! f1 := filealloc in
      match f1 with
      | None => fileclose i0 ;;; ret None
      | Some i1 =>
          let! pi := kalloc in
          if pi =? 0 then fileclose i0 ;;; fileclose i1 ;;; ret None
          else
            modify (up_pipes (<[pi := new_pipe]>)) ;;;
            modf i0 (set_pipe_file true pi) ;;;
            modf i1 (set_pipe_file false pi) ;;;
            ret (Some (i0, i1))
      end
  end.
End file.
