(* ===== verification/ProcLife.v ===== *)
(** * The life of a process

    The functions of [kernel/proc.c] that make, copy, end and reap processes. The
    scheduling policy chosen at build time is the argument [pol] where the code
    differs. A trapframe page is the element of [tframes] at its address. *)

From S2P Require Import Prelude CString Bytes Printf State Spinlock Proc Kalloc Vm Pipe Console Sleeplock Virtio Bio Log Fs File.

(** Addresses of code and data that the linker decides. *)
Class Symbols : Type := {
  sym_forkret : Z; sym_usertrap : Z; sym_kernelvec : Z; sym_uservec : Z; sym_userret : Z }.

(** A page as [kalloc] returns it holds 5 in every byte. *)
Definition junk_word : Z := 0x0505050505050505.
Definition junk_tf : trapframe :=
  let j := junk_word in
  mk_trapframe j j j j j j j j j j j j j j j j j j j j j j j j j j j j j j j j j j j j.

Definition gettf (i : nat) : M kst trapframe :=
  let! p := getp i in let! t := gets tframes in must (t !! p_trapframe p).
Definition modtf (i : nat) (f : trapframe -> trapframe) : M kst unit :=
  gettf i ;;; let! p := getp i in modify (up_tframes (alter f (p_trapframe p))).

(** [safestrcpy(p->name, s, sizeof(p->name))] *)
Definition name_of (s : list Z) : list Z := take 15 s.

Section proclife.
Context `{Layout} `{Symbols} (pol : policy).

Definition proc_pagetable (i : nat) : M kst Z :=
  let! pagetable := uvmcreate in
  if pagetable =? 0 then ret 0
  else
    let! r := mappages pagetable TRAMPOLINE PGSIZE trampoline (Z.lor PTE_R PTE_X) in
    if r <? 0 then uvmfree pagetable 0 ;;; ret 0
    else
      let! p := getp i in
      let! r := mappages pagetable TRAPFRAME PGSIZE (p_trapframe p) (Z.lor PTE_R PTE_W) in
      if r <? 0 then uvmunmap pagetable TRAMPOLINE 1 false ;;; uvmfree pagetable 0 ;;; ret 0
      else ret pagetable.

Definition proc_freepagetable (pagetable sz : Z) : M kst unit :=
  uvmunmap pagetable TRAMPOLINE 1 false ;;;
  uvmunmap pagetable TRAPFRAME 1 false ;;;
  uvmfree pagetable sz.

Definition freeproc (i : nat) : M kst unit :=
  let! p := getp i in
  when (negb (p_trapframe p =? 0)) (
    modify (up_tframes (delete (p_trapframe p))) ;;;
    kfree (p_trapframe p)) ;;;
  modp i (up_p_trapframe (fun _ => 0)) ;;;
  when (negb (p_pagetable p =? 0)) (proc_freepagetable (p_pagetable p) (p_sz p)) ;;;
  modp i (up_p_pagetable (fun _ => 0)) ;;;
  modp i (up_p_sz (fun _ => 0)) ;;;
  modp i (up_p_pid (fun _ => 0)) ;;;
  modp i (up_p_parent (fun _ => None)) ;;;
  modp i (up_p_name (fun _ => [])) ;;;
  modp i (set_chan ChanNull) ;;;
  modp i (up_p_killed (fun _ => 0)) ;;;
  modp i (up_p_xstate (fun _ => 0)) ;;;
  modp i (set_state UNUSED).

(** The fields that PBS and MLFQ initialise. *)
Definition pbs_fields (p : proc) : proc :=
  up_p_nrun (fun _ => 0) (up_p_spriority (fun _ => 60) (up_p_niceness (fun _ => 5)
    (up_p_wtime (fun _ => 0) (up_p_rtime (fun _ => 0) p)))).
Definition mlfq_enter (i : nat) : M kst unit :=
  let! q := gets queues0 in
  let! k := gets queue_it0 in
  must (q !! Z.to_nat k) ;;;
  modify (up_queues0 (<[Z.to_nat k := Some i]>)) ;;;
  modify (up_queue_it0 (fun k => k + 1)) ;;;
  modp i (fun p => up_p_ticks (fun _ => replicate 5 0) (up_p_nrun (fun _ => 0)
    (up_p_slice (fun _ => 0) (up_p_queue (fun _ => 0) p)))).

(** The process, with its lock held. *)
Definition allocproc : M kst (option nat) :=
  let! r := for_find proc_ids (fun i =>
    plock i ;;;
    let! p := getp i in
    if is_state UNUSED p then ret (Some i) else punlock i ;;; ret None) in
  match r with
  | None => ret None
  | Some i =>
      let! pid := allocpid in
      modp i (up_p_pid (fun _ => pid)) ;;;
      modp i (set_state USED) ;;;
      let! t := gets ticks in
      modp i (up_p_ctime (fun _ => t)) ;;;
      when (bool_decide (pol = PBS)) (modp i pbs_fields) ;;;
      let! tf := kalloc in
      modp i (up_p_trapframe (fun _ => tf)) ;;;
      if tf =? 0 then freeproc i ;;; punlock i ;;; ret None
      else
        modify (up_tframes (<[tf := junk_tf]>)) ;;;
        let! pt := proc_pagetable i in
        modp i (up_p_pagetable (fun _ => pt)) ;;;
        if pt =? 0 then freeproc i ;;; punlock i ;;; ret None
        else
          modp i (fun p => up_p_ctx_sp (fun _ => p_kstack p + PGSIZE) (up_p_ctx_ra (fun _ => sym_forkret) p)) ;;;
          modp i (up_p_rtime (fun _ => 0)) ;;;
          modp i (up_p_etime (fun _ => 0)) ;;;
          let! t := gets ticks in
          modp i (up_p_ctime (fun _ => t)) ;;;
          when (bool_decide (pol = MLFQ)) (mlfq_enter i) ;;;
          ret (Some i)
  end.

(** uchar initcode[] *)
Definition initcode : list Z :=
  [0x17; 0x05; 0x00; 0x00; 0x13; 0x05; 0x45; 0x02;
   0x97; 0x05; 0x00; 0x00; 0x93; 0x85; 0x35; 0x02;
   0x93; 0x08; 0x70; 0x00; 0x73; 0x00; 0x00; 0x00;
   0x93; 0x08; 0x20; 0x00; 0x73; 0x00; 0x00; 0x00;
   0xef; 0xf0; 0x9f; 0xff; 0x2f; 0x69; 0x6e; 0x69;
   0x74; 0x00; 0x00; 0x24; 0x00; 0x00; 0x00; 0x00;
   0x00; 0x00; 0x00; 0x00].

Definition growproc (n : Z) : M kst Z :=
  let! i := curproc in
  let! p := getp i in
  let sz := p_sz p in
  if 0 <? n then
    let! sz' := uvmalloc (p_pagetable p) sz (u64 (sz + n)) PTE_W in
    if sz' =? 0 then ret (-1) else modp i (up_p_sz (fun _ => sz')) ;;; ret 0
  else if n <? 0 then
    let! sz' := uvmdealloc (p_pagetable p) sz (u64 (sz + n)) in
    modp i (up_p_sz (fun _ => sz')) ;;; ret 0
  else modp i (up_p_sz (fun _ => sz)) ;;; ret 0.

(** [np->ofile[i] = filedup(p->ofile[i])] for the open files [fs], from descriptor [k]. *)
Fixpoint dup_files (np : nat) (k : nat) (fs : list (option nat)) : M kst unit :=
  match fs with
  | [] => ret tt
  | None :: fs' => dup_files np (S k) fs'
  | Some f :: fs' =>
      let! f := filedup f in
      modp np (up_p_ofile (<[k := Some f]>)) ;;;
      dup_files np (S k) fs'
  end.

Definition fork : M kst Z :=
  let! i := curproc in
  let! a := allocproc in
  match a with
  | None => ret (-1)
  | Some np =>
      let! p := getp i in
      let! q := getp np in
      let! r := uvmcopy (p_pagetable p) (p_pagetable q) (p_sz p) in
      if r <? 0 then freeproc np ;;; punlock np ;;; ret (-1)
      else
        modp np (up_p_sz (fun _ => p_sz p)) ;;;
        let! tf := gettf i in
        modtf np (fun _ => tf) ;;;
        modp np (up_p_trace_mask (fun _ => p_trace_mask p)) ;;;
        modtf np (up_tf_a0 (fun _ => 0)) ;;;
        dup_files np 0 (p_ofile p) ;;;
        let! cwd := must (p_cwd p) in
        let! cwd := idup cwd in
        modp np (up_p_cwd (fun _ => Some cwd)) ;;;
        modp np (up_p_name (fun _ => name_of (p_name p))) ;;;
        let! q := getp np in
        let pid := p_pid q in
        punlock np ;;;
        acquire WaitLock ;;;
        modp np (up_p_parent (fun _ => Some i)) ;;;
        release WaitLock ;;;
        plock np ;;;
        modp np (set_state RUNNABLE) ;;;
        punlock np ;;;
        ret pid
  end.

(** What [wait] and [waitx] do with a zombie: report its status and free it. *)
Definition reap (i np : nat) (addr : Z) : M kst Z :=
  let! q := getp np in
  let pid := p_pid q in
  let! bad :=
    (if addr =? 0 then ret false
     else
       let! p := getp i in
       let! r := copyout (p_pagetable p) addr (le_bytes 4 (p_xstate q)) in
       ret (r <? 0)) in
  if bad then punlock np ;;; release WaitLock ;;; ret (-1)
  else
    freeproc np ;;;
    punlock np ;;;
    release WaitLock ;;;
    ret pid.

(** The scan for exited children: the result of the call, or whether there are children. *)
Fixpoint wait_scan (ids : list nat) (i : nat) (addr : Z) (havekids : bool) : M kst (Z + bool) :=
  match ids with
  | [] => ret (inr havekids)
  | np :: ids' =>
      let! q := getp np in
      if bool_decide (p_parent q = Some i) then
        plock np ;;;
        let! q := getp np in
        if is_state ZOMBIE q then let! r := reap i np addr in ret (inl r)
        else punlock np ;;; wait_scan ids' i addr true
      else wait_scan ids' i addr havekids
  end.

(** The same for [waitx], with [*wtime] and [*rtime] once they are assigned. *)
Fixpoint waitx_scan (ids : list nat) (i : nat) (addr : Z) (havekids : bool) : M kst (Z * Z * Z + bool) :=
  match ids with
  | [] => ret (inr havekids)
  | np :: ids' =>
      let! q := getp np in
      if bool_decide (p_parent q = Some i) then
        plock np ;;;
        let! q := getp np in
        if is_state ZOMBIE q then
          let rtime := p_rtime q in
          let wtime := u32 (p_etime q - p_ctime q - p_rtime q) in
          let! r := reap i np addr in
          ret (inl (r, wtime, rtime))
        else punlock np ;;; waitx_scan ids' i addr true
      else waitx_scan ids' i addr havekids
  end.

Section waiting.
Context `{Env} `{Fuel}.

Fixpoint wait_loop (n : nat) (i : nat) (addr : Z) : M kst Z :=
  match n with
  | O => nofuel
  | S n' =>
      let! r := wait_scan proc_ids i addr false in
      match r with
      | inl v => ret v
      | inr havekids =>
          let! k := (if havekids then killed i else ret 1) in
          if negb (k =? 0) then release WaitLock ;;; ret (-1)
          else sleep (ChanProc i) WaitLock ;;; wait_loop n' i addr
      end
  end.
Definition wait (addr : Z) : M kst Z :=
  let! i := curproc in
  acquire WaitLock ;;;
  wait_loop fuel i addr.

(** The result, and [*wtime] and [*rtime] if they were assigned. *)
Fixpoint waitx_loop (n : nat) (i : nat) (addr : Z) : M kst (Z * option (Z * Z)) :=
  match n with
  | O => nofuel
  | S n' =>
      let! r := waitx_scan proc_ids i addr false in
      match r with
      | inl (v, wtime, rtime) => ret (v, Some (wtime, rtime))
      | inr havekids =>
          let! p := getp i in
          if negb havekids || negb (p_killed p =? 0) then release WaitLock ;;; ret (-1, None)
          else sleep (ChanProc i) WaitLock ;;; waitx_loop n' i addr
      end
  end.
Definition waitx (addr : Z) : M kst (Z * option (Z * Z)) :=
  let! i := curproc in
  acquire WaitLock ;;;
  waitx_loop fuel i addr.
End waiting.

Section files.
Context `{UartDev} `{BlockDev} `{Env} `{Fuel}.

Definition userinit : M kst unit :=
  let! a := allocproc in
  modify (up_initproc (fun _ => a)) ;;;
  let! i := must a in
  let! p := getp i in
  uvmfirst (p_pagetable p) initcode ;;;
  modp i (up_p_sz (fun _ => PGSIZE)) ;;;
  modtf i (up_tf_epc (fun _ => 0)) ;;;
  modtf i (up_tf_sp (fun _ => PGSIZE)) ;;;
  modp i (up_p_name (fun _ => name_of (chars "initcode"))) ;;;
  let! cwd := namei [slash] in
  modp i (up_p_cwd (fun _ => cwd)) ;;;
  modp i (set_state RUNNABLE) ;;;
  punlock i.

(** Does not return. *)
Definition exit (status : Z) : M kst unit :=
  let! i := curproc in
  let! ini := gets initproc in
  if bool_decide (Some i = ini) then panic "init exiting"
  else
    for_each (seq 0 NOFILE) (fun fd =>
      let! p := getp i in
      match p_ofile p !! fd with
      | Some (Some f) => fileclose f ;;; modp i (up_p_ofile (<[fd := None]>))
      | _ => ret tt
      end) ;;;
    begin_op ;;;
    let! p := getp i in
    let! cwd := must (p_cwd p) in
    iput cwd ;;;
    end_op ;;;
    modp i (up_p_cwd (fun _ => None)) ;;;
    acquire WaitLock ;;;
    reparent i ;;;
    let! p := getp i in
    wakeup (match p_parent p with Some k => ChanProc k | None => ChanNull end) ;;;
    plock i ;;;
    modp i (up_p_xstate (fun _ => status)) ;;;
    modp i (set_state ZOMBIE) ;;;
    let! t := gets ticks in
    modp i (up_p_etime (fun _ => t)) ;;;
    release WaitLock ;;;
    sched ;;;
    panic "zombie exit".
End files.
End proclife.
