(* ===== verification/Exec.v ===== *)
(** * exec

    [kernel/exec.c]. The path and the arguments are the bytes of C strings in the
    kernel; the ELF structs are ranges of bytes. *)

From S2P Require Import Prelude CString Bytes State Spinlock Proc Kalloc Vm Console Sleeplock Virtio Bio Log Fs File ProcLife.

Definition get64 (off : Z) (l : list Z) : Z := le_word (sub off 8 l).
Definition ELF_MAGIC : Z := 0x464C457F.
Definition ELF_PROG_LOAD : Z := 1.
(** sizeof(struct elfhdr), sizeof(struct proghdr) and the fields used. *)
Definition elfhdr_size : Z := 64.
Definition proghdr_size : Z := 56.
Definition elf_magic (d : list Z) : Z := get32 0 d.
Definition elf_entry (d : list Z) : Z := get64 24 d.
Definition elf_phoff (d : list Z) : Z := get64 32 d.
Definition elf_phnum (d : list Z) : Z := get16 56 d.
Definition ph_type (d : list Z) : Z := get32 0 d.
Definition ph_flags (d : list Z) : Z := get32 4 d.
Definition ph_off (d : list Z) : Z := get64 8 d.
Definition ph_vaddr (d : list Z) : Z := get64 16 d.
Definition ph_filesz (d : list Z) : Z := get64 32 d.
Definition ph_memsz (d : list Z) : Z := get64 40 d.

Definition flags2perm (flags : Z) : Z :=
  let perm := if has_flag flags 1 then PTE_X else 0 in
  if has_flag flags 2 then Z.lor perm PTE_W else perm.

(** The program name: what follows the last slash of the path. *)
Fixpoint last_elem (last s : list Z) : list Z :=
  match s with
  | [] => last
  | c :: s' => last_elem (if c =? slash then s' else last) s'
  end.

Section exec.
Context `{Layout} `{UartDev} `{BlockDev} `{Env} `{Fuel}.

(** The pages of a segment of [sz] bytes. *)
Definition loadseg (pagetable va : Z) (ip : nat) (offset sz : Z) : M kst Z :=
  let! r := for_find ((fun k => PGSIZE * k) <$> seqZ 0 ((sz + PGSIZE - 1) / PGSIZE)) (fun i =>
    let! pa := walkaddr pagetable (va + i) in
    if pa =? 0 then panic "loadseg: address should exist"
    else
      let n := if sz - i <? PGSIZE then sz - i else PGSIZE in
      let! (r, l) := readi ip (KernAddr []) (u32 (offset + i)) n in
      modify (up_pmem (fun m => wr_bytes m pa l)) ;;;
      ret (if r =? n then None else Some (-1))) in
  ret (default 0 r).

(** The loop over the program headers: the size of the image so far, and whether the
    loop went through. *)
Fixpoint load_segments (k : nat) (ip : nat) (pagetable off sz : Z) : M kst (Z * bool) :=
  match k with
  | O => ret (sz, true)
  | S k' =>
      let! (r, ph) := readi ip (KernAddr []) (u32 off) proghdr_size in
      if negb (r =? proghdr_size) then ret (sz, false)
      else if negb (ph_type ph =? ELF_PROG_LOAD) then load_segments k' ip pagetable (i32 (off + proghdr_size)) sz
      else if ph_memsz ph <? ph_filesz ph then ret (sz, false)
      else if u64 (ph_vaddr ph + ph_memsz ph) <? ph_vaddr ph then ret (sz, false)
      else if negb (ph_vaddr ph mod PGSIZE =? 0) then ret (sz, false)
      else
        let! sz1 := uvmalloc pagetable sz (u64 (ph_vaddr ph + ph_memsz ph)) (flags2perm (ph_flags ph)) in
        if sz1 =? 0 then ret (sz, false)
        else
          let! l := loadseg pagetable (ph_vaddr ph) ip (u32 (ph_off ph)) (u32 (ph_filesz ph)) in
          if l <? 0 then ret (sz1, false)
          else load_segments k' ip pagetable (i32 (off + proghdr_size)) sz1
  end.

(** Pushing the argument strings: the stack pointer and the entries of [ustack], or
    failure. [strlen] returns an [int]; the strings that [sys_exec] passes are shorter
    than a page, and the length is taken as it is. *)
Fixpoint push_args (pagetable stackbase sp : Z) (argv : list (list Z)) (ustack : list Z) : M kst (option (Z * list Z)) :=
  match argv with
  | [] => ret (Some (sp, ustack))
  | s :: argv' =>
      if Z.of_nat MAXARG <=? Z.of_nat (length ustack) then ret None
      else
        let sp := u64 (sp - (Z.of_nat (length s) + 1)) in
        let sp := u64 (sp - sp mod 16) in
        if sp <? stackbase then ret None
        else
          let! r := copyout pagetable sp (s ++ [0]) in
          if r <? 0 then ret None
          else push_args pagetable stackbase sp argv' (ustack ++ [sp])
  end.

(** The label [bad]. *)
Definition exec_bad (pagetable sz : Z) (ip : option nat) : M kst Z :=
  when (negb (pagetable =? 0)) (proc_freepagetable pagetable sz) ;;;
  match ip with Some i => iunlockput i ;;; end_op | None => ret tt end ;;;
  ret (-1).

(** After the image is loaded: the stack, the arguments, and the new address space. *)
Definition exec_stack (path : list Z) (argv : list (list Z)) (elf : list Z) (pagetable sz : Z) : M kst Z :=
  let! i := curproc in
  let! p := getp i in
  let oldsz := p_sz p in
  let sz := PGROUNDUP sz in
  let! sz1 := uvmalloc pagetable sz (u64 (sz + 2 * PGSIZE)) PTE_W in
  if sz1 =? 0 then exec_bad pagetable sz None
  else
    let sz := sz1 in
    uvmclear pagetable (u64 (sz - 2 * PGSIZE)) ;;;
    let stackbase := u64 (sz - PGSIZE) in
    let! r := push_args pagetable stackbase sz argv [] in
    match r with
    | None => exec_bad pagetable sz None
    | Some (sp, ustack) =>
        let argc := Z.of_nat (length ustack) in
        if Z.of_nat MAXARG <=? argc then undef
        else
          let sp := u64 (sp - (argc + 1) * 8) in
          let sp := u64 (sp - sp mod 16) in
          if sp <? stackbase then exec_bad pagetable sz None
          else
            let! r := copyout pagetable sp (concat (le_bytes 8 <$> (ustack ++ [0]))) in
            if r <? 0 then exec_bad pagetable sz None
            else
              modtf i (up_tf_a1 (fun _ => sp)) ;;;
              modp i (up_p_name (fun _ => name_of (last_elem path path))) ;;;
              let! p := getp i in
              let oldpagetable := p_pagetable p in
              modp i (up_p_pagetable (fun _ => pagetable)) ;;;
              modp i (up_p_sz (fun _ => sz)) ;;;
              modtf i (up_tf_epc (fun _ => elf_entry elf)) ;;;
              modtf i (up_tf_sp (fun _ => sp)) ;;;
              proc_freepagetable oldpagetable oldsz ;;;
              ret argc
    end.

Definition exec (path : list Z) (argv : list (list Z)) : M kst Z :=
  let! me := curproc in
  begin_op ;;;
  let! r := namei path in
  match r with
  | None => end_op ;;; ret (-1)
  | Some ip =>
      ilock ip ;;;
      let! (n, elf) := readi ip (KernAddr []) 0 elfhdr_size in
      if negb (n =? elfhdr_size) then exec_bad 0 0 (Some ip)
      else if negb (elf_magic elf =? ELF_MAGIC) then exec_bad 0 0 (Some ip)
      else
        let! pagetable := proc_pagetable me in
        if pagetable =? 0 then exec_bad 0 0 (Some ip)
        else
          let! (sz, ok) := load_segments (Z.to_nat (elf_phnum elf)) ip pagetable (i32 (elf_phoff elf)) 0 in
          if negb ok then exec_bad pagetable sz (Some ip)
          else
            iunlockput ip ;;;
            end_op ;;;
            exec_stack path argv elf pagetable sz
  end.
End exec.
