(* ===== verification/ExecStack.v ===== *)
(** * The arguments of a new program

    [exec] pushes the argument strings on the stack of the new address space. Where
    they end up, and that the program finds them there, whatever their number and
    lengths. *)

From S2P Require Import Prelude CString Bytes State Spinlock Proc Kalloc Vm PageTable UserCopy Console Sleeplock Virtio Bio Log Fs File ProcLife Exec.

(** Below [sp], room for the string and its NUL, down to a multiple of 16. *)
Definition arg_sp (sp : Z) (str : list Z) : Z := let a := sp - (Z.of_nat (length str) + 1) in a - a mod 16.
Fixpoint arg_addrs (sp : Z) (argv : list (list Z)) : list Z :=
  match argv with
  | [] => []
  | str :: argv' => arg_sp sp str :: arg_addrs (arg_sp sp str) argv'
  end.
(** There are not too many arguments after [n] others, and all are above [base]. *)
Fixpoint args_fit (base sp : Z) (n : nat) (argv : list (list Z)) : bool :=
  match argv with
  | [] => true
  | str :: argv' => (n <? MAXARG)%nat && (base <=? arg_sp sp str) && args_fit base (arg_sp sp str) (S n) argv'
  end.

Lemma arg_sp_u64 sp str : u64 (u64 (sp - (Z.of_nat (length str) + 1)) - u64 (sp - (Z.of_nat (length str) + 1)) mod 16) = u64 (arg_sp sp str).
Proof. unfold arg_sp, u64. generalize (sp - (Z.of_nat (length str) + 1)). intros a. zlia. Qed.
Lemma arg_sp_bounds sp str :
  arg_sp sp str mod 16 = 0 /\ arg_sp sp str + Z.of_nat (length str) + 1 <= sp /\ sp - Z.of_nat (length str) - 16 <= arg_sp sp str.
Proof. unfold arg_sp. zlia. Qed.

Lemma user_addr_high m T va : MAXVA <= va -> user_addr m T va = None.
Proof. intros Hv. unfold user_addr. rewrite decide_False; [done|lia]. Qed.

Section push_args.
Context `{LayoutOk} `{UartDev} `{BlockDev} `{Env} `{Fuel}.
Variables (root base : Z) (T : gmap node Z).
Hypothesis at_root : T !! None = Some root.
Hypothesis base_pos : 0 <= base.

(** The state in which the next argument is pushed at [sp]. *)
Record stack_ok (sp : Z) (m : mem) : Prop := {
  so_rep : pt_rep m T;
  so_user : user_inv m T;
  so_sp : base <= sp <= MAXVA;
  so_mapped va : base <= va < sp -> is_Some (user_addr m T va) }.

(** One [copyout] of [exec]: it succeeds exactly if the unwrapped address is above [base]. *)
Lemma push_one sp str s :
  stack_ok sp (pmem s) -> Z.of_nat (length str) < 2^32 ->
  let a := arg_sp sp str in
  if base <=? a then
    exists m', copyout root a (str ++ [0]) s = Done 0 (up_pmem (fun _ => m') s) /\ stack_ok a m' /\
      (forall va, leaf m' T va = leaf (pmem s) T va) /\
      (forall va, user_byte m' T va = if decide (a <= va < a + Z.of_nat (length str) + 1) then (str ++ [0]) !! Z.to_nat (va - a) else user_byte (pmem s) T va)
  else u64 a <? base = true \/ exists m', copyout root (u64 a) (str ++ [0]) s = Done (-1) (up_pmem (fun _ => m') s) /\
      (forall va, leaf m' T va = leaf (pmem s) T va) /\ (forall va, user_byte m' T va = user_byte (pmem s) T va).
Proof.
  intros [HT HU Hsp Hmap] Hlen a. destruct (arg_sp_bounds sp str) as (_ & Hb & Hlo). fold a in Hb, Hlo.
  assert (length (str ++ [0]) = S (length str)) as El by (rewrite length_app; simpl; lia).
  destruct (Z.leb_spec base a) as [Ha|Ha].
  - destruct (copyout_loop_ok root T (length (str ++ [0])) a (str ++ [0]) s) as (r & m' & k & E & HT' & Hlf & Hr & Hby); [done|done|done|lia|lia|].
    destruct Hr as [[-> ->]|(_ & Hk & Hnone)]; [|destruct (Hmap (a + Z.of_nat k)) as [? ?]; [lia|congruence]].
    exists m'. split; [exact E|]. split; [split; [done|by eapply user_inv_leaf|lia|]|split; [done|]].
    + intros va Hva. rewrite (user_addr_leaf (pmem s)) by done. apply Hmap. lia.
    + intros va. rewrite Hby, El. repeat case_decide; lia || done.
  - destruct (decide (a < 0)) as [Hneg|Hpos]; [right|left; rewrite u64_small by (unfold MAXVA in *; lia); lia].
    assert (MAXVA <= u64 a) as Hhigh.
    { assert (u64 a = a + 2^64) as -> by (unfold u64; rewrite <- (Z.mod_add _ 1) by lia; apply Z.mod_small; unfold MAXVA in *; lia).
      unfold MAXVA in *. lia. }
    destruct (copyout_loop_ok root T (length (str ++ [0])) (u64 a) (str ++ [0]) s) as (r & m' & k & E & HT' & Hlf & Hr & Hby); [done|done|done|lia|lia|].
    assert (k = 0%nat) as ->.
    { destruct k as [|k]; [done|]. specialize (Hby (u64 a)). rewrite decide_True, Z.sub_diag in Hby by lia.
      unfold user_byte in Hby. rewrite user_addr_high in Hby by done. by destruct str. }
    exists m'. destruct Hr as [[_ Hr]|(-> & _)]; [rewrite El in Hr; lia|]. split; [exact E|]. split; [done|].
    intros va. rewrite Hby. by rewrite decide_False by lia.
Qed.

Lemma push_args_ok argv : forall sp us s,
  stack_ok sp (pmem s) -> Forall (fun str => Z.of_nat (length str) < 2^32) argv ->
  exists m', push_args root base sp argv us s =
      Done (if args_fit base sp (length us) argv then Some (foldl arg_sp sp argv, us ++ arg_addrs sp argv) else None) (up_pmem (fun _ => m') s) /\
    (forall va, leaf m' T va = leaf (pmem s) T va) /\
    (forall va, va < base \/ sp <= va -> user_byte m' T va = user_byte (pmem s) T va) /\
    (args_fit base sp (length us) argv = true -> forall i a str, arg_addrs sp argv !! i = Some a -> argv !! i = Some str ->
      a mod 16 = 0 /\ base <= a /\ a + Z.of_nat (length str) + 1 <= sp /\
      forall j, 0 <= j <= Z.of_nat (length str) -> user_byte m' T (a + j) = (str ++ [0]) !! Z.to_nat j).
Proof.
  induction argv as [|str argv IH]; intros sp us s Hok Hlen.
  { exists (pmem s). cbn [push_args args_fit arg_addrs foldl]. rewrite app_nil_r. split_and!; [by destruct s|done|done|done]. }
  apply Forall_cons in Hlen as [Hl Hlen]. cbn [push_args args_fit arg_addrs foldl]. rewrite arg_sp_u64.
  destruct (arg_sp_bounds sp str) as (Hal & Hb & _). pose proof (push_one sp str s Hok Hl) as Hone. set (a := arg_sp sp str) in *.
  destruct (Nat.ltb_spec (length us) MAXARG) as [Hn|Hn]; cbn [andb].
  2: { rewrite (proj2 (Z.leb_le _ _)) by lia. exists (pmem s). split_and!; [by destruct s|done|done|done]. }
  rewrite (proj2 (Z.leb_gt _ _)) by lia. cbv zeta in Hone |- *. destruct (Z.leb_spec base a) as [Ha|Ha]; cbn [andb].
  - destruct Hone as (m1 & E & Hok1 & Hlf1 & Hby1). pose proof (so_sp _ _ Hok). rewrite (u64_small a) by (unfold MAXVA in *; lia).
    rewrite (proj2 (Z.ltb_ge _ _)) by lia. unfold bind. rewrite E. cbn [Z.ltb Z.compare].
    destruct (IH a (us ++ [a]) (up_pmem (fun _ => m1) s) Hok1 Hlen) as (m' & E' & Hlf & Hout & Hin).
    rewrite length_app, Nat.add_1_r in E', Hin. rewrite <- app_assoc in E'. exists m'. split; [exact E'|]. split_and!.
    + intros va. by rewrite Hlf, <- Hlf1.
    + intros va Hva. rewrite Hout by lia. cbn [pmem up_pmem]. rewrite Hby1. by rewrite decide_False by lia.
    + intros Hfit [|i] b st; cbn [lookup list_lookup].
      * intros [= <-] [= <-]. split_and!; [done|done|done|]. intros j Hj. rewrite Hout by lia. cbn [pmem up_pmem].
        rewrite Hby1, decide_True by lia. f_equal. lia.
      * intros Hi Hs. destruct (Hin Hfit i b st Hi Hs) as (? & ? & ? & ?). split_and!; [done|done|lia|done].
  - destruct Hone as [Hlt|(m1 & E & Hlf1 & Hby1)].
    + rewrite Hlt. exists (pmem s). split_and!; [by destruct s|done|done|done].
    + destruct (u64 a <? base); [exists (pmem s); split_and!; [by destruct s|done|done|done]|].
      unfold bind. rewrite E. exists m1. split_and!; [done|done|by intros|done].
Qed.

(** C30. Pushing the arguments of a program stays on its stack, for arguments of any number
    and length: it never leaves the page between [base] and [top], and succeeds exactly
    if there are at most [MAXARG] of them and they fit. Then every string is at a
    multiple of 16, in full and NUL terminated, where [ustack] points, and below the
    string before it. *)
Theorem push_args_bounds top argv s :
  stack_ok top (pmem s) -> Forall (fun str => Z.of_nat (length str) < 2^32) argv ->
  exists m', push_args root base top argv [] s =
      Done (if args_fit base top 0 argv then Some (foldl arg_sp top argv, arg_addrs top argv) else None) (up_pmem (fun _ => m') s) /\
    (forall va, va < base \/ top <= va -> user_byte m' T va = user_byte (pmem s) T va) /\
    (args_fit base top 0 argv = true -> forall i a str, arg_addrs top argv !! i = Some a -> argv !! i = Some str ->
      a mod 16 = 0 /\ base <= a /\ a + Z.of_nat (length str) + 1 <= top /\
      (forall b, arg_addrs top argv !! S i = Some b -> b < a) /\
      forall j, 0 <= j <= Z.of_nat (length str) -> user_byte m' T (a + j) = (str ++ [0]) !! Z.to_nat j).
Proof.
  intros Hok Hlen. destruct (push_args_ok argv top [] s Hok Hlen) as (m' & E & _ & Hout & Hin).
  exists m'. split; [exact E|]. split; [done|]. intros Hfit i a str Hi Hs. destruct (Hin Hfit i a str Hi Hs) as (? & ? & ? & ?).
  split_and!; try done. clear -Hi. revert top i Hi. induction argv as [|st argv IH]; intros top [|i] Hi b Hb; simplify_eq/=.
  - destruct argv as [|st' argv]; simplify_eq/=. destruct (arg_sp_bounds (arg_sp top st) st'). lia.
  - by apply (IH (arg_sp top st) i).
Qed.
End push_args.

#[local] Existing Instance demo_layout.
#[local] Existing Instance demo_layout_ok.

Lemma push_args_bounds_witness :
  exists m', push_args (demo_page 1) 0 PGSIZE [chars "echo"; chars "hi"] [] (up_pmem (fun _ => demo_user_mem) boot_kst) =
    Done (Some (4064, [4080; 4064])) (up_pmem (fun _ => m') boot_kst) /\
  user_byte m' demo_table 4080 = Some 101 /\ user_byte m' demo_table 4066 = Some 0.
Proof.
  assert (stack_ok 0 demo_table PGSIZE demo_user_mem) as Hok.
  { split; [apply demo_user_rep|apply demo_user_inv|unfold PGSIZE, MAXVA; lia|]. intros va Hva. rewrite demo_user_addr by done. eauto. }
  destruct (push_args_bounds (demo_page 1) 0 demo_table eq_refl (Z.le_refl 0) PGSIZE [chars "echo"; chars "hi"]
    (up_pmem (fun _ => demo_user_mem) boot_kst) Hok) as (m' & E & _ & Hin); [by repeat constructor|].
  exists m'. split; [exact E|]. specialize (Hin eq_refl).
  destruct (Hin 0%nat 4080 (chars "echo") eq_refl eq_refl) as (_ & _ & _ & _ & H0).
  destruct (Hin 1%nat 4064 (chars "hi") eq_refl eq_refl) as (_ & _ & _ & _ & H1).
  split; [exact (H0 0 ltac:(simpl; lia))|exact (H1 2 ltac:(simpl; lia))].
Defined.
