(* ===== verification/SysArg.v ===== *)
(** * System call arguments

    The first part of [kernel/syscall.c]: fetching integers, addresses and strings
    that the user passed in registers or points to. *)

From S2P Require Import Prelude CString Bytes State Spinlock Proc Kalloc Vm Console Sleeplock Bio Log Fs File ProcLife.

(** The value read at [addr], if it could be. *)
Definition fetchaddr (addr : Z) : M kst (option Z) :=
  let! i := curproc in
  let! p := getp i in
  if (p_sz p <=? addr) || (p_sz p <? u64 (addr + 8)) then ret None
  else
    let! (r, l) := copyin (p_pagetable p) addr 8 in
    ret (if r =? 0 then Some (le_word l) else None).

(** The string, without its NUL; its length is what the C function returns. *)
Definition fetchstr (addr max : Z) : M kst (option (list Z)) :=
  let! i := curproc in
  let! p := getp i in
  let! (r, l) := copyinstr (p_pagetable p) addr max in
  ret (if r <? 0 then None else Some (take (length l - 1) l)).

Definition argraw (n : Z) : M kst Z :=
  let! i := curproc in
  let! t := gettf i in
  match n with
  | 0 => ret (tf_a0 t)
  | 1 => ret (tf_a1 t)
  | 2 => ret (tf_a2 t)
  | 3 => ret (tf_a3 t)
  | 4 => ret (tf_a4 t)
  | 5 => ret (tf_a5 t)
  | _ => panic "argraw"
  end.
Definition argint (n : Z) : M kst Z := let! a := argraw n in ret (i32 a).
Definition argaddr (n : Z) : M kst Z := argraw n.
Definition argstr (n max : Z) : M kst (option (list Z)) := let! a := argaddr n in fetchstr a max.
