(* ===== verification/SysFile.v ===== *)
(** * System calls on files

    [kernel/sysfile.c]. Each system call returns the [uint64] that ends in [a0],
    here an integer before its conversion. *)

From S2P Require Import Prelude CString Bytes Printf State Spinlock Proc Kalloc Vm Pipe Console Sleeplock Virtio Bio Log Fs File ProcLife Exec SysArg.

Definition O_RDONLY : Z := 0.
Definition O_WRONLY : Z := 1.
Definition O_RDWR : Z := 2.
Definition O_CREATE : Z := 0x200.
Definition O_TRUNC : Z := 0x400.

(** The descriptor and its file. *)
Definition argfd (n : Z) : M kst (option (Z * nat)) :=
  let! fd := argint n in
  if (fd <? 0) || (Z.of_nat NOFILE <=? fd) then ret None
  else
    let! i := curproc in
    let! p := getp i in
    match p_ofile p !! Z.to_nat fd with
    | Some (Some f) => ret (Some (fd, f))
    | _ => ret None
    end.

(** The lowest unused descriptor. *)
Definition free_fd {A} (l : list (option A)) : option nat := fst <$> list_find (fun o => o = None) (take NOFILE l).
Definition fdalloc (f : nat) : M kst Z :=
  let! i := curproc in
  let! p := getp i in
  match free_fd (p_ofile p) with
  | Some fd => modp i (up_p_ofile (<[fd := Some f]>)) ;;; ret (Z.of_nat fd)
  | None => ret (-1)
  end.
Definition clear_fd (fd : Z) : M kst unit :=
  let! i := curproc in modp i (up_p_ofile (<[Z.to_nat fd := None]>)).

Section sysfile.
Context `{Layout} `{UartDev} `{BlockDev} `{Env} `{Fuel} `{Indet}.

Definition sys_dup : M kst Z :=
  let! a := argfd 0 in
  match a with
  | None => ret (-1)
  | Some (_, f) =>
      let! fd := fdalloc f in
      if fd <? 0 then ret (-1) else filedup f ;;; ret fd
  end.

Definition sys_read : M kst Z :=
  let! p := argaddr 1 in
  let! n := argint 2 in
  let! a := argfd 0 in
  match a with None => ret (-1) | Some (_, f) => fileread f p n end.

Definition sys_write : M kst Z :=
  let! p := argaddr 1 in
  let! n := argint 2 in
  let! a := argfd 0 in
  match a with None => ret (-1) | Some (_, f) => filewrite f p n end.

Definition sys_close : M kst Z :=
  let! a := argfd 0 in
  match a with
  | None => ret (-1)
  | Some (fd, f) => clear_fd fd ;;; fileclose f ;;; ret 0
  end.

Definition sys_fstat : M kst Z :=
  let! st := argaddr 1 in
  let! a := argfd 0 in
  match a with None => ret (-1) | Some (_, f) => filestat f st end.

(** The label [bad] of [sys_link]. *)
Definition link_bad (ip : nat) : M kst Z :=
  ilock ip ;;;
  modi ip (up_i_nlink (fun n => i16 (n - 1))) ;;;
  iupdate ip ;;;
  iunlockput ip ;;;
  end_op ;;;
  ret (-1).
Definition sys_link : M kst Z :=
  let! old := argstr 0 MAXPATH in
  match old with
  | None => ret (-1)
  | Some old =>
      let! new := argstr 1 MAXPATH in
      match new with
      | None => ret (-1)
      | Some new =>
          begin_op ;;;
          let! r := namei old in
          match r with
          | None => end_op ;;; ret (-1)
          | Some ip =>
              ilock ip ;;;
              let! x := geti ip in
              if i_type x =? T_DIR then iunlockput ip ;;; end_op ;;; ret (-1)
              else
                modi ip (up_i_nlink (fun n => i16 (n + 1))) ;;;
                iupdate ip ;;;
                iunlock ip ;;;
                let! r := nameiparent new in
                match r with
                | None => link_bad ip
                | Some (dp, name) =>
                    ilock dp ;;;
                    let! d := geti dp in
                    let! x := geti ip in
                    let! bad :=
                      (if negb (i_dev d =? i_dev x) then ret true
                       else let! r := dirlink dp name (i_inum x) in ret (r <? 0)) in
                    if bad then iunlockput dp ;;; link_bad ip
                    else
                      iunlockput dp ;;;
                      iput ip ;;;
                      end_op ;;;
                      ret 0
                end
          end
      end
  end.

(** No entry but the first two is in use. *)
Definition isdirempty (dp : nat) : M kst bool :=
  let! x := geti dp in
  let! r := for_find (drop 2 (dir_offsets (i_size x))) (fun off =>
    let! de := read_dirent dp off "isdirempty: readi" in
    ret (if de_inum de =? 0 then None else Some tt)) in
  ret (match r with Some _ => false | None => true end).

(** The label [bad] of [sys_unlink]. *)
Definition unlink_bad (dp : nat) : M kst Z := iunlockput dp ;;; end_op ;;; ret (-1).
Definition dot : list Z := chars ".".
Definition dotdot : list Z := chars "..".
Definition sys_unlink : M kst Z :=
  let! path := argstr 0 MAXPATH in
  match path with
  | None => ret (-1)
  | Some path =>
      begin_op ;;;
      let! r := nameiparent path in
      match r with
      | None => end_op ;;; ret (-1)
      | Some (dp, name) =>
          ilock dp ;;;
          if (namecmp name dot =? 0) || (namecmp name dotdot =? 0) then unlink_bad dp
          else
            let! r := dirlookup dp name in
            match r with
            | None => unlink_bad dp
            | Some (ip, off) =>
                ilock ip ;;;
                let! x := geti ip in
                if i_nlink x <? 1 then panic "unlink: nlink < 1"
                else
                  let! keep :=
                    (if i_type x =? T_DIR then let! e := isdirempty ip in ret (negb e) else ret false) in
                  if keep then iunlockput ip ;;; unlink_bad dp
                  else
                    let! w := writei dp (KernAddr (replicate (Z.to_nat dirent_size) 0)) off dirent_size in
                    if negb (w =? dirent_size) then panic "unlink: writei"
                    else
                      let! x := geti ip in
                      when (i_type x =? T_DIR) (
                        modi dp (up_i_nlink (fun n => i16 (n - 1))) ;;;
                        iupdate dp) ;;;
                      iunlockput dp ;;;
                      modi ip (up_i_nlink (fun n => i16 (n - 1))) ;;;
                      iupdate ip ;;;
                      iunlockput ip ;;;
                      end_op ;;;
                      ret 0
            end
      end
  end.

(** The label [fail] of [create]. *)
Definition create_fail (ip dp : nat) : M kst (option nat) :=
  modi ip (up_i_nlink (fun _ => 0)) ;;;
  iupdate ip ;;;
  iunlockput ip ;;;
  iunlockput dp ;;;
  ret None.
(** The entries [.] and [..] of a new directory; true if one could not be made. *)
Definition make_dots (ip : nat) (inum parent : Z) : M kst bool :=
  let! r := dirlink ip dot inum in
  if r <? 0 then ret true
  else let! r := dirlink ip dotdot parent in ret (r <? 0).
(** The inode, locked. *)
Definition create (path : list Z) (type major minor : Z) : M kst (option nat) :=
  let! r := nameiparent path in
  match r with
  | None => ret None
  | Some (dp, name) =>
      ilock dp ;;;
      let! r := dirlookup dp name in
      match r with
      | Some (ip, _) =>
          iunlockput dp ;;;
          ilock ip ;;;
          let! x := geti ip in
          if (type =? T_FILE) && ((i_type x =? T_FILE) || (i_type x =? T_DEVICE)) then ret (Some ip)
          else iunlockput ip ;;; ret None
      | None =>
          let! d := geti dp in
          let! r := ialloc (i_dev d) type in
          match r with
          | None => iunlockput dp ;;; ret None
          | Some ip =>
              ilock ip ;;;
              modi ip (fun x => up_i_nlink (fun _ => 1) (up_i_minor (fun _ => minor) (up_i_major (fun _ => major) x))) ;;;
              iupdate ip ;;;
              let! x := geti ip in
              let! d := geti dp in
              let! bad := (if type =? T_DIR then make_dots ip (i_inum x) (i_inum d) else ret false) in
              if bad then create_fail ip dp
              else
                let! r := dirlink dp name (i_inum x) in
                if r <? 0 then create_fail ip dp
                else
                  when (type =? T_DIR) (
                    modi dp (up_i_nlink (fun n => i16 (n + 1))) ;;;
                    iupdate dp) ;;;
                  iunlockput dp ;;;
                  ret (Some ip)
          end
      end
  end.

(** The rest of [sys_open], with the inode locked. *)
Definition open_inode (ip : nat) (omode : Z) : M kst Z :=
  let! x := geti ip in
  if (i_type x =? T_DEVICE) && ((i_major x <? 0) || (NDEV <=? i_major x)) then iunlockput ip ;;; end_op ;;; ret (-1)
  else
    let! a := filealloc in
    match a with
    | None => iunlockput ip ;;; end_op ;;; ret (-1)
    | Some f =>
        let! fd := fdalloc f in
        if fd <? 0 then fileclose f ;;; iunlockput ip ;;; end_op ;;; ret (-1)
        else
          let! x := geti ip in
          (if i_type x =? T_DEVICE then
             modf f (fun y => up_f_major (fun _ => i_major x) (up_f_type (fun _ => FD_DEVICE) y))
           else modf f (fun y => up_f_off (fun _ => 0) (up_f_type (fun _ => FD_INODE) y))) ;;;
          modf f (fun y => up_f_writable (fun _ => has_flag omode O_WRONLY || has_flag omode O_RDWR)
            (up_f_readable (fun _ => negb (has_flag omode O_WRONLY)) (up_f_ip (fun _ => Some ip) y))) ;;;
          when (has_flag omode O_TRUNC && (i_type x =? T_FILE)) (itrunc ip) ;;;
          iunlock ip ;;;
          end_op ;;;
          ret fd
    end.
Definition sys_open : M kst Z :=
  let! omode := argint 1 in
  let! path := argstr 0 MAXPATH in
  match path with
  | None => ret (-1)
  | Some path =>
      begin_op ;;;
      if has_flag omode O_CREATE then
        let! r := create path T_FILE 0 0 in
        match r with
        | None => end_op ;;; ret (-1)
        | Some ip => open_inode ip omode
        end
      else
        let! r := namei path in
        match r with
        | None => end_op ;;; ret (-1)
        | Some ip =>
            ilock ip ;;;
            let! x := geti ip in
            if (i_type x =? T_DIR) && negb (omode =? O_RDONLY) then iunlockput ip ;;; end_op ;;; ret (-1)
            else open_inode ip omode
        end
  end.

(** [create] of the path in argument 0, for mkdir and mknod. *)
Definition create_arg (type major minor : Z) : M kst Z :=
  let! path := argstr 0 MAXPATH in
  let! r := match path with None => ret None | Some path => create path type major minor end in
  match r with
  | None => end_op ;;; ret (-1)
  | Some ip => iunlockput ip ;;; end_op ;;; ret 0
  end.
Definition sys_mkdir : M kst Z := begin_op ;;; create_arg T_DIR 0 0.
Definition sys_mknod : M kst Z :=
  begin_op ;;;
  let! major := argint 1 in
  let! minor := argint 2 in
  create_arg T_DEVICE (i16 major) (i16 minor).

Definition sys_chdir : M kst Z :=
  let! i := curproc in
  begin_op ;;;
  let! path := argstr 0 MAXPATH in
  let! r := match path with None => ret None | Some path => namei path end in
  match r with
  | None => end_op ;;; ret (-1)
  | Some ip =>
      ilock ip ;;;
      let! x := geti ip in
      if negb (i_type x =? T_DIR) then iunlockput ip ;;; end_op ;;; ret (-1)
      else
        iunlock ip ;;;
        let! p := getp i in
        let! cwd := must (p_cwd p) in
        iput cwd ;;;
        end_op ;;;
        modp i (up_p_cwd (fun _ => Some ip)) ;;;
        ret 0
  end.

(** The loop of [sys_exec] that copies the arguments into pages: the pages, and the
    strings unless it failed. *)
Fixpoint exec_args (k : nat) (uargv i : Z) (pages : list Z) (strs : list (list Z)) : M kst (list Z * option (list (list Z))) :=
  match k with
  | O => ret (pages, None)
  | S k' =>
      let! a := fetchaddr (u64 (uargv + 8 * i)) in
      match a with
      | None => ret (pages, None)
      | Some uarg =>
          if uarg =? 0 then ret (pages, Some strs)
          else
            let! pg := kalloc in
            if pg =? 0 then ret (pages, None)
            else
              let! s := fetchstr uarg PGSIZE in
              match s with
              | None => ret (pages ++ [pg], None)
              | Some s =>
                  modify (up_pmem (fun m => wr_bytes m pg (s ++ [0]))) ;;;
                  exec_args k' uargv (i + 1) (pages ++ [pg]) (strs ++ [s])
              end
      end
  end.
Definition sys_exec : M kst Z :=
  let! uargv := argaddr 1 in
  let! path := argstr 0 MAXPATH in
  match path with
  | None => ret (-1)
  | Some path =>
      let! (pages, strs) := exec_args MAXARG uargv 0 [] [] in
      let! r := match strs with None => ret (-1) | Some argv => exec path argv end in
      for_each pages kfree ;;;
      ret r
  end.

Definition sys_pipe : M kst Z :=
  let! fdarray := argaddr 0 in
  let! a := pipealloc in
  match a with
  | None => ret (-1)
  | Some (rf, wf) =>
      let! fd0 := fdalloc rf in
      let! fd1 := (if fd0 <? 0 then ret (-1) else fdalloc wf) in
      if (fd0 <? 0) || (fd1 <? 0) then
        when (0 <=? fd0) (clear_fd fd0) ;;;
        fileclose rf ;;;
        fileclose wf ;;;
        ret (-1)
      else
        let! i := curproc in
        let! p := getp i in
        let! r0 := copyout (p_pagetable p) fdarray (le_bytes 4 fd0) in
        let! r1 := (if r0 <? 0 then ret 0 else copyout (p_pagetable p) (u64 (fdarray + 4)) (le_bytes 4 fd1)) in
        if (r0 <? 0) || (r1 <? 0) then
          clear_fd fd0 ;;;
          clear_fd fd1 ;;;
          fileclose rf ;;;
          fileclose wf ;;;
          ret (-1)
        else ret 0
  end.
End sysfile.
