(* ===== verification/FileRefs.v ===== *)
(** * Reference counts of open files

    The count of an entry of the file table is the number of descriptors that refer to
    it, over all processes: [dup], [close] and the copying of descriptors in [fork]
    keep it so. *)

From S2P Require Import Prelude CString Bytes State Spinlock Proc Kalloc Vm Pipe Console Sleeplock Virtio Bio Log Fs File ProcLife Exec SysArg SysFile.

(** The descriptors in a table, and in all tables, that are open on [f]. *)
Definition fds_on (f : nat) (l : list (option nat)) : nat := length (filter (fun o => o = Some f) l).
Definition fd_refs (ps : list proc) (f : nat) : nat := foldr (fun p n => (fds_on f (p_ofile p) + n)%nat) 0%nat ps.

Record files_ok (s : kst) : Prop := {
  fo_len i p : procs s !! i = Some p -> length (p_ofile p) = NOFILE;
  fo_ref f x : ftable s !! f = Some x -> f_ref x = Z.of_nat (fd_refs (procs s) f);
  fo_valid i p k f : procs s !! i = Some p -> p_ofile p !! k = Some (Some f) -> (f < length (ftable s))%nat }.

(** ** Counting *)

Lemma fds_on_cons f o l : fds_on f (o :: l) = ((if bool_decide (o = Some f) then 1 else 0) + fds_on f l)%nat.
Proof. unfold fds_on. rewrite filter_cons. case_decide; case_bool_decide; done. Qed.
(** Opening or closing descriptor [k]. *)
Lemma fds_on_insert l : forall k o o' f, l !! k = Some o ->
  (fds_on f (<[k := o']> l) + (if bool_decide (o = Some f) then 1 else 0) = fds_on f l + (if bool_decide (o' = Some f) then 1 else 0))%nat.
Proof.
  induction l as [|a l IH]; intros [|k] o o' f Hk; simpl in Hk; simplify_eq.
  { change (<[0%nat := o']> (o :: l)) with (o' :: l). rewrite !fds_on_cons. lia. }
  change (<[S k := o']> (a :: l)) with (a :: <[k := o']> l). rewrite !fds_on_cons. specialize (IH k o o' f Hk). lia.
Qed.
Lemma fds_on_elem l : forall k f, l !! k = Some (Some f) -> (1 <= fds_on f l)%nat.
Proof. intros k f Hk. pose proof (fds_on_insert l k _ None f Hk) as E. rewrite bool_decide_true in E by done. simpl in E. lia. Qed.
Lemma fd_refs_alter ps : forall i p g f, ps !! i = Some p ->
  (fd_refs (alter g i ps) f + fds_on f (p_ofile p) = fd_refs ps f + fds_on f (p_ofile (g p)))%nat.
Proof.
  induction ps as [|q ps IH]; intros [|i] p g f Hi; simpl in Hi; simplify_eq.
  { change (alter g 0%nat (p :: ps)) with (g p :: ps). simpl. lia. }
  change (alter g (S i) (q :: ps)) with (q :: alter g i ps). specialize (IH i p g f Hi). simpl. lia.
Qed.
Lemma fd_refs_elem ps i p k f : ps !! i = Some p -> p_ofile p !! k = Some (Some f) -> (1 <= fd_refs ps f)%nat.
Proof.
  intros Hi Hk. pose proof (fd_refs_alter ps i p (up_p_ofile (fun _ => [])) f Hi) as E. pose proof (fds_on_elem _ _ _ Hk).
  change (fds_on f (p_ofile (up_p_ofile (fun _ => []) p))) with 0%nat in E. lia.
Qed.

(** ** [filedup] and [fileclose] of a file that stays open *)

Lemma getf_done i s x : ftable s !! i = Some x -> getf i s = Done x s.
Proof. intros E. unfold getf. mrun. by rewrite E. Qed.
Lemma ftable_locked (s : kst) g :
  FtableLock ∉ held s -> up_held (remove_lock FtableLock) (up_ftable g (up_held (cons FtableLock) s)) = up_ftable g s.
Proof.
  intros Hn. destruct s. unfold up_held, up_ftable. cbn [State.held State.ftable] in *. f_equal. unfold remove_lock. rewrite filter_cons, decide_False by tauto. by apply remove_lock_id.
Qed.
Lemma filedup_done i s x :
  FtableLock ∉ held s -> ftable s !! i = Some x -> 1 <= f_ref x ->
  filedup i s = Done i (up_ftable (alter (up_f_ref (fun r => r + 1)) i) s).
Proof.
  intros Hn Hi Hr. unfold filedup. unfold bind at 1. rewrite acquire_done by done. unfold bind at 1. rewrite (getf_done i _ x) by done.
  rewrite (proj2 (Z.ltb_ge _ _)) by done. unfold modf. unfold bind. rewrite (getf_done i _ x) by done. unfold modify.
  rewrite release_done by (cbn [held up_ftable up_held]; left). by rewrite ftable_locked.
Qed.
Lemma fileclose_shared `{Layout} `{UartDev} `{BlockDev} `{Env} `{Fuel} i s x :
  FtableLock ∉ held s -> ftable s !! i = Some x -> 2 <= f_ref x ->
  fileclose i s = Done tt (up_ftable (alter (up_f_ref (fun r => r - 1)) i) s).
Proof.
  intros Hn Hi Hr. unfold fileclose. unfold bind at 1. rewrite acquire_done by done. unfold bind at 1. rewrite (getf_done i _ x) by done.
  rewrite (proj2 (Z.ltb_ge _ _)) by lia. unfold modf. unfold bind. rewrite (getf_done i _ x) by done. unfold modify.
  rewrite (getf_done i _ (up_f_ref (fun r => r - 1) x)) by (cbn [ftable up_ftable up_held]; by rewrite list_lookup_alter_eq, Hi).
  cbn [f_ref up_f_ref]. rewrite (proj2 (Z.ltb_lt _ _)) by lia. rewrite release_done by (cbn [held up_ftable up_held]; left). by rewrite ftable_locked.
Qed.

(** Another process table and file table that keep the counts. *)
Lemma files_ok_open s i p k f :
  files_ok s -> procs s !! i = Some p -> p_ofile p !! k = Some None -> (f < length (ftable s))%nat ->
  files_ok (up_ftable (alter (up_f_ref (fun r => r + 1)) f) (up_procs (alter (up_p_ofile (<[k := Some f]>)) i) s)).
Proof.
  intros [Hl Hr Hv] Hi Hk Hf. split; cbn [procs ftable up_ftable up_procs].
  - intros j q. rewrite list_lookup_alter. case_decide as E; [subst j|by apply Hl]. rewrite Hi. intros [= <-]. cbn [p_ofile up_p_ofile]. rewrite length_insert. by eapply Hl.
  - intros g x. assert (forall g, fd_refs (alter (up_p_ofile (<[k := Some f]>)) i (procs s)) g = (fd_refs (procs s) g + (if decide (g = f) then 1 else 0))%nat) as Ec.
    { intros g'. pose proof (fd_refs_alter (procs s) i p (up_p_ofile (<[k := Some f]>)) g' Hi) as E. cbn [p_ofile up_p_ofile] in E.
      pose proof (fds_on_insert (p_ofile p) k None (Some f) g' Hk) as E2. rewrite (bool_decide_false (None = Some g')) in E2 by done.
      destruct (decide (g' = f)) as [->|Hne]; [rewrite bool_decide_true in E2 by done|rewrite bool_decide_false in E2 by congruence]; lia. }
    rewrite list_lookup_alter, Ec. case_decide as E; [subst g|].
    + destruct (ftable s !! f) as [y|] eqn:Ef; [|done]. intros [= <-]. cbn [f_ref up_f_ref]. rewrite (Hr f y Ef). rewrite decide_True by done. lia.
    + intros Hg. rewrite decide_False by congruence. rewrite (Hr g x Hg). lia.
  - intros j q k' g. rewrite length_alter, list_lookup_alter. case_decide as E; [subst j|by apply Hv]. rewrite Hi. intros [= <-]. cbn [p_ofile up_p_ofile].
    intros [(_ & [= <-] & _)|[_ Hk']]%list_lookup_insert_Some; [done|by eapply Hv].
Qed.

Lemma alter_undo {A} (f g : A -> A) i (l : list A) x : l !! i = Some x -> g (f x) = x -> alter g i (alter f i l) = l.
Proof.
  intros Hi E. pose proof (lookup_lt_Some _ _ _ Hi). rewrite (alter_as_insert f i l x Hi), (alter_as_insert g i _ (f x)) by (by rewrite list_lookup_insert_eq).
  rewrite list_insert_insert_eq, E. by apply list_insert_id.
Qed.

(** ** [dup] *)

(** The running process is [i], with the descriptors of [p] and the registers [tf]. *)
Record running (s : kst) (i : nat) (p : proc) (tf : trapframe) : Prop := {
  rn_cur : cur s = Some i;
  rn_proc : procs s !! i = Some p;
  rn_tf : tframes s !! p_trapframe p = Some tf;
  rn_lock : FtableLock ∉ held s }.

Lemma curproc_cur s i : cur s = Some i -> curproc s = Done i s.
Proof. intros E. unfold curproc, myproc. mrun. by rewrite E. Qed.
Lemma argint_first s i p tf : running s i p tf -> argint 0 s = Done (i32 (tf_a0 tf)) s.
Proof.
  intros [Hc Hp Ht _]. unfold argint, argraw, gettf. unfold bind. rewrite (curproc_cur _ _ Hc), (getp_done _ _ _ Hp). unfold gets, must. by rewrite Ht.
Qed.
Lemma argfd_done s i p tf fd f :
  running s i p tf -> i32 (tf_a0 tf) = Z.of_nat fd -> length (p_ofile p) = NOFILE -> p_ofile p !! fd = Some (Some f) ->
  argfd 0 s = Done (Some (Z.of_nat fd, f)) s.
Proof.
  intros R Ea Hl Hf. pose proof (lookup_lt_Some _ _ _ Hf). unfold argfd. unfold bind at 1. rewrite (argint_first _ _ _ _ R), Ea.
  rewrite (proj2 (Z.ltb_ge _ _)), (proj2 (Z.leb_gt _ _)) by lia. cbn [orb]. unfold bind. rewrite (curproc_cur _ _ (rn_cur _ _ _ _ R)), (getp_done _ _ _ (rn_proc _ _ _ _ R)).
  by rewrite Nat2Z.id, Hf.
Qed.
(** [fdalloc] takes the lowest descriptor that is not open. *)
Definition lowest_free {A} (l : list (option A)) (fd : nat) : Prop :=
  l !! fd = Some None /\ forall k, (k < fd)%nat -> exists f, l !! k = Some (Some f).
Lemma free_fd_lowest {A} (l : list (option A)) : length l = NOFILE ->
  match free_fd l with Some fd => lowest_free l fd | None => forall k, (k < NOFILE)%nat -> exists f, l !! k = Some (Some f) end.
Proof.
  intros Hl. unfold free_fd. rewrite take_ge by lia. destruct (list_find (fun o => o = None) l) as [[fd o]|] eqn:E; simpl.
  - apply list_find_Some in E as (Hfd & -> & Hlow). split; [done|]. intros k Hk. pose proof (lookup_lt_Some _ _ _ Hfd).
    destruct (lookup_lt_is_Some_2 l k) as [[f|] Hf]; [lia|by exists f|]. by destruct (Hlow k None Hf Hk).
  - apply list_find_None in E. intros k Hk. destruct (lookup_lt_is_Some_2 l k) as [[f|] Hf]; [lia|by exists f|]. by apply (Forall_lookup_1 _ _ _ _ E) in Hf.
Qed.
Lemma fdalloc_done s i p fd f : cur s = Some i -> procs s !! i = Some p -> free_fd (p_ofile p) = Some fd ->
  fdalloc f s = Done (Z.of_nat fd) (up_procs (alter (up_p_ofile (<[fd := Some f]>)) i) s).
Proof.
  intros Hc Hp Hf. unfold fdalloc. unfold bind. rewrite (curproc_cur _ _ Hc), (getp_done _ _ _ Hp), Hf. rewrite modp_done; [done|]. by eapply lookup_lt_Some.
Qed.

(** The state after [dup] of a descriptor that is open on [f]. *)
Definition dupped (i fd f : nat) (s : kst) : kst :=
  up_ftable (alter (up_f_ref (fun r => r + 1)) f) (up_procs (alter (up_p_ofile (<[fd := Some f]>)) i) s).
Lemma sys_dup_done `{Layout} s i p tf old f fd :
  files_ok s -> running s i p tf -> i32 (tf_a0 tf) = Z.of_nat old -> p_ofile p !! old = Some (Some f) -> free_fd (p_ofile p) = Some fd ->
  sys_dup s = Done (Z.of_nat fd) (dupped i fd f s) /\ files_ok (dupped i fd f s).
Proof.
  intros O R Ea Hold Hfd. pose proof R as [Hc Hp Ht Hk]. pose proof (fo_len _ O _ _ Hp) as Hl. pose proof (free_fd_lowest _ Hl) as Hlow. rewrite Hfd in Hlow.
  pose proof (fo_valid _ O _ _ _ _ Hp Hold) as Hv. destruct (lookup_lt_is_Some_2 _ _ Hv) as [x Hx]. pose proof (fd_refs_elem _ _ _ _ _ Hp Hold).
  split; [|by apply (files_ok_open _ _ p); [|done|apply Hlow|]]. unfold sys_dup. unfold bind at 1. rewrite (argfd_done s i p tf old f) by done.
  unfold bind. rewrite (fdalloc_done s i p fd f) by done. rewrite (proj2 (Z.ltb_ge _ _)) by lia.
  rewrite (filedup_done f _ x); [done|done|done|]. rewrite (fo_ref _ O f x Hx). lia.
Qed.

(** [dup] returns the lowest descriptor that is not open, now open on the same file, whose
    reference count still is the number of its descriptors; or -1, changing nothing, if
    all descriptors are open. *)
Lemma sys_dup_lowest `{Layout} s i p tf old f :
  files_ok s -> running s i p tf -> i32 (tf_a0 tf) = Z.of_nat old -> p_ofile p !! old = Some (Some f) ->
  (exists fd s', sys_dup s = Done (Z.of_nat fd) s' /\ lowest_free (p_ofile p) fd /\ files_ok s' /\
     procs s' = alter (up_p_ofile (<[fd := Some f]>)) i (procs s)) \/
  (sys_dup s = Done (-1) s /\ forall k, (k < NOFILE)%nat -> exists g, p_ofile p !! k = Some (Some g)).
Proof.
  intros O R Ea Hold. pose proof (fo_len _ O _ _ (rn_proc _ _ _ _ R)) as Hl. pose proof (free_fd_lowest _ Hl) as Hlow.
  destruct (free_fd (p_ofile p)) as [fd|] eqn:Hfd.
  - left. destruct (sys_dup_done s i p tf old f fd O R Ea Hold Hfd) as [E O']. by exists fd, (dupped i fd f s).
  - right. split; [|done]. unfold sys_dup. unfold bind. rewrite (argfd_done s i p tf old f) by done. unfold fdalloc, bind.
    by rewrite (curproc_cur _ _ (rn_cur _ _ _ _ R)), (getp_done _ _ _ (rn_proc _ _ _ _ R)), Hfd.
Qed.

(** Closing a descriptor of a file that has others. *)
Lemma sys_close_shared `{Layout} `{UartDev} `{BlockDev} `{Env} `{Fuel} s i p tf fd f x :
  running s i p tf -> length (p_ofile p) = NOFILE -> i32 (tf_a0 tf) = Z.of_nat fd -> p_ofile p !! fd = Some (Some f) -> ftable s !! f = Some x -> 2 <= f_ref x ->
  sys_close s = Done 0 (up_ftable (alter (up_f_ref (fun r => r - 1)) f) (up_procs (alter (up_p_ofile (<[fd := None]>)) i) s)).
Proof.
  intros R Hl Ea Hf Hx Hr. unfold sys_close. unfold bind at 1. rewrite (argfd_done s i p tf fd f) by done. unfold clear_fd, bind.
  rewrite (curproc_cur _ _ (rn_cur _ _ _ _ R)), modp_done by (eapply lookup_lt_Some, R). rewrite Nat2Z.id.
  rewrite (fileclose_shared f _ x); [done|apply R|done|done].
Qed.

(** [close] of what [dup] returned undoes it, in the descriptors and in the file table. *)
Lemma dup_close `{Layout} `{UartDev} `{BlockDev} `{Env} `{Fuel} s i p tf old f fd s' tf' :
  files_ok s -> running s i p tf -> i32 (tf_a0 tf) = Z.of_nat old -> p_ofile p !! old = Some (Some f) -> sys_dup s = Done (Z.of_nat fd) s' ->
  i32 (tf_a0 tf') = Z.of_nat fd ->
  exists s'', sys_close (up_tframes (<[p_trapframe p := tf']>) s') = Done 0 s'' /\ ftable s'' = ftable s /\ procs s'' = procs s.
Proof.
  intros O R Ea Hold E Ea'. pose proof R as [Hc Hp Ht Hk]. pose proof (fo_len _ O _ _ Hp) as Hl. pose proof (free_fd_lowest _ Hl) as Hlow.
  destruct (free_fd (p_ofile p)) as [fd1|] eqn:Hfd.
  2: { exfalso. unfold sys_dup, bind in E. rewrite (argfd_done s i p tf old f) in E by done. unfold fdalloc, bind in E. rewrite (curproc_cur _ _ Hc), (getp_done _ _ _ Hp), Hfd in E. injection E. lia. }
  destruct (sys_dup_done s i p tf old f fd1 O R Ea Hold Hfd) as [E1 _]. rewrite E1 in E. injection E as Efd <-. apply Nat2Z.inj in Efd as ->.
  destruct Hlow as [Hnone _]. pose proof (lookup_lt_Some _ _ _ Hnone) as Hlt. pose proof (fo_valid _ O _ _ _ _ Hp Hold) as Hv.
  destruct (lookup_lt_is_Some_2 _ _ Hv) as [x Hx]. pose proof (fd_refs_elem _ _ _ _ _ Hp Hold) as Hc1. pose proof (fo_ref _ O f x Hx) as Hr.
  set (p' := up_p_ofile (<[fd := Some f]>) p). set (s1 := up_tframes (<[p_trapframe p := tf']>) (dupped i fd f s)).
  assert (procs s1 !! i = Some p') as Hp1 by (cbn; by rewrite list_lookup_alter_eq, Hp).
  eexists. split; [apply (sys_close_shared s1 i p' tf' fd f (up_f_ref (fun r => r + 1) x))|split].
  - split; [done|done|cbn; by rewrite lookup_insert_eq|done].
  - cbn. by rewrite length_insert.
  - done.
  - cbn. by rewrite list_lookup_insert_eq.
  - cbn. by rewrite list_lookup_alter_eq, Hx.
  - cbn. lia.
  - cbn. apply (alter_undo _ _ _ _ _ Hx). destruct x. unfold up_f_ref. cbn. by rewrite Z.add_simpl_r.
  - cbn. apply (alter_undo _ _ _ _ _ Hp). destruct p. unfold up_p_ofile. cbn in *. f_equal. rewrite list_insert_insert_eq. by apply list_insert_id.
Qed.

(** ** [fork] *)

(** Only the process table and the file table differ. *)
Definition files_step (s s' : kst) : Prop := exists g h, s' = up_ftable g (up_procs h s).
Lemma files_step_trans s s1 s2 : files_step s s1 -> files_step s1 s2 -> files_step s s2.
Proof. intros (g & h & ->) (g' & h' & ->). exists (fun l => g' (g l)), (fun l => h' (h l)). by destruct s. Qed.

(** The first descriptors of the child are [pre], those of [fs] follow. *)
Lemma dup_files_ok np fs : forall s q pre,
  files_ok s -> FtableLock ∉ held s -> procs s !! np = Some q -> p_ofile q = pre ++ replicate (length fs) None ->
  (forall f, Some f ∈ fs -> exists j p n, procs s !! j = Some p /\ j <> np /\ p_ofile p !! n = Some (Some f)) ->
  exists s', dup_files np (length pre) fs s = Done tt s' /\ files_ok s' /\ files_step s s' /\
    procs s' = alter (up_p_ofile (fun _ => pre ++ fs)) np (procs s).
Proof.
  induction fs as [|o fs IH]; intros s q pre O Hk Hq Eq Hold; simpl in *.
  - exists s. split_and!; [done|done|exists id, id; by destruct s|]. rewrite (alter_as_insert _ _ _ _ Hq), list_insert_id; [done|]. rewrite Hq. f_equal.
    destruct q. unfold up_p_ofile. cbn in *. by rewrite Eq.
  - assert (pre ++ o :: fs = (pre ++ [o]) ++ fs) as El by by rewrite <- app_assoc. rewrite El. destruct o as [f|].
    + destruct (Hold f) as (j & p & n & Hj & Hne & Hn); [left|]. pose proof (fo_valid _ O _ _ _ _ Hj Hn) as Hv. destruct (lookup_lt_is_Some_2 _ _ Hv) as [x Hx].
      pose proof (fd_refs_elem _ _ _ _ _ Hj Hn). pose proof (fo_ref _ O f x Hx). unfold bind. rewrite (filedup_done f s x) by (done || lia).
      rewrite modp_done by (cbn; by eapply lookup_lt_Some). set (s1 := up_procs _ _).
      assert (s1 = dupped np (length pre) f s) as Es by (unfold s1, dupped; by destruct s).
      assert (p_ofile q !! length pre = Some None) as Hnone by (rewrite Eq; by rewrite lookup_app_r, Nat.sub_diag).
      assert (files_ok s1) as O1 by (rewrite Es; by apply (files_ok_open _ _ q)).
      assert (procs s1 = alter (up_p_ofile (<[length pre := Some f]>)) np (procs s)) as Ep by (rewrite Es; by destruct s).
      set (q1 := up_p_ofile (<[length pre := Some f]>) q). assert (procs s1 !! np = Some q1) as Hq1 by by rewrite Ep, list_lookup_alter_eq, Hq.
      destruct (IH s1 q1 (pre ++ [Some f])) as (s' & E & O' & S' & Ep').
      * done.
      * by rewrite Es.
      * done.
      * cbn. rewrite Eq. rewrite insert_app_r_alt, Nat.sub_diag by lia. cbn. by rewrite <- app_assoc.
      * intros g Hg. destruct (Hold g) as (j' & p' & n' & Hj' & Hne' & Hn'); [by right|]. exists j', p', n'. rewrite Ep, list_lookup_alter_ne by done. done.
      * rewrite length_app in E. simpl in E. rewrite Nat.add_1_r in E. exists s'. split_and!; [done|done|eapply files_step_trans; [|exact S']; rewrite Es; by eexists _, _|].
        rewrite Ep', Ep. rewrite !(alter_as_insert _ np (procs s) q Hq). rewrite (alter_as_insert _ _ _ q1) by (apply list_lookup_insert_eq; by eapply lookup_lt_Some).
        by rewrite list_insert_insert_eq.
    + destruct (IH s q (pre ++ [None])) as (s' & E & O' & S' & Ep'); [done|done|done|by rewrite Eq, <- app_assoc| |].
      * intros f Hf. apply Hold. by right.
      * rewrite length_app in E. simpl in E. rewrite Nat.add_1_r in E. by exists s'.
Qed.

(** C27. What [fork] does with open files: the new process has the descriptors of its parent,
    open on the same entries of the file table, whose counts are again the number of
    descriptors. *)
Theorem fork_shares_files s i p np q :
  files_ok s -> FtableLock ∉ held s -> procs s !! i = Some p -> procs s !! np = Some q -> i <> np -> p_ofile q = replicate NOFILE None ->
  exists s', dup_files np 0 (p_ofile p) s = Done tt s' /\ files_ok s' /\ files_step s s' /\
    procs s' = alter (up_p_ofile (fun _ => p_ofile p)) np (procs s).
Proof.
  intros O Hk Hp Hq Hne Eq. pose proof (fo_len _ O _ _ Hp) as Hl. apply (dup_files_ok np (p_ofile p) s q []); [done|done|done|by rewrite Hl|].
  intros f (n & Hn)%list_elem_of_lookup. by exists i, p, n.
Qed.

(** ** A process with one open file *)

#[local] Existing Instance demo_layout.
#[local] Existing Instance demo_disk.
#[local] Existing Instance demo_disk_env.
#[local] Instance demo_uart_files : UartDev := fun _ => true.
#[local] Instance demo_fuel_files : Fuel := 1%nat.

Definition demo_opener : proc := up_p_trapframe (fun _ => 4096) (up_p_ofile (<[0%nat := Some 7%nat]>) (set_state RUNNING proc0)).
Definition demo_open : kst :=
  up_tframes (fun _ => {[4096 := trapframe0]}) (up_ftable (<[7%nat := mk_file FD_INODE 1 true false 0 (Some 3%nat) 0 0]>)
    (up_procs (<[0%nat := demo_opener]>) demo_kst)).
Lemma demo_open_ok : files_ok demo_open.
Proof.
  split.
  - assert (Forall (fun p => length (p_ofile p) = NOFILE) (procs demo_open)) as F by (apply (bool_decide_unpack _); vm_compute; exact I).
    intros i p Hp. by apply (Forall_lookup_1 _ _ _ _ F Hp).
  - assert (Forall (fun '(f, x) => f_ref x = Z.of_nat (fd_refs (procs demo_open) f)) (imap pair (ftable demo_open))) as F by (apply (bool_decide_unpack _); vm_compute; exact I).
    intros f x Hx. apply (Forall_lookup_1 _ _ f (f, x) F). by rewrite list_lookup_imap, Hx.
  - assert (Forall (fun p => Forall (fun o => default 0%nat o < 100)%nat (p_ofile p)) (procs demo_open)) as F by (apply (bool_decide_unpack _); vm_compute; exact I).
    intros i p k f Hp Hk. pose proof (Forall_lookup_1 _ _ _ _ F Hp) as F2. simpl in F2. apply (Forall_lookup_1 _ _ _ _ F2 Hk).
Qed.
Lemma demo_running : running demo_open 0 demo_opener trapframe0.
Proof. split; [reflexivity|reflexivity|reflexivity|apply (bool_decide_unpack _); vm_compute; exact I]. Qed.

Lemma sys_dup_lowest_witness :
  exists fd s', sys_dup demo_open = Done (Z.of_nat fd) s' /\ lowest_free (p_ofile demo_opener) fd /\ files_ok s'.
Proof.
  destruct (sys_dup_lowest demo_open 0 demo_opener trapframe0 0 7 demo_open_ok demo_running eq_refl eq_refl) as [(fd & s' & E & Hl & O & _)|[_ Hall]].
  - exists fd, s'. split; [exact E|]. split; [exact Hl|exact O].
  - exfalso. destruct (Hall 1%nat) as [g Hg]; [apply (bool_decide_unpack _); vm_compute; exact I|]. vm_compute in Hg. discriminate.
Defined.
Lemma dup_close_witness :
  exists s' s'', sys_dup demo_open = Done 1 s' /\
    sys_close (up_tframes (<[4096 := up_tf_a0 (fun _ => 1) trapframe0]>) s') = Done 0 s'' /\ ftable s'' = ftable demo_open.
Proof.
  destruct (sys_dup_done demo_open 0 demo_opener trapframe0 0 7 1 demo_open_ok demo_running eq_refl eq_refl eq_refl) as [E _].
  destruct (dup_close demo_open 0 demo_opener trapframe0 0 7 1 _ (up_tf_a0 (fun _ => 1) trapframe0) demo_open_ok demo_running eq_refl eq_refl E eq_refl) as (s'' & E2 & Hf & _).
  exists (dupped 0 1 7 demo_open), s''. split; [exact E|]. split; [exact E2|exact Hf].
Defined.
Lemma fork_shares_files_witness :
  exists s', dup_files 5 0 (p_ofile demo_opener) demo_open = Done tt s' /\ files_ok s' /\
    procs s' = alter (up_p_ofile (fun _ => p_ofile demo_opener)) 5%nat (procs demo_open).
Proof.
  destruct (fork_shares_files demo_open 0 demo_opener 5 proc0 demo_open_ok) as (s' & E & O & _ & Hp).
  - apply (bool_decide_unpack _). vm_compute. exact I.
  - reflexivity.
  - reflexivity.
  - apply (bool_decide_unpack _). vm_compute. exact I.
  - reflexivity.
  - exists s'. split; [exact E|]. split; [exact O|exact Hp].
Defined.
