(* ===== verification/Syscall.v ===== *)
(** * System calls

    [kernel/sysproc.c], and the dispatcher with the tracing of [kernel/syscall.c]. *)

From S2P Require Import Prelude CString Bytes Printf State Spinlock Proc Kalloc Vm Pipe Console Sleeplock Virtio Bio Log Fs File ProcLife Exec SysArg SysFile.

Section sysproc.
Context `{Layout} `{Symbols} (pol : policy) `{UartDev} `{BlockDev} `{Env} `{Fuel} `{Indet}.

Definition sys_exit : M kst Z :=
  let! n := argint 0 in exit n ;;; ret 0.

Definition sys_getpid : M kst Z := mypid.

Definition sys_fork : M kst Z := fork pol.

Definition sys_wait : M kst Z := let! p := argaddr 0 in wait p.

(** [wtime] and [rtime] are indeterminate unless [waitx] assigned them. *)
Definition sys_waitx : M kst Z :=
  let! addr := argaddr 0 in
  let! addr1 := argaddr 1 in
  let! addr2 := argaddr 2 in
  let! (r, times) := waitx addr in
  let wtime := match times with Some (w, _) => le_bytes 4 w | None => indet 4 end in
  let rtime := match times with Some (_, t) => le_bytes 4 t | None => indet 4 end in
  let! i := curproc in
  let! p := getp i in
  let! c := copyout (p_pagetable p) addr1 wtime in
  if c <? 0 then ret (-1)
  else
    let! c := copyout (p_pagetable p) addr2 rtime in
    if c <? 0 then ret (-1) else ret r.

Definition sys_sbrk : M kst Z :=
  let! n := argint 0 in
  let! i := curproc in
  let! p := getp i in
  let addr := p_sz p in
  let! r := growproc n in
  ret (if r <? 0 then -1 else addr).

(** The comparison of [ticks - ticks0] with [n] is unsigned. *)
Fixpoint sys_sleep_loop (k : nat) (n ticks0 : Z) : M kst Z :=
  match k with
  | O => nofuel
  | S k' =>
      let! t := gets ticks in
      if u32 (t - ticks0) <? u32 n then
        let! i := curproc in
        let! kd := killed i in
        if negb (kd =? 0) then release TicksLock ;;; ret (-1)
        else sleep ChanTicks TicksLock ;;; sys_sleep_loop k' n ticks0
      else release TicksLock ;;; ret 0
  end.
Definition sys_sleep : M kst Z :=
  let! n := argint 0 in
  acquire TicksLock ;;;
  let! ticks0 := gets ticks in
  sys_sleep_loop fuel n ticks0.

Definition sys_kill : M kst Z := let! pid := argint 0 in kill pid.

Definition sys_uptime : M kst Z :=
  acquire TicksLock ;;;
  let! xticks := gets ticks in
  release TicksLock ;;;
  ret xticks.

Definition sys_trace : M kst Z :=
  let! m := argint 0 in
  let! i := curproc in
  modp i (up_p_trace_mask (fun _ => m)) ;;;
  ret 0.

Definition sys_set_priority : M kst Z :=
  let! priority := argint 0 in
  let! pid := argint 1 in
  set_priority pol priority pid.

(** ** The dispatcher *)

(** [syscalls[num]] *)
Definition syscall_table (num : Z) : option (M kst Z) :=
  match num with
  | 1 => Some sys_fork | 2 => Some sys_exit | 3 => Some sys_wait | 4 => Some sys_pipe
  | 5 => Some sys_read | 6 => Some sys_kill | 7 => Some sys_exec | 8 => Some sys_fstat
  | 9 => Some sys_chdir | 10 => Some sys_dup | 11 => Some sys_getpid | 12 => Some sys_sbrk
  | 13 => Some sys_sleep | 14 => Some sys_uptime | 15 => Some sys_open | 16 => Some sys_write
  | 17 => Some sys_mknod | 18 => Some sys_unlink | 19 => Some sys_link | 20 => Some sys_mkdir
  | 21 => Some sys_close | 22 => Some sys_trace | 23 => Some sys_set_priority | 24 => Some sys_waitx
  | _ => None
  end.

Definition syscall_names : list (list Z) :=
  chars <$> ["none"; "fork"; "exit"; "wait"; "pipe"; "read"; "kill"; "exec";
    "fstat"; "chdir"; "dup"; "getpid"; "sbrk"; "sleep"; "uptime"; "open";
    "write"; "mknod"; "unlink"; "link"; "mkdir"; "close"; "trace"; "waitx";
    "set_priority"]%string.
Definition syscall_argc : list Z :=
  [0; 0; 1; 1; 1; 3; 1; 2; 2; 1; 1; 0; 1; 1; 0; 2; 3; 3; 1; 2; 1; 1; 0; 0; 0].

(** The trace line. Shifting by a negative number or by more than 31 is undefined, and
    so is an entry past the end of the tables. *)
Definition trace (num : Z) : M kst unit :=
  let! i := curproc in
  let! p := getp i in
  if (num <? 0) || (31 <? num) then undef
  else
    when (negb (Z.shiftr (p_trace_mask p) num =? 0)) (
      let! name := must (syscall_names !! Z.to_nat num) in
      kprintf (chars "%d: syscall %s (") [AInt (p_pid p); AStr (Some name)] ;;;
      let! argc := must (syscall_argc !! Z.to_nat num) in
      for_each (seqZ 0 argc) (fun k =>
        let! a := argint k in
        kprintf (chars "%d ") [AInt a]) ;;;
      let! t := gettf i in
      kprintf (chars ") -> %d" ++ [10]) [AInt (i32 (tf_a0 t))]).

Definition syscall : M kst unit :=
  let! i := curproc in
  let! t := gettf i in
  let num := i32 (tf_a7 t) in
  match syscall_table num with
  | Some call =>
      let! r := call in
      modtf i (up_tf_a0 (fun _ => u64 r))
  | None =>
      let! p := getp i in
      kprintf (chars "%d %s: unknown sys call %d" ++ [10]) [AInt (p_pid p); AStr (Some (p_name p)); AInt num] ;;;
      modtf i (up_tf_a0 (fun _ => u64 (-1)))
  end ;;;
  trace num.
End sysproc.
