(* ===== verification/Tracing.v ===== *)
(** * The strace output

    Which system calls [syscall] of [kernel/syscall.c] traces, and what it prints. *)

From S2P Require Import Prelude CString Bytes Printf State Spinlock Proc Kalloc Vm Pipe Console Sleeplock Virtio Bio Log Fs File ProcLife Exec SysArg SysFile Syscall.

(** ** Text on the console *)

Lemma up_kout_app a b s : up_kout (app b) (up_kout (app a) s) = up_kout (app (b ++ a)) s.
Proof. unfold up_kout. cbn [kout]. by rewrite app_assoc. Qed.
Lemma for_each_consputc l : forall s, Forall is_byte l -> for_each l consputc s = Done tt (up_kout (app (reverse l)) s).
Proof.
  induction l as [|c l IH]; intros s Hl; cbn [for_each]; [by destruct s|]. apply Forall_cons in Hl as [Hc Hl].
  unfold bind. unfold consputc. rewrite (proj2 (Z.eqb_neq c BACKSPACE)) by (unfold is_byte, BACKSPACE in *; lia).
  unfold uartputc_sync, write_thr, modify. rewrite IH by done. f_equal. unfold up_kout. simpl. f_equal.
  rewrite reverse_cons, <- app_assoc. simpl. by rewrite u8_small by done.
Qed.
Lemma kprintf_text fmt ap out s :
  printf fmt ap = Some out -> Forall is_byte out -> PrLock ∉ held s -> kprintf fmt ap s = Done tt (up_kout (app (reverse out)) s).
Proof.
  intros E Hb Hn. unfold kprintf. unfold bind at 1. rewrite acquire_done by done. rewrite E.
  unfold bind at 1. cbn [must]. unfold ret at 1. unfold bind at 1. rewrite for_each_consputc by done.
  rewrite release_done by (simpl; set_solver). f_equal. unfold up_held, up_kout; simpl. by rewrite remove_lock_cons.
Qed.
Lemma printint_bytes z : Forall is_byte (printint z 10 true).
Proof.
  unfold printint. apply Forall_reverse. assert (forall f x, Forall is_byte (digits_loop f digit_lower 10 x)) as Hd.
  { induction f as [|f IH]; intros x; simpl; [done|]. constructor.
    - unfold is_byte, digit_lower. destruct (Z.ltb_spec (x mod 10) 10); zlia.
    - by destruct (x / 10 =? 0). }
  destruct (true && (z <? 0)); [apply Forall_app; split; [done|]|done]. constructor; [unfold is_byte; lia|done].
Qed.

(** ** The trace line *)

Definition tf_args (t : trapframe) : list Z := [tf_a0 t; tf_a1 t; tf_a2 t; tf_a3 t; tf_a4 t; tf_a5 t].
Definition trace_line (pid : Z) (name : list Z) (args : list Z) (res : Z) : list Z :=
  (printint (i32 pid) 10 true ++ chars ": syscall " ++ name ++ chars " (") ++
  concat ((fun a => printint (i32 a) 10 true ++ [32]) <$> args) ++
  (chars ") -> " ++ printint (i32 res) 10 true ++ [10]).

Lemma chars_bytes str : Forall is_byte (chars str).
Proof.
  unfold chars. apply Forall_map, Forall_forall. intros c _. unfold is_byte. pose proof (Ascii.N_ascii_bounded c). lia.
Qed.
Lemma i32_i32 z : i32 (i32 z) = i32 z.
Proof. word. Qed.

Section trace.
Context `{UartDev} `{BlockDev} `{Env} `{Fuel}.
Variables (i : nat) (p : proc) (t : trapframe).

Record running (s : kst) : Prop := {
  rn_cur : cur s = Some i;
  rn_proc : procs s !! i = Some p;
  rn_tf : tframes s !! p_trapframe p = Some t;
  rn_lock : PrLock ∉ held s }.
Lemma running_kout f s : running s -> running (up_kout f s).
Proof. intros []. by split. Qed.
Lemma curproc_done s : running s -> curproc s = Done i s.
Proof. intros R. unfold curproc, myproc. unfold bind, gets. rewrite (rn_cur _ R). done. Qed.
Lemma gettf_done s : running s -> gettf i s = Done t s.
Proof. intros R. unfold gettf, bind, getp, gets. rewrite (rn_proc _ R), (rn_tf _ R). done. Qed.
Lemma argint_done n a s : running s -> tf_args t !! Z.to_nat n = Some a -> 0 <= n -> argint n s = Done (i32 a) s.
Proof.
  intros R Ha Hn. assert (n = 0 \/ n = 1 \/ n = 2 \/ n = 3 \/ n = 4 \/ n = 5) as Hc.
  { apply lookup_lt_Some in Ha. simpl in Ha. lia. }
  unfold argint, argraw. unfold bind. rewrite curproc_done, gettf_done by done. destruct Hc as [->|[->|[->|[->|[->| ->]]]]]; by injection Ha as <-.
Qed.
Lemma trace_args_done n : forall k s, running s -> 0 <= k -> k + Z.of_nat n <= 6 ->
  for_each (seqZ k (Z.of_nat n)) (fun j => let! a := argint j in kprintf (chars "%d ") [AInt a]) s =
  Done tt (up_kout (app (reverse (concat ((fun a => printint (i32 a) 10 true ++ [32]) <$> take n (drop (Z.to_nat k) (tf_args t)))))) s).
Proof.
  induction n as [|n IH]; intros k s R Hk Hn; [by destruct s|]. rewrite seqZ_cons by lia. cbn [for_each].
  destruct (lookup_lt_is_Some_2 (tf_args t) (Z.to_nat k)) as [a Ha]; [simpl; lia|].
  unfold bind. rewrite (argint_done k a) by done.
  rewrite (kprintf_text _ _ (printint (i32 a) 10 true ++ [32])); [| |apply Forall_app; split; [apply printint_bytes|apply (chars_bytes " ")]|apply R].
  2: { rewrite <- i32_i32 at 2. reflexivity. }
  replace (Z.pred (Z.of_nat (S n))) with (Z.of_nat n) by lia. rewrite <- Z.add_1_r. rewrite IH by (try apply running_kout; done || lia).
  f_equal. rewrite (drop_S _ a (Z.to_nat k)) by done. replace (Z.to_nat (k + 1)) with (S (Z.to_nat k)) by lia. cbn [take fmap list_fmap concat].
  by rewrite up_kout_app, <- reverse_app.
Qed.

Lemma trace_done num name argc s :
  running s -> 0 <= num <= 31 -> syscall_names !! Z.to_nat num = Some name -> syscall_argc !! Z.to_nat num = Some argc ->
  Forall is_byte name -> 0 <= argc <= 6 ->
  trace num s = Done tt (if Z.shiftr (p_trace_mask p) num =? 0 then s
    else up_kout (app (reverse (trace_line (p_pid p) name (take (Z.to_nat argc) (tf_args t)) (tf_a0 t)))) s).
Proof.
  intros R Hn Hname Hargc Hb Ha. unfold trace. unfold bind at 1. rewrite curproc_done by done. unfold bind at 1, getp. rewrite (rn_proc _ R).
  assert ((num <? 0) || (31 <? num) = false) as -> by lia. destruct (Z.shiftr (p_trace_mask p) num =? 0); cbn [negb when]; [done|].
  rewrite Hname, Hargc. unfold bind at 1. cbn [must]. unfold ret at 1. unfold bind at 1.
  rewrite (kprintf_text _ _ (printint (i32 (p_pid p)) 10 true ++ chars ": syscall " ++ name ++ chars " (")); [|reflexivity| |apply R].
  2: { repeat apply Forall_app_2; try apply chars_bytes; [apply printint_bytes|done]. }
  unfold bind at 1. cbn [must]. unfold ret at 1. unfold bind at 1. rewrite <- (Z2Nat.id argc) at 1 by lia.
  rewrite trace_args_done by (try apply running_kout; done || lia). unfold bind at 1. rewrite gettf_done by (do 2 apply running_kout; done).
  rewrite (kprintf_text _ _ (chars ") -> " ++ printint (i32 (tf_a0 t)) 10 true ++ [10])); [| | |apply R].
  - by rewrite !up_kout_app, <- !reverse_app.
  - rewrite <- i32_i32 at 2. reflexivity.
  - repeat apply Forall_app_2; [apply chars_bytes|apply printint_bytes|]. constructor; [unfold is_byte; lia|done].
Qed.

Lemma shiftr_zero m n : 0 <= m -> 0 <= n -> (Z.shiftr m n =? 0) = (m <? 2^n).
Proof.
  intros Hm Hn. rewrite Z.shiftr_div_pow2 by done. pose proof (Z.pow_pos_nonneg 2 n).
  destruct (Z.ltb_spec m (2^n)); [rewrite Z.div_small by lia; done|].
  apply Z.eqb_neq. pose proof (Z.div_str_pos m (2^n)). lia.
Qed.

(** C37. The trace test looks at the size of the mask and not at the bit of the call: call
    [num] is traced exactly if the mask is at least [2^num], so that asking for one
    call also traces every call with a smaller number. The line shows the result in
    the place of the first argument. *)
Theorem trace_below_highest num s :
  running s -> 0 <= num <= 24 -> 0 <= p_trace_mask p ->
  exists name argc, syscall_names !! Z.to_nat num = Some name /\ syscall_argc !! Z.to_nat num = Some argc /\
    trace num s = Done tt (if decide (2^num <= p_trace_mask p)
      then up_kout (app (reverse (trace_line (p_pid p) name (take (Z.to_nat argc) (tf_args t)) (tf_a0 t)))) s else s).
Proof.
  intros R Hn Hm.
  destruct (lookup_lt_is_Some_2 syscall_names (Z.to_nat num)) as [name Hname]; [change (length syscall_names) with 25%nat; lia|].
  destruct (lookup_lt_is_Some_2 syscall_argc (Z.to_nat num)) as [argc Hargc]; [simpl; lia|]. exists name, argc. split_and!; [done|done|].
  rewrite (trace_done num name argc) by (done || lia
    || (apply (Forall_lookup_1 _ syscall_names _ _) with (2 := Hname); apply Forall_fmap, Forall_forall; intros; apply chars_bytes)
    || (apply (Forall_lookup_1 (fun a => 0 <= a <= 6) syscall_argc _ _) with (2 := Hargc); repeat (constructor; [lia|]); constructor)).
  rewrite shiftr_zero by lia. destruct (Z.ltb_spec (p_trace_mask p) (2^num)); case_decide; lia || done.
Qed.
End trace.

(** Process 3 asks to trace [read] alone, with the mask [1 << SYS_read]; its [fork], which
    returned 4, is traced. *)
Definition demo_traced : proc := up_p_trace_mask (fun _ => 32) (up_p_pid (fun _ => 3) proc0).
Definition demo_trace_kst : kst :=
  up_cur (fun _ => Some 0%nat) (up_tframes (<[p_trapframe demo_traced := up_tf_a0 (fun _ => 4) junk_tf]>)
    (up_procs (<[0%nat := demo_traced]>) boot_kst)).
Lemma trace_below_highest_witness :
  Z.testbit (p_trace_mask demo_traced) 1 = false /\
  trace 1 demo_trace_kst = Done tt (up_kout (app (reverse (chars "3: syscall fork () -> 4" ++ [10]))) demo_trace_kst).
Proof.
  split; [reflexivity|].
  assert (running 0 demo_traced (up_tf_a0 (fun _ => 4) junk_tf) demo_trace_kst) as R.
  { split; [reflexivity|reflexivity|apply lookup_insert_eq|apply (bool_decide_unpack _); vm_compute; exact I]. }
  destruct (trace_below_highest 0 demo_traced (up_tf_a0 (fun _ => 4) junk_tf) 1 demo_trace_kst R ltac:(lia) ltac:(simpl; lia))
    as (name & argc & [= <-] & [= <-] & E). exact E.
Defined.
