(* ===== verification/Trap.v ===== *)
(** * Traps

    [kernel/trap.c] and [forkret] of [kernel/proc.c]. The control
    registers of the hart at the time of the trap are the record [regs]; what the
    interrupt controller and the devices report is the class [Machine]. *)

From S2P Require Import Prelude CString Bytes Printf State Spinlock Proc Kalloc Vm Pipe Console Sleeplock Virtio Bio Log Fs File ProcLife Exec SysArg SysFile Syscall.

Definition SSTATUS_SPP : Z := 2^8.
Definition SSTATUS_SPIE : Z := 2^5.
Definition SSTATUS_SIE : Z := 2^1.

(** The registers a trap handler reads. *)
Record regs : Type := mk_regs { r_scause : Z; r_sepc : Z; r_stval : Z; r_sstatus : Z }.
(** The registers [usertrapret] writes before it jumps to [userret]. *)
Record uregs : Type := mk_uregs { u_stvec : Z; u_sstatus : Z; u_sepc : Z; u_satp : Z }.

Class Machine : Type := {
  plic_claim : kst -> Z;        (* the interrupt to serve; 0 if none *)
  uart_input : kst -> list Z;   (* characters waiting in the UART *)
  cpuid : Z;
  r_satp : Z;                   (* the kernel page table *)
  sstatus_now : kst -> Z        (* [sstatus] when [usertrapret] reads it *) }.

(** usertrap and kerneltrap report unexpected traps with [%p]. *)
Section trap.
Context `{Layout} `{Symbols} (pol : policy) `{UartDev} `{BlockDev} `{Env} `{Fuel} `{Indet} `{Machine}.

Definition clockintr : M kst unit :=
  acquire TicksLock ;;;
  modify (up_ticks (fun t => u32 (t + 1))) ;;;
  time_updates ;;;
  wakeup ChanTicks ;;;
  release TicksLock.

(** 2 for a timer interrupt, 1 for another device, 0 if not recognized. *)
Definition devintr (r : regs) : M kst Z :=
  if Z.testbit (r_scause r) 63 && (Z.land (r_scause r) 0xff =? 9) then
    let! irq := gets plic_claim in
    (if irq =? UART0_IRQ then let! input := gets uart_input in uartintr input
     else if irq =? VIRTIO0_IRQ then virtio_disk_intr
     else when (negb (irq =? 0)) (kprintf (chars "unexpected interrupt irq=%d" ++ [10]) [AInt irq])) ;;;
    ret 1
  else if r_scause r =? 2^63 + 1 then
    when (cpuid =? 0) clockintr ;;;
    ret 2
  else ret 0.

Definition usertrapret : M kst uregs :=
  let! i := curproc in
  let! p := getp i in
  modtf i (up_tf_kernel_satp (fun _ => r_satp)) ;;;
  modtf i (up_tf_kernel_sp (fun _ => u64 (p_kstack p + PGSIZE))) ;;;
  modtf i (up_tf_kernel_trap (fun _ => sym_usertrap)) ;;;
  modtf i (up_tf_kernel_hartid (fun _ => cpuid)) ;;;
  let! x := gets sstatus_now in
  let! t := gettf i in
  ret (mk_uregs (TRAMPOLINE + (sym_uservec - trampoline))
    (Z.lor (Z.land x (Z.lnot SSTATUS_SPP)) SSTATUS_SPIE) (tf_epc t) (MAKE_SATP (p_pagetable p))).

Definition usertrap (r : regs) : M kst uregs :=
  if negb (Z.land (r_sstatus r) SSTATUS_SPP =? 0) then panic "usertrap: not from user mode"
  else
    let! i := curproc in
    modtf i (up_tf_epc (fun _ => r_sepc r)) ;;;
    let! which_dev :=
      (if r_scause r =? 8 then
         let! k := killed i in
         when (negb (k =? 0)) (exit (-1)) ;;;
         modtf i (up_tf_epc (fun e => u64 (e + 4))) ;;;
         syscall pol ;;;
         ret 0
       else
         let! d := devintr r in
         when (d =? 0) (
           let! p := getp i in
           kprintf (chars "usertrap(): unexpected scause %p pid=%d" ++ [10]) [AInt (r_scause r); AInt (p_pid p)] ;;;
           kprintf (chars "            sepc=%p stval=%p" ++ [10]) [AInt (r_sepc r); AInt (r_stval r)] ;;;
           setkilled i) ;;;
         ret d) in
    let! k := killed i in
    when (negb (k =? 0)) (exit (-1)) ;;;
    when (which_dev =? 2) yield ;;;
    usertrapret.

(** The value written to [sepc], if it is written. Without RR the statement that the
    condition guards is the write of [sepc]. *)
Definition kerneltrap (r : regs) : M kst (option Z) :=
  if Z.land (r_sstatus r) SSTATUS_SPP =? 0 then panic "kerneltrap: not from supervisor mode"
  else if negb (Z.land (r_sstatus r) SSTATUS_SIE =? 0) then panic "kerneltrap: interrupts enabled"
  else
    let! d := devintr r in
    if d =? 0 then
      kprintf (chars "scause %p" ++ [10]) [AInt (r_scause r)] ;;;
      kprintf (chars "sepc=%p stval=%p" ++ [10]) [AInt (r_sepc r); AInt (r_stval r)] ;;;
      panic "kerneltrap"
    else
      let! me := myproc in
      let! running :=
        match me with
        | Some i => if d =? 2 then let! p := getp i in ret (is_state RUNNING p) else ret false
        | None => ret false
        end in
      if bool_decide (pol = RR) then when running yield ;;; ret (Some (r_sepc r))
      else ret (if running then Some (r_sepc r) else None).

(** [first] is the static variable of that name. *)
Definition forkret (first : bool) : M kst uregs :=
  let! i := curproc in
  punlock i ;;;
  when first (fsinit ROOTDEV) ;;;
  usertrapret.
End trap.
