(* ===== verification/Main.v ===== *)
(** * Booting

    [kernel/main.c] on hart 0: the components are initialised in this order. The calls
    that only write device or control registers ([consoleinit], [kvminithart],
    [trapinithart], [plicinit], [plicinithart], see [Asm]) or name a lock ([printfinit],
    [trapinit], [fileinit]) leave the modelled state alone. *)

From S2P Require Import Prelude CString Printf State Spinlock Proc Kalloc Vm Console Sleeplock Virtio Bio Log Fs File ProcLife.

Section main.
Context `{Layout} `{Symbols} (pol : policy) `{UartDev} `{BlockDev} `{Env} `{Fuel}.

(** The kernel page table, which [kvminit] stores. *)
Definition main_boot : M kst Z :=
  kprintf [10] [] ;;;
  kprintf (chars "xv6 kernel is booting" ++ [10]) [] ;;;
  kprintf [10] [] ;;;
  kinit ;;;
  let! kernel_pagetable := kvmmake in
  procinit ;;;
  binit ;;;
  iinit ;;;
  virtio_disk_init ;;;
  userinit pol ;;;
  ret kernel_pagetable.

(** Another hart, once [started] is set. *)
Definition main_hart (cpuid : Z) : M kst unit := kprintf (chars "hart %d starting" ++ [10]) [AInt cpuid].
End main.
