(* ===== verification/Asm.v ===== *)
(** * Assembly and machine mode

    The assembly of the kernel ([kernel/entry.S], [kernel/swtch.S], [kernel/kernelvec.S],
    [kernel/trampoline.S]) as lists of instructions over the registers of a hart, and the
    code that runs in machine mode before it ([kernel/start.c]) with the interrupt
    controller ([kernel/plic.c]). A value of [satp] selects the memory a load or a
    store sees; machine mode sees physical memory, which is that of [satp] 0. *)

From S2P Require Import Prelude CString State Vm.

(** ** A hart *)

Inductive reg : Type :=
| RA | SP | GP | TP | T0 | T1 | T2 | S0 | S1 | A0 | A1 | A2 | A3 | A4 | A5 | A6 | A7
| S2 | S3 | S4 | S5 | S6 | S7 | S8 | S9 | S10 | S11 | T3 | T4 | T5 | T6.
#[export] Instance reg_eq_dec : EqDecision reg.
Proof. solve_decision. Defined.
Inductive csr : Type :=
| Mstatus | Mepc | Mscratch | Mtvec | Mie | Medeleg | Mideleg | Mhartid | Pmpaddr0 | Pmpcfg0 | Satp | Sie | Sip | Sscratch | Stvec.
#[export] Instance csr_eq_dec : EqDecision csr.
Proof. solve_decision. Defined.

(** [space] is the memory under each value of [satp]. *)
Record mach : Type := mk_mach { mmode : bool; gpr : reg -> Z; csrs : csr -> Z; space : gmap Z mem }.
Definition root (m : mach) : Z := if mmode m then 0 else csrs m Satp.
Definition memory (m : mach) : mem := default ∅ (space m !! root m).
Definition upd {K V} `{EqDecision K} (f : K -> V) (k : K) (v : V) : K -> V := fun x => if decide (x = k) then v else f x.
Definition set_reg (r : reg) (v : Z) (m : mach) : mach := mk_mach (mmode m) (upd (gpr m) r v) (csrs m) (space m).
Definition set_csr (c : csr) (v : Z) (m : mach) : mach := mk_mach (mmode m) (gpr m) (upd (csrs m) c v) (space m).
Definition set_memory (x : mem) (m : mach) : mach := mk_mach (mmode m) (gpr m) (csrs m) (<[root m := x]> (space m)).

(** What a write of [v] leaves in a register that holds [old]. Of [sip] supervisor software
    can only change bit 1, SSIP; the other registers are taken to keep all that is written,
    reserved fields included. *)
Definition csr_write (c : csr) (old v : Z) : Z :=
  match c with
  | Sip => Z.lor (Z.ldiff old 2) (Z.land v 2)
  | _ => v
  end.

Inductive instr : Type :=
| Sd (r : reg) (off : Z) (b : reg) | Ld (r : reg) (off : Z) (b : reg)
| Addi (r r1 : reg) (imm : Z) | Add (r r1 r2 : reg) | Mul (r r1 r2 : reg) | Li (r : reg) (imm : Z)
| Csrr (r : reg) (c : csr) | Csrw (c : csr) (r : reg) | Csrrw (r : reg) (c : csr) (r1 : reg) | Fence.
Definition istep (m : mach) (i : instr) : mach :=
  match i with
  | Sd r off b => set_memory (wr64 (memory m) (u64 (gpr m b + off)) (gpr m r)) m
  | Ld r off b => set_reg r (rd64 (memory m) (u64 (gpr m b + off))) m
  | Addi r r1 imm => set_reg r (u64 (gpr m r1 + imm)) m
  | Add r r1 r2 => set_reg r (u64 (gpr m r1 + gpr m r2)) m
  | Mul r r1 r2 => set_reg r (u64 (gpr m r1 * gpr m r2)) m
  | Li r imm => set_reg r (u64 imm) m
  | Csrr r c => set_reg r (csrs m c) m
  | Csrw c r => set_csr c (csr_write c (csrs m c) (gpr m r)) m
  | Csrrw r c r1 => set_csr c (csr_write c (csrs m c) (gpr m r1)) (set_reg r (csrs m c) m)
  | Fence => m
  end.
Definition run_code (l : list instr) (m : mach) : mach := foldl istep m l.

(** ** The code *)

(** Up to [call start]; [stack0] is the address of the symbol. *)
Definition entry_code (stack0 : Z) : list instr :=
  [Li SP stack0; Li A0 (1024*4); Csrr A1 Mhartid; Addi A1 A1 1; Mul A0 A0 A1; Add SP SP A0].
(** Up to [ret]. *)
Definition swtch_code : list instr := [
   Sd RA 0 A0; Sd SP 8 A0; Sd S0 16 A0; Sd S1 24 A0;
   Sd S2 32 A0; Sd S3 40 A0; Sd S4 48 A0; Sd S5 56 A0;
   Sd S6 64 A0; Sd S7 72 A0; Sd S8 80 A0; Sd S9 88 A0;
   Sd S10 96 A0; Sd S11 104 A0; Ld RA 0 A1; Ld SP 8 A1;
   Ld S0 16 A1; Ld S1 24 A1; Ld S2 32 A1; Ld S3 40 A1;
   Ld S4 48 A1; Ld S5 56 A1; Ld S6 64 A1; Ld S7 72 A1;
   Ld S8 80 A1; Ld S9 88 A1; Ld S10 96 A1; Ld S11 104 A1].
(** Before and after the call of [kerneltrap], up to [sret]. *)
Definition kernelvec_save : list instr := [
   Addi SP SP (-256); Sd RA 0 SP; Sd SP 8 SP; Sd GP 16 SP;
   Sd TP 24 SP; Sd T0 32 SP; Sd T1 40 SP; Sd T2 48 SP;
   Sd S0 56 SP; Sd S1 64 SP; Sd A0 72 SP; Sd A1 80 SP;
   Sd A2 88 SP; Sd A3 96 SP; Sd A4 104 SP; Sd A5 112 SP;
   Sd A6 120 SP; Sd A7 128 SP; Sd S2 136 SP; Sd S3 144 SP;
   Sd S4 152 SP; Sd S5 160 SP; Sd S6 168 SP; Sd S7 176 SP;
   Sd S8 184 SP; Sd S9 192 SP; Sd S10 200 SP; Sd S11 208 SP;
   Sd T3 216 SP; Sd T4 224 SP; Sd T5 232 SP; Sd T6 240 SP].
Definition kernelvec_restore : list instr := [
   Ld RA 0 SP; Ld SP 8 SP; Ld GP 16 SP; Ld T0 32 SP;
   Ld T1 40 SP; Ld T2 48 SP; Ld S0 56 SP; Ld S1 64 SP;
   Ld A0 72 SP; Ld A1 80 SP; Ld A2 88 SP; Ld A3 96 SP;
   Ld A4 104 SP; Ld A5 112 SP; Ld A6 120 SP; Ld A7 128 SP;
   Ld S2 136 SP; Ld S3 144 SP; Ld S4 152 SP; Ld S5 160 SP;
   Ld S6 168 SP; Ld S7 176 SP; Ld S8 184 SP; Ld S9 192 SP;
   Ld S10 200 SP; Ld S11 208 SP; Ld T3 216 SP; Ld T4 224 SP;
   Ld T5 232 SP; Ld T6 240 SP; Addi SP SP 256].
(** Up to [mret]. *)
Definition timervec : list instr := [
   Csrrw A0 Mscratch A0; Sd A1 0 A0; Sd A2 8 A0; Sd A3 16 A0;
   Ld A1 24 A0; Ld A2 32 A0; Ld A3 0 A1; Add A3 A3 A2;
   Sd A3 0 A1; Li A1 2; Csrw Sip A1; Ld A3 16 A0;
   Ld A2 8 A0; Ld A1 0 A0; Csrrw A0 Mscratch A0].
(** Up to [jr t0] and [sret]. *)
Definition uservec : list instr := [
   Csrw Sscratch A0; Li A0 TRAPFRAME; Sd RA 40 A0; Sd SP 48 A0;
   Sd GP 56 A0; Sd TP 64 A0; Sd T0 72 A0; Sd T1 80 A0;
   Sd T2 88 A0; Sd S0 96 A0; Sd S1 104 A0; Sd A1 120 A0;
   Sd A2 128 A0; Sd A3 136 A0; Sd A4 144 A0; Sd A5 152 A0;
   Sd A6 160 A0; Sd A7 168 A0; Sd S2 176 A0; Sd S3 184 A0;
   Sd S4 192 A0; Sd S5 200 A0; Sd S6 208 A0; Sd S7 216 A0;
   Sd S8 224 A0; Sd S9 232 A0; Sd S10 240 A0; Sd S11 248 A0;
   Sd T3 256 A0; Sd T4 264 A0; Sd T5 272 A0; Sd T6 280 A0;
   Csrr T0 Sscratch; Sd T0 112 A0; Ld SP 8 A0; Ld TP 32 A0;
   Ld T0 16 A0; Ld T1 0 A0; Fence; Csrw Satp T1;
   Fence].
Definition userret : list instr := [
   Fence; Csrw Satp A0; Fence; Li A0 TRAPFRAME;
   Ld RA 40 A0; Ld SP 48 A0; Ld GP 56 A0; Ld TP 64 A0;
   Ld T0 72 A0; Ld T1 80 A0; Ld T2 88 A0; Ld S0 96 A0;
   Ld S1 104 A0; Ld A1 120 A0; Ld A2 128 A0; Ld A3 136 A0;
   Ld A4 144 A0; Ld A5 152 A0; Ld A6 160 A0; Ld A7 168 A0;
   Ld S2 176 A0; Ld S3 184 A0; Ld S4 192 A0; Ld S5 200 A0;
   Ld S6 208 A0; Ld S7 216 A0; Ld S8 224 A0; Ld S9 232 A0;
   Ld S10 240 A0; Ld S11 248 A0; Ld T3 256 A0; Ld T4 264 A0;
   Ld T5 272 A0; Ld T6 280 A0; Ld A0 112 A0].

(** ** start.c *)

Definition CLINT : Z := 0x2000000.
Definition CLINT_MTIMECMP (hartid : Z) : Z := CLINT + 0x4000 + 8 * hartid.
Definition CLINT_MTIME : Z := CLINT + 0xBFF8.
Notation MSTATUS_MPP_MASK := (Z.shiftl 3 11).
Notation MSTATUS_MPP_S := (Z.shiftl 1 11).
Notation MSTATUS_MIE := (Z.shiftl 1 3).
Notation MIE_MTIE := (Z.shiftl 1 7).
Notation SIE_SEIE := (Z.shiftl 1 9).
Notation SIE_STIE := (Z.shiftl 1 5).
Notation SIE_SSIE := (Z.shiftl 1 1).
(** A store of a [uint64] in C. *)
Definition st64 (a v : Z) (m : mach) : mach := set_memory (wr64 (memory m) a v) m.
Definition st32 (a v : Z) (m : mach) : mach := set_memory (wr32 (memory m) a v) m.

(** [vec] and [scratch] are the addresses of [timervec] and [timer_scratch]. *)
Definition interval : Z := 1000000.
Definition timerinit (vec timer_scratch : Z) (m : mach) : mach :=
  let id := i32 (csrs m Mhartid) in
  let m := st64 (CLINT_MTIMECMP id) (u64 (rd64 (memory m) CLINT_MTIME + interval)) m in
  let scratch := timer_scratch + 40 * id in
  let m := st64 (scratch + 24) (CLINT_MTIMECMP id) m in
  let m := st64 (scratch + 32) interval m in
  let m := set_csr Mscratch scratch m in
  let m := set_csr Mtvec vec m in
  let m := set_csr Mstatus (Z.lor (csrs m Mstatus) MSTATUS_MIE) m in
  set_csr Mie (Z.lor (csrs m Mie) MIE_MTIE) m.
(** Up to [mret]. *)
Definition start (main vec timer_scratch : Z) (m : mach) : mach :=
  let x := csrs m Mstatus in
  let x := Z.ldiff x MSTATUS_MPP_MASK in
  let x := Z.lor x MSTATUS_MPP_S in
  let m := set_csr Mstatus x m in
  let m := set_csr Mepc main m in
  let m := set_csr Satp 0 m in
  let m := set_csr Medeleg 0xffff m in
  let m := set_csr Mideleg 0xffff m in
  let m := set_csr Sie (Z.lor (Z.lor (Z.lor (csrs m Sie) SIE_SEIE) SIE_STIE) SIE_SSIE) m in
  let m := set_csr Pmpaddr0 0x3fffffffffffff m in
  let m := set_csr Pmpcfg0 0xf m in
  let m := timerinit vec timer_scratch m in
  set_reg TP (u64 (i32 (csrs m Mhartid))) m.
(** [mret] returns to [mepc] in the mode of [MPP]: 3 is machine mode, 1 supervisor mode. *)
Definition mpp (m : mach) : Z := Z.land (Z.shiftr (csrs m Mstatus) 11) 3.

(** ** plic.c *)

Notation PLIC_SENABLE hart := (PLIC + 0x2080 + hart * 0x100).
Notation PLIC_SPRIORITY hart := (PLIC + 0x201000 + hart * 0x2000).
Notation PLIC_SCLAIM hart := (PLIC + 0x201004 + hart * 0x2000).
Definition plicinit (m : mach) : mach := st32 (PLIC + VIRTIO0_IRQ * 4) 1 (st32 (PLIC + UART0_IRQ * 4) 1 m).
(** [hart] is [cpuid()]. *)
Definition plicinithart (m : mach) : mach :=
  let hart := i32 (gpr m TP) in
  let m := st32 (PLIC_SENABLE hart) (Z.lor (Z.shiftl 1 UART0_IRQ) (Z.shiftl 1 VIRTIO0_IRQ)) m in
  st32 (PLIC_SPRIORITY hart) 0 m.
(** The register is read from the device, [claim]. *)
Definition plic_claim_reg (claim : Z -> Z) (m : mach) : Z := i32 (claim (PLIC_SCLAIM (i32 (gpr m TP)))).
Definition plic_complete (irq : Z) (m : mach) : mach := st32 (PLIC_SCLAIM (i32 (gpr m TP))) irq m.

(** ** Registers that other files write at boot *)

Definition kvminithart (kernel_pagetable : Z) (m : mach) : mach := set_csr Satp (MAKE_SATP kernel_pagetable) m.
(** [kernelvec] is the address of the code. *)
Definition trapinithart (kernelvec : Z) (m : mach) : mach := set_csr Stvec kernelvec m.
(** The registers of the UART and what [uartinit] writes to them, in order. *)
Notation IER := (1).
Notation FCR := (2).
Notation LCR := (3).
Definition uartinit : list (Z * Z) :=
  [(IER, 0x00); (LCR, Z.shiftl 1 7); (0, 0x03); (1, 0x00); (LCR, Z.shiftl 3 0); (FCR, Z.lor (Z.shiftl 1 0) (Z.shiftl 3 1)); (IER, Z.lor (Z.shiftl 1 1) (Z.shiftl 1 0))].

(** ** Saving and loading registers *)

Lemma upd_eq {K V} `{EqDecision K} (f : K -> V) k v : upd f k v k = v.
Proof. unfold upd. by rewrite decide_True. Qed.
Lemma upd_ne {K V} `{EqDecision K} (f : K -> V) k v x : x <> k -> upd f k v x = f x.
Proof. intros. unfold upd. by rewrite decide_False. Qed.
(** Evaluates reads of registers that were written. *)
Ltac updates := repeat match goal with
  | |- context [upd ?f ?k ?v ?x] => first [rewrite (upd_eq f k v : upd f k v x = v) | rewrite (upd_ne f k v x) by discriminate]
  end.
Lemma memory_set x m : memory (set_memory x m) = x.
Proof. unfold memory, root, set_memory. cbn. by rewrite lookup_insert_eq. Qed.

(** Registers and where they are in a save area. *)
Notation frame := (list (reg * Z)).
Definition saves (b : reg) (l : frame) : list instr := (fun p => Sd p.1 p.2 b) <$> l.
Definition loads (b : reg) (l : frame) : list instr := (fun p => Ld p.1 p.2 b) <$> l.
(** No register twice, and distinct aligned places inside the area. *)
Record frame_ok (size : Z) (l : frame) : Prop := {
  fr_regs : NoDup l.*1;
  fr_offs : NoDup l.*2;
  fr_in : Forall (fun p => 0 <= p.2 /\ p.2 + 8 <= size /\ p.2 mod 8 = 0) l }.
#[export] Instance frame_ok_dec size l : Decision (frame_ok size l).
Proof.
  refine (cast_if (decide (NoDup l.*1 /\ NoDup l.*2 /\ Forall (fun p => 0 <= p.2 /\ p.2 + 8 <= size /\ p.2 mod 8 = 0) l))).
  - abstract (destruct_and!; by split).
  - abstract (intros [? ? ?]; tauto).
Defined.

(** The memory after the registers [g] were saved at [a]. *)
Definition saved (l : frame) (a : Z) (g : reg -> Z) (x : mem) : mem := foldl (fun x p => wr64 x (a + p.2) (g p.1)) x l.
Lemma run_saves size b l m : Forall (fun p => 0 <= p.2 /\ p.2 + 8 <= size /\ p.2 mod 8 = 0) l -> 0 <= gpr m b -> gpr m b + size <= 2^64 ->
  l <> [] -> run_code (saves b l) m = set_memory (saved l (gpr m b) (gpr m) (memory m)) m.
Proof.
  intros Hl Hb Hs. revert m Hb Hs. induction Hl as [|[r o] l [Ho1 [Ho2 _]] Hl IH]; intros m Hb Hs Hne; [done|].
  cbn [saves fmap list_fmap run_code foldl istep fst snd]. rewrite u64_small by (simpl in *; lia). destruct l as [|p l]; [done|].
  change (run_code (saves b (p :: l)) (set_memory (wr64 (memory m) (gpr m b + o) (gpr m r)) m) = set_memory (saved ((r, o) :: p :: l) (gpr m b) (gpr m) (memory m)) m).
  rewrite IH by done. cbn [gpr set_memory]. rewrite memory_set. unfold set_memory, root. cbn. by rewrite insert_insert_eq.
Qed.
Lemma saved_other l a g : forall x i, (forall p, p ∈ l -> i < a + p.2 \/ a + p.2 + 8 <= i) -> rd (saved l a g x) i = rd x i.
Proof.
  induction l as [|p l IH]; intros x i Hi; [done|]. unfold saved. cbn [foldl]. fold (saved l a g (wr64 x (a + p.2) (g p.1))).
  rewrite IH by (intros q Hq; apply Hi; by right). apply rd_wr64_ne. apply Hi. by left.
Qed.
Lemma saved_at size l a g : frame_ok size l -> forall x r o, (r, o) ∈ l -> rd64 (saved l a g x) (a + o) = u64 (g r).
Proof.
  intros [_ Hn Hin]. induction l as [|[r' o'] l IH]; intros x r o Hr; [by apply not_elem_of_nil in Hr|].
  apply NoDup_cons in Hn as [Hno Hn]. apply Forall_cons in Hin as [(Ho1 & Ho2 & Ho3) Hin]. unfold saved. cbn [foldl fst snd]. fold (saved l a g (wr64 x (a + o') (g r'))).
  apply elem_of_cons in Hr as [[= -> ->]|Hr]; [|by apply IH].
  rewrite (rd64_ext _ (wr64 x (a + o') (g r'))); [apply rd64_wr64|]. intros i Hi. apply saved_other. intros [r2 o2] Hp.
  pose proof (proj1 (Forall_forall _ _) Hin _ Hp) as (H1 & H2 & H3). simpl in *.
  assert (o2 <> o') by (intros ->; apply Hno; apply list_elem_of_fmap; by exists (r2, o')). zlia.
Qed.

Lemma run_loads b l : forall m, NoDup l.*1 -> (forall o, (b, o) ∈ l -> rd64 (memory m) (u64 (gpr m b + o)) = gpr m b) ->
  let m' := run_code (loads b l) m in
  mmode m' = mmode m /\ csrs m' = csrs m /\ space m' = space m /\
  (forall r o, (r, o) ∈ l -> gpr m' r = rd64 (memory m) (u64 (gpr m b + o))) /\ (forall r, r ∉ l.*1 -> gpr m' r = gpr m r).
Proof.
  induction l as [|[r o] l IH]; intros m Hn Hb; [split_and!; try done; intros r o Hr; by apply not_elem_of_nil in Hr|].
  apply NoDup_cons in Hn as [Hno Hn]. cbn zeta. set (m1 := set_reg r (rd64 (memory m) (u64 (gpr m b + o))) m).
  change (run_code (loads b ((r, o) :: l)) m) with (run_code (loads b l) m1).
  assert (gpr m1 b = gpr m b) as Eb. { unfold m1, set_reg, upd. cbn. case_decide as E; [|done]. subst r. apply Hb. by left. }
  assert (memory m1 = memory m) as Em by done.
  destruct (IH m1 Hn) as (H1 & H2 & H3 & H4 & H5); [intros o' Ho'; rewrite Em, Eb; apply Hb; by right|]. rewrite H1, H2, H3. split_and!; try done.
  - intros r' o' [[= -> ->]|Hr]%elem_of_cons; [|by rewrite (H4 r' o' Hr), Em, Eb]. rewrite H5 by done. apply upd_eq.
  - intros r' Hr'. cbn in Hr'. apply not_elem_of_cons in Hr' as [Hne Hr']. rewrite H5 by done. by apply upd_ne.
Qed.

Lemma run_app l l' m : run_code (l ++ l') m = run_code l' (run_code l m).
Proof. apply foldl_app. Qed.
Definition area (a size : Z) : Prop := 0 <= a /\ a + size <= 2^64.
Definition apart (a b size : Z) : Prop := a + size <= b \/ b + size <= a.
(** The registers hold 64-bit values. *)
Definition words (m : mach) : Prop := forall r, 0 <= gpr m r < 2^64.
Ltac frame_dec := apply (bool_decide_unpack _); vm_compute; exact I.

(** ** swtch *)

(** [struct context] *)
Definition context : frame :=
  [(RA, 0); (SP, 8); (S0, 16); (S1, 24); (S2, 32); (S3, 40); (S4, 48); (S5, 56); (S6, 64); (S7, 72); (S8, 80); (S9, 88); (S10, 96); (S11, 104)].
Lemma context_ok : frame_ok 112 context.
Proof. frame_dec. Qed.
Lemma frame_bounds size l r o : frame_ok size l -> (r, o) ∈ l -> 0 <= o /\ o + 8 <= size.
Proof. intros [_ _ Hin] Hr. pose proof (proj1 (Forall_forall _ _) Hin _ Hr) as (H1 & H2 & _). by simpl in *. Qed.

(** The base register is not among those loaded. *)
Lemma base_kept (b : reg) (l : frame) (P : Z -> Prop) : b ∉ l.*1 -> forall o, (b, o) ∈ l -> P o.
Proof. intros Hb o Hin. destruct Hb. apply list_elem_of_fmap. by exists (b, o). Qed.

Lemma swtch_done m : area (gpr m A0) 112 -> area (gpr m A1) 112 -> apart (gpr m A0) (gpr m A1) 112 ->
  let m' := run_code swtch_code m in
  (forall r o, (r, o) ∈ context -> gpr m' r = rd64 (memory m) (gpr m A1 + o) /\ rd64 (memory m') (gpr m A0 + o) = u64 (gpr m r)) /\
  (forall r, r ∉ context.*1 -> gpr m' r = gpr m r) /\
  (forall a, a < gpr m A0 \/ gpr m A0 + 112 <= a -> rd (memory m') a = rd (memory m) a).
Proof.
  intros [H01 H02] [H11 H12] Hap. unfold apart in Hap. cbn zeta. change swtch_code with (saves A0 context ++ loads A1 context). rewrite run_app.
  rewrite (run_saves 112) by (done || apply context_ok). set (x := saved context (gpr m A0) (gpr m) (memory m)). set (m1 := set_memory x m).
  destruct (run_loads A1 context m1 (fr_regs _ _ context_ok)) as (Em & Ec & Es & Hl & Ho); [apply base_kept; frame_dec|].
  assert (memory (run_code (loads A1 context) m1) = x) as Ex by (unfold memory, root; rewrite Em, Ec, Es; apply memory_set).
  assert (forall a, a < gpr m A0 \/ gpr m A0 + 112 <= a -> rd x a = rd (memory m) a) as Hx.
  { intros a Ha. apply saved_other. intros [r o] Hp. pose proof (frame_bounds _ _ _ _ context_ok Hp). simpl. lia. }
  rewrite Ex. split; [|by split]. intros r o Hr. pose proof (frame_bounds _ _ _ _ context_ok Hr). split; [|by apply (saved_at 112); [apply context_ok|]].
  rewrite (Hl r o Hr). change (gpr m1 A1) with (gpr m A1). unfold m1. rewrite memory_set, u64_small by lia. apply rd64_ext. intros i Hi. apply Hx. lia.
Qed.

(** C9. A thread that gave up its hart in [swtch] goes on as if the call had returned: when
    another [swtch] later loads the context it saved, and nobody wrote to it in
    between, the return address, the stack pointer and all registers that a C function
    must preserve are as they were; and [swtch] itself writes nothing but the
    context it saves. *)
Theorem swtch_resumes m m2 :
  area (gpr m A0) 112 -> area (gpr m A1) 112 -> apart (gpr m A0) (gpr m A1) 112 -> words m ->
  let m1 := run_code swtch_code m in
  gpr m2 A1 = gpr m A0 -> area (gpr m2 A0) 112 -> apart (gpr m2 A0) (gpr m A0) 112 ->
  (forall a, gpr m A0 <= a < gpr m A0 + 112 -> rd (memory m2) a = rd (memory m1) a) ->
  (forall r o, (r, o) ∈ context -> gpr m1 r = rd64 (memory m) (gpr m A1 + o) /\ gpr (run_code swtch_code m2) r = gpr m r) /\
  (forall a, a < gpr m A0 \/ gpr m A0 + 112 <= a -> rd (memory m1) a = rd (memory m) a).
Proof.
  intros H0 H1 Hap Hw m1 E2 H20 Hap2 Hsame. destruct (swtch_done m H0 H1 Hap) as (Hr & _ & Hmem). fold m1 in Hr, Hmem.
  destruct (swtch_done m2 H20) as (Hr2 & _ & _); [by rewrite E2|by rewrite E2|]. split; [|done]. intros r o Hro. destruct (Hr r o Hro) as [Hv Hs].
  split; [done|]. destruct (Hr2 r o Hro) as [-> _]. pose proof (frame_bounds _ _ _ _ context_ok Hro).
  rewrite E2, (rd64_ext _ (memory m1)), Hs by (intros i Hi; apply Hsame; lia). by apply u64_small.
Qed.

(** ** kernelvec *)

Definition kernel_frame : frame :=
  [(RA, 0); (SP, 8); (GP, 16); (TP, 24); (T0, 32); (T1, 40); (T2, 48); (S0, 56); (S1, 64); (A0, 72); (A1, 80); (A2, 88); (A3, 96); (A4, 104); (A5, 112);
   (A6, 120); (A7, 128); (S2, 136); (S3, 144); (S4, 152); (S5, 160); (S6, 168); (S7, 176); (S8, 184); (S9, 192); (S10, 200); (S11, 208); (T3, 216);
   (T4, 224); (T5, 232); (T6, 240)].
Lemma kernel_frame_ok : frame_ok 256 kernel_frame.
Proof. frame_dec. Qed.
Definition kernel_restored : frame := filter (fun p => p.1 <> TP) kernel_frame.
Lemma all_saved r : r <> TP -> exists o, (r, o) ∈ kernel_restored.
Proof.
  intros Hr. assert (r ∈ kernel_restored.*1) as ([? o] & -> & Hin)%list_elem_of_fmap; [|by exists o].
  destruct r; try done; apply (bool_decide_unpack _); vm_compute; exact I.
Qed.

Section kernelvec.
(** The C function [kerneltrap]. *)
Variable kerneltrap : mach -> mach.
Definition kernelvec (m : mach) : mach := run_code kernelvec_restore (kerneltrap (run_code kernelvec_save m)).

(** C28. A trap in the kernel is invisible to the code it interrupted: if [kerneltrap] returns
    with its stack pointer and the stack above it as they were, which every C function
    does, all registers are restored, except that [tp] names the hart the code is on now;
    and the save area fits the 256 bytes below the interrupted stack. *)
Theorem kernelvec_transparent m :
  words m -> 256 <= gpr m SP ->
  let m1 := run_code kernelvec_save m in let m2 := kerneltrap m1 in
  gpr m2 SP = gpr m1 SP -> (forall a, gpr m1 SP <= a < gpr m SP -> rd (memory m2) a = rd (memory m1) a) ->
  (forall r, r <> TP -> gpr (kernelvec m) r = gpr m r) /\ gpr (kernelvec m) TP = gpr m2 TP /\ memory (kernelvec m) = memory m2 /\
  (forall a, a < gpr m SP - 256 \/ gpr m SP <= a -> rd (memory m1) a = rd (memory m) a).
Proof.
  intros Hw Hsp m1 m2 Hsp2 Hsame. unfold kernelvec. fold m1. fold m2. clearbody m2. pose proof (Hw SP) as Hspw.
  set (m0 := set_reg SP (gpr m SP - 256) m). assert (m1 = set_memory (saved kernel_frame (gpr m SP - 256) (gpr m0) (memory m)) m0) as E1.
  { unfold m1. change kernelvec_save with (Addi SP SP (-256) :: saves SP kernel_frame). unfold run_code. cbn [foldl istep]. rewrite u64_small by lia.
    change (run_code (saves SP kernel_frame) m0 = set_memory (saved kernel_frame (gpr m0 SP) (gpr m0) (memory m0)) m0).
    apply (run_saves 256); [apply kernel_frame_ok|change (gpr m0 SP) with (gpr m SP - 256); lia..|done]. }
  assert (gpr m1 SP = gpr m SP - 256) as Es1 by by rewrite E1.
  assert (forall r o, (r, o) ∈ kernel_restored -> (r, o) ∈ kernel_frame /\ r <> TP /\ 0 <= o /\ o + 8 <= 256) as Hin.
  { intros r o [Hne Hf]%list_elem_of_filter. split; [done|]. split; [done|]. by apply (frame_bounds _ _ r _ kernel_frame_ok). }
  assert (forall r o, (r, o) ∈ kernel_restored -> rd64 (memory m2) (u64 (gpr m2 SP + o)) = gpr m0 r) as Hrd.
  { intros r o Hro. destruct (Hin r o Hro) as (Hf & _ & Ho1 & Ho2). rewrite Hsp2, Es1, u64_small by lia.
    rewrite (rd64_ext _ (memory m1)) by (intros i Hi; apply Hsame; rewrite Es1; lia). rewrite E1, memory_set.
    rewrite (saved_at 256 _ _ _ kernel_frame_ok _ r o Hf). apply u64_small. unfold m0, set_reg, upd. cbn. case_decide; [lia|apply Hw]. }
  change kernelvec_restore with (loads SP kernel_restored ++ [Addi SP SP 256]). rewrite run_app.
  destruct (run_loads SP kernel_restored m2) as (Em & Ec & Es & Hl & Ho).
  { frame_dec. }
  { intros o Ho. rewrite (Hrd SP o Ho). by rewrite Hsp2, Es1. }
  set (m3 := run_code (loads SP kernel_restored) m2) in *. clearbody m3. change (run_code [Addi SP SP 256] m3) with (set_reg SP (u64 (gpr m3 SP + 256)) m3).
  assert (gpr m3 SP = gpr m SP - 256) as Es3. { destruct (all_saved SP) as [o Hr]; [done|]. by rewrite (Hl _ _ Hr), (Hrd _ _ Hr). }
  split.
  - intros r Hr. unfold set_reg, upd. cbn. case_decide as E; [subst r; rewrite Es3, u64_small by lia; lia|].
    destruct (all_saved r Hr) as [o Hro]. rewrite (Hl _ _ Hro), (Hrd _ _ Hro). unfold m0, set_reg. cbn. by apply upd_ne.
  - split; [cbn; unfold upd; simpl; apply Ho; frame_dec|]. split; [unfold memory, root; cbn; by rewrite Em, Ec, Es|].
    intros a Ha. rewrite E1, memory_set. apply saved_other. intros [r o] Hp. pose proof (frame_bounds _ _ _ _ kernel_frame_ok Hp). simpl. lia.
Qed.
End kernelvec.

(** ** uservec and userret *)

(** The memory under the page table [u]. *)
Definition memory_of (u : Z) (m : mach) : mem := default ∅ (space m !! u).
(** The user's registers in [struct trapframe], all but [a0]. *)
Definition user_frame : frame :=
  [(RA, 40); (SP, 48); (GP, 56); (TP, 64); (T0, 72); (T1, 80); (T2, 88); (S0, 96); (S1, 104); (A1, 120); (A2, 128); (A3, 136); (A4, 144); (A5, 152);
   (A6, 160); (A7, 168); (S2, 176); (S3, 184); (S4, 192); (S5, 200); (S6, 208); (S7, 216); (S8, 224); (S9, 232); (S10, 240); (S11, 248); (T3, 256);
   (T4, 264); (T5, 272); (T6, 280)].
Lemma user_frame_ok : frame_ok 288 user_frame.
Proof. frame_dec. Qed.
Lemma user_offs r o : (r, o) ∈ user_frame -> 40 <= o /\ o + 8 <= 288 /\ (o + 8 <= 112 \/ 120 <= o).
Proof.
  intros Hin. assert (Forall (fun p => 40 <= p.2 /\ p.2 + 8 <= 288 /\ (p.2 + 8 <= 112 \/ 120 <= p.2)) user_frame) as Hf by frame_dec.
  exact (proj1 (Forall_forall _ _) Hf _ Hin).
Qed.
Lemma user_all r : r <> A0 -> exists o, (r, o) ∈ user_frame.
Proof.
  intros Hr. assert (r ∈ user_frame.*1) as ([? o] & -> & Hin)%list_elem_of_fmap; [|by exists o].
  destruct r; try done; apply (bool_decide_unpack _); vm_compute; exact I.
Qed.

Lemma user_not_a0 : A0 ∉ user_frame.*1.
Proof. frame_dec. Qed.
Definition uservec_tail : list instr := drop 32 uservec.
Lemma memory_set_reg r v m : memory (set_reg r v m) = memory m.
Proof. done. Qed.
Lemma uservec_tail_done m : mmode m = false -> gpr m A0 = TRAPFRAME ->
  let m' := run_code uservec_tail m in let x := wr64 (memory m) (TRAPFRAME + 112) (csrs m Sscratch) in
  memory_of (csrs m Satp) m' = x /\ csrs m' Satp = rd64 x TRAPFRAME /\
  gpr m' SP = rd64 x (TRAPFRAME + 8) /\ gpr m' TP = rd64 x (TRAPFRAME + 32) /\ gpr m' T0 = rd64 x (TRAPFRAME + 16).
Proof.
  intros Hm Ha. destruct m as [mm g c sp]. cbn in Hm, Ha. subst mm. unfold uservec_tail, uservec. cbn [drop].
  unfold run_code. cbn [foldl istep]. rewrite !memory_set_reg, !memory_set. cbn. updates. rewrite !Ha. unfold memory_of, memory, root. cbn. rewrite lookup_insert_eq.
  rewrite !u64_small by (unfold TRAPFRAME, TRAMPOLINE, MAXVA, PGSIZE; lia). rewrite Z.add_0_r. done.
Qed.
Lemma uservec_done m : mmode m = false -> words m ->
  let m' := run_code uservec m in let x := memory_of (csrs m Satp) m' in
  (forall r o, (r, o) ∈ (A0, 112) :: user_frame -> rd64 x (TRAPFRAME + o) = gpr m r) /\
  (forall a, a < TRAPFRAME + 40 \/ TRAPFRAME + 288 <= a -> rd x a = rd (memory m) a) /\
  csrs m' Satp = rd64 (memory m) TRAPFRAME /\ gpr m' SP = rd64 (memory m) (TRAPFRAME + 8) /\
  gpr m' TP = rd64 (memory m) (TRAPFRAME + 32) /\ gpr m' T0 = rd64 (memory m) (TRAPFRAME + 16).
Proof.
  intros Hm Hw. cbn zeta. change uservec with ([Csrw Sscratch A0; Li A0 TRAPFRAME] ++ saves A0 user_frame ++ uservec_tail).
  rewrite !run_app. set (m0 := run_code [Csrw Sscratch A0; Li A0 TRAPFRAME] m).
  assert (gpr m0 A0 = TRAPFRAME /\ csrs m0 Sscratch = gpr m A0 /\ csrs m0 Satp = csrs m Satp /\ mmode m0 = false /\ memory m0 = memory m /\
    forall r, r <> A0 -> gpr m0 r = gpr m r) as (Ea & Esc & Esa & Emm & Emem & Er).
  { unfold m0, run_code, memory, root. cbn. updates. rewrite Hm. split_and!; try done. intros r Hr. by apply upd_ne. }
  rewrite (run_saves 288) by (done || apply user_frame_ok || rewrite Ea; done). rewrite Ea, Emem. set (y := saved user_frame TRAPFRAME (gpr m0) (memory m)).
  destruct (uservec_tail_done (set_memory y m0)) as (Hx & Hsa & Hsp & Htp & Ht0); [done|done|]. rewrite memory_set in Hx, Hsa, Hsp, Htp, Ht0.
  change (csrs (set_memory y m0)) with (csrs m0) in *. rewrite Esa in Hx. rewrite Esc in *. set (z := wr64 y (TRAPFRAME + 112) (gpr m A0)) in *.
  assert (forall a, a < TRAPFRAME + 40 \/ TRAPFRAME + 288 <= a -> rd z a = rd (memory m) a) as Hz.
  { intros a Ha. unfold z. rewrite rd_wr64_ne by lia. apply saved_other. intros [r o] Hp. apply user_offs in Hp. simpl. lia. }
  assert (forall o, 0 <= o -> o + 8 <= 40 -> rd64 z (TRAPFRAME + o) = rd64 (memory m) (TRAPFRAME + o)) as Hlow.
  { intros o Ho1 Ho2. apply rd64_ext. intros i Hi. apply Hz. lia. }
  pose proof (Hlow 0 ltac:(lia) ltac:(lia)) as H0. rewrite Z.add_0_r in H0. rewrite Hx, Hsa, Hsp, Htp, Ht0, H0, !Hlow by lia. split; [|done].
  intros r o [[= -> ->]|Hr]%elem_of_cons; [unfold z; rewrite rd64_wr64; by apply u64_small|]. pose proof (user_offs r o Hr).
  assert (r <> A0) by (intros ->; by apply (base_kept A0 user_frame (fun _ => False) user_not_a0 o)).
  unfold z. rewrite rd64_wr64_ne by lia. unfold y. rewrite (saved_at 288 _ _ _ user_frame_ok _ r o Hr), Er by done. by apply u64_small.
Qed.
Lemma userret_done m : mmode m = false ->
  let m' := run_code userret m in let x := memory_of (gpr m A0) m in
  csrs m' Satp = gpr m A0 /\ (forall r o, (r, o) ∈ (A0, 112) :: user_frame -> gpr m' r = rd64 x (TRAPFRAME + o)).
Proof.
  intros Hm. cbn zeta. change userret with ([Fence; Csrw Satp A0; Fence; Li A0 TRAPFRAME] ++ loads A0 user_frame ++ [Ld A0 112 A0]). rewrite !run_app.
  set (m0 := run_code [Fence; Csrw Satp A0; Fence; Li A0 TRAPFRAME] m).
  assert (gpr m0 A0 = TRAPFRAME /\ csrs m0 Satp = gpr m A0 /\ memory m0 = memory_of (gpr m A0) m) as (Ea & Esa & Emem).
  { unfold m0, run_code, memory, memory_of, root. cbn. rewrite Hm. updates. done. }
  destruct (run_loads A0 user_frame m0 (fr_regs _ _ user_frame_ok)) as (Em & Ec & Es & Hl & Ho); [by apply base_kept, user_not_a0|].
  set (m1 := run_code (loads A0 user_frame) m0) in *. clearbody m1.
  assert (memory m1 = memory m0) as Em1 by (unfold memory, root; by rewrite Em, Ec, Es).
  change (run_code [Ld A0 112 A0] m1) with (set_reg A0 (rd64 (memory m1) (u64 (gpr m1 A0 + 112))) m1). rewrite Em1, Emem, (Ho A0 user_not_a0), Ea.
  split; [cbn; by rewrite Ec|]. intros r o Hr. assert (forall o, 0 <= o <= 280 -> u64 (TRAPFRAME + o) = TRAPFRAME + o) as Hu.
  { intros o' Ho'. apply u64_small. unfold TRAPFRAME, TRAMPOLINE, MAXVA, PGSIZE. lia. }
  apply elem_of_cons in Hr as [[= -> ->]|Hr]; cbn; [by rewrite upd_eq, Hu|]. pose proof (user_offs r o Hr).
  rewrite upd_ne by (intros ->; by apply (base_kept A0 user_frame (fun _ => False) user_not_a0 o)). by rewrite (Hl r o Hr), Ea, Emem, Hu by lia.
Qed.

(** C8. A trap from user space and back: [uservec] saves every register of the user in the
    trap frame and changes no other memory, enters the kernel with the stack, the hart
    number, the handler and the page table that the frame names, and [userret] gives the
    user all registers back as they were, but for [a0], which is what the kernel left in
    the frame. *)
Theorem trap_roundtrip m m2 :
  mmode m = false -> words m -> mmode m2 = false ->
  let u := csrs m Satp in let m1 := run_code uservec m in
  gpr m2 A0 = u ->
  (forall a, TRAPFRAME + 40 <= a < TRAPFRAME + 288 -> ~ (TRAPFRAME + 112 <= a < TRAPFRAME + 120) -> rd (memory_of u m2) a = rd (memory_of u m1) a) ->
  let m3 := run_code userret m2 in
  csrs m1 Satp = rd64 (memory m) TRAPFRAME /\ gpr m1 SP = rd64 (memory m) (TRAPFRAME + 8) /\
  gpr m1 T0 = rd64 (memory m) (TRAPFRAME + 16) /\ gpr m1 TP = rd64 (memory m) (TRAPFRAME + 32) /\
  rd64 (memory_of u m1) (TRAPFRAME + 112) = gpr m A0 /\
  (forall a, a < TRAPFRAME + 40 \/ TRAPFRAME + 288 <= a -> rd (memory_of u m1) a = rd (memory m) a) /\
  csrs m3 Satp = u /\ (forall r, r <> A0 -> gpr m3 r = gpr m r) /\ gpr m3 A0 = rd64 (memory_of u m2) (TRAPFRAME + 112).
Proof.
  intros Hm Hw Hm2 u m1 Ha Hsame m3. destruct (uservec_done m Hm Hw) as (Hs & Ho & Hsa & Hsp & Htp & Ht0). fold m1 u in Hs, Ho, Hsa, Hsp, Htp, Ht0.
  destruct (userret_done m2 Hm2) as (Hsa3 & Hr3). fold m3 in Hsa3, Hr3. rewrite Ha in Hsa3, Hr3. split_and!; try done.
  - apply Hs. by left.
  - intros r Hr. destruct (user_all r Hr) as [o Hro]. rewrite (Hr3 r o) by by right. rewrite <- (Hs r o) by by right. apply user_offs in Hro.
    apply rd64_ext. intros i Hi. apply Hsame; lia.
  - apply (Hr3 A0 112). by left.
Qed.

(** ** Timer interrupts *)

(** The scratch area of hart [id] in [timer_scratch], which is in the kernel's memory. *)
Definition scratch_of (timer_scratch id : Z) : Z := timer_scratch + 40 * id.
Record timer_ready (timer_scratch id : Z) (m : mach) : Prop := {
  tr_scratch : csrs m Mscratch = scratch_of timer_scratch id;
  tr_cmp : rd64 (memory_of 0 m) (scratch_of timer_scratch id + 24) = CLINT_MTIMECMP id;
  tr_int : rd64 (memory_of 0 m) (scratch_of timer_scratch id + 32) = interval }.

(** The registers that [timervec] uses. *)
Definition timer_frame : frame := [(A1, 0); (A2, 8); (A3, 16)].
Lemma timer_frame_ok : frame_ok 24 timer_frame.
Proof. frame_dec. Qed.
Definition timer_next : list instr := [Ld A1 24 A0; Ld A2 32 A0; Ld A3 0 A1; Add A3 A3 A2; Sd A3 0 A1; Li A1 2; Csrw Sip A1].
(** Setting SSIP leaves the other bits of [sip]. *)
Lemma sip_set old : Z.lor (Z.ldiff old 2) 2 = Z.lor old 2.
Proof.
  apply Z.bits_inj'. intros i Hi. rewrite !Z.lor_spec, Z.ldiff_spec.
  by destruct (Z.testbit old i), (Z.testbit 2 i).
Qed.
Lemma timer_next_done m p c : mmode m = true -> gpr m A0 = p -> 0 <= p -> p + 40 <= 2^64 -> rd64 (memory m) (p + 24) = c -> 0 <= c < 2^64 ->
  let m' := run_code timer_next m in
  memory m' = wr64 (memory m) c (u64 (rd64 (memory m) c + rd64 (memory m) (p + 32))) /\ mmode m' = true /\
  (forall k, csrs m' k = if decide (k = Sip) then Z.lor (csrs m Sip) 2 else csrs m k) /\ (forall r, r ∉ timer_frame.*1 -> gpr m' r = gpr m r).
Proof.
  intros Hm Hp Hp0 Hp1 Hc Hcr. unfold timer_next, run_code. cbn [foldl istep]. rewrite !memory_set_reg. cbn. updates. rewrite Hp.
  rewrite !(u64_small (p + _)) by lia. rewrite Hc, !Z.add_0_r, (u64_small c) by lia. split_and!; [|done| |].
  - unfold memory at 1, root. cbn. unfold root. cbn. rewrite Hm. by rewrite lookup_insert_eq.
  - intros k. unfold upd at 1. case_decide; [apply sip_set|done].
  - intros r Hr. unfold timer_frame in Hr. cbn in Hr. rewrite !not_elem_of_cons in Hr. destruct Hr as (H1 & H2 & H3 & _). by rewrite !upd_ne by done.
Qed.

(** C29. A timer interrupt is invisible to the code it interrupted: all registers and all
    memory but the first 24 bytes of the scratch area and the timer's comparison register
    are as they were. The next interrupt is one interval later, a software interrupt is
    pending for the kernel beside those that were, and the hart is ready for the next one. *)
Theorem timervec_transparent timer_scratch id m :
  mmode m = true -> words m -> 0 <= id < 8 -> KERNBASE <= timer_scratch -> timer_scratch + 40 * 8 <= PHYSTOP -> timer_ready timer_scratch id m ->
  let p := scratch_of timer_scratch id in let c := CLINT_MTIMECMP id in let m' := run_code timervec m in
  (forall r, gpr m' r = gpr m r) /\ timer_ready timer_scratch id m' /\ rd64 (memory m') c = u64 (rd64 (memory m) c + interval) /\
  (forall k, csrs m' k = if decide (k = Sip) then Z.lor (csrs m Sip) 2 else csrs m k) /\
  (forall a, ~ (p <= a < p + 24) -> ~ (c <= a < c + 8) -> rd (memory m') a = rd (memory m) a).
Proof.
  intros Hm Hw Hid Ht1 Ht2 [Rs Rc Ri] p c m'. fold p in Rs, Rc, Ri. fold c in Rc. assert (memory_of 0 m = memory m) as E0 by (unfold memory, root; by rewrite Hm).
  rewrite E0 in Rc, Ri. assert (0 <= c < p /\ c + 8 <= p /\ p + 40 <= 2^64) as (Hc1 & Hc2 & Hp) by (unfold c, p, scratch_of, CLINT_MTIMECMP, CLINT, PHYSTOP, KERNBASE in *; lia).
  set (m0 := set_csr Mscratch (gpr m A0) (set_reg A0 p m)).
  assert (m' = run_code (saves A0 timer_frame ++ timer_next ++ loads A0 (reverse timer_frame) ++ [Csrrw A0 Mscratch A0]) m0) as ->.
  { unfold m'. change timervec with (Csrrw A0 Mscratch A0 :: saves A0 timer_frame ++ timer_next ++ loads A0 (reverse timer_frame) ++ [Csrrw A0 Mscratch A0]).
    unfold run_code at 1. cbn [foldl istep]. by rewrite Rs. }
  rewrite !run_app, (run_saves 24) by (done || apply timer_frame_ok || (change (gpr m0 A0) with p; lia)). change (gpr m0 A0) with p. change (memory m0) with (memory m).
  set (x := saved timer_frame p (gpr m0) (memory m)). set (m1 := set_memory x m0).
  assert (forall a, a < p \/ p + 24 <= a -> rd x a = rd (memory m) a) as Hx.
  { intros a Ha. apply saved_other. intros [r o] Hr. pose proof (frame_bounds _ _ _ _ timer_frame_ok Hr). simpl. lia. }
  assert (forall a, a + 8 <= p \/ p + 24 <= a -> rd64 x a = rd64 (memory m) a) as Hx64 by (intros a Ha; apply rd64_ext; intros i Hi; apply Hx; lia).
  assert (memory m1 = x) as Em1 by apply memory_set.
  destruct (timer_next_done m1 p c) as (Ey & Em2 & Ec2 & Eg2); [done|done|lia|lia|rewrite Em1, Hx64 by lia; exact Rc|lia|].
  rewrite Em1, !Hx64, Ri in Ey by lia. set (m2 := run_code timer_next m1) in *. clearbody m2. set (y := wr64 x c _) in Ey.
  assert (gpr m2 A0 = p) as Ea2 by (rewrite Eg2; [done|frame_dec]).
  destruct (run_loads A0 (reverse timer_frame) m2) as (Em & Ec & Es & Hl & Ho); [frame_dec|apply base_kept; frame_dec|].
  set (m3 := run_code (loads A0 (reverse timer_frame)) m2) in *. clearbody m3.
  assert (memory m3 = y) as Em3 by (unfold memory, root; rewrite Em, Es; rewrite <- Ey; unfold memory, root; by rewrite Em2).
  change (run_code [Csrrw A0 Mscratch A0] m3) with (set_csr Mscratch (gpr m3 A0) (set_reg A0 (csrs m3 Mscratch) m3)).
  assert (gpr m3 A0 = p) as Ea3 by (rewrite Ho; [done|frame_dec]). rewrite Ea3, Ec, (Ec2 Mscratch). simpl. rewrite upd_eq.
  set (m4 := set_csr Mscratch p (set_reg A0 (gpr m A0) m3)).
  assert (memory m4 = y /\ memory_of 0 m4 = y) as [Em4 Em4'] by (split; rewrite <- Em3; unfold memory, memory_of, root; cbn; by rewrite Em, Em2).
  assert (forall a, a + 8 <= c \/ c + 8 <= a -> rd64 y a = rd64 x a) as Hy by (intros a Ha; by apply rd64_wr64_ne).
  rewrite Em4. split_and!.
  - intros r. unfold upd. case_decide as E; [by subst r|]. destruct (decide (r ∈ timer_frame.*1)) as [Hr|Hr].
    + apply list_elem_of_fmap in Hr as ([? o] & -> & Hin). pose proof (frame_bounds _ _ _ _ timer_frame_ok Hin) as [Ho1 Ho2]. cbn [fst].
      rewrite (Hl r0 o) by by apply elem_of_reverse. rewrite Ea2, Ey, u64_small, Hy by lia.
      etransitivity; [exact (saved_at 24 timer_frame p (gpr m0) timer_frame_ok (memory m) r0 o Hin)|]. unfold m0. cbn. rewrite upd_ne by done. by apply u64_small.
    + rewrite Ho by by rewrite fmap_reverse, elem_of_reverse. rewrite Eg2 by done. unfold m1, m0. cbn. by apply upd_ne.
  - split; [apply upd_eq| |]; rewrite Em4', Hy, Hx64 by lia; done.
  - unfold y. rewrite rd64_wr64. unfold u64. by rewrite Z.mod_mod.
  - intros k. unfold upd. case_decide as E; [by subst k|]. rewrite Ec, Ec2. case_decide; [done|]. unfold m1, m0. cbn. by apply upd_ne.
  - intros a Ha1 Ha2. unfold y. rewrite rd_wr64_ne by lia. apply Hx. lia.
Qed.

(** ** Starting *)

Lemma memory_set_csr c v m : mmode m = true -> memory (set_csr c v m) = memory m.
Proof. intros Hm. unfold memory, root. cbn. by rewrite Hm. Qed.
(** Each hart has 4096 bytes of [stack0] of its own. *)
Lemma entry_stack stack0 m : 0 <= stack0 -> stack0 + 4096 * 8 < 2^64 -> 0 <= csrs m Mhartid < 8 ->
  gpr (run_code (entry_code stack0) m) SP = stack0 + 4096 * csrs m Mhartid + 4096.
Proof.
  intros H0 H1 Hid. unfold entry_code, run_code. cbn [foldl istep]. unfold set_reg. cbn [gpr csrs]. updates. change (u64 (1024 * 4)) with 4096.
  rewrite (u64_small stack0), (u64_small (csrs m Mhartid + 1)) by lia. rewrite (u64_small (4096 * _)), u64_small by lia. lia.
Qed.

Lemma mpp_supervisor x : Z.land (Z.shiftr (Z.lor (Z.lor (Z.ldiff x MSTATUS_MPP_MASK) MSTATUS_MPP_S) MSTATUS_MIE) 11) 3 = 1.
Proof.
  apply Z.bits_inj'. intros n Hn.
  rewrite Z.land_spec, Z.shiftr_spec, !Z.lor_spec, Z.ldiff_spec, !Z.shiftl_spec by lia. replace (n + 11 - 11) with n by lia.
  destruct (decide (n = 0)) as [->|]; [by destruct (Z.testbit x _)|]. destruct (decide (n = 1)) as [->|]; [by destruct (Z.testbit x _)|].
  rewrite !(Z.bits_above_log2 3), !(Z.bits_above_log2 1) by (simpl; lia). by rewrite !andb_false_r.
Qed.

Ltac after_start := match goal with m' := start _ _ _ _ |- _ => unfold m', start, timerinit, st64; cbn [csrs gpr mmode set_csr set_reg set_memory]; updates end.

(** [start] leaves the hart so that [mret] enters [main] in supervisor mode with no page
    table, interrupts of devices, the timer and software enabled there, its number in
    [tp], and the timer set up: the first interrupt is one interval away, and
    [timervec] finds what it needs. *)
Lemma start_enters_main main vec timer_scratch id m :
  mmode m = true -> csrs m Mhartid = id -> 0 <= id < 8 -> KERNBASE <= timer_scratch -> timer_scratch + 40 * 8 <= PHYSTOP ->
  let m' := start main vec timer_scratch m in
  mpp m' = 1 /\ csrs m' Mepc = main /\ csrs m' Satp = 0 /\ csrs m' Mtvec = vec /\ gpr m' TP = id /\
  Z.testbit (csrs m' Mstatus) 3 = true /\ Z.testbit (csrs m' Mie) 7 = true /\
  (Z.testbit (csrs m' Sie) 1 && Z.testbit (csrs m' Sie) 5 && Z.testbit (csrs m' Sie) 9 = true) /\
  timer_ready timer_scratch id m' /\ rd64 (memory m') (CLINT_MTIMECMP id) = u64 (rd64 (memory m) CLINT_MTIME + interval).
Proof.
  intros Hm Hid Hr Ht1 Ht2 m'. assert (i32 id = id) as Ei by (apply i32_small; lia).
  set (c := CLINT_MTIMECMP id). set (p := scratch_of timer_scratch id).
  assert (0 <= c < p /\ c + 8 <= p) as [Hc1 Hc2] by (unfold c, p, scratch_of, CLINT_MTIMECMP, CLINT, PHYSTOP, KERNBASE in *; lia).
  set (v := u64 (rd64 (memory m) CLINT_MTIME + interval)).
  assert (memory m' = wr64 (wr64 (wr64 (memory m) c v) (p + 24) c) (p + 32) interval) as Em.
  { unfold m', start, timerinit, st64. cbn zeta. rewrite memory_set_reg. repeat ((rewrite memory_set_csr by done) || rewrite memory_set).
    cbn [csrs set_csr set_reg set_memory]. updates. rewrite Hid, Ei. done. }
  assert (memory_of 0 m' = memory m') as E0 by (unfold memory_of, memory, root; by rewrite (Hm : mmode m' = true)).
  assert (csrs m' Mscratch = p) as Es by (after_start; by rewrite Hid, Ei).
  split; [unfold mpp; after_start; apply mpp_supervisor|]. split; [by after_start|]. split; [by after_start|]. split; [by after_start|].
  split; [after_start; rewrite Hid, Ei; apply u64_small; lia|]. split; [after_start; rewrite Z.lor_spec; apply orb_true_r|].
  split; [after_start; rewrite Z.lor_spec; apply orb_true_r|]. split; [after_start; rewrite !Z.lor_spec; cbn; by rewrite !orb_true_r|]. split.
  - split; [done|..]; fold p; rewrite E0, Em; [rewrite rd64_wr64_ne, rd64_wr64 by lia; apply u64_small; unfold c, CLINT_MTIMECMP, CLINT; lia|by rewrite rd64_wr64].
  - rewrite Em, !rd64_wr64_ne, rd64_wr64 by lia. unfold v, u64. by rewrite Z.mod_mod.
Qed.

(** ** A hart that switches, traps and ticks *)

Definition demo_hart (machine : bool) : mach :=
  mk_mach machine (fun r => match r with A0 => 4096 | A1 => 8192 | RA => 11 | SP => 65536 | S0 => 13 | _ => 7 end) (fun c => match c with Mhartid => 2 | _ => 0 end) ∅.
Lemma demo_words b : words (demo_hart b).
Proof. intros r. destruct r; cbn; lia. Qed.

Lemma swtch_resumes_witness :
  let m1 := run_code swtch_code (demo_hart false) in let m2 := set_reg A0 12288 (set_reg A1 4096 m1) in
  gpr m1 RA = 0 /\ gpr (run_code swtch_code m2) RA = 11 /\ gpr (run_code swtch_code m2) S0 = 13.
Proof.
  intros m1 m2. assert (gpr m2 A0 = 12288 /\ gpr m2 A1 = 4096) as [E0 E1] by (unfold m2, set_reg; cbn [gpr]; by updates).
  destruct (swtch_resumes (demo_hart false) m2) as [Hr _];
    [split; cbn; lia|split; cbn; lia|left; cbn; lia|apply demo_words|exact E1|rewrite E0; split; lia|rewrite E0; right; cbn; lia|by intros a _; unfold m2; rewrite !memory_set_reg|].
  destruct (Hr RA 0) as [H1 H2]; [by left|]. destruct (Hr S0 16) as [_ H3]; [do 2 right; by left|].
  split; [unfold m1; rewrite H1; reflexivity|]. split; [exact H2|exact H3].
Defined.
Lemma kernelvec_transparent_witness :
  let trap m := set_reg A0 0 (set_reg TP 5 m) in
  gpr (kernelvec trap (demo_hart false)) A0 = 4096 /\ gpr (kernelvec trap (demo_hart false)) SP = 65536 /\ gpr (kernelvec trap (demo_hart false)) TP = 5.
Proof.
  intros trap. destruct (kernelvec_transparent trap (demo_hart false)) as (Hr & Ht & _);
    [apply demo_words|cbn; lia|unfold trap, set_reg; cbn [gpr]; by updates|by intros a _; unfold trap; rewrite !memory_set_reg|].
  split; [exact (Hr A0 ltac:(done))|]. split; [exact (Hr SP ltac:(done))|]. rewrite Ht. unfold trap, set_reg. cbn [gpr]. by updates.
Defined.
Lemma trap_roundtrip_witness :
  let m1 := run_code uservec (demo_hart false) in
  let m2 := set_reg A0 0 (set_memory (wr64 (memory m1) (TRAPFRAME + 112) 42) m1) in
  gpr (run_code userret m2) A0 = 42 /\ gpr (run_code userret m2) A1 = 8192 /\ gpr (run_code userret m2) SP = 65536.
Proof.
  intros m1 m2. assert (root m1 = 0 /\ mmode m1 = false) as [Er Em] by (vm_compute; split; reflexivity).
  pose proof (trap_roundtrip (demo_hart false) m2 eq_refl (demo_words false)) as T. cbv zeta in T. fold m1 in T. change (csrs (demo_hart false) Satp) with 0 in T.
  clearbody m1. assert (memory_of 0 m1 = memory m1) as Eu1 by (unfold memory; by rewrite Er).
  assert (memory_of 0 m2 = wr64 (memory m1) (TRAPFRAME + 112) 42) as Eu by (unfold memory_of, m2, set_reg, set_memory; cbn [space]; by rewrite Er, lookup_insert_eq).
  rewrite Eu, Eu1 in T. destruct T as (_ & _ & _ & _ & _ & _ & _ & Hr & Ha).
  - exact Em.
  - unfold m2, set_reg. cbn [gpr]. by updates.
  - intros a _ Hout. apply rd_wr64_ne. lia.
  - split; [rewrite Ha; apply rd64_wr64|]. split; [exact (Hr A1 ltac:(done))|exact (Hr SP ltac:(done))].
Defined.
Lemma timervec_transparent_witness :
  let m := start 0x80001000 0x80002000 0x80010000 (demo_hart true) in
  gpr (run_code timervec m) A1 = 8192 /\ rd64 (memory (run_code timervec m)) (CLINT_MTIMECMP 2) = 2000000 /\ csrs (run_code timervec m) Sip = 2.
Proof.
  intros m. destruct (start_enters_main 0x80001000 0x80002000 0x80010000 2 (demo_hart true)) as (_ & _ & _ & _ & _ & _ & _ & _ & Hready & Hcmp);
    [exact eq_refl|exact eq_refl|lia|unfold KERNBASE; lia|unfold PHYSTOP, KERNBASE; lia|]. fold m in Hready, Hcmp.
  destruct (timervec_transparent 0x80010000 2 m) as (Hr & _ & Ht & Hc & _); [exact eq_refl| |lia|unfold KERNBASE; lia|unfold PHYSTOP, KERNBASE; lia|exact Hready|].
  - intros r. change (0 <= upd (gpr (demo_hart true)) TP (u64 (i32 2)) r < 2^64). unfold upd. case_decide; [apply u64_range|apply demo_words].
  - split; [exact (Hr A1)|]. split; [|exact (Hc Sip)]. rewrite Ht, Hcmp. vm_compute. reflexivity.
Defined.
