(* ===== verification/Umalloc.v ===== *)
(** * The allocator of user programs

    [user/umalloc.c]: [malloc] and [free] over [sbrk]. Headers are a map from their
    addresses to the pointer and the size they hold, the size in units of a header,
    16 bytes. The free blocks form a ring through the static variable [base]. *)

From stdpp Require Import sorting.
From S2P Require Import Prelude.

Record heap : Type := mk_heap {
  h_mem : gmap Z (Z * Z);
  h_freep : Z;
  h_brk : Z }.
Definition up_hmem (f : gmap Z (Z * Z) -> gmap Z (Z * Z)) (h : heap) : heap := mk_heap (f (h_mem h)) (h_freep h) (h_brk h).
Definition set_freep (p : Z) (h : heap) : heap := mk_heap (h_mem h) p (h_brk h).

(** The address of [base], and whether the kernel lets the break move from an address by
    a number of bytes. *)
Class UHeap : Type := {
  base : Z;
  sbrk_grants : Z -> Z -> bool }.

(** sizeof(Header) *)
Definition HDR : Z := 16.

Section umalloc.
Context `{UHeap}.

Definition hdr (a : Z) : M heap (Z * Z) := let! m := gets h_mem in must (m !! a).
Definition set_hdr (a : Z) (h : Z * Z) : M heap unit := modify (up_hmem (<[a := h]>)).

(** [a->s.size = n]; the pointer of a header that was not written before is not read. *)
Definition set_size (a n : Z) : M heap unit := modify (up_hmem (fun m => <[a := (default 0 (fst <$> m !! a), n)]> m)).

(** [sbrk(n)]: [n] is an [int]; the old break, or -1. *)
Definition sbrk (n : Z) : M heap Z := fun h =>
  if sbrk_grants (h_brk h) (i32 n) then Done (h_brk h) (mk_heap (h_mem h) (h_freep h) (h_brk h + i32 n))
  else Done (-1) h.

(** The block of the ring after which [bp] belongs. *)
Fixpoint free_find (k : nat) (bp p : Z) : M heap Z :=
  match k with
  | O => nofuel
  | S k' =>
      let! x := hdr p in
      if (p <? bp) && (bp <? x.1) then ret p
      else if (x.1 <=? p) && ((p <? bp) || (bp <? x.1)) then ret p
      else free_find k' bp x.1
  end.

Definition ufree (ap : Z) : M heap unit :=
  let bp := ap - HDR in
  let! m := gets h_mem in
  let! f := gets h_freep in
  let! p := free_find (S (size m)) bp f in
  let! b := hdr bp in
  let! x := hdr p in
  (if bp + HDR * b.2 =? x.1 then
     let! n := hdr x.1 in
     set_hdr bp (n.1, u32 (b.2 + n.2))
   else set_hdr bp (x.1, b.2)) ;;;
  let! b := hdr bp in
  let! x := hdr p in
  (if p + HDR * x.2 =? bp then set_hdr p (b.1, u32 (x.2 + b.2)) else set_hdr p (bp, x.2)) ;;;
  modify (set_freep p).

(** [nu * sizeof(Header)] is computed in 64 bits and passed as an [int]. *)
Definition morecore (nu : Z) : M heap Z :=
  let nu := if nu <? 4096 then 4096 else nu in
  let! p := sbrk (nu * HDR) in
  if p =? -1 then ret 0
  else
    set_size p nu ;;;
    ufree (p + HDR) ;;;
    gets h_freep.

(** Cutting [nunits] from the block [p], the successor of [prevp]. *)
Definition carve (nunits prevp p : Z) : M heap Z :=
  let! x := hdr p in
  let! p := (if x.2 =? nunits then
               let! pr := hdr prevp in
               set_hdr prevp (x.1, pr.2) ;;; ret p
             else
               let rest := u32 (x.2 - nunits) in
               set_hdr p (x.1, rest) ;;;
               let p := p + HDR * rest in
               set_size p nunits ;;; ret p) in
  modify (set_freep prevp) ;;;
  ret (p + HDR).
Fixpoint malloc_loop (k : nat) (nunits prevp p : Z) : M heap Z :=
  match k with
  | O => nofuel
  | S k' =>
      let! x := hdr p in
      if nunits <=? x.2 then carve nunits prevp p
      else
        let! f := gets h_freep in
        if p =? f then
          let! p := morecore nunits in
          if p =? 0 then ret 0 else let! x := hdr p in malloc_loop k' nunits p x.1
        else malloc_loop k' nunits p x.1
  end.
Definition nunits_of (nbytes : Z) : Z := u32 ((nbytes + HDR - 1) / HDR + 1).
Definition malloc (nbytes : Z) : M heap Z :=
  let nunits := nunits_of nbytes in
  let! f := gets h_freep in
  let! prevp := (if f =? 0 then
                   modify (set_freep base) ;;;
                   set_hdr base (base, 0) ;;;
                   ret base
                 else ret f) in
  let! x := hdr prevp in
  let! m := gets h_mem in
  malloc_loop (2 * size m + 4) nunits prevp x.1.
End umalloc.

(** ** The ring of free blocks *)

Notation block := (Z * Z)%type.

(** The headers of [l] are linked in this order, the last one to [e]. *)
Definition first (l : list block) (e : Z) : Z := match l with [] => e | x :: _ => x.1 end.
Fixpoint seg (m : gmap Z (Z * Z)) (l : list block) (e : Z) : Prop :=
  match l with
  | [] => True
  | x :: l' => m !! x.1 = Some (first l' e, x.2) /\ seg m l' e
  end.

Lemma first_app l1 l2 e : first (l1 ++ l2) e = first l1 (first l2 e).
Proof. by destruct l1. Qed.
Lemma seg_app m l1 l2 e : seg m (l1 ++ l2) e <-> seg m l1 (first l2 e) /\ seg m l2 e.
Proof. induction l1 as [|x l1 IH]; simpl; [tauto|]. rewrite IH, first_app. tauto. Qed.
Lemma seg_insert m l e a v : seg m l e -> a ∉ l.*1 -> seg (<[a := v]> m) l e.
Proof.
  induction l as [|x l IH]; simpl; [done|]. intros [Hx Hs] Ha. rewrite not_elem_of_cons in Ha. destruct Ha as [Hne Ha].
  split; [by rewrite lookup_insert_ne|]. by apply IH.
Qed.
Lemma seg_at m l e x : seg m l e -> x ∈ l -> exists p, m !! x.1 = Some (p, x.2).
Proof. induction l as [|y l IH]; [set_solver|]. intros [Hy Hs] [->|Hx]%elem_of_cons; [eauto|by apply IH]. Qed.
(** A ring can be read from any of its blocks. *)
Lemma ring_rotate m l1 l2 e : seg m (l1 ++ l2) e -> e = first (l1 ++ l2) e -> seg m (l2 ++ l1) (first (l2 ++ l1) e).
Proof.
  intros [H1 H2]%seg_app Ee. destruct l2 as [|y l2]; [rewrite app_nil_r in *; simpl in H1 |- *; by rewrite <- Ee|].
  destruct l1 as [|x l1]; [rewrite app_nil_r in *; simpl in Ee |- *; by subst|]. simpl in Ee. subst e.
  apply seg_app. split; [exact H2|exact H1].
Qed.

(** Blocks do not overlap. *)
Definition apart (x y : block) : Prop := x.1 + HDR * x.2 <= y.1 \/ y.1 + HDR * y.2 <= x.1.
Fixpoint disjoint_blocks (l : list block) : Prop :=
  match l with [] => True | x :: l' => (forall y, y ∈ l' -> apart x y) /\ disjoint_blocks l' end.
(** The blocks of the ring are in the order of their addresses, with gaps between them. *)
Definition before (x y : block) : Prop := x.1 + HDR * x.2 < y.1.
Definition units (l : list block) : Z := foldr (fun x n => x.2 + n) 0 l.

Lemma apart_sym x y : apart x y -> apart y x.
Proof. unfold apart. tauto. Qed.
#[global] Instance disjoint_blocks_perm : Proper ((≡ₚ) ==> iff) disjoint_blocks.
Proof.
  assert (forall l1 l2, l1 ≡ₚ l2 -> disjoint_blocks l1 -> disjoint_blocks l2) as G.
  { induction 1 as [|x l1 l2 Hp IH|x y l|l1 l2 l3 H1 IH1 H2 IH2]; simpl; [done| |  |tauto].
    - intros [Hx Hd]. split; [|by apply IH]. intros y Hy. apply Hx. by rewrite Hp.
    - intros [Hy [Hx Hd]]. split; [|split; [|done]].
      + intros z [->|Hz]%elem_of_cons; [apply apart_sym, Hy; set_solver|by apply Hx].
      + intros z Hz. apply Hy. set_solver. }
  intros l1 l2 Hp. split; apply G; by rewrite Hp.
Qed.
Lemma disjoint_app l1 l2 x y : disjoint_blocks (l1 ++ l2) -> x ∈ l1 -> y ∈ l2 -> apart x y.
Proof. induction l1 as [|z l1 IH]; simpl; [set_solver|]. intros [Hz Hd] [->|Hx]%elem_of_cons Hy; [apply Hz; set_solver|by apply IH]. Qed.
#[global] Instance units_perm : Proper ((≡ₚ) ==> eq) units.
Proof. intros l1 l2 Hp. unfold units. induction Hp; simpl; lia. Qed.
Lemma units_app l1 l2 : units (l1 ++ l2) = units l1 + units l2.
Proof. unfold units. induction l1 as [|x l1 IH]; simpl; [done|]. lia. Qed.

Lemma units_nonneg bs : (forall x, x ∈ bs -> 1 <= x.2) -> 0 <= units bs.
Proof.
  unfold units. induction bs as [|x bs IH]; intros Hs; simpl; [done|]. pose proof (Hs x ltac:(set_solver)). assert (0 <= foldr (fun x n => x.2 + n) 0 bs) by (apply IH; set_solver). lia.
Qed.

(** Blocks that cover the memory from [a] to [b] without overlap. *)
Record good (a b : Z) (bs : list block) : Prop := {
  gd_size x : x ∈ bs -> 1 <= x.2;
  gd_range x : x ∈ bs -> a <= x.1 /\ x.1 + HDR * x.2 <= b;
  gd_disj : disjoint_blocks bs;
  gd_units : HDR * units bs = b - a }.
#[global] Instance good_perm a b : Proper ((≡ₚ) ==> iff) (good a b).
Proof.
  assert (forall l1 l2, l1 ≡ₚ l2 -> good a b l1 -> good a b l2) as G.
  { intros l1 l2 Hp [H1 H2 H3 H4]. split; [intros x; rewrite <- Hp; apply H1|intros x; rewrite <- Hp; apply H2|by rewrite <- Hp|by rewrite <- Hp]. }
  intros l1 l2 Hp. split; apply G; by rewrite Hp.
Qed.
(** Two blocks next to each other are as good as one. *)
Lemma good_merge a b x s s' bs :
  1 <= s -> 1 <= s' -> good a b ((x, s + s') :: bs) <-> good a b ((x, s) :: (x + HDR * s, s') :: bs).
Proof.
  intros Hs Hs'. unfold HDR. split; intros [H1 H2 H3 H4]; split; cbn [disjoint_blocks units foldr snd fst] in *.
  - intros y [->|[->|Hy]%elem_of_cons]%elem_of_cons; [done|done|]. apply H1. set_solver.
  - destruct (H2 _ ltac:(left)) as [H5 H6]. simpl in *. unfold HDR in *. intros y [->|[->|Hy]%elem_of_cons]%elem_of_cons; simpl; [lia|lia|apply H2; set_solver].
  - destruct H3 as [H5 H6]. unfold apart, HDR in *. simpl in *. split_and!; [|intros y Hy; specialize (H5 y Hy); lia|done].
    intros y [->|Hy]%elem_of_cons; simpl; [lia|]. specialize (H5 y Hy). lia.
  - unfold HDR in *. lia.
  - intros y [->|Hy]%elem_of_cons; simpl; [lia|]. apply H1. set_solver.
  - destruct (H2 _ ltac:(left)) as [H5 H6]. destruct (H2 (x + 16 * s, s') ltac:(set_solver)) as [H7 H8]. simpl in *. unfold HDR in *.
    intros y [->|Hy]%elem_of_cons; simpl; [lia|apply H2; set_solver].
  - destruct H3 as (H5 & H6 & H7). split; [|done]. intros y Hy. specialize (H5 y ltac:(set_solver)). specialize (H6 y Hy).
    specialize (H1 y ltac:(set_solver)). unfold apart, HDR in *. simpl in *. lia.
  - unfold HDR in *. lia.
Qed.
Lemma good_apart a b x y bs : good a b (x :: y :: bs) -> apart x y.
Proof. intros G. apply (gd_disj _ _ _ G). set_solver. Qed.

Section ring.
Context `{UHeap} (heap0 : Z).

(** The heap with the free blocks [l] and the blocks [used] handed out: together they are
    the memory from [heap0] to the break. *)
Record heap_ok (h : heap) (l used : list block) : Prop := {
  ho_base : 0 < base /\ base + HDR <= heap0;
  ho_ring : seg (h_mem h) ((base, 0) :: l) base;
  ho_sorted : StronglySorted before ((base, 0) :: l);
  ho_freep : h_freep h ∈ ((base, 0) :: l).*1;
  ho_used x : x ∈ used -> exists p, h_mem h !! x.1 = Some (p, x.2);
  ho_good : good heap0 (h_brk h) (l ++ used);
  ho_max : h_brk h < 2^36 }.

(** ** Finding the place of a block *)

Lemma hdr_done a v h : h_mem h !! a = Some v -> hdr a h = Done v h.
Proof. intros E. unfold hdr. mrun. by rewrite E. Qed.

Section find.
Variables (h : heap) (bp : Z).
Hypothesis bp_base : base < bp.

(** From a block below [bp] to the last one below it. *)
Lemma find_forward mid : forall t Q k,
  seg (h_mem h) (mid ++ t :: Q) base -> StronglySorted before (mid ++ t :: Q) -> (forall x, x ∈ mid ++ t :: Q -> base <= x.1 /\ 0 <= x.2) ->
  (forall x, x ∈ mid ++ [t] -> x.1 < bp) -> (forall x, x ∈ Q -> bp < x.1) -> (length mid < k)%nat ->
  free_find k bp (first (mid ++ [t]) 0) h = Done t.1 h.
Proof.
  induction mid as [|y mid IH]; intros t Q k Hs Ho Hb Hlt Hgt Hk; (destruct k as [|k]; [simpl in Hk; lia|]); simpl free_find.
  - destruct Hs as [Ht _]. unfold bind at 1. rewrite (hdr_done _ _ _ Ht). cbn [fst snd].
    assert (t.1 < bp) by (apply Hlt; set_solver). rewrite (proj2 (Z.ltb_lt _ _)) by done. destruct Q as [|q Q]; cbn [first andb orb].
    + rewrite (proj2 (Z.ltb_ge bp base)) by lia. cbn [andb orb]. destruct (Hb t); [set_solver|]. rewrite (proj2 (Z.leb_le base t.1)) by lia. done.
    + rewrite (proj2 (Z.ltb_lt bp q.1)); [done|]. apply Hgt. set_solver.
  - destruct Hs as [Hy Hs]. unfold bind at 1. rewrite (hdr_done _ _ _ Hy). cbn [fst snd]. set (n := first (mid ++ t :: Q) base).
    assert (n = first (mid ++ [t]) 0) as En by (unfold n; by destruct mid).
    apply StronglySorted_cons in Ho as [Hh Ho]. rewrite Forall_forall in Hh.
    assert (n < bp /\ y.1 < n) as [Hn1 Hn2].
    { destruct (Hb y); [set_solver|]. unfold n, before, HDR in *. destruct mid as [|z mid]; simpl.
      - split; [apply Hlt; set_solver|]. specialize (Hh t ltac:(set_solver)). lia.
      - split; [apply Hlt; set_solver|]. specialize (Hh z ltac:(set_solver)). lia. }
    rewrite (proj2 (Z.ltb_ge bp n)), andb_false_r by lia. rewrite (proj2 (Z.leb_gt n y.1)) by lia. cbn [andb]. rewrite En.
    apply (IH t Q); [done|done|set_solver|set_solver|done|simpl in Hk; lia].
Qed.
(** From a block above [bp] around to [base]. *)
Lemma find_around R : forall k,
  seg (h_mem h) R base -> StronglySorted before R -> (forall x, x ∈ R -> base <= x.1 /\ 0 <= x.2) -> (forall x, x ∈ R -> bp < x.1) ->
  free_find (length R + k) bp (first R base) h = free_find k bp base h.
Proof.
  induction R as [|y R IH]; intros k Hs Ho Hb Hgt; [done|]. destruct Hs as [Hy Hs]. cbn [length first Nat.add free_find].
  unfold bind at 1. rewrite (hdr_done _ _ _ Hy). cbn [fst snd]. assert (bp < y.1) by (apply Hgt; set_solver).
  rewrite (proj2 (Z.ltb_ge y.1 bp)) by lia. cbn [andb orb]. apply StronglySorted_cons in Ho as [Hh Ho]. rewrite Forall_forall in Hh.
  assert ((first R base <=? y.1) && (bp <? first R base) = false) as ->.
  { destruct R as [|z R]; simpl; [rewrite (proj2 (Z.ltb_ge bp base)) by lia; apply andb_false_r|].
    specialize (Hh z ltac:(set_solver)). destruct (Hb y); [set_solver|]. unfold before, HDR in Hh. rewrite (proj2 (Z.leb_gt z.1 y.1)) by lia. done. }
  apply IH; [done|done|set_solver|set_solver].
Qed.
End find.

(** A ring split at an address. *)
Lemma split_at bp x l :
  StronglySorted before (x :: l) -> (forall y, y ∈ x :: l -> 0 <= y.2) -> x.1 < bp -> (forall y, y ∈ l -> y.1 <> bp) ->
  exists P t Q, x :: l = P ++ t :: Q /\ (forall y, y ∈ P ++ [t] -> y.1 < bp) /\ (forall y, y ∈ Q -> bp < y.1).
Proof.
  revert x. induction l as [|z l IH]; intros x Ho Hz Hx Hne; [exists [], x, []; set_solver|].
  destruct (decide (z.1 < bp)) as [Hlt|Hge].
  - apply StronglySorted_cons in Ho as [_ Ho]. destruct (IH z) as (P & t & Q & E & HP & HQ); [done|set_solver|done|set_solver|].
    exists (x :: P), t, Q. rewrite E. split_and!; [done| |done]. intros y [->|Hy]%elem_of_cons; [done|by apply HP].
  - exists [], x, (z :: l). split_and!; [done|set_solver|]. apply StronglySorted_cons in Ho as [_ Ho]. apply StronglySorted_cons in Ho as [Hh _].
    rewrite Forall_forall in Hh. assert (z.1 <> bp) by (apply Hne; set_solver). intros y [->|Hy]%elem_of_cons; [lia|].
    specialize (Hh y Hy). specialize (Hz z ltac:(set_solver)). unfold before, HDR in Hh. lia.
Qed.

(** ** Putting a block into the ring *)

(** [b] in front of [Q], joined with its first block if they touch. *)
Definition merge (b : block) (Q : list block) : list block :=
  match Q with
  | q :: Q' => if b.1 + HDR * b.2 =? q.1 then (b.1, b.2 + q.2) :: Q' else b :: Q
  | [] => [b]
  end.

Lemma merge_good lo hi b Q rest : good lo hi (b :: Q ++ rest) -> good lo hi (merge b Q ++ rest).
Proof.
  intros G. destruct Q as [|q Q]; [done|]. simpl. destruct (Z.eqb_spec (b.1 + HDR * b.2) q.1) as [E|]; [|done].
  destruct b as [x s], q as [y s']. simpl in *. subst y. apply good_merge; [apply (gd_size _ _ _ G (x, s)); set_solver|apply (gd_size _ _ _ G (x + HDR * s, s')); set_solver|done].
Qed.
Lemma merge_sorted b Q :
  StronglySorted before Q -> (forall y, y ∈ Q -> b.1 + HDR * b.2 <= y.1 /\ 1 <= y.2) -> StronglySorted before (merge b Q).
Proof.
  intros Ho Hb. destruct Q as [|q Q]; simpl; [repeat constructor|]. apply StronglySorted_cons in Ho as [Hq Ho]. rewrite Forall_forall in Hq.
  destruct (Z.eqb_spec (b.1 + HDR * b.2) q.1) as [E|Hne]; apply StronglySorted_cons; (split; [apply Forall_forall|]); unfold before, HDR in *; simpl.
  - intros y Hy. specialize (Hq y Hy). lia.
  - done.
  - destruct (Hb q); [set_solver|]. intros y [->|Hy]%elem_of_cons; [lia|]. specialize (Hq y Hy). lia.
  - apply StronglySorted_cons. split; [by apply Forall_forall|done].
Qed.
Lemma merge_elem b Q y : y ∈ merge b Q -> y.1 = b.1 \/ y ∈ Q.
Proof. destruct Q as [|q Q]; simpl; [set_solver|]. case_match; intros [->|Hy]%elem_of_cons; set_solver. Qed.
Lemma merge_len b Q : (length (merge b Q) <= S (length Q))%nat.
Proof. destruct Q as [|q Q]; simpl; [done|]. case_match; simpl; lia. Qed.
Lemma merge_first b Q e : first (merge b Q) e = b.1.
Proof. destruct Q as [|q Q]; simpl; [done|]. by case_match. Qed.

(** In the memory: [bp] gets its successor, then [t]. *)
Lemma seg_next m b Q p :
  seg m Q base -> m !! b.1 = Some (p, b.2) -> b.1 ∉ Q.*1 -> base < b.1 -> 0 <= b.2 -> (forall y, y ∈ Q -> 0 <= y.2 /\ 0 <= b.2 + y.2 < 2^32) ->
  exists v, (if b.1 + HDR * b.2 =? first Q base then
         exists n, m !! first Q base = Some n /\ v = (n.1, u32 (b.2 + n.2))
       else v = (first Q base, b.2)) /\ seg (<[b.1 := v]> m) (merge b Q) base.
Proof.
  intros Hs Hb Hn Hbase Hsz Hu. destruct Q as [|q Q]; simpl in *.
  - rewrite (proj2 (Z.eqb_neq _ _)) by (unfold HDR; lia). exists (base, b.2). split; [done|]. by rewrite lookup_insert_eq.
  - destruct Hs as [Hq Hs]. rewrite not_elem_of_cons in Hn. destruct Hn as [Hn1 Hn2]. destruct (Z.eqb_spec (b.1 + HDR * b.2) q.1) as [E|Hne]; simpl.
    + exists (first Q base, u32 (b.2 + q.2)). split; [by eexists|]. destruct (Hu q); [set_solver|]. rewrite u32_small by lia.
      rewrite lookup_insert_eq. split; [done|]. by apply seg_insert.
    + exists (q.1, b.2). split; [done|]. rewrite lookup_insert_eq, lookup_insert_ne by done. split; [done|]. split; [done|]. by apply seg_insert.
Qed.
Lemma seg_prev m t L c p :
  seg m L base -> first L base = c -> m !! t.1 = Some (p, t.2) -> t.1 ∉ L.*1 -> L <> [] -> (forall y, y ∈ L -> 0 <= t.2 + y.2 < 2^32) ->
  exists v n, m !! c = Some n /\ v = (if t.1 + HDR * t.2 =? c then (n.1, u32 (t.2 + n.2)) else (c, t.2)) /\
    seg (<[t.1 := v]> m) (merge t L) base.
Proof.
  intros Hs Hf Ht Hn HL Hu. destruct L as [|d L]; [done|]. simpl in *. rewrite <- Hf. destruct Hs as [Hd Hs].
  rewrite not_elem_of_cons in Hn. destruct Hn as [Hn1 Hn2]. destruct (Z.eqb_spec (t.1 + HDR * t.2) d.1) as [E|Hne]; simpl.
  - exists (first L base, u32 (t.2 + d.2)), (first L base, d.2). split; [done|]. split; [done|]. specialize (Hu d ltac:(set_solver)). rewrite u32_small by lia.
    rewrite lookup_insert_eq. split; [done|]. by apply seg_insert.
  - exists (d.1, t.2), (first L base, d.2). split_and!; [done|done|by rewrite lookup_insert_eq|by rewrite lookup_insert_ne|by apply seg_insert].
Qed.

(** ** [free] *)

Lemma sorted_nodup l : StronglySorted before l -> (forall x, x ∈ l -> 0 <= x.2) -> NoDup l.*1.
Proof.
  induction l as [|x l IH]; intros Ho Hz; [constructor|]. apply StronglySorted_cons in Ho as [Hx Ho]. rewrite Forall_forall in Hx. simpl. constructor.
  - intros (y & E & Hy)%list_elem_of_fmap. specialize (Hx y Hy). specialize (Hz x ltac:(set_solver)). unfold before, HDR in Hx. lia.
  - apply IH; [done|set_solver].
Qed.
Lemma nodup_fst_eq (l : list block) x z : NoDup l.*1 -> x ∈ l -> z ∈ l -> x.1 = z.1 -> x = z.
Proof.
  induction l as [|y l IH]; [set_solver|]. simpl. intros [Hy Hn]%NoDup_cons [->|Hx]%elem_of_cons [->|Hz]%elem_of_cons E; [done| | |by apply IH].
  - destruct Hy. rewrite E. by apply list_elem_of_fmap_2.
  - destruct Hy. rewrite <- E. by apply list_elem_of_fmap_2.
Qed.
Lemma seg_size m l e : seg m l e -> NoDup l.*1 -> (length l <= size m)%nat.
Proof.
  intros Hs Hn. rewrite <- (length_fmap fst l), <- (size_list_to_set (C := gset Z)) by done. rewrite <- size_dom. apply subseteq_size.
  intros a (x & -> & Hx)%elem_of_list_to_set%list_elem_of_fmap. destruct (seg_at _ _ _ _ Hs Hx) as [p E]. by apply elem_of_dom.
Qed.

Section ok.
Variables (h : heap) (l used : list block).
Hypothesis O : heap_ok h l used.

Lemma ring_nonneg x : x ∈ (base, 0) :: l -> base <= x.1 /\ 0 <= x.2.
Proof.
  intros [->|Hx]%elem_of_cons; [done|]. pose proof (ho_base _ _ _ O). pose proof (ho_good _ _ _ O) as G.
  pose proof (gd_size _ _ _ G x ltac:(set_solver)). pose proof (gd_range _ _ _ G x ltac:(set_solver)). unfold HDR in *. lia.
Qed.
Lemma ring_nodup : NoDup ((base, 0) :: l).*1.
Proof. apply sorted_nodup; [apply O|]. intros x Hx. by apply ring_nonneg. Qed.
Lemma ring_used_ne x y : x ∈ (base, 0) :: l -> y ∈ used -> x.1 <> y.1.
Proof.
  intros Hx Hy. pose proof (ho_good _ _ _ O) as G. pose proof (ho_base _ _ _ O). pose proof (gd_size _ _ _ G y ltac:(set_solver)).
  destruct (gd_range _ _ _ G y ltac:(set_solver)). apply elem_of_cons in Hx as [->|Hx]; [simpl; unfold HDR in *; lia|].
  pose proof (gd_size _ _ _ G x ltac:(set_solver)). pose proof (disjoint_app _ _ _ _ (gd_disj _ _ _ G) Hx Hy). unfold apart, HDR in *. lia.
Qed.
Lemma ring_size : (S (length l) <= size (h_mem h))%nat.
Proof. apply (seg_size (h_mem h) ((base, 0) :: l) base); [apply O|apply ring_nodup]. Qed.
End ok.

Section free.
Variables (h : heap) (l used : list block) (b : block).
Hypothesis O : heap_ok h l (b :: used).

Lemma b_base : base < b.1 /\ 1 <= b.2.
Proof.
  pose proof (ho_base _ _ _ O). pose proof (ho_good _ _ _ O) as G. pose proof (gd_size _ _ _ G b ltac:(set_solver)).
  pose proof (gd_range _ _ _ G b ltac:(set_solver)). unfold HDR in *. lia.
Qed.
Lemma b_apart x : x ∈ l ++ used -> apart b x /\ 1 <= x.2.
Proof.
  intros Hx. pose proof (ho_good _ _ _ O) as G. split; [|apply (gd_size _ _ _ G); set_solver].
  assert (l ++ b :: used ≡ₚ b :: l ++ used) as Hp by (symmetry; apply Permutation_middle). rewrite Hp in G. by apply (gd_disj _ _ _ G).
Qed.
Lemma b_other x : x ∈ l ++ used -> x.1 <> b.1.
Proof. intros Hx E. destruct (b_apart x Hx) as [Ha Hs]. pose proof b_base. unfold apart, HDR in Ha. lia. Qed.

Lemma free_find_ok : exists P t Q, (base, 0) :: l = P ++ t :: Q /\ (forall x, x ∈ P ++ [t] -> x.1 < b.1) /\ (forall x, x ∈ Q -> b.1 < x.1) /\
  free_find (S (size (h_mem h))) b.1 (h_freep h) h = Done t.1 h.
Proof.
  pose proof (ring_nonneg h l (b :: used) O) as Hz. pose proof (ring_size h l _ O) as Hsz. destruct b_base as [Hb _]. remember (S (size (h_mem h))) as K eqn:HK.
  destruct (split_at b.1 (base, 0) l) as (P & t & Q & E & HP & HQ); [apply O|intros y Hy; by apply Hz|done|intros y Hy; apply b_other; set_solver|].
  exists P, t, Q. split_and!; [done|done|done|]. pose proof (ho_ring _ _ _ O) as Hs. pose proof (ho_sorted _ _ _ O) as Ho. pose proof (ho_freep _ _ _ O) as Hf.
  assert (length (P ++ t :: Q) = S (length l)) as Hlen by (by rewrite <- E). rewrite E in *. rewrite length_app in Hlen. simpl in Hlen.
  assert (forall k, (length P < k)%nat -> free_find k b.1 base h = Done t.1 h) as Hfwd.
  { intros k Hk. replace base with (first (P ++ [t]) 0) by (destruct P; simpl in E; by injection E as <-). by apply (find_forward h b.1 Hb P t Q). }
  rewrite fmap_app, elem_of_app in Hf. destruct Hf as [Hf|Hf].
  - apply list_elem_of_fmap in Hf as (x & Ex & Hx). rewrite Ex. apply list_elem_of_split in Hx as (P1 & P2 & ->). rewrite <- app_assoc in *. simpl in *.
    replace x.1 with (first ((x :: P2) ++ [t]) 0) by done. apply seg_app in Hs as [_ Hs]. apply StronglySorted_app in Ho as (_ & _ & Ho).
    rewrite length_app in Hlen. simpl in Hlen. apply (find_forward h b.1 Hb (x :: P2) t Q); [done|done|set_solver|set_solver|done|simpl; lia].
  - apply list_elem_of_fmap in Hf as (x & Ex & [->|Hx]%elem_of_cons); rewrite Ex.
    + apply seg_app in Hs as [_ Hs]. apply StronglySorted_app in Ho as (_ & _ & Ho).
      apply (find_forward h b.1 Hb [] t Q); [done|done|set_solver|set_solver|done|simpl; lia].
    + apply list_elem_of_split in Hx as (Q1 & Q2 & ->). rewrite length_app in Hlen. simpl in Hlen.
      assert (P ++ t :: Q1 ++ x :: Q2 = (P ++ t :: Q1) ++ x :: Q2) as E2 by by rewrite <- app_assoc. rewrite E2 in Hs, Ho, Hz.
      apply seg_app in Hs as [_ Hs]. apply StronglySorted_app in Ho as (_ & _ & Ho).
      replace K with (length (x :: Q2) + (K - length (x :: Q2)))%nat by (simpl; lia).
      change x.1 with (first (x :: Q2) base). rewrite (find_around h b.1 Hb (x :: Q2)); [|done|done|set_solver|set_solver].
      apply Hfwd. simpl. lia.
Qed.

Variables (P Q : list block) (t : block).
Hypothesis split : (base, 0) :: l = P ++ t :: Q.
Hypothesis P_below : forall x, x ∈ P ++ [t] -> x.1 < b.1.
Hypothesis Q_above : forall x, x ∈ Q -> b.1 < x.1.
Notation L := (merge b Q).

Lemma in_l x : x ∈ P ++ t :: Q -> x = (base, 0) \/ x ∈ l.
Proof. rewrite <- split. intros [->|Hx]%elem_of_cons; auto. Qed.
Lemma Q_in x : x ∈ Q -> x ∈ l.
Proof. intros Hx. destruct (in_l x) as [->|]; [set_solver| |done]. apply Q_above in Hx. pose proof b_base. simpl in Hx. lia. Qed.
(** The free blocks afterwards. *)
Lemma ring_after : exists l', P ++ merge t L = (base, 0) :: l' /\ good heap0 (h_brk h) (l' ++ used) /\ (P = [] -> t = (base, 0)).
Proof.
  pose proof (ho_good _ _ _ O) as G. pose proof b_base as [Hb _]. destruct P as [|x P'].
  - simpl in split. injection split as <- ->. exists (merge b Q). split_and!; [| |done].
    + simpl. unfold merge at 1. destruct (merge b Q) as [|c L'] eqn:E; [by destruct Q; simpl in E; [|case_match]|].
      rewrite (proj2 (Z.eqb_neq _ _)); [done|]. pose proof (merge_first b Q 0) as Ef. rewrite E in Ef. simpl in *. unfold HDR. lia.
    + apply merge_good. by rewrite (Permutation_middle Q used b).
  - simpl in split. injection split as <- ->. exists (P' ++ merge t (merge b Q)). split_and!; [done| |done].
    assert (merge t (merge b Q) ++ P' ++ used ≡ₚ (P' ++ merge t (merge b Q)) ++ used) as <- by (rewrite (Permutation_app_comm P' (merge t (merge b Q))); by rewrite <- app_assoc).
    apply merge_good. assert (merge b Q ++ t :: P' ++ used ≡ₚ t :: merge b Q ++ P' ++ used) as <- by (symmetry; apply Permutation_middle).
    apply merge_good. eapply good_perm; [|exact G]. rewrite <- (Permutation_middle _ used b). apply perm_skip.
    rewrite <- (Permutation_middle Q (P' ++ used) t). rewrite <- (app_assoc P'). simpl. rewrite <- (Permutation_middle P'). apply perm_skip.
    rewrite !app_assoc. by rewrite (Permutation_app_comm Q P').
Qed.
Lemma t_below : t.1 + HDR * t.2 <= b.1 /\ 0 <= t.2 /\ (t.2 = 0 \/ t ∈ l).
Proof.
  assert (t.1 < b.1) by (apply P_below; set_solver). pose proof b_base. destruct (in_l t) as [->|Ht]; [set_solver|simpl; unfold HDR; split_and!; [lia|done|by left]|].
  destruct (b_apart t ltac:(set_solver)) as [Ha Hs]. unfold apart, HDR in *. split_and!; [lia|lia|by right].
Qed.
Lemma Q_after x : x ∈ Q -> b.1 + HDR * b.2 <= x.1 /\ 1 <= x.2 /\ x.1 + HDR * x.2 <= h_brk h.
Proof.
  intros Hx. pose proof (Q_above x Hx). apply Q_in in Hx. destruct (b_apart x ltac:(set_solver)) as [Ha Hs]. pose proof b_base.
  pose proof (gd_range _ _ _ (ho_good _ _ _ O) x ltac:(set_solver)). unfold apart, HDR in *. lia.
Qed.
Lemma L_elem x : x ∈ L -> b.1 <= x.1 /\ 1 <= x.2 /\ x.1 + HDR * x.2 <= h_brk h.
Proof.
  pose proof b_base. pose proof (gd_range _ _ _ (ho_good _ _ _ O) b ltac:(set_solver)).
  assert (forall q, q ∈ Q -> b.1 <= q.1 /\ 1 <= q.2 /\ q.1 + HDR * q.2 <= h_brk h) as HQ by (intros q Hq%Q_after; unfold HDR in *; lia).
  unfold merge. destruct Q as [|q Q']; [intros ->%list_elem_of_singleton; lia|]. destruct (Z.eqb_spec (b.1 + HDR * b.2) q.1).
  - intros [->|Hx]%elem_of_cons; [|apply HQ; set_solver]. destruct (HQ q ltac:(set_solver)) as (? & ? & ?). simpl. unfold HDR in *. lia.
  - intros [->|Hx]%elem_of_cons; [lia|by apply HQ].
Qed.
Lemma sorted_after : StronglySorted before (P ++ merge t L).
Proof.
  pose proof (ho_sorted _ _ _ O) as Ho. rewrite split in Ho. apply StronglySorted_app in Ho as (H1 & H2 & H3).
  apply StronglySorted_cons in H3 as [H4 H5]. pose proof t_below as (Ht & Ht0 & _). pose proof b_base.
  apply StronglySorted_app. split_and!; [|done|apply merge_sorted; [apply merge_sorted; [done|]|]].
  - intros x y Hx [E|Hy]%merge_elem; unfold before; [rewrite E; by apply H1; [|left]|].
    specialize (H1 x t Hx ltac:(left)). apply L_elem in Hy. unfold before, HDR in *. lia.
  - intros y Hy%Q_after. tauto.
  - intros y Hy%L_elem. lia.
Qed.

(** A free block at least as large as [b]. *)
Lemma merge_large x R : 0 <= x.2 -> (forall y, y ∈ R -> 0 <= y.2) -> exists y, y ∈ merge x R /\ x.2 <= y.2 /\ (forall z, z ∈ R -> exists w, w ∈ merge x R /\ z.2 <= w.2).
Proof.
  intros Hx HR. destruct R as [|q R]; simpl.
  - exists x. split_and!; [set_solver|lia|set_solver].
  - pose proof (HR q ltac:(set_solver)). case_match.
    + exists (x.1, x.2 + q.2). split_and!; [set_solver|simpl; lia|]. intros z [->|Hz]%elem_of_cons; [exists (x.1, x.2 + q.2); split; [set_solver|simpl; lia]|exists z; set_solver].
    + exists x. split_and!; [set_solver|lia|]. intros z Hz. exists z. set_solver.
Qed.
Lemma large_after : exists y, y ∈ P ++ merge t L /\ b.2 <= y.2.
Proof.
  pose proof b_base. pose proof t_below. destruct (merge_large b Q ltac:(lia)) as (y & Hy & Hle & _); [intros z Hz%Q_after; lia|].
  destruct (merge_large t L ltac:(lia)) as (_ & _ & _ & Hall); [intros z Hz%L_elem; lia|]. destruct (Hall y Hy) as (w & Hw & Hle'). exists w. split; [set_solver|lia].
Qed.

(** The headers [free] writes. *)
Lemma headers_after : exists v1 v2,
  seg (<[t.1 := v2]> (<[b.1 := v1]> (h_mem h))) (P ++ merge t L) base /\
  forall k : M heap unit, (let! bh := hdr b.1 in let! x := hdr t.1 in
   (if b.1 + HDR * bh.2 =? x.1 then let! n := hdr x.1 in set_hdr b.1 (n.1, u32 (bh.2 + n.2)) else set_hdr b.1 (x.1, bh.2)) ;;;
   let! bh := hdr b.1 in let! x := hdr t.1 in
   (if t.1 + HDR * x.2 =? b.1 then set_hdr t.1 (bh.1, u32 (x.2 + bh.2)) else set_hdr t.1 (b.1, x.2)) ;;; k) h =
   k (up_hmem (fun _ => <[t.1 := v2]> (<[b.1 := v1]> (h_mem h))) h).
Proof.
  pose proof (ho_ring _ _ _ O) as Hs. rewrite split in Hs. apply seg_app in Hs as [HsP [Ht HsQ]]. pose proof (ho_max _ _ _ O) as Hmax.
  destruct (ho_used _ _ _ O b ltac:(left)) as [p Hb]. destruct t_below as (Htb & Ht0 & Htl). pose proof b_base as [Hbb Hb1]. pose proof (ho_base _ _ _ O) as Hbase.
  assert (heap0 <= b.1) as Hb0 by (apply (gd_range _ _ _ (ho_good _ _ _ O)); set_solver).
  assert (t.1 <> b.1) as Hne by (pose proof (P_below t ltac:(set_solver)); lia).
  assert (0 <= t.1) as Htpos by (destruct (in_l t) as [->|Hin]; [set_solver|simpl; lia|]; destruct (ring_nonneg h l _ O t); [set_solver|lia]).
  destruct (seg_next (h_mem h) b Q p HsQ Hb) as (v1 & Hv1 & Hs1); [|done|lia| |].
  { intros (y & E & Hy)%list_elem_of_fmap. apply Q_above in Hy. lia. }
  { intros y Hy%Q_after. unfold HDR in *. lia. }
  set (m1 := <[b.1 := v1]> (h_mem h)) in *. assert (m1 !! t.1 = Some (first Q base, t.2)) as Ht1 by (unfold m1; by rewrite lookup_insert_ne).
  destruct (seg_prev m1 t L b.1 _ Hs1 (merge_first b Q base) Ht1) as (v2 & n & Hn & Hv2 & Hs2).
  { intros (y & E & Hy)%list_elem_of_fmap. apply L_elem in Hy. pose proof (P_below t ltac:(set_solver)). lia. }
  { intros E. pose proof (merge_first b Q base) as Ef. rewrite E in Ef. simpl in Ef. lia. }
  { intros y Hy%L_elem. unfold HDR in *. lia. }
  assert (n = v1) as -> by (unfold m1 in Hn; rewrite lookup_insert_eq in Hn; congruence). exists v1, v2. split.
  - apply seg_app. rewrite merge_first. split; [|done]. pose proof (ring_nodup h l _ O) as Hnd. rewrite split, fmap_app in Hnd.
    apply NoDup_app in Hnd as (_ & Hnd & _). apply seg_insert; [apply seg_insert; [done|]|].
    + intros (y & E & Hy)%list_elem_of_fmap. pose proof (P_below y ltac:(set_solver)). lia.
    + intros Hin. apply (Hnd t.1 Hin). simpl. set_solver.
  - intros k. unfold bind at 1. rewrite (hdr_done _ _ _ Hb). unfold bind at 1. rewrite (hdr_done _ _ _ Ht). cbn [fst snd].
    assert ((if b.1 + HDR * b.2 =? first Q base then let! n := hdr (first Q base) in set_hdr b.1 (n.1, u32 (b.2 + n.2)) else set_hdr b.1 (first Q base, b.2)) h =
      Done tt (up_hmem (fun _ => m1) h)) as E1.
    { destruct (b.1 + HDR * b.2 =? first Q base); [|by subst v1]. destruct Hv1 as (n & En & ->). unfold bind. by rewrite (hdr_done _ _ _ En). }
    unfold bind at 1. rewrite E1. unfold bind at 1. rewrite (hdr_done b.1 v1) by exact Hn. unfold bind at 1. rewrite (hdr_done t.1 (first Q base, t.2)) by exact Ht1.
    cbn [fst snd]. unfold bind. subst v2. by destruct (t.1 + HDR * t.2 =? b.1).
Qed.
End free.

(** Freeing a block that was handed out puts it back: the ring stays sorted, no two of its
    blocks touch, and nothing is lost. *)
Lemma ufree_ok h l used b :
  heap_ok h l (b :: used) ->
  exists h' l', ufree (b.1 + HDR) h = Done tt h' /\ heap_ok h' l' used /\ h_brk h' = h_brk h /\
    (length l' <= S (length l))%nat /\ exists y, y ∈ (base, 0) :: l' /\ b.2 <= y.2.
Proof.
  intros O. destruct (free_find_ok h l used b O) as (P & t & Q & E & HP & HQ & Ef).
  destruct (headers_after h l used b O P Q t E HP HQ) as (v1 & v2 & Hs & Ek). destruct (ring_after h l used b O P Q t E HP HQ) as (l' & El & Hg & _).
  pose proof (sorted_after h l used b O P Q t E HP HQ) as Ho. pose proof (large_after h l used b O P Q t E HP HQ) as Hl. rewrite El in Hs, Ho, Hl.
  exists (set_freep t.1 (up_hmem (fun _ => <[t.1 := v2]> (<[b.1 := v1]> (h_mem h))) h)), l'. split_and!; [| |done| |done].
  - unfold ufree. rewrite Z.add_simpl_r. unfold bind at 1, gets at 1. unfold bind at 1, gets at 1. unfold bind at 1. rewrite Ef. by rewrite Ek.
  - pose proof O as [O1 O2 O3 O4 O5 O6 O7]. split; [done|done|done| | |done|done].
    + rewrite <- El, fmap_app. apply elem_of_app. right. pose proof (merge_first t (merge b Q) 0) as Em. simpl. destruct (merge t (merge b Q)) eqn:Ee; simpl in *.
      * destruct (merge b Q); simpl in Ee; [done|case_match; done].
      * rewrite Em. left.
    + intros x Hx. destruct (O5 x) as [p Hp]; [set_solver|]. exists p. simpl. rewrite !lookup_insert_ne; [done| |].
      * intros Eq. by apply (b_other h l used b O x); [set_solver|].
      * apply (ring_used_ne h l (b :: used) O); [rewrite E; set_solver|set_solver].
  - pose proof (f_equal length El) as H1. pose proof (f_equal length E) as H2. rewrite length_app in H1, H2. simpl in H1, H2.
    pose proof (merge_len t (merge b Q)). pose proof (merge_len b Q). lia.
Qed.

(** ** Growing the heap *)

(** Addresses stay below 2^36: the machine has 128 megabytes of memory. *)
Hypothesis grants_bound : forall a n, sbrk_grants a n = true -> a + n < 2^36.

Definition growth (n : Z) : Z := HDR * Z.max n 4096.
Lemma morecore_ok h l used n :
  heap_ok h l used -> 1 <= n -> growth n < 2^31 ->
  if sbrk_grants (h_brk h) (growth n) then
    exists h' l', morecore n h = Done (h_freep h') h' /\ heap_ok h' l' used /\ (length l' <= S (length l))%nat /\
      h_brk h' = h_brk h + growth n /\ exists y, y ∈ (base, 0) :: l' /\ n <= y.2
  else morecore n h = Done 0 h.
Proof.
  intros O Hn Hg. pose proof O as [O1 O2 O3 O4 O5 O6 O7]. unfold growth in *. set (nu := Z.max n 4096) in *.
  assert ((if n <? 4096 then 4096 else n) = nu) as En by (destruct (Z.ltb_spec n 4096); lia).
  assert (i32 (nu * HDR) = HDR * nu) as Ei by (rewrite i32_small; unfold HDR in *; lia).
  assert (sbrk (nu * HDR) h = if sbrk_grants (h_brk h) (HDR * nu) then Done (h_brk h) (mk_heap (h_mem h) (h_freep h) (h_brk h + HDR * nu)) else Done (-1) h) as Es
    by (unfold sbrk; by rewrite Ei).
  unfold morecore. rewrite En. destruct (sbrk_grants (h_brk h) (HDR * nu)) eqn:Eg; [|unfold bind at 1; by rewrite Es].
  assert (heap0 <= h_brk h) as Hbrk.
  { pose proof (gd_units _ _ _ O6). assert (0 <= units (l ++ used)); [|unfold HDR in *; lia]. apply units_nonneg. apply (gd_size _ _ _ O6). }
  set (b := (h_brk h, nu)). set (h1 := up_hmem (fun m => <[h_brk h := (default 0 (fst <$> m !! h_brk h), nu)]> m) (mk_heap (h_mem h) (h_freep h) (h_brk h + HDR * nu))).
  assert (forall x, x ∈ l ++ used -> x.1 <> h_brk h) as Hne.
  { intros x Hx E. pose proof (gd_size _ _ _ O6 x Hx). destruct (gd_range _ _ _ O6 x Hx). unfold HDR in *. lia. }
  assert (heap_ok h1 l (b :: used)) as OO.
  { split; [done| |done|done| | |by apply grants_bound].
    - apply seg_insert; [done|]. intros (x & E & [->|Hx]%elem_of_cons)%list_elem_of_fmap; [simpl in E; unfold HDR in *; lia|]. by apply (Hne x); [set_solver|].
    - simpl. intros x [->|Hx]%elem_of_cons; [simpl; rewrite lookup_insert_eq; eauto|]. destruct (O5 x Hx) as [p Hp]. exists p.
      rewrite lookup_insert_ne; [done|]. intros E. by apply (Hne x); [set_solver|].
    - change (h_brk h1) with (h_brk h + HDR * nu). rewrite <- Permutation_middle. destruct O6 as [G1 G2 G3 G4]. unfold HDR in *. split.
      + intros x [->|Hx]%elem_of_cons; [simpl; lia|by apply G1].
      + intros x [->|Hx]%elem_of_cons; [simpl; unfold HDR; lia|]. specialize (G2 x Hx). unfold HDR in *. lia.
      + split; [|done]. intros x Hx. specialize (G2 x Hx). unfold apart, HDR in *. simpl. lia.
      + change (units (b :: l ++ used)) with (nu + units (l ++ used)). unfold HDR in *. lia. }
  destruct (ufree_ok h1 l used b OO) as (h' & l' & E & O' & Eb & Hl & y & Hy & Hle). exists h', l'.
  split_and!; [|done|done|by rewrite Eb|]. 2: { exists y. split; [done|]. simpl in Hle. lia. }
  unfold bind at 1. rewrite Es. rewrite (proj2 (Z.eqb_neq (h_brk h) (-1))) by (unfold HDR in *; lia).
  unfold bind, set_size, modify. fold h1. change (h_brk h) with b.1. by rewrite E.
Qed.

(** ** Cutting a block *)

Section carve.
Variables (h : heap) (l used : list block) (x y : block) (n : Z).
Hypothesis O : heap_ok h l used.
Hypothesis x_in : x ∈ (base, 0) :: l.
Hypothesis y_in : y ∈ (base, 0) :: l.
Hypothesis y_x : h_mem h !! y.1 = Some (x.1, y.2).
Hypothesis n_pos : 1 <= n <= x.2.

(** The block before [x] is [y]. *)
Lemma predecessor : exists Y l2, (base, 0) :: l = Y ++ y :: x :: l2.
Proof.
  pose proof (ho_ring _ _ _ O) as Hs. pose proof (ring_nodup h l used O) as Hn. pose proof (ho_base _ _ _ O).
  assert (x ∈ l) as Hx by (apply elem_of_cons in x_in as [E|]; [rewrite E in n_pos; simpl in n_pos; lia|done]).
  apply list_elem_of_split in y_in as (Y & Z & E). rewrite E in *. apply seg_app in Hs as [_ [Hy _]]. rewrite y_x in Hy. injection Hy as Hf.
  destruct Z as [|z Z].
  - exfalso. assert (base <= x.1 /\ x.1 <> base) as [? ?]; [|simpl in Hf; lia]. pose proof (gd_range _ _ _ (ho_good _ _ _ O) x ltac:(set_solver)). unfold HDR in *. lia.
  - exists Y, Z. simpl in Hf. assert (x = z) as ->; [|done].
    apply (nodup_fst_eq _ _ _ Hn); [done|set_solver|done].
Qed.

Lemma split_free : exists l1 l2 Y, l = l1 ++ x :: l2 /\ (base, 0) :: l1 = Y ++ [y] /\
  h_mem h !! x.1 = Some (first l2 base, x.2) /\ seg (h_mem h) Y y.1 /\ seg (h_mem h) l2 base.
Proof.
  destruct predecessor as (Y & l2 & E). pose proof (ho_ring _ _ _ O) as Hs. rewrite E in Hs. apply seg_app in Hs as [HY [_ [Hx H2]]].
  assert (exists l1, (base, 0) :: l1 = Y ++ [y]) as [l1 E1] by (destruct Y as [|z Y]; simpl in E; injection E as <- _; eauto).
  exists l1, l2, Y. split_and!; [|done|done|done|done]. assert ((base, 0) :: l = ((base, 0) :: l1) ++ x :: l2) as E2 by (rewrite E1, E, <- app_assoc; done).
  by injection E2.
Qed.

Lemma carve_exact : n = x.2 -> exists h' l', carve n y.1 x.1 h = Done (x.1 + HDR) h' /\ heap_ok h' l' ((x.1, n) :: used) /\ h_brk h' = h_brk h.
Proof.
  intros En. destruct split_free as (l1 & l2 & Y & El & E1 & Hx & HY & H2). pose proof O as [O1 _ O3 _ O5 O6 O7].
  pose proof (ring_nodup h l used O) as Hn. rewrite El in O3, O6, Hn. rewrite En.
  assert ((base, 0) :: l1 ++ l2 = Y ++ y :: l2 /\ (base, 0) :: l1 ++ x :: l2 = Y ++ y :: x :: l2) as [EY EX] by (rewrite !app_comm_cons, E1, <- !app_assoc; done).
  rewrite EX in O3, Hn. rewrite fmap_app in Hn. apply NoDup_app in Hn as (_ & Hn1 & Hn2). simpl in Hn1, Hn2. rewrite !NoDup_cons, !not_elem_of_cons in Hn2.
  exists (set_freep y.1 (up_hmem (<[y.1 := (first l2 base, y.2)]>) h)), (l1 ++ l2). split_and!; [| |done].
  - unfold carve. unfold bind at 1. rewrite (hdr_done _ _ _ Hx). cbn [fst snd]. rewrite Z.eqb_refl. unfold bind. rewrite (hdr_done _ _ _ y_x). done.
  - split; [done| | | | | |done]; rewrite ?EY.
    + apply seg_app. split; [apply seg_insert; [done|]; intros Hin; apply (Hn1 _ Hin); left|]. simpl. rewrite lookup_insert_eq. split; [done|]. apply seg_insert; tauto.
    + apply StronglySorted_app in O3 as (A1 & A2 & A3). apply StronglySorted_cons in A3 as [A3 A4]. apply StronglySorted_cons in A4 as [_ A4]. inversion A3; subst.
      apply StronglySorted_app. split_and!; [|done|by apply StronglySorted_cons]. intros u w Hu Hw. apply A1; set_solver.
    + rewrite fmap_app. simpl. set_solver.
    + intros z Hz. simpl. assert (exists p, h_mem h !! z.1 = Some (p, z.2)) as [p Hp] by (apply elem_of_cons in Hz as [->|Hz]; [simpl; by eauto|by apply O5]).
      exists p. rewrite lookup_insert_ne; [done|]. apply elem_of_cons in Hz as [->|Hz]; [simpl; tauto|]. by apply (ring_used_ne h l used O).
    + assert ((x.1, x.2) = x) as -> by by destruct x. eapply good_perm; [|exact O6]. rewrite <- !app_assoc. by rewrite <- Permutation_middle, <- app_comm_cons, (Permutation_middle l2).
Qed.

(** An address inside the block [x] is not that of another header. *)
Lemma inside_ne k z : 1 <= k < x.2 -> z ∈ ((base, 0) :: l) ++ used -> z.1 <> x.1 + HDR * k.
Proof.
  intros Hk Hz E. pose proof (ho_good _ _ _ O) as G. pose proof (ho_base _ _ _ O).
  assert (x ∈ l) as Hx by (apply elem_of_cons in x_in as [Ex|]; [rewrite Ex in n_pos; simpl in n_pos; lia|done]).
  pose proof (gd_range _ _ _ G x ltac:(set_solver)) as Hxr. unfold HDR in *. rewrite <- app_comm_cons in Hz. apply elem_of_cons in Hz as [->|Hz]; [simpl in E; lia|].
  destruct (decide (z = x)) as [->|Hne]; [lia|]. pose proof (gd_size _ _ _ G z Hz). assert (apart x z) as Ha.
  { apply list_elem_of_split in Hx as (l1 & l2 & ->). rewrite <- app_assoc in *. simpl in *. rewrite <- Permutation_middle in G. apply (gd_disj _ _ _ G). set_solver. }
  unfold apart, HDR in Ha. lia.
Qed.
Lemma carve_split : n < x.2 -> exists h' l' a, carve n y.1 x.1 h = Done (a + HDR) h' /\ heap_ok h' l' ((a, n) :: used) /\ h_brk h' = h_brk h.
Proof.
  intros Hlt. destruct split_free as (l1 & l2 & Y & El & E1 & Hx & HY & H2). pose proof O as [O1 O2 O3 O4 O5 O6 O7].
  pose proof (ring_nodup h l used O) as Hn. set (r := x.2 - n). set (a := x.1 + HDR * r). assert (forall z, z ∈ ((base, 0) :: l) ++ used -> z.1 <> a) as Ha by (intros z; apply inside_ne; unfold r; lia).
  assert (0 <= r < 2^32) as Hr. { pose proof (gd_range _ _ _ O6 x ltac:(rewrite El; set_solver)). pose proof (ho_base _ _ _ O). unfold r, HDR in *. lia. }
  set (v := (default 0 (fst <$> (<[x.1 := (first l2 base, r)]> (h_mem h)) !! a), n)).
  rewrite El in O2, O3, O4, O6, Hn, Ha. rewrite app_comm_cons in O2, O3, O4, Hn, Ha. rewrite fmap_app in Hn, O4. apply NoDup_app in Hn as (_ & Hn1 & Hn2). simpl in Hn2. apply NoDup_cons in Hn2 as [Hn2 _].
  exists (set_freep y.1 (up_hmem (fun m => <[a := v]> (<[x.1 := (first l2 base, r)]> m)) h)), (l1 ++ (x.1, r) :: l2), a. split_and!; [| |done].
  - unfold carve. unfold bind at 1. rewrite (hdr_done _ _ _ Hx). cbn [fst snd]. rewrite (proj2 (Z.eqb_neq _ _)) by lia. fold r. rewrite (u32_small r Hr). done.
  - assert (x.1 <> a) as Hxa by (apply Ha; set_solver). split; [done| | | | | |done]; rewrite ?app_comm_cons.
    + apply seg_insert; [|intros (z & E & Hz)%list_elem_of_fmap; apply elem_of_app in Hz as [Hz|[->|Hz]%elem_of_cons]; [by apply (Ha z); [set_solver|]|by simpl in E|by apply (Ha z); [set_solver|]]].
      apply seg_app in O2 as [A1 [A2 A3]]. apply seg_app. split; [apply seg_insert; [done|]; intros Hin; apply (Hn1 _ Hin); left|].
      simpl. rewrite lookup_insert_eq. split; [done|by apply seg_insert].
    + apply StronglySorted_app in O3 as (A1 & A2 & A3). apply StronglySorted_cons in A3 as [A3 A4]. rewrite Forall_forall in A3.
      apply StronglySorted_app. split_and!; [|done|apply StronglySorted_cons; split; [apply Forall_forall|done]].
      * intros u w Hu [->|Hw]%elem_of_cons; [|apply A1; set_solver]. specialize (A1 u x Hu ltac:(left)). done.
      * intros w Hw. specialize (A3 w Hw). unfold before, HDR, r in *. simpl. lia.
    + rewrite E1, !fmap_app. simpl. set_solver.
    + intros z [->|Hz]%elem_of_cons; [simpl; rewrite lookup_insert_eq; by eexists|]. destruct (O5 z Hz) as [p Hp]. exists p. simpl.
      rewrite !lookup_insert_ne; [done| |]; [by apply (ring_used_ne h l used O)|]. intros E. by apply (Ha z); [set_solver|].
    + assert (x = (x.1, r + n)) as Ex by (unfold r; rewrite Z.sub_add; by destruct x). rewrite <- (app_assoc l1) in O6 |- *. simpl in O6 |- *. rewrite <- Permutation_middle in O6 |- *.
      rewrite Ex in O6. simpl in O6. apply good_merge in O6; [|unfold r; lia|lia]. eapply good_perm; [|exact O6]. apply perm_skip. rewrite (app_assoc l1 l2 used), app_assoc. by rewrite <- Permutation_middle.
Qed.
Lemma carve_ok : exists h' l' a, carve n y.1 x.1 h = Done (a + HDR) h' /\ heap_ok h' l' ((a, n) :: used) /\ h_brk h' = h_brk h.
Proof. destruct (decide (n = x.2)) as [E|E]; [destruct (carve_exact E) as (h' & l' & ?); by exists h', l', x.1|apply carve_split; lia]. Qed.
End carve.

(** ** [malloc] *)

Lemma malloc_turn k n q p v h : h_mem h !! p = Some v ->
  malloc_loop (S k) n q p h =
  if n <=? v.2 then carve n q p h
  else if p =? h_freep h then (let! p := morecore n in if p =? 0 then ret 0 else let! x := hdr p in malloc_loop k n p x.1) h
  else malloc_loop k n p v.1 h.
Proof.
  intros E. cbn [malloc_loop]. unfold bind at 1. rewrite (hdr_done _ _ _ E). destruct (n <=? v.2); [done|]. unfold bind at 1, gets at 1. by destruct (p =? h_freep h).
Qed.

(** One round of the ring, from the block after [q]: a block is found, or all are too small. *)
Section scan.
Variables (h : heap) (l used : list block) (f : block) (rest : list block) (n : Z).
Hypothesis O : heap_ok h l used.
Hypothesis ring : f :: rest ≡ₚ (base, 0) :: l.
Hypothesis ring_seg : seg (h_mem h) (f :: rest) f.1.
Hypothesis at_f : h_freep h = f.1.

Lemma malloc_scan k : forall suf pre q, f :: rest = pre ++ q :: suf ->
  (exists x y, x ∈ (base, 0) :: l /\ y ∈ (base, 0) :: l /\ n <= x.2 /\ h_mem h !! y.1 = Some (x.1, y.2) /\
     malloc_loop (S (length suf) + k) n q.1 (first suf f.1) h = carve n y.1 x.1 h) \/
  ((forall x, x ∈ f :: suf -> x.2 < n) /\
     malloc_loop (S (length suf) + k) n q.1 (first suf f.1) h =
     (let! p := morecore n in if p =? 0 then ret 0 else let! x := hdr p in malloc_loop k n p x.1) h).
Proof.
  induction suf as [|x suf IH]; intros pre q E; pose proof ring_seg as Hs; rewrite E in Hs; apply seg_app in Hs as [_ [Hq Hs]]; cbn [first] in Hq.
  - destruct (seg_at _ _ _ f ring_seg ltac:(left)) as [p Hf]. cbn [length Nat.add first]. rewrite (malloc_turn _ _ _ _ _ _ Hf). cbn [fst snd].
    destruct (Z.leb_spec n f.2) as [Hle|Hgt].
    + left. exists f, q. split_and!; [rewrite <- ring; left|rewrite <- ring, E; set_solver|done|done|done].
    + right. split; [set_solver|]. by rewrite at_f, Z.eqb_refl.
  - destruct Hs as [Hx _]. cbn [length Nat.add first]. cbn [first] in Hx. rewrite (malloc_turn _ _ _ _ _ _ Hx). cbn [fst snd].
    destruct (Z.leb_spec n x.2) as [Hle|Hgt].
    + left. exists x, q. split_and!; [rewrite <- ring, E; set_solver|rewrite <- ring, E; set_solver|done|done|done].
    + assert (x.1 <> f.1) as Hne.
      { pose proof (ring_nodup h l used O) as Hn. rewrite <- ring, E in Hn. intros Ex. assert (f :: rest = (pre ++ [q]) ++ x :: suf) as E2 by by rewrite <- app_assoc.
        destruct (pre ++ [q]) as [|g pq] eqn:Epq; [by destruct pre|]. simpl in E2. injection E2 as -> Er. rewrite <- E, Er in Hn. simpl in Hn. apply NoDup_cons in Hn as [Hn _].
        apply Hn. rewrite <- Ex. rewrite fmap_app. set_solver. }
      rewrite at_f, (proj2 (Z.eqb_neq x.1 f.1)) by done.
      destruct (IH (pre ++ [q]) x) as [(u & w & ?)|[Hall Ek]]; [by rewrite <- app_assoc|left; by exists u, w|right]. split; [|done].
      intros z [->|[->|Hz]%elem_of_cons]%elem_of_cons; [apply Hall; left|done|apply Hall; by right].
Qed.
End scan.

(** The ring read from [freep]. *)
Lemma ring_from_freep h l used : heap_ok h l used ->
  exists f rest, f :: rest ≡ₚ (base, 0) :: l /\ seg (h_mem h) (f :: rest) f.1 /\ h_freep h = f.1 /\ h_mem h !! f.1 = Some (first rest f.1, f.2).
Proof.
  intros O. pose proof (ho_freep _ _ _ O) as (f & Ef & (A & B & E)%list_elem_of_split)%list_elem_of_fmap. pose proof (ho_ring _ _ _ O) as Hs. rewrite E in Hs.
  apply ring_rotate in Hs; [|by rewrite <- E]. exists f, (B ++ A). simpl in Hs. split_and!; [|done|done|apply Hs].
  rewrite E, (Permutation_app_comm A). done.
Qed.
Lemma malloc_round h l used n k : heap_ok h l used ->
  exists x0, h_mem h !! h_freep h = Some x0 /\
  ((exists x y, x ∈ (base, 0) :: l /\ y ∈ (base, 0) :: l /\ n <= x.2 /\ h_mem h !! y.1 = Some (x.1, y.2) /\
     malloc_loop (S (length l) + k) n (h_freep h) x0.1 h = carve n y.1 x.1 h) \/
   ((forall x, x ∈ (base, 0) :: l -> x.2 < n) /\ malloc_loop (S (length l) + k) n (h_freep h) x0.1 h =
     (let! p := morecore n in if p =? 0 then ret 0 else let! x := hdr p in malloc_loop k n p x.1) h)).
Proof.
  intros O. destruct (ring_from_freep h l used O) as (f & rest & Hp & Hs & Ef & Hf). exists (first rest f.1, f.2). rewrite Ef. split; [done|].
  assert (length l = length rest) as -> by (apply Permutation_length in Hp; simpl in Hp; lia).
  destruct (malloc_scan h l used f rest n O Hp Hs Ef k rest [] f eq_refl) as [?|[Hall E]]; [by left|right]. split; [|done]. intros x Hx. apply Hall. by rewrite Hp.
Qed.

(** From a heap in order, [malloc] returns a new block, or 0 if the kernel refuses memory. *)
Lemma malloc_loop_ok h l used n :
  heap_ok h l used -> 1 <= n -> growth n < 2^31 ->
  exists x0, h_mem h !! h_freep h = Some x0 /\
  ((exists h' l' a, malloc_loop (2 * size (h_mem h) + 4) n (h_freep h) x0.1 h = Done (a + HDR) h' /\ heap_ok h' l' ((a, n) :: used)) \/
   (malloc_loop (2 * size (h_mem h) + 4) n (h_freep h) x0.1 h = Done 0 h /\ sbrk_grants (h_brk h) (growth n) = false)).
Proof.
  intros O Hn Hg. pose proof (ring_size h l used O) as Hsz. set (k := (2 * size (h_mem h) + 4 - S (length l))%nat).
  replace (2 * size (h_mem h) + 4)%nat with (S (length l) + k)%nat by (unfold k; lia).
  destruct (malloc_round h l used n k O) as (x0 & Hx0 & [(x & y & Hx & Hy & Hle & Hyx & E)|[_ E]]); exists x0; (split; [done|]); rewrite E.
  - left. destruct (carve_ok h l used x y n O Hx Hy Hyx ltac:(lia)) as (h' & l' & a & Ec & O' & _). by exists h', l', a.
  - pose proof (morecore_ok h l used n O Hn Hg) as Hm. destruct (sbrk_grants (h_brk h) (growth n)); [left|right; by unfold bind; rewrite Hm].
    destruct Hm as (h1 & l1 & Em & O1 & Hlen & _ & y1 & Hy1 & Hle1). unfold bind at 1. rewrite Em.
    assert (h_freep h1 <> 0) as Hf0.
    { pose proof (ho_freep _ _ _ O1) as (z & -> & Hz)%list_elem_of_fmap. pose proof (ring_nonneg h1 l1 used O1 z Hz). pose proof (ho_base _ _ _ O1). lia. }
    rewrite (proj2 (Z.eqb_neq _ _)) by done. replace k with (S (length l1) + (k - S (length l1)))%nat by (unfold k; lia).
    destruct (malloc_round h1 l1 used n (k - S (length l1)) O1) as (x1 & Hx1 & [(x & y & Hx & Hy & Hle & Hyx & E1)|[Hall _]]).
    + unfold bind. rewrite (hdr_done _ _ _ Hx1), E1. destruct (carve_ok h1 l1 used x y n O1 Hx Hy Hyx ltac:(lia)) as (h' & l' & a & Ec & O' & _). by exists h', l', a.
    + specialize (Hall y1 Hy1). lia.
Qed.
End ring.

(** ** Programs that use the allocator *)

Section program.
Context `{UHeap} (heap0 : Z).
Hypothesis grants_bound : forall a n, sbrk_grants a n = true -> a + n < 2^36.
Hypothesis base_below : 0 < base /\ base + HDR <= heap0 < 2^36.

(** The heap of a program that starts, with its break at [heap0]. *)
Definition uheap0 : heap := mk_heap {[base := (0, 0)]} 0 heap0.
Definition inv_heap (h : heap) (used : list block) : Prop := (h = uheap0 /\ used = []) \/ exists l, heap_ok heap0 h l used.

(** [used] are the blocks a program holds after some calls of [malloc], of less than two
    gigabytes each, and of [free] on blocks it holds. *)
Inductive holds_blocks : heap -> list block -> Prop :=
| hb_start : holds_blocks uheap0 []
| hb_malloc h used nbytes r h' :
    holds_blocks h used -> 0 <= nbytes < 2^32 -> growth (nunits_of nbytes) < 2^31 -> malloc nbytes h = Done r h' ->
    holds_blocks h' (if r =? 0 then used else (r - HDR, nunits_of nbytes) :: used)
| hb_free h used used' b h' :
    holds_blocks h used -> used ≡ₚ b :: used' -> ufree (b.1 + HDR) h = Done tt h' -> holds_blocks h' used'.

Lemma nunits_eq nbytes : 0 <= nbytes < 2^32 -> nunits_of nbytes = (nbytes + 15) / 16 + 1.
Proof. intros Hn. unfold nunits_of, HDR. rewrite u32_small by zlia. f_equal. f_equal. lia. Qed.
Lemma blank_heap_ok : heap_ok heap0 (mk_heap {[base := (base, 0)]} base heap0) [] [].
Proof.
  destruct base_below. split; [lia|simpl; by rewrite lookup_singleton_eq|repeat constructor|simpl; set_solver|set_solver| |simpl; lia].
  split; [set_solver|set_solver|done|]. unfold units, HDR. simpl. lia.
Qed.
(** Either outcome of [malloc], from any heap a program can have. *)
Lemma malloc_inv h used nbytes :
  inv_heap h used -> 0 <= nbytes < 2^32 -> growth (nunits_of nbytes) < 2^31 ->
  (exists h' l' a, malloc nbytes h = Done (a + HDR) h' /\ heap_ok heap0 h' l' ((a, nunits_of nbytes) :: used)) \/
  (exists h' l', malloc nbytes h = Done 0 h' /\ heap_ok heap0 h' l' used /\ sbrk_grants (h_brk h) (growth (nunits_of nbytes)) = false).
Proof.
  intros I Hn Hg. assert (1 <= nunits_of nbytes) as H1 by (rewrite nunits_eq by done; zlia). set (n := nunits_of nbytes) in *.
  assert (forall h1 l, heap_ok heap0 h1 l used -> h_brk h1 = h_brk h ->
    malloc nbytes h = (let! x := hdr (h_freep h1) in let! m := gets h_mem in malloc_loop (2 * size m + 4) n (h_freep h1) x.1) h1 -> 
    (exists h' l' a, malloc nbytes h = Done (a + HDR) h' /\ heap_ok heap0 h' l' ((a, n) :: used)) \/
    (exists h' l', malloc nbytes h = Done 0 h' /\ heap_ok heap0 h' l' used /\ sbrk_grants (h_brk h) (growth n) = false)) as G.
  { intros h1 l O Eb E. destruct (malloc_loop_ok heap0 grants_bound h1 l used n O H1 Hg) as (x0 & Hx0 & [(h' & l' & a & Em & O')|[Em Hs]]);
      unfold bind in E; rewrite (hdr_done _ _ _ Hx0) in E; unfold gets in E; cbv beta iota in E; rewrite Em in E; [left; by exists h', l', a|right; exists h1, l; by rewrite <- Eb]. }
  destruct I as [[-> ->]|[l O]].
  - apply (G _ [] blank_heap_ok); [done|]. unfold malloc. fold n. unfold bind at 1, gets at 1. cbn [h_freep uheap0].
    change (0 =? 0) with true. cbv iota. unfold bind, set_hdr, modify, up_hmem, set_freep, uheap0, ret, hdr. simpl. by rewrite insert_singleton_eq.
  - apply (G h l O); [done|]. assert (h_freep h <> 0) as Hf0.
    { pose proof (ho_freep _ _ _ _ O) as (z & -> & Hz)%list_elem_of_fmap. pose proof (ring_nonneg heap0 h l used O z Hz). lia. }
    unfold malloc. fold n. unfold bind at 1, gets at 1. rewrite (proj2 (Z.eqb_neq _ _)) by done. done.
Qed.
Lemma malloc_nonzero h l a n used : heap_ok heap0 h l ((a, n) :: used) -> (a + HDR =? 0) = false.
Proof. intros O. apply Z.eqb_neq. destruct (gd_range _ _ _ (ho_good _ _ _ _ O) (a, n)) as [Ha _]; [set_solver|]. simpl in Ha. destruct base_below. unfold HDR in *. lia. Qed.
Lemma heap_ok_perm h l used used' : used ≡ₚ used' -> heap_ok heap0 h l used -> heap_ok heap0 h l used'.
Proof. intros Hp [O1 O2 O3 O4 O5 O6 O7]. split; try done; [intros x Hx; apply O5; by rewrite Hp|by rewrite <- Hp]. Qed.
Lemma holds_inv h used : holds_blocks h used -> inv_heap h used.
Proof.
  induction 1 as [|h used nbytes r h' _ IH Hn Hg E|h used used' b h' _ IH Hp E]; [by left| |].
  - right. destruct (malloc_inv h used nbytes IH Hn Hg) as [(h1 & l1 & a & Em & O1)|(h1 & l1 & Em & O1 & _)]; rewrite E in Em; injection Em as -> ->.
    + rewrite (malloc_nonzero _ _ _ _ _ O1), Z.add_simpl_r. by exists l1.
    + by exists l1.
  - right. destruct IH as [[-> ->]|[l O]]; [by apply Permutation_nil_cons in Hp|].
    destruct (ufree_ok heap0 h l used' b) as (h1 & l1 & Ef & O1 & _); [by eapply heap_ok_perm|]. rewrite E in Ef. injection Ef as ->. by exists l1.
Qed.

(** C19. For requests that make the heap grow by less than 2^31 bytes each ([growth], what is
    passed to [sbrk] as an [int]): after any such calls of [malloc] and calls of [free],
    [malloc] returns, and what it returns is 0, if the kernel refused to grow the heap, or
    a block for the bytes asked for, inside the heap and apart from every block the program
    holds, headers included. Larger requests are not covered: see [malloc_overflows]. *)
Theorem malloc_allocates h used nbytes :
  holds_blocks h used -> 0 <= nbytes < 2^32 -> growth (nunits_of nbytes) < 2^31 ->
  exists r h', malloc nbytes h = Done r h' /\
    (r = 0 /\ sbrk_grants (h_brk h) (growth (nunits_of nbytes)) = false \/
     heap0 + HDR <= r /\ r + nbytes <= h_brk h' /\ forall b, b ∈ used -> b.1 + HDR * b.2 <= r - HDR \/ r + nbytes <= b.1).
Proof.
  intros Hh Hn Hg. destruct (malloc_inv h used nbytes (holds_inv _ _ Hh) Hn Hg) as [(h' & l & a & E & O)|(h' & l & E & _ & Hs)].
  - exists (a + HDR), h'. split; [done|right]. pose proof (ho_good _ _ _ _ O) as G. pose proof (nunits_eq nbytes Hn) as En.
    assert (a + HDR + nbytes <= a + HDR * nunits_of nbytes) by (rewrite En; unfold HDR; zlia).
    destruct (gd_range _ _ _ G (a, nunits_of nbytes)) as [H1 H2]; [set_solver|]. simpl in H1, H2. split_and!; [lia|lia|].
    intros b Hb. rewrite <- Permutation_middle in G. pose proof (gd_disj _ _ _ G) as [Hd _]. specialize (Hd b ltac:(set_solver)). unfold apart in Hd. simpl in Hd. lia.
  - exists 0, h'. split; [done|by left].
Qed.

(** C18. The heap is in order after any calls of [free] for blocks that are held and of [malloc]
    for sizes that make the heap grow by less than 2^31 bytes ([growth], what is passed to
    [sbrk] as an [int]): the free blocks are a ring through [base] in the order of their addresses, no two of them touch, and together with the blocks held
    they are all the memory from the start of the heap to the break, without overlap.
    Freeing any block that is held then ends normally. *)
Theorem heap_in_order h used :
  holds_blocks h used ->
  (h = uheap0 /\ used = [] \/ exists l, heap_ok heap0 h l used) /\ forall b, b ∈ used -> exists h', ufree (b.1 + HDR) h = Done tt h'.
Proof.
  intros Hh%holds_inv. split; [done|]. intros b (u1 & u2 & ->)%list_elem_of_split. destruct Hh as [[_ E]|[l O]]; [by destruct u1|].
  destruct (ufree_ok heap0 h l (u1 ++ u2) b) as (h' & l' & E & _); [|by exists h'].
  eapply heap_ok_perm; [|exact O]. symmetry. apply Permutation_middle.
Qed.
End program.

(** ** A machine with 128 megabytes *)

Definition demo_uheap : UHeap := {| base := 4096; sbrk_grants := fun a n => (16384 <=? a + n) && (a + n <=? 2^27) |}.
#[local] Existing Instance demo_uheap.
Lemma demo_bound a n : sbrk_grants a n = true -> a + n < 2^36.
Proof. simpl. lia. Qed.
Lemma demo_below : 0 < base /\ base + HDR <= 16384 < 2^36.
Proof. unfold base, demo_uheap, HDR. lia. Qed.

(** After [malloc(100)] and [malloc(20)] the first block is freed. *)
Definition demo_run : list block * heap :=
  match (let! p := malloc 100 in let! q := malloc 20 in ufree p ;;; ret [(q - HDR, 3)]) (uheap0 16384) with Done u h => (u, h) | _ => ([], uheap0 16384) end.
Lemma demo_holds : holds_blocks 16384 demo_run.2 demo_run.1.
Proof.
  set (h1 := match malloc 100 (uheap0 16384) with Done _ h => h | _ => uheap0 16384 end).
  set (h2 := match malloc 20 h1 with Done _ h => h | _ => h1 end).
  assert (holds_blocks 16384 h1 [(81792, 8)]) as R1.
  { apply (hb_malloc 16384 (uheap0 16384) [] 100 81808 h1); [constructor|lia|reflexivity|vm_compute; reflexivity]. }
  assert (holds_blocks 16384 h2 [(81744, 3); (81792, 8)]) as R2.
  { apply (hb_malloc 16384 h1 [(81792, 8)] 20 81760 h2); [done|lia|reflexivity|vm_compute; reflexivity]. }
  apply (hb_free 16384 h2 [(81744, 3); (81792, 8)] _ (81792, 8)); [done|apply perm_swap|vm_compute; reflexivity].
Qed.
Lemma malloc_allocates_witness :
  exists r h', malloc 200 demo_run.2 = Done r h' /\
    (r = 0 /\ sbrk_grants (h_brk demo_run.2) (growth (nunits_of 200)) = false \/
     16384 + HDR <= r /\ r + 200 <= h_brk h' /\ forall b, b ∈ demo_run.1 -> b.1 + HDR * b.2 <= r - HDR \/ r + 200 <= b.1).
Proof. apply (malloc_allocates 16384 demo_bound demo_below demo_run.2 demo_run.1 200 demo_holds); [lia|reflexivity]. Defined.
Lemma heap_in_order_witness :
  exists l, heap_ok 16384 demo_run.2 l demo_run.1 /\ length demo_run.1 = 1%nat.
Proof.
  destruct (heap_in_order 16384 demo_bound demo_below demo_run.2 demo_run.1 demo_holds) as [[[_ E]|[l O]] _].
  - exfalso. vm_compute in E. discriminate.
  - exists l. split; [exact O|vm_compute; reflexivity].
Defined.

(** ** A request that is too large *)



