(* ===== verification/Regexp.v ===== *)
(** * The matcher of grep

    [match], [matchhere] and [matchstar] of [user/grep.c], on C strings given as
    their bytes before the NUL, and the language of a pattern: [match] decides
    whether the text has a part in it. *)

From S2P Require Import Prelude.

Definition caret : Z := 94.
Definition dollar : Z := 36.
Definition re_dot : Z := 46.
Definition star : Z := 42.

(** The loop of [matchstar]; [here] is [matchhere(re, .)]. *)
Fixpoint star_loop (c : Z) (here : list Z -> bool) (text : list Z) : bool :=
  if here text then true
  else
    match text with
    | [] => false
    | t :: text' => if (t =? c) || (c =? re_dot) then star_loop c here text' else false
    end.

Fixpoint matchhere (re text : list Z) : bool :=
  match re with
  | [] => true
  | c :: re1 =>
      match re1 with
      | d :: re2 =>
          if d =? star then star_loop c (matchhere re2) text
          else match text with t :: text' => if (c =? re_dot) || (c =? t) then matchhere re1 text' else false | [] => false end
      | [] =>
          if c =? dollar then match text with [] => true | _ => false end
          else match text with t :: text' => if (c =? re_dot) || (c =? t) then matchhere re1 text' else false | [] => false end
      end
  end.
Definition matchstar (c : Z) (re text : list Z) : bool := star_loop c (matchhere re) text.

(** The loop of [match]. *)
Fixpoint match_loop (re text : list Z) : bool :=
  if matchhere re text then true
  else match text with [] => false | _ :: text' => match_loop re text' end.
Definition match_re (re text : list Z) : bool :=
  match re with
  | c :: re' => if c =? caret then matchhere re' text else match_loop re text
  | [] => match_loop re text
  end.

(** ** The language of a pattern *)

Inductive item : Type :=
| One (c : Z)      (* the character, or any for a dot *)
| Many (c : Z)     (* any number of them *)
| End_             (* the end of the text *).

Fixpoint items (re : list Z) : list item :=
  match re with
  | [] => []
  | c :: re1 =>
      match re1 with
      | d :: re2 => if d =? star then Many c :: items re2 else One c :: items re1
      | [] => [if c =? dollar then End_ else One c]
      end
  end.

Definition is_char (c t : Z) : Prop := c = re_dot \/ t = c.

(** The texts that begin with an instance of the pattern. *)
Inductive begins : list item -> list Z -> Prop :=
| begins_nil text : begins [] text
| begins_one c l t text : is_char c t -> begins l text -> begins (One c :: l) (t :: text)
| begins_many c l ts text : Forall (is_char c) ts -> begins l text -> begins (Many c :: l) (ts ++ text)
| begins_end l : begins l [] -> begins (End_ :: l) [].

(** The pattern occurs in the text: at its start after a caret, anywhere otherwise. *)
Definition occurs (re text : list Z) : Prop :=
  match re with
  | c :: re' => if c =? caret then begins (items re') text else exists pre post, text = pre ++ post /\ begins (items re) post
  | [] => True
  end.

Lemma is_char_dec c t : (t =? c) || (c =? re_dot) = true <-> is_char c t.
Proof. unfold is_char. rewrite orb_true_iff, !Z.eqb_eq. tauto. Qed.

Lemma star_loop_spec c here text :
  star_loop c here text = true <-> exists ts post, text = ts ++ post /\ Forall (is_char c) ts /\ here post = true.
Proof.
  induction text as [|t text IH]; simpl; destruct (here _) eqn:E.
  - split; [|done]. intros _. by exists [], [].
  - split; [done|]. intros (ts & post & [-> ->]%eq_sym%app_eq_nil & _ & Hh). congruence.
  - split; [|done]. intros _. by exists [], (t :: text).
  - destruct ((t =? c) || (c =? re_dot)) eqn:Ec.
    + rewrite IH. apply is_char_dec in Ec. split.
      * intros (ts & post & -> & Hf & Hh). exists (t :: ts), post. split_and!; [done|by constructor|done].
      * intros ([|t' ts] & post & Ht & Hf & Hh); simplify_eq/=; [congruence|]. inversion Hf; subst. by exists ts, post.
    + split; [done|]. intros ([|t' ts] & post & Ht & Hf & Hh); simplify_eq/=; [congruence|].
      inversion Hf as [|? ? Hc]; subst. apply is_char_dec in Hc. congruence.
Qed.

(** Patterns are read one or two characters at a time. *)
Lemma re_ind (P : list Z -> Prop) :
  P [] -> (forall c, P [] -> P [c]) -> (forall c d re, P re -> P (d :: re) -> P (c :: d :: re)) -> forall re, P re.
Proof.
  intros H0 H1 H2 re. assert (P re /\ forall c, P (c :: re)) as [? _]; [|done].
  induction re as [|d re [IH1 IH2]]; [by auto|]. split; [apply IH2|]. intros c. by apply H2.
Qed.

Lemma begins_one_iff c l text : begins (One c :: l) text <-> exists t text', text = t :: text' /\ is_char c t /\ begins l text'.
Proof. split; [inversion 1; eauto 10|]. intros (t & text' & -> & ? & ?). by constructor. Qed.
Lemma begins_many_iff c l text :
  begins (Many c :: l) text <-> exists ts post, text = ts ++ post /\ Forall (is_char c) ts /\ begins l post.
Proof. split; [inversion 1; subst; eauto 10|]. intros (ts & post & -> & ? & ?). by constructor. Qed.

Lemma one_spec c (b : list Z -> bool) (P : list Z -> Prop) text :
  (forall text', b text' = true <-> P text') ->
  match text with t :: text' => if (c =? re_dot) || (c =? t) then b text' else false | [] => false end = true <->
  exists t text', text = t :: text' /\ is_char c t /\ P text'.
Proof.
  intros Hb. destruct text as [|t text]; [split; [done|]; by intros (? & ? & ? & _)|]. split.
  - destruct ((c =? re_dot) || (c =? t)) eqn:E; [|done]. rewrite Hb. intros HP. exists t, text. split_and!; try done.
    apply is_char_dec. by rewrite (Z.eqb_sym t c), orb_comm.
  - intros (t' & text' & [= <- <-] & Hc%is_char_dec & HP). rewrite (Z.eqb_sym c t), orb_comm, Hc. by apply Hb.
Qed.

Lemma matchhere_begins re : forall text, matchhere re text = true <-> begins (items re) text.
Proof.
  induction re as [|c IH|c d re IH1 IH2] using re_ind; intros text.
  - split; [constructor|done].
  - cbn [matchhere items]. destruct (c =? dollar).
    + destruct text; split; try done; [repeat constructor|]. by inversion 1.
    + rewrite begins_one_iff. by apply one_spec.
  - cbn [matchhere items]. destruct (d =? star).
    + rewrite star_loop_spec, begins_many_iff. by setoid_rewrite IH1.
    + rewrite begins_one_iff. apply one_spec. apply IH2.
Qed.
Lemma match_loop_spec re text : match_loop re text = true <-> exists pre post, text = pre ++ post /\ begins (items re) post.
Proof.
  induction text as [|t text IH]; simpl; destruct (matchhere re _) eqn:E.
  - apply matchhere_begins in E. split; [|done]. intros _. by exists [], [].
  - split; [done|]. intros (pre & post & [-> ->]%eq_sym%app_eq_nil & Hb%matchhere_begins). congruence.
  - apply matchhere_begins in E. split; [|done]. intros _. by exists [], (t :: text).
  - rewrite IH. split.
    + intros (pre & post & -> & Hb). by exists (t :: pre), post.
    + intros ([|t' pre] & post & Ht & Hb); simplify_eq/=; [apply matchhere_begins in Hb; congruence|by exists pre, post].
Qed.

Lemma match_occurs re text : match_re re text = true <-> occurs re text.
Proof.
  unfold match_re, occurs. destruct re as [|c re]; [|destruct (c =? caret); [apply matchhere_begins|apply match_loop_spec]].
  split; [done|]. intros _. destruct text; done.
Qed.

(** C32. grep's matcher decides its pattern language: literal characters, the dot, stars, and
    the anchors at both ends, for every pattern and every text. *)
Theorem match_language re text : match_re re text = true <-> occurs re text.
Proof. apply match_occurs. Qed.
