(* ===== verification/UserText.v ===== *)
(** * cat, wc, grep and echo

    The text utilities of [user/cat.c], [user/wc.c], [user/grep.c] and [user/echo.c]
    over the system calls [read] and [write]. How many bytes a call of [read]
    delivers is up to the file: [read_n] is a parameter, and the theorems hold
    however the input is cut into pieces. What [open] finds under a name is the
    class [Files]. *)

From S2P Require Import Prelude Printf Regexp.

(** What the program has not yet read of its input, and what it wrote to descriptors 1
    and 2. *)
Record ust : Type := mk_ust { u_in : list Z; u_out : list Z; u_err : list Z }.

(** The results of [read(fd, buf, n)] with [input] left to read, and of
    [write(fd, data, n)]. *)
Class Sys : Type := {
  read_n : list Z -> Z -> Z;
  write_n : list Z -> Z }.

(** [read] delivers at least a byte, unless the input is at its end or the program asks
    for none; [write] takes everything. *)
Class SysOk `{Sys} : Prop := {
  read_some input n : input <> [] -> 0 < n -> 0 < read_n input n <= Z.min n (Z.of_nat (length input));
  read_end n : 0 <= n -> read_n [] n = 0;
  read_none input : read_n input 0 = 0;
  write_all data : write_n data = Z.of_nat (length data) }.

(** The content of the file that [open(path, 0)] finds. *)
Class Files : Type := { file_at : list Z -> option (list Z) }.

Section programs.
Context `{Sys}.

Definition uread (n : Z) : M ust (Z * list Z) := fun s =>
  let r := read_n (u_in s) n in
  Done (r, take (Z.to_nat r) (u_in s)) (mk_ust (drop (Z.to_nat r) (u_in s)) (u_out s) (u_err s)).
Definition uwrite (data : list Z) : M ust Z := fun s =>
  let r := write_n data in
  Done r (mk_ust (u_in s) (u_out s ++ take (Z.to_nat r) data) (u_err s)).
(** [printf] and [fprintf(2, ...)]: one [write] for each character. *)
Definition uprintf (fmt : list Z) (ap : list varg) : M ust unit :=
  let! l := must (vprintf false fmt ap) in for_each l (fun c => let! _ := uwrite [c] in ret tt).
Definition uerror (msg : string) : M ust unit := modify (fun s => mk_ust (u_in s) (u_out s) (u_err s ++ chars msg ++ [10])).

(** A program that calls [exit(n)] ends with [Some n]; a function that returns, with
    [None]. *)

Fixpoint cat_loop (k : nat) : M ust (option Z) :=
  match k with
  | O => nofuel
  | S k' =>
      let! (n, d) := uread 512 in
      if 0 <? n then
        let! w := uwrite d in
        if negb (w =? n) then uerror "cat: write error" ;;; ret (Some 1) else cat_loop k'
      else if n <? 0 then uerror "cat: read error" ;;; ret (Some 1)
      else ret None
  end.
Definition cat : M ust (option Z) := let! input := gets u_in in cat_loop (S (length input)).

(** [strchr(" \r\t\n\v", c)] *)
Definition is_space (c : Z) : bool := bool_decide (c ∈ [32; 13; 9; 10; 11]).
(** The counters [l], [w], [c] and [inword]. *)
Record counts : Type := mk_counts { n_l : Z; n_w : Z; n_c : Z; inword : bool }.
Definition wc_char (x : counts) (b : Z) : counts :=
  let c := n_c x + 1 in
  let l := if b =? 10 then n_l x + 1 else n_l x in
  if is_space b then mk_counts l (n_w x) c false
  else if negb (inword x) then mk_counts l (n_w x + 1) c true
  else mk_counts l (n_w x) c true.
Fixpoint wc_loop (k : nat) (x : counts) : M ust (Z * counts) :=
  match k with
  | O => nofuel
  | S k' =>
      let! (n, d) := uread 512 in
      if 0 <? n then wc_loop k' (foldl wc_char x d) else ret (n, x)
  end.
Definition wc (name : list Z) : M ust (option Z) :=
  let! input := gets u_in in
  let! (n, x) := wc_loop (S (length input)) (mk_counts 0 0 0 false) in
  if n <? 0 then uprintf (chars "wc: read error" ++ [10]) [] ;;; ret (Some 1)
  else uprintf (chars "%d %d %d %s" ++ [10]) [AInt (n_l x); AInt (n_w x); AInt (n_c x); AStr (Some name)] ;;; ret None.

(** [strchr(p, '\n')] in the bytes before the NUL: the bytes before and after the
    newline. *)
Fixpoint cut_line (l : list Z) : option (list Z * list Z) :=
  match l with
  | [] => None
  | c :: l' =>
      if c =? 0 then None
      else if c =? 10 then Some ([], l')
      else match cut_line l' with Some (a, b) => Some (c :: a, b) | None => None end
  end.
(** The lines of the buffer; what is left of it. The loop ends because every turn shortens
    the buffer. *)
Fixpoint grep_lines (k : nat) (pattern buf : list Z) : M ust (list Z) :=
  match k with
  | O => nofuel
  | S k' =>
      match cut_line buf with
      | None => ret buf
      | Some (line, rest) =>
          when (match_re pattern line) (let! _ := uwrite (line ++ [10]) in ret tt) ;;;
          grep_lines k' pattern rest
      end
  end.
(** [buf] holds the part of the last line already read. *)
Fixpoint grep_loop (k : nat) (pattern buf : list Z) : M ust unit :=
  match k with
  | O => nofuel
  | S k' =>
      let! (n, d) := uread (1024 - Z.of_nat (length buf) - 1) in
      if 0 <? n then
        let! rest := grep_lines (S (length (buf ++ d))) pattern (buf ++ d) in
        grep_loop k' pattern rest
      else ret tt
  end.
Definition grep (pattern : list Z) : M ust unit := let! input := gets u_in in grep_loop (S (length input)) pattern [].

(** [argv[1]] and the arguments after it. *)
Fixpoint echo_loop (args : list (list Z)) : M ust unit :=
  match args with
  | [] => ret tt
  | a :: args' =>
      let! _ := uwrite a in
      let! _ := uwrite (match args' with [] => [10] | _ => [32] end) in
      echo_loop args'
  end.
Definition echo (argv : list (list Z)) : M ust Z := echo_loop (drop 1 argv) ;;; ret 0.

(** The main functions open the files they are given one after the other. *)
Context `{Files}.

(** The program reads the descriptor it got for a file with this content; its descriptor 0
    stays where it is. *)
Definition on_file {A} (content : list Z) (m : M ust A) : M ust A := fun s =>
  let back s' := mk_ust (u_in s) (u_out s') (u_err s') in
  match m (mk_ust content (u_out s) (u_err s)) with
  | Done a s' => Done a (back s')
  | Panic msg s' => Panic msg (back s')
  | Blocked s' => Blocked (back s')
  | Undef => Undef
  | NoFuel => NoFuel
  end.
(** The status that the program exits with. *)
Definition exit_with (r : option Z) (k : M ust Z) : M ust Z := match r with Some n => ret n | None => k end.

Definition ueprintf (fmt : list Z) (ap : list varg) : M ust unit :=
  let! l := must (vprintf false fmt ap) in modify (fun s => mk_ust (u_in s) (u_out s) (u_err s ++ l)).
Fixpoint cat_files (files : list (list Z)) : M ust Z :=
  match files with
  | [] => ret 0
  | f :: files' =>
      match file_at f with
      | None => ueprintf (chars "cat: cannot open %s" ++ [10]) [AStr (Some f)] ;;; ret 1
      | Some content => let! r := on_file content cat in exit_with r (cat_files files')
      end
  end.
Definition cat_main (argv : list (list Z)) : M ust Z :=
  if (length argv <=? 1)%nat then let! r := cat in exit_with r (ret 0) else cat_files (drop 1 argv).

Fixpoint wc_files (files : list (list Z)) : M ust Z :=
  match files with
  | [] => ret 0
  | f :: files' =>
      match file_at f with
      | None => uprintf (chars "wc: cannot open %s" ++ [10]) [AStr (Some f)] ;;; ret 1
      | Some content => let! r := on_file content (wc f) in exit_with r (wc_files files')
      end
  end.
Definition wc_main (argv : list (list Z)) : M ust Z :=
  if (length argv <=? 1)%nat then let! r := wc [] in exit_with r (ret 0) else wc_files (drop 1 argv).

Fixpoint grep_files (pattern : list Z) (files : list (list Z)) : M ust Z :=
  match files with
  | [] => ret 0
  | f :: files' =>
      match file_at f with
      | None => uprintf (chars "grep: cannot open %s" ++ [10]) [AStr (Some f)] ;;; ret 1
      | Some content => on_file content (grep pattern) ;;; grep_files pattern files'
      end
  end.
Definition grep_main (argv : list (list Z)) : M ust Z :=
  match argv with
  | _ :: pattern :: files =>
      if (length argv <=? 2)%nat then grep pattern ;;; ret 0 else grep_files pattern files
  | _ => ueprintf (chars "usage: grep pattern [file ...]" ++ [10]) [] ;;; ret 1
  end.
End programs.

(** ** Lines *)

(** The complete lines of a text, and what follows the last of them. *)
Fixpoint split_lines (l : list Z) : list (list Z) * list Z :=
  match l with
  | [] => ([], [])
  | c :: l' =>
      let '(ls, r) := split_lines l' in
      if c =? 10 then ([] :: ls, r) else match ls with [] => ([], c :: r) | x :: ls' => ((c :: x) :: ls', r) end
  end.
Definition lines (l : list Z) : list (list Z) := (split_lines l).1.
Definition remainder (l : list Z) : list Z := (split_lines l).2.

Lemma split_lines_app a b :
  split_lines (a ++ b) = (lines a ++ lines (remainder a ++ b), remainder (remainder a ++ b)).
Proof.
  unfold lines, remainder. induction a as [|c a IH]; simpl; [by destruct (split_lines b)|]. rewrite IH. destruct (split_lines a) as [ls r]. simpl.
  destruct (c =? 10) eqn:Ec; [done|]. destruct ls as [|x ls]; simpl; [|done]. rewrite Ec. destruct (split_lines (r ++ b)) as [[|y ls'] r']; done.
Qed.
Lemma lines_app a b : lines (a ++ b) = lines a ++ lines (remainder a ++ b).
Proof. unfold lines at 1. by rewrite split_lines_app. Qed.
Lemma split_lines_none l : 10 ∉ l -> split_lines l = ([], l).
Proof.
  induction l as [|c l IH]; [done|]. intros [Hc Hl]%not_elem_of_cons. simpl. rewrite IH by done.
  by rewrite (proj2 (Z.eqb_neq c 10)) by done.
Qed.
Lemma split_lines_line a b : 10 ∉ a -> split_lines (a ++ 10 :: b) = (a :: lines b, remainder b).
Proof.
  unfold lines, remainder. induction a as [|c a IH]; simpl; [by destruct (split_lines b)|].
  intros [Hc Ha]%not_elem_of_cons. rewrite IH by done. by rewrite (proj2 (Z.eqb_neq c 10)) by done.
Qed.
Lemma remainder_none l : 10 ∉ remainder l.
Proof.
  unfold remainder. induction l as [|c l IH]; simpl; [set_solver|]. destruct (split_lines l) as [ls r]. simpl in *.
  destruct (Z.eqb_spec c 10); [done|]. destruct ls; [|done]. simpl. set_solver.
Qed.
Lemma lines_none l : Forall (fun x => 10 ∉ x) (lines l).
Proof.
  unfold lines. induction l as [|c l IH]; simpl; [done|]. destruct (split_lines l) as [ls r]. simpl in *.
  destruct (Z.eqb_spec c 10); simpl; [constructor; [set_solver|done]|]. destruct IH; simpl; [done|]. constructor; [set_solver|done].
Qed.
Definition unlines (ls : list (list Z)) : list Z := concat ((fun x => x ++ [10]) <$> ls).
Lemma unlines_lines l : unlines (lines l) ++ remainder l = l.
Proof.
  unfold unlines, lines, remainder. induction l as [|c l IH]; simpl; [done|]. destruct (split_lines l) as [ls r]. simpl in *.
  destruct (Z.eqb_spec c 10) as [->|]; simpl; [f_equal; exact IH|].
  destruct ls; simpl in *; f_equal; exact IH.
Qed.
Lemma remainder_length l : (length (remainder l) <= length l)%nat.
Proof. rewrite <- (unlines_lines l) at 2. rewrite length_app. lia. Qed.
Lemma remainder_elem c l : c ∈ remainder l -> c ∈ l.
Proof. intros Hc. rewrite <- (unlines_lines l). set_solver. Qed.

Lemma cut_line_Some l a b : cut_line l = Some (a, b) -> l = a ++ 10 :: b /\ 10 ∉ a.
Proof.
  revert a b. induction l as [|c l IH]; intros a b E; simpl in E; [done|].
  destruct (c =? 0); [done|]. destruct (Z.eqb_spec c 10) as [->|].
  - simplify_eq. split; [done|set_solver].
  - destruct (cut_line l) as [[a' b']|]; simplify_eq. destruct (IH a' b) as [-> ?]; [done|]. split; [done|set_solver].
Qed.
Lemma cut_line_None l : 0 ∉ l -> cut_line l = None -> 10 ∉ l.
Proof.
  induction l as [|c l IH]; [set_solver|]. simpl. intros [Hc Hl]%not_elem_of_cons.
  destruct (Z.eqb_spec c 0); [congruence|]. destruct (Z.eqb_spec c 10); [done|]. destruct (cut_line l) as [[]|]; [done|].
  intros _. apply not_elem_of_cons. split; [congruence|by apply IH].
Qed.

(** ** What the programs print *)

Section text.
Context `{SysOk}.

(** The state after [l] was written to descriptor 1. *)
Definition wrote (l : list Z) (s : ust) : ust := mk_ust (u_in s) (u_out s ++ l) (u_err s).
Lemma uwrite_done l s : uwrite l s = Done (Z.of_nat (length l)) (wrote l s).
Proof. unfold uwrite. rewrite write_all, Nat2Z.id, take_ge by lia. done. Qed.
Lemma wrote_app l l' s : wrote l' (wrote l s) = wrote (l ++ l') s.
Proof. unfold wrote. simpl. by rewrite app_assoc. Qed.
Lemma wrote_nil s : wrote [] s = s.
Proof. unfold wrote. rewrite app_nil_r. by destruct s. Qed.

(** A [read] with input left and room in the buffer takes a part of it. *)
Lemma uread_some n s : 0 < n -> u_in s <> [] ->
  exists d rest, u_in s = d ++ rest /\ d <> [] /\ Z.of_nat (length d) <= n /\
    uread n s = Done (Z.of_nat (length d), d) (mk_ust rest (u_out s) (u_err s)).
Proof.
  intros Hn Hi. pose proof (read_some (u_in s) n Hi Hn) as Hr. set (r := read_n (u_in s) n) in *.
  assert (length (take (Z.to_nat r) (u_in s)) = Z.to_nat r) as Hl by (rewrite length_take; lia).
  exists (take (Z.to_nat r) (u_in s)), (drop (Z.to_nat r) (u_in s)). rewrite Hl, Z2Nat.id by lia. split_and!.
  - by rewrite take_drop.
  - intros E. rewrite E in Hl. simpl in Hl. lia.
  - lia.
  - unfold uread. by fold r.
Qed.
Lemma uread_stop n s : 0 <= n -> u_in s = [] \/ n = 0 -> uread n s = Done (0, []) s.
Proof.
  intros Hn Hd. unfold uread. assert (read_n (u_in s) n = 0) as -> by (destruct Hd as [-> | ->]; [by apply read_end|apply read_none]).
  by destruct s.
Qed.

(** The lines that [grep] prints. *)
Definition hits (pattern : list Z) (ls : list (list Z)) : list Z := unlines (filter (fun x => match_re pattern x = true) ls).
Lemma hits_app pattern ls ls' : hits pattern (ls ++ ls') = hits pattern ls ++ hits pattern ls'.
Proof. unfold hits, unlines. by rewrite filter_app, fmap_app, concat_app. Qed.

Lemma grep_lines_done pattern k : forall buf s, 0 ∉ buf -> (length buf < k)%nat ->
  grep_lines k pattern buf s = Done (remainder buf) (wrote (hits pattern (lines buf)) s).
Proof.
  induction k as [|k IH]; intros buf s Hnul Hk; [lia|]. cbn [grep_lines]. destruct (cut_line buf) as [[line rest]|] eqn:E.
  - apply cut_line_Some in E as [-> Hl]. rewrite length_app in Hk. simpl in Hk.
    unfold lines at 1, remainder at 1. rewrite split_lines_line by done. simpl.
    assert (0 ∉ rest) as Hr by set_solver. unfold hits, when, bind, ret. rewrite filter_cons. destruct (match_re pattern line) eqn:Em.
    + rewrite uwrite_done, decide_True by done. rewrite IH by (done || lia). by rewrite wrote_app.
    + rewrite decide_False by congruence. by rewrite IH by (done || lia).
  - apply cut_line_None in E; [|done]. unfold lines, remainder. rewrite split_lines_none by done. simpl. unfold ret. by rewrite wrote_nil.
Qed.

Lemma lines_long buf l : 10 ∉ buf -> Forall (fun x => (length x < 1023)%nat) (lines (buf ++ l)) -> (1023 <= length buf)%nat -> lines (buf ++ l) = [].
Proof.
  intros Hb HF Hlen. rewrite <- (unlines_lines l) in HF |- *. destruct (lines l) as [|x ls] eqn:E.
  - change (unlines []) with (@nil Z). rewrite app_nil_l. unfold lines. rewrite split_lines_none; [done|].
    pose proof (remainder_none l). set_solver.
  - exfalso. pose proof (lines_none l) as Hx. rewrite E in Hx. apply Forall_cons in Hx as [Hx _].
    assert (buf ++ unlines (x :: ls) ++ remainder l = (buf ++ x) ++ 10 :: unlines ls ++ remainder l) as E2.
    { unfold unlines. simpl. by rewrite <- !app_assoc. }
    rewrite E2 in HF. unfold lines in HF. rewrite split_lines_line in HF by set_solver.
    apply Forall_cons in HF as [HF _]. rewrite length_app in HF. lia.
Qed.

Lemma grep_loop_done pattern k : forall buf s,
  (length (u_in s) < k)%nat -> 10 ∉ buf -> 0 ∉ buf ++ u_in s -> (length buf <= 1023)%nat ->
  Forall (fun x => (length x < 1023)%nat) (lines (buf ++ u_in s)) ->
  exists rest, grep_loop k pattern buf s = Done tt (mk_ust rest (u_out s ++ hits pattern (lines (buf ++ u_in s))) (u_err s)).
Proof.
  induction k as [|k IH]; intros buf s Hk Hb Hnul Hlen Hshort; [lia|]. cbn [grep_loop]. unfold bind.
  destruct (decide (u_in s = [] \/ length buf = 1023%nat)) as [Hstop|Hgo].
  - rewrite uread_stop; [|lia|destruct Hstop as [?|E]; [by left|right; rewrite E; done]].
    assert (lines (buf ++ u_in s) = []) as ->.
    { destruct Hstop as [->|E]; [rewrite app_nil_r; unfold lines; by rewrite split_lines_none|apply lines_long; [done|done|lia]]. }
    exists (u_in s). simpl. unfold ret. rewrite app_nil_r. by destruct s.
  - assert (u_in s <> [] /\ length buf <> 1023%nat) as [Hin Hne] by tauto.
    destruct (uread_some (1024 - Z.of_nat (length buf) - 1) s) as (d & rest & Ei & Hd & Hdl & E); [lia|done|]. rewrite E, Ei in *.
    assert (0 < Z.of_nat (length d)) as Hpos by (destruct d; [done|simpl; lia]). rewrite (proj2 (Z.ltb_lt _ _) Hpos).
    assert (0 ∉ buf ++ d) as Hn2 by set_solver.
    rewrite grep_lines_done by (done || lia). rewrite app_assoc in Hshort |- *.
    rewrite (lines_app (buf ++ d) rest) in Hshort |- *. apply Forall_app in Hshort as [_ Hshort].
    destruct (IH (remainder (buf ++ d)) (wrote (hits pattern (lines (buf ++ d))) (mk_ust rest (u_out s) (u_err s)))) as (rest' & E').
    + rewrite length_app in Hk. simpl. lia.
    + apply remainder_none.
    + simpl. intros [Hr%remainder_elem|Hr]%elem_of_app; set_solver.
    + pose proof (remainder_length (buf ++ d)) as Hr. rewrite length_app in Hr. lia.
    + done.
    + exists rest'. rewrite E'. cbn [wrote u_in u_out u_err]. by rewrite hits_app, app_assoc.
Qed.

(** C33. On an input without NUL in which every line is shorter than 1023 bytes, [grep] prints
    exactly those lines that end in a newline and in which the pattern occurs, in their
    order and complete, however [read] cuts the input into pieces. Text after the last
    newline is not looked at; for a longer line see [grep_long_line]. *)
Theorem grep_prints pattern s :
  0 ∉ u_in s -> Forall (fun x => (length x < 1023)%nat) (lines (u_in s)) ->
  exists rest, grep pattern s =
    Done tt (mk_ust rest (u_out s ++ unlines (filter (fun x => match_re pattern x = true) (lines (u_in s)))) (u_err s)).
Proof.
  intros Hnul Hshort. unfold grep. unfold bind, gets.
  apply (grep_loop_done pattern (S (length (u_in s))) [] s); [lia|set_solver|done|simpl; lia|done].
Qed.
(** A line that does not fit the buffer ends [grep]: the lines after it are not read. *)
Lemma grep_long_line pattern line rest out err :
  0 ∉ line -> 10 ∉ line -> (1023 <= length line)%nat ->
  (forall input n, input <> [] -> read_n input n = Z.min n (Z.of_nat (length input))) ->
  grep pattern (mk_ust (line ++ rest) out err) = Done tt (mk_ust (drop 1023 (line ++ rest)) out err).
Proof.
  intros Hnul Hnl Hlen Hread. unfold grep. unfold bind at 1, gets. cbn [u_in].
  assert (line ++ rest <> []) as Hne by (destruct line; [simpl in Hlen; lia|done]).
  assert (exists k, length (line ++ rest) = S k) as [k Ek] by (rewrite length_app; exists (length line + length rest - 1)%nat; lia).
  rewrite Ek. cbn [grep_loop]. unfold bind. unfold uread at 1. cbn [u_in length]. rewrite Hread by done.
  change (1024 - Z.of_nat 0 - 1) with 1023. rewrite Z.min_l by (rewrite length_app; lia). change (Z.to_nat 1023) with 1023%nat. cbn [u_out u_err].
  rewrite (proj2 (Z.ltb_lt 0 1023)) by lia. rewrite app_nil_l. rewrite take_app_le by done. set (t := take 1023 line).
  assert (0 ∉ t /\ 10 ∉ t) as [Ht0 Ht1]. { split; intros Hin; [apply Hnul|apply Hnl]; rewrite <- (take_drop 1023 line); apply elem_of_app; by left. }
  rewrite grep_lines_done by (done || lia). unfold lines, remainder. rewrite split_lines_none by done. cbn [fst snd].
  change (hits pattern []) with (@nil Z). rewrite wrote_nil. assert (length t = 1023%nat) as Hl by (unfold t; rewrite length_take; lia).
  rewrite Hl. change (1024 - Z.of_nat 1023 - 1) with 0. rewrite uread_stop; [done|lia|by right].
Qed.

(** ** Counting *)

(** The words of a text begin where a character that is no space follows a space or
    nothing. *)
Definition word_start (l : list Z) (i : nat) : bool :=
  match l !! i with
  | Some c => negb (is_space c) && match i with O => true | S j => default true (is_space <$> l !! j) end
  | None => false
  end.
Definition word_count (l : list Z) : Z := Z.of_nat (length (filter (fun i => word_start l i = true) (seq 0 (length l)))).
Definition line_count (l : list Z) : Z := Z.of_nat (length (filter (fun c => c = 10) l)).

Lemma word_start_snoc l b i : (i < length l)%nat -> word_start (l ++ [b]) i = word_start l i.
Proof. intros Hi. unfold word_start. rewrite lookup_app_l by done. destruct i; [done|]. by rewrite (lookup_app_l l [b] i) by lia. Qed.
Lemma filter_same {A} (P Q : A -> bool) (l : list A) :
  (forall x, x ∈ l -> P x = Q x) -> filter (fun x => P x = true) l = filter (fun x => Q x = true) l.
Proof.
  induction l as [|x l IH]; intros E; [done|]. rewrite !filter_cons, IH by set_solver. by rewrite E by set_solver.
Qed.
Lemma word_count_snoc l b :
  word_count (l ++ [b]) = word_count l + (if negb (is_space b) && default true (is_space <$> last l) then 1 else 0).
Proof.
  unfold word_count. rewrite length_app, Nat.add_1_r, seq_S, filter_app, length_app, Nat2Z.inj_add. f_equal.
  - rewrite (filter_same _ (word_start l)); [done|]. intros i [_ Hi]%elem_of_seq. apply word_start_snoc. lia.
  - rewrite filter_cons, filter_nil. assert (word_start (l ++ [b]) (0 + length l) = negb (is_space b) && default true (is_space <$> last l)) as ->.
    { unfold word_start. rewrite lookup_app_r, Nat.sub_diag by lia. cbn [lookup list_lookup]. f_equal. rewrite last_lookup.
      destruct (length l) as [|n] eqn:El; [by destruct l|]. cbn [Nat.add pred]. rewrite lookup_app_l by lia.
      destruct (lookup_lt_is_Some_2 l n) as [c ->]; [lia|done]. }
    by destruct (negb (is_space b) && default true (is_space <$> last l)).
Qed.
Lemma line_count_snoc l b : line_count (l ++ [b]) = line_count l + (if b =? 10 then 1 else 0).
Proof.
  unfold line_count. rewrite filter_app, length_app, Nat2Z.inj_add, filter_cons, filter_nil. f_equal.
  destruct (Z.eqb_spec b 10); case_decide; done.
Qed.

Lemma wc_char_counts l :
  foldl wc_char (mk_counts 0 0 0 false) l =
    mk_counts (line_count l) (word_count l) (Z.of_nat (length l)) (negb (default true (is_space <$> last l))).
Proof.
  induction l as [|b l IH] using rev_ind; [done|]. rewrite foldl_app, IH. cbn [foldl].
  rewrite word_count_snoc, line_count_snoc, last_snoc, length_app, Nat2Z.inj_add. unfold wc_char. cbn [n_l n_w n_c inword fmap option_fmap option_map default].
  destruct (is_space b), (default true (is_space <$> last l)), (b =? 10); cbn [negb andb]; f_equal; cbn [length]; lia.
Qed.
Lemma wc_loop_done k : forall x s, (length (u_in s) < k)%nat ->
  wc_loop k x s = Done (0, foldl wc_char x (u_in s)) (mk_ust [] (u_out s) (u_err s)).
Proof.
  induction k as [|k IH]; intros x s Hk; [lia|]. cbn [wc_loop]. unfold bind. destruct (decide (u_in s = [])) as [E0|Hne].
  - rewrite uread_stop; [|lia|by left]. rewrite E0. simpl. unfold ret. destruct s. by simplify_eq/=.
  - destruct (uread_some 512 s) as (d & rest & Ei & Hd & _ & E); [lia|done|]. rewrite E, Ei in *.
    assert (0 < length d)%nat as Hpos by (destruct d; [done|simpl; lia]). rewrite (proj2 (Z.ltb_lt _ _)) by lia.
    rewrite IH by (rewrite length_app in Hk; simpl; lia). simpl. by rewrite foldl_app.
Qed.
Lemma for_each_write l : forall s, for_each l (fun c => let! _ := uwrite [c] in ret tt) s = Done tt (wrote l s).
Proof.
  induction l as [|c l IH]; intros s; cbn [for_each]; [by rewrite wrote_nil|]. unfold bind, ret. rewrite uwrite_done, IH. by rewrite wrote_app.
Qed.

Lemma wc_format a b c name :
  vprintf false (chars "%d %d %d %s" ++ [10]) [AInt a; AInt b; AInt c; AStr (Some name)] =
  Some (u_printint (i32 a) 10 true ++ [32] ++ u_printint (i32 b) 10 true ++ [32] ++ u_printint (i32 c) 10 true ++ [32] ++ name ++ [10]).
Proof. reflexivity. Qed.

(** [wc] prints the numbers of newlines, of words and of bytes of its input, however
    [read] cuts the input into pieces, also inside a word. *)
Theorem wc_counts name s :
  Z.of_nat (length (u_in s)) < 2^31 ->
  wc name s = Done None (mk_ust [] (u_out s ++ u_printint (line_count (u_in s)) 10 true ++ [32] ++
    u_printint (word_count (u_in s)) 10 true ++ [32] ++ u_printint (Z.of_nat (length (u_in s))) 10 true ++ [32] ++ name ++ [10]) (u_err s)).
Proof.
  intros Hlen. unfold wc. unfold bind at 1, gets. unfold bind at 1. rewrite wc_loop_done by lia. rewrite wc_char_counts.
  cbn [Z.ltb Z.compare n_l n_w n_c]. unfold uprintf.
  assert (0 <= line_count (u_in s) <= Z.of_nat (length (u_in s))) as Hl.
  { unfold line_count. pose proof (length_filter (fun c => c = 10) (u_in s)). lia. }
  assert (0 <= word_count (u_in s) <= Z.of_nat (length (u_in s))) as Hw.
  { unfold word_count. pose proof (length_filter (fun i => word_start (u_in s) i = true) (seq 0 (length (u_in s)))) as Hf.
    rewrite length_seq in Hf. lia. }
  unfold bind at 1. unfold bind at 1. rewrite wc_format. cbn [must]. unfold ret at 1. rewrite !i32_small by lia.
  rewrite for_each_write. unfold ret, wrote. done.
Qed.

(** [cat] copies its input. *)
Lemma cat_copies s : cat s = Done None (mk_ust [] (u_out s ++ u_in s) (u_err s)).
Proof.
  unfold cat. unfold bind at 1, gets. assert (length (u_in s) < S (length (u_in s)))%nat as Hk by lia. revert Hk. generalize (S (length (u_in s))).
  intros k. revert s. induction k as [|k IH]; intros s Hk; [lia|]. cbn [cat_loop]. unfold bind. destruct (decide (u_in s = [])) as [E0|Hne].
  - rewrite uread_stop; [|lia|by left]. rewrite E0, app_nil_r. simpl. unfold ret. destruct s. by simplify_eq/=.
  - destruct (uread_some 512 s) as (d & rest & Ei & Hd & _ & E); [lia|done|]. rewrite E, Ei in *.
    assert (0 < length d)%nat as Hpos by (destruct d; [done|simpl; lia]). rewrite (proj2 (Z.ltb_lt _ _)) by lia.
    rewrite uwrite_done, Z.eqb_refl. cbn [negb]. rewrite IH by (rewrite length_app in Hk; simpl; lia). simpl. by rewrite app_assoc.
Qed.

(** ** Several files *)

Context `{Files}.

(** [cat] of files that exist is their concatenation. *)
Lemma cat_files_copies files : forall s, Forall (fun f => is_Some (file_at f)) files ->
  cat_files files s = Done 0 (wrote (concat ((fun f => default [] (file_at f)) <$> files)) s).
Proof.
  induction files as [|f files IH]; intros s Hf; [simpl; by rewrite wrote_nil|]. apply Forall_cons in Hf as [[c Hc] Hf]. cbn [cat_files fmap list_fmap concat]. rewrite Hc.
  unfold bind, on_file. rewrite cat_copies. cbn [exit_with u_in u_out u_err]. rewrite IH by done. simpl. rewrite <- wrote_app. done.
Qed.
(** [grep] of files that exist prints the matching lines of each. *)
Lemma grep_files_prints pattern files : forall s,
  Forall (fun f => exists c, file_at f = Some c /\ 0 ∉ c /\ Forall (fun x => (length x < 1023)%nat) (lines c)) files ->
  grep_files pattern files s = Done 0 (wrote (concat ((fun f => hits pattern (lines (default [] (file_at f)))) <$> files)) s).
Proof.
  induction files as [|f files IH]; intros s Hf; [simpl; by rewrite wrote_nil|]. apply Forall_cons in Hf as [(c & Hc & Hnul & Hs) Hf]. cbn [grep_files fmap list_fmap concat]. rewrite Hc.
  unfold bind at 1, on_file, grep. unfold bind at 1, gets. cbn [u_in].
  destruct (grep_loop_done pattern (S (length c)) [] (mk_ust c (u_out s) (u_err s))) as [rest E]; [simpl; lia|set_solver|done|simpl; lia|done|].
  rewrite E. rewrite IH by done. simpl. rewrite <- wrote_app. done.
Qed.
End text.

(** ** Input that comes in pieces of at most three bytes *)

#[local] Instance demo_sys : Sys := {|
  read_n input n := Z.min (Z.min n 3) (Z.of_nat (length input)); write_n data := Z.of_nat (length data) |}.
#[local] Instance demo_sys_ok : SysOk.
Proof.
  split.
  - intros input n Hi Hn. cbn [read_n demo_sys]. assert (0 < length input)%nat by (destruct input; [done|simpl; lia]). lia.
  - intros n Hn. cbn [read_n demo_sys length]. lia.
  - intros input. cbn [read_n demo_sys]. lia.
  - done.
Qed.

Definition demo_input : list Z := chars "one" ++ [10] ++ chars "two three" ++ [10] ++ chars "four".
Lemma grep_prints_witness :
  exists rest, grep (chars "t.*e$") (mk_ust demo_input [] []) = Done tt (mk_ust rest (chars "two three" ++ [10]) []).
Proof.
  destruct (grep_prints (chars "t.*e$") (mk_ust demo_input [] [])) as [rest E].
  - apply (bool_decide_unpack _). vm_compute. exact I.
  - apply (bool_decide_unpack _). vm_compute. exact I.
  - exists rest. exact E.
Defined.
Lemma wc_counts_witness : wc (chars "f") (mk_ust demo_input [] []) = Done None (mk_ust [] (chars "2 4 18 f" ++ [10]) []).
Proof. exact (wc_counts (chars "f") (mk_ust demo_input [] []) ltac:(vm_compute; reflexivity)). Defined.
