(* ===== verification/Shell.v ===== *)
(** * The shell's parser

    The parser of [user/sh.c]: a command line to the tree of commands that [runcmd]
    executes. The state is what is left of the line, the bytes from [*ps] to [es].
    A string of the tree is the bytes between its two pointers, which
    [nulterminate] makes a C string after the line was parsed. *)

From S2P Require Import Prelude State Virtio Fs File SysFile.

(** [struct cmd] and its five kinds. *)
Inductive cmd : Type :=
| EXEC (argv : list (list Z))
| REDIR (c : cmd) (file : list Z) (mode fd : Z)
| PIPE (left right : cmd)
| LIST (left right : cmd)
| BACK (c : cmd).

Definition MAXARGS : nat := 10.
Definition whitespace : list Z := [32; 9; 13; 10; 11].
Definition symbols : list Z := chars "<|>&;()".
Definition is_ws (c : Z) : bool := bool_decide (c ∈ whitespace).
Definition in_word (c : Z) : bool := negb (is_ws c) && negb (bool_decide (c ∈ symbols)).

Fixpoint skip_ws (s : list Z) : list Z :=
  match s with
  | c :: s' => if is_ws c then skip_ws s' else s
  | [] => []
  end.
Fixpoint span_word (s : list Z) : list Z * list Z :=
  match s with
  | c :: s' => if in_word c then let (w, r) := span_word s' in (c :: w, r) else ([], s)
  | [] => ([], [])
  end.

(** The kind of the token and its characters. The list is the text from [s] to [es], the
    end that [parsecmd] gets from [strlen]: there is no NUL in it. *)
Definition gettoken : M (list Z) (Z * list Z) := fun s =>
  match skip_ws s with
  | [] => Done (0, []) []
  | c :: s1 =>
      if bool_decide (c ∈ chars "|();&<") then Done (c, [c]) (skip_ws s1)
      else if c =? 62 then
        match s1 with
        | d :: s2 => if d =? 62 then Done (43, [c; d]) (skip_ws s2) else Done (c, [c]) (skip_ws s1)
        | [] => Done (c, [c]) []
        end
      else let (w, r) := span_word (c :: s1) in Done (97, w) (skip_ws r)
  end.

Definition peek (toks : list Z) : M (list Z) bool := fun s =>
  let s' := skip_ws s in
  Done (match s' with c :: _ => bool_decide (c ∈ toks) | [] => false end) s'.

(** A redirection: the file, the mode of [open], the descriptor. *)
Definition redir : Type := list Z * Z * Z.
Definition redircmd (c : cmd) (r : redir) : cmd := let '(file, mode, fd) := r in REDIR c file mode fd.
Definition redir_of (tok : Z) (file : list Z) : redir :=
  if tok =? 60 then (file, O_RDONLY, 0)
  else if tok =? 62 then (file, Z.lor (Z.lor O_WRONLY O_CREATE) O_TRUNC, 1)
  else (file, Z.lor O_WRONLY O_CREATE, 1).

(** The redirections that come next, in order. Every turn consumes a character. *)
Fixpoint redirs_loop (k : nat) : M (list Z) (list redir) :=
  match k with
  | O => nofuel
  | S k' =>
      let! b := peek (chars "<>") in
      if b then
        let! (tok, _) := gettoken in
        let! (t, file) := gettoken in
        if negb (t =? 97) then panic "missing file for redirection"
        else let! rs := redirs_loop k' in ret (redir_of tok file :: rs)
      else ret []
  end.
Definition parse_redirs : M (list Z) (list redir) := let! s := get in redirs_loop (S (length s)).
Definition parseredirs (c : cmd) : M (list Z) cmd := let! rs := parse_redirs in ret (foldl redircmd c rs).

(** The loop of [parseexec]: the arguments and the redirections among them. *)
Fixpoint exec_loop (k : nat) (argv : list (list Z)) (rs : list redir) : M (list Z) (list (list Z) * list redir) :=
  match k with
  | O => nofuel
  | S k' =>
      let! b := peek (chars "|)&;") in
      if b then ret (argv, rs)
      else
        let! (tok, w) := gettoken in
        if tok =? 0 then ret (argv, rs)
        else if negb (tok =? 97) then panic "syntax"
        else
          let argv := argv ++ [w] in
          if (MAXARGS <=? length argv)%nat then panic "too many args"
          else let! rs' := parse_redirs in exec_loop k' argv (rs ++ rs')
  end.
(** [execcmd] makes an empty command, which the redirections wrap while the arguments are
    filled in. *)
Definition parse_args : M (list Z) cmd :=
  let! rs := parse_redirs in
  let! s := get in
  let! (argv, rs) := exec_loop (S (length s)) [] rs in
  ret (foldl redircmd (EXEC argv) rs).

Fixpoint back_loop (k : nat) (c : cmd) : M (list Z) cmd :=
  match k with
  | O => nofuel
  | S k' =>
      let! b := peek (chars "&") in
      if b then gettoken ;;; back_loop k' (BACK c) else ret c
  end.

(** The functions that call each other; [n] bounds the depth of the calls. *)
Fixpoint parseline (n : nat) : M (list Z) cmd :=
  match n with
  | O => nofuel
  | S n' =>
      let! c := parsepipe n' in
      let! s := get in
      let! c := back_loop (S (length s)) c in
      let! b := peek (chars ";") in
      if b then gettoken ;;; let! r := parseline n' in ret (LIST c r) else ret c
  end
with parsepipe (n : nat) : M (list Z) cmd :=
  match n with
  | O => nofuel
  | S n' =>
      let! c := parseexec n' in
      let! b := peek (chars "|") in
      if b then gettoken ;;; let! r := parsepipe n' in ret (PIPE c r) else ret c
  end
with parseexec (n : nat) : M (list Z) cmd :=
  match n with
  | O => nofuel
  | S n' =>
      let! b := peek (chars "(") in
      if b then parseblock n' else parse_args
  end
with parseblock (n : nat) : M (list Z) cmd :=
  match n with
  | O => nofuel
  | S n' =>
      let! b := peek (chars "(") in
      if negb b then panic "parseblock"
      else
        gettoken ;;;
        let! c := parseline n' in
        let! b := peek (chars ")") in
        if negb b then panic "syntax - missing )"
        else gettoken ;;; parseredirs c
  end.

Definition parse_fuel (s : list Z) : nat := 4 * length s + 4.
(** The text left over, which is printed to descriptor 2 before the error, is the state of
    the [Panic]. *)
Definition parsecmd : M (list Z) cmd :=
  let! s := get in
  let! c := parseline (parse_fuel s) in
  peek [] ;;;
  let! s := get in
  match s with [] => ret c | _ => panic "syntax" end.

(** ** Parsing ends *)

(** The parser returns or reports a syntax error; [Q] holds of what it returns. *)
Definition ends {A} (m : M (list Z) A) (Q : A -> list Z -> Prop) (s : list Z) : Prop :=
  match m s with Done a s' => Q a s' | Panic _ _ => True | _ => False end.
Lemma ends_bind {A B} (m : M (list Z) A) (k : A -> M (list Z) B) Q s :
  ends m (fun a s' => ends (k a) Q s') s -> ends (bind m k) Q s.
Proof. unfold ends, bind. by destruct (m s). Qed.
Lemma ends_mono {A} (m : M (list Z) A) (Q Q' : A -> list Z -> Prop) s : ends m Q s -> (forall a s', Q a s' -> Q' a s') -> ends m Q' s.
Proof. unfold ends. destruct (m s); naive_solver. Qed.
Lemma ends_ret {A} (a : A) (Q : A -> list Z -> Prop) s : Q a s -> ends (ret a) Q s.
Proof. done. Qed.
Lemma ends_get (Q : list Z -> list Z -> Prop) s : Q s s -> ends get Q s.
Proof. done. Qed.

(** The rest of the line is not longer than [n]. *)
Definition short {A} (n : nat) : A -> list Z -> Prop := fun _ s => (length s <= n)%nat.

Lemma skip_ws_length s : (length (skip_ws s) <= length s)%nat.
Proof. induction s as [|c s IH]; simpl; [done|]. destruct (is_ws c); simpl; lia. Qed.
Lemma skip_ws_idem s : skip_ws (skip_ws s) = skip_ws s.
Proof. induction s as [|c s IH]; simpl; [done|]. destruct (is_ws c) eqn:E; simpl; by rewrite ?E. Qed.
Lemma skip_ws_head c s : is_ws c = false -> skip_ws (c :: s) = c :: s.
Proof. simpl. by intros ->. Qed.
Lemma span_word_app s w r : span_word s = (w, r) -> s = w ++ r.
Proof.
  revert w r. induction s as [|c s IH]; intros w r E; simpl in E; [by simplify_eq|].
  destruct (in_word c); [|by simplify_eq]. destruct (span_word s) as [w' r']. simplify_eq. simpl. f_equal. by apply IH.
Qed.
Lemma skip_ws_nonws s c s' : skip_ws s = c :: s' -> is_ws c = false.
Proof. induction s as [|d s IH]; simpl; [done|]. destruct (is_ws d) eqn:E; [done|]. by intros [= <- _]. Qed.

Lemma symbols_cases c : c ∈ symbols -> c ∈ chars "|();&<" \/ c = 62.
Proof. unfold symbols, chars. cbn. rewrite !elem_of_cons. naive_solver. Qed.

Lemma gettoken_ends s :
  ends gettoken (fun t s' => (t.1 = 0 /\ s' = [] \/ (length s' < length s)%nat)) s.
Proof.
  unfold ends, gettoken. pose proof (skip_ws_length s) as Hl. destruct (skip_ws s) as [|c s1] eqn:Es; [by left|].
  pose proof (skip_ws_nonws _ _ _ Es) as Hws. simpl in Hl. pose proof (skip_ws_length s1). case_bool_decide as Hc; [right; simpl; lia|].
  destruct (Z.eqb_spec c 62) as [->|Hgt].
  - destruct s1 as [|d s2]; [right; simpl; lia|]. pose proof (skip_ws_length s2). destruct (d =? 62); right; simpl in *; lia.
  - destruct (span_word (c :: s1)) as [w r] eqn:E. assert (in_word c = true) as Hin.
    { unfold in_word. rewrite Hws. apply negb_true_iff, bool_decide_eq_false. by intros [?| ?]%symbols_cases. }
    simpl in E. rewrite Hin in E. destruct (span_word s1) as [w' r'] eqn:E'. simplify_eq. apply span_word_app in E' as ->.
    pose proof (skip_ws_length r). rewrite length_app in *. right. lia.
Qed.
Lemma gettoken_short n s : (length s <= n)%nat -> ends gettoken (short n) s.
Proof. intros Hn. eapply ends_mono; [apply gettoken_ends|]. intros t s' [[_ ->]|?]; unfold short; simpl; lia. Qed.
Lemma peek_ends toks n s :
  (length s <= n)%nat -> ends (peek toks) (fun b s' => (length s' <= n)%nat /\ (b = true -> s' <> [] /\ skip_ws s' = s')) s.
Proof.
  intros Hn. unfold ends, peek. pose proof (skip_ws_length s). split; [lia|]. intros Hb. split; [by destruct (skip_ws s)|]. apply skip_ws_idem.
Qed.
(** The token that [peek] saw is consumed. *)
Lemma gettoken_peeked n s : s <> [] -> skip_ws s = s -> (length s <= n)%nat -> ends gettoken (fun _ s' => (length s' < n)%nat) s.
Proof.
  intros Hne Hs Hn. eapply ends_mono; [apply gettoken_ends|]. intros t s' [[_ ->]|?]; [|lia]. destruct s; [done|simpl in *; lia].
Qed.

Lemma redirs_loop_ends k : forall s, (length s < k)%nat -> ends (redirs_loop k) (short (length s)) s.
Proof.
  induction k as [|k IH]; intros s Hk; [lia|]. cbn [redirs_loop]. apply ends_bind. eapply ends_mono; [by apply (peek_ends _ (length s))|].
  intros [] s1 [Hl Hb]; [|exact Hl]. destruct (Hb eq_refl) as [Hne Hs]. apply ends_bind.
  eapply ends_mono; [by apply (gettoken_peeked (length s))|]. intros [tok ?] s2 H2. cbv beta in H2. apply ends_bind.
  eapply ends_mono; [by apply (gettoken_short (length s2))|]. intros [t file] s3 H3. unfold short in H3.
  destruct (negb (t =? 97)); [done|]. apply ends_bind. eapply ends_mono; [apply IH; lia|]. intros rs s4 H4. unfold short in *. apply ends_ret. lia.
Qed.
Lemma parse_redirs_ends s : ends parse_redirs (short (length s)) s.
Proof. unfold parse_redirs. apply ends_bind, ends_get, redirs_loop_ends. lia. Qed.
Lemma exec_loop_ends k : forall argv rs s, (length s < k)%nat -> ends (exec_loop k argv rs) (short (length s)) s.
Proof.
  induction k as [|k IH]; intros argv rs s Hk; [lia|]. cbn [exec_loop]. apply ends_bind. eapply ends_mono; [by apply (peek_ends _ (length s))|].
  intros [] s1 [Hl _]; [exact Hl|]. apply ends_bind. eapply ends_mono; [apply gettoken_ends|]. intros [tok w] s2 H2. simpl in H2.
  destruct (Z.eqb_spec tok 0) as [->|Ht]; [apply ends_ret; unfold short; destruct H2 as [[_ ->]|?]; simpl; lia|].
  destruct H2 as [[? _]|H2]; [done|]. destruct (negb (tok =? 97)); [done|]. destruct (_ <=? _)%nat; [done|].
  apply ends_bind. eapply ends_mono; [apply parse_redirs_ends|]. intros rs' s3 H3. unfold short in H3.
  eapply ends_mono; [apply IH; lia|]. unfold short. intros ? s4 ?. lia.
Qed.
Lemma back_loop_ends k : forall c s, (length s < k)%nat -> ends (back_loop k c) (short (length s)) s.
Proof.
  induction k as [|k IH]; intros c s Hk; [lia|]. cbn [back_loop]. apply ends_bind. eapply ends_mono; [by apply (peek_ends _ (length s))|].
  intros [] s1 [Hl Hb]; [|exact Hl]. destruct (Hb eq_refl) as [Hne Hs]. apply ends_bind.
  eapply ends_mono; [by apply (gettoken_peeked (length s))|]. intros ? s2 H2. cbv beta in H2.
  eapply ends_mono; [apply IH; lia|]. unfold short. intros ? s4 ?. lia.
Qed.

Lemma parse_ends n : forall s,
  (4 * length s + 4 <= n -> ends (parseline n) (short (length s)) s)%nat /\
  (4 * length s + 3 <= n -> ends (parsepipe n) (short (length s)) s)%nat /\
  (4 * length s + 2 <= n -> ends (parseexec n) (short (length s)) s)%nat /\
  (4 * length s + 1 <= n -> ends (parseblock n) (short (length s)) s)%nat.
Proof.
  induction n as [|n IH]; intros s; [split_and!; lia|]. split_and!; intros Hn; cbn [parseline parsepipe parseexec parseblock].
  - apply ends_bind. eapply ends_mono; [apply IH; lia|]. intros c s1 H1. unfold short in H1. apply ends_bind, ends_get, ends_bind.
    eapply ends_mono; [apply back_loop_ends; lia|]. intros c2 s2 H2. unfold short in H2. apply ends_bind.
    eapply ends_mono; [by apply (peek_ends _ (length s2))|]. intros [] s3 [H3 Hb]; [|apply ends_ret; unfold short; lia].
    destruct (Hb eq_refl) as [Hne Hs]. apply ends_bind. eapply ends_mono; [by apply (gettoken_peeked (length s2))|].
    intros ? s4 H4. cbv beta in H4. apply ends_bind. eapply ends_mono; [apply IH; lia|]. intros r s5 H5. apply ends_ret. unfold short in *. lia.
  - apply ends_bind. eapply ends_mono; [apply IH; lia|]. intros c s1 H1. unfold short in H1. apply ends_bind.
    eapply ends_mono; [by apply (peek_ends _ (length s1))|]. intros [] s3 [H3 Hb]; [|apply ends_ret; unfold short; lia].
    destruct (Hb eq_refl) as [Hne Hs]. apply ends_bind. eapply ends_mono; [by apply (gettoken_peeked (length s1))|].
    intros ? s4 H4. cbv beta in H4. apply ends_bind. eapply ends_mono; [apply IH; lia|]. intros r s5 H5. apply ends_ret. unfold short in *. lia.
  - apply ends_bind. eapply ends_mono; [by apply (peek_ends _ (length s))|]. intros [] s1 [H1 _].
    + eapply ends_mono; [apply IH; lia|]. unfold short. intros ? s2 ?. lia.
    + unfold parse_args. apply ends_bind. eapply ends_mono; [apply parse_redirs_ends|]. intros rs s2 H2. unfold short in H2.
      apply ends_bind, ends_get, ends_bind. eapply ends_mono; [apply exec_loop_ends; lia|]. intros [argv rs'] s3 H3. apply ends_ret. unfold short in *. lia.
  - apply ends_bind. eapply ends_mono; [by apply (peek_ends _ (length s))|]. intros [] s1 [H1 Hb]; [|done].
    destruct (Hb eq_refl) as [Hne Hs]. cbn [negb]. apply ends_bind. eapply ends_mono; [by apply (gettoken_peeked (length s))|].
    intros ? s2 H2. cbv beta in H2. apply ends_bind. eapply ends_mono; [apply IH; lia|]. intros c s3 H3. unfold short in H3.
    apply ends_bind. eapply ends_mono; [by apply (peek_ends _ (length s3))|]. intros [] s4 [H4 _]; [|done]. cbn [negb].
    apply ends_bind. eapply ends_mono; [by apply (gettoken_short (length s4))|]. intros ? s5 H5. unfold short in H5.
    unfold parseredirs. apply ends_bind. eapply ends_mono; [apply parse_redirs_ends|]. intros rs s6 H6. apply ends_ret. unfold short in *. lia.
Qed.

Lemma parsecmd_total s : ends parsecmd (fun _ s' => s' = []) s.
Proof.
  unfold parsecmd. apply ends_bind, ends_get, ends_bind. eapply ends_mono; [apply (parse_ends (parse_fuel s) s); unfold parse_fuel; lia|].
  intros c s1 _. apply ends_bind. eapply ends_mono; [by apply (peek_ends _ (length s1))|]. intros ? s2 _. apply ends_bind, ends_get.
  by destruct s2.
Qed.

(** C34. The shell's parser ends on every line, whatever it holds: it returns a command and has
    consumed the whole line, or it reports a syntax error. *)
Theorem parsecmd_ends s : (exists c, parsecmd s = Done c []) \/ (exists msg rest, parsecmd s = Panic msg rest).
Proof.
  pose proof (parsecmd_total s) as He. unfold ends in He. destruct (parsecmd s) as [c s'|msg s'| | |]; [|by eauto|done..]. left. exists c. by rewrite He.
Qed.

(** ** Printing commands *)

(** How tightly the grammar binds: lists, background commands, pipes, the rest. *)
Definition prec (c : cmd) : nat := match c with LIST _ _ => 0 | BACK _ => 1 | PIPE _ _ => 2 | _ => 3 end.
Definition word_ok (w : list Z) : Prop := w <> [] /\ Forall (fun c => in_word c = true) w.
Definition pr_word (w : list Z) : list Z := w ++ [32].
Definition pr_redir (r : redir) : list Z :=
  let '(file, mode, fd) := r in
  (if fd =? 0 then chars "<" else if Z.land mode O_TRUNC =? 0 then chars ">>" else chars ">") ++ pr_word file.
(** The text of a command where the grammar wants one that binds at least as [lvl]. *)
Fixpoint pr (lvl : nat) (c : cmd) : list Z :=
  let body :=
    match c with
    | EXEC argv => concat (pr_word <$> argv)
    | REDIR c' file mode fd => pr 3 c' ++ pr_redir (file, mode, fd)
    | PIPE l r => pr 3 l ++ chars "|" ++ pr 2 r
    | LIST l r => pr 1 l ++ chars ";" ++ pr 0 r
    | BACK c' => pr 1 c' ++ chars "&"
    end in
  if (prec c <? lvl)%nat then chars "(" ++ body ++ chars ")" else body.

(** The commands the shell can express: words of ordinary characters, fewer than [MAXARGS]
    of them, and the three redirections. *)
Definition redir_ok (r : redir) : Prop := word_ok r.1.1 /\ exists tok, tok ∈ [60; 62; 43] /\ r = redir_of tok r.1.1.
Fixpoint cmd_ok (c : cmd) : Prop :=
  match c with
  | EXEC argv => Forall word_ok argv /\ (length argv < MAXARGS)%nat
  | REDIR c' file mode fd => cmd_ok c' /\ redir_ok (file, mode, fd)
  | PIPE l r | LIST l r => cmd_ok l /\ cmd_ok r
  | BACK c' => cmd_ok c'
  end.

(** ** Tokens of printed text *)

(** Text that begins with no white space, and text that is empty or begins with one of
    [toks]. *)
Definition starts (toks : list Z) (s : list Z) : Prop := match s with [] => True | c :: _ => c ∈ toks end.

Lemma in_word_ws c : in_word c = true -> is_ws c = false /\ c ∉ symbols.
Proof. unfold in_word. rewrite andb_true_iff, !negb_true_iff, bool_decide_eq_false. done. Qed.
Lemma symbol_ws c : c ∈ symbols -> is_ws c = false.
Proof. revert c. apply Forall_forall. by repeat constructor. Qed.
Lemma starts_clean toks s : toks ⊆ symbols -> starts toks s -> skip_ws s = s.
Proof. intros Ht Hs. destruct s as [|c s]; [done|]. apply skip_ws_head, symbol_ws. by apply Ht. Qed.
Lemma starts_mono toks toks' s : toks ⊆ toks' -> starts toks s -> starts toks' s.
Proof. destruct s; [done|]. simpl. set_solver. Qed.

Lemma span_word_done w s : Forall (fun c => in_word c = true) w -> span_word (w ++ 32 :: s) = (w, 32 :: s).
Proof. induction 1 as [|c w Hc _ IH]; [done|]. simpl. by rewrite Hc, IH. Qed.
Lemma gettoken_word w s : word_ok w -> skip_ws s = s -> gettoken (pr_word w ++ s) = Done (97, w) s.
Proof.
  intros [Hne Hw] Hs. unfold gettoken, pr_word. rewrite <- app_assoc. destruct w as [|c w]; [done|].
  pose proof (proj1 (Forall_cons _ _ _) Hw) as [Hc _]. apply in_word_ws in Hc as [Hc Hsym].
  cbn [app]. rewrite skip_ws_head by done. rewrite bool_decide_eq_false_2.
  2: { intros Hin. apply Hsym. revert Hin. unfold symbols, chars. cbn. rewrite !elem_of_cons. naive_solver. }
  destruct (Z.eqb_spec c 62) as [->|]; [by destruct Hsym; apply (bool_decide_unpack _)|].
  change (c :: w ++ 32 :: s) with ((c :: w) ++ 32 :: s). rewrite span_word_done by done. simpl. by rewrite Hs.
Qed.
Lemma gettoken_sym c s : c ∈ chars "|();&<" -> skip_ws s = s -> gettoken (c :: s) = Done (c, [c]) s.
Proof.
  intros Hc Hs. assert (is_ws c = false) as Hw by (apply symbol_ws; revert Hc; unfold symbols, chars; cbn; rewrite !elem_of_cons; naive_solver).
  unfold gettoken. rewrite skip_ws_head by done. rewrite bool_decide_eq_true_2 by done. by rewrite Hs.
Qed.
Lemma peek_done toks c s : is_ws c = false -> peek toks (c :: s) = Done (bool_decide (c ∈ toks)) (c :: s).
Proof. intros Hc. unfold peek. by rewrite skip_ws_head. Qed.
(** [peek] finds nothing it looks for. *)
Lemma peek_none toks l s : l ⊆ symbols -> starts l s -> (forall c, c ∈ l -> c ∉ toks) -> peek toks s = Done false s.
Proof.
  intros Hl Hs Hn. unfold peek. rewrite (starts_clean l) by done. destruct s as [|c s]; [done|]. by rewrite bool_decide_eq_false_2 by (by apply Hn).
Qed.
Lemma word_head w s : word_ok w -> exists c s', pr_word w ++ s = c :: s' /\ is_ws c = false /\ c ∉ symbols.
Proof.
  intros [Hne Hw]. destruct w as [|c w]; [done|]. apply Forall_cons in Hw as [Hc _]. apply in_word_ws in Hc as [? ?].
  exists c. eexists. split; [reflexivity|done].
Qed.
Lemma peek_word toks w s : toks ⊆ symbols -> word_ok w -> peek toks (pr_word w ++ s) = Done false (pr_word w ++ s).
Proof.
  intros Ht Hw. destruct (word_head w s Hw) as (c & s' & -> & Hc & Hn). rewrite peek_done by done.
  by rewrite bool_decide_eq_false_2 by set_solver.
Qed.

(** ** Redirections and arguments *)

Lemma peek_clean toks s b s' : peek toks s = Done b s' -> skip_ws s = s'.
Proof. unfold peek. by intros [= _ <-]. Qed.
Lemma word_clean w s : word_ok w -> skip_ws (pr_word w ++ s) = pr_word w ++ s.
Proof. intros Hw. destruct (word_head w s Hw) as (c & s' & -> & Hc & _). by apply skip_ws_head. Qed.
Lemma gettoken_gt c s : c <> 62 -> is_ws c = false -> gettoken (62 :: c :: s) = Done (62, [62]) (c :: s).
Proof.
  intros Hc Hw. unfold gettoken. rewrite skip_ws_head by done. change (bool_decide (62 ∈ chars "|();&<")) with false. rewrite Z.eqb_refl.
  by rewrite (proj2 (Z.eqb_neq c 62)), skip_ws_head.
Qed.
Lemma gettoken_append s : gettoken (62 :: 62 :: s) = Done (43, [62; 62]) (skip_ws s).
Proof. done. Qed.
Lemma redir_tokens x s : redir_ok x ->
  exists tok t, peek (chars "<>") (pr_redir x ++ s) = Done true (pr_redir x ++ s) /\
    gettoken (pr_redir x ++ s) = Done (tok, t) (pr_word x.1.1 ++ s) /\ redir_of tok x.1.1 = x /\
    exists c s', pr_redir x ++ s = c :: s' /\ c ∈ chars "<>".
Proof.
  intros [Hw (tok & Htok & Ex)]. destruct x as [[file mode] fd]. cbn [fst] in *. destruct (word_head file s Hw) as (c & s' & Ew & Hc & Hsym).
  assert (tok = 60 \/ tok = 62 \/ tok = 43) as Ht by (rewrite !elem_of_cons in Htok; set_solver).
  assert (c <> 62) as Hgt by (intros ->; apply Hsym; by apply (bool_decide_unpack _)).
  exists tok. destruct Ht as [->|[->| ->]]; injection Ex as -> ->.
  - exists [60]. assert (pr_redir (file, O_RDONLY, 0) ++ s = 60 :: pr_word file ++ s) as -> by done. split_and!; [done| |done|].
    + apply gettoken_sym; [by apply (bool_decide_unpack _)|]. by apply word_clean.
    + eexists _, _. split; [reflexivity|]. by apply (bool_decide_unpack _).
  - exists [62]. assert (pr_redir (file, Z.lor (Z.lor O_WRONLY O_CREATE) O_TRUNC, 1) ++ s = 62 :: pr_word file ++ s) as -> by done.
    split_and!; [done| |done|].
    + rewrite Ew. by apply gettoken_gt.
    + eexists _, _. split; [reflexivity|]. by apply (bool_decide_unpack _).
  - exists [62; 62]. assert (pr_redir (file, Z.lor O_WRONLY O_CREATE, 1) ++ s = 62 :: 62 :: pr_word file ++ s) as -> by done.
    split_and!; [done| |done|].
    + by rewrite gettoken_append, word_clean.
    + eexists _, _. split; [reflexivity|]. by apply (bool_decide_unpack _).
Qed.

Lemma redirs_loop_done rs s : Forall redir_ok rs -> peek (chars "<>") s = Done false s ->
  forall k, (length rs < k)%nat -> redirs_loop k (concat (pr_redir <$> rs) ++ s) = Done rs s.
Proof.
  intros Hrs Hs. induction Hrs as [|x rs Hx Hrs IH]; intros k Hk; (destruct k as [|k]; [simpl in Hk; lia|]); cbn [redirs_loop].
  - unfold bind. cbn [fmap list_fmap concat app]. by rewrite Hs.
  - cbn [fmap list_fmap concat]. rewrite <- app_assoc. destruct (redir_tokens x (concat (pr_redir <$> rs) ++ s) Hx) as (tok & t & E1 & E2 & E3 & _).
    unfold bind. rewrite E1, E2. rewrite gettoken_word; [|apply Hx|].
    + cbn [negb Z.eqb Pos.eqb]. rewrite IH by (simpl in Hk; lia). unfold ret. by rewrite E3.
    + destruct rs as [|y rs]; [by apply peek_clean in Hs|]. cbn [fmap list_fmap concat]. rewrite <- app_assoc. apply Forall_cons in Hrs as [Hy _].
      destruct (redir_tokens y (concat (pr_redir <$> rs) ++ s) Hy) as (? & ? & E & _). by apply peek_clean in E.
Qed.
Lemma redirs_length rs s : Forall redir_ok rs -> (length rs <= length (concat (pr_redir <$> rs) ++ s))%nat.
Proof.
  induction 1 as [|x rs Hx _ IH]; [simpl; lia|]. cbn [fmap list_fmap concat]. rewrite <- app_assoc.
  assert (1 <= length (pr_redir x))%nat by (destruct x as [[file mode] fd]; unfold pr_redir, pr_word; rewrite !length_app; simpl; lia).
  rewrite length_app. simpl. lia.
Qed.
Lemma parse_redirs_done rs s : Forall redir_ok rs -> peek (chars "<>") s = Done false s -> parse_redirs (concat (pr_redir <$> rs) ++ s) = Done rs s.
Proof.
  intros Hrs Hs. unfold parse_redirs. unfold bind at 1, get. apply redirs_loop_done; [done|done|]. pose proof (redirs_length rs s Hrs). lia.
Qed.

(** The characters that follow a command. *)
Definition after_exec : list Z := chars "|)&;".
Lemma after_exec_symbols : after_exec ⊆ symbols.
Proof. intros c Hc. revert c Hc. apply Forall_forall. repeat constructor. Qed.
Lemma starts_exec_peek toks s : starts after_exec s -> (forall c, c ∈ after_exec -> c ∉ toks) -> peek toks s = Done false s.
Proof. intros. by eapply (peek_none toks after_exec); [apply after_exec_symbols|..]. Qed.

Lemma exec_loop_end k argv rs s : starts after_exec s -> exec_loop (S k) argv rs s = Done (argv, rs) s.
Proof.
  intros Hs. cbn [exec_loop]. unfold bind. destruct s as [|c s]; [done|].
  assert (is_ws c = false) as Hc by by apply symbol_ws, after_exec_symbols. rewrite peek_done by done. by rewrite bool_decide_eq_true_2.
Qed.
Lemma redirs_clean rs s : Forall redir_ok rs -> skip_ws s = s -> skip_ws (concat (pr_redir <$> rs) ++ s) = concat (pr_redir <$> rs) ++ s.
Proof.
  intros Hrs Hs. destruct Hrs as [|x rs Hx _]; [done|]. cbn [fmap list_fmap concat]. rewrite <- app_assoc.
  destruct (redir_tokens x (concat (pr_redir <$> rs) ++ s) Hx) as (? & ? & E & _). by apply peek_clean in E.
Qed.
Lemma starts_exec_clean s : starts after_exec s -> skip_ws s = s.
Proof. apply starts_clean, after_exec_symbols. Qed.
Lemma not_redir s : starts after_exec s -> peek (chars "<>") s = Done false s.
Proof. intros Hs. apply starts_exec_peek; [done|]. apply Forall_forall. by repeat constructor; apply (bool_decide_unpack _). Qed.
Lemma word_not_redir w s : word_ok w -> peek (chars "<>") (pr_word w ++ s) = Done false (pr_word w ++ s).
Proof. apply peek_word. intros c Hc. revert c Hc. apply Forall_forall. repeat constructor. Qed.

Lemma exec_loop_done rs s : Forall redir_ok rs -> starts after_exec s ->
  forall argv acc k, Forall word_ok argv -> argv <> [] -> (length acc + length argv < MAXARGS)%nat -> (length argv < k)%nat ->
  exec_loop k acc [] (concat (pr_word <$> argv) ++ concat (pr_redir <$> rs) ++ s) = Done (acc ++ argv, rs) s.
Proof.
  intros Hrs Hs. induction argv as [|w argv IH]; intros acc k Hargv Hne Hmax Hk; [done|]. apply Forall_cons in Hargv as [Hw Hargv].
  destruct k as [|k]; [simpl in Hk; lia|]. cbn [exec_loop fmap list_fmap concat]. rewrite <- app_assoc. unfold bind at 1.
  rewrite peek_word by (done || apply after_exec_symbols). unfold bind at 1. simpl in Hmax, Hk. rewrite gettoken_word; [|done|].
  2: { destruct argv as [|w' argv]; [by apply redirs_clean, starts_exec_clean|]. cbn [fmap list_fmap concat]. rewrite <- app_assoc.
       apply Forall_cons in Hargv as [Hw' _]. by apply word_clean. }
  cbn [Z.eqb Pos.eqb negb]. rewrite length_app. rewrite (proj2 (Nat.leb_gt _ _)) by (simpl; lia). unfold bind.
  destruct argv as [|w' argv].
  - cbn [fmap list_fmap concat app]. rewrite parse_redirs_done by (done || by apply not_redir).
    destruct k as [|k]; [lia|]. by rewrite exec_loop_end.
  - replace (parse_redirs _) with (@Done (list Z) (list redir) [] (concat (pr_word <$> w' :: argv) ++ concat (pr_redir <$> rs) ++ s)).
    2: { symmetry. apply (parse_redirs_done []); [done|]. cbn [fmap list_fmap concat]. rewrite <- app_assoc. apply Forall_cons in Hargv as [Hw' _].
         by apply word_not_redir. }
    rewrite IH by (done || (rewrite length_app; simpl in *; lia) || (simpl in *; lia)). by rewrite <- app_assoc.
Qed.
Lemma words_length argv s : (length argv <= length (concat (pr_word <$> argv) ++ s))%nat.
Proof.
  induction argv as [|w argv IH]; [simpl; lia|]. cbn [fmap list_fmap concat]. rewrite <- app_assoc, length_app.
  unfold pr_word at 1. rewrite length_app. simpl. lia.
Qed.
Lemma parse_args_done argv rs s : Forall word_ok argv -> (length argv < MAXARGS)%nat -> Forall redir_ok rs -> starts after_exec s ->
  parse_args (concat (pr_word <$> argv) ++ concat (pr_redir <$> rs) ++ s) = Done (foldl redircmd (EXEC argv) rs) s.
Proof.
  intros Hargv Hmax Hrs Hs. unfold parse_args. unfold bind at 1. destruct argv as [|w argv].
  - cbn [fmap list_fmap concat app]. rewrite parse_redirs_done by (done || by apply not_redir). unfold bind, get. by rewrite exec_loop_end.
  - replace (parse_redirs _) with (@Done (list Z) (list redir) [] (concat (pr_word <$> w :: argv) ++ concat (pr_redir <$> rs) ++ s)).
    2: { symmetry. apply (parse_redirs_done []); [done|]. cbn [fmap list_fmap concat]. rewrite <- app_assoc. apply Forall_cons in Hargv as [Hw _].
         by apply word_not_redir. }
    unfold bind, get. rewrite exec_loop_done; try done. pose proof (words_length (w :: argv) (concat (pr_redir <$> rs) ++ s)). lia.
Qed.

(** ** Commands *)

(** A command without its redirections, and without its ampersands. *)
Fixpoint unredir (c : cmd) : cmd * list redir :=
  match c with REDIR c' file mode fd => let (b, rs) := unredir c' in (b, rs ++ [(file, mode, fd)]) | _ => (c, []) end.
Fixpoint unback (c : cmd) : cmd * nat := match c with BACK c' => let (p, j) := unback c' in (p, S j) | _ => (c, O) end.

Lemma unredir_spec c b rs : unredir c = (b, rs) ->
  c = foldl redircmd b rs /\ pr 3 c = pr 3 b ++ concat (pr_redir <$> rs) /\ (cmd_ok c -> cmd_ok b /\ Forall redir_ok rs) /\
  (match b with REDIR _ _ _ _ => False | _ => True end).
Proof.
  revert b rs. induction c as [argv|c IH file mode fd|l _ r _|l _ r _|c _]; intros b rs E; simpl in E;
    try (injection E as <- <-; cbn [foldl fmap list_fmap concat]; rewrite app_nil_r; by split_and!).
  destruct (unredir c) as [b' rs']. injection E as <- <-. destruct (IH b' rs' eq_refl) as (E1 & E2 & E3 & E4). split_and!.
  - rewrite foldl_app. cbn [foldl redircmd]. by rewrite <- E1.
  - cbn [pr prec Nat.ltb Nat.leb]. rewrite E2, fmap_app, concat_app. cbn [fmap list_fmap concat]. by rewrite app_nil_r, <- app_assoc.
  - intros [Hc Hr]. destruct (E3 Hc) as [? ?]. split; [done|]. apply Forall_app. split; [done|by constructor].
  - done.
Qed.
Lemma unback_spec c p j : unback c = (p, j) ->
  c = Nat.iter j BACK p /\ pr 1 c = pr 2 p ++ replicate j 38 /\ (cmd_ok c -> cmd_ok p).
Proof.
  revert p j. induction c as [argv|c _ file mode fd|l _ r _|l _ r _|c IH]; intros p j E; simpl in E;
    try (injection E as <- <-; cbn [replicate]; rewrite app_nil_r; by split_and!).
  destruct (unback c) as [p' j']. injection E as <- <-. destruct (IH p' j' eq_refl) as (E1 & E2 & E3). split_and!.
  - simpl. by rewrite <- E1.
  - cbn [pr prec Nat.ltb Nat.leb]. rewrite E2, <- app_assoc. f_equal. rewrite replicate_S_end. done.
  - done.
Qed.

Lemma pr_clean c : forall lvl s, cmd_ok c -> skip_ws s = s -> skip_ws (pr lvl c ++ s) = pr lvl c ++ s.
Proof.
  induction c as [argv|c IH file mode fd|l IHl r IHr|l IHl r IHr|c IH]; intros lvl s Hok Hs; cbn [pr];
    (destruct (_ <? lvl)%nat; [by apply skip_ws_head|]); cbn [cmd_ok] in Hok; rewrite <- ?app_assoc.
  - destruct Hok as [Hw _]. destruct Hw as [|w argv Hw _]; [done|]. cbn [fmap list_fmap concat]. rewrite <- app_assoc. by apply word_clean.
  - destruct Hok as [Hc Hr]. apply IH; [done|]. destruct (redir_tokens _ s Hr) as (? & ? & E & _). by apply peek_clean in E.
  - apply IHl; [apply Hok|]. by apply skip_ws_head.
  - apply IHl; [apply Hok|]. by apply skip_ws_head.
  - apply IH; [done|]. by apply skip_ws_head.
Qed.

Lemma back_loop_done j : forall c s k, starts (chars ");") s -> (j < k)%nat -> back_loop k c (replicate j 38 ++ s) = Done (Nat.iter j BACK c) s.
Proof.
  induction j as [|j IH]; intros c s k Hs Hk; (destruct k as [|k]; [lia|]); cbn [back_loop replicate app]; unfold bind.
  - rewrite (peek_none _ (chars ");")); [done| |done|].
    + intros x Hx. revert x Hx. apply Forall_forall. repeat constructor.
    + apply Forall_forall. by repeat constructor; apply (bool_decide_unpack _).
  - rewrite peek_done by done. change (bool_decide (38 ∈ chars "&")) with true. cbv beta iota.
    rewrite gettoken_sym; [| by apply (bool_decide_unpack _)|].
    + rewrite IH by (done || lia). by rewrite Nat.iter_swap.
    + destruct j; [|done]. apply (starts_clean (chars ");")); [|done]. intros x Hx. revert x Hx. apply Forall_forall. repeat constructor.
Qed.

(** Inclusion and disjointness of sets of characters. *)
Ltac chars_in := let x := fresh in let Hx := fresh in intros x Hx; revert x Hx; apply Forall_forall; repeat constructor.
Ltac chars_out := apply Forall_forall; by repeat constructor; apply (bool_decide_unpack _).

Ltac char_is := cbn [starts replicate app chars]; by apply (bool_decide_unpack _).

Lemma peek_hit toks c s : c ∈ toks -> is_ws c = false -> peek toks (c :: s) = Done true (c :: s).
Proof. intros Hc Hw. rewrite peek_done by done. by rewrite bool_decide_eq_true_2. Qed.
Lemma block_not_exec argv rs s : Forall word_ok argv -> Forall redir_ok rs -> starts after_exec s ->
  peek (chars "(") (concat (pr_word <$> argv) ++ concat (pr_redir <$> rs) ++ s) =
  Done false (concat (pr_word <$> argv) ++ concat (pr_redir <$> rs) ++ s).
Proof.
  intros Hargv Hrs Hs. destruct Hargv as [|w argv Hw _].
  - cbn [fmap list_fmap concat app]. destruct Hrs as [|x rs Hx _].
    + cbn [fmap list_fmap concat app]. apply starts_exec_peek; [done|]. chars_out.
    + cbn [fmap list_fmap concat]. rewrite <- app_assoc. destruct (redir_tokens x (concat (pr_redir <$> rs) ++ s) Hx) as (_ & _ & _ & _ & _ & c & s' & -> & Hc).
      apply (peek_none _ (chars "<>")); [chars_in|done|chars_out].
  - cbn [fmap list_fmap concat]. rewrite <- app_assoc. apply peek_word; [chars_in|done].
Qed.
Lemma pr0_line c s : (forall l r, c <> LIST l r) -> pr 0 c ++ s = pr 1 c ++ s.
Proof. intros Hc. destruct c; try done. by destruct (Hc c1 c2). Qed.
Lemma pr2_exec c : (forall l r, c <> PIPE l r) -> pr 2 c = pr 3 c.
Proof. intros Hc. destruct c; try done. by destruct (Hc c1 c2). Qed.
Lemma pr3_block c : (prec c < 3)%nat -> pr 3 c = chars "(" ++ pr 0 c ++ chars ")".
Proof. destruct c; simpl; lia || done. Qed.

(** The parser reads the printed command back, at each level of the grammar, if it may
    call itself [n] deep. *)
Definition line_ok (n : nat) : Prop := forall c s,
  cmd_ok c -> (4 * length (pr 0 c) + 4 <= n)%nat -> starts (chars ")") s -> parseline n (pr 0 c ++ s) = Done c s.
Definition pipe_ok (n : nat) : Prop := forall c s,
  cmd_ok c -> (4 * length (pr 2 c) + 3 <= n)%nat -> starts (chars ")&;") s -> parsepipe n (pr 2 c ++ s) = Done c s.
Definition exec_ok (n : nat) : Prop := forall c s,
  cmd_ok c -> (4 * length (pr 3 c) + 2 <= n)%nat -> starts after_exec s -> parseexec n (pr 3 c ++ s) = Done c s.
Definition block_ok (n : nat) : Prop := forall b rs s,
  cmd_ok b -> Forall redir_ok rs -> (4 * length (pr 0 b) + 5 <= n)%nat -> starts after_exec s ->
  parseblock n (chars "(" ++ pr 0 b ++ chars ")" ++ concat (pr_redir <$> rs) ++ s) = Done (foldl redircmd b rs) s.

(** A pipe and its ampersands. *)
Lemma backs_done n l s : pipe_ok n -> cmd_ok l -> (4 * length (pr 1 l) + 3 <= n)%nat -> starts (chars ");") s ->
  (let! c := parsepipe n in let! s := get in back_loop (S (length s)) c) (pr 1 l ++ s) = Done l s.
Proof.
  intros IHP Hok Hn Hs. destruct (unback l) as [p j] eqn:Eu. apply unback_spec in Eu as (E1 & E2 & E3). rewrite E2, length_app in Hn.
  rewrite E2, <- app_assoc. unfold bind at 1. rewrite IHP; [|by apply E3|lia|].
  - unfold bind, get. rewrite back_loop_done; [by rewrite <- E1|done|]. rewrite length_app, length_replicate. lia.
  - destruct j; [|char_is]. revert Hs. apply starts_mono. chars_in.
Qed.
Lemma line_step n : pipe_ok n -> line_ok n -> line_ok (S n).
Proof.
  intros IHP IHL c s Hok Hn Hs.
  assert (forall l s1 r, (let! c := parsepipe n in let! s := get in back_loop (S (length s)) c) s1 = Done l r ->
    parseline (S n) s1 = (let! b := peek (chars ";") in if b then gettoken ;;; let! r := parseline n in ret (LIST l r) else ret l) r) as Hp.
  { intros l s1 r E. cbn [parseline]. unfold bind, get in *. destruct (parsepipe n s1) as [x s2| | | |]; try done. by rewrite E. }
  destruct (decide (prec c = 0%nat)) as [Ep|Ep].
  - destruct c as [| | |l r|]; try done. destruct Hok as [Hl Hr]. cbn [pr prec Nat.ltb Nat.leb] in Hn |- *. rewrite !length_app in Hn. simpl in Hn.
    rewrite <- !app_assoc. change (chars ";") with [59] at 1. cbn [app].
    rewrite (Hp l _ (59 :: pr 0 r ++ s)).
    2: { apply backs_done; [done|done|lia|char_is]. }
    assert (skip_ws (pr 0 r ++ s) = pr 0 r ++ s) as Hc by (apply pr_clean; [done|]; by apply (starts_clean (chars ")")); [chars_in|]).
    unfold bind. rewrite peek_hit by (done || char_is). cbv beta iota.
    rewrite gettoken_sym by (done || char_is). by rewrite IHL by (done || lia).
  - assert (forall l r, c <> LIST l r) as Hne by (intros l r ->; done). rewrite pr0_line by done.
    assert (pr 0 c = pr 1 c) as E01 by (by rewrite <- (app_nil_r (pr 0 c)), pr0_line, app_nil_r). rewrite E01 in Hn.
    rewrite (Hp c _ s); [|apply backs_done; [done|done|lia|revert Hs; apply starts_mono; chars_in]].
    unfold bind. by rewrite (peek_none _ (chars ")")); [|chars_in|done|chars_out].
Qed.
Lemma pipe_step n : exec_ok n -> pipe_ok n -> pipe_ok (S n).
Proof.
  intros IHE IHP c s Hok Hn Hs. cbn [parsepipe]. destruct (decide (prec c = 2%nat)) as [Ep|Ep].
  - destruct c as [| |l r| |]; try done. destruct Hok as [Hl Hr]. cbn [pr prec Nat.ltb Nat.leb] in Hn |- *. rewrite !length_app in Hn. simpl in Hn.
    rewrite <- !app_assoc. change (chars "|" ++ pr 2 r ++ s) with (124 :: pr 2 r ++ s).
    unfold bind. rewrite IHE; [|done|lia|char_is]. rewrite peek_hit by (done || char_is). cbv beta iota.
    rewrite gettoken_sym; [|char_is|apply pr_clean; [done|]; by apply (starts_clean (chars ")&;")); [chars_in|]].
    by rewrite IHP by (done || lia).
  - assert (forall l r, c <> PIPE l r) as Hne by (intros l r ->; done). rewrite pr2_exec in * by done.
    unfold bind. rewrite IHE; [|done|lia|revert Hs; apply starts_mono; chars_in].
    by rewrite (peek_none _ (chars ")&;")); [|chars_in|done|chars_out].
Qed.
Lemma exec_step n : block_ok n -> exec_ok (S n).
Proof.
  intros IHB c s Hok Hn Hs. cbn [parseexec]. destruct (unredir c) as [b rs] eqn:Eu. apply unredir_spec in Eu as (E1 & E2 & E3 & E4).
  destruct (E3 Hok) as [Hb Hrs]. rewrite E2 in Hn |- *. rewrite length_app in Hn. rewrite <- app_assoc. unfold bind.
  destruct (decide (prec b = 3%nat)) as [Ep|Ep].
  - destruct b as [argv| | | |]; try done. destruct Hb as [Hw Hm]. cbn [pr prec Nat.ltb Nat.leb].
    rewrite block_not_exec by done. cbv beta iota. rewrite parse_args_done by done. by rewrite <- E1.
  - assert (prec b < 3)%nat as Hp by (destruct b; simpl in *; lia). rewrite pr3_block, !length_app in Hn by done. simpl in Hn.
    rewrite pr3_block, <- !app_assoc by done. set (t := pr 0 b ++ _).
    change (chars "(" ++ t) with (40 :: t). rewrite peek_hit by (done || char_is). change (40 :: t) with (chars "(" ++ t). subst t.
    cbv beta iota. rewrite (IHB b rs s) by (done || lia). by rewrite <- E1.
Qed.
Lemma block_step n : line_ok n -> block_ok (S n).
Proof.
  intros IHL b rs s Hok Hrs Hn Hs. cbn [parseblock]. change (chars ")" ++ concat (pr_redir <$> rs) ++ s) with (41 :: concat (pr_redir <$> rs) ++ s).
  set (t := pr 0 b ++ _). change (chars "(" ++ t) with (40 :: t). unfold bind.
  rewrite peek_hit by (done || char_is). cbn [negb]. cbv beta iota.
  rewrite gettoken_sym; [|char_is|by apply pr_clean]. unfold t. rewrite IHL; [|done|lia|char_is].
  rewrite peek_hit by (done || char_is). cbn [negb]. cbv beta iota.
  rewrite gettoken_sym; [|char_is|by apply redirs_clean, starts_exec_clean].
  unfold parseredirs, bind. by rewrite parse_redirs_done by (done || by apply not_redir).
Qed.
Lemma parse_pr n : line_ok n /\ pipe_ok n /\ exec_ok n /\ block_ok n.
Proof.
  induction n as [|n (IHL & IHP & IHE & IHB)].
  - split_and!; [intros c s|intros c s|intros c s|intros b rs s]; intros; lia.
  - split_and!; [by apply line_step|by apply pipe_step|by apply exec_step|by apply block_step].
Qed.

(** C31. The shell's parser reads back every command it can express: lists, background
    commands, pipes, blocks in parentheses and redirections, nested at any depth and
    with the precedences of the grammar. *)
Theorem parsecmd_prints c : cmd_ok c -> parsecmd (pr 0 c) = Done c [].
Proof.
  intros Hok. unfold parsecmd. unfold bind, get. pose proof (proj1 (parse_pr (parse_fuel (pr 0 c))) c [] Hok) as E.
  rewrite app_nil_r in E. rewrite E; [done|unfold parse_fuel; lia|done].
Qed.
Lemma parsecmd_prints_witness :
  let ls := EXEC [chars "ls"; chars "-l"] in
  let wc := REDIR (EXEC [chars "wc"]) (chars "out") 0x601 1 in
  pr 0 (LIST (BACK (PIPE ls wc)) (REDIR (LIST ls wc) (chars "in") 0 0)) = chars "ls -l |wc >out &;(ls -l ;wc >out )<in " /\
  parsecmd (chars "ls -l |wc >out &;(ls -l ;wc >out )<in ") = Done (LIST (BACK (PIPE ls wc)) (REDIR (LIST ls wc) (chars "in") 0 0)) [].
Proof.
  intros ls wc. split; [reflexivity|]. apply (parsecmd_prints (LIST (BACK (PIPE ls wc)) (REDIR (LIST ls wc) (chars "in") 0 0))).
  assert (forall w, bool_decide (w <> [] /\ Forall (fun c => in_word c = true) w) = true -> word_ok w) as Hw by (intros w; apply bool_decide_eq_true_1).
  assert (cmd_ok ls) as Hls by (split; [repeat constructor; apply Hw; reflexivity|unfold MAXARGS; simpl; lia]).
  assert (cmd_ok wc) as Hwc.
  { split; [split; [repeat constructor; apply Hw; reflexivity|unfold MAXARGS; simpl; lia]|]. split; [apply Hw; reflexivity|].
    exists 62. split; [by apply (bool_decide_unpack _)|reflexivity]. }
  split; [by split|]. split; [by split|]. split; [apply Hw; reflexivity|]. exists 60. split; [by apply (bool_decide_unpack _)|reflexivity].
Defined.
