(* ===== verification/UserProg.v ===== *)
(** * Programs as sequences of system calls

    The user programs that do little but call the kernel: the part of [user/sh.c] that
    runs commands, [init], [ls], and the small utilities. A program is a tree of
    system calls; each call goes on with the reply of the kernel. What the kernel
    replies is up to whoever runs the tree ([ShellRun] for the shell). *)

From S2P Require Import Prelude CString Printf Ulib State Bytes Virtio Fs File SysFile Shell.

(** The system calls of [user/user.h] that the programs use. A pointer the kernel reads
    from is the bytes there. *)
Inductive sysreq : Type :=
| SFork | SExit (status : Z) | SWait | SWaitx | SPipe | SKill (pid : Z) | SSleep (n : Z)
| SRead (fd n : Z) | SWrite (fd : Z) (data : list Z) | SClose (fd : Z) | SDup (fd : Z) | SFstat (fd : Z)
| SExec (path : list Z) (argv : list (list Z)) | SOpen (path : list Z) (mode : Z) | SMknod (path : list Z) (major minor : Z)
| SUnlink (path : list Z) | SLink (old new : list Z) | SMkdir (path : list Z) | SChdir (path : list Z)
| STrace (mask : Z) | SSet_priority (priority pid : Z).

(** The value a call returns, and what it stored where a pointer said: the bytes of
    [read] and [fstat], the two integers of [pipe] and [waitx]. *)
Record reply : Type := mk_reply { rv : Z; stored : list Z }.

(** [Ret a]: the function returns [a]. [Stuck]: undefined behaviour. [Loops]: the fuel of a
    loop has run out. *)
Inductive prog (A : Type) : Type :=
| Ret (a : A)
| Call (q : sysreq) (k : reply -> prog A)
| Stuck
| Loops.
Arguments Ret {A} a.
Arguments Call {A} q k.
Arguments Stuck {A}.
Arguments Loops {A}.

#[export] Instance prog_ret : MRet prog := fun A a => Ret a.
#[export] Instance prog_bind : MBind prog := fun A B f =>
  fix go m := match m with Ret a => f a | Call q k => Call q (fun r => go (k r)) | Stuck => Stuck | Loops => Loops end.

(** A call of which only the result is used. *)
Definition sys (q : sysreq) : prog Z := Call q (fun r => Ret (rv r)).
Definition sys_ (q : sysreq) : prog unit := Call q (fun _ => Ret tt).
(** [exit] does not return. *)
Definition do_exit {A} (status : Z) : prog A := Call (SExit status) (fun _ => Stuck).
(** [putc] of each character of the text. *)
Fixpoint put (fd : Z) (l : list Z) : prog unit :=
  match l with [] => Ret tt | c :: l' => sys_ (SWrite fd [c]) ;; put fd l' end.
Definition fprintf (fd : Z) (fmt : list Z) (ap : list varg) : prog unit :=
  match vprintf false fmt ap with Some l => put fd l | None => Stuck end.
Definition str (s : list Z) : varg := AStr (Some s).
(** An escape of a string literal. *)
Definition nl : list Z := [10].
(** The C string at the start of a buffer. *)
Fixpoint cstring (l : list Z) : list Z := match l with [] => [] | c :: l' => if c =? 0 then [] else c :: cstring l' end.
Definition atoi_str (s : list Z) : option Z := Ulib.atoi (S (length s)) (wr_bytes ∅ 0 s) 0.
Definition atoi_ (s : list Z) : prog Z := match atoi_str s with Some n => Ret n | None => Loops end.

(** ** ulib.c *)

(** What calls [main]. *)
Definition u_main (main : prog Z) : prog unit := main ≫= fun _ => do_exit 0.
(** [n] characters fit before the final zero byte. *)
Fixpoint gets_loop (n : nat) : prog (list Z) :=
  match n with
  | O => Ret []
  | S n' =>
      Call (SRead 0 1) (fun r =>
        if rv r <? 1 then Ret []
        else match stored r with
             | c :: _ => if (c =? 10) || (c =? 13) then Ret [c] else l ← gets_loop n'; Ret (c :: l)
             | [] => Stuck
             end)
  end.
Definition u_gets (max : Z) : prog (list Z) := gets_loop (Z.to_nat (max - 1)).
(** The result of [fstat], and the bytes of [struct stat]. *)
Definition u_stat (n : list Z) : prog reply :=
  fd ← sys (SOpen n O_RDONLY);
  if fd <? 0 then Ret (mk_reply (-1) [])
  else Call (SFstat fd) (fun r => sys_ (SClose fd) ;; Ret r).

(** ** sh.c *)

Definition sh_panic {A} (s : list Z) : prog A := fprintf 2 (chars "%s" ++ nl) [str s] ;; do_exit 1.
Definition fork1 : prog Z := pid ← sys SFork; if pid =? -1 then sh_panic (chars "fork") else Ret pid.
(** [pipe(p)] and the two descriptors in [p]. *)
Definition pipe_ : prog (Z * Z) :=
  Call SPipe (fun r => if rv r <? 0 then sh_panic (chars "pipe") else match stored r with [p0; p1] => Ret (p0, p1) | _ => Stuck end).

Fixpoint runcmd (c : cmd) : prog unit :=
  match c with
  | EXEC argv =>
      match argv with
      | [] => do_exit 1
      | a0 :: _ =>
          sys_ (SExec a0 argv) ;;
          fprintf 2 (chars "exec %s failed" ++ nl) [str a0] ;;
          do_exit 0
      end
  | REDIR c' file mode fd =>
      sys_ (SClose fd) ;;
      r ← sys (SOpen file mode);
      if r <? 0 then fprintf 2 (chars "open %s failed" ++ nl) [str file] ;; do_exit 1
      else runcmd c'
  | LIST l r =>
      pid ← fork1;
      if pid =? 0 then runcmd l
      else sys_ SWait ;; runcmd r
  | PIPE l r =>
      p ← pipe_;
      pid ← fork1;
      if pid =? 0 then
        sys_ (SClose 1) ;; sys_ (SDup p.2) ;; sys_ (SClose p.1) ;; sys_ (SClose p.2) ;; runcmd l
      else
        pid ← fork1;
        if pid =? 0 then
          sys_ (SClose 0) ;; sys_ (SDup p.1) ;; sys_ (SClose p.1) ;; sys_ (SClose p.2) ;; runcmd r
        else
          sys_ (SClose p.1) ;; sys_ (SClose p.2) ;; sys_ SWait ;; sys_ SWait ;; do_exit 0
  | BACK c' =>
      pid ← fork1;
      if pid =? 0 then runcmd c' else do_exit 0
  end.

(** The result, and the line. *)
Definition getcmd (nbuf : Z) : prog (Z * list Z) :=
  sys_ (SWrite 2 (chars "$ ")) ;;
  buf ← u_gets nbuf;
  Ret (if default 0 (head buf) =? 0 then -1 else 0, buf).

(** The tree of the line, or the message of [panic]; text that is left over after the
    line was parsed is printed first. *)
Definition run_line (line : list Z) : prog unit :=
  match parsecmd line with
  | Done c _ => runcmd c
  | Panic msg s =>
      match parseline (parse_fuel line) line with
      | Done _ _ => fprintf 2 (chars "leftovers: %s" ++ nl) [str s] ;; sh_panic (chars msg)
      | _ => sh_panic (chars msg)
      end
  | _ => Stuck
  end.
(** Three descriptors are open afterwards. *)
Fixpoint open_console (k : nat) : prog unit :=
  match k with
  | O => Loops
  | S k' =>
      fd ← sys (SOpen (chars "console") O_RDWR);
      if fd <? 0 then Ret tt else if 3 <=? fd then sys_ (SClose fd) else open_console k'
  end.
Fixpoint sh_loop (k : nat) : prog unit :=
  match k with
  | O => Loops
  | S k' =>
      r ← getcmd 100;
      if r.1 <? 0 then do_exit 0
      else
        let line := cstring r.2 in
        if bool_decide (take 3 line = chars "cd ") then
          let dir := drop 3 (take (length line - 1) line) in
          x ← sys (SChdir dir);
          (if x <? 0 then fprintf 2 (chars "cannot cd %s" ++ nl) [str dir] else Ret tt) ;;
          sh_loop k'
        else
          pid ← fork1;
          if pid =? 0 then run_line line
          else sys_ SWait ;; sh_loop k'
  end.
Definition sh_main (k : nat) : prog unit := open_console k ;; sh_loop k.

(** ** init.c *)

(** The inner loop: [true] if the shell exited, [false] on an error. *)
Fixpoint init_wait (k : nat) (pid : Z) : prog bool :=
  match k with
  | O => Loops
  | S k' =>
      wpid ← sys SWait;
      if wpid =? pid then Ret true else if wpid <? 0 then Ret false else init_wait k' pid
  end.
Fixpoint init_loop (k : nat) : prog unit :=
  match k with
  | O => Loops
  | S k' =>
      fprintf 1 (chars "init: starting sh" ++ nl) [] ;;
      pid ← sys SFork;
      if pid <? 0 then fprintf 1 (chars "init: fork failed" ++ nl) [] ;; do_exit 1
      else if pid =? 0 then
        sys_ (SExec (chars "sh") [chars "sh"]) ;;
        fprintf 1 (chars "init: exec sh failed" ++ nl) [] ;;
        do_exit 1
      else
        again ← init_wait k pid;
        if again : bool then init_loop k'
        else fprintf 1 (chars "init: wait returned an error" ++ nl) [] ;; do_exit 1
  end.
Definition init_main (k : nat) : prog unit :=
  fd ← sys (SOpen (chars "console") O_RDWR);
  (if fd <? 0 then
     sys_ (SMknod (chars "console") CONSOLE 0) ;;
     sys_ (SOpen (chars "console") O_RDWR)
   else Ret tt) ;;
  sys_ (SDup 0) ;;
  sys_ (SDup 0) ;;
  init_loop k.

(** ** ls.c *)

(** The part after the last slash. *)
Fixpoint last_part (path : list Z) : list Z :=
  match path with
  | [] => []
  | c :: path' => if bool_decide (47 ∈ path') then last_part path' else if c =? 47 then path' else path
  end.
Definition fmtname (path : list Z) : list Z :=
  let p := last_part path in
  if (DIRSIZ <=? length p)%nat then p else p ++ replicate (DIRSIZ - length p) 32.
(** The fields of [struct stat] in its bytes. *)
Definition st_bytes_ino (st : list Z) : Z := get32 4 st.
Definition st_bytes_type (st : list Z) : Z := i16 (get16 8 st).
Definition st_bytes_size (st : list Z) : Z := le_word (sub 16 8 st).
(** The line of a file; [conv] is the conversion of its size. *)
Definition ls_line (conv : string) (path st : list Z) : prog unit :=
  fprintf 1 (chars "%s %d %d " ++ chars conv ++ nl) [str (fmtname path); AInt (st_bytes_type st); AInt (st_bytes_ino st); AInt (st_bytes_size st)].
Fixpoint ls_loop (k : nat) (fd : Z) (path : list Z) : prog unit :=
  match k with
  | O => Loops
  | S k' =>
      Call (SRead fd dirent_size) (fun r =>
        if negb (rv r =? dirent_size) then Ret tt
        else if de_inum (stored r) =? 0 then ls_loop k' fd path
        else
          let buf := path ++ [47] ++ cstring (de_name (stored r)) in
          st ← u_stat buf;
          (if rv st <? 0 then fprintf 1 (chars "ls: cannot stat %s" ++ nl) [str buf]
           else ls_line "%d" buf (stored st)) ;;
          ls_loop k' fd path)
  end.
Definition ls (k : nat) (path : list Z) : prog unit :=
  fd ← sys (SOpen path 0);
  if fd <? 0 then fprintf 2 (chars "ls: cannot open %s" ++ nl) [str path]
  else
    Call (SFstat fd) (fun st =>
      if rv st <? 0 then fprintf 2 (chars "ls: cannot stat %s" ++ nl) [str path] ;; sys_ (SClose fd)
      else
        (let type := st_bytes_type (stored st) in
         if (type =? T_DEVICE) || (type =? T_FILE) then ls_line "%l" path (stored st)
         else if type =? T_DIR then
           if 512 <? Z.of_nat (length path) + 1 + Z.of_nat DIRSIZ + 1 then fprintf 1 (chars "ls: path too long" ++ nl) []
           else ls_loop k fd path
         else Ret tt) ;;
        sys_ (SClose fd)).
Fixpoint ls_args (k : nat) (args : list (list Z)) : prog unit :=
  match args with [] => do_exit 0 | a :: args' => ls k a ;; ls_args k args' end.
Definition ls_main (k : nat) (argv : list (list Z)) : prog unit :=
  if (length argv <? 2)%nat then ls k (chars ".") ;; do_exit 0 else ls_args k (drop 1 argv).

(** ** The small utilities *)

Definition usage {A} (msg : string) : prog A := fprintf 2 (chars msg ++ nl) [] ;; do_exit 1.

Fixpoint kill_args (args : list (list Z)) : prog unit :=
  match args with [] => do_exit 0 | a :: args' => pid ← atoi_ a; sys_ (SKill pid) ;; kill_args args' end.
Definition kill_main (argv : list (list Z)) : prog unit :=
  if (length argv <? 2)%nat then usage "usage: kill pid..." else kill_args (drop 1 argv).

Definition ln_main (argv : list (list Z)) : prog unit :=
  match argv with
  | [_; old; new] =>
      r ← sys (SLink old new);
      (if r <? 0 then fprintf 2 (chars "link %s %s: failed" ++ nl) [str old; str new] else Ret tt) ;;
      do_exit 0
  | _ => usage "Usage: ln old new"
  end.

Fixpoint mkdir_args (args : list (list Z)) : prog unit :=
  match args with
  | [] => do_exit 0
  | a :: args' =>
      r ← sys (SMkdir a);
      if r <? 0 then fprintf 2 (chars "mkdir: %s failed to create" ++ nl) [str a] ;; do_exit 0 else mkdir_args args'
  end.
Definition mkdir_main (argv : list (list Z)) : prog unit :=
  if (length argv <? 2)%nat then usage "Usage: mkdir files..." else mkdir_args (drop 1 argv).
Fixpoint rm_args (args : list (list Z)) : prog unit :=
  match args with
  | [] => do_exit 0
  | a :: args' =>
      r ← sys (SUnlink a);
      if r <? 0 then fprintf 2 (chars "rm: %s failed to delete" ++ nl) [str a] ;; do_exit 0 else rm_args args'
  end.
Definition rm_main (argv : list (list Z)) : prog unit :=
  if (length argv <? 2)%nat then usage "Usage: rm files..." else rm_args (drop 1 argv).

Definition zombie_main : prog unit :=
  pid ← sys SFork;
  (if 0 <? pid then sys_ (SSleep 5) else Ret tt) ;;
  do_exit 0.

Definition setpriority_main (argv : list (list Z)) : prog unit :=
  match argv with
  | [_; a1; a2] =>
      priority ← atoi_ a1;
      pid ← atoi_ a2;
      prev ← sys (SSet_priority priority pid);
      fprintf 1 (chars "setpriority: Priority of %d changed from %d to %d." ++ nl) [AInt pid; AInt prev; AInt priority] ;;
      do_exit 0
  | _ => usage "usage: setpriority - incorrect number of arguements"
  end.

(** [argv + 1] is the argument vector of the command. The two times are printed whether
    [waitx] succeeded or not. *)
Definition time_main (argv : list (list Z)) : prog unit :=
  pid ← sys SFork;
  if pid <? 0 then fprintf 1 (chars "fork(): failed" ++ nl) [] ;; do_exit 1
  else if pid =? 0 then
    match argv with
    | [_] => sys_ (SSleep 10) ;; do_exit 0
    | _ :: a1 :: args =>
        sys_ (SExec a1 (a1 :: args)) ;;
        fprintf 1 (chars "exec(): failed" ++ nl) [] ;;
        do_exit 1
    | [] => Stuck
    end
  else
    Call SWaitx (fun r =>
      match stored r with
      | [wtime; rtime] =>
          fprintf 1 (nl ++ chars "waiting:%d" ++ nl ++ chars "running:%d" ++ nl) [AInt wtime; AInt rtime] ;;
          do_exit 0
      | _ => Stuck
      end).

Definition traceError (argv : list (list Z)) : prog unit :=
  match argv with
  | _ :: a1 :: _ :: _ =>
      let c := default 0 (head a1) in
      if (c <? 48) || (57 <? c) then fprintf 1 (chars "WRONG FORMAT" ++ nl) [] ;; do_exit 1
      else
        mask ← atoi_ a1;
        r ← sys (STrace mask);
        if r <? 0 then fprintf 1 (chars "TRACE FAILED" ++ nl) [] ;; do_exit 1 else Ret tt
  | _ => fprintf 1 (chars "WRONG FORMAT" ++ nl) [] ;; do_exit 1
  end.
(** [nargv] is not initialised and gets no null pointer at its end: [rest] is what
    [exec] finds in it after the arguments. *)
Definition strace_main (rest argv : list (list Z)) : prog unit :=
  traceError argv ;;
  match drop 2 (take MAXARG argv) with
  | a :: args => sys_ (SExec a ((a :: args) ++ rest)) ;; do_exit 0
  | [] => Stuck
  end.
