(* ===== verification/ShellRun.v ===== *)
(** * Running commands

    What [runcmd] and the shell's main loop do with their descriptors. Every process has
    a table of descriptors, which [fork] copies; a new descriptor is the lowest that
    is free, as [FileRefs] shows of the kernel. Processes are named by their place in the
    tree of forks, open files and pipes by the process that made them, so that the
    result does not depend on the order in which processes run. *)

From S2P Require Import Prelude Printf State Virtio Fs File SysFile FileRefs Shell UserProg.

(** A process: the numbers of the forks that lead to it. *)
Notation pname := (list nat).
(** The file or pipe that a process made, by the number of its [open] or [pipe] call. *)
Notation oid := (list nat * nat)%type.
Inductive obj : Type := Inherited (n : nat) | Opened (id : oid) (path : list Z) (mode : Z) | PipeR (id : oid) | PipeW (id : oid).
Notation fdt := (list (option obj)).

(** What the kernel grants: whether a process can be made, its number, whether a file can be
    opened or executed, the input, and the replies to other calls. *)
Class Kernel : Type := {
  fork_ok : pname -> bool;
  pid_of : pname -> Z;
  pipe_ok : oid -> bool;
  open_ok : oid -> list Z -> Z -> bool;
  exec_ok : list Z -> list (list Z) -> bool;
  reads : pname -> nat -> reply;
  replies : pname -> sysreq -> reply }.
Class KernelOk `{Kernel} : Prop := { pid_pos p : 0 < pid_of p }.

(** What happens, with the process it happens in. *)
Inductive event : Type :=
| EExec (p : pname) (path : list Z) (argv : list (list Z)) (fds : fdt)
| EWait (p : pname) (fds : fdt)
| EExit (p : pname) (status : Z)
| EWrite (p : pname) (o : option obj) (data : list Z)
| ECall (p : pname) (q : sysreq)
| EStuck (p : pname)
| ELoops (p : pname).

Definition fd_get (fds : fdt) (fd : Z) : option obj := if fd <? 0 then None else mjoin (fds !! Z.to_nat fd).
Definition fd_alloc (o : obj) (fds : fdt) : option (nat * fdt) := (fun i => (i, <[i := Some o]> fds)) <$> free_fd fds.
Definition ok (n : Z) : reply := mk_reply n [].

Section run.
Context `{Kernel}.

(** Process [p] has forked [nf] times, made [no] files and pipes, and read [nr] times. The
    events of a child come before the rest of its parent's. *)
Fixpoint run {A} (m : prog A) (p : pname) (nf no nr : nat) (fds : fdt) : list event :=
  match m with
  | Ret _ => []
  | Stuck => [EStuck p]
  | Loops => [ELoops p]
  | Call q k =>
      match q with
      | SFork =>
          let c := p ++ [nf] in
          if fork_ok c then run (k (ok 0)) c 0 0 0 fds ++ run (k (ok (pid_of c))) p (S nf) no nr fds
          else run (k (ok (-1))) p (S nf) no nr fds
      | SExit status => [EExit p status]
      | SWait => EWait p fds :: run (k (replies p q)) p nf no nr fds
      | SRead _ _ => run (k (reads p nr)) p nf no (S nr) fds
      | SWrite fd data => EWrite p (fd_get fds fd) data :: run (k (replies p q)) p nf no nr fds
      | SClose fd =>
          match fd_get fds fd with
          | Some _ => run (k (ok 0)) p nf no nr (<[Z.to_nat fd := None]> fds)
          | None => run (k (ok (-1))) p nf no nr fds
          end
      | SDup fd =>
          match fd_get fds fd with
          | Some o =>
              match fd_alloc o fds with
              | Some (i, fds') => run (k (ok (Z.of_nat i))) p nf no nr fds'
              | None => run (k (ok (-1))) p nf no nr fds
              end
          | None => run (k (ok (-1))) p nf no nr fds
          end
      | SOpen path mode =>
          match (if open_ok (p, no) path mode then fd_alloc (Opened (p, no) path mode) fds else None) with
          | Some (i, fds') => run (k (ok (Z.of_nat i))) p nf (S no) nr fds'
          | None => run (k (ok (-1))) p nf (S no) nr fds
          end
      | SPipe =>
          match (if pipe_ok (p, no) then fd_alloc (PipeR (p, no)) fds else None) with
          | Some (i, fds1) =>
              match fd_alloc (PipeW (p, no)) fds1 with
              | Some (j, fds2) => run (k (mk_reply 0 [Z.of_nat i; Z.of_nat j])) p nf (S no) nr fds2
              | None => run (k (ok (-1))) p nf (S no) nr fds
              end
          | None => run (k (ok (-1))) p nf (S no) nr fds
          end
      | SExec path argv =>
          EExec p path argv fds :: if exec_ok path argv then [] else run (k (ok (-1))) p nf no nr fds
      | _ => ECall p q :: run (k (replies p q)) p nf no nr fds
      end
  end.

(** ** What the commands should see *)

Definition message (p : pname) (fds : fdt) (l : list Z) : list event := (fun c => EWrite p (fd_get fds 2) [c]) <$> l.
Definition panics (p : pname) (fds : fdt) (msg : string) : list event := message p fds (chars msg ++ nl) ++ [EExit p 1].

(** A command with the descriptors [fds]: a redirection replaces one, the sides of a pipe
    get its ends as output and as input, and nothing else changes. *)
Fixpoint wiring (c : cmd) (p : pname) (nf no : nat) (fds : fdt) : list event :=
  match c with
  | EXEC [] => [EExit p 1]
  | EXEC ((a :: _) as argv) =>
      EExec p a argv fds ::
      if exec_ok a argv then [] else message p fds (chars "exec " ++ a ++ chars " failed" ++ nl) ++ [EExit p 0]
  | REDIR c' file mode fd =>
      if open_ok (p, no) file mode then wiring c' p nf (S no) (<[Z.to_nat fd := Some (Opened (p, no) file mode)]> fds)
      else message p fds (chars "open " ++ file ++ chars " failed" ++ nl) ++ [EExit p 1]
  | LIST l r =>
      if fork_ok (p ++ [nf]) then wiring l (p ++ [nf]) 0 0 fds ++ EWait p fds :: wiring r p (S nf) no fds
      else panics p fds "fork"
  | PIPE l r =>
      if pipe_ok (p, no) then
        if fork_ok (p ++ [nf]) then
          wiring l (p ++ [nf]) 0 0 (<[1%nat := Some (PipeW (p, no))]> fds) ++
          if fork_ok (p ++ [S nf]) then
            wiring r (p ++ [S nf]) 0 0 (<[0%nat := Some (PipeR (p, no))]> fds) ++ [EWait p fds; EWait p fds; EExit p 0]
          else panics p fds "fork"
        else panics p fds "fork"
      else panics p fds "pipe"
  | BACK c' =>
      if fork_ok (p ++ [nf]) then wiring c' (p ++ [nf]) 0 0 fds ++ [EExit p 0] else panics p fds "fork"
  end.

(** The three standard descriptors are open, and there is room for a pipe. *)
Record std (fds : fdt) : Prop := {
  std_len : length fds = NOFILE;
  std_open i : (i < 3)%nat -> exists o, fds !! i = Some (Some o);
  std_room : exists i j, (i < j)%nat /\ fds !! i = Some None /\ fds !! j = Some None }.
(** Redirections of input and output, the only ones that the parser makes. *)
Fixpoint redirs_std (c : cmd) : Prop :=
  match c with
  | EXEC _ => True
  | REDIR c' _ _ fd => (fd = 0 \/ fd = 1) /\ redirs_std c'
  | LIST l r | PIPE l r => redirs_std l /\ redirs_std r
  | BACK c' => redirs_std c'
  end.

(** ** Running programs *)

Context `{!KernelOk}.

Lemma run_assoc {A B C} (m : prog A) (f : A -> prog B) (g : B -> prog C) : forall p nf no nr fds,
  run ((m ≫= f) ≫= g) p nf no nr fds = run (m ≫= fun x => f x ≫= g) p nf no nr fds.
Proof.
  induction m as [a|q k IH| |]; intros p nf no nr fds; [done| |done|done].
  change (run (Call q (fun r => (k r ≫= f) ≫= g)) p nf no nr fds = run (Call q (fun r => k r ≫= fun x => f x ≫= g)) p nf no nr fds).
  destruct q; cbn [run]; repeat case_match; rewrite ?IH; done.
Qed.
Lemma run_put {A} fd l (m : prog A) p nf no nr fds :
  run (put fd l ;; m) p nf no nr fds = ((fun c => EWrite p (fd_get fds fd) [c]) <$> l) ++ run m p nf no nr fds.
Proof. induction l as [|c l IH]; [done|]. cbn [put fmap list_fmap app]. by rewrite <- IH. Qed.
Lemma run_fprintf_fd {A} fd fmt ap l (m : prog A) p nf no nr fds :
  vprintf false fmt ap = Some l -> run (fprintf fd fmt ap ;; m) p nf no nr fds = ((fun c => EWrite p (fd_get fds fd) [c]) <$> l) ++ run m p nf no nr fds.
Proof. intros E. unfold fprintf. rewrite E. apply run_put. Qed.
Lemma run_fprintf {A} fmt ap l (m : prog A) p nf no nr fds :
  vprintf false fmt ap = Some l -> run (fprintf 2 fmt ap ;; m) p nf no nr fds = message p fds l ++ run m p nf no nr fds.
Proof. apply run_fprintf_fd. Qed.
Lemma run_panic {A B} msg (k : A -> prog B) p nf no nr fds : run (sh_panic (chars msg) ≫= k) p nf no nr fds = panics p fds msg.
Proof.
  unfold sh_panic. rewrite run_assoc, (run_fprintf _ _ (chars msg ++ nl)); [done|]. change (chars "%s" ++ nl) with [37; 115; 10]. cbn. done.
Qed.
Lemma run_fork1 {A} (k : Z -> prog A) p nf no nr fds :
  run (fork1 ≫= k) p nf no nr fds =
  if fork_ok (p ++ [nf]) then run (k 0) (p ++ [nf]) 0 0 0 fds ++ run (k (pid_of (p ++ [nf]))) p (S nf) no nr fds else panics p fds "fork".
Proof.
  unfold fork1. rewrite run_assoc. cbn [sys mbind prog_bind run]. destruct (fork_ok (p ++ [nf])).
  - cbn [ok rv]. pose proof (pid_pos (p ++ [nf])). by rewrite (proj2 (Z.eqb_neq (pid_of (p ++ [nf])) (-1))) by lia.
  - apply run_panic.
Qed.

(** ** Descriptors *)

Lemma free_fd_is (fds : fdt) i : length fds = NOFILE -> lowest_free fds i -> free_fd fds = Some i.
Proof.
  intros Hl [Hi Hlow]. pose proof (free_fd_lowest fds Hl) as Hf. pose proof (lookup_lt_Some _ _ _ Hi). destruct (free_fd fds) as [j|].
  - destruct Hf as [Hj Hlow']. f_equal. destruct (Nat.lt_trichotomy j i) as [Hlt|[->|Hlt]]; [|done|].
    + destruct (Hlow j Hlt) as [o Ho]. congruence.
    + destruct (Hlow' i Hlt) as [o Ho]. congruence.
  - destruct (Hf i) as [o Ho]; [lia|]. congruence.
Qed.
(** The lowest free descriptor of a table that has one. *)
Lemma fd_alloc_some o (fds : fdt) i : length fds = NOFILE -> fds !! i = Some None ->
  exists j, (j <= i)%nat /\ fd_alloc o fds = Some (j, <[j := Some o]> fds) /\ lowest_free fds j.
Proof.
  intros Hl Hi. unfold fd_alloc. pose proof (free_fd_lowest fds Hl) as Hf. pose proof (lookup_lt_Some _ _ _ Hi).
  destruct (free_fd fds) as [j|]; [|destruct (Hf i) as [x Hx]; [lia|congruence]].
  exists j. split; [|done]. destruct (decide (j <= i)%nat) as [|Hgt]; [done|]. destruct (proj2 Hf i) as [x Hx]; [lia|congruence].
Qed.
(** Closing a standard descriptor makes it the next to be used. *)
Lemma fd_alloc_closed o fds i : length fds = NOFILE -> (forall k, (k < i)%nat -> exists x, fds !! k = Some (Some x)) -> (i < NOFILE)%nat ->
  fd_alloc o (<[i := None]> fds) = Some (i, <[i := Some o]> fds).
Proof.
  intros Hl Hk Hi. unfold fd_alloc. rewrite (free_fd_is _ i); [|by rewrite length_insert|].
  - simpl. by rewrite list_insert_insert_eq.
  - split; [by apply list_lookup_insert_eq; lia|]. intros k Hlt. rewrite list_lookup_insert_ne by lia. by apply Hk.
Qed.
Lemma fd_get_nat fds i : fd_get fds (Z.of_nat i) = mjoin (fds !! i).
Proof. unfold fd_get. rewrite (proj2 (Z.ltb_ge _ _)) by lia. by rewrite Nat2Z.id. Qed.
Lemma std_insert fds i o : std fds -> (i < 3)%nat -> std (<[i := Some o]> fds).
Proof.
  intros [Hl Ho (a & b & Hab & Ha & Hb)] Hi. split; [by rewrite length_insert| |].
  - intros k Hk. destruct (decide (k = i)) as [->|]; [rewrite list_lookup_insert_eq by (rewrite Hl; unfold NOFILE; lia); by eexists|].
    rewrite list_lookup_insert_ne by done. by apply Ho.
  - exists a, b. split; [done|]. rewrite !list_lookup_insert_ne; [done|..]; intros ->; destruct (Ho _ Hi); congruence.
Qed.
Lemma std_get fds i : std fds -> (i < 3)%nat -> exists o, fd_get fds (Z.of_nat i) = Some o.
Proof. intros S Hi. destruct (std_open _ S i Hi) as [o Ho]. exists o. by rewrite fd_get_nat, Ho. Qed.

(** The ends of a new pipe get two descriptors beyond the standard ones. *)
Lemma fd_alloc_pipe r w fds : std fds -> exists i j, fd_alloc r fds = Some (i, <[i := Some r]> fds) /\
  fd_alloc w (<[i := Some r]> fds) = Some (j, <[j := Some w]> (<[i := Some r]> fds)) /\
  (3 <= i)%nat /\ (3 <= j)%nat /\ i <> j /\ fds !! i = Some None /\ fds !! j = Some None.
Proof.
  intros [Hl Ho (a & b & Hab & Ha & Hb)]. destruct (fd_alloc_some r fds a Hl Ha) as (i & Hia & Ei & [Hi _]).
  destruct (fd_alloc_some w (<[i := Some r]> fds) b) as (j & Hjb & Ej & [Hj _]).
  { by rewrite length_insert. }
  { by rewrite list_lookup_insert_ne by lia. }
  assert (i <> j) as Hij. { intros ->. rewrite list_lookup_insert_eq in Hj; [done|]. by eapply lookup_lt_Some. }
  rewrite list_lookup_insert_ne in Hj by done. exists i, j. split; [done|]. split; [done|].
  assert (forall k, fds !! k = Some None -> (3 <= k)%nat) as H3.
  { intros k Hk. destruct (decide (3 <= k)%nat) as [|Hlt]; [done|]. destruct (Ho k) as [o Ho']; [lia|congruence]. }
  split; [by apply H3|]. split; [by apply H3|]. done.
Qed.

Lemma run_close {A} (m : prog A) p nf no nr fds i o :
  fds !! i = Some (Some o) -> run (sys_ (SClose (Z.of_nat i)) ;; m) p nf no nr fds = run m p nf no nr (<[i := None]> fds).
Proof.
  intros Hi. change (run (Call (SClose (Z.of_nat i)) (fun _ => m)) p nf no nr fds = run m p nf no nr (<[i := None]> fds)). cbn [run].
  by rewrite fd_get_nat, Hi, Nat2Z.id.
Qed.
Lemma run_dup {A} (m : prog A) p nf no nr fds i o j :
  fds !! i = Some (Some o) -> fd_alloc o fds = Some (j, <[j := Some o]> fds) ->
  run (sys_ (SDup (Z.of_nat i)) ;; m) p nf no nr fds = run m p nf no nr (<[j := Some o]> fds).
Proof.
  intros Hi Ha. change (run (Call (SDup (Z.of_nat i)) (fun _ => m)) p nf no nr fds = run m p nf no nr (<[j := Some o]> fds)). cbn [run].
  by rewrite fd_get_nat, Hi; cbn [mjoin option_join]; rewrite Ha.
Qed.
(** The table with both ends of a pipe. *)
Definition with_pipe (i j : nat) (r w : obj) (fds : fdt) : fdt := <[j := Some w]> (<[i := Some r]> fds).
Lemma with_pipe_lookup i j r w fds k : i <> j -> (i < length fds)%nat -> (j < length fds)%nat ->
  with_pipe i j r w fds !! k = if decide (k = j) then Some (Some w) else if decide (k = i) then Some (Some r) else fds !! k.
Proof.
  intros Hij Hi Hj. unfold with_pipe. destruct (decide (k = j)) as [->|]; [apply list_lookup_insert_eq; by rewrite length_insert|].
  rewrite list_lookup_insert_ne by done. destruct (decide (k = i)) as [->|]; [by apply list_lookup_insert_eq|]. by rewrite list_lookup_insert_ne.
Qed.
Lemma without_pipe i j r w fds : i <> j -> fds !! i = Some None -> fds !! j = Some None ->
  <[j := None]> (<[i := None]> (with_pipe i j r w fds)) = fds.
Proof.
  intros Hij Hi Hj. unfold with_pipe. rewrite (list_insert_insert_ne _ i j) by done. rewrite list_insert_insert_eq, list_insert_insert_eq.
  rewrite (list_insert_insert_ne _ j i) by done. by rewrite (list_insert_id _ j), (list_insert_id _ i).
Qed.

(** The parent of a pipe closes both ends. *)
Lemma run_close_pipe {A} (m : prog A) p nf no nr fds i j r w :
  i <> j -> fds !! i = Some None -> fds !! j = Some None ->
  run (sys_ (SClose (Z.of_nat i)) ;; sys_ (SClose (Z.of_nat j)) ;; m) p nf no nr (with_pipe i j r w fds) = run m p nf no nr fds.
Proof.
  intros Hij Hi Hj. pose proof (lookup_lt_Some _ _ _ Hi). pose proof (lookup_lt_Some _ _ _ Hj).
  rewrite (run_close _ _ _ _ _ _ _ r) by (rewrite with_pipe_lookup by done; by rewrite decide_False, decide_True).
  rewrite (run_close _ _ _ _ _ _ _ w); [by rewrite without_pipe|].
  rewrite list_lookup_insert_ne, with_pipe_lookup by done. by rewrite decide_True.
Qed.
(** A side of the pipe gets the end at [e] as its descriptor [t]. *)
Lemma run_side {A} (m : prog A) p nf no nr fds i j r w t e o :
  std fds -> (t < 3)%nat -> (3 <= i)%nat -> (3 <= j)%nat -> i <> j -> fds !! i = Some None -> fds !! j = Some None ->
  with_pipe i j r w fds !! e = Some (Some o) -> (3 <= e)%nat ->
  run (sys_ (SClose (Z.of_nat t)) ;; sys_ (SDup (Z.of_nat e)) ;; sys_ (SClose (Z.of_nat i)) ;; sys_ (SClose (Z.of_nat j)) ;; m)
    p nf no nr (with_pipe i j r w fds) = run m p nf no nr (<[t := Some o]> fds).
Proof.
  intros S Ht H3i H3j Hij Hi Hj He H3e. pose proof (lookup_lt_Some _ _ _ Hi). pose proof (lookup_lt_Some _ _ _ Hj). destruct (std_open _ S t Ht) as [x Hx].
  assert (forall k, (k < 3)%nat -> with_pipe i j r w fds !! k = fds !! k) as Hlow by (intros k Hk; rewrite with_pipe_lookup by done; by rewrite !decide_False by lia).
  rewrite (run_close _ _ _ _ _ _ t x) by by rewrite Hlow.
  assert (fd_alloc o (<[t := None]> (with_pipe i j r w fds)) = Some (t, <[t := Some o]> (<[t := None]> (with_pipe i j r w fds)))) as Ea.
  { rewrite list_insert_insert_eq. apply fd_alloc_closed.
    - unfold with_pipe. rewrite !length_insert. by apply S.
    - intros k Hk. rewrite Hlow by lia. apply (std_open _ S). lia.
    - unfold NOFILE. lia. }
  rewrite (run_dup _ _ _ _ _ _ e o t) by (done || by rewrite list_lookup_insert_ne by lia). rewrite list_insert_insert_eq.
  assert (<[t := Some o]> (with_pipe i j r w fds) = with_pipe i j r w (<[t := Some o]> fds)) as ->.
  { unfold with_pipe. by rewrite (list_insert_insert_ne _ t j), (list_insert_insert_ne _ t i) by lia. }
  apply run_close_pipe; [done|by rewrite list_lookup_insert_ne by lia..].
Qed.

(** ** [runcmd] *)

Lemma eqb_pid p : (pid_of p =? 0) = false.
Proof. pose proof (pid_pos p). lia. Qed.

Lemma run_pipe {A} (k : Z * Z -> prog A) p nf no nr fds : std fds -> exists i j,
  (3 <= i)%nat /\ (3 <= j)%nat /\ i <> j /\ fds !! i = Some None /\ fds !! j = Some None /\
  run (pipe_ ≫= k) p nf no nr fds =
  if pipe_ok (p, no) then run (k (Z.of_nat i, Z.of_nat j)) p nf (S no) nr (with_pipe i j (PipeR (p, no)) (PipeW (p, no)) fds) else panics p fds "pipe".
Proof.
  intros S. destruct (fd_alloc_pipe (PipeR (p, no)) (PipeW (p, no)) fds S) as (i & j & Ei & Ej & Hrest). exists i, j.
  split; [apply Hrest|]. split; [apply Hrest|]. split; [apply Hrest|]. split; [apply Hrest|]. split; [apply Hrest|].
  unfold pipe_. cbn [mbind prog_bind run]. destruct (pipe_ok (p, no)); [by rewrite Ei, Ej|]. apply run_panic.
Qed.
Lemma message_std p fds fds' l : fds' !! 2%nat = fds !! 2%nat -> message p fds' l = message p fds l.
Proof. intros E. unfold message, fd_get. change (Z.to_nat 2) with 2%nat. by rewrite E. Qed.

Lemma runcmd_wiring c : forall p nf no nr fds, redirs_std c -> std fds -> run (runcmd c) p nf no nr fds = wiring c p nf no fds.
Proof.
  induction c as [argv|c IH file mode fd|l IHl r IHr|l IHl r IHr|c IH]; intros p nf no nr fds R S.
  - destruct argv as [|a argv]; [done|]. cbn [runcmd wiring]. cbn [sys_ mbind prog_bind run]. f_equal. destruct (exec_ok a (a :: argv)); [done|].
    by apply (run_fprintf _ _ (chars "exec " ++ a ++ chars " failed" ++ nl)).
  - destruct R as [Hfd R]. assert (fd = Z.of_nat (Z.to_nat fd) /\ (Z.to_nat fd < 2)%nat) as [Efd Hlt] by lia. set (t := Z.to_nat fd) in *. rewrite Efd. cbn [runcmd wiring].
    rewrite Nat2Z.id. destruct (std_open _ S t) as [x Hx]; [lia|]. rewrite (run_close _ _ _ _ _ _ _ x) by done. cbn [sys mbind prog_bind run].
    assert (length fds = NOFILE) as Hl by apply S. destruct (open_ok (p, no) file mode).
    + rewrite fd_alloc_closed; [|done|intros k Hk; apply (std_open _ S); lia|unfold NOFILE; lia]. cbn [ok rv].
      rewrite (proj2 (Z.ltb_ge _ 0)) by lia. apply IH; [done|]. apply std_insert; [done|lia].
    + cbn [ok rv Z.ltb Z.compare]. rewrite (run_fprintf _ _ (chars "open " ++ file ++ chars " failed" ++ nl)); [|done].
      rewrite (message_std p fds) by by rewrite list_lookup_insert_ne by lia. done.
  - destruct R as [Rl Rr]. cbn [runcmd wiring].
    match goal with |- run (pipe_ ≫= ?k) _ _ _ _ _ = _ => destruct (run_pipe k p nf no nr fds S) as (i & j & H3i & H3j & Hij & Hi & Hj & ->) end.
    destruct (pipe_ok (p, no)); [|done]. set (R := PipeR (p, no)). set (W := PipeW (p, no)). cbn [fst snd].
    assert (i < length fds /\ j < length fds)%nat as [Hil Hjl] by (split; by eapply lookup_lt_Some).
    assert (with_pipe i j R W fds !! 2%nat = fds !! 2%nat) as H2 by (rewrite with_pipe_lookup by done; by rewrite !decide_False by lia).
    assert (panics p (with_pipe i j R W fds) "fork" = panics p fds "fork") as Hp by (unfold panics; by rewrite (message_std _ fds)).
    rewrite run_fork1, Hp. destruct (fork_ok (p ++ [nf])); [|done]. rewrite Z.eqb_refl, eqb_pid. f_equal.
    { rewrite (run_side _ _ _ _ _ _ i j R W 1 j W); [|done|lia..|done|done|by rewrite with_pipe_lookup, decide_True|lia]. apply IHl; [done|by apply std_insert; [|lia]]. }
    rewrite run_fork1, Hp. destruct (fork_ok (p ++ [Datatypes.S nf])); [|done]. rewrite Z.eqb_refl, eqb_pid. f_equal.
    + rewrite (run_side _ _ _ _ _ _ i j R W 0 i R); [|done|lia..|done|done|by rewrite with_pipe_lookup, decide_False, decide_True|lia]. apply IHr; [done|by apply std_insert; [|lia]].
    + by rewrite run_close_pipe.
  - destruct R as [Rl Rr]. cbn [runcmd wiring]. rewrite run_fork1. destruct (fork_ok (p ++ [nf])); [|done]. rewrite Z.eqb_refl, eqb_pid, IHl by done. f_equal.
    cbn [sys_ mbind prog_bind run]. f_equal. by apply IHr.
  - cbn [runcmd wiring]. rewrite run_fork1. destruct (fork_ok (p ++ [nf])); [|done]. rewrite Z.eqb_refl, eqb_pid, IH by done. done.
Qed.

(** ** Who holds a pipe *)

Definition ev_proc (e : event) : pname :=
  match e with EExec p _ _ _ | EWait p _ | EExit p _ | EWrite p _ _ | ECall p _ | EStuck p | ELoops p => p end.
(** A descriptor of the process is open on [o] when it starts a program or waits. *)
Definition ev_holds (e : event) (o : obj) : Prop := match e with EExec _ _ _ fds | EWait _ fds => Some o ∈ fds | _ => False end.
Definition obj_id (o : obj) : option oid := match o with Inherited _ => None | Opened id _ _ | PipeR id | PipeW id => Some id end.
(** Made by [p] after its first [no] files and pipes, or by a process below it. *)
Definition made_by (p : pname) (no : nat) (o : obj) : Prop := exists q n, obj_id o = Some (q, n) /\ p `prefix_of` q /\ (q = p -> (no <= n)%nat).

Lemma not_message e p fds l o : e ∈ message p fds l -> ev_holds e o -> False.
Proof. intros (c & -> & _)%list_elem_of_fmap. done. Qed.
Lemma not_panics e p fds msg o : e ∈ panics p fds msg -> ev_holds e o -> False.
Proof. unfold panics. rewrite elem_of_app, list_elem_of_singleton. intros [?| ->]; [by eapply not_message|done]. Qed.
Lemma proc_message e p fds l : e ∈ message p fds l -> ev_proc e = p.
Proof. by intros (c & -> & _)%list_elem_of_fmap. Qed.
Lemma proc_panics e p fds msg : e ∈ panics p fds msg -> ev_proc e = p.
Proof. unfold panics. rewrite elem_of_app, list_elem_of_singleton. intros [?| ->]; [by eapply proc_message|done]. Qed.
Lemma made_child p q no o : made_by (p ++ [q]) 0 o -> made_by p no o.
Proof.
  intros (x & n & Ho & [y ->] & _). exists (p ++ [q] ++ y), n. rewrite <- app_assoc in *. split; [done|]. split; [by eexists|].
  intros E. exfalso. apply (f_equal length) in E. rewrite !length_app in E. simpl in E. lia.
Qed.
Lemma made_later p no o : made_by p (S no) o -> made_by p no o.
Proof. intros (x & n & Ho & Hp & Hn). exists x, n. split; [done|]. split; [done|]. intros E. specialize (Hn E). lia. Qed.
Lemma made_now p no o : obj_id o = Some (p, no) -> made_by p no o.
Proof. intros Ho. by exists p, no. Qed.
Lemma elem_of_insert (fds : fdt) i x o : Some o ∈ <[i := Some x]> fds -> o = x \/ Some o ∈ fds.
Proof.
  intros [k Hk]%list_elem_of_lookup. apply list_lookup_insert_Some in Hk as [(_ & E & _)|[_ Hk]]; [left; congruence|right]. by eapply list_elem_of_lookup_2.
Qed.

(** The events of a command are those of its process and the processes below. *)
Lemma wiring_proc c : forall p nf no fds e, e ∈ wiring c p nf no fds -> p `prefix_of` ev_proc e.
Proof.
  assert (forall p q e, (p ++ [q]) `prefix_of` ev_proc e -> p `prefix_of` ev_proc e) as Hc.
  { intros p q e [y Hy]. rewrite Hy, <- app_assoc. by eexists. }
  assert (forall p e, ev_proc e = p -> p `prefix_of` ev_proc e) as Hs by by intros p e ->.
  induction c as [argv|c IH file mode fd|l IHl r IHr|l IHl r IHr|c IH]; intros p nf no fds e; cbn [wiring]; repeat case_match;
    repeat (rewrite elem_of_app || rewrite elem_of_cons || rewrite elem_of_nil); intros He;
    destruct_or? He; subst; try done; eauto using proc_message, proc_panics.
Qed.
(** Its descriptors are those it was given, and on what it made itself. *)
Lemma wiring_holds c : forall p nf no fds e o,
  e ∈ wiring c p nf no fds -> ev_holds e o -> Some o ∈ fds \/ made_by p no o.
Proof.
  induction c as [argv|c IH file mode fd|l IHl r IHr|l IHl r IHr|c IH]; intros p nf no fds e o; cbn [wiring]; repeat case_match;
    repeat (rewrite elem_of_app || rewrite elem_of_cons || rewrite elem_of_nil); intros He Ho;
    destruct_or? He; subst; try done; try (by left);
    try (exfalso; by eauto using not_message, not_panics).
  all: match goal with He : _ ∈ wiring ?c _ _ _ _, IH : context [_ ∈ wiring ?c _ _ _ _] |- _ => destruct (IH _ _ _ _ _ _ He Ho) as [Hin|Hm] end;
    try (apply elem_of_insert in Hin as [->|Hin]); eauto using made_child, made_later, made_now.
Qed.

(** C22. The write end of a pipe is held by the processes of its left side only, and the read end
    by those of its right side only, whatever the sides are. So the reader sees the end
    of the file as soon as the left side is done. *)
Theorem pipe_private l r p nf no nr fds e :
  redirs_std l -> redirs_std r -> std fds -> (forall o, Some o ∈ fds -> obj_id o <> Some (p, no)) ->
  e ∈ run (runcmd (PIPE l r)) p nf no nr fds ->
  (ev_holds e (PipeW (p, no)) -> (p ++ [nf]) `prefix_of` ev_proc e) /\ (ev_holds e (PipeR (p, no)) -> (p ++ [S nf]) `prefix_of` ev_proc e).
Proof.
  intros Rl Rr Hstd Hnew. rewrite runcmd_wiring by done. cbn [wiring].
  assert (forall o, obj_id o = Some (p, no) -> Some o ∈ fds -> False) as Hno by (intros o Ho Hin; by apply (Hnew o Hin)).
  assert (forall q o, obj_id o = Some (p, no) -> made_by (p ++ [q]) 0 o -> False) as Hnm.
  { intros q o Ho (x & n & Hx & [y Hy] & _). rewrite Ho in Hx. injection Hx as -> _. apply (f_equal length) in Hy. rewrite !length_app in Hy. simpl in Hy. lia. }
  assert (forall c q n x o, e ∈ wiring c (p ++ [q]) 0 0 (<[n := Some x]> fds) -> ev_holds e o -> obj_id o = Some (p, no) -> o = x) as Hside.
  { intros c q n x o He Ho Hid. destruct (wiring_holds _ _ _ _ _ _ _ He Ho) as [Hin|Hm]; [|by destruct (Hnm q o)].
    apply elem_of_insert in Hin as [->|Hin]; [done|by destruct (Hno o)]. }
  repeat case_match; repeat (rewrite elem_of_app || rewrite elem_of_cons || rewrite elem_of_nil); intros He; destruct_or? He; subst; try done;
    try (split; intros Ho; exfalso; by eauto using not_panics);
    try (by split; intros []); try (split; intros Ho; exfalso; by (eapply Hno; [|exact Ho]));
    split; intros Ho; pose proof (Hside _ _ _ _ _ He Ho eq_refl); try done; by apply wiring_proc in He.
Qed.

(** ** The main loop *)

(** Every command the parser returns redirects input or output. *)
Definition gives {A} (m : M (list Z) A) (Q : A -> Prop) : Prop := forall s a s', m s = Done a s' -> Q a.
Lemma gives_bind {A B} (m : M (list Z) A) (k : A -> M (list Z) B) Q' Q : gives m Q' -> (forall a, Q' a -> gives (k a) Q) -> gives (bind m k) Q.
Proof. intros Hm Hk s b s' E. unfold bind in E. destruct (m s) as [a s1| | | |] eqn:Em; try done. by eapply Hk; [eapply Hm|]. Qed.
Lemma gives_any {A B} (m : M (list Z) A) (k : A -> M (list Z) B) Q : (forall a, gives (k a) Q) -> gives (bind m k) Q.
Proof. intros Hk. apply (gives_bind _ _ (fun _ => True)); [done|]. intros a _. apply Hk. Qed.
Lemma gives_ret {A} (a : A) (Q : A -> Prop) : Q a -> gives (ret a) Q.
Proof. by intros HQ s b s' [= -> _]. Qed.
Lemma gives_fail {A} (m : M (list Z) A) Q : (forall s, match m s with Done _ _ => False | _ => True end) -> gives m Q.
Proof. intros Hf s a s' E. specialize (Hf s). by rewrite E in Hf. Qed.
Notation redirs_ok := (Forall (fun r : redir => r.2 = 0 \/ r.2 = 1)).
Lemma redirs_loop_std k : gives (redirs_loop k) redirs_ok.
Proof.
  induction k as [|k IH]; cbn [redirs_loop]; [by apply gives_fail|]. apply gives_any. intros [].
  - apply gives_any. intros [tok ?]. apply gives_any. intros [t file]. destruct (negb (t =? 97)); [by apply gives_fail|].
    apply (gives_bind _ _ _ _ IH). intros rs Hrs. apply gives_ret. constructor; [|done]. unfold redir_of. repeat case_match; simpl; lia.
  - by apply gives_ret.
Qed.
Lemma parse_redirs_std : gives parse_redirs redirs_ok.
Proof. unfold parse_redirs. apply gives_any. intros s. apply redirs_loop_std. Qed.
Lemma exec_loop_std k : forall argv rs, redirs_ok rs -> gives (exec_loop k argv rs) (fun r => redirs_ok r.2).
Proof.
  induction k as [|k IH]; intros argv rs Hrs; cbn [exec_loop]; [by apply gives_fail|]. apply gives_any. intros []; [by apply gives_ret|].
  apply gives_any. intros [tok w]. destruct (tok =? 0); [by apply gives_ret|]. destruct (negb (tok =? 97)); [by apply gives_fail|].
  destruct (_ <=? _)%nat; [by apply gives_fail|]. apply (gives_bind _ _ _ _ parse_redirs_std). intros rs' Hrs'. apply IH. by apply Forall_app.
Qed.
Lemma redircmds_std rs : redirs_ok rs -> forall c, redirs_std c -> redirs_std (foldl redircmd c rs).
Proof. induction 1 as [|[[f m] fd] rs Hr Hrs IH]; intros c Hc; [done|]. simpl. apply IH. by split. Qed.
Lemma back_loop_std k : forall c, redirs_std c -> gives (back_loop k c) redirs_std.
Proof.
  induction k as [|k IH]; intros c Hc; cbn [back_loop]; [by apply gives_fail|]. apply gives_any. intros []; [|by apply gives_ret]. apply gives_any. intros _. by apply IH.
Qed.
Lemma parse_std n : gives (parseline n) redirs_std /\ gives (parsepipe n) redirs_std /\ gives (parseexec n) redirs_std /\ gives (parseblock n) redirs_std.
Proof.
  induction n as [|n (IHL & IHP & IHE & IHB)]; cbn [parseline parsepipe parseexec parseblock]; split_and!; try by apply gives_fail.
  - apply (gives_bind _ _ _ _ IHP). intros c Hc. apply gives_any. intros s. apply (gives_bind _ _ _ _ (back_loop_std _ _ Hc)). intros c' Hc'.
    apply gives_any. intros []; [|by apply gives_ret]. apply gives_any. intros _. apply (gives_bind _ _ _ _ IHL). intros r Hr. by apply gives_ret.
  - apply (gives_bind _ _ _ _ IHE). intros c Hc. apply gives_any. intros []; [|by apply gives_ret]. apply gives_any. intros _.
    apply (gives_bind _ _ _ _ IHP). intros r Hr. by apply gives_ret.
  - apply gives_any. intros []; [done|]. unfold parse_args. apply (gives_bind _ _ _ _ parse_redirs_std). intros rs Hrs. apply gives_any. intros s.
    apply (gives_bind _ _ _ _ (exec_loop_std _ _ _ Hrs)). intros [argv rs'] Hrs'. apply gives_ret. by apply redircmds_std.
  - apply gives_any. intros []; cbn [negb]; [|by apply gives_fail]. apply gives_any. intros _. apply (gives_bind _ _ _ _ IHL). intros c Hc.
    apply gives_any. intros []; cbn [negb]; [|by apply gives_fail]. apply gives_any. intros _. unfold parseredirs.
    apply (gives_bind _ _ _ _ parse_redirs_std). intros rs Hrs. apply gives_ret. by apply redircmds_std.
Qed.
Lemma parsecmd_std : gives parsecmd redirs_std.
Proof.
  unfold parsecmd. apply gives_any. intros s. apply (gives_bind _ _ _ _ (proj1 (parse_std _))). intros c Hc. apply gives_any. intros _. apply gives_any.
  intros []; [by apply gives_ret|by apply gives_fail].
Qed.

(** What a child does with a line: the command, or the message of the parser. *)
Definition line_events (line : list Z) (p : pname) (fds : fdt) : list event :=
  match parsecmd line with
  | Done c _ => wiring c p 0 0 fds
  | Panic msg s =>
      match parseline (parse_fuel line) line with
      | Done _ _ => message p fds (chars "leftovers: " ++ s ++ nl) ++ panics p fds msg
      | _ => panics p fds msg
      end
  | _ => []
  end.
Lemma run_line_events line p fds : std fds -> run (run_line line) p 0 0 0 fds = line_events line p fds.
Proof.
  intros Hs. unfold run_line, line_events. pose proof (parsecmd_total line) as He. unfold ends in He.
  destruct (parsecmd line) as [c s'|msg s'| | |] eqn:E; try done.
  - apply runcmd_wiring; [|done]. by eapply parsecmd_std.
  - assert (forall A, run (sh_panic (A := A) (chars msg)) p 0 0 0 fds = panics p fds msg) as Hp.
    { intros A. unfold sh_panic. rewrite (run_fprintf _ _ (chars msg ++ nl)); [done|]. change (chars "%s" ++ nl) with [37; 115; 10]. done. }
    destruct (parseline (parse_fuel line) line); try apply Hp. rewrite (run_fprintf _ _ (chars "leftovers: " ++ s' ++ nl)); [|done]. by rewrite Hp.
Qed.

(** The line that [gets] returns: up to a line end, or as much as fits. *)
Fixpoint get_line (n : nat) (inp : list Z) : list Z :=
  match n, inp with
  | S n', c :: inp' => if (c =? 10) || (c =? 13) then [c] else c :: get_line n' inp'
  | _, _ => []
  end.
(** [inp] is what process [p] has still to read. *)
Definition input (p : pname) (nr : nat) (inp : list Z) : Prop :=
  forall i, reads p (nr + i) = match inp !! i with Some c => mk_reply 1 [c] | None => mk_reply 0 [] end.
Lemma input_drop p nr inp n : input p nr inp -> input p (nr + n) (drop n inp).
Proof. intros Hi i. rewrite <- Nat.add_assoc, Hi, lookup_drop. done. Qed.
Lemma run_gets {A} n : forall inp (k : list Z -> prog A) p nf no nr fds, input p nr inp ->
  exists nr', input p nr' (drop (length (get_line n inp)) inp) /\ run (gets_loop n ≫= k) p nf no nr fds = run (k (get_line n inp)) p nf no nr' fds.
Proof.
  induction n as [|n IH]; intros inp k p nf no nr fds Hi; [by exists nr; rewrite drop_0|]. pose proof (Hi 0%nat) as H0i. rewrite Nat.add_0_r in H0i.
  pose proof (input_drop _ _ _ 1 Hi) as H1i. destruct inp as [|c inp]; cbn [lookup list_lookup] in H0i; cbn [gets_loop mbind prog_bind run get_line].
  - exists (nr + 1)%nat. split; [done|]. rewrite H0i, Nat.add_1_r. done.
  - cbn [drop] in H1i. rewrite drop_0, Nat.add_1_r in H1i. rewrite H0i. cbn [rv stored Z.ltb Z.compare Pos.compare]. cbn. destruct ((c =? 10) || (c =? 13)).
    + exists (S nr). by split.
    + destruct (IH inp (fun l => k (c :: l)) p nf no (S nr) fds H1i) as (nr' & Hi' & E). exists nr'. split; [done|]. rewrite <- E. apply run_assoc.
Qed.

(** A session with the input [inp]: prompt, then the command of the next line, until the
    input ends. A line [cd dir] is the shell's own. *)
Fixpoint session (k : nat) (inp : list Z) (p : pname) (nf : nat) (fds : fdt) : list event :=
  match k with
  | O => [ELoops p]
  | S k' =>
      let buf := get_line 99 inp in
      let line := cstring buf in
      let rest := drop (length buf) inp in
      let dir := drop 3 (take (length line - 1) line) in
      EWrite p (fd_get fds 2) (chars "$ ") ::
      if bool_decide (line = []) then [EExit p 0]
      else if bool_decide (take 3 line = chars "cd ") then
        ECall p (SChdir dir) ::
        (if rv (replies p (SChdir dir)) <? 0 then message p fds (chars "cannot cd " ++ dir ++ nl) else []) ++ session k' rest p nf fds
      else if fork_ok (p ++ [nf]) then line_events line (p ++ [nf]) fds ++ EWait p fds :: session k' rest p (S nf) fds
      else panics p fds "fork"
  end.
Lemma getcmd_eof buf : (if default 0 (head buf) =? 0 then -1 else 0) <? 0 = bool_decide (cstring buf = []).
Proof. destruct buf as [|c buf]; [done|]. simpl. by destruct (c =? 0). Qed.
Lemma run_sh_loop k : forall inp p nf no nr fds, input p nr inp -> std fds -> run (sh_loop k) p nf no nr fds = session k inp p nf fds.
Proof.
  induction k as [|k IH]; intros inp p nf no nr fds Hi Hs; [done|]. cbn [sh_loop session]. unfold getcmd. rewrite run_assoc.
  cbn [sys_ mbind prog_bind run]. f_equal.
  change (u_gets 100) with (gets_loop 99). rewrite run_assoc.
  match goal with |- run (gets_loop 99 ≫= ?f) _ _ _ _ _ = _ => destruct (run_gets 99 inp f p nf no nr fds Hi) as (nr' & Hi' & ->) end.
  cbn [mbind prog_bind fst snd]. rewrite getcmd_eof. set (line := cstring (get_line 99 inp)). set (rest := drop _ inp) in *.
  destruct (bool_decide (line = [])); [done|]. case_bool_decide as Ecd.
  - set (dir := drop 3 _). cbn [sys mbind prog_bind run]. f_equal. destruct (rv (replies p (SChdir dir)) <? 0).
    + rewrite (run_fprintf _ _ (chars "cannot cd " ++ dir ++ nl)); [|done]. f_equal. by eapply IH.
    + by eapply IH.
  - rewrite run_fork1. destruct (fork_ok (p ++ [nf])); [|done]. rewrite Z.eqb_refl, eqb_pid, run_line_events by done. f_equal. cbn [run]. f_equal. by eapply IH.
Qed.

(** More turns than the input has bytes are enough. *)
Lemma session_more k : forall k' inp p nf fds, (length inp < k)%nat -> (length inp < k')%nat -> session k inp p nf fds = session k' inp p nf fds.
Proof.
  induction k as [|k IH]; intros [|k'] inp p nf fds Hk Hk'; try lia. cbn [session]. f_equal. case_bool_decide as E; [done|].
  assert (length (drop (length (get_line 99 inp)) inp) < length inp)%nat as Hl.
  { rewrite length_drop. destruct inp as [|c inp]; [done|]. cbn [get_line]. destruct ((c =? 10) || (c =? 13)); simpl; lia. }
  rewrite (IH k' _ p nf), (IH k' _ p (S nf)) by lia. done.
Qed.
(** With three descriptors open, the descriptor of the console is closed again. *)
Lemma run_open_console {A} (m : prog A) k p nf no nr fds : std fds -> (0 < k)%nat ->
  run (open_console k ;; m) p nf no nr fds = run m p nf (S no) nr fds.
Proof.
  intros Hs Hk. destruct k as [|k]; [lia|]. cbn [open_console]. rewrite run_assoc. cbn [sys mbind prog_bind run]. destruct (open_ok (p, no) (chars "console") O_RDWR); [|done].
  destruct (fd_alloc_pipe (Opened (p, no) (chars "console") O_RDWR) (Inherited 0) fds Hs) as (i & j & Ei & _ & H3 & _ & _ & Hi & _). rewrite Ei. cbn [ok rv].
  rewrite (proj2 (Z.ltb_ge _ 0)), (proj2 (Z.leb_le 3 _)) by lia. pose proof (lookup_lt_Some _ _ _ Hi).
  rewrite (run_close _ _ _ _ _ _ _ (Opened (p, no) (chars "console") O_RDWR)) by by apply list_lookup_insert_eq.
  by rewrite list_insert_insert_eq, list_insert_id.
Qed.

(** [init] starts from no descriptors at all and gives the shell the console as all three,
    making the device first if it is not there; there is room for pipes. *)
Lemma init_starts_sh k (no : nat) : fork_ok [0%nat] = true ->
  (if open_ok ([], 0%nat) (chars "console") O_RDWR then no = 0%nat else no = 1%nat /\ open_ok ([], 1%nat) (chars "console") O_RDWR = true) ->
  let con := Some (Opened ([], no) (chars "console") O_RDWR) in
  let fds := con :: con :: con :: replicate 13 None in
  std fds /\ EExec [0%nat] (chars "sh") [chars "sh"] fds ∈ run (init_main (S k)) [] 0 0 0 (replicate NOFILE None).
Proof.
  intros Hf Ho con fds. split.
  { split; [done| |by exists 3%nat, 4%nat; split; [lia|]]. intros [|[|[|i]]] Hi; [by eexists..|lia]. }
  set (body := sys_ (SDup 0) ;; sys_ (SDup 0) ;; init_loop (S k)).
  assert (forall no', EExec [0%nat] (chars "sh") [chars "sh"] fds ∈ run body [] 0 no' 0 (con :: replicate 15 None)) as Hb.
  { intros no'. unfold body. rewrite (run_dup _ _ _ _ _ _ 0 (Opened ([], no) (chars "console") O_RDWR) 1) by reflexivity.
    rewrite (run_dup _ _ _ _ _ _ 0 (Opened ([], no) (chars "console") O_RDWR) 2) by reflexivity. cbn [insert list_insert replicate]. fold con. cbn [init_loop].
    rewrite (run_fprintf_fd _ _ _ (chars "init: starting sh" ++ nl)) by reflexivity. apply elem_of_app. right. cbn [sys mbind prog_bind run app]. rewrite Hf.
    apply elem_of_app. left. cbn [ok rv Z.ltb Z.compare Z.eqb sys_ mbind prog_bind run]. left. }
  unfold init_main. cbn [sys mbind prog_bind run]. destruct (open_ok ([], 0%nat) (chars "console") O_RDWR).
  - subst no. apply Hb.
  - destruct Ho as [-> Ho]. cbn [ok rv Z.ltb Z.compare sys_ mbind prog_bind run]. right. rewrite Ho. apply Hb.
Qed.

(** C21. The shell reads its input to the end, prompts before every line, and runs each line in
    a child of its own, where every redirection and every pipe replaces exactly the
    descriptor it names, in exactly the commands it applies to, and no other descriptor
    is left open or closed; it waits for the child before the next line. A line that does
    not parse is reported by the child, [cd] is done by the shell, and when a process, a
    pipe, a file or a program is not to be had, the process says so and gives up. *)
Theorem shell_session k inp p nf no nr fds :
  input p nr inp -> std fds -> (length inp < k)%nat ->
  run (sh_main k) p nf no nr fds = session (S (length inp)) inp p nf fds.
Proof.
  intros Hi Hs Hk. unfold sh_main. rewrite run_open_console by (done || lia). rewrite (run_sh_loop k inp) by done. apply session_more; lia.
Qed.
End run.

(** ** A pipeline *)

Definition demo_line : list Z := chars "ls | wc > out" ++ [10].
#[local] Instance demo_kernel : Kernel := {|
  fork_ok _ := true; pid_of p := 1 + Z.of_nat (length p); pipe_ok _ := true; open_ok _ _ _ := true; exec_ok _ _ := true;
  reads _ i := match demo_line !! i with Some c => mk_reply 1 [c] | None => mk_reply 0 [] end;
  replies _ _ := ok 0 |}.
#[local] Instance demo_kernel_ok : KernelOk.
Proof. split. intros p. cbn. lia. Qed.
Definition demo_fds (i o : obj) : fdt := Some i :: Some o :: Some (Inherited 2) :: replicate 13 None.
Lemma demo_fds_std i o : std (demo_fds i o).
Proof.
  split; [done| |by exists 3%nat, 4%nat; split; [lia|]]. intros [|[|[|k]]] Hk; [by eexists..|lia].
Qed.

Lemma shell_session_witness :
  let term := demo_fds (Inherited 0) (Inherited 1) in
  run (sh_main 20) [] 0 0 0 term =
  [EWrite [] (Some (Inherited 2)) (chars "$ ");
   EExec [0; 0]%nat (chars "ls") [chars "ls"] (demo_fds (Inherited 0) (PipeW ([0%nat], 0%nat)));
   EExec [0; 1]%nat (chars "wc") [chars "wc"] (demo_fds (PipeR ([0%nat], 0%nat)) (Opened ([0; 1]%nat, 0%nat) (chars "out") 0x601));
   EWait [0%nat] term; EWait [0%nat] term; EExit [0%nat] 0; EWait [] term;
   EWrite [] (Some (Inherited 2)) (chars "$ "); EExit [] 0].
Proof.
  intros term. rewrite (shell_session 20 demo_line [] 0 0 0 term); [vm_compute; reflexivity|by intros i|apply demo_fds_std|].
  apply Nat.ltb_lt. reflexivity.
Defined.
Lemma pipe_private_witness :
  let e := EExec [0]%nat (chars "ls") [chars "ls"] (demo_fds (Inherited 0) (PipeW ([], 0%nat))) in
  e ∈ run (runcmd (PIPE (EXEC [chars "ls"]) (EXEC [chars "wc"]))) [] 0 0 0 (demo_fds (Inherited 0) (Inherited 1)) /\
  ev_holds e (PipeW ([], 0%nat)) /\ ~ ev_holds e (PipeR ([], 0%nat)).
Proof.
  intros e. assert (e ∈ run (runcmd (PIPE (EXEC [chars "ls"]) (EXEC [chars "wc"]))) [] 0 0 0 (demo_fds (Inherited 0) (Inherited 1))) as He.
  { vm_compute. by left. }
  split; [exact He|]. destruct (pipe_private (EXEC [chars "ls"]) (EXEC [chars "wc"]) [] 0 0 0 (demo_fds (Inherited 0) (Inherited 1)) e) as [_ Hr];
    [done|done|apply demo_fds_std| |exact He|].
  - intros o Ho. unfold demo_fds in Ho. rewrite !elem_of_cons, elem_of_replicate in Ho. by destruct Ho as [[= ->]|[[= ->]|[[= ->]|[? _]]]].
  - split; [right; by left|]. intros Hh. destruct (Hr Hh) as [y Hy]. done.
Defined.
